(* ===== verification/_CoqProject ===== *)
-Q . S2P
Prelude.v
CLib.v
Printf.v
Layout.v
BpfIface.v
Uapi.v
StraceTypes.v
StraceBpf.v
StraceCapture.v
StraceTrace.v
StraceConc.v
StraceProps.v
StraceFmt.v
StraceFmtProps.v
StraceOutput.v
StraceProc.v
Host.v
PollLoop.v
Timeline.v
StraceSkel.v
StraceMain.v
StraceRun.v
StraceLive.v
SoTrace.v
SoMain.v
SoSystem.v
AppTrace.v
AppMain.v
ElfBlob.v
ElfObject.v
BpfInsn.v
BpfMachine.v
ObjMem.v
ObjExec.v
ObjOps.v
ObjExit.v
ObjEnter.v
ObjTrace.v
ObjConc.v
StraceSystem.v
ConcOutput.v
ConcSystem.v
Btf.v
Examples.v
StraceWitness.v
ObjWitness.v
LoaderWitness.v
ConcWitness.v
