(* ===== verification/Prelude.v ===== *)
(** * libbpf_dev: the BPF tracers libbpfstrace, libbpfso and libbpfapp

    ** The programs

    Each tool is a BPF program, run by the kernel at tracepoints or probes, and
    a user-space command that loads it through libbpf and consumes what it
    reports.
    - libbpfstrace (libbpfstrace.bpf.c, libbpfstrace.c, libbpfstrace.h) is an
      strace for one process.  [handle_sys_enter] stores the arguments of a
      system call, with a path or a socket address read from user memory, in
      the hash map [inflight] under the thread's id; [handle_sys_exit] takes
      them out, adds the return value, and submits a [struct syscall_event] to
      the ring buffer [events].  The command takes a process id or waits for a
      process name to appear in /proc, stores it as the filter [target_tgid],
      loads and attaches the object, and prints a line per event until a signal.
    - libbpfso (libbpfso.bpf.c, libbpfso.c) reports calls of android_dlopen_ext
      through a ring buffer.
    - libbpfapp (libbpfapp.bpf.c, libbpfapp.c) prints execve calls to the trace
      pipe, with a hash map as scratch memory.

    ** The files

    Foundations:
    - Prelude: machine integers, C memory and strings, hints and tactics.
    - CLib, Printf: the C library functions the tools call (strcmp, strncmp,
      strcspn, strtol; the printf family on arrays, with the checks that make a
      conversion well typed and in bounds).
    - Layout: structure layout, member reads and writes at offset and width.
    - BpfIface: the BPF helpers as classes of operations with the laws their
      documentation states, and [SmallKernel], an executable instance.
    - Host: libbpf and the system as an environment that answers each call from
      the history so far; the loaders as computations over the log of calls;
      weakest preconditions; the rules of the libraries as an automaton
      ([use], [usage_of]) over the log: what is live, which filter is stored,
      how far the object has come.

    libbpfstrace:
    - Uapi: the system-call table of asm-generic/unistd.h with its conditions,
      errno.h, fcntl.h.
    - StraceTypes: [struct syscall_event] and the socket addresses.
    - StraceBpf: libbpfstrace.bpf.c, one definition per function.
      StraceCapture: what an entry records.  StraceTrace: the call tracker, the
      abstract specification, and its simulation.  StraceProps: the theorems.
      StraceConc: the same programs on several CPUs, as sequences of operations
      on the shared map and ring buffer.
    - StraceFmt: errno_name to handle_event of libbpfstrace.c on C buffers.
      StraceFmtProps: the buffer-free text and the proof that the buffers hold
      it.  StraceOutput: the theorems.
    - StraceProc: parse_pid to find_pid_by_name over snapshots of /proc.
    - PollLoop: the poll loop (shared with libbpfso) and what an observer sees.
      Timeline: programs in the kernel beside a command, connected by a ring
      buffer, for any programs that keep a specification ([Producer],
      [Tracked]).
    - StraceSkel: the functions of the generated libbpfstrace.skel.h.
    - StraceMain, StraceRun: main and its theorems.  StraceLive: the wait for a
      process name ends.
    - ElfBlob, ElfObject: the object file the skeleton embeds, byte for byte, its
      sections, symbols, relocations and control flow.
    - BpfInsn: the instruction encoding (bpf_common.h, bpf.h, the macros of
      filter.h) and its decoder.  BpfMachine: the machine that runs decoded
      instructions, and [exec_program], a program of the object from its bytes.
    - ObjMem: [struct enter_state] as the bytes of a map value.  ObjExec: symbolic
      execution.  ObjOps: what a compiled program does to the map and the ring
      buffer when others change them between its instructions ([does]).  ObjExit,
      ObjEnter: the two programs do the operations of StraceConc.  ObjTrace: the
      theorems about the object, one hit at a time.  ObjConc: its instructions
      interleaved on several CPUs.  ConcOutput: what is reported is printed.
    - StraceSystem: the compiled programs and the command side by side
      (an instance of Timeline), one hit at a time.  ConcSystem: the same with
      interleaved instructions, and programs in progress while the command polls
      (another instance).
    - Btf: the type information of the object (linux/btf.h, bpf/btf.h).

    libbpfso: SoTrace, SoMain, and SoSystem, the two side by side (the third
    instance of Timeline).  libbpfapp: AppTrace, AppMain.

    Examples has concrete kernels and environments; StraceWitness, ObjWitness,
    LoaderWitness and ConcWitness apply the theorems to them.

    ** What the theorems show

    - The whole of libbpfstrace: while the compiled programs run at any tracepoint
      hits, the command returns after a signal, and what it printed, followed by
      what is left in the ring buffer, is exactly the reports of a run of the
      call tracker for the process asked for.  The tracker gets each hit with
      whether the ring buffer had room for an event when it came, and passes over
      a completed call exactly where it had not.  With the instructions of the
      compiled programs interleaved on several CPUs while the command polls, the
      same holds for an order of the hits that keeps the order of each thread; of
      calls still being reported the record may be missing at the end.
    - Kernel half of libbpfstrace: for every interleaving of hits of any threads
      the programs refine the call tracker: a completed call of the traced
      process is reported exactly when the ring buffer has room at its exit, with
      what its entry recorded, and a call is lost at its entry only when the map
      is full; threads do not disturb each other; records are well formed; the
      captured strings and addresses are those of user memory.
    - Several CPUs: however the operations of programs in progress interleave,
      there is an order of the hits, keeping that of each thread, that explains
      what is seen; the calls not reported are those whose record the ring buffer
      refused ([refused], observed at the reservation).  The compiled programs refine this: every interleaving of
      their instructions is an interleaving of the operations of the source; no
      instruction is stuck, the programs in progress execute at most 228
      instructions per program, and all can run to their ends.
    - Printing half: on every record the kernel half can submit, with a return
      value other than the smallest long long, handle_event has no undefined
      behaviour and prints the specified line: the call in full, the return text
      as far as its array of 128 characters holds it (in full for an error message
      of at most 107); the tables of names are right.
    - Process search: parse_pid and process_name_match accept exactly what they
      should; the first matching entry of /proc is found.
    - Commands: given records as the kernel half writes them, main returns after a
      signal, follows the rules of libbpf and gives everything back on every path,
      traces the process asked for and prints every record; exit statuses.
      A process that appears in /proc is found.
    - Skeleton: ownership under allocation failure; agreement with the embedded
      object.
    - Compiled object: its two programs, decoded from the bytes of the skeleton
      and run on the machine, compute what the source functions compute, from
      every kernel state, without a stuck or endless run; so the object refines
      the call tracker, and what it leaves in the ring buffer is printed as the
      lines of completed calls.  Decoding inverts the encoding.  The layouts
      and the maps recorded in its type information are those of the model.
    - The whole of libbpfso: the calls printed, followed by those left in the
      ring buffer, are all the calls that have a name and found room when they
      came, in order.
    - libbpfso, libbpfapp: the scratch map is restored, the commands give
      everything back.
    Some theorems state behaviour that looks unintended: the address captured
    for sendto, O_SYNC printed for O_DSYNC, the exit status after a signal, the
    uninitialised status of libbpfso (when the ring buffer cannot be created, or a
    signal arrives between the installation of the handlers and the first poll),
    its marker of an unreadable name, which has no terminator of its own, the
    negation of the smallest return value, the unused process id of libbpfapp.

    ** Modelling choices and bounds

    Integers are [Z] with the width written out ([uint], [sint]); memory is
    lists of bytes; C undefined behaviour and ill-typed conversions are [None]
    (or [Undefined] for the loaders).  Uninitialised arrays have arbitrary
    contents ([junk]).  The negation of the smallest [int] is undefined ([neg]);
    errors of libbpf and [errno] are error numbers or negated ones ([env_error]).
    A signal counts once both handlers are installed ([installed], [signalled]).
    strerror gives a text that fits the result of snprintf.  An update of a hash
    map fails only for want of room, since the maps of the tools are allocated
    when they are created (BpfHashCapacity).  What a failed
    bpf_probe_read_user_str leaves in its destination is not documented and not
    assumed, except that SoSystem asks of the calls it considers that it leaves
    the cleared array clear ([name_clear]).  The layout and byte order are those of arm64.  In
    StraceTrace, ObjTrace, StraceSystem and SoSystem the BPF programs run to
    completion one hit at a time.  In StraceConc the programs of different threads
    interleave between any two operations on shared objects, in ObjConc between
    any two instructions, at most [cpus] at once and one per thread; records
    become visible in the order of reservation, once they and all before them are
    submitted; the map may be short of room for the programs in progress, so the
    tracker gets a table smaller by [cpus].  In StraceConc the copy of a map value
    into a record is one operation.  In ObjConc every load through the pointer is
    an instruction of its own, on the entry as it is then ([load_shared]); a
    helper call is one instruction.  In ConcSystem the filter is fixed when the
    first program runs, and programs still in progress when the object is
    detached stay where they are.  The command and the kernel interleave at the
    calls of the command: any number of hits or instructions between two calls,
    and a poll takes any number of the oldest records.  The loops of the commands
    have fuel: a loop reads [exiting] once per iteration, so a signal that
    arrives within [N] calls ends them within [N + 1] iterations ([main_returns],
    [so_main_ok]).  A compiled program gets as many steps as it
    has instruction slots, which is enough because its branches go forward; that
    it reaches its exit is part of the theorems.  Other recursion is structural,
    except for digits and table entries, whose fuel is a length or a logarithm.

    The machine is [Stuck] on everything the verifier refuses to load: an access
    outside an object, an uninitialised register, a wrong argument of a helper,
    a record reserved and not submitted.  A pointer is an object and an offset.
    The value a lookup returned is a view of the map entry, which the compiled
    programs only read; when programs interleave the view is taken anew before
    every instruction.  Field offsets are those compiled in.  The byte map
    [inflight] is seen by the source functions through [typed_view].

    ** Not modelled

    libbpf, the kernel and the C library beyond the functions above (interfaces
    with laws); strerror and inet_ntop (parameters); the skeletons of libbpfso
    and libbpfapp, which the repository does not contain; the formatting of
    bpf_printk; the adjustments of field offsets libbpf may make at load time
    (.BTF.ext: neither its format nor the code that applies it is in the
    sources); execution of packet accesses and of calls between functions of an
    object, which no single tracepoint program has; the vendored headers under
    akita-include and ebpf-android-sdk except the constants, types, macros and
    inline functions used; the build.  What is left out is code the repository
    does not contain, or third-party code of which the tools use nothing more. *)

From stdpp Require Import base list gmap strings.
From Stdlib Require Import ZArith Lia.

Declare Scope cbytes_scope.
Delimit Scope cbytes_scope with cbytes.

Create HintDb cmem.
Create HintDb cint.
Create Rewrite HintDb cmem_rw.

Local Open Scope Z_scope.

(** ** Machine integers

    A [w]-bit unsigned value is the representative of its class modulo [2^w]
    in [0, 2^w); a signed one is the representative in [-2^(w-1), 2^(w-1)). *)

Definition uint (w x : Z) : Z := x mod 2 ^ w.

Definition sint (w x : Z) : Z := (x + 2 ^ (w - 1)) mod 2 ^ w - 2 ^ (w - 1).

Definition is_uint (w x : Z) : Prop := 0 <= x < 2 ^ w.

Definition is_sint (w x : Z) : Prop := - 2 ^ (w - 1) <= x < 2 ^ (w - 1).

Definition INT_MAX : Z := 2147483647.
Definition INT_MIN : Z := -2147483648.

Lemma pow2_split w : 0 < w -> 2 ^ w = 2 * 2 ^ (w - 1).
Proof. intros. replace w with (Z.succ (w - 1)) at 1 by lia. rewrite Z.pow_succ_r; lia. Qed.

Lemma uint_range w x : 0 <= w -> is_uint w (uint w x).
Proof. intros. apply Z.mod_pos_bound, Z.pow_pos_nonneg; lia. Qed.

Lemma uint_id w x : is_uint w x -> uint w x = x.
Proof. intros. by apply Z.mod_small. Qed.

Lemma sint_range w x : 0 < w -> is_sint w (sint w x).
Proof.
  intros Hw. unfold is_sint, sint. pose proof (pow2_split w Hw).
  pose proof (Z.mod_pos_bound (x + 2 ^ (w - 1)) (2 ^ w) ltac:(apply Z.pow_pos_nonneg; lia)).
  lia.
Qed.

Lemma sint_id w x : 0 < w -> is_sint w x -> sint w x = x.
Proof.
  unfold is_sint, sint. intros Hw Hx. pose proof (pow2_split w Hw).
  rewrite Z.mod_small; lia.
Qed.

Lemma sint_uint w x : 0 < w -> sint w (uint w x) = sint w x.
Proof.
  intros Hw. unfold sint, uint. f_equal.
  rewrite Zplus_mod_idemp_l. done.
Qed.

Lemma uint_sint w x : 0 < w -> uint w (sint w x) = uint w x.
Proof.
  intros Hw. unfold sint, uint.
  rewrite Zminus_mod_idemp_l. f_equal. lia.
Qed.

#[export] Hint Resolve uint_range sint_range : cint.

(** ** Bytes

    A byte is an integer in [0, 256); a C object of [n] bytes is a list of
    length [n].  [B "..."] is the byte list of a literal, in which a backquote
    stands for the escaped double quote of a C literal. *)

Abbreviation bytes := (list Z).

Definition is_byte (c : Z) : Prop := 0 <= c < 256.

Definition byte_of_ascii (a : Ascii.ascii) : Z :=
  let c := Z.of_N (Ascii.N_of_ascii a) in if c =? 96 then 34 else c.

Fixpoint bytes_of_string (s : string) : bytes :=
  match s with
  | EmptyString => []
  | String a s => byte_of_ascii a :: bytes_of_string s
  end.

Abbreviation B s := (bytes_of_string s%string).
#[global] Arguments bytes_of_string : simpl never.

(** [x] without NUL bytes: what a C string holds before its terminator. *)
Definition nonul (s : bytes) : Prop := Forall (fun c => c <> 0) s.

#[export] Instance nonul_dec s : Decision (nonul s).
Proof. unfold nonul. apply _. Defined.

(** The C string that starts at the head of an object, if it is terminated
    within the object: reading past the end is undefined behaviour. *)
Fixpoint cstr (m : bytes) : option bytes :=
  match m with
  | [] => None
  | c :: m => if c =? 0 then Some [] else (fun s => c :: s) <$> cstr m
  end.

Lemma cstr_app s r : nonul s -> cstr (s ++ 0 :: r) = Some s.
Proof.
  induction 1 as [|c s Hc _ IH]; simpl; [done|].
  destruct (Z.eqb_spec c 0); [done|]. by rewrite IH.
Qed.

Lemma cstr_Some m s : cstr m = Some s <-> nonul s /\ exists r, m = s ++ 0 :: r.
Proof.
  split; [|intros [? [r ->]]; by apply cstr_app].
  revert s. induction m as [|c m IH]; intros s; simpl; [done|].
  destruct (Z.eqb_spec c 0) as [->|Hc].
  - intros [= <-]. split; [constructor|]. by exists m.
  - destruct (cstr m) as [s'|]; simpl; [|done]. intros [= <-].
    destruct (IH s' eq_refl) as [Hn [r ->]]. split; [by constructor|]. by exists r.
Qed.

Lemma nonul_cstr m : nonul m -> cstr m = None.
Proof.
  intros Hm. destruct (cstr m) as [s|] eqn:E; [|done]. apply cstr_Some in E as (_ & r & ->).
  by apply Forall_app in Hm as [_ [? _]%Forall_cons].
Qed.

Lemma cstr_nonul m s : cstr m = Some s -> nonul s.
Proof. intros [? _]%cstr_Some. done. Qed.

Lemma cstr_length m s : cstr m = Some s -> (length s < length m)%nat.
Proof. intros [_ [r ->]]%cstr_Some. rewrite length_app. simpl. lia. Qed.

Lemma nonul_app s t : nonul (s ++ t) <-> nonul s /\ nonul t.
Proof. apply Forall_app. Qed.

#[export] Hint Resolve cstr_nonul : cmem.

(** ** Loads and stores of byte ranges *)

Definition load (off n : nat) (m : bytes) : bytes := take n (drop off m).

Definition store (off : nat) (bs m : bytes) : bytes :=
  take off m ++ bs ++ drop (off + length bs) m.

Lemma drop_store_ge n (bs m : bytes) : (length bs <= n)%nat -> drop n (store 0 bs m) = drop n m.
Proof.
  intros Hn. unfold store. simpl. rewrite drop_app_ge, drop_drop by done. f_equal. lia.
Qed.

Section LoadStore.
Context (off : nat) (bs m : bytes).
Hypothesis in_range : (off + length bs <= length m)%nat.

Lemma length_store : length (store off bs m) = length m.
Proof using in_range.
  unfold store. rewrite !length_app, length_take, length_drop. lia.
Qed.

Lemma load_store_eq : load off (length bs) (store off bs m) = bs.
Proof using in_range.
  unfold load, store. rewrite drop_app_ge by (rewrite length_take; lia).
  rewrite length_take. replace (off - off `min` length m)%nat with 0%nat by lia.
  rewrite drop_0, take_app_length. done.
Qed.

Lemma load_store_before o n :
  (o + n <= off)%nat -> load o n (store off bs m) = load o n m.
Proof using in_range.
  intros. unfold load, store.
  rewrite drop_app_le by (rewrite length_take; lia).
  rewrite take_app_le by (rewrite length_drop, length_take; lia).
  rewrite <- (take_drop off m) at 2.
  rewrite drop_app_le by (rewrite length_take; lia).
  rewrite take_app_le by (rewrite length_drop, length_take; lia). done.
Qed.

Lemma load_store_after o n :
  (off + length bs <= o)%nat -> load o n (store off bs m) = load o n m.
Proof using in_range.
  intros. unfold load, store. rewrite app_assoc.
  rewrite drop_app_ge by (rewrite length_app, length_take; lia).
  rewrite length_app, length_take, drop_drop.
  do 2 f_equal. lia.
Qed.
End LoadStore.

Lemma length_load off n m : (off + n <= length m)%nat -> length (load off n m) = n.
Proof. intros. unfold load. rewrite length_take, length_drop. lia. Qed.

(** ** Little-endian integers *)

Fixpoint le_bytes (n : nat) (z : Z) : bytes :=
  match n with
  | O => []
  | S n => z mod 256 :: le_bytes n (z / 256)
  end.

Fixpoint le_value (bs : bytes) : Z :=
  match bs with
  | [] => 0
  | b :: bs => b + 256 * le_value bs
  end.

Lemma length_le_bytes n z : length (le_bytes n z) = n.
Proof. revert z. induction n; intros z; simpl; auto. Qed.

Lemma le_value_le_bytes n z : le_value (le_bytes n z) = uint (8 * Z.of_nat n) z.
Proof.
  unfold uint. revert z. induction n as [|n IH]; intros z.
  - simpl. by rewrite Z.mod_1_r.
  - cbn [le_bytes le_value]. rewrite IH.
    replace (8 * Z.of_nat (S n)) with (8 + 8 * Z.of_nat n) by lia.
    rewrite Z.pow_add_r by lia. change (2 ^ 8) with 256.
    rewrite Z.rem_mul_r; [lia|lia|apply Z.pow_pos_nonneg; lia].
Qed.

Lemma le_value_range bs :
  Forall is_byte bs -> is_uint (8 * Z.of_nat (length bs)) (le_value bs).
Proof.
  induction 1 as [|b bs Hb _ IH]; [unfold is_uint; simpl; lia|].
  unfold is_uint, is_byte in *. cbn [le_value length].
  replace (8 * Z.of_nat (S (length bs))) with (8 + 8 * Z.of_nat (length bs)) by lia.
  rewrite Z.pow_add_r by lia. change (2 ^ 8) with 256. lia.
Qed.

Lemma le_bytes_byte n z : Forall is_byte (le_bytes n z).
Proof.
  revert z. induction n; intros z; simpl; constructor; auto.
  apply Z.mod_pos_bound. lia.
Qed.

Lemma le_bytes_le_value bs : Forall is_byte bs -> le_bytes (length bs) (le_value bs) = bs.
Proof.
  induction 1 as [|b bs Hb _ IH]; [done|]. unfold is_byte in Hb. cbn [length le_bytes le_value].
  rewrite (Z.mul_comm 256), Z.mod_add, Z.div_add by lia.
  rewrite Z.mod_small, (Z.div_small b) by lia. by rewrite Z.add_0_l, IH.
Qed.

#[export] Hint Resolve le_bytes_byte length_le_bytes : cmem.
#[export] Hint Rewrite length_le_bytes @length_app @length_take @length_drop @length_replicate : cmem_rw.

(** ** Small tactics of the development *)

(** Case analysis on a boolean test of the source, keeping its Prop reading. *)
Ltac ztest :=
  match goal with
  | |- context [Z.eqb ?a ?b] => destruct (Z.eqb_spec a b)
  | |- context [Z.ltb ?a ?b] => destruct (Z.ltb_spec a b)
  | |- context [Z.leb ?a ?b] => destruct (Z.leb_spec a b)
  end.

(** Invert the monadic equations [mbind f o = Some v] in the context. *)
Ltac obind :=
  repeat match goal with
  | H : mbind _ ?o = Some _ |- _ =>
      let E := fresh "E" in destruct o eqn:E; simpl in H; [|discriminate H]
  | H : fmap _ ?o = Some _ |- _ =>
      let E := fresh "E" in destruct o eqn:E; simpl in H; [|discriminate H]
  | H : Some _ = Some _ |- _ => injection H as H; try subst
  end.

(** Evaluate the comparisons of closed integers in the goal. *)
Ltac zeval :=
  repeat match goal with
  | |- context [Z.eqb ?a ?b] =>
      let v := eval vm_compute in (Z.eqb a b) in
      lazymatch v with true => idtac | false => idtac end;
      change (Z.eqb a b) with v; cbv match
  end.
