(* ===== verification/CLib.v ===== *)
(** * The C library functions the tools call

    Models of the ISO C / POSIX routines used by [libbpfstrace.c]: [strlen],
    [strcmp], [strncmp], [strcspn], [strtol], and the [printf] family with the
    conversions that occur in the sources.  C strings are represented by their
    contents (no NUL byte); undefined behaviour is [None]. *)

From stdpp Require Import base list gmap strings.
From Stdlib Require Import ZArith Lia.
From S2P Require Import Prelude.

Local Open Scope Z_scope.

(** ** Characters of a C string *)

(** [s[i]] for a pointer to a C string with contents [s]: the terminator is
    readable, anything beyond it is not. *)
Definition char_at (s : bytes) (i : nat) : option Z :=
  match s !! i with
  | Some c => Some c
  | None => if decide (i = length s) then Some 0 else None
  end.

Fixpoint strcmp (a b : bytes) : Z :=
  match a, b with
  | [], [] => 0
  | [], d :: _ => 0 - d
  | c :: _, [] => c - 0
  | c :: a, d :: b => if c =? d then strcmp a b else c - d
  end.

Fixpoint strncmp (a b : bytes) (n : nat) : Z :=
  match n with
  | O => 0
  | S n =>
      match a, b with
      | [], [] => 0
      | [], d :: _ => 0 - d
      | c :: _, [] => c - 0
      | c :: a, d :: b => if c =? d then strncmp a b n else c - d
      end
  end.

(** [strcspn(s, "\n")]-style span: length of the initial segment without [c]. *)
Fixpoint strcspn1 (s : bytes) (c : Z) : nat :=
  match s with
  | [] => 0
  | d :: s => if d =? c then 0 else S (strcspn1 s c)
  end.

Lemma strcmp_eq a b : nonul a -> nonul b -> strcmp a b = 0 <-> a = b.
Proof.
  intros Ha. revert b. induction Ha as [|c a Hc _ IH]; intros b Hb;
    destruct Hb as [|d b' Hd Hb']; simpl; [done|split; [lia|done]|split; [lia|done]|].
  destruct (Z.eqb_spec c d) as [->|Hne].
  - rewrite IH by done. naive_solver.
  - split; [lia|intros [=]; congruence].
Qed.

(** Comparing as many characters as [a] has decides "[a] is a prefix of [b]". *)
Lemma strncmp_prefix a b :
  nonul a -> nonul b -> strncmp a b (length a) = 0 <-> exists t, b = a ++ t.
Proof.
  intros Ha. revert b. induction Ha as [|c a Hc _ IH]; intros b Hb; simpl.
  - split; [by exists b|done].
  - destruct Hb as [|d b' Hd Hb'].
    { split; [lia|intros [t [=]]]. }
    destruct (Z.eqb_spec c d) as [->|Hne].
    + rewrite IH by done. split; intros [t Ht]; exists t; [by rewrite Ht|by injection Ht].
    + split; [lia|intros [t [=]]; congruence].
Qed.

Lemma char_at_app a t : char_at (a ++ t) (length a) = Some (hd 0 t).
Proof.
  unfold char_at. rewrite lookup_app_r, Nat.sub_diag by lia.
  destruct t; simpl; [|done]. rewrite app_nil_r. by rewrite decide_True.
Qed.

Lemma strcspn1_take s c : take (strcspn1 s c) s = s <-> c ∉ s.
Proof.
  induction s as [|d s IH]; simpl; [set_solver|].
  destruct (Z.eqb_spec d c) as [->|Hne]; simpl.
  - split; [done|set_solver].
  - rewrite not_elem_of_cons. split.
    + intros [= H]. split; [congruence|by apply IH].
    + intros [_ H]. f_equal. by apply IH.
Qed.

Lemma strcspn1_app s c t : c ∉ s -> strcspn1 (s ++ c :: t) c = length s.
Proof.
  induction s as [|d s IH]; simpl; intros Hc.
  - by rewrite Z.eqb_refl.
  - apply not_elem_of_cons in Hc as [Hd Hc].
    destruct (Z.eqb_spec d c); [congruence|]. by rewrite IH.
Qed.

(** The part of [s] before the first [c]. *)
Definition until (c : Z) (s : bytes) : bytes := take (strcspn1 s c) s.

Lemma cstr_until s r : cstr (s ++ 0 :: r) = Some (until 0 s).
Proof.
  unfold until. induction s as [|d s IH]; simpl; [done|].
  destruct (Z.eqb_spec d 0); [done|]. by rewrite IH.
Qed.

Lemma strcspn1_le s c : (strcspn1 s c <= length s)%nat.
Proof. induction s as [|d s IH]; simpl; [lia|]. case_match; lia. Qed.

(** ** Numerals *)

Definition is_space (c : Z) : bool := (c =? 32) || ((9 <=? c) && (c <=? 13)).

Definition is_digit (c : Z) : bool := (48 <=? c) && (c <=? 57).

Definition dec_step (acc c : Z) : Z := 10 * acc + (c - 48).

Definition dec_value (ds : bytes) : Z := fold_left dec_step ds 0.

Fixpoint span {A} (f : A -> bool) (l : list A) : list A * list A :=
  match l with
  | [] => ([], [])
  | x :: l => if f x then let '(a, b) := span f l in (x :: a, b) else ([], x :: l)
  end.

Definition LONG_MAX : Z := 9223372036854775807.
Definition LONG_MIN : Z := -9223372036854775808.

(** [strtol(s, &end, 10)]: white space, a sign, digits.  The result is (value, rest at [end], a conversion was performed,
    [errno] set to [ERANGE]).  [end == s] exactly when no conversion was
    performed. *)
Record strtol_result := StrtolResult {
  st_value : Z;
  st_rest : bytes;
  st_conv : bool;
  st_erange : bool;
}.

Definition strtol_sign (s : bytes) : bool * bytes :=
  match s with
  | c :: s' => if c =? 45 then (true, s') else if c =? 43 then (false, s') else (false, s)
  | [] => (false, s)
  end.

Definition strtol10 (s : bytes) : strtol_result :=
  let '(_, s1) := span is_space s in
  let '(neg, s2) := strtol_sign s1 in
  let '(ds, rest) := span is_digit s2 in
  match ds with
  | [] => StrtolResult 0 s false false
  | _ =>
      let v := if neg then - dec_value ds else dec_value ds in
      if v >? LONG_MAX then StrtolResult LONG_MAX rest true true
      else if v <? LONG_MIN then StrtolResult LONG_MIN rest true true
      else StrtolResult v rest true false
  end.

Lemma span_spec {A} (f : A -> bool) l a b :
  span f l = (a, b) ->
  l = a ++ b /\ Forall (fun x => f x = true) a /\
  match b with [] => True | x :: _ => f x = false end.
Proof.
  revert a b. induction l as [|x l IH]; simpl; intros a b.
  - intros [= <- <-]. done.
  - destruct (f x) eqn:Hx.
    + destruct (span f l) as [a' b'] eqn:E. intros [= <- <-].
      destruct (IH _ _ eq_refl) as (-> & ? & ?). split_and!; auto.
    + intros [= <- <-]. done.
Qed.

Lemma span_app {A} (f : A -> bool) a b :
  Forall (fun x => f x = true) a ->
  match b with [] => True | x :: _ => f x = false end ->
  span f (a ++ b) = (a, b).
Proof.
  induction 1 as [|x a Hx _ IH]; intros Hb; simpl.
  - destruct b as [|y b]; simpl; [done|]. by rewrite Hb.
  - rewrite Hx, IH by done. done.
Qed.

Lemma fold_dec_nonneg ds acc :
  Forall (fun c => is_digit c = true) ds -> 0 <= acc -> acc <= fold_left dec_step ds acc.
Proof.
  intros Hds. revert acc. induction Hds as [|c ds Hc _ IH]; intros acc Ha; simpl; [lia|].
  unfold is_digit in Hc. apply andb_true_iff in Hc as [? ?].
  etransitivity; [|apply IH]; unfold dec_step; lia.
Qed.

Lemma dec_value_nonneg ds : Forall (fun c => is_digit c = true) ds -> 0 <= dec_value ds.
Proof. intros. by apply fold_dec_nonneg. Qed.

Lemma dec_value_snoc ds c : dec_value (ds ++ [c]) = 10 * dec_value ds + (c - 48).
Proof. unfold dec_value. by rewrite fold_left_app. Qed.

(** Digits of a non-negative integer in base [b] (2 to 16), most significant
    first, lower case. *)
Definition digit_char (d : Z) : Z := if d <? 10 then 48 + d else 87 + d.

Fixpoint digits_rev (fuel : nat) (b z : Z) : bytes :=
  match fuel with
  | O => []
  | S fuel =>
      if z <? b then [digit_char z]
      else digit_char (z mod b) :: digits_rev fuel b (z / b)
  end.

Definition digits (b z : Z) : bytes := rev (digits_rev (S (Z.to_nat (Z.log2 z))) b z).

Lemma digits_rev_length fuel b z k :
  2 <= b -> 0 <= z < b ^ Z.of_nat (S k) -> (length (digits_rev fuel b z) <= S k)%nat.
Proof.
  intros Hb. revert z k. induction fuel as [|fuel IH]; intros z k Hz; simpl; [lia|].
  ztest; simpl; [lia|].
  destruct k as [|k]; [rewrite Z.pow_1_r in Hz; lia|].
  apply le_n_S, IH. rewrite Nat2Z.inj_succ, Z.pow_succ_r in Hz by lia.
  split; [apply Z.div_pos; lia|]. apply Z.div_lt_upper_bound; lia.
Qed.

Lemma digits_length b z k :
  2 <= b -> 0 <= z < b ^ Z.of_nat (S k) -> (length (digits b z) <= S k)%nat.
Proof. intros. unfold digits. rewrite length_rev. by apply digits_rev_length. Qed.

Lemma digits_nonempty b z : digits b z <> [].
Proof.
  unfold digits. intros H%(f_equal (@rev Z)). rewrite rev_involutive in H.
  cbn [digits_rev] in H. destruct (z <? b); done.
Qed.

(** Enough fuel: the binary logarithm bounds the number of digits. *)
Lemma digits10_rev_value fuel z :
  0 <= z < 2 ^ Z.of_nat fuel ->
  Forall (fun c => is_digit c = true) (digits_rev fuel 10 z) /\
  dec_value (rev (digits_rev fuel 10 z)) = z.
Proof.
  assert (forall d, 0 <= d < 10 -> digit_char d = 48 + d /\ is_digit (48 + d) = true) as Hd.
  { intros d ?. unfold digit_char, is_digit. destruct (Z.ltb_spec d 10); lia. }
  revert z. induction fuel as [|fuel IH]; intros z Hz.
  - simpl in *. split; [constructor|]. change (dec_value []) with 0. lia.
  - cbn [digits_rev]. ztest.
    + destruct (Hd z ltac:(lia)) as [-> ?]. split; [by constructor|].
      unfold dec_value, dec_step; simpl. lia.
    + pose proof (Z.mod_pos_bound z 10 ltac:(lia)) as Hm.
      destruct (Hd (z mod 10) Hm) as [-> ?].
      destruct (IH (z / 10)) as [? Hv].
      { rewrite Nat2Z.inj_succ, Z.pow_succ_r in Hz by lia.
        split; [apply Z.div_pos; lia|]. apply Z.div_lt_upper_bound; lia. }
      split; [by constructor|]. cbn [rev]. rewrite dec_value_snoc, Hv.
      pose proof (Z.div_mod z 10). lia.
Qed.

Lemma digits10_value z :
  0 <= z -> Forall (fun c => is_digit c = true) (digits 10 z) /\ dec_value (digits 10 z) = z.
Proof.
  intros Hz. unfold digits.
  destruct (digits10_rev_value (S (Z.to_nat (Z.log2 z))) z) as [Hd Hv].
  { rewrite Nat2Z.inj_succ, Z2Nat.id by apply Z.log2_nonneg.
    destruct (decide (z = 0)) as [->|]; [done|].
    pose proof (Z.log2_spec z ltac:(lia)). lia. }
  split; [|done]. by apply Forall_rev.
Qed.
