(* ===== verification/Printf.v ===== *)
(** * The printf family

    [printf]-style formatting with the conversions of the sources
    ([%s %d %u %x %o %%], the [#] flag and the [l]/[ll] length modifiers), and
    [snprintf] into a character array.  A conversion whose argument does not
    have the type the directive asks for, and a store outside the array, are
    undefined behaviour ([None]), so that "the result is [Some _]" states type
    and memory safety of the call. *)

From stdpp Require Import base list gmap strings.
From Stdlib Require Import ZArith Lia.
From S2P Require Import Prelude CLib.

Local Open Scope Z_scope.

(** ** Format strings *)

(** A literal character, or a conversion: [#] flag, number of [l] modifiers,
    conversion character. *)
Inductive directive :=
| DLit (c : Z)
| DConv (alt : bool) (len : nat) (conv : Z).

Definition conv_d : Z := 100.
Definition conv_u : Z := 117.
Definition conv_x : Z := 120.
Definition conv_o : Z := 111.
Definition conv_s : Z := 115.

Definition is_conv (c : Z) : bool :=
  (c =? conv_d) || (c =? conv_u) || (c =? conv_x) || (c =? conv_o) || (c =? conv_s).

(** [st] is [Some (alt, len)] inside a conversion specification. *)
Fixpoint parse_fmt (st : option (bool * nat)) (l : bytes) : option (list directive) :=
  match l with
  | [] => match st with None => Some [] | Some _ => None end
  | c :: l =>
      match st with
      | None =>
          if c =? 37 then parse_fmt (Some (false, O)) l
          else (fun ds => DLit c :: ds) <$> parse_fmt None l
      | Some (alt, len) =>
          if c =? 35 then parse_fmt (Some (true, len)) l
          else if c =? 108 then parse_fmt (Some (alt, S len)) l
          else if c =? 37 then (fun ds => DLit 37 :: ds) <$> parse_fmt None l
          else if is_conv c then (fun ds => DConv alt len c :: ds) <$> parse_fmt None l
          else None
      end
  end.

(** ** Arguments

    An integer argument after the default promotions, with the number of [l]
    of its type ([int] 0, [long] 1, [long long] 2), or a C string. *)
Inductive parg :=
| AInt (len : nat) (z : Z)
| AStr (s : bytes).

Definition len_bits (len : nat) : option Z :=
  match len with
  | 0%nat => Some 32
  | 1%nat | 2%nat => Some 64
  | _ => None
  end.

Definition fmt_signed (z : Z) : bytes :=
  if z <? 0 then 45 :: digits 10 (- z) else digits 10 z.

(** [%#x] prefixes a non-zero value with "0x"; [%#o] raises the precision so
    that the first digit is a zero. *)
Definition fmt_unsigned (alt : bool) (conv z : Z) : bytes :=
  if conv =? conv_x then
    if alt && negb (z =? 0) then 48 :: 120 :: digits 16 z else digits 16 z
  else if conv =? conv_o then
    if alt && negb (z =? 0) then 48 :: digits 8 z else digits 8 z
  else digits 10 z.

(** The value must be representable in the type the directive names; the
    length modifiers must agree. *)
Definition fmt_conv (alt : bool) (len : nat) (conv : Z) (a : parg) : option bytes :=
  match a with
  | AStr s => if (conv =? conv_s) && (len =? 0)%nat then Some s else None
  | AInt alen z =>
      if conv =? conv_s then None
      else if (alen =? len)%nat then
        w ← len_bits len;
        if conv =? conv_d then
          if (- 2 ^ (w - 1) <=? z) && (z <? 2 ^ (w - 1)) then Some (fmt_signed z) else None
        else if (0 <=? z) && (z <? 2 ^ w) then Some (fmt_unsigned alt conv z) else None
      else None
  end.

Fixpoint render (ds : list directive) (args : list parg) : option bytes :=
  match ds with
  | [] => match args with [] => Some [] | _ => None end
  | DLit c :: ds => (fun out => c :: out) <$> render ds args
  | DConv alt len conv :: ds =>
      match args with
      | [] => None
      | a :: args =>
          s ← fmt_conv alt len conv a;
          out ← render ds args;
          Some (s ++ out)
      end
  end.

(** The characters [printf(fmt, args...)] produces. *)
Definition format (fmt : bytes) (args : list parg) : option bytes :=
  ds ← parse_fmt None fmt; render ds args.

(** ** snprintf

    [snprintf_at buf off sz fmt args] is [snprintf(buf + off, sz, fmt, ...)] on
    the array [buf]: at most [sz - 1] characters and a NUL are stored, the
    result is the length of the full output. *)
Definition snprintf_at (buf : bytes) (off sz : Z) (fmt : bytes) (args : list parg)
  : option (bytes * Z) :=
  out ← format fmt args;
  let n := Z.of_nat (length out) in
  if INT_MAX <? n then None
  else if sz =? 0 then Some (buf, n)
  else
    let txt := take (Z.to_nat (Z.min n (sz - 1))) out ++ [0] in
    if (0 <=? off) && (off + Z.of_nat (length txt) <=? Z.of_nat (length buf))
    then Some (store (Z.to_nat off) txt buf, n)
    else None.

Definition snprintf (buf : bytes) (sz : Z) (fmt : bytes) (args : list parg)
  : option (bytes * Z) := snprintf_at buf 0 sz fmt args.

(** ** Output length bounds *)

(** [arg_max conv len a]: how many characters the conversion of [a] may take. *)
Definition conv_max (alt : bool) (len : nat) (conv : Z) (a : parg) : nat :=
  match a with
  | AStr s => length s
  | AInt _ _ =>
      if conv =? conv_x then 18
      else if conv =? conv_o then 23
      else if (len =? 0)%nat then 11 else 20
  end.

Fixpoint render_max (ds : list directive) (args : list parg) : nat :=
  match ds, args with
  | DLit _ :: ds, _ => S (render_max ds args)
  | DConv alt len conv :: ds, a :: args => conv_max alt len conv a + render_max ds args
  | _, _ => 0
  end.

Lemma fmt_unsigned_length alt conv z w :
  w = 32 \/ w = 64 -> 0 <= z < 2 ^ w ->
  (length (fmt_unsigned alt conv z) <=
   if (conv =? conv_x)%Z then 18 else if (conv =? conv_o)%Z then 23
   else if (w =? 32)%Z then 11 else 20)%nat.
Proof.
  intros Hw Hz. unfold fmt_unsigned.
  assert (z < 2 ^ 64) by (destruct Hw; subst w; lia).
  assert (length (digits 16 z) <= 16)%nat by (apply (digits_length 16 z 15); lia).
  assert (length (digits 8 z) <= 22)%nat by (apply (digits_length 8 z 21); lia).
  destruct (conv =? conv_x); [destruct (alt && _); simpl; lia|].
  destruct (conv =? conv_o); [destruct (alt && _); simpl; lia|].
  destruct Hw; subst w; simpl.
  - etransitivity; [apply (digits_length 10 z 9); lia|lia].
  - apply (digits_length 10 z 19); lia.
Qed.

Lemma fmt_signed_length z w :
  w = 32 \/ w = 64 -> - 2 ^ (w - 1) <= z < 2 ^ (w - 1) ->
  (length (fmt_signed z) <= if (w =? 32)%Z then 11 else 20)%nat.
Proof.
  intros Hw Hz. unfold fmt_signed.
  destruct Hw; subst w; simpl in *; ztest; simpl.
  - apply le_n_S, (digits_length 10 (- z) 9); lia.
  - etransitivity; [apply (digits_length 10 z 9); lia|lia].
  - apply le_n_S, (digits_length 10 (- z) 18); lia.
  - etransitivity; [apply (digits_length 10 z 18); lia|lia].
Qed.

Lemma fmt_conv_length alt len conv a s :
  fmt_conv alt len conv a = Some s -> (length s <= conv_max alt len conv a)%nat.
Proof.
  destruct a as [alen z|t]; simpl.
  - destruct (conv =? conv_s); [done|]. destruct (Nat.eqb_spec alen len); [subst alen|done].
    destruct (len_bits len) as [w|] eqn:Hl; simpl; [|done].
    assert ((w = 32 \/ w = 64) /\ (len =? 0)%nat = (w =? 32)) as [Hw ->].
    { destruct len as [|[|[|]]]; simpl in Hl; naive_solver. }
    destruct (Z.eqb_spec conv conv_d) as [->|].
    + simpl. destruct (_ && _) eqn:Hr; intros [= <-].
      apply andb_true_iff in Hr. apply fmt_signed_length; lia.
    + destruct (_ && _) eqn:Hr; intros [= <-].
      apply andb_true_iff in Hr. apply fmt_unsigned_length; lia.
  - destruct (_ && _); [|done]. intros [= <-]. lia.
Qed.

Lemma render_length ds args out :
  render ds args = Some out -> (length out <= render_max ds args)%nat.
Proof.
  revert args out. induction ds as [|[c|alt len conv] ds IH]; intros args out; simpl.
  - destruct args; [|done]. intros [= <-]. simpl. lia.
  - destruct (render ds args) eqn:E; simpl; [|done]. intros [= <-].
    apply IH in E. simpl. lia.
  - destruct args as [|a args]; [done|].
    destruct (fmt_conv alt len conv a) eqn:Ec; simpl; [|done].
    destruct (render ds args) eqn:E; simpl; [|done]. intros [= <-].
    rewrite length_app. apply IH in E. apply fmt_conv_length in Ec. lia.
Qed.

(** Output bound of a call, from its format string. *)
Definition format_max (fmt : bytes) (args : list parg) : nat :=
  match parse_fmt None fmt with Some ds => render_max ds args | None => 0 end.

Lemma format_length fmt args out :
  format fmt args = Some out -> (length out <= format_max fmt args)%nat.
Proof.
  unfold format, format_max. destruct (parse_fmt None fmt); simpl; [|done].
  apply render_length.
Qed.

(** ** Output has no NUL byte *)

Definition arg_nonul (a : parg) : Prop :=
  match a with AInt _ _ => True | AStr s => nonul s end.

Lemma digits_nonul b z : 2 <= b -> 0 <= z -> nonul (digits b z).
Proof.
  intros Hb Hz. unfold digits. apply Forall_rev.
  generalize (S (Z.to_nat (Z.log2 z))) as fuel. intros fuel.
  assert (forall d, 0 <= d -> digit_char d <> 0) as Hd.
  { intros d ?. unfold digit_char. ztest; lia. }
  revert z Hz. induction fuel as [|fuel IH]; intros z Hz; simpl; [constructor|].
  ztest; constructor; try apply Hd; try constructor; try lia.
  - apply Z.mod_pos_bound. lia.
  - apply IH, Z.div_pos; lia.
Qed.

Lemma fmt_conv_nonul alt len conv a s :
  arg_nonul a -> fmt_conv alt len conv a = Some s -> nonul s.
Proof.
  destruct a as [alen z|t]; simpl; intros Ha.
  - destruct (conv =? conv_s); [done|]. destruct (alen =? len)%nat; [|done].
    destruct (len_bits len) as [w|]; simpl; [|done].
    destruct (conv =? conv_d).
    + destruct (_ && _); intros [= <-]. unfold fmt_signed.
      ztest; [constructor; [lia|]|]; apply digits_nonul; lia.
    + destruct (_ && _) eqn:Hr; intros [= <-]. apply andb_true_iff in Hr as [? _].
      assert (0 <= z) by lia. pose proof (digits_nonul 16 z). pose proof (digits_nonul 8 z).
      pose proof (digits_nonul 10 z). unfold fmt_unsigned.
      repeat case_match; repeat constructor; try lia; apply digits_nonul; lia.
  - destruct (_ && _); naive_solver.
Qed.

Lemma parse_fmt_nonul st fmt ds :
  nonul fmt -> parse_fmt st fmt = Some ds ->
  Forall (fun d => match d with DLit c => c <> 0 | DConv _ _ _ => True end) ds.
Proof.
  intros Hf. revert st ds. induction Hf as [|c l Hc Hl IH]; intros st ds; simpl.
  - destruct st; [done|]. intros [= <-]. constructor.
  - destruct st as [[alt len]|]; repeat case_match; intros; try done; obind; eauto;
      constructor; eauto; done.
Qed.

Lemma render_nonul ds args out :
  Forall (fun d => match d with DLit c => c <> 0 | DConv _ _ _ => True end) ds ->
  Forall arg_nonul args -> render ds args = Some out -> nonul out.
Proof.
  intros Hds. revert args out. induction Hds as [|d ds Hd Hds IH]; intros args out Ha; simpl.
  - destruct args; [|done]. intros [= <-]. constructor.
  - destruct d as [c|alt len conv].
    + intros; obind. constructor; [done|by eapply IH].
    + destruct Ha as [|a args Ha Has]; [done|]. intros; obind.
      apply nonul_app; split; eauto using fmt_conv_nonul.
Qed.

Lemma format_nonul fmt args out :
  nonul fmt -> Forall arg_nonul args -> format fmt args = Some out -> nonul out.
Proof. unfold format. intros. obind. eauto using render_nonul, parse_fmt_nonul. Qed.

(** ** What a call stores *)

(** When the output fits, the array holds it as a C string at [off]. *)
Lemma snprintf_at_fits buf off sz fmt args out :
  format fmt args = Some out ->
  0 <= off -> Z.of_nat (length out) < sz -> off + sz <= Z.of_nat (length buf) ->
  Z.of_nat (length out) <= INT_MAX ->
  snprintf_at buf off sz fmt args =
    Some (store (Z.to_nat off) (out ++ [0]) buf, Z.of_nat (length out)).
Proof.
  intros Ho Hoff Hsz Hbuf Hn. unfold snprintf_at. rewrite Ho. simpl.
  destruct (Z.ltb_spec INT_MAX (Z.of_nat (length out))); [lia|].
  destruct (Z.eqb_spec sz 0); [lia|].
  rewrite Z.min_l, Nat2Z.id, firstn_all by lia. rewrite length_app. simpl.
  destruct (Z.leb_spec 0 off); [|lia]. by rewrite (proj2 (Z.leb_le _ _)) by lia.
Qed.

(** Whatever the output, the call stays inside an array of at least [off + sz]
    bytes, keeps its length, and leaves a terminated string at [off]: the
    output cut to [sz - 1] characters. *)
Lemma snprintf_at_safe buf off sz fmt args out :
  format fmt args = Some out ->
  0 <= off -> 0 < sz -> off + sz <= Z.of_nat (length buf) ->
  Z.of_nat (length out) <= INT_MAX ->
  snprintf_at buf off sz fmt args =
    Some (store (Z.to_nat off) (take (Z.to_nat (sz - 1)) out ++ [0]) buf,
          Z.of_nat (length out)).
Proof.
  intros Ho Hoff Hsz Hbuf Hn. unfold snprintf_at. rewrite Ho. simpl.
  destruct (Z.ltb_spec INT_MAX (Z.of_nat (length out))); [lia|].
  destruct (Z.eqb_spec sz 0); [lia|].
  assert (take (Z.to_nat (Z.min (Z.of_nat (length out)) (sz - 1))) out
          = take (Z.to_nat (sz - 1)) out) as ->.
  { destruct (decide (Z.of_nat (length out) <= sz - 1)).
    - rewrite !take_ge; [done|lia|lia].
    - by rewrite Z.min_r by lia. }
  rewrite length_app, length_take. simpl.
  destruct (Z.leb_spec 0 off); [|lia]. by rewrite (proj2 (Z.leb_le _ _)) by lia.
Qed.

Lemma cstr_store_head buf s :
  nonul s -> (length s < length buf)%nat -> cstr (store 0 (s ++ [0]) buf) = Some s.
Proof. intros. unfold store. rewrite take_0. simpl. rewrite <- app_assoc. by apply cstr_app. Qed.

#[export] Hint Resolve digits_nonul cstr_store_head : cmem.

(** ** Well-typed calls *)

(** The argument has the type and range the directive asks for. *)
Definition arg_fits (len : nat) (conv : Z) (a : parg) : Prop :=
  match a with
  | AStr _ => conv = conv_s /\ len = O
  | AInt alen z =>
      conv <> conv_s /\ alen = len /\ (len <= 2)%nat /\
      let w := if (len =? 0)%nat then 32 else 64 in
      if conv =? conv_d then is_sint w z else is_uint w z
  end.

Fixpoint fits (ds : list directive) (args : list parg) : Prop :=
  match ds with
  | [] => args = []
  | DLit _ :: ds => fits ds args
  | DConv _ len conv :: ds =>
      match args with
      | [] => False
      | a :: args => arg_fits len conv a /\ fits ds args
      end
  end.

Lemma fmt_conv_fits alt len conv a : arg_fits len conv a -> is_Some (fmt_conv alt len conv a).
Proof.
  destruct a as [alen z|s]; simpl.
  - intros (Hs & -> & Hl & Hr). destruct (Z.eqb_spec conv conv_s); [done|].
    rewrite Nat.eqb_refl.
    destruct len as [|[|[|]]]; simpl in *; [..|lia];
      destruct (conv =? conv_d); unfold is_sint, is_uint in Hr; simpl in Hr;
      (rewrite (proj2 (andb_true_iff _ _)) by lia); eauto.
  - intros [-> ->]. simpl. eauto.
Qed.

Lemma render_fits ds args : fits ds args -> is_Some (render ds args).
Proof.
  revert args. induction ds as [|[c|alt len conv] ds IH]; intros args; simpl.
  - intros ->. eauto.
  - intros [out ->]%IH. eauto.
  - destruct args as [|a args]; [done|].
    intros [[s ->]%(fmt_conv_fits alt) [out ->]%IH]. simpl. eauto.
Qed.

(** A format and its arguments, ready to print: parsed, well typed, no NUL. *)
Inductive ready (fmt : bytes) (args : list parg) (bound : nat) : Prop :=
| Ready ds :
    parse_fmt None fmt = Some ds -> fits ds args -> nonul fmt -> Forall arg_nonul args ->
    (render_max ds args <= bound)%nat -> ready fmt args bound.

Lemma ready_format fmt args bound :
  ready fmt args bound ->
  exists out, format fmt args = Some out /\ nonul out /\ (length out <= bound)%nat.
Proof.
  intros [ds Hp Hf Hn Ha Hb]. destruct (render_fits _ _ Hf) as [out Hout].
  assert (format fmt args = Some out) as E by (unfold format; rewrite Hp; done).
  exists out. split_and!; [done|by eapply format_nonul|].
  apply render_length in Hout. lia.
Qed.

(** The array holds the C string [s]. *)
Definition holds (buf s : bytes) : Prop := exists rest, buf = s ++ 0 :: rest.

Lemma holds_cstr buf s : nonul s -> holds buf s -> cstr buf = Some s.
Proof. intros Hn [r ->]. by apply cstr_app. Qed.

(** Printing after the string already in an array of [n] characters. *)
Lemma snprintf_append buf n s fmt args out :
  length buf = n -> holds buf s \/ s = [] -> format fmt args = Some out ->
  (length s + length out < n)%nat -> Z.of_nat n <= INT_MAX ->
  exists buf',
    snprintf_at buf (Z.of_nat (length s)) (uint 64 (Z.of_nat n - Z.of_nat (length s))) fmt args
      = Some (buf', Z.of_nat (length out)) /\
    length buf' = n /\ holds buf' (s ++ out).
Proof.
  intros Hl Hh Hf Hlen Hn. unfold INT_MAX in *.
  rewrite uint_id by (unfold is_uint; lia).
  rewrite (snprintf_at_fits _ _ _ _ _ out) by (done || unfold INT_MAX; lia).
  eexists. split; [done|]. rewrite Nat2Z.id. split.
  - rewrite length_store; [done|]. rewrite length_app. simpl. lia.
  - unfold store, holds. rewrite length_app. cbn [length]. eexists.
    assert (take (length s) buf = s) as ->.
    { destruct Hh as [[r ->]| ->]; [by rewrite take_app_length|done]. }
    rewrite <- !app_assoc. done.
Qed.

(** Close a [ready] goal for a concrete format: parse by computation, split the
    typing conditions, bound by computation. *)
Ltac ready_tac :=
  eapply Ready;
  [ vm_compute; reflexivity
  | cbn -[is_uint is_sint];
    repeat match goal with |- _ /\ _ => split end; try (done || lia || eauto with cint)
  | apply (bool_decide_unpack _); vm_compute; exact I
  | repeat constructor; cbn; try done
  | cbn; try lia ].

Lemma snprintf_ready buf n fmt args bound :
  ready fmt args bound -> length buf = n -> (bound < n)%nat -> Z.of_nat n <= INT_MAX ->
  exists buf' out, snprintf buf (Z.of_nat n) fmt args = Some (buf', Z.of_nat (length out)) /\
    format fmt args = Some out /\ cstr buf' = Some out.
Proof.
  intros (out & Hf & Hn & Hb)%ready_format Hl Hlt Hmax.
  destruct (snprintf_append buf n [] fmt args out) as (buf' & Hs & _ & Hh); auto; [simpl; lia|].
  change (Z.of_nat (length (@nil Z))) with 0 in Hs.
  rewrite Z.sub_0_r, uint_id in Hs by (unfold is_uint, INT_MAX in *; lia).
  exists buf', out. unfold snprintf. rewrite Hs. split_and!; [done|done|].
  by apply holds_cstr.
Qed.
