(* ===== verification/Layout.v ===== *)
(** * C structure layout

    Offsets, sizes and alignment of a C structure under the LP64 rules shared
    by the BPF target and aarch64 (natural alignment, tail padding), and reads
    and writes of its members in an object of [sizeof] bytes.  An array member
    that the sources assign element by element is described by its elements. *)

From stdpp Require Import base list gmap strings pretty.
From Stdlib Require Import ZArith Lia.
From S2P Require Import Prelude.

Local Open Scope nat_scope.

Inductive ctype :=
| TInt (n : nat)
| TArr (t : ctype) (k : nat).

Fixpoint ty_size (t : ctype) : nat :=
  match t with TInt n => n | TArr t k => k * ty_size t end.

Fixpoint ty_align (t : ctype) : nat :=
  match t with TInt n => n | TArr t _ => ty_align t end.

Definition align_up (off a : nat) : nat := (off + (a - 1)) / a * a.

Abbreviation fields := (list (string * ctype)).

(** Members with their offsets, from the current offset [off]. *)
Fixpoint place (off : nat) (fs : fields) : list (string * (nat * ctype)) :=
  match fs with
  | [] => []
  | (n, t) :: fs =>
      let o := align_up off (ty_align t) in (n, (o, t)) :: place (o + ty_size t) fs
  end.

Fixpoint place_end (off : nat) (fs : fields) : nat :=
  match fs with
  | [] => off
  | (_, t) :: fs => place_end (align_up off (ty_align t) + ty_size t) fs
  end.

Definition struct_align (fs : fields) : nat := foldr (fun f a => ty_align f.2 `max` a) 1 fs.

(** [sizeof(struct fs)]. *)
Definition struct_size (fs : fields) : nat := align_up (place_end 0 fs) (struct_align fs).

Fixpoint assoc {A} (k : string) (l : list (string * A)) : option A :=
  match l with
  | [] => None
  | (k', v) :: l => if decide (k = k') then Some v else assoc k l
  end.

Definition field_at (fs : fields) (n : string) : option (nat * ctype) := assoc n (place 0 fs).

(** Bytes of member [n], and the object with member [n] overwritten. *)
Definition get_field (fs : fields) (n : string) (m : bytes) : bytes :=
  match field_at fs n with Some (o, t) => load o (ty_size t) m | None => [] end.

Definition set_field (fs : fields) (n : string) (bs m : bytes) : bytes :=
  match field_at fs n with Some (o, t) => store o bs m | None => m end.

Definition field_size (fs : fields) (n : string) : nat :=
  match field_at fs n with Some (_, t) => ty_size t | None => 0 end.

(** An integer member read as unsigned, or assigned (conversion to the width
    of the member keeps the low bytes). *)
Definition get_uint (fs : fields) (n : string) (m : bytes) : Z := le_value (get_field fs n m).

Definition get_sint (fs : fields) (n : string) (m : bytes) : Z :=
  sint (8 * Z.of_nat (field_size fs n)) (get_uint fs n m).

Definition put_int (fs : fields) (n : string) (z : Z) (m : bytes) : bytes :=
  set_field fs n (le_bytes (field_size fs n) z) m.

(** ** Members are in range and disjoint *)

Lemma align_up_ge off a : 0 < a -> off <= align_up off a.
Proof.
  intros. unfold align_up. pose proof (Nat.div_mod_eq (off + (a - 1)) a).
  pose proof (Nat.mod_upper_bound (off + (a - 1)) a). lia.
Qed.

Definition aligned (fs : fields) : Prop := Forall (fun f => 0 < ty_align f.2) fs.

#[export] Instance aligned_dec fs : Decision (aligned fs).
Proof. unfold aligned. apply _. Defined.

Lemma place_end_ge off fs : aligned fs -> off <= place_end off fs.
Proof.
  intros Hal. revert off. induction Hal as [|[n t] fs Ht Hal IH]; intros off; simpl; [lia|].
  pose proof (align_up_ge off (ty_align t) Ht).
  specialize (IH (align_up off (ty_align t) + ty_size t)). lia.
Qed.

Lemma place_range off fs n o t :
  aligned fs -> assoc n (place off fs) = Some (o, t) ->
  off <= o /\ o + ty_size t <= place_end off fs.
Proof.
  intros Hal. revert off. induction Hal as [|[n' t'] fs Ht Hal IH]; intros off; simpl; [done|].
  pose proof (align_up_ge off (ty_align t') Ht).
  pose proof (place_end_ge (align_up off (ty_align t') + ty_size t') fs Hal).
  case_decide; [intros [= <- <-]; lia|]. intros Hr%IH. lia.
Qed.

Lemma place_disjoint off fs n1 o1 t1 n2 o2 t2 :
  aligned fs -> n1 <> n2 ->
  assoc n1 (place off fs) = Some (o1, t1) -> assoc n2 (place off fs) = Some (o2, t2) ->
  o1 + ty_size t1 <= o2 \/ o2 + ty_size t2 <= o1.
Proof.
  intros Hal Hne. revert off.
  induction Hal as [|[n t] fs Ht Hal IH]; intros off; simpl; [done|].
  case_decide as H1; case_decide as H2; [congruence| | |].
  - intros [= <- <-] [? _]%place_range; [lia|done].
  - intros [? _]%place_range [= <- <-]; [lia|done].
  - apply IH.
Qed.

Lemma field_in_struct fs n o t :
  aligned fs -> field_at fs n = Some (o, t) -> o + ty_size t <= struct_size fs.
Proof.
  intros Hal [_ Hr]%place_range; [|done]. etransitivity; [exact Hr|].
  apply align_up_ge. clear. induction fs; simpl; lia.
Qed.

(** ** Reads after writes *)

Section Members.
Context (fs : fields) (fs_aligned : aligned fs).
Context (m : bytes) (m_size : length m = struct_size fs).

Lemma length_set_field n bs :
  length bs = field_size fs n -> length (set_field fs n bs m) = struct_size fs.
Proof using fs_aligned m_size.
  unfold set_field, field_size. destruct (field_at fs n) as [[o t]|] eqn:E; [|done].
  intros Hb. rewrite length_store; [done|]. rewrite Hb, m_size.
  by apply (field_in_struct fs n).
Qed.

Lemma get_set_field_eq n bs :
  length bs = field_size fs n -> get_field fs n (set_field fs n bs m) = bs.
Proof using fs_aligned m_size.
  unfold get_field, set_field, field_size.
  destruct (field_at fs n) as [[o t]|] eqn:E; [|intros; symmetry; by apply nil_length_inv].
  intros Hb. rewrite <- Hb at 1. apply load_store_eq. rewrite Hb, m_size.
  by apply (field_in_struct fs n).
Qed.

Lemma get_set_field_ne n n' bs :
  n <> n' -> length bs = field_size fs n' ->
  get_field fs n (set_field fs n' bs m) = get_field fs n m.
Proof using fs_aligned m_size.
  intros Hne. unfold get_field, set_field, field_size.
  destruct (field_at fs n) as [[o t]|] eqn:E, (field_at fs n') as [[o' t']|] eqn:E'; try done.
  intros Hb. pose proof (field_in_struct fs n' _ _ fs_aligned E').
  destruct (place_disjoint 0 fs n o t n' o' t' fs_aligned Hne E E').
  - apply load_store_before; lia.
  - apply load_store_after; lia.
Qed.

Lemma length_put_int n z : length (put_int fs n z m) = struct_size fs.
Proof using fs_aligned m_size. apply length_set_field, length_le_bytes. Qed.

Lemma get_put_uint n z :
  get_uint fs n (put_int fs n z m) = uint (8 * Z.of_nat (field_size fs n)) z.
Proof using fs_aligned m_size.
  unfold get_uint, put_int. rewrite get_set_field_eq by apply length_le_bytes.
  apply le_value_le_bytes.
Qed.

Lemma get_put_field_ne n n' z :
  n <> n' -> get_field fs n (put_int fs n' z m) = get_field fs n m.
Proof using fs_aligned m_size. intros. apply get_set_field_ne, length_le_bytes. done. Qed.
End Members.

(** A described array member: [k] elements of type [t]. *)
Definition elem_name (n : string) (i : nat) : string := (n +:+ "[" +:+ pretty i +:+ "]")%string.

Definition elems (n : string) (t : ctype) (k : nat) : fields :=
  (fun i => (elem_name n i, t)) <$> seq 0 k.

(** ** Sequences of member assignments *)

Definition apply_writes (fs : fields) (ws : list (string * bytes)) (m : bytes) : bytes :=
  foldl (fun m w => set_field fs w.1 w.2 m) m ws.

Definition writes_fit (fs : fields) (ws : list (string * bytes)) : Prop :=
  Forall (fun w => length w.2 = field_size fs w.1) ws.

Section Writes.
Context (fs : fields) (fs_aligned : aligned fs).

Lemma length_apply_writes ws m :
  length m = struct_size fs -> writes_fit fs ws ->
  length (apply_writes fs ws m) = struct_size fs.
Proof using fs_aligned.
  intros Hm Hws. revert m Hm. induction Hws as [|[n bs] ws Hw Hws IH]; intros m Hm; simpl; [done|].
  by apply IH, length_set_field.
Qed.

Lemma get_apply_writes_ne ws m n :
  length m = struct_size fs -> writes_fit fs ws -> n ∉ ws.*1 ->
  get_field fs n (apply_writes fs ws m) = get_field fs n m.
Proof using fs_aligned.
  intros Hm Hws. revert m Hm. induction Hws as [|[n' bs] ws Hw Hws IH]; intros m Hm Hn; simpl; [done|].
  apply not_elem_of_cons in Hn as [Hne Hn]. simpl in *.
  etransitivity; [apply IH; [by apply length_set_field|done]|]. by apply get_set_field_ne.
Qed.

(** A member assigned exactly once holds the assigned bytes, whatever the
    object held before and wherever in the sequence the assignment is. *)
Lemma get_apply_writes ws m n bs :
  length m = struct_size fs -> writes_fit fs ws -> NoDup (ws.*1) ->
  assoc n ws = Some bs -> get_field fs n (apply_writes fs ws m) = bs.
Proof using fs_aligned.
  intros Hm Hws. revert m Hm.
  induction Hws as [|[n' bs'] ws Hw Hws IH]; intros m Hm; [done|]. simpl in *.
  intros [Hnd Hnd']%NoDup_cons. pose proof (length_set_field fs fs_aligned m Hm n' bs' Hw).
  case_decide as Hn; [subst n'; intros [= ->]|by apply IH].
  rewrite get_apply_writes_ne by done. by apply get_set_field_eq.
Qed.
End Writes.

Section Values.
Context (fs : fields) (fs_aligned : aligned fs).
Context (m : bytes) (m_size : length m = struct_size fs).

Lemma length_get_field n : length (get_field fs n m) = field_size fs n.
Proof using fs_aligned m_size.
  unfold get_field, field_size. destruct (field_at fs n) as [[o t]|] eqn:E; [|done].
  apply length_load. rewrite m_size. by apply (field_in_struct fs n).
Qed.

Lemma get_field_byte n : Forall is_byte m -> Forall is_byte (get_field fs n m).
Proof using Type.
  intros. unfold get_field. destruct (field_at fs n) as [[o t]|]; [|constructor].
  by apply Forall_take, Forall_drop.
Qed.

Lemma get_uint_range n w :
  Forall is_byte m -> (8 * Z.of_nat (field_size fs n))%Z = w -> is_uint w (get_uint fs n m).
Proof using fs_aligned m_size.
  intros Hb <-. unfold get_uint. rewrite <- length_get_field.
  by apply le_value_range, get_field_byte.
Qed.

(** The bytes of an integer member are its little-endian representation. *)
Lemma get_field_le n :
  Forall is_byte m -> get_field fs n m = le_bytes (field_size fs n) (get_uint fs n m).
Proof using fs_aligned m_size.
  intros Hb. unfold get_uint. rewrite <- length_get_field.
  symmetry. by apply le_bytes_le_value, get_field_byte.
Qed.

Lemma lookup_get_field n o t i :
  field_at fs n = Some (o, t) -> i < ty_size t -> get_field fs n m !! i = m !! (o + i).
Proof using Type.
  intros E Hi. unfold get_field. rewrite E. unfold load.
  rewrite lookup_take_lt by done. apply lookup_drop.
Qed.
End Values.
