(* ===== verification/BpfIface.v ===== *)
(** * What the BPF programs get from the kernel

    The helpers are kernel code that is not part of the repository: each group
    is a class of operations with the laws its documentation states
    (ebpf-android-sdk/include/linux/bpf.h, the comments "bpf_map_lookup_elem",
    "bpf_map_update_elem", "bpf_map_delete_elem", "bpf_probe_read_user",
    "bpf_probe_read_user_str", "bpf_get_current_comm",
    "bpf_get_current_pid_tgid", "bpf_ringbuf_reserve", "bpf_ringbuf_submit").
    The programs' theorems are proved against the classes; a small executable
    kernel at the end of the file is an instance of each. *)

From stdpp Require Import base list gmap strings.
From Stdlib Require Import ZArith Lia.
From S2P Require Import Prelude.

Local Open Scope Z_scope.

Definition BPF_ANY : Z := 0.
Definition BPF_NOEXIST : Z := 1.

(** ** The current task and its user memory *)

Class BpfTask (T : Type) := {
  get_current_pid_tgid : T -> Z;
  get_current_uid_gid : T -> Z;
  (** result and contents of the buffer of the given size *)
  get_current_comm : T -> nat -> Z * bytes;
  (** result and contents of the destination: size, address *)
  probe_read_user : T -> nat -> Z -> Z * bytes;
  (** result and contents of the destination: old destination, size, address *)
  probe_read_user_str : T -> bytes -> nat -> Z -> Z * bytes;
  (** the user memory the two reads look at *)
  user_byte : T -> Z -> option Z;
}.

Class BpfTaskLaws (T : Type) `{BpfTask T} := {
  pid_tgid_u64 t : is_uint 64 (get_current_pid_tgid t);
  uid_gid_u64 t : is_uint 64 (get_current_uid_gid t);
  comm_length t n : length (get_current_comm t n).2 = n;
  comm_byte t n : Forall is_byte (get_current_comm t n).2;
  (** NUL-terminated on success, all zeroes on failure *)
  comm_terminated t n : (0 < n)%nat -> 0 ∈ (get_current_comm t n).2;
  read_user_result t n a : (probe_read_user t n a).1 = 0 \/ (probe_read_user t n a).1 < 0;
  read_user_length t n a : length (probe_read_user t n a).2 = n;
  read_user_byte t n a : Forall is_byte (probe_read_user t n a).2;
  read_user_ok t n a i :
    (probe_read_user t n a).1 = 0 -> (i < n)%nat ->
    user_byte t (a + Z.of_nat i) = (probe_read_user t n a).2 !! i;
  read_str_length t dst n a :
    (n <= length dst)%nat -> length (probe_read_user_str t dst n a).2 = length dst;
  read_str_byte t dst n a :
    Forall is_byte dst -> Forall is_byte (probe_read_user_str t dst n a).2;
  (** nothing past [n] bytes is written; what an error leaves in them is not
      documented, and not assumed *)
  read_str_frame t dst n a :
    (n <= length dst)%nat -> drop n (probe_read_user_str t dst n a).2 = drop n dst;
  (** an error is a negative errno *)
  read_str_errno t dst n a : -4095 <= (probe_read_user_str t dst n a).1;
  read_str_ok t dst n a :
    (0 < n <= length dst)%nat -> 0 <= (probe_read_user_str t dst n a).1 ->
    exists s, nonul s /\ (length s < n)%nat /\
      (probe_read_user_str t dst n a).1 = Z.of_nat (S (length s)) /\
      (probe_read_user_str t dst n a).2 = s ++ 0 :: drop (S (length s)) dst /\
      (forall i, (i < length s)%nat -> user_byte t (a + Z.of_nat i) = s !! i) /\
      ((S (length s) < n)%nat -> user_byte t (a + Z.of_nat (length s)) = Some 0);
}.

(** ** Hash maps

    A lookup returns a pointer into the map: [hassign] is the store through a
    pointer obtained for a key that is present. *)

Class BpfHash (K V M : Type) := {
  hlookup : M -> K -> option V;
  hupdate : M -> K -> V -> Z -> Z * M;
  hdelete : M -> K -> Z * M;
  hassign : M -> K -> V -> M;
}.

Class BpfHashLaws (K V M : Type) `{EqDecision K} `{BpfHash K V M} := {
  hupdate_result m k v f : (hupdate m k v f).1 = 0 \/ (hupdate m k v f).1 < 0;
  hupdate_ok m k v f k' :
    (hupdate m k v f).1 = 0 ->
    hlookup (hupdate m k v f).2 k' = if decide (k = k') then Some v else hlookup m k';
  hupdate_fail m k v f k' :
    (hupdate m k v f).1 <> 0 -> hlookup (hupdate m k v f).2 k' = hlookup m k';
  hupdate_noexist m k v v' :
    hlookup m k = Some v' -> (hupdate m k v BPF_NOEXIST).1 < 0;
  hdelete_result m k : (hdelete m k).1 = 0 \/ (hdelete m k).1 < 0;
  hdelete_ok m k k' :
    (hdelete m k).1 = 0 ->
    hlookup (hdelete m k).2 k' = if decide (k = k') then None else hlookup m k';
  hdelete_fail m k k' :
    (hdelete m k).1 <> 0 -> hlookup (hdelete m k).2 k' = hlookup m k';
  hassign_lookup m k v v0 k' :
    hlookup m k = Some v0 ->
    hlookup (hassign m k v) k' = if decide (k = k') then Some v else hlookup m k';
}.

(** A map with its entries allocated when it is created, as those of the tools are
    (their definitions have no [map_flags]; [BPF_F_NO_PREALLOC] is the flag that
    allocates at the update): an update needs no memory, so it fails only when a
    new entry would exceed [max_entries] (or, with [BPF_NOEXIST], when there is
    one), and a deletion only when there is no entry. *)
Class BpfHashCapacity (K V M : Type) `{EqDecision K} `{BpfHash K V M} := {
  hcount : M -> nat;
  hmax : M -> nat;
  hmax_update m k v f : hmax (hupdate m k v f).2 = hmax m;
  hmax_delete m k : hmax (hdelete m k).2 = hmax m;
  hcount_update_new m k v f :
    (hupdate m k v f).1 = 0 -> hlookup m k = None ->
    hcount (hupdate m k v f).2 = S (hcount m);
  hcount_update_old m k v f :
    is_Some (hlookup m k) -> hcount (hupdate m k v f).2 = hcount m;
  hcount_update_fail m k v f :
    (hupdate m k v f).1 <> 0 -> hcount (hupdate m k v f).2 = hcount m;
  hcount_delete m k :
    is_Some (hlookup m k) -> hcount m = S (hcount (hdelete m k).2);
  hupdate_any_room m k v :
    is_Some (hlookup m k) \/ (hcount m < hmax m)%nat -> (hupdate m k v BPF_ANY).1 = 0;
  hupdate_any_full m k v :
    hlookup m k = None -> (hmax m <= hcount m)%nat -> (hupdate m k v BPF_ANY).1 < 0;
  hupdate_noexist_room m k v :
    hlookup m k = None -> (hcount m < hmax m)%nat -> (hupdate m k v BPF_NOEXIST).1 = 0;
  hdelete_present m k : is_Some (hlookup m k) -> (hdelete m k).1 = 0;
}.

(** ** Ring buffers

    [rb_records] are the submitted records the consumer has not taken yet, in
    submission order.  A reserved record is uninitialised memory. *)

Class BpfRingbuf (R : Type) := {
  rb_reserve : R -> nat -> option (bytes * R);
  rb_submit : R -> bytes -> R;
  rb_records : R -> list bytes;
}.

Class BpfRingbufLaws (R : Type) `{BpfRingbuf R} := {
  rb_reserve_length r n slot r' : rb_reserve r n = Some (slot, r') -> length slot = n;
  rb_reserve_byte r n slot r' : rb_reserve r n = Some (slot, r') -> Forall is_byte slot;
  rb_reserve_records r n slot r' :
    rb_reserve r n = Some (slot, r') -> rb_records r' = rb_records r;
  rb_submit_records r bs : rb_records (rb_submit r bs) = rb_records r ++ [bs];
}.

(** The consumer takes the oldest records. *)
Class BpfRingbufTake (R : Type) `{BpfRingbuf R} := {
  rb_take : R -> nat -> R;
  rb_take_records r n : rb_records (rb_take r n) = drop n (rb_records r);
}.

(** ** An executable kernel *)

Module SmallKernel.

(** A task: ids, command name, user memory. *)
Record task := Task {
  tk_pid_tgid : Z;
  tk_uid_gid : Z;
  tk_comm : bytes;
  tk_mem : gmap Z Z;
}.

Definition EFAULT_ret : Z := -14.

Definition mem_byte (m : gmap Z Z) (a : Z) : option Z := (fun c => uint 8 c) <$> m !! a.

Fixpoint read_mem (m : gmap Z Z) (a : Z) (n : nat) : option bytes :=
  match n with
  | O => Some []
  | S n => c ← mem_byte m a; bs ← read_mem m (a + 1) n; Some (c :: bs)
  end.

(** The string at [a], at most [n] characters of it. *)
Fixpoint read_str (m : gmap Z Z) (a : Z) (n : nat) : option bytes :=
  match n with
  | O => Some []
  | S n =>
      c ← mem_byte m a;
      if c =? 0 then Some [] else (fun s => c :: s) <$> read_str m (a + 1) n
  end.

#[export] Instance task_ops : BpfTask task := {|
  get_current_pid_tgid t := uint 64 (tk_pid_tgid t);
  get_current_uid_gid t := uint 64 (tk_uid_gid t);
  get_current_comm t n :=
    let c := take (pred n) (uint 8 <$> tk_comm t) in (0, c ++ replicate (n - length c) 0);
  probe_read_user t n a :=
    match read_mem (tk_mem t) a n with
    | Some bs => (0, bs)
    | None => (EFAULT_ret, replicate n 0)
    end;
  probe_read_user_str t dst n a :=
    match n with
    | O => (EFAULT_ret, dst)
    | S k =>
        match read_str (tk_mem t) a k with
        | Some s => (Z.of_nat (S (length s)), store 0 (s ++ [0]) dst)
        | None => (EFAULT_ret, dst)
        end
    end;
  user_byte t a := mem_byte (tk_mem t) a;
|}.

Lemma mem_byte_byte m a c : mem_byte m a = Some c -> is_byte c.
Proof.
  unfold mem_byte. destruct (m !! a); simpl; [|done]. intros [= <-].
  unfold is_byte. change 256 with (2 ^ 8). apply uint_range. lia.
Qed.

Lemma read_mem_spec m a n bs :
  read_mem m a n = Some bs ->
  length bs = n /\ Forall is_byte bs /\
  forall i, (i < n)%nat -> mem_byte m (a + Z.of_nat i) = bs !! i.
Proof.
  revert a bs. induction n as [|n IH]; intros a bs; simpl; intros H; obind.
  - split_and!; [done|constructor|lia].
  - destruct (IH _ _ E0) as (Hl & Hb & Hi). simpl.
    split_and!; [lia|constructor; eauto using mem_byte_byte|].
    intros [|i] ?; simpl; [by rewrite Z.add_0_r|].
    rewrite <- Hi by lia. f_equal. lia.
Qed.

Lemma read_str_spec m a n s :
  read_str m a n = Some s ->
  nonul s /\ Forall is_byte s /\ (length s <= n)%nat /\
  (forall i, (i < length s)%nat -> mem_byte m (a + Z.of_nat i) = s !! i) /\
  ((length s < n)%nat -> mem_byte m (a + Z.of_nat (length s)) = Some 0).
Proof.
  revert a s. induction n as [|n IH]; intros a s; simpl.
  - intros [= <-]. simpl. split_and!; try constructor; lia.
  - destruct (mem_byte m a) as [c|] eqn:Ec; simpl; [|done].
    destruct (Z.eqb_spec c 0) as [->|Hc].
    { intros [= <-]. simpl. split_and!; try constructor; try lia.
      intros. by rewrite Z.add_0_r. }
    intros H; obind. destruct (IH _ _ E) as (Hn & Hb & Hl & Hi & Hz). simpl.
    split_and!; [by constructor|constructor; eauto using mem_byte_byte|lia| |].
    + intros [|i] ?; simpl; [by rewrite Z.add_0_r|]. rewrite <- Hi by lia. f_equal. lia.
    + intros. rewrite <- Hz by lia. f_equal. lia.
Qed.

Lemma take_uint8_byte n (l : bytes) : Forall is_byte (take n (uint 8 <$> l)).
Proof.
  apply Forall_take, Forall_fmap, Forall_true. intros x. unfold is_byte; simpl.
  change 256 with (2 ^ 8). apply uint_range. lia.
Qed.

Lemma zeros_byte n : Forall is_byte (replicate n 0).
Proof. apply Forall_replicate. unfold is_byte. lia. Qed.

#[export] Instance task_laws : BpfTaskLaws task.
Proof.
  split.
  - intros t. apply uint_range. lia.
  - intros t. apply uint_range. lia.
  - intros t n. simpl. rewrite length_app, length_replicate, !length_take. lia.
  - intros t n. simpl. apply Forall_app; split; [apply take_uint8_byte|apply zeros_byte].
  - intros t n Hn. simpl. apply elem_of_app. right. apply elem_of_replicate.
    rewrite length_take. lia.
  - intros t n a. simpl. unfold EFAULT_ret. destruct (read_mem _ a n); simpl; lia.
  - intros t n a. simpl. destruct (read_mem _ a n) eqn:E; simpl.
    + by apply read_mem_spec in E as (? & ? & ?).
    + apply length_replicate.
  - intros t n a. simpl. destruct (read_mem _ a n) eqn:E; simpl.
    + by apply read_mem_spec in E as (? & ? & ?).
    + apply zeros_byte.
  - intros t n a i. simpl. destruct (read_mem _ a n) eqn:E; simpl; [|done].
    intros _. apply read_mem_spec in E as (? & ? & ?); auto.
  - intros t dst [|n] a Hn; simpl; [done|].
    destruct (read_str _ a n) as [s|] eqn:E; simpl; [|done].
    apply read_str_spec in E as (_ & _ & Hl & _).
    apply length_store. rewrite length_app. simpl. lia.
  - intros t dst [|n] a Hd; simpl; [done|].
    destruct (read_str _ a n) as [s|] eqn:E; simpl; [|done].
    apply read_str_spec in E as (_ & Hb & _). unfold store. simpl.
    rewrite <- app_assoc. apply Forall_app; split; [done|].
    constructor; [unfold is_byte; lia|]. by apply Forall_drop.
  - intros t dst [|n] a Hn; simpl; [done|].
    destruct (read_str _ a n) as [s|] eqn:E; simpl; [|done].
    apply read_str_spec in E as (_ & _ & Hl & _). rewrite drop_store_ge; [done|]. rewrite length_app. simpl. lia.
  - intros t dst [|n] a; simpl; unfold EFAULT_ret; [lia|].
    destruct (read_str _ a n) as [s|]; simpl; lia.
  - intros t dst [|n] a Hn; simpl; [lia|].
    destruct (read_str _ a n) as [s|] eqn:E; [|unfold EFAULT_ret; simpl; lia].
    intros _. apply read_str_spec in E as (Hs & _ & Hl & Hi & Hz). exists s.
    split_and!; try done; try (simpl; lia).
    + simpl. unfold store. simpl. rewrite <- app_assoc, length_app.
      cbn [length]. by rewrite Nat.add_1_r.
    + intros ?. apply Hz. lia.
Qed.

(** A hash map with a bound on its number of entries. *)
Record hmap (V : Type) := HMap { hm_max : nat; hm_map : gmap Z V }.
#[global] Arguments HMap {V} _ _.
#[global] Arguments hm_max {V} _.
#[global] Arguments hm_map {V} _.

Definition hmap_update {V} (m : hmap V) (k : Z) (v : V) (f : Z) : Z * hmap V :=
  match hm_map m !! k with
  | Some _ =>
      if f =? BPF_NOEXIST then (-17, m) else (0, HMap (hm_max m) (<[k:=v]> (hm_map m)))
  | None =>
      if (hm_max m <=? size (hm_map m))%nat then (-7, m)
      else (0, HMap (hm_max m) (<[k:=v]> (hm_map m)))
  end.

Definition hmap_delete {V} (m : hmap V) (k : Z) : Z * hmap V :=
  match hm_map m !! k with
  | Some _ => (0, HMap (hm_max m) (delete k (hm_map m)))
  | None => (-2, m)
  end.

#[export] Instance hmap_ops V : BpfHash Z V (hmap V) := {|
  hlookup m k := hm_map m !! k;
  hupdate := hmap_update;
  hdelete := hmap_delete;
  hassign m k v := HMap (hm_max m) (<[k:=v]> (hm_map m));
|}.

Ltac hmap_cases :=
  intros; unfold hupdate, hdelete, hlookup, hassign, hmap_ops, hmap_update, hmap_delete in *;
  repeat case_match; simpl in *;
  rewrite ?lookup_insert, ?lookup_delete; try case_decide; subst; simplify_eq; try lia; auto.

#[export] Instance hmap_laws V : BpfHashLaws Z V (hmap V).
Proof. split; hmap_cases. Qed.

#[export] Instance hmap_capacity V : BpfHashCapacity Z V (hmap V).
Proof.
  refine {| hcount m := size (hm_map m); hmax m := hm_max m |}.
  - hmap_cases.
  - hmap_cases.
  - hmap_cases. by apply map_size_insert_None.
  - intros m k v f Hk. hmap_cases.
    + apply map_size_insert_Some; eauto.
    + by apply is_Some_None in Hk.
  - hmap_cases.
  - intros m k Hk. hmap_cases.
    + rewrite map_size_delete_Some by eauto.
      pose proof (map_size_ne_0_lookup_2 (hm_map m) k ltac:(eauto)). lia.
    + by apply is_Some_None in Hk.
  - intros m k v Hk. hmap_cases.
    destruct Hk as [Hk%is_Some_None|Hk]; [done|].
    match goal with H : (_ <=? _)%nat = true |- _ => apply Nat.leb_le in H end. lia.
  - intros m k v Hk Hf. hmap_cases.
    match goal with H : (_ <=? _)%nat = false |- _ => apply Nat.leb_gt in H end. lia.
  - intros m k v Hk Hf. hmap_cases.
    match goal with H : (_ <=? _)%nat = true |- _ => apply Nat.leb_le in H end. lia.
  - intros m k Hk. hmap_cases. by apply is_Some_None in Hk.
Defined.

(** A ring buffer of [rg_size] bytes; every record has an 8-byte header and is
    rounded up to 8 bytes; a reserved record holds whatever was there. *)
Record ring := Ring { rg_size : nat; rg_recs : list bytes }.

Definition rec_room (n : nat) : nat := (n + 8 + 7) / 8 * 8.

Definition rg_used (r : ring) : nat := sum_list ((fun bs => rec_room (length bs)) <$> rg_recs r).

#[export] Instance ring_ops : BpfRingbuf ring := {|
  rb_reserve r n :=
    if (rg_used r + rec_room n <=? rg_size r)%nat then Some (replicate n 170, r) else None;
  rb_submit r bs := Ring (rg_size r) (rg_recs r ++ [bs]);
  rb_records := rg_recs;
|}.

#[export] Instance ring_laws : BpfRingbufLaws ring.
Proof.
  split; simpl; intros; try done.
  all: case_match; simplify_eq; try done.
  - apply length_replicate.
  - apply Forall_replicate. unfold is_byte. lia.
Qed.

#[export] Instance ring_take : BpfRingbufTake ring.
Proof. by refine {| rb_take r n := Ring (rg_size r) (drop n (rg_recs r)) |}. Defined.

End SmallKernel.
