(* ===== verification/Uapi.v ===== *)
(** * Kernel user-space constants the tracers use

    The system-call table of
    akita-include/kernel-headers/include/uapi/asm-generic/unistd.h, which
    [syscall_name] of libbpfstrace.c expands into its [switch], with the
    conditional parts as functions of the configuration; the error numbers of
    errno-base.h / errno.h and the [open] flags of fcntl.h (arm64). *)

From stdpp Require Import base list gmap strings.
From Stdlib Require Import ZArith Lia.
From S2P Require Import Prelude.

Local Open Scope string_scope.
Local Open Scope list_scope.
Local Open Scope Z_scope.

(** ** Configuration macros and table entries *)

Record uapi_config := UapiConfig {
  bits_per_long : Z;
  syscall_compat : bool;
  want_renameat : bool;
  want_new_stat : bool;
  want_stat64 : bool;
  want_set_get_rlimit : bool;
  want_time32 : bool;
  want_sys_clone3 : bool;
  want_memfd_secret : bool;
  want_sync_file_range2 : bool;
  arch_nommu : bool;
}.

(** arch/arm64/include/uapi/asm/unistd.h, a 64-bit non-compat build. *)
Definition arm64_config : uapi_config := {|
  bits_per_long := 64;
  syscall_compat := false;
  want_renameat := true;
  want_new_stat := true;
  want_stat64 := false;
  want_set_get_rlimit := true;
  want_time32 := true;
  want_sys_clone3 := true;
  want_memfd_secret := true;
  want_sync_file_range2 := false;
  arch_nommu := false;
|}.

Inductive sc_entry :=
| SYSCALL (nr : Z) (call : string)
| SC_3264 (nr : Z) (call32 call64 : string)
| SC_COMP (nr : Z) (call compat : string)
| SC_COMP_3264 (nr : Z) (call32 call64 compat : string).

(** The expansion of an entry into [__SYSCALL(nr, call)]. *)
Definition sc_3264 (c : uapi_config) (nr : Z) (call32 call64 : string) : Z * string :=
  if (bits_per_long c =? 32) || syscall_compat c then (nr, call32) else (nr, call64).

Definition sc_expand (c : uapi_config) (e : sc_entry) : Z * string :=
  match e with
  | SYSCALL nr call => (nr, call)
  | SC_3264 nr call32 call64 => sc_3264 c nr call32 call64
  | SC_COMP nr call compat => if syscall_compat c then (nr, compat) else (nr, call)
  | SC_COMP_3264 nr call32 call64 compat =>
      if syscall_compat c then (nr, compat) else sc_3264 c nr call32 call64
  end.

(** ** The table *)

Definition unistd_1 (c : uapi_config) : list sc_entry :=
  [ SC_COMP 0 "sys_io_setup" "compat_sys_io_setup";
    SYSCALL 1 "sys_io_destroy";
    SC_COMP 2 "sys_io_submit" "compat_sys_io_submit";
    SYSCALL 3 "sys_io_cancel" ] ++
  (if want_time32 c || negb (bits_per_long c =? 32) then
  [ SC_3264 4 "sys_io_getevents_time32" "sys_io_getevents" ]
  else []) ++
  [ SYSCALL 5 "sys_setxattr";
    SYSCALL 6 "sys_lsetxattr";
    SYSCALL 7 "sys_fsetxattr";
    SYSCALL 8 "sys_getxattr";
    SYSCALL 9 "sys_lgetxattr";
    SYSCALL 10 "sys_fgetxattr";
    SYSCALL 11 "sys_listxattr";
    SYSCALL 12 "sys_llistxattr";
    SYSCALL 13 "sys_flistxattr";
    SYSCALL 14 "sys_removexattr";
    SYSCALL 15 "sys_lremovexattr";
    SYSCALL 16 "sys_fremovexattr";
    SYSCALL 17 "sys_getcwd";
    SC_COMP 18 "sys_lookup_dcookie" "compat_sys_lookup_dcookie";
    SYSCALL 19 "sys_eventfd2";
    SYSCALL 20 "sys_epoll_create1";
    SYSCALL 21 "sys_epoll_ctl";
    SC_COMP 22 "sys_epoll_pwait" "compat_sys_epoll_pwait";
    SYSCALL 23 "sys_dup";
    SYSCALL 24 "sys_dup3";
    SC_COMP_3264 25 "sys_fcntl64" "sys_fcntl" "compat_sys_fcntl64";
    SYSCALL 26 "sys_inotify_init1";
    SYSCALL 27 "sys_inotify_add_watch";
    SYSCALL 28 "sys_inotify_rm_watch";
    SC_COMP 29 "sys_ioctl" "compat_sys_ioctl";
    SYSCALL 30 "sys_ioprio_set";
    SYSCALL 31 "sys_ioprio_get";
    SYSCALL 32 "sys_flock";
    SYSCALL 33 "sys_mknodat";
    SYSCALL 34 "sys_mkdirat";
    SYSCALL 35 "sys_unlinkat";
    SYSCALL 36 "sys_symlinkat";
    SYSCALL 37 "sys_linkat" ] ++
  (if want_renameat c then
  [ SYSCALL 38 "sys_renameat" ]
  else []) ++
  [ SYSCALL 39 "sys_umount";
    SYSCALL 40 "sys_mount";
    SYSCALL 41 "sys_pivot_root";
    SYSCALL 42 "sys_ni_syscall";
    SC_COMP_3264 43 "sys_statfs64" "sys_statfs" "compat_sys_statfs64";
    SC_COMP_3264 44 "sys_fstatfs64" "sys_fstatfs" "compat_sys_fstatfs64";
    SC_COMP_3264 45 "sys_truncate64" "sys_truncate" "compat_sys_truncate64" ].

Definition unistd_2 (c : uapi_config) : list sc_entry :=
  [ SC_COMP_3264 46 "sys_ftruncate64" "sys_ftruncate" "compat_sys_ftruncate64";
    SC_COMP 47 "sys_fallocate" "compat_sys_fallocate";
    SYSCALL 48 "sys_faccessat";
    SYSCALL 49 "sys_chdir";
    SYSCALL 50 "sys_fchdir";
    SYSCALL 51 "sys_chroot";
    SYSCALL 52 "sys_fchmod";
    SYSCALL 53 "sys_fchmodat";
    SYSCALL 54 "sys_fchownat";
    SYSCALL 55 "sys_fchown";
    SYSCALL 56 "sys_openat";
    SYSCALL 57 "sys_close";
    SYSCALL 58 "sys_vhangup";
    SYSCALL 59 "sys_pipe2";
    SYSCALL 60 "sys_quotactl";
    SYSCALL 61 "sys_getdents64";
    SC_3264 62 "sys_llseek" "sys_lseek";
    SYSCALL 63 "sys_read";
    SYSCALL 64 "sys_write";
    SC_COMP 65 "sys_readv" "sys_readv";
    SC_COMP 66 "sys_writev" "sys_writev";
    SC_COMP 67 "sys_pread64" "compat_sys_pread64";
    SC_COMP 68 "sys_pwrite64" "compat_sys_pwrite64";
    SC_COMP 69 "sys_preadv" "compat_sys_preadv";
    SC_COMP 70 "sys_pwritev" "compat_sys_pwritev";
    SYSCALL 71 "sys_sendfile64" ] ++
  (if want_time32 c || negb (bits_per_long c =? 32) then
  [ SC_COMP_3264 72 "sys_pselect6_time32" "sys_pselect6" "compat_sys_pselect6_time32";
    SC_COMP_3264 73 "sys_ppoll_time32" "sys_ppoll" "compat_sys_ppoll_time32" ]
  else []) ++
  [ SC_COMP 74 "sys_signalfd4" "compat_sys_signalfd4";
    SYSCALL 75 "sys_vmsplice";
    SYSCALL 76 "sys_splice";
    SYSCALL 77 "sys_tee";
    SYSCALL 78 "sys_readlinkat" ] ++
  (if want_new_stat c || want_stat64 c then
  [ SC_3264 79 "sys_fstatat64" "sys_newfstatat";
    SC_3264 80 "sys_fstat64" "sys_newfstat" ]
  else []) ++
  [ SYSCALL 81 "sys_sync";
    SYSCALL 82 "sys_fsync";
    SYSCALL 83 "sys_fdatasync" ] ++
  (if want_sync_file_range2 c then
  [ SC_COMP 84 "sys_sync_file_range2" "compat_sys_sync_file_range2" ]
  else
  [ SC_COMP 84 "sys_sync_file_range" "compat_sys_sync_file_range" ]) ++
  [ SYSCALL 85 "sys_timerfd_create" ] ++
  (if want_time32 c || negb (bits_per_long c =? 32) then
  [ SC_3264 86 "sys_timerfd_settime32" "sys_timerfd_settime";
    SC_3264 87 "sys_timerfd_gettime32" "sys_timerfd_gettime" ]
  else []) ++
  (if want_time32 c || negb (bits_per_long c =? 32) then
  [ SC_3264 88 "sys_utimensat_time32" "sys_utimensat" ]
  else []).

Definition unistd_3 (c : uapi_config) : list sc_entry :=
  [ SYSCALL 89 "sys_acct";
    SYSCALL 90 "sys_capget";
    SYSCALL 91 "sys_capset";
    SYSCALL 92 "sys_personality";
    SYSCALL 93 "sys_exit";
    SYSCALL 94 "sys_exit_group";
    SC_COMP 95 "sys_waitid" "compat_sys_waitid";
    SYSCALL 96 "sys_set_tid_address";
    SYSCALL 97 "sys_unshare" ] ++
  (if want_time32 c || negb (bits_per_long c =? 32) then
  [ SC_3264 98 "sys_futex_time32" "sys_futex" ]
  else []) ++
  [ SC_COMP 99 "sys_set_robust_list" "compat_sys_set_robust_list";
    SC_COMP 100 "sys_get_robust_list" "compat_sys_get_robust_list" ] ++
  (if want_time32 c || negb (bits_per_long c =? 32) then
  [ SC_3264 101 "sys_nanosleep_time32" "sys_nanosleep" ]
  else []) ++
  [ SC_COMP 102 "sys_getitimer" "compat_sys_getitimer";
    SC_COMP 103 "sys_setitimer" "compat_sys_setitimer";
    SC_COMP 104 "sys_kexec_load" "compat_sys_kexec_load";
    SYSCALL 105 "sys_init_module";
    SYSCALL 106 "sys_delete_module";
    SC_COMP 107 "sys_timer_create" "compat_sys_timer_create" ] ++
  (if want_time32 c || negb (bits_per_long c =? 32) then
  [ SC_3264 108 "sys_timer_gettime32" "sys_timer_gettime" ]
  else []) ++
  [ SYSCALL 109 "sys_timer_getoverrun" ] ++
  (if want_time32 c || negb (bits_per_long c =? 32) then
  [ SC_3264 110 "sys_timer_settime32" "sys_timer_settime" ]
  else []) ++
  [ SYSCALL 111 "sys_timer_delete" ] ++
  (if want_time32 c || negb (bits_per_long c =? 32) then
  [ SC_3264 112 "sys_clock_settime32" "sys_clock_settime";
    SC_3264 113 "sys_clock_gettime32" "sys_clock_gettime";
    SC_3264 114 "sys_clock_getres_time32" "sys_clock_getres";
    SC_3264 115 "sys_clock_nanosleep_time32" "sys_clock_nanosleep" ]
  else []) ++
  [ SYSCALL 116 "sys_syslog";
    SC_COMP 117 "sys_ptrace" "compat_sys_ptrace";
    SYSCALL 118 "sys_sched_setparam";
    SYSCALL 119 "sys_sched_setscheduler";
    SYSCALL 120 "sys_sched_getscheduler";
    SYSCALL 121 "sys_sched_getparam";
    SC_COMP 122 "sys_sched_setaffinity" "compat_sys_sched_setaffinity";
    SC_COMP 123 "sys_sched_getaffinity" "compat_sys_sched_getaffinity";
    SYSCALL 124 "sys_sched_yield";
    SYSCALL 125 "sys_sched_get_priority_max";
    SYSCALL 126 "sys_sched_get_priority_min" ] ++
  (if want_time32 c || negb (bits_per_long c =? 32) then
  [ SC_3264 127 "sys_sched_rr_get_interval_time32" "sys_sched_rr_get_interval" ]
  else []) ++
  [ SYSCALL 128 "sys_restart_syscall" ].

Definition unistd_4 (c : uapi_config) : list sc_entry :=
  [ SYSCALL 129 "sys_kill";
    SYSCALL 130 "sys_tkill";
    SYSCALL 131 "sys_tgkill";
    SC_COMP 132 "sys_sigaltstack" "compat_sys_sigaltstack";
    SC_COMP 133 "sys_rt_sigsuspend" "compat_sys_rt_sigsuspend";
    SC_COMP 134 "sys_rt_sigaction" "compat_sys_rt_sigaction";
    SC_COMP 135 "sys_rt_sigprocmask" "compat_sys_rt_sigprocmask";
    SC_COMP 136 "sys_rt_sigpending" "compat_sys_rt_sigpending" ] ++
  (if want_time32 c || negb (bits_per_long c =? 32) then
  [ SC_COMP_3264 137 "sys_rt_sigtimedwait_time32" "sys_rt_sigtimedwait" "compat_sys_rt_sigtimedwait_time32" ]
  else []) ++
  [ SC_COMP 138 "sys_rt_sigqueueinfo" "compat_sys_rt_sigqueueinfo";
    SC_COMP 139 "sys_rt_sigreturn" "compat_sys_rt_sigreturn";
    SYSCALL 140 "sys_setpriority";
    SYSCALL 141 "sys_getpriority";
    SYSCALL 142 "sys_reboot";
    SYSCALL 143 "sys_setregid";
    SYSCALL 144 "sys_setgid";
    SYSCALL 145 "sys_setreuid";
    SYSCALL 146 "sys_setuid";
    SYSCALL 147 "sys_setresuid";
    SYSCALL 148 "sys_getresuid";
    SYSCALL 149 "sys_setresgid";
    SYSCALL 150 "sys_getresgid";
    SYSCALL 151 "sys_setfsuid";
    SYSCALL 152 "sys_setfsgid";
    SC_COMP 153 "sys_times" "compat_sys_times";
    SYSCALL 154 "sys_setpgid";
    SYSCALL 155 "sys_getpgid";
    SYSCALL 156 "sys_getsid";
    SYSCALL 157 "sys_setsid";
    SYSCALL 158 "sys_getgroups";
    SYSCALL 159 "sys_setgroups";
    SYSCALL 160 "sys_newuname";
    SYSCALL 161 "sys_sethostname";
    SYSCALL 162 "sys_setdomainname" ] ++
  (if want_set_get_rlimit c then
  [ SC_COMP 163 "sys_getrlimit" "compat_sys_getrlimit";
    SC_COMP 164 "sys_setrlimit" "compat_sys_setrlimit" ]
  else []) ++
  [ SC_COMP 165 "sys_getrusage" "compat_sys_getrusage";
    SYSCALL 166 "sys_umask";
    SYSCALL 167 "sys_prctl";
    SYSCALL 168 "sys_getcpu" ] ++
  (if want_time32 c || negb (bits_per_long c =? 32) then
  [ SC_COMP 169 "sys_gettimeofday" "compat_sys_gettimeofday";
    SC_COMP 170 "sys_settimeofday" "compat_sys_settimeofday";
    SC_3264 171 "sys_adjtimex_time32" "sys_adjtimex" ]
  else []) ++
  [ SYSCALL 172 "sys_getpid";
    SYSCALL 173 "sys_getppid";
    SYSCALL 174 "sys_getuid";
    SYSCALL 175 "sys_geteuid";
    SYSCALL 176 "sys_getgid";
    SYSCALL 177 "sys_getegid";
    SYSCALL 178 "sys_gettid";
    SC_COMP 179 "sys_sysinfo" "compat_sys_sysinfo";
    SC_COMP 180 "sys_mq_open" "compat_sys_mq_open";
    SYSCALL 181 "sys_mq_unlink" ] ++
  (if want_time32 c || negb (bits_per_long c =? 32) then
  [ SC_3264 182 "sys_mq_timedsend_time32" "sys_mq_timedsend";
    SC_3264 183 "sys_mq_timedreceive_time32" "sys_mq_timedreceive" ]
  else []).

Definition unistd_5 (c : uapi_config) : list sc_entry :=
  [ SC_COMP 184 "sys_mq_notify" "compat_sys_mq_notify";
    SC_COMP 185 "sys_mq_getsetattr" "compat_sys_mq_getsetattr";
    SYSCALL 186 "sys_msgget";
    SC_COMP 187 "sys_msgctl" "compat_sys_msgctl";
    SC_COMP 188 "sys_msgrcv" "compat_sys_msgrcv";
    SC_COMP 189 "sys_msgsnd" "compat_sys_msgsnd";
    SYSCALL 190 "sys_semget";
    SC_COMP 191 "sys_semctl" "compat_sys_semctl" ] ++
  (if want_time32 c || negb (bits_per_long c =? 32) then
  [ SC_3264 192 "sys_semtimedop_time32" "sys_semtimedop" ]
  else []) ++
  [ SYSCALL 193 "sys_semop";
    SYSCALL 194 "sys_shmget";
    SC_COMP 195 "sys_shmctl" "compat_sys_shmctl";
    SC_COMP 196 "sys_shmat" "compat_sys_shmat";
    SYSCALL 197 "sys_shmdt";
    SYSCALL 198 "sys_socket";
    SYSCALL 199 "sys_socketpair";
    SYSCALL 200 "sys_bind";
    SYSCALL 201 "sys_listen";
    SYSCALL 202 "sys_accept";
    SYSCALL 203 "sys_connect";
    SYSCALL 204 "sys_getsockname";
    SYSCALL 205 "sys_getpeername";
    SYSCALL 206 "sys_sendto";
    SC_COMP 207 "sys_recvfrom" "compat_sys_recvfrom";
    SC_COMP 208 "sys_setsockopt" "sys_setsockopt";
    SC_COMP 209 "sys_getsockopt" "sys_getsockopt";
    SYSCALL 210 "sys_shutdown";
    SC_COMP 211 "sys_sendmsg" "compat_sys_sendmsg";
    SC_COMP 212 "sys_recvmsg" "compat_sys_recvmsg";
    SC_COMP 213 "sys_readahead" "compat_sys_readahead";
    SYSCALL 214 "sys_brk";
    SYSCALL 215 "sys_munmap";
    SYSCALL 216 "sys_mremap";
    SYSCALL 217 "sys_add_key";
    SYSCALL 218 "sys_request_key";
    SC_COMP 219 "sys_keyctl" "compat_sys_keyctl";
    SYSCALL 220 "sys_clone";
    SC_COMP 221 "sys_execve" "compat_sys_execve";
    SC_3264 222 "sys_mmap2" "sys_mmap";
    SC_COMP 223 "sys_fadvise64_64" "compat_sys_fadvise64_64" ] ++
  (if negb (arch_nommu c) then
  [ SYSCALL 224 "sys_swapon";
    SYSCALL 225 "sys_swapoff";
    SYSCALL 226 "sys_mprotect";
    SYSCALL 227 "sys_msync";
    SYSCALL 228 "sys_mlock";
    SYSCALL 229 "sys_munlock";
    SYSCALL 230 "sys_mlockall";
    SYSCALL 231 "sys_munlockall";
    SYSCALL 232 "sys_mincore";
    SYSCALL 233 "sys_madvise";
    SYSCALL 234 "sys_remap_file_pages";
    SYSCALL 235 "sys_mbind";
    SYSCALL 236 "sys_get_mempolicy";
    SYSCALL 237 "sys_set_mempolicy";
    SYSCALL 238 "sys_migrate_pages";
    SYSCALL 239 "sys_move_pages" ]
  else []).

Definition unistd_6 (c : uapi_config) : list sc_entry :=
  [ SC_COMP 240 "sys_rt_tgsigqueueinfo" "compat_sys_rt_tgsigqueueinfo";
    SYSCALL 241 "sys_perf_event_open";
    SYSCALL 242 "sys_accept4" ] ++
  (if want_time32 c || negb (bits_per_long c =? 32) then
  [ SC_COMP_3264 243 "sys_recvmmsg_time32" "sys_recvmmsg" "compat_sys_recvmmsg_time32" ]
  else []) ++
  (if want_time32 c || negb (bits_per_long c =? 32) then
  [ SC_COMP 260 "sys_wait4" "compat_sys_wait4" ]
  else []) ++
  [ SYSCALL 261 "sys_prlimit64";
    SYSCALL 262 "sys_fanotify_init";
    SYSCALL 263 "sys_fanotify_mark";
    SYSCALL 264 "sys_name_to_handle_at";
    SYSCALL 265 "sys_open_by_handle_at" ] ++
  (if want_time32 c || negb (bits_per_long c =? 32) then
  [ SC_3264 266 "sys_clock_adjtime32" "sys_clock_adjtime" ]
  else []) ++
  [ SYSCALL 267 "sys_syncfs";
    SYSCALL 268 "sys_setns";
    SC_COMP 269 "sys_sendmmsg" "compat_sys_sendmmsg";
    SYSCALL 270 "sys_process_vm_readv";
    SYSCALL 271 "sys_process_vm_writev";
    SYSCALL 272 "sys_kcmp";
    SYSCALL 273 "sys_finit_module";
    SYSCALL 274 "sys_sched_setattr";
    SYSCALL 275 "sys_sched_getattr";
    SYSCALL 276 "sys_renameat2";
    SYSCALL 277 "sys_seccomp";
    SYSCALL 278 "sys_getrandom";
    SYSCALL 279 "sys_memfd_create";
    SYSCALL 280 "sys_bpf";
    SC_COMP 281 "sys_execveat" "compat_sys_execveat";
    SYSCALL 282 "sys_userfaultfd";
    SYSCALL 283 "sys_membarrier";
    SYSCALL 284 "sys_mlock2";
    SYSCALL 285 "sys_copy_file_range";
    SC_COMP 286 "sys_preadv2" "compat_sys_preadv2";
    SC_COMP 287 "sys_pwritev2" "compat_sys_pwritev2";
    SYSCALL 288 "sys_pkey_mprotect";
    SYSCALL 289 "sys_pkey_alloc";
    SYSCALL 290 "sys_pkey_free";
    SYSCALL 291 "sys_statx" ] ++
  (if want_time32 c || negb (bits_per_long c =? 32) then
  [ SC_COMP_3264 292 "sys_io_pgetevents_time32" "sys_io_pgetevents" "compat_sys_io_pgetevents" ]
  else []) ++
  [ SYSCALL 293 "sys_rseq";
    SYSCALL 294 "sys_kexec_file_load" ] ++
  (if syscall_compat c || (bits_per_long c =? 32) then
  [ SYSCALL 403 "sys_clock_gettime";
    SYSCALL 404 "sys_clock_settime";
    SYSCALL 405 "sys_clock_adjtime";
    SYSCALL 406 "sys_clock_getres";
    SYSCALL 407 "sys_clock_nanosleep";
    SYSCALL 408 "sys_timer_gettime";
    SYSCALL 409 "sys_timer_settime";
    SYSCALL 410 "sys_timerfd_gettime";
    SYSCALL 411 "sys_timerfd_settime";
    SYSCALL 412 "sys_utimensat";
    SC_COMP 413 "sys_pselect6" "compat_sys_pselect6_time64";
    SC_COMP 414 "sys_ppoll" "compat_sys_ppoll_time64";
    SC_COMP 416 "sys_io_pgetevents" "compat_sys_io_pgetevents_time64";
    SC_COMP 417 "sys_recvmmsg" "compat_sys_recvmmsg_time64";
    SYSCALL 418 "sys_mq_timedsend";
    SYSCALL 419 "sys_mq_timedreceive";
    SYSCALL 420 "sys_semtimedop";
    SC_COMP 421 "sys_rt_sigtimedwait" "compat_sys_rt_sigtimedwait_time64";
    SYSCALL 422 "sys_futex";
    SYSCALL 423 "sys_sched_rr_get_interval" ]
  else []).

Definition unistd_7 (c : uapi_config) : list sc_entry :=
  [ SYSCALL 424 "sys_pidfd_send_signal";
    SYSCALL 425 "sys_io_uring_setup";
    SYSCALL 426 "sys_io_uring_enter";
    SYSCALL 427 "sys_io_uring_register";
    SYSCALL 428 "sys_open_tree";
    SYSCALL 429 "sys_move_mount";
    SYSCALL 430 "sys_fsopen";
    SYSCALL 431 "sys_fsconfig";
    SYSCALL 432 "sys_fsmount";
    SYSCALL 433 "sys_fspick";
    SYSCALL 434 "sys_pidfd_open" ] ++
  (if want_sys_clone3 c then
  [ SYSCALL 435 "sys_clone3" ]
  else []) ++
  [ SYSCALL 436 "sys_close_range";
    SYSCALL 437 "sys_openat2";
    SYSCALL 438 "sys_pidfd_getfd";
    SYSCALL 439 "sys_faccessat2";
    SYSCALL 440 "sys_process_madvise";
    SC_COMP 441 "sys_epoll_pwait2" "compat_sys_epoll_pwait2";
    SYSCALL 442 "sys_mount_setattr";
    SYSCALL 443 "sys_quotactl_fd";
    SYSCALL 444 "sys_landlock_create_ruleset";
    SYSCALL 445 "sys_landlock_add_rule";
    SYSCALL 446 "sys_landlock_restrict_self" ] ++
  (if want_memfd_secret c then
  [ SYSCALL 447 "sys_memfd_secret" ]
  else []) ++
  [ SYSCALL 448 "sys_process_mrelease";
    SYSCALL 449 "sys_futex_waitv";
    SYSCALL 450 "sys_set_mempolicy_home_node" ].

Definition unistd_table (c : uapi_config) : list sc_entry :=
  unistd_1 c ++ unistd_2 c ++ unistd_3 c ++ unistd_4 c ++ unistd_5 c ++ unistd_6 c ++ unistd_7 c.

(** The [case] labels and results of the expanded table. *)
Definition syscall_cases (c : uapi_config) : list (Z * string) :=
  sc_expand c <$> unistd_table c.

(** ** Strictly increasing labels *)

Fixpoint increasing (lo : Z) (l : list Z) : bool :=
  match l with
  | [] => true
  | x :: l => (lo <? x) && increasing x l
  end.

Lemma increasing_above lo l : increasing lo l = true -> Forall (fun x => lo < x) l.
Proof.
  revert lo. induction l as [|x l IH]; intros lo; simpl; [constructor|].
  intros [? Hl]%andb_true_iff. assert (lo < x) by lia. constructor; [done|].
  eapply Forall_impl; [by apply IH|]. simpl. lia.
Qed.

Lemma increasing_NoDup lo l : increasing lo l = true -> NoDup l.
Proof.
  revert lo. induction l as [|x l IH]; intros lo; simpl; [constructor|].
  intros [_ Hl]%andb_true_iff. constructor; [|by eapply IH].
  intros Hx. apply increasing_above in Hl. rewrite Forall_forall in Hl.
  apply Hl in Hx. lia.
Qed.

(** An entry's number does not depend on the configuration. *)
Definition sc_nr (e : sc_entry) : Z :=
  match e with
  | SYSCALL nr _ | SC_3264 nr _ _ | SC_COMP nr _ _ | SC_COMP_3264 nr _ _ _ => nr
  end.

Lemma sc_expand_nr c e : (sc_expand c e).1 = sc_nr e.
Proof. destruct e; simpl; unfold sc_3264; repeat case_match; done. Qed.

Lemma syscall_cases_nrs c : (syscall_cases c).*1 = sc_nr <$> unistd_table c.
Proof.
  unfold syscall_cases. rewrite <- list_fmap_compose. apply list_fmap_ext.
  intros i e _. apply sc_expand_nr.
Qed.

(** Increasing from above [lo] and not above [hi]: pieces of the table compose. *)
Definition within (lo hi : Z) (l : list Z) : bool :=
  increasing lo l && forallb (fun x => x <=? hi) l.

Lemma increasing_app lo mid l1 l2 :
  lo <= mid -> within lo mid l1 = true -> increasing mid l2 = true ->
  increasing lo (l1 ++ l2) = true.
Proof.
  unfold within. intros Hlo [H1 H2]%andb_true_iff H3. revert lo Hlo H1.
  induction l1 as [|x l1 IH]; intros lo Hlo H1; cbn [increasing forallb app] in *.
  - destruct l2 as [|y l2]; [done|]. cbn [increasing] in *.
    apply andb_true_iff in H3 as [? ->]. rewrite andb_true_r. lia.
  - apply andb_true_iff in H1 as [-> H1], H2 as [? H2]. apply IH; [done|lia|done].
Qed.

Ltac table_piece :=
  intros c;
  repeat match goal with
  | |- context [if ?b then _ else _] =>
      lazymatch b with context [c] => destruct b end
  end; vm_compute; reflexivity.

Lemma unistd_1_within : forall c, within (-1) 45 (sc_nr <$> unistd_1 c) = true.
Proof. unfold unistd_1. table_piece. Qed.

Lemma unistd_2_within : forall c, within (45) 88 (sc_nr <$> unistd_2 c) = true.
Proof. unfold unistd_2. table_piece. Qed.

Lemma unistd_3_within : forall c, within (88) 128 (sc_nr <$> unistd_3 c) = true.
Proof. unfold unistd_3. table_piece. Qed.

Lemma unistd_4_within : forall c, within (128) 183 (sc_nr <$> unistd_4 c) = true.
Proof. unfold unistd_4. table_piece. Qed.

Lemma unistd_5_within : forall c, within (183) 239 (sc_nr <$> unistd_5 c) = true.
Proof. unfold unistd_5. table_piece. Qed.

Lemma unistd_6_within : forall c, within (239) 423 (sc_nr <$> unistd_6 c) = true.
Proof. unfold unistd_6. table_piece. Qed.

Lemma unistd_7_within : forall c, within (423) 450 (sc_nr <$> unistd_7 c) = true.
Proof. unfold unistd_7. table_piece. Qed.

Lemma unistd_increasing c : increasing (-1) (sc_nr <$> unistd_table c) = true.
Proof.
  unfold unistd_table. rewrite !fmap_app.
  apply (increasing_app _ 45); [lia|apply unistd_1_within|].
  apply (increasing_app _ 88); [lia|apply unistd_2_within|].
  apply (increasing_app _ 128); [lia|apply unistd_3_within|].
  apply (increasing_app _ 183); [lia|apply unistd_4_within|].
  apply (increasing_app _ 239); [lia|apply unistd_5_within|].
  apply (increasing_app _ 423); [lia|apply unistd_6_within|].
  pose proof (unistd_7_within c) as [H _]%andb_true_iff. exact H.
Qed.

(** ** Error numbers (errno-base.h, errno.h) *)

Definition errno_base : list (string * Z) :=
  [ ("EPERM", 1);
    ("ENOENT", 2);
    ("ESRCH", 3);
    ("EINTR", 4);
    ("EIO", 5);
    ("ENXIO", 6);
    ("E2BIG", 7);
    ("ENOEXEC", 8);
    ("EBADF", 9);
    ("ECHILD", 10);
    ("EAGAIN", 11);
    ("ENOMEM", 12);
    ("EACCES", 13);
    ("EFAULT", 14);
    ("ENOTBLK", 15);
    ("EBUSY", 16);
    ("EEXIST", 17);
    ("EXDEV", 18);
    ("ENODEV", 19);
    ("ENOTDIR", 20);
    ("EISDIR", 21);
    ("EINVAL", 22);
    ("ENFILE", 23);
    ("EMFILE", 24);
    ("ENOTTY", 25);
    ("ETXTBSY", 26);
    ("EFBIG", 27);
    ("ENOSPC", 28);
    ("ESPIPE", 29);
    ("EROFS", 30);
    ("EMLINK", 31);
    ("EPIPE", 32);
    ("EDOM", 33);
    ("ERANGE", 34) ].

Definition errno_ext : list (string * Z) :=
  [ ("EDEADLK", 35);
    ("ENAMETOOLONG", 36);
    ("ENOLCK", 37);
    ("ENOSYS", 38);
    ("ENOTEMPTY", 39);
    ("ELOOP", 40);
    ("EWOULDBLOCK", 11);
    ("ENOMSG", 42);
    ("EIDRM", 43);
    ("ECHRNG", 44);
    ("EL2NSYNC", 45);
    ("EL3HLT", 46);
    ("EL3RST", 47);
    ("ELNRNG", 48);
    ("EUNATCH", 49);
    ("ENOCSI", 50);
    ("EL2HLT", 51);
    ("EBADE", 52);
    ("EBADR", 53);
    ("EXFULL", 54);
    ("ENOANO", 55);
    ("EBADRQC", 56);
    ("EBADSLT", 57);
    ("EDEADLOCK", 35);
    ("EBFONT", 59);
    ("ENOSTR", 60);
    ("ENODATA", 61);
    ("ETIME", 62);
    ("ENOSR", 63);
    ("ENONET", 64);
    ("ENOPKG", 65);
    ("EREMOTE", 66);
    ("ENOLINK", 67);
    ("EADV", 68);
    ("ESRMNT", 69);
    ("ECOMM", 70);
    ("EPROTO", 71);
    ("EMULTIHOP", 72);
    ("EDOTDOT", 73);
    ("EBADMSG", 74);
    ("EOVERFLOW", 75);
    ("ENOTUNIQ", 76);
    ("EBADFD", 77);
    ("EREMCHG", 78);
    ("ELIBACC", 79);
    ("ELIBBAD", 80);
    ("ELIBSCN", 81);
    ("ELIBMAX", 82);
    ("ELIBEXEC", 83);
    ("EILSEQ", 84);
    ("ERESTART", 85);
    ("ESTRPIPE", 86);
    ("EUSERS", 87);
    ("ENOTSOCK", 88);
    ("EDESTADDRREQ", 89);
    ("EMSGSIZE", 90);
    ("EPROTOTYPE", 91);
    ("ENOPROTOOPT", 92);
    ("EPROTONOSUPPORT", 93);
    ("ESOCKTNOSUPPORT", 94);
    ("EOPNOTSUPP", 95);
    ("EPFNOSUPPORT", 96);
    ("EAFNOSUPPORT", 97);
    ("EADDRINUSE", 98);
    ("EADDRNOTAVAIL", 99);
    ("ENETDOWN", 100);
    ("ENETUNREACH", 101);
    ("ENETRESET", 102);
    ("ECONNABORTED", 103);
    ("ECONNRESET", 104);
    ("ENOBUFS", 105);
    ("EISCONN", 106);
    ("ENOTCONN", 107);
    ("ESHUTDOWN", 108);
    ("ETOOMANYREFS", 109);
    ("ETIMEDOUT", 110);
    ("ECONNREFUSED", 111);
    ("EHOSTDOWN", 112);
    ("EHOSTUNREACH", 113);
    ("EALREADY", 114);
    ("EINPROGRESS", 115);
    ("ESTALE", 116);
    ("EUCLEAN", 117);
    ("ENOTNAM", 118);
    ("ENAVAIL", 119);
    ("EISNAM", 120);
    ("EREMOTEIO", 121);
    ("EDQUOT", 122);
    ("ENOMEDIUM", 123);
    ("EMEDIUMTYPE", 124);
    ("ECANCELED", 125);
    ("ENOKEY", 126);
    ("EKEYEXPIRED", 127);
    ("EKEYREVOKED", 128);
    ("EKEYREJECTED", 129);
    ("EOWNERDEAD", 130);
    ("ENOTRECOVERABLE", 131);
    ("ERFKILL", 132);
    ("EHWPOISON", 133) ].

Definition errno_table : list (string * Z) := errno_base ++ errno_ext.

Fixpoint errno_lookup (n : string) (l : list (string * Z)) : option Z :=
  match l with
  | [] => None
  | (m, v) :: l => if decide (n = m) then Some v else errno_lookup n l
  end.

Definition EINTR : Z := 4.
Definition ENOMEM : Z := 12.

(** ** Flags of openat (asm-generic/fcntl.h with the arm64 overrides) *)

Definition O_ACCMODE : Z := 3.
Definition O_RDONLY : Z := 0.
Definition O_WRONLY : Z := 1.
Definition O_RDWR : Z := 2.
Definition O_CREAT : Z := 64.
Definition O_EXCL : Z := 128.
Definition O_NOCTTY : Z := 256.
Definition O_TRUNC : Z := 512.
Definition O_APPEND : Z := 1024.
Definition O_NONBLOCK : Z := 2048.
Definition O_DSYNC : Z := 4096.
Definition O_DIRECTORY : Z := 16384.
Definition O_NOFOLLOW : Z := 32768.
Definition O_CLOEXEC : Z := 524288.
Definition O_SYNC_bit : Z := 1048576.
Definition O_SYNC : Z := Z.lor O_SYNC_bit O_DSYNC.

(** ** System-call numbers named in the sources *)

Definition NR_openat : Z := 56.
Definition NR_read : Z := 63.
Definition NR_write : Z := 64.
Definition NR_ioctl : Z := 29.
Definition NR_epoll_pwait : Z := 22.
Definition NR_futex : Z := 98.
Definition NR_connect : Z := 203.
Definition NR_bind : Z := 200.
Definition NR_sendto : Z := 206.
Definition NR_execve : Z := 221.
Definition NR_openat2 : Z := 437.
