(* ===== verification/StraceTypes.v ===== *)
(** * Data shared by the two halves of libbpfstrace

    [struct syscall_event] of libbpfstrace.h as a memory layout (what crosses
    the ring buffer) and as the record of its member values; the socket address
    structures the BPF half reads (vmlinux.h). *)

From stdpp Require Import base list gmap strings.
From Stdlib Require Import ZArith Lia.
From S2P Require Import Prelude Layout.

Local Open Scope string_scope.
Local Open Scope list_scope.
Local Open Scope Z_scope.

Definition TASK_COMM_LEN : nat := 16.
Definition SYSCALL_STR_LEN : nat := 256.

Definition char_array (n : nat) : ctype := TArr (TInt 1) n.

Definition event_fields : fields :=
  [("tgid", TInt 4); ("pid", TInt 4); ("syscall_id", TInt 4); ("ret", TInt 8)] ++
  elems "args" (TInt 8) 6 ++
  [("comm", char_array TASK_COMM_LEN); ("str", char_array SYSCALL_STR_LEN);
   ("str_len", TInt 4); ("sa_family", TInt 2); ("sa_port", TInt 2); ("sa_addr4", TInt 4);
   ("sa_addr6", char_array 16); ("sa_scope_id", TInt 4); ("sa_valid", TInt 1)].

Definition event_size : nat := struct_size event_fields.

Record syscall_event := SyscallEvent {
  ev_tgid : Z;
  ev_pid : Z;
  ev_syscall_id : Z;
  ev_ret : Z;
  ev_args : list Z;
  ev_comm : bytes;
  ev_str : bytes;
  ev_str_len : Z;
  ev_sa_family : Z;
  ev_sa_port : Z;
  ev_sa_addr4 : Z;
  ev_sa_addr6 : bytes;
  ev_sa_scope_id : Z;
  ev_sa_valid : Z;
}.

(** Member values of the [struct syscall_event] at the head of [m]. *)
Definition decode_event (m : bytes) : syscall_event := {|
  ev_tgid := get_sint event_fields "tgid" m;
  ev_pid := get_sint event_fields "pid" m;
  ev_syscall_id := get_sint event_fields "syscall_id" m;
  ev_ret := get_sint event_fields "ret" m;
  ev_args := (fun i => get_uint event_fields (elem_name "args" i) m) <$> seq 0 6;
  ev_comm := get_field event_fields "comm" m;
  ev_str := get_field event_fields "str" m;
  ev_str_len := get_uint event_fields "str_len" m;
  ev_sa_family := get_uint event_fields "sa_family" m;
  ev_sa_port := get_uint event_fields "sa_port" m;
  ev_sa_addr4 := get_uint event_fields "sa_addr4" m;
  ev_sa_addr6 := get_field event_fields "sa_addr6" m;
  ev_sa_scope_id := get_uint event_fields "sa_scope_id" m;
  ev_sa_valid := get_uint event_fields "sa_valid" m;
|}.

(** [args[i]] of an event or an enter state. *)
Definition arg (args : list Z) (i : nat) : Z := nth i args 0.

Definition sockaddr_in : fields :=
  [("sin_family", TInt 2); ("sin_port", TInt 2); ("sin_addr", TInt 4);
   ("__pad", char_array 8)].

Definition sockaddr_in6 : fields :=
  [("sin6_family", TInt 2); ("sin6_port", TInt 2); ("sin6_flowinfo", TInt 4);
   ("sin6_addr", TArr (TInt 4) 4); ("sin6_scope_id", TInt 4)].

Lemma event_aligned : aligned event_fields.
Proof. apply (bool_decide_unpack _). vm_compute. done. Qed.

Lemma event_size_eq : event_size = 384%nat.
Proof. vm_compute. done. Qed.

(** ** Well-formed events: what the user-space half may rely on *)

Definition terminated (m : bytes) : Prop := is_Some (cstr m).

(** The string member is used only when [str_len] is in range, and then it is a
    terminated string of that length. *)
Definition str_ok (str : bytes) (len : Z) : Prop :=
  len = 0 \/ exists s, cstr str = Some s /\ len = Z.of_nat (S (length s)).

Record wf_event (e : syscall_event) : Prop := {
  wf_tgid : is_sint 32 (ev_tgid e);
  wf_pid : is_sint 32 (ev_pid e);
  wf_id : is_sint 32 (ev_syscall_id e);
  wf_ret : is_sint 64 (ev_ret e);
  wf_args_len : length (ev_args e) = 6%nat;
  wf_args : Forall (is_uint 64) (ev_args e);
  wf_comm_len : length (ev_comm e) = TASK_COMM_LEN;
  wf_comm : terminated (ev_comm e);
  wf_str_size : length (ev_str e) = SYSCALL_STR_LEN;
  wf_str : str_ok (ev_str e) (ev_str_len e);
  wf_family : is_uint 16 (ev_sa_family e);
  wf_port : is_uint 16 (ev_sa_port e);
  wf_addr4 : is_uint 32 (ev_sa_addr4 e);
  wf_addr6_len : length (ev_sa_addr6 e) = 16%nat;
  wf_scope : is_uint 32 (ev_sa_scope_id e);
  wf_valid : ev_sa_valid e = 0 \/ ev_sa_valid e = 1;
}.

Lemma terminated_elem m : 0 ∈ m <-> terminated m.
Proof.
  unfold terminated. split.
  - induction m as [|c m IH]; [set_solver|]. simpl.
    destruct (Z.eqb_spec c 0) as [->|Hc]; [eauto|].
    intros [?|[s Hs]%IH]%elem_of_cons; [congruence|]. rewrite Hs. eauto.
  - intros [s [_ [r ->]]%cstr_Some]. set_solver.
Qed.

Lemma arg_u64 args i : Forall (is_uint 64) args -> is_uint 64 (arg args i).
Proof.
  intros Ha. unfold arg. destruct (decide (i < length args)%nat) as [Hi|Hi].
  - destruct (lookup_lt_is_Some_2 _ _ Hi) as [x Hx].
    rewrite (nth_lookup_Some _ _ _ _ Hx). by eapply Forall_lookup_1.
  - rewrite nth_overflow by lia. unfold is_uint. lia.
Qed.

#[export] Hint Resolve arg_u64 : cint.
