(* ===== verification/StraceBpf.v ===== *)
(** * The BPF half of libbpfstrace (libbpfstrace.bpf.c)

    The two raw tracepoint programs and their helpers, over any kernel that
    provides the interfaces of [BpfIface]. *)

From stdpp Require Import base list gmap strings.
From Stdlib Require Import ZArith Lia.
From S2P Require Import Prelude Layout BpfIface StraceTypes.

Local Open Scope string_scope.
Local Open Scope list_scope.
Local Open Scope Z_scope.

(** arm64 system-call numbers and address families of the program. *)
Definition NR_OPENAT : Z := 56.
Definition NR_CONNECT : Z := 203.
Definition NR_BIND : Z := 200.
Definition NR_SENDTO : Z := 206.
Definition NR_EXECVE : Z := 221.
Definition NR_OPENAT2 : Z := 437.
Definition AF_INET_VAL : Z := 2.
Definition AF_INET6_VAL : Z := 10.

(** The bounds of the two maps. *)
Definition inflight_max_entries : Z := 16384.
Definition events_max_entries : Z := Z.shiftl 1 24.

Record enter_state := EnterState {
  es_syscall_id : Z;
  es_args : list Z;
  es_comm : bytes;
  es_str : bytes;
  es_str_len : Z;
  es_sa_family : Z;
  es_sa_port : Z;
  es_sa_addr4 : Z;
  es_sa_addr6 : bytes;
  es_sa_scope_id : Z;
  es_sa_valid : Z;
}.

(** [struct enter_state s = {};] *)
Definition enter_state_zero : enter_state := {|
  es_syscall_id := 0; es_args := replicate 6 0; es_comm := replicate TASK_COMM_LEN 0;
  es_str := replicate SYSCALL_STR_LEN 0; es_str_len := 0; es_sa_family := 0;
  es_sa_port := 0; es_sa_addr4 := 0; es_sa_addr6 := replicate 16 0;
  es_sa_scope_id := 0; es_sa_valid := 0 |}.

(** Assignments to members of the state. *)
Definition set_regs (s : enter_state) (id : Z) (args : list Z) (comm : bytes) : enter_state :=
  EnterState id args comm (es_str s) (es_str_len s) (es_sa_family s) (es_sa_port s)
    (es_sa_addr4 s) (es_sa_addr6 s) (es_sa_scope_id s) (es_sa_valid s).

Definition set_str (s : enter_state) (str : bytes) (len : Z) : enter_state :=
  EnterState (es_syscall_id s) (es_args s) (es_comm s) str len (es_sa_family s)
    (es_sa_port s) (es_sa_addr4 s) (es_sa_addr6 s) (es_sa_scope_id s) (es_sa_valid s).

Definition set_family (s : enter_state) (f : Z) : enter_state :=
  EnterState (es_syscall_id s) (es_args s) (es_comm s) (es_str s) (es_str_len s) f
    (es_sa_port s) (es_sa_addr4 s) (es_sa_addr6 s) (es_sa_scope_id s) (es_sa_valid s).

Definition set_addr4 (s : enter_state) (port addr : Z) : enter_state :=
  EnterState (es_syscall_id s) (es_args s) (es_comm s) (es_str s) (es_str_len s)
    (es_sa_family s) port addr (es_sa_addr6 s) (es_sa_scope_id s) 1.

Definition set_addr6 (s : enter_state) (port : Z) (addr : bytes) (scope : Z) : enter_state :=
  EnterState (es_syscall_id s) (es_args s) (es_comm s) (es_str s) (es_str_len s)
    (es_sa_family s) port (es_sa_addr4 s) addr scope 1.

(** A raw tracepoint context: what [BPF_CORE_READ(regs, regs[i])] returns for
    the registers [ctx->args[0]] points to, and [ctx->args[1]]. *)
Record raw_ctx := RawCtx { rc_regs : list Z; rc_arg1 : Z }.

(** PT_REGS_PARMn_CORE on arm64 is [regs[n-1]] (bpf_tracing.h). *)
Definition pt_reg (c : raw_ctx) (i : nat) : Z := uint 64 (nth i (rc_regs c) 0).

Section Programs.
Context {T M R : Type} `{BpfTask T} `{BpfHash Z enter_state M} `{BpfRingbuf R}.

(** The kernel objects of the program: map [inflight], ring buffer [events]. *)
Record kern := Kern { k_inflight : M; k_events : R }.

Definition maybe_capture_string (t : T) (s : enter_state) : enter_state :=
  let p :=
    if (es_syscall_id s =? NR_OPENAT) || (es_syscall_id s =? NR_OPENAT2) then arg (es_args s) 1
    else if es_syscall_id s =? NR_EXECVE then arg (es_args s) 0
    else 0 in
  if p =? 0 then s
  else
    let '(r, str) := probe_read_user_str t (es_str s) SYSCALL_STR_LEN p in
    let n := sint 32 r in
    set_str s str (if 0 <? n then uint 32 n else es_str_len s).

Definition maybe_capture_sockaddr (t : T) (s : enter_state) : enter_state :=
  if negb (es_syscall_id s =? NR_CONNECT) && negb (es_syscall_id s =? NR_BIND)
     && negb (es_syscall_id s =? NR_SENDTO) then s
  else
    let uaddr := arg (es_args s) 1 in
    if uaddr =? 0 then s
    else
      let len := if es_syscall_id s =? NR_SENDTO then arg (es_args s) 5 else arg (es_args s) 2 in
      if len <? 2 then s
      else
        let '(r, fam) := probe_read_user t 2 uaddr in
        if r <? 0 then s
        else
          let family := le_value fam in
          let s := set_family s family in
          if (family =? AF_INET_VAL) && (Z.of_nat (struct_size sockaddr_in) <=? len) then
            let '(r, in4) := probe_read_user t (struct_size sockaddr_in) uaddr in
            if r <? 0 then s
            else
              set_addr4 s (get_uint sockaddr_in "sin_port" in4)
                (get_uint sockaddr_in "sin_addr" in4)
          else if (family =? AF_INET6_VAL) && (Z.of_nat (struct_size sockaddr_in6) <=? len) then
            let '(r, in6) := probe_read_user t (struct_size sockaddr_in6) uaddr in
            if r <? 0 then s
            else
              set_addr6 s (get_uint sockaddr_in6 "sin6_port" in6)
                (get_field sockaddr_in6 "sin6_addr" in6)
                (get_uint sockaddr_in6 "sin6_scope_id" in6)
          else s.

(** [id >> 32] assigned to an [int]. *)
Definition tgid_of (id : Z) : Z := sint 32 (Z.shiftr id 32).

(** The filter of both programs: the event is skipped. *)
Definition filtered (target_tgid id : Z) : bool :=
  negb (target_tgid =? 0) && negb (tgid_of id =? target_tgid).

(** What the entry program stores for a system call of task [t]. *)
Definition enter_record (t : T) (c : raw_ctx) : enter_state :=
  let s := set_regs enter_state_zero (sint 32 (rc_arg1 c)) (pt_reg c <$> seq 0 6)
             (get_current_comm t TASK_COMM_LEN).2 in
  maybe_capture_sockaddr t (maybe_capture_string t s).

Definition handle_sys_enter (target_tgid : Z) (t : T) (c : raw_ctx) (k : kern) : kern * Z :=
  let id := get_current_pid_tgid t in
  if filtered target_tgid id then (k, 0)
  else
    let s := enter_record t c in
    let '(_, m) := hupdate (k_inflight k) id s BPF_ANY in
    (Kern m (k_events k), 0).

(** The assignments to the reserved event, in program order. *)
Definition write_event (id : Z) (s : enter_state) (ret : Z) (e : bytes) : bytes :=
  let e := put_int event_fields "tgid" (tgid_of id) e in
  let e := put_int event_fields "pid" id e in
  let e := put_int event_fields "syscall_id" (es_syscall_id s) e in
  let e := put_int event_fields "ret" ret e in
  let e := put_int event_fields (elem_name "args" 0) (arg (es_args s) 0) e in
  let e := put_int event_fields (elem_name "args" 1) (arg (es_args s) 1) e in
  let e := put_int event_fields (elem_name "args" 2) (arg (es_args s) 2) e in
  let e := put_int event_fields (elem_name "args" 3) (arg (es_args s) 3) e in
  let e := put_int event_fields (elem_name "args" 4) (arg (es_args s) 4) e in
  let e := put_int event_fields (elem_name "args" 5) (arg (es_args s) 5) e in
  let e := set_field event_fields "comm" (es_comm s) e in
  let e := set_field event_fields "str" (es_str s) e in
  let e := put_int event_fields "str_len" (es_str_len s) e in
  let e := put_int event_fields "sa_family" (es_sa_family s) e in
  let e := put_int event_fields "sa_port" (es_sa_port s) e in
  let e := put_int event_fields "sa_addr4" (es_sa_addr4 s) e in
  let e := set_field event_fields "sa_addr6" (es_sa_addr6 s) e in
  let e := put_int event_fields "sa_scope_id" (es_sa_scope_id s) e in
  put_int event_fields "sa_valid" (es_sa_valid s) e.

Definition handle_sys_exit (target_tgid : Z) (t : T) (c : raw_ctx) (k : kern) : kern * Z :=
  let id := get_current_pid_tgid t in
  if filtered target_tgid id then (k, 0)
  else
    match hlookup (k_inflight k) id with
    | None => (k, 0)
    | Some s =>
        match rb_reserve (k_events k) event_size with
        | None =>
            let '(_, m) := hdelete (k_inflight k) id in (Kern m (k_events k), 0)
        | Some (e, r) =>
            let r := rb_submit r (write_event id s (sint 64 (rc_arg1 c)) e) in
            let '(_, m) := hdelete (k_inflight k) id in (Kern m r, 0)
        end
    end.
End Programs.

#[global] Arguments kern : clear implicits.
#[global] Arguments Kern {_ _} _ _.

(** ** Well-formed entry records *)

Record wf_enter (s : enter_state) : Prop := {
  we_id : is_sint 32 (es_syscall_id s);
  we_args_len : length (es_args s) = 6%nat;
  we_args : Forall (is_uint 64) (es_args s);
  we_comm_len : length (es_comm s) = TASK_COMM_LEN;
  we_comm : terminated (es_comm s);
  we_str_size : length (es_str s) = SYSCALL_STR_LEN;
  we_str : str_ok (es_str s) (es_str_len s);
  we_family : is_uint 16 (es_sa_family s);
  we_port : is_uint 16 (es_sa_port s);
  we_addr4 : is_uint 32 (es_sa_addr4 s);
  we_addr6_len : length (es_sa_addr6 s) = 16%nat;
  we_scope : is_uint 32 (es_sa_scope_id s);
  we_valid : es_sa_valid s = 0 \/ es_sa_valid s = 1;
}.

(** The event that a completed call is reported as. *)
Definition event_of (id : Z) (s : enter_state) (ret : Z) : syscall_event := {|
  ev_tgid := tgid_of id;
  ev_pid := sint 32 id;
  ev_syscall_id := es_syscall_id s;
  ev_ret := ret;
  ev_args := es_args s;
  ev_comm := es_comm s;
  ev_str := es_str s;
  ev_str_len := es_str_len s;
  ev_sa_family := es_sa_family s;
  ev_sa_port := es_sa_port s;
  ev_sa_addr4 := es_sa_addr4 s;
  ev_sa_addr6 := es_sa_addr6 s;
  ev_sa_scope_id := es_sa_scope_id s;
  ev_sa_valid := es_sa_valid s;
|}.

Lemma event_of_wf id s ret : wf_enter s -> is_sint 64 ret -> wf_event (event_of id s ret).
Proof.
  intros [] Hr. split; simpl; try done; unfold tgid_of; apply sint_range; lia.
Qed.

(** *** The event written by the exit program *)

Definition int_write (n : string) (z : Z) : string * bytes :=
  (n, le_bytes (field_size event_fields n) z).

Definition event_writes (id : Z) (s : enter_state) (ret : Z) : list (string * bytes) :=
  [int_write "tgid" (tgid_of id); int_write "pid" id;
   int_write "syscall_id" (es_syscall_id s); int_write "ret" ret;
   int_write (elem_name "args" 0) (arg (es_args s) 0);
   int_write (elem_name "args" 1) (arg (es_args s) 1);
   int_write (elem_name "args" 2) (arg (es_args s) 2);
   int_write (elem_name "args" 3) (arg (es_args s) 3);
   int_write (elem_name "args" 4) (arg (es_args s) 4);
   int_write (elem_name "args" 5) (arg (es_args s) 5);
   ("comm", es_comm s); ("str", es_str s); int_write "str_len" (es_str_len s);
   int_write "sa_family" (es_sa_family s); int_write "sa_port" (es_sa_port s);
   int_write "sa_addr4" (es_sa_addr4 s); ("sa_addr6", es_sa_addr6 s);
   int_write "sa_scope_id" (es_sa_scope_id s); int_write "sa_valid" (es_sa_valid s)].

Lemma write_event_writes id s ret e :
  write_event id s ret e = apply_writes event_fields (event_writes id s ret) e.
Proof.
  unfold write_event, put_int, apply_writes, event_writes, int_write.
  cbn [foldl fst snd]. reflexivity.
Qed.

Lemma event_writes_fit id s ret :
  wf_enter s -> writes_fit event_fields (event_writes id s ret).
Proof.
  intros Hs. unfold event_writes, writes_fit.
  repeat (apply Forall_cons; split); [..|apply Forall_nil; done].
  all: try apply length_le_bytes.
  - exact (we_comm_len _ Hs).
  - exact (we_str_size _ Hs).
  - exact (we_addr6_len _ Hs).
Qed.

Lemma event_writes_names id s ret : NoDup ((event_writes id s ret).*1).
Proof. apply (bool_decide_unpack _). vm_compute. done. Qed.

Section WrittenEvent.
Context (id : Z) (s : enter_state) (ret : Z) (slot : bytes).
Hypothesis s_wf : wf_enter s.
Hypothesis slot_size : length slot = event_size.

Lemma length_write_event : length (write_event id s ret slot) = event_size.
Proof using s_wf slot_size.
  rewrite write_event_writes. apply length_apply_writes; auto using event_aligned, event_writes_fit.
Qed.

Lemma written_field n bs :
  assoc n (event_writes id s ret) = Some bs ->
  get_field event_fields n (write_event id s ret slot) = bs.
Proof using s_wf slot_size.
  intros. rewrite write_event_writes.
  apply get_apply_writes; auto using event_aligned, event_writes_fit, event_writes_names.
Qed.

Lemma written_uint n w z :
  assoc n (event_writes id s ret) = Some (le_bytes (field_size event_fields n) z) ->
  8 * Z.of_nat (field_size event_fields n) = w ->
  get_uint event_fields n (write_event id s ret slot) = uint w z.
Proof using s_wf slot_size.
  intros Ha <-. unfold get_uint. rewrite (written_field _ _ Ha). apply le_value_le_bytes.
Qed.

Lemma written_sint n w z :
  assoc n (event_writes id s ret) = Some (le_bytes (field_size event_fields n) z) ->
  8 * Z.of_nat (field_size event_fields n) = w -> 0 < w ->
  get_sint event_fields n (write_event id s ret slot) = sint w z.
Proof using s_wf slot_size.
  intros Ha Hw Hp. unfold get_sint. rewrite (written_uint _ w z) by done.
  rewrite Hw. by apply sint_uint.
Qed.

Lemma written_arg i :
  (i < 6)%nat ->
  get_uint event_fields (elem_name "args" i) (write_event id s ret slot) = arg (es_args s) i.
Proof using s_wf slot_size.
  intros Hi. erewrite (written_uint _ 64 (arg (es_args s) i)).
  - apply uint_id, arg_u64, we_args, s_wf.
  - do 6 (destruct i as [|i]; [reflexivity|]). lia.
  - do 6 (destruct i as [|i]; [reflexivity|]). lia.
Qed.
End WrittenEvent.

Lemma args_by_index args :
  length args = 6%nat -> (fun i => arg args i) <$> seq 0 6 = args.
Proof. do 6 (destruct args as [|? args]; [done|]). by destruct args. Qed.

(** The event the exit program submits decodes to the recorded call with
    its return value, whatever the reserved memory held: every member is
    assigned, at the offset and width the consumer reads it. *)
Lemma decode_written id s ret slot :
  wf_enter s -> is_sint 64 ret -> length slot = event_size ->
  decode_event (write_event id s ret slot) = event_of id s ret.
Proof.
  intros Hs Hr Hl. unfold decode_event, event_of. pose proof Hs as [].
  rewrite (written_field id s ret slot Hs Hl "comm" (es_comm s) eq_refl).
  rewrite (written_field id s ret slot Hs Hl "str" (es_str s) eq_refl).
  rewrite (written_field id s ret slot Hs Hl "sa_addr6" (es_sa_addr6 s) eq_refl).
  f_equal.
  - rewrite (written_sint id s ret slot Hs Hl "tgid" 32 (tgid_of id) eq_refl eq_refl eq_refl).
    apply sint_id, sint_range; lia.
  - by rewrite (written_sint id s ret slot Hs Hl "pid" 32 id eq_refl eq_refl eq_refl).
  - rewrite (written_sint id s ret slot Hs Hl "syscall_id" 32 (es_syscall_id s) eq_refl eq_refl eq_refl).
    by apply sint_id.
  - rewrite (written_sint id s ret slot Hs Hl "ret" 64 ret eq_refl eq_refl eq_refl). by apply sint_id.
  - etransitivity; [|by apply args_by_index].
    apply list_fmap_ext. intros i x [-> Hi]%lookup_seq. by apply written_arg.
  - rewrite (written_uint id s ret slot Hs Hl "str_len" 32 (es_str_len s) eq_refl eq_refl).
    apply uint_id. destruct we_str0 as [->|(str & Hc & ->)]; [unfold is_uint; lia|].
    apply cstr_length in Hc. rewrite we_str_size0 in Hc. unfold SYSCALL_STR_LEN, is_uint in *. lia.
  - rewrite (written_uint id s ret slot Hs Hl "sa_family" 16 (es_sa_family s) eq_refl eq_refl).
    by apply uint_id.
  - rewrite (written_uint id s ret slot Hs Hl "sa_port" 16 (es_sa_port s) eq_refl eq_refl).
    by apply uint_id.
  - rewrite (written_uint id s ret slot Hs Hl "sa_addr4" 32 (es_sa_addr4 s) eq_refl eq_refl).
    by apply uint_id.
  - rewrite (written_uint id s ret slot Hs Hl "sa_scope_id" 32 (es_sa_scope_id s) eq_refl eq_refl).
    by apply uint_id.
  - rewrite (written_uint id s ret slot Hs Hl "sa_valid" 8 (es_sa_valid s) eq_refl eq_refl).
    apply uint_id. unfold is_uint. lia.
Qed.

(** ** What the entry program captures *)

(** [s] is the string that user memory holds at [a], cut to [n - 1] bytes. *)
Definition user_string {T} `{BpfTask T} (t : T) (a : Z) (n : nat) (s : bytes) : Prop :=
  nonul s /\ (length s < n)%nat /\
  (forall i, (i < length s)%nat -> user_byte t (a + Z.of_nat i) = s !! i) /\
  ((S (length s) < n)%nat -> user_byte t (a + Z.of_nat (length s)) = Some 0).

(** User memory at [a] holds the bytes [bs]. *)
Definition user_bytes {T} `{BpfTask T} (t : T) (a : Z) (bs : bytes) : Prop :=
  forall i, (i < length bs)%nat -> user_byte t (a + Z.of_nat i) = bs !! i.

Section Capture.
Context {T : Type} `{BpfTaskLaws T}.

Lemma capture_string_frame t s :
  let s' := maybe_capture_string t s in
  es_syscall_id s' = es_syscall_id s /\ es_args s' = es_args s /\ es_comm s' = es_comm s /\
  es_sa_family s' = es_sa_family s /\ es_sa_port s' = es_sa_port s /\
  es_sa_addr4 s' = es_sa_addr4 s /\ es_sa_addr6 s' = es_sa_addr6 s /\
  es_sa_scope_id s' = es_sa_scope_id s /\ es_sa_valid s' = es_sa_valid s.
Proof using Type.
  unfold maybe_capture_string. case_match; [done|].
  by destruct (probe_read_user_str t (es_str s) SYSCALL_STR_LEN _).
Qed.

(** The string member after the capture, from an empty one: either no string
    (length zero), or the user string at the pointer, terminated. *)
Lemma capture_string_result t s :
  length (es_str s) = SYSCALL_STR_LEN -> es_str_len s = 0 ->
  let s' := maybe_capture_string t s in
  length (es_str s') = SYSCALL_STR_LEN /\
  (es_str_len s' = 0 \/
   exists p str, p <> 0 /\
     (p = arg (es_args s) 1 /\ (es_syscall_id s = NR_OPENAT \/ es_syscall_id s = NR_OPENAT2) \/
      p = arg (es_args s) 0 /\ es_syscall_id s = NR_EXECVE) /\
     cstr (es_str s') = Some str /\ es_str_len s' = Z.of_nat (S (length str)) /\
     user_string t p SYSCALL_STR_LEN str).
Proof.
  intros Hl Hz. unfold maybe_capture_string.
  set (p := if _ || _ then _ else _). destruct (Z.eqb_spec p 0) as [|Hp]; [auto|].
  pose proof (read_str_length t (es_str s) SYSCALL_STR_LEN p ltac:(lia)) as Hlen.
  pose proof (read_str_errno t (es_str s) SYSCALL_STR_LEN p) as Herr.
  pose proof (read_str_ok t (es_str s) SYSCALL_STR_LEN p ltac:(unfold SYSCALL_STR_LEN in *; lia)) as Hok.
  destruct (probe_read_user_str t (es_str s) SYSCALL_STR_LEN p) as [r str']. simpl in *.
  split; [lia|]. destruct (decide (0 <= r)) as [Hr|Hr].
  - right. destruct (Hok Hr) as (str & Hn & Hlt & -> & -> & Hi & Ht).
    assert (is_sint 32 (Z.of_nat (S (length str)))) by (unfold is_sint, SYSCALL_STR_LEN in *; lia).
    exists p, str. split_and!; [done| |by apply cstr_app| |by repeat split].
    + subst p. destruct (_ || _) eqn:E1; [left; split; [done|]|right].
      * apply orb_true_iff in E1. lia.
      * destruct (Z.eqb_spec (es_syscall_id s) NR_EXECVE); done.
    + rewrite sint_id by (done || lia).
      destruct (Z.ltb_spec 0 (Z.of_nat (S (length str)))); [|lia].
      apply uint_id. unfold is_uint, is_sint in *. lia.
  - left. rewrite sint_id; [|lia|unfold is_sint; lia].
    destruct (Z.ltb_spec 0 r); [lia|done].
Qed.
End Capture.

(** The calls whose address is captured, where it is looked for, its length. *)
Definition is_sock_call (s : enter_state) : Prop :=
  es_syscall_id s = NR_CONNECT \/ es_syscall_id s = NR_BIND \/ es_syscall_id s = NR_SENDTO.

Definition sock_addr (s : enter_state) : Z := arg (es_args s) 1.

Definition sock_len (s : enter_state) : Z :=
  if es_syscall_id s =? NR_SENDTO then arg (es_args s) 5 else arg (es_args s) 2.

(** The outcomes of the address capture. *)
Inductive sa_outcome {T} `{BpfTask T} (t : T) (s : enter_state) : enter_state -> Prop :=
| SaNone : sa_outcome t s s
| SaFamily fam :
    is_sock_call s -> sock_addr s <> 0 -> 2 <= sock_len s ->
    probe_read_user t 2 (sock_addr s) = (0, fam) ->
    sa_outcome t s (set_family s (le_value fam))
| SaInet fam in4 :
    is_sock_call s -> sock_addr s <> 0 -> 16 <= sock_len s ->
    probe_read_user t 2 (sock_addr s) = (0, fam) -> le_value fam = AF_INET_VAL ->
    probe_read_user t 16 (sock_addr s) = (0, in4) ->
    sa_outcome t s
      (set_addr4 (set_family s AF_INET_VAL) (get_uint sockaddr_in "sin_port" in4)
         (get_uint sockaddr_in "sin_addr" in4))
| SaInet6 fam in6 :
    is_sock_call s -> sock_addr s <> 0 -> 28 <= sock_len s ->
    probe_read_user t 2 (sock_addr s) = (0, fam) -> le_value fam = AF_INET6_VAL ->
    probe_read_user t 28 (sock_addr s) = (0, in6) ->
    sa_outcome t s
      (set_addr6 (set_family s AF_INET6_VAL) (get_uint sockaddr_in6 "sin6_port" in6)
         (get_field sockaddr_in6 "sin6_addr" in6) (get_uint sockaddr_in6 "sin6_scope_id" in6)).

Lemma sockaddr_in_size : struct_size sockaddr_in = 16%nat.
Proof. reflexivity. Qed.

Lemma sockaddr_in6_size : struct_size sockaddr_in6 = 28%nat.
Proof. reflexivity. Qed.

Lemma sockaddr_in_aligned : aligned sockaddr_in.
Proof. apply (bool_decide_unpack _). vm_compute. done. Qed.

Lemma sockaddr_in6_aligned : aligned sockaddr_in6.
Proof. apply (bool_decide_unpack _). vm_compute. done. Qed.

Section CaptureAddr.
Context {T : Type} `{BpfTaskLaws T}.

(** A read that does not report an error succeeded. *)
Lemma read_user_cases t n a :
  (exists bs, probe_read_user t n a = (0, bs) /\ length bs = n /\ Forall is_byte bs /\
     user_bytes t a bs) \/
  (probe_read_user t n a).1 < 0.
Proof.
  pose proof (read_user_result t n a) as Hr. pose proof (read_user_length t n a) as Hl.
  pose proof (read_user_byte t n a) as Hb. pose proof (read_user_ok t n a) as Ho.
  destruct (probe_read_user t n a) as [r bs]. simpl in *.
  destruct Hr as [->|]; [left|by right]. exists bs. split_and!; auto.
  intros i Hi. apply Ho; [done|lia].
Qed.

Lemma capture_sockaddr_outcome t s : sa_outcome t s (maybe_capture_sockaddr t s).
Proof.
  unfold maybe_capture_sockaddr. rewrite sockaddr_in_size, sockaddr_in6_size.
  cbv zeta. fold (sock_addr s) (sock_len s).
  destruct (_ && _) eqn:Hcall; [constructor|].
  assert (is_sock_call s).
  { unfold is_sock_call. rewrite !andb_false_iff, !negb_false_iff in Hcall. lia. }
  destruct (Z.eqb_spec (sock_addr s) 0); [constructor|].
  destruct (Z.ltb_spec (sock_len s) 2); [constructor|].
  destruct (read_user_cases t 2 (sock_addr s)) as [(fam & Ef & _)|Hf].
  2: { destruct (probe_read_user t 2 _); simpl in *.
       destruct (Z.ltb_spec z 0); [constructor|lia]. }
  rewrite Ef. simpl.
  destruct ((_ =? AF_INET_VAL) && _) eqn:H4.
  { apply andb_true_iff in H4 as [H4 Hlen%Z.leb_le].
    assert (le_value fam = AF_INET_VAL) as Hfam by lia. rewrite Hfam.
    destruct (read_user_cases t 16 (sock_addr s)) as [(in4 & E4 & _)|Hr].
    - rewrite E4. simpl. eapply SaInet; eauto; lia.
    - destruct (probe_read_user t 16 _) as [z b]; simpl in *.
      destruct (Z.ltb_spec z 0); [|lia]. rewrite <- Hfam. eapply SaFamily; eauto. }
  destruct ((_ =? AF_INET6_VAL) && _) eqn:H6; [|eapply SaFamily; eauto].
  apply andb_true_iff in H6 as [H6 Hlen%Z.leb_le].
  assert (le_value fam = AF_INET6_VAL) as Hfam by lia. rewrite Hfam.
  destruct (read_user_cases t 28 (sock_addr s)) as [(in6 & E6 & _)|Hr].
  - rewrite E6. simpl. eapply SaInet6; eauto; lia.
  - destruct (probe_read_user t 28 _) as [z b]; simpl in *.
    destruct (Z.ltb_spec z 0); [|lia]. rewrite <- Hfam. eapply SaFamily; eauto.
Qed.

Lemma read_user_facts t n a bs :
  probe_read_user t n a = (0, bs) ->
  length bs = n /\ Forall is_byte bs /\ user_bytes t a bs.
Proof.
  intros E. destruct (read_user_cases t n a) as [(bs' & E' & ?)|Hr].
  - rewrite E in E'. by simplify_eq.
  - rewrite E in Hr. simpl in Hr. lia.
Qed.

(** Saved integer and array members are the bytes of user memory. *)
Lemma user_field t fs n o ty a bs :
  probe_read_user t (struct_size fs) a = (0, bs) -> aligned fs ->
  field_at fs n = Some (o, ty) -> user_bytes t (a + Z.of_nat o) (get_field fs n bs).
Proof.
  intros (Hl & Hb & Hu)%read_user_facts Hal Hf i Hi.
  rewrite length_get_field in Hi by done. unfold field_size in Hi. rewrite Hf in Hi.
  pose proof (field_in_struct fs n o ty Hal Hf).
  rewrite (lookup_get_field fs bs n o ty) by done.
  rewrite <- Hu by lia. f_equal. lia.
Qed.

Lemma user_uint_field t fs n o ty a bs :
  probe_read_user t (struct_size fs) a = (0, bs) -> aligned fs ->
  field_at fs n = Some (o, ty) ->
  user_bytes t (a + Z.of_nat o) (le_bytes (ty_size ty) (get_uint fs n bs)).
Proof.
  intros E Hal Hf. pose proof (read_user_facts _ _ _ _ E) as (Hl & Hb & _).
  pose proof (user_field t fs n o ty a bs E Hal Hf) as Hu.
  rewrite get_field_le in Hu by done. unfold field_size in Hu. by rewrite Hf in Hu.
Qed.
End CaptureAddr.
