(* ===== verification/StraceCapture.v ===== *)
(** * What libbpfstrace records when a call is entered

    The entry record ([enter_record]: registers, command name, string and
    socket address capture) against the task's user memory. *)

From stdpp Require Import base list gmap strings.
From Stdlib Require Import ZArith Lia.
From S2P Require Import Prelude Layout BpfIface StraceTypes StraceBpf.

Local Open Scope string_scope.
Local Open Scope list_scope.
Local Open Scope Z_scope.

(** The record before the captures. *)
Definition enter_start {T} `{BpfTask T} (t : T) (c : raw_ctx) : enter_state :=
  set_regs enter_state_zero (sint 32 (rc_arg1 c)) (pt_reg c <$> seq 0 6)
    (get_current_comm t TASK_COMM_LEN).2.

Lemma arg_start {T} `{BpfTask T} (t : T) c i :
  (i < 6)%nat -> arg (es_args (enter_start t c)) i = pt_reg c i.
Proof. intros Hi. do 6 (destruct i as [|i]; [reflexivity|]). lia. Qed.

Section Record.
Context {T : Type} `{BpfTaskLaws T}.
Implicit Types (t : T) (c : raw_ctx).

Lemma enter_start_wf t c : wf_enter (enter_start t c).
Proof.
  split; simpl; try (done || (unfold is_uint; lia)).
  - apply sint_range. lia.
  - repeat (constructor; [apply uint_range; lia|]). constructor.
  - apply comm_length.
  - apply terminated_elem, comm_terminated. unfold TASK_COMM_LEN. lia.
  - by left.
Qed.

Lemma capture_string_wf t s :
  wf_enter s -> es_str_len s = 0 -> wf_enter (maybe_capture_string t s).
Proof.
  intros [] Hz. destruct (capture_string_frame t s) as (?&?&?&?&?&?&?&?&?).
  destruct (capture_string_result t s we_str_size Hz) as [? Hstr].
  split; try congruence.
  destruct Hstr as [?|(p & str & _ & _ & ? & ? & _)]; [by left|right; eauto].
Qed.

Lemma sa_outcome_wf t s s' : wf_enter s -> sa_outcome t s s' -> wf_enter s'.
Proof.
  intros [] Ho. destruct Ho as [|fam _ _ _ E|fam in4 _ _ _ _ _ E|fam in6 _ _ _ _ _ E];
    split; simpl; try (done || by right).
  all: apply read_user_facts in E as (Hl & Hb & _).
  - replace 16 with (8 * Z.of_nat (length fam)) by lia. by apply le_value_range.
  - by apply (get_uint_range _ sockaddr_in_aligned).
  - by apply (get_uint_range _ sockaddr_in_aligned).
  - by apply (get_uint_range _ sockaddr_in6_aligned).
  - by apply (length_get_field _ sockaddr_in6_aligned).
  - by apply (get_uint_range _ sockaddr_in6_aligned).
Qed.

Lemma sa_outcome_frame t s s' :
  sa_outcome t s s' ->
  es_syscall_id s' = es_syscall_id s /\ es_args s' = es_args s /\ es_comm s' = es_comm s /\
  es_str s' = es_str s /\ es_str_len s' = es_str_len s.
Proof using Type. by destruct 1. Qed.

Lemma enter_record_wf t c : wf_enter (enter_record t c).
Proof.
  eapply sa_outcome_wf; [|apply capture_sockaddr_outcome].
  by apply capture_string_wf, eq_refl; apply enter_start_wf.
Qed.

(** The registers and the call number are those of the context. *)
Lemma enter_record_frame t c :
  let s := enter_record t c in
  es_syscall_id s = sint 32 (rc_arg1 c) /\ es_args s = (pt_reg c <$> seq 0 6) /\
  es_comm s = (get_current_comm t TASK_COMM_LEN).2.
Proof.
  unfold enter_record. fold (enter_start t c).
  destruct (sa_outcome_frame t _ _ (capture_sockaddr_outcome t (maybe_capture_string t (enter_start t c))))
    as (-> & -> & -> & _).
  by destruct (capture_string_frame t (enter_start t c)) as (-> & -> & -> & _).
Qed.

(** C20: string capture.  The entry record of a call has a string only for
    openat, openat2 and execve with a non-null pointer; the string is the
    one user memory holds at the pointer argument of that call (argument 1,
    1 and 0), cut to 255 bytes, terminated inside the 256-byte member, and
    [str_len] counts it with its terminator. *)
Theorem enter_record_string t c :
  let s := enter_record t c in
  es_str_len s = 0 \/
  exists p str, p <> 0 /\
    (p = pt_reg c 1 /\ (es_syscall_id s = NR_OPENAT \/ es_syscall_id s = NR_OPENAT2) \/
     p = pt_reg c 0 /\ es_syscall_id s = NR_EXECVE) /\
    cstr (es_str s) = Some str /\ es_str_len s = Z.of_nat (S (length str)) /\
    user_string t p SYSCALL_STR_LEN str.
Proof.
  unfold enter_record. fold (enter_start t c). set (s1 := maybe_capture_string t _).
  destruct (sa_outcome_frame t _ _ (capture_sockaddr_outcome t s1)) as (-> & _ & _ & -> & ->).
  destruct (capture_string_frame t (enter_start t c)) as (Hid & _). fold s1 in Hid. rewrite Hid.
  destruct (capture_string_result t (enter_start t c)) as [_ Hs]; [done|done|]. fold s1 in Hs.
  rewrite !arg_start in Hs by lia. exact Hs.
Qed.

(** C21: address capture.  A record is marked valid only for connect, bind
    and sendto with a non-null argument 1 and a length that covers the
    structure, and then port, address and scope are, byte for byte, what user
    memory holds at argument 1 in a sockaddr_in or sockaddr_in6. *)
Theorem enter_record_sockaddr t c :
  let s := enter_record t c in
  let a := pt_reg c 1 in
  let len := if es_syscall_id s =? NR_SENDTO then pt_reg c 5 else pt_reg c 2 in
  es_sa_valid s = 0 \/
  es_sa_valid s = 1 /\ is_sock_call s /\ a <> 0 /\
  (es_sa_family s = AF_INET_VAL /\ 16 <= len /\
     user_bytes t (a + 2) (le_bytes 2 (es_sa_port s)) /\
     user_bytes t (a + 4) (le_bytes 4 (es_sa_addr4 s)) \/
   es_sa_family s = AF_INET6_VAL /\ 28 <= len /\
     user_bytes t (a + 2) (le_bytes 2 (es_sa_port s)) /\
     user_bytes t (a + 8) (es_sa_addr6 s) /\
     user_bytes t (a + 24) (le_bytes 4 (es_sa_scope_id s))).
Proof.
  unfold enter_record. fold (enter_start t c). set (s1 := maybe_capture_string t _).
  destruct (capture_string_frame t (enter_start t c))
    as (Hid & Hargs & _ & _ & _ & _ & _ & _ & Hv). fold s1 in Hid, Hargs, Hv.
  assert (sock_addr s1 = pt_reg c 1) as Ha by (unfold sock_addr; rewrite Hargs; by apply arg_start; lia).
  assert (sock_len s1 = if es_syscall_id s1 =? NR_SENDTO then pt_reg c 5 else pt_reg c 2) as Hlen.
  { unfold sock_len. rewrite Hargs, !arg_start by lia. done. }
  destruct (capture_sockaddr_outcome t s1) as [|fam Hc Hn Hl E|fam in4 Hc Hn Hl Ef Hf E|fam in6 Hc Hn Hl Ef Hf E].
  - left. exact Hv.
  - left. exact Hv.
  - right. rewrite Ha, Hlen in *. split_and!; [done..|left; split_and!; [done..| |]].
    + exact (user_uint_field t sockaddr_in "sin_port" _ _ _ _ E sockaddr_in_aligned eq_refl).
    + exact (user_uint_field t sockaddr_in "sin_addr" _ _ _ _ E sockaddr_in_aligned eq_refl).
  - right. rewrite Ha, Hlen in *. split_and!; [done..|right; split_and!; [done..| | |]].
    + exact (user_uint_field t sockaddr_in6 "sin6_port" _ _ _ _ E sockaddr_in6_aligned eq_refl).
    + exact (user_field t sockaddr_in6 "sin6_addr" _ _ _ _ E sockaddr_in6_aligned eq_refl).
    + exact (user_uint_field t sockaddr_in6 "sin6_scope_id" _ _ _ _ E sockaddr_in6_aligned eq_refl).
Qed.

(** C37: the destination address of sendto (argument 4) is never consulted:
    two sendto calls that agree on every other argument get the same socket
    address members, whatever argument 4 is. *)
Theorem sendto_ignores_dest_addr t c c' :
  sint 32 (rc_arg1 c) = NR_SENDTO -> rc_arg1 c' = rc_arg1 c ->
  (forall i, i <> 4%nat -> pt_reg c' i = pt_reg c i) ->
  let s := enter_record t c in
  let s' := enter_record t c' in
  es_sa_valid s' = es_sa_valid s /\ es_sa_family s' = es_sa_family s /\
  es_sa_port s' = es_sa_port s /\ es_sa_addr4 s' = es_sa_addr4 s /\
  es_sa_addr6 s' = es_sa_addr6 s /\ es_sa_scope_id s' = es_sa_scope_id s.
Proof.
  intros Hid Heq Hregs.
  assert (forall c0, sint 32 (rc_arg1 c0) = NR_SENDTO ->
    enter_record t c0 = maybe_capture_sockaddr t (enter_start t c0)) as Hrec.
  { intros c0 Hc0. unfold enter_record. fold (enter_start t c0). f_equal.
    unfold maybe_capture_string. change (es_syscall_id (enter_start t c0)) with (sint 32 (rc_arg1 c0)).
    rewrite Hc0. reflexivity. }
  intros s s'. subst s s'. rewrite !Hrec by congruence. unfold maybe_capture_sockaddr.
  change (es_syscall_id (enter_start t c)) with (sint 32 (rc_arg1 c)).
  change (es_syscall_id (enter_start t c')) with (sint 32 (rc_arg1 c')).
  rewrite Heq, Hid, !arg_start by lia. rewrite !Hregs by lia.
  repeat case_match; done.
Qed.
End Record.
