(* ===== verification/StraceTrace.v ===== *)
(** * Sequences of tracepoint hits: refinement of an abstract call tracker

    The kernel runs the entry program when a thread enters a system call and
    the exit program when it leaves it.  Here the two programs run on arbitrary
    interleaved sequences of hits of all threads, and are shown to implement a
    tracker that remembers the open call of each thread and reports it, with
    its return value, when it completes.  One program invocation is one step:
    the key of [inflight] is the current thread, and no two invocations of the
    same thread overlap. *)

From stdpp Require Import base list gmap strings.
From Stdlib Require Import ZArith Lia.
From S2P Require Import Prelude Layout BpfIface StraceTypes StraceBpf StraceCapture.

Local Open Scope Z_scope.

Inductive hit (T : Type) :=
| HEnter (t : T) (c : raw_ctx)
| HExit (t : T) (c : raw_ctx).
#[global] Arguments HEnter {_} _ _.
#[global] Arguments HExit {_} _ _.

Definition hit_task {T} (h : hit T) : T :=
  match h with HEnter t _ | HExit t _ => t end.

Definition hit_id {T} `{BpfTask T} (h : hit T) : Z := get_current_pid_tgid (hit_task h).

(** ** The implementation on a sequence of hits *)

Section Run.
Context {T M R : Type} `{BpfTask T} `{BpfHash Z enter_state M} `{BpfRingbuf R}.

Definition bpf_step (target_tgid : Z) (k : kern M R) (h : hit T) : kern M R :=
  match h with
  | HEnter t c => (handle_sys_enter target_tgid t c k).1
  | HExit t c => (handle_sys_exit target_tgid t c k).1
  end.

Definition bpf_run (target_tgid : Z) (k : kern M R) (hs : list (hit T)) : kern M R :=
  foldl (bpf_step target_tgid) k hs.

(** The events waiting in the ring buffer. *)
Definition reported (k : kern M R) : list syscall_event :=
  decode_event <$> rb_records (k_events k).

(** The ring buffer has room for an event. *)
Definition has_room (k : kern M R) : bool := bool_decide (is_Some (rb_reserve (k_events k) event_size)).

(** The hits, each with whether the ring buffer has room when it comes. *)
Fixpoint with_room (target_tgid : Z) (k : kern M R) (hs : list (hit T)) : list (hit T * bool) :=
  match hs with
  | [] => []
  | h :: hs => (h, has_room k) :: with_room target_tgid (bpf_step target_tgid k h) hs
  end.

Lemma with_room_snoc target_tgid k hs h :
  with_room target_tgid k (hs ++ [h]) = with_room target_tgid k hs ++ [(h, has_room (bpf_run target_tgid k hs))].
Proof using Type. revert k. induction hs as [|h' hs IH]; intros k; [done|]. cbn [app with_room]. by rewrite IH. Qed.

Lemma with_room_hits target_tgid k hs : (with_room target_tgid k hs).*1 = hs.
Proof using Type. revert k. induction hs as [|h hs IH]; intros k; [done|]. cbn. by rewrite IH. Qed.
End Run.

(** ** The tracker *)

Record tracker := Tracker {
  open_calls : gmap Z enter_state;
  reports : list syscall_event;
}.

Section Spec.
Context {T : Type} `{BpfTask T}.
Context (target_tgid : Z) (max : nat).

(** A hit comes with whether the ring buffer had room for its report. *)
Inductive track : tracker -> hit T * bool -> tracker -> Prop :=
| TrFiltered tr h b :
    filtered target_tgid (hit_id h) = true -> track tr (h, b) tr
| TrOpen tr t c b :
    filtered target_tgid (get_current_pid_tgid t) = false ->
    track tr (HEnter t c, b)
      (Tracker (<[get_current_pid_tgid t := enter_record t c]> (open_calls tr)) (reports tr))
| TrLost tr t c b :
    (** the table is full of other threads' calls *)
    filtered target_tgid (get_current_pid_tgid t) = false ->
    open_calls tr !! get_current_pid_tgid t = None -> (max <= size (open_calls tr))%nat ->
    track tr (HEnter t c, b) tr
| TrOrphan tr t c b :
    filtered target_tgid (get_current_pid_tgid t) = false ->
    open_calls tr !! get_current_pid_tgid t = None ->
    track tr (HExit t c, b) tr
| TrReport tr t c s :
    filtered target_tgid (get_current_pid_tgid t) = false ->
    open_calls tr !! get_current_pid_tgid t = Some s ->
    track tr (HExit t c, true)
      (Tracker (delete (get_current_pid_tgid t) (open_calls tr))
         (reports tr ++ [event_of (get_current_pid_tgid t) s (sint 64 (rc_arg1 c))]))
| TrDrop tr t c s :
    (** no room in the ring buffer *)
    filtered target_tgid (get_current_pid_tgid t) = false ->
    open_calls tr !! get_current_pid_tgid t = Some s ->
    track tr (HExit t c, false)
      (Tracker (delete (get_current_pid_tgid t) (open_calls tr)) (reports tr)).

Inductive tracks : tracker -> list (hit T * bool) -> tracker -> Prop :=
| TracksNil tr : tracks tr [] tr
| TracksSnoc tr xs tr' x tr'' :
    tracks tr xs tr' -> track tr' x tr'' -> tracks tr (xs ++ [x]) tr''.
End Spec.

(** ** The simulation *)

Section Simulation.
Context {T M R : Type} `{BpfTask T, !BpfTaskLaws T}
  `{BpfHash Z enter_state M, !BpfHashLaws Z enter_state M, !BpfHashCapacity Z enter_state M}
  `{BpfRingbuf R, !BpfRingbufLaws R}.
Implicit Types (k : kern M R) (tr : tracker).

(** Same open calls, same reports; stored records are well formed, and
    submitted records have the size the consumer checks. *)
Record sim k tr : Prop := {
  sim_open id : hlookup (k_inflight k) id = open_calls tr !! id;
  sim_count : hcount (k_inflight k) = size (open_calls tr);
  sim_reports : reported k = reports tr;
  sim_wf : map_Forall (fun _ s => wf_enter s) (open_calls tr);
  sim_size : Forall (fun m => length m = event_size) (rb_records (k_events k));
}.

Lemma enter_unfold target_tgid t c k :
  filtered target_tgid (get_current_pid_tgid t) = false ->
  (handle_sys_enter target_tgid t c k).1 =
    Kern (hupdate (k_inflight k) (get_current_pid_tgid t) (enter_record t c) BPF_ANY).2
      (k_events k).
Proof using Type.
  unfold handle_sys_enter. intros ->. by destruct (hupdate _ _ _ BPF_ANY).
Qed.

Lemma exit_unfold target_tgid t c k s :
  filtered target_tgid (get_current_pid_tgid t) = false ->
  hlookup (k_inflight k) (get_current_pid_tgid t) = Some s ->
  (handle_sys_exit target_tgid t c k).1 =
    Kern (hdelete (k_inflight k) (get_current_pid_tgid t)).2
      match rb_reserve (k_events k) event_size with
      | None => k_events k
      | Some (e, r) =>
          rb_submit r (write_event (get_current_pid_tgid t) s (sint 64 (rc_arg1 c)) e)
      end.
Proof using Type.
  unfold handle_sys_exit. intros -> ->.
  destruct (rb_reserve _ event_size) as [[e r]|]; by destruct (hdelete _ _).
Qed.

Lemma enter_filtered target_tgid t c k :
  filtered target_tgid (get_current_pid_tgid t) = true ->
  handle_sys_enter target_tgid t c k = (k, 0).
Proof using Type. unfold handle_sys_enter. by intros ->. Qed.

Lemma exit_skipped target_tgid t c k :
  filtered target_tgid (get_current_pid_tgid t) = true \/
  hlookup (k_inflight k) (get_current_pid_tgid t) = None ->
  handle_sys_exit target_tgid t c k = (k, 0).
Proof using Type.
  unfold handle_sys_exit. intros [->| ->]; [done|]. by destruct (filtered _ _).
Qed.

Lemma sim_delete k tr id s r :
  sim k tr -> open_calls tr !! id = Some s ->
  Forall (fun m => length m = event_size) (rb_records r) ->
  sim (Kern (hdelete (k_inflight k) id).2 r)
    (Tracker (delete id (open_calls tr)) (decode_event <$> rb_records r)).
Proof.
  intros [Ho Hc _ Hwf _] Hid Hr.
  assert (is_Some (hlookup (k_inflight k) id)) as Hs by (rewrite Ho; eauto).
  split; simpl; try done.
  - intros id'. rewrite hdelete_ok by (by apply hdelete_present).
    rewrite lookup_delete, Ho. done.
  - pose proof (hcount_delete _ _ Hs). rewrite map_size_delete_Some by eauto. lia.
  - by apply map_Forall_delete.
Qed.

Lemma sim_insert k tr id s :
  sim k tr -> wf_enter s -> (hupdate (k_inflight k) id s BPF_ANY).1 = 0 ->
  sim (Kern (hupdate (k_inflight k) id s BPF_ANY).2 (k_events k))
    (Tracker (<[id:=s]> (open_calls tr)) (reports tr)).
Proof.
  intros [Ho Hc Hr Hwf Hz] Hs Hok. split; simpl; try done.
  - intros id'. rewrite hupdate_ok by done. rewrite lookup_insert, Ho. done.
  - destruct (open_calls tr !! id) as [s'|] eqn:E.
    + rewrite hcount_update_old by (rewrite Ho, E; eauto).
      rewrite map_size_insert_Some by eauto. done.
    + rewrite hcount_update_new by (rewrite ?Ho; done).
      rewrite map_size_insert_None by done. by f_equal.
  - by apply map_Forall_insert_2.
Qed.

Lemma sim_unchanged k tr id s :
  sim k tr -> (hupdate (k_inflight k) id s BPF_ANY).1 <> 0 ->
  sim (Kern (hupdate (k_inflight k) id s BPF_ANY).2 (k_events k)) tr.
Proof.
  intros [Ho Hc Hr Hwf Hz] Hf. split; simpl; try done.
  - intros id'. by rewrite hupdate_fail.
  - by rewrite hcount_update_fail.
Qed.

Lemma sim_enter target_tgid k tr t c :
  sim k tr ->
  exists tr', track target_tgid (hmax (k_inflight k)) tr (HEnter t c, has_room k) tr' /\
    sim (handle_sys_enter target_tgid t c k).1 tr'.
Proof.
  intros Hsim. destruct (filtered target_tgid (get_current_pid_tgid t)) eqn:Hf.
  { exists tr. split; [by constructor|]. by rewrite enter_filtered. }
  rewrite enter_unfold by done.
  set (id := get_current_pid_tgid t) in *. set (s := enter_record t c).
  destruct (decide ((hupdate (k_inflight k) id s BPF_ANY).1 = 0)) as [Hok|Hok].
  - eexists. split; [by apply TrOpen|]. apply sim_insert; [done|apply enter_record_wf|done].
  - exists tr. split; [|by apply sim_unchanged].
    destruct (decide (is_Some (hlookup (k_inflight k) id) \/
                      (hcount (k_inflight k) < hmax (k_inflight k))%nat)) as [Hd|Hd].
    { destruct Hok. by apply hupdate_any_room. }
    destruct Hsim as [Ho Hc _ _ _]. apply TrLost; [done| |rewrite <- Hc; lia].
    fold id. rewrite <- Ho. destruct (hlookup (k_inflight k) id); [|done]. destruct Hd. eauto.
Qed.

Lemma sim_exit target_tgid k tr t c :
  sim k tr ->
  exists tr', track target_tgid (hmax (k_inflight k)) tr (HExit t c, has_room k) tr' /\
    sim (handle_sys_exit target_tgid t c k).1 tr'.
Proof.
  intros Hsim. destruct (filtered target_tgid (get_current_pid_tgid t)) eqn:Hf.
  { exists tr. split; [by constructor|]. by rewrite exit_skipped by auto. }
  set (id := get_current_pid_tgid t) in *. pose proof Hsim as [Ho _ Hr Hwf Hz].
  destruct (open_calls tr !! id) as [s|] eqn:E.
  2: { exists tr. split; [by apply TrOrphan|]. rewrite exit_skipped; [done|right].
       fold id. by rewrite Ho. }
  rewrite (exit_unfold _ _ _ _ s) by (fold id; rewrite ?Ho; done). unfold has_room.
  destruct (rb_reserve (k_events k) event_size) as [[e r]|] eqn:Er;
    [rewrite bool_decide_true by eauto|rewrite bool_decide_false by (by intros [])].
  - pose proof (rb_reserve_records _ _ _ _ Er) as Hrec. pose proof (rb_reserve_length _ _ _ _ Er) as Hlen.
    pose proof (map_Forall_lookup_1 _ _ _ _ Hwf E) as Hs. cbv beta in Hs.
    set (w := write_event id s (sint 64 (rc_arg1 c)) e).
    exists (Tracker (delete id (open_calls tr)) (decode_event <$> rb_records (rb_submit r w))).
    split; [|apply (sim_delete _ _ _ s); [done..|]].
    + rewrite rb_submit_records, Hrec, fmap_app. subst w. cbn [fmap list_fmap].
      rewrite decode_written; [|done|apply sint_range; lia|done].
      fold (reported k). rewrite Hr. by apply TrReport.
    + rewrite rb_submit_records, Hrec. apply Forall_app; split; [done|].
      constructor; [by apply length_write_event|constructor].
  - exists (Tracker (delete id (open_calls tr)) (reports tr)). split; [by apply (TrDrop _ _ _ _ _ s)|].
    rewrite <- Hr. by apply (sim_delete _ _ _ s).
Qed.

Lemma hmax_step target_tgid k h :
  hmax (k_inflight (bpf_step target_tgid k h)) = hmax (k_inflight k).
Proof.
  destruct h as [t c|t c]; simpl;
    destruct (filtered target_tgid (get_current_pid_tgid t)) eqn:Hf.
  - by rewrite enter_filtered.
  - rewrite enter_unfold by done. apply hmax_update.
  - by rewrite exit_skipped by auto.
  - destruct (hlookup (k_inflight k) (get_current_pid_tgid t)) as [s|] eqn:E.
    + rewrite (exit_unfold _ _ _ _ s) by done. apply hmax_delete.
    + by rewrite exit_skipped by auto.
Qed.

Lemma hmax_run target_tgid k hs :
  hmax (k_inflight (bpf_run target_tgid k hs)) = hmax (k_inflight k).
Proof.
  induction hs as [|h hs IH] using rev_ind; [done|].
  unfold bpf_run in *. rewrite foldl_app. simpl. by rewrite hmax_step, IH.
Qed.

Lemma bpf_run_snoc target_tgid k hs h :
  bpf_run target_tgid k (hs ++ [h]) = bpf_step target_tgid (bpf_run target_tgid k hs) h.
Proof using Type. unfold bpf_run. by rewrite foldl_app. Qed.

Lemma bpf_run_sim target_tgid k tr hs :
  sim k tr ->
  exists tr', tracks target_tgid (hmax (k_inflight k)) tr (with_room target_tgid k hs) tr' /\
    sim (bpf_run target_tgid k hs) tr'.
Proof.
  intros Hsim. induction hs as [|h hs (tr' & Htr & IH)] using rev_ind.
  { exists tr. split; [constructor|done]. }
  rewrite bpf_run_snoc, with_room_snoc. rewrite <- (hmax_run target_tgid k hs) in Htr |- *.
  destruct h as [t c|t c];
    [destruct (sim_enter target_tgid _ _ t c IH) as (tr'' & Hstep & Hs)
    |destruct (sim_exit target_tgid _ _ t c IH) as (tr'' & Hstep & Hs)];
    exists tr''; (split; [by econstructor|done]).
Qed.
End Simulation.

(** ** Facts about the tracker, by induction on its runs *)

Section TrackerFacts.
Context {T : Type} `{BpfTask T}.
Context (target_tgid : Z) (max : nat).
Implicit Types (hs : list (hit T)).

Definition fresh_tracker : tracker := Tracker ∅ [].

(** Hit [h] is not of thread [id]. *)
Definition not_of (id : Z) (h : hit T) : Prop := hit_id h <> id.

(** Call [s] of thread [id] is open at the end of [hs]: [s] was recorded at
    the last hit of that thread, an entry. *)
Definition open_in (hs : list (hit T)) (id : Z) (s : enter_state) : Prop :=
  filtered target_tgid id = false /\
  exists h1 t c h2, hs = h1 ++ HEnter t c :: h2 /\ get_current_pid_tgid t = id /\
    s = enter_record t c /\ Forall (not_of id) h2.

(** Event [e] is the call entered and left by consecutive hits of a thread. *)
Definition completed_in (hs : list (hit T)) (e : syscall_event) : Prop :=
  exists h1 t c h2 t' c' h3,
    hs = h1 ++ HEnter t c :: h2 ++ HExit t' c' :: h3 /\
    get_current_pid_tgid t' = get_current_pid_tgid t /\
    Forall (not_of (get_current_pid_tgid t)) h2 /\
    filtered target_tgid (get_current_pid_tgid t) = false /\
    e = event_of (get_current_pid_tgid t) (enter_record t c) (sint 64 (rc_arg1 c')).

Lemma open_in_snoc hs h id s :
  open_in hs id s -> hit_id h <> id -> open_in (hs ++ [h]) id s.
Proof using Type.
  intros (Hf & h1 & t & c & h2 & -> & Ht & -> & Hn) Hh. split; [done|].
  exists h1, t, c, (h2 ++ [h]). split_and!; [by rewrite <- app_assoc|done..|].
  apply Forall_app; split; [done|]. by repeat constructor.
Qed.

Lemma completed_in_snoc hs h e : completed_in hs e -> completed_in (hs ++ [h]) e.
Proof using Type.
  intros (h1 & t & c & h2 & t' & c' & h3 & -> & ?). exists h1, t, c, h2, t', c', (h3 ++ [h]).
  split; [|done]. by rewrite <- !app_assoc; simpl; rewrite <- app_assoc.
Qed.

Lemma tracks_open (xs : list (hit T * bool)) tr id s :
  tracks target_tgid max fresh_tracker xs tr -> open_calls tr !! id = Some s ->
  open_in xs.*1 id s.
Proof using Type.
  remember fresh_tracker as tr0 eqn:E0. intros Htr. revert id s.
  induction Htr as [tr|tr xs tr' x tr'' _ IH Hstep]; intros id s.
  { subst tr. done. }
  specialize (IH E0). rewrite fmap_app.
  destruct Hstep as [tr1 h b Hf|tr1 t c b Hf|tr1 t c b Hf Hn _|tr1 t c b Hf Hn|tr1 t c s' Hf Hs|tr1 t c s' Hf Hs];
    cbn [fmap list_fmap fst open_calls].
  - intros Ho%IH. apply open_in_snoc; [done|]. destruct Ho as [Hf' _]. congruence.
  - rewrite lookup_insert. case_decide as Hid.
    + intros [= <-]. split; [by rewrite <- Hid|]. exists xs.*1, t, c, []. done.
    + intros Ho%IH. by apply open_in_snoc.
  - intros Ho. apply open_in_snoc; [by apply IH|]. unfold hit_id; simpl. congruence.
  - intros Ho. apply open_in_snoc; [by apply IH|]. unfold hit_id; simpl. congruence.
  - rewrite lookup_delete. case_decide; [done|]. intros Ho%IH. by apply open_in_snoc.
  - rewrite lookup_delete. case_decide; [done|]. intros Ho%IH. by apply open_in_snoc.
Qed.

Lemma tracks_reports (xs : list (hit T * bool)) tr e :
  tracks target_tgid max fresh_tracker xs tr -> e ∈ reports tr -> completed_in xs.*1 e.
Proof using Type.
  remember fresh_tracker as tr0 eqn:E0. intros Htr. revert e.
  induction Htr as [tr|tr xs tr' x tr'' Htr IH Hstep]; intros e.
  { subst tr. simpl. set_solver. }
  specialize (IH E0). subst tr. rewrite fmap_app.
  destruct Hstep as [tr1 h b Hf|tr1 t c b Hf|tr1 t c b Hf Hn _|tr1 t c b Hf Hn|tr1 t c s' Hf Hs|tr1 t c s' Hf Hs];
    cbn [fmap list_fmap fst reports]; try (intros He%IH; by apply completed_in_snoc).
  intros [He%IH|He]%elem_of_app; [by apply completed_in_snoc|].
  apply list_elem_of_singleton in He. subst e.
  destruct (tracks_open _ _ _ _ Htr Hs) as (_ & h1 & t0 & c0 & h2 & -> & Ht & -> & Hn).
  exists h1, t0, c0, h2, t, c, []. rewrite Ht.
  split_and!; [by rewrite <- app_assoc|done..].
Qed.
End TrackerFacts.

(** ** The reference matcher

    What the tracker computes when no call is lost: a fold over the hits. *)

Definition match_step {T} `{BpfTask T} (target_tgid : Z) (tr : tracker) (h : hit T) : tracker :=
  if filtered target_tgid (hit_id h) then tr
  else
    match h with
    | HEnter t c => Tracker (<[hit_id h := enter_record t c]> (open_calls tr)) (reports tr)
    | HExit t c =>
        match open_calls tr !! hit_id h with
        | None => tr
        | Some s =>
            Tracker (delete (hit_id h) (open_calls tr))
              (reports tr ++ [event_of (hit_id h) s (sint 64 (rc_arg1 c))])
        end
    end.

Definition match_calls {T} `{BpfTask T} (target_tgid : Z) (hs : list (hit T)) : tracker :=
  foldl (match_step target_tgid) fresh_tracker hs.

Section MatcherFacts.
Context {T : Type} `{BpfTask T}.
Context (target_tgid : Z).
Implicit Types (hs : list (hit T)).

Definition ids_of hs : gset Z := list_to_set (hit_id <$> hs).

Lemma match_calls_snoc hs h :
  match_calls target_tgid (hs ++ [h]) = match_step target_tgid (match_calls target_tgid hs) h.
Proof using Type. unfold match_calls. by rewrite foldl_app. Qed.

Lemma match_calls_dom hs : dom (open_calls (match_calls target_tgid hs)) ⊆ ids_of hs.
Proof using Type.
  induction hs as [|h hs IH] using rev_ind; [done|].
  rewrite match_calls_snoc. unfold ids_of in *. rewrite fmap_app, list_to_set_app_L.
  unfold match_step. repeat case_match; simpl; rewrite ?dom_insert_L, ?dom_delete_L; set_solver.
Qed.

End MatcherFacts.

Section Matcher.
Context {T M R : Type} `{BpfTask T, !BpfTaskLaws T}
  `{BpfHash Z enter_state M, !BpfHashLaws Z enter_state M, !BpfHashCapacity Z enter_state M}
  `{BpfRingbuf R, !BpfRingbufLaws R}.
Context (target_tgid : Z).
Implicit Types (k : kern M R) (hs : list (hit T)).

(** One step of the implementation is one step of the matcher when the map
    and the ring buffer have room. *)
Lemma step_matches k tr h :
  sim k tr ->
  (is_Some (open_calls tr !! hit_id h) \/ (size (open_calls tr) < hmax (k_inflight k))%nat) ->
  is_Some (rb_reserve (k_events k) event_size) ->
  sim (bpf_step target_tgid k h) (match_step target_tgid tr h).
Proof.
  intros Hsim Hroom [[e r] Hring]. pose proof Hsim as [Ho Hc Hr Hwf Hz]. unfold match_step.
  destruct h as [t c|t c]; unfold hit_id in *; simpl in *;
    destruct (filtered target_tgid (get_current_pid_tgid t)) eqn:Hf.
  - by rewrite enter_filtered.
  - rewrite enter_unfold by done. apply sim_insert; [done|apply enter_record_wf|].
    apply hupdate_any_room. rewrite Ho, Hc. done.
  - by rewrite exit_skipped by auto.
  - destruct (open_calls tr !! get_current_pid_tgid t) as [s|] eqn:E.
    2: { rewrite exit_skipped; [done|right]. by rewrite Ho. }
    destruct (sim_exit target_tgid k tr t c Hsim) as (tr' & Hstep & Hs).
    rewrite (exit_unfold _ _ _ _ s), Hring in Hs |- * by (rewrite ?Ho; done).
    pose proof (rb_reserve_records _ _ _ _ Hring) as Hrec.
    pose proof (map_Forall_lookup_1 _ _ _ _ Hwf E) as Hw.
    assert (reports tr ++ [event_of (get_current_pid_tgid t) s (sint 64 (rc_arg1 c))] =
      decode_event <$> rb_records (rb_submit r (write_event (get_current_pid_tgid t) s
                                     (sint 64 (rc_arg1 c)) e))) as ->.
    { rewrite rb_submit_records, Hrec, fmap_app, <- Hr. cbn [fmap list_fmap].
      rewrite decode_written; [done|done|apply sint_range; lia|by eapply rb_reserve_length]. }
    apply (sim_delete _ _ _ s); [done..|]. by destruct Hs.
Qed.

(** Room for every thread in the map and, at every point, for one record in
    the ring buffer. *)
Definition roomy k hs : Prop :=
  (size (ids_of hs) <= hmax (k_inflight k))%nat /\
  forall i, (i < length hs)%nat ->
    is_Some (rb_reserve (k_events (bpf_run target_tgid k (take i hs))) event_size).

Lemma roomy_snoc k hs h :
  roomy k (hs ++ [h]) ->
  roomy k hs /\ (size (ids_of hs ∪ {[hit_id h]}) <= hmax (k_inflight k))%nat /\
  is_Some (rb_reserve (k_events (bpf_run target_tgid k hs)) event_size).
Proof.
  unfold roomy, ids_of. rewrite fmap_app, list_to_set_app_L, length_app. simpl.
  rewrite union_empty_r_L. intros [Hs Hr]. split_and!.
  - etransitivity; [|exact Hs]. apply subseteq_size. set_solver.
  - intros i Hi. specialize (Hr i ltac:(lia)). by rewrite take_app_le in Hr by lia.
  - done.
  - specialize (Hr (length hs) ltac:(lia)). by rewrite take_app_length in Hr.
Qed.

Lemma run_matches k hs :
  sim k fresh_tracker -> roomy k hs ->
  sim (bpf_run target_tgid k hs) (match_calls target_tgid hs).
Proof.
  intros Hsim. induction hs as [|h hs IH] using rev_ind; [done|].
  intros (Hroomy & Hsize & Hring)%roomy_snoc. rewrite bpf_run_snoc, match_calls_snoc.
  apply step_matches; [by apply IH| |done]. rewrite hmax_run.
  pose proof (match_calls_dom target_tgid hs) as Hd.
  destruct (open_calls (match_calls target_tgid hs) !! hit_id h) eqn:E; [eauto|right].
  eapply Nat.lt_le_trans; [|exact Hsize]. rewrite <- size_dom.
  apply not_elem_of_dom in E.
  assert (size ({[hit_id h]} ∪ dom (open_calls (match_calls target_tgid hs)) : gset Z) <=
          size (ids_of hs ∪ {[hit_id h]}))%nat as Hle by (apply subseteq_size; set_solver).
  rewrite size_union, size_singleton in Hle by set_solver. lia.
Qed.
End Matcher.
