(* ===== verification/StraceConc.v ===== *)
(** * Programs on several CPUs

    In StraceTrace a program runs to its end before the next one starts.  Here
    the programs of different threads interleave between their operations on
    the shared map and ring buffer.  A record is visible to the consumer in the
    order of reservation, once it and all before it are submitted.  Every such
    execution is a run of the call tracker on an order of the hits that keeps
    the order of each thread, with a table smaller by the number of programs
    that may be in progress at once. *)

From stdpp Require Import base list gmap strings.
From Stdlib Require Import ZArith Lia.
From S2P Require Import Prelude Layout BpfIface StraceTypes StraceBpf StraceCapture StraceTrace.

Local Open Scope Z_scope.

(** ** Ring buffers with records in progress

    [cr_slots]: all records so far in the order of reservation, [None] while one
    is being written; [cr_taken]: how many the consumer has taken. *)

Class BpfRingSlots (C : Type) := {
  cr_reserve : C -> nat -> option (nat * bytes * C);
  cr_submit : C -> nat -> bytes -> C;
  cr_slots : C -> list (option bytes);
  cr_take : C -> nat -> C;
  cr_taken : C -> nat;
}.

(** The records the consumer can see: up to the first that is being written. *)
Fixpoint ready_prefix (slots : list (option bytes)) : list bytes :=
  match slots with Some rec :: slots => rec :: ready_prefix slots | _ => [] end.

Definition ready {C} `{BpfRingSlots C} (c : C) : list bytes := ready_prefix (cr_slots c).

(** Those it can take. *)
Definition unread {C} `{BpfRingSlots C} (c : C) : list bytes := drop (cr_taken c) (ready c).

Class BpfRingSlotsLaws (C : Type) `{BpfRingSlots C} := {
  cr_reserve_slot c n i e c' :
    cr_reserve c n = Some (i, e, c') ->
    i = length (cr_slots c) /\ length e = n /\ cr_slots c' = cr_slots c ++ [None] /\ cr_taken c' = cr_taken c;
  cr_submit_slot c i rec : cr_slots (cr_submit c i rec) = <[i := Some rec]> (cr_slots c);
  cr_submit_taken c i rec : cr_taken (cr_submit c i rec) = cr_taken c;
  cr_take_slots c n : cr_slots (cr_take c n) = cr_slots c;
  cr_take_taken c n : (n <= length (unread c))%nat -> cr_taken (cr_take c n) = (cr_taken c + n)%nat;
}.

(** ** The programs as sequences of operations on shared objects

    [ORead] is the copy through the pointer a lookup returned. *)

Inductive ops :=
| ORet
| OUpdate (k : Z) (v : enter_state) (next : ops)
| OLookup (k : Z) (next : bool -> ops)
| ORead (k : Z) (next : enter_state -> ops)
| ODelete (k : Z) (next : ops)
| OReserve (n : nat) (next : option (nat * bytes) -> ops)
| OSubmit (slot : nat) (rec : bytes) (next : ops).

Section Programs.
Context {T : Type} `{BpfTask T} (target_tgid : Z).

Definition sys_enter_ops (t : T) (c : raw_ctx) : ops :=
  let id := get_current_pid_tgid t in
  if filtered target_tgid id then ORet else OUpdate id (enter_record t c) ORet.

(** The copies into the reserved record, the submission and the deletion. *)
Definition fill_ops (id ret : Z) (slot : nat) (e : bytes) : ops :=
  ORead id (fun s => OSubmit slot (write_event id s ret e) (ODelete id ORet)).

Definition reserve_ops (id ret : Z) : ops :=
  OReserve event_size (fun o =>
    match o with
    | None => ODelete id ORet
    | Some (slot, e) => fill_ops id ret slot e
    end).

Definition sys_exit_ops (t : T) (c : raw_ctx) : ops :=
  let id := get_current_pid_tgid t in
  if filtered target_tgid id then ORet
  else OLookup id (fun b => if b : bool then reserve_ops id (sint 64 (rc_arg1 c)) else ORet).

Definition ops_of (h : hit T) : ops :=
  match h with HEnter t c => sys_enter_ops t c | HExit t c => sys_exit_ops t c end.
End Programs.

(** Without interruption the operations are the functions of the source. *)
Section Atomic.
Context {T M R : Type} `{BpfTask T} `{BpfHash Z enter_state M} `{BpfRingbuf R}.

Fixpoint run_ops (p : ops) (k : kern M R) : option (kern M R) :=
  match p with
  | ORet => Some k
  | OUpdate key v next => run_ops next (Kern (hupdate (k_inflight k) key v BPF_ANY).2 (k_events k))
  | OLookup key next => run_ops (next (bool_decide (is_Some (hlookup (k_inflight k) key)))) k
  | ORead key next => s ← hlookup (k_inflight k) key; run_ops (next s) k
  | ODelete key next => run_ops next (Kern (hdelete (k_inflight k) key).2 (k_events k))
  | OReserve n next =>
      match rb_reserve (k_events k) n with
      | None => run_ops (next None) k
      | Some (e, r) => run_ops (next (Some (0%nat, e))) (Kern (k_inflight k) r)
      end
  | OSubmit _ rec next => run_ops next (Kern (k_inflight k) (rb_submit (k_events k) rec))
  end.

(** Each hit, run alone, does what [bpf_step] says. *)
Lemma run_ops_of target_tgid (h : hit T) (k : kern M R) :
  run_ops (ops_of target_tgid h) k = Some (bpf_step target_tgid k h).
Proof.
  destruct k as [m r], h as [t c|t c]; cbn [ops_of bpf_step].
  - unfold sys_enter_ops, handle_sys_enter. destruct (filtered _ _); [done|]. simpl.
    by destruct (hupdate m _ _ _).
  - unfold sys_exit_ops, handle_sys_exit. destruct (filtered _ _); [done|]. simpl.
    destruct (hlookup m _) as [s|] eqn:E; simpl; [|done].
    destruct (rb_reserve r event_size) as [[e r']|]; simpl; rewrite ?E; simpl; by destruct (hdelete m _).
Qed.
End Atomic.

(** ** Interleaved execution *)

(** What is observed of an execution: a program starts at a hit, or the ring
    buffer has no room for the record that the program of a thread asks for. *)
Inductive obs (H : Type) := Began (h : H) | Refused (id : Z).
#[global] Arguments Began {_} _.
#[global] Arguments Refused {_} _.

Definition obs_map {A B} (f : A -> B) (o : obs A) : obs B :=
  match o with Began h => Began (f h) | Refused id => Refused id end.

Definition began {H} (o : obs H) : option H := match o with Began h => Some h | Refused _ => None end.

Definition refusal {H} (o : obs H) : option Z := match o with Began _ => None | Refused id => Some id end.

(** The hits, in the order in which their programs start. *)
Definition begun {H} (os : list (obs H)) : list H := omap began os.

(** The threads whose records were refused, in order. *)
Definition refused {H} (os : list (obs H)) : list Z := omap refusal os.

Lemma begun_app {H} (os os' : list (obs H)) : begun (os ++ os') = begun os ++ begun os'.
Proof. apply omap_app. Qed.

Lemma refused_app {H} (os os' : list (obs H)) : refused (os ++ os') = refused os ++ refused os'.
Proof. apply omap_app. Qed.

Lemma begun_map {A B} (f : A -> B) os : begun (obs_map f <$> os) = f <$> begun os.
Proof. induction os as [|[] os IH]; [done|..]; cbn; unfold begun in *; by rewrite IH. Qed.

Lemma refused_map {A B} (f : A -> B) os : refused (obs_map f <$> os) = refused os.
Proof. induction os as [|[] os IH]; [done|..]; cbn; unfold refused in *; by rewrite IH. Qed.

Section Conc.
Context {T M C : Type} `{BpfTask T} `{BpfHash Z enter_state M} `{BpfRingSlots C}.

(** One operation; [None] when a pointer into the map is used after its entry
    is gone. *)
Definition exec_op (p : ops) (m : M) (c : C) : option (ops * M * C) :=
  match p with
  | ORet => None
  | OUpdate key v next => Some (next, (hupdate m key v BPF_ANY).2, c)
  | OLookup key next => Some (next (bool_decide (is_Some (hlookup m key))), m, c)
  | ORead key next => s ← hlookup m key; Some (next s, m, c)
  | ODelete key next => Some (next, (hdelete m key).2, c)
  | OReserve n next =>
      match cr_reserve c n with
      | None => Some (next None, m, c)
      | Some (i, e, c') => Some (next (Some (i, e)), m, c')
      end
  | OSubmit i rec next => Some (next, m, cr_submit c i rec)
  end.

(** The shared objects and the rest of each program in progress, by thread. *)
Record cfg := Cfg { g_map : M; g_ring : C; g_run : gmap Z ops }.

(** What is observed of an operation of thread [id]. *)
Definition op_obs (id : Z) (p : ops) (c : C) : list (obs (hit T)) :=
  match p with
  | OReserve n _ => match cr_reserve c n with None => [Refused id] | Some _ => [] end
  | _ => []
  end.

(** At most [cpus] programs are in progress, and at most one of a thread. *)
Inductive cstep (target_tgid : Z) (cpus : nat) : cfg -> list (obs (hit T)) -> cfg -> Prop :=
| CBegin m c run h :
    run !! hit_id h = None -> (size run < cpus)%nat ->
    cstep target_tgid cpus (Cfg m c run) [Began h] (Cfg m c (<[hit_id h := ops_of target_tgid h]> run))
| COp m c run id p p' m' c' :
    run !! id = Some p -> exec_op p m c = Some (p', m', c') ->
    cstep target_tgid cpus (Cfg m c run) (op_obs id p c) (Cfg m' c' (<[id := p']> run))
| CEnd m c run id :
    run !! id = Some ORet ->
    cstep target_tgid cpus (Cfg m c run) [] (Cfg m c (delete id run)).

(** Steps of the programs; the consumer takes records at any time. *)
Inductive creach (target_tgid : Z) (cpus : nat) (g : cfg) : list (obs (hit T)) -> cfg -> Prop :=
| CReachNil : creach target_tgid cpus g [] g
| CReachSnoc os g' l g'' :
    creach target_tgid cpus g os g' -> cstep target_tgid cpus g' l g'' ->
    creach target_tgid cpus g (os ++ l) g''
| CReachTake os m c run n :
    creach target_tgid cpus g os (Cfg m c run) -> (n <= length (unread c))%nat ->
    creach target_tgid cpus g os (Cfg m (cr_take c n) run).
End Conc.
#[global] Arguments cfg : clear implicits.

(** ** Where each program is

    What a program in progress relies on: the entry of its thread, the slot it
    reserved and the report promised for it.  Once a program has reserved its
    record, or failed to, its call is over for the tracker while the entry is
    still in the map: the thread is closing. *)

Record view := View {
  v_val : Z -> option enter_state;
  v_slots : list (option bytes);
  v_reports : list syscall_event;
  v_closing : gset Z;
}.

Section Phases.
Context {T : Type} `{BpfTask T} (target_tgid : Z).

(** The hit if it has not taken effect, and the slot being written. *)
Record ghost := Ghost { gh_pending : list (hit T); gh_slot : option nat }.

Inductive phase (v : view) (id : Z) : ops -> ghost -> Prop :=
| PhEnter t c :
    get_current_pid_tgid t = id -> filtered target_tgid id = false -> (id ∉ v_closing v) ->
    phase v id (OUpdate id (enter_record t c) ORet) (Ghost [HEnter t c] None)
| PhLookup t c :
    get_current_pid_tgid t = id -> filtered target_tgid id = false -> (id ∉ v_closing v) ->
    phase v id (sys_exit_ops target_tgid t c) (Ghost [HExit t c] None)
| PhReserve t c s :
    get_current_pid_tgid t = id -> filtered target_tgid id = false -> (id ∉ v_closing v) ->
    v_val v id = Some s ->
    phase v id (reserve_ops id (sint 64 (rc_arg1 c))) (Ghost [HExit t c] None)
| PhFill s ret i e :
    id ∈ v_closing v -> v_val v id = Some s -> wf_enter s -> is_sint 64 ret ->
    length e = event_size -> v_slots v !! i = Some None ->
    v_reports v !! i = Some (event_of id s ret) ->
    phase v id (fill_ops id ret i e) (Ghost [] (Some i))
| PhSubmit i rec :
    id ∈ v_closing v -> is_Some (v_val v id) -> length rec = event_size ->
    v_slots v !! i = Some None -> v_reports v !! i = Some (decode_event rec) ->
    phase v id (OSubmit i rec (ODelete id ORet)) (Ghost [] (Some i))
| PhDelete :
    id ∈ v_closing v -> is_Some (v_val v id) -> phase v id (ODelete id ORet) (Ghost [] None)
| PhDone :
    (id ∉ v_closing v) -> phase v id ORet (Ghost [] None).

Lemma phase_slot v id p g i : phase v id p g -> gh_slot g = Some i -> v_slots v !! i = Some None.
Proof using Type. destruct 1; simpl; by intros [= <-]. Qed.

(** The step of another thread, which has slot [mine]. *)
Record untouched (id : Z) (mine : option nat) (v v' : view) : Prop := {
  un_val : v_val v' id = v_val v id;
  un_closing : id ∈ v_closing v' <-> id ∈ v_closing v;
  un_reports : v_reports v `prefix_of` v_reports v';
  un_slots i : v_slots v !! i = Some None -> Some i <> mine -> v_slots v' !! i = Some None;
}.

Lemma phase_stable v v' id mine p g :
  untouched id mine v v' -> (forall i, gh_slot g = Some i -> Some i <> mine) ->
  phase v id p g -> phase v' id p g.
Proof using Type.
  intros [Hv Hc Hr Hs] Hm Hp.
  assert (forall i e, v_reports v !! i = Some e -> v_reports v' !! i = Some e) as Hr'
    by (intros i e Hi; by eapply prefix_lookup_Some).
  destruct Hp as [t c|t c|t c s|s ret i e|i rec| |]; simpl in Hm.
  - apply PhEnter; [done..|by rewrite Hc].
  - apply PhLookup; [done..|by rewrite Hc].
  - apply (PhReserve _ _ _ _ s); [done..|by rewrite Hc|by rewrite Hv].
  - apply (PhFill _ _ s); [by rewrite Hc|by rewrite Hv|done..|by apply Hs; [|apply Hm]|by apply Hr'].
  - apply PhSubmit; [by rewrite Hc|by rewrite Hv|done|by apply Hs; [|apply Hm]|by apply Hr'].
  - apply PhDelete; [by rewrite Hc|by rewrite Hv].
  - apply PhDone. by rewrite Hc.
Qed.

(** All programs in progress, with their ghosts. *)
Record threads (v : view) (run : gmap Z ops) (gh : gmap Z ghost) : Prop := {
  th_phase id p : run !! id = Some p -> exists g, gh !! id = Some g /\ phase v id p g;
  th_ghost id g : gh !! id = Some g -> is_Some (run !! id);
  th_inj id1 id2 g1 g2 i :
    gh !! id1 = Some g1 -> gh !! id2 = Some g2 -> gh_slot g1 = Some i -> gh_slot g2 = Some i -> id1 = id2;
  th_busy i : v_slots v !! i = Some None -> exists id g, gh !! id = Some g /\ gh_slot g = Some i;
}.

Lemma th_slot v run gh id g i :
  threads v run gh -> gh !! id = Some g -> gh_slot g = Some i -> v_slots v !! i = Some None.
Proof using Type.
  intros Hth Hg Hi. destruct (th_ghost _ _ _ Hth _ _ Hg) as [p Hp].
  destruct (th_phase _ _ _ Hth _ _ Hp) as (g' & Hg' & Hph). simplify_eq. by eapply phase_slot.
Qed.

(** Thread [id] moves on; the slots of the others stay theirs. *)
Lemma threads_step v v' run gh id g p' g' :
  threads v run gh -> gh !! id = Some g ->
  (forall id', id' <> id -> untouched id' (gh_slot g) v v') ->
  phase v' id p' g' ->
  (forall i, gh_slot g' = Some i -> gh_slot g = Some i \/ v_slots v !! i = None) ->
  (forall i, v_slots v' !! i = Some None ->
     gh_slot g' = Some i \/ v_slots v !! i = Some None /\ gh_slot g <> Some i) ->
  threads v' (<[id := p']> run) (<[id := g']> gh).
Proof using Type.
  intros Hth Hg Hun Hph Hnew Hbusy.
  assert (forall id2 g2 i, id2 <> id -> gh !! id2 = Some g2 -> gh_slot g' = Some i -> gh_slot g2 <> Some i) as Hne.
  { intros id2 g2 i Hid Hg2 Hi Hi2. destruct (Hnew i Hi) as [Ho|Ho].
    - apply Hid. symmetry. by eapply (th_inj _ _ _ Hth).
    - pose proof (th_slot _ _ _ _ _ _ Hth Hg2 Hi2). congruence. }
  split.
  - intros id' q. rewrite !lookup_insert. case_decide as E; [subst id'; intros [= <-]; eauto|].
    intros Hq. destruct (th_phase _ _ _ Hth _ _ Hq) as (g2 & Hg2 & Hp2). exists g2. split; [done|].
    eapply phase_stable; [apply Hun; congruence| |done]. intros i Hi Hm.
    apply E. by eapply (th_inj _ _ _ Hth).
  - intros id' g2. rewrite !lookup_insert. case_decide; [eauto|]. by apply (th_ghost _ _ _ Hth).
  - intros id1 id2 g1 g2 i. rewrite !lookup_insert.
    repeat case_decide; intros; simplify_eq; try done.
    + by edestruct (Hne id2 g2 i); [congruence|..].
    + by edestruct (Hne id1 g1 i); [congruence|..].
    + by eapply (th_inj _ _ _ Hth).
  - intros i Hi. destruct (Hbusy i Hi) as [Hb|[Hb Hno]].
    + exists id, g'. by rewrite lookup_insert_eq.
    + destruct (th_busy _ _ _ Hth i Hb) as (id2 & g2 & Hg2 & Hi2). exists id2, g2.
      rewrite lookup_insert_ne; [done|]. intros ->. simplify_eq.
Qed.

(** A program starts. *)
Lemma threads_begin v run gh id p pend :
  threads v run gh -> run !! id = None -> phase v id p (Ghost pend None) ->
  threads v (<[id := p]> run) (<[id := Ghost pend None]> gh).
Proof using Type.
  intros Hth Hid Hph. assert (gh !! id = None) as Hg.
  { apply eq_None_not_Some. intros [g Hg]. destruct (th_ghost _ _ _ Hth _ _ Hg). congruence. }
  split.
  - intros id' q. rewrite !lookup_insert. case_decide; [subst; intros [= <-]; eauto|]. by apply (th_phase _ _ _ Hth).
  - intros id' g2. rewrite !lookup_insert. case_decide; [eauto|]. by apply (th_ghost _ _ _ Hth).
  - intros id1 id2 g1 g2 i. rewrite !lookup_insert. repeat case_decide; intros; simplify_eq/=; try done.
    by eapply (th_inj _ _ _ Hth).
  - intros i Hi. destruct (th_busy _ _ _ Hth i Hi) as (id2 & g2 & Hg2 & Hi2). exists id2, g2.
    rewrite lookup_insert_ne; [done|]. intros ->. congruence.
Qed.

(** A program ends. *)
Lemma threads_end v run gh id g :
  threads v run gh -> gh !! id = Some g -> gh_slot g = None ->
  threads v (delete id run) (delete id gh).
Proof using Type.
  intros Hth Hg Hs. split.
  - intros id' q. rewrite !lookup_delete. case_decide; [done|]. by apply (th_phase _ _ _ Hth).
  - intros id' g2. rewrite !lookup_delete. case_decide; [done|]. by apply (th_ghost _ _ _ Hth).
  - intros id1 id2 g1 g2 i. rewrite !lookup_delete. repeat case_decide; try done. by apply (th_inj _ _ _ Hth).
  - intros i Hi. destruct (th_busy _ _ _ Hth i Hi) as (id2 & g2 & Hg2 & Hi2). exists id2, g2.
    rewrite lookup_delete_ne; [done|]. intros ->. congruence.
Qed.
End Phases.
#[global] Arguments ghost : clear implicits.

(** ** The simulation *)

Definition thread_hits {T} `{BpfTask T} (id : Z) (hs : list (hit T)) : list (hit T) :=
  filter (fun h => hit_id h = id) hs.

(** The threads of the hits that came without room in the ring buffer. *)
Definition no_room {T} `{BpfTask T} (xs : list (hit T * bool)) : list Z :=
  omap (fun x => if x.2 : bool then None else Some (hit_id x.1)) xs.

Definition pending {T} (gh : gmap Z (ghost T)) (id : Z) : list (hit T) :=
  match gh !! id with Some g => gh_pending g | None => [] end.

Section Shared.
Context {M C : Type}
  `{BpfHash Z enter_state M, !BpfHashLaws Z enter_state M, !BpfHashCapacity Z enter_state M}
  `{BpfRingSlots C, !BpfRingSlotsLaws C}.

(** The tracker [tr] and the shared objects, with [cl] the closing threads. *)
Record shared (m : M) (c : C) (tr : tracker) (cl : gset Z) : Prop := {
  sh_plain id : (id ∉ cl) -> hlookup m id = open_calls tr !! id;
  sh_closing id : id ∈ cl -> open_calls tr !! id = None /\ is_Some (hlookup m id);
  sh_count : hcount m = (size (open_calls tr) + size cl)%nat;
  sh_wf : map_Forall (fun _ s => wf_enter s) (open_calls tr);
  sh_len : length (cr_slots c) = length (reports tr);
  sh_ready i rec :
    cr_slots c !! i = Some (Some rec) ->
    length rec = event_size /\ reports tr !! i = Some (decode_event rec);
}.

Lemma shared_insert m c tr cl id s :
  shared m c tr cl -> (id ∉ cl) -> wf_enter s -> (hupdate m id s BPF_ANY).1 = 0 ->
  shared (hupdate m id s BPF_ANY).2 c (Tracker (<[id:=s]> (open_calls tr)) (reports tr)) cl.
Proof.
  intros [Hp Hc Hn Hwf Hl Hr] Hid Hs Hok. split; simpl; try done.
  - intros id' Hid'. rewrite hupdate_ok by done. rewrite lookup_insert, Hp; [done|done].
  - intros id' Hid'. destruct (Hc id' Hid') as [Ho [s' Hs']].
    rewrite hupdate_ok by done. assert (id <> id') by (intros ->; done).
    rewrite lookup_insert_ne, decide_False by done. eauto.
  - destruct (open_calls tr !! id) as [s'|] eqn:E.
    + rewrite hcount_update_old by (rewrite Hp, E; eauto). by rewrite map_size_insert_Some by eauto.
    + rewrite hcount_update_new by (rewrite ?Hp; done). rewrite map_size_insert_None by done. lia.
  - by apply map_Forall_insert_2.
Qed.

Lemma shared_lost m c tr cl id s :
  shared m c tr cl -> (hupdate m id s BPF_ANY).1 <> 0 -> shared (hupdate m id s BPF_ANY).2 c tr cl.
Proof.
  intros [Hp Hc Hn Hwf Hl Hr] Hf. split; try done.
  - intros id' Hid'. rewrite hupdate_fail by done. by apply Hp.
  - intros id' Hid'. rewrite hupdate_fail by done. by apply Hc.
  - by rewrite hcount_update_fail.
Qed.

(** The call of [id] is over for the tracker. *)
Lemma shared_close m c tr cl id s :
  shared m c tr cl -> (id ∉ cl) -> hlookup m id = Some s ->
  shared m c (Tracker (delete id (open_calls tr)) (reports tr)) ({[id]} ∪ cl).
Proof.
  intros [Hp Hc Hn Hwf Hl Hr] Hid Hs. assert (open_calls tr !! id = Some s) as Ho by (by rewrite <- Hp).
  split; simpl; try done.
  - intros id' Hid'. rewrite lookup_delete_ne by set_solver. apply Hp. set_solver.
  - intros id' [->%elem_of_singleton|Hid']%elem_of_union; [rewrite lookup_delete_eq; eauto|].
    rewrite lookup_delete_ne by (intros ->; done). by apply Hc.
  - rewrite map_size_delete_Some by eauto. rewrite size_union by set_solver. rewrite size_singleton.
    assert (size (open_calls tr) <> 0)%nat; [|lia]. intros Hz%map_size_empty_inv. rewrite Hz in Ho. done.
  - by apply map_Forall_delete.
Qed.

Lemma shared_reserve m c c' tr cl e :
  shared m c tr cl -> cr_slots c' = cr_slots c ++ [None] ->
  shared m c' (Tracker (open_calls tr) (reports tr ++ [e])) cl.
Proof.
  intros [Hp Hc Hn Hwf Hl Hr] Hs. split; simpl; try done.
  - rewrite Hs, !length_app. simpl. lia.
  - intros i rec Hi. rewrite Hs, lookup_app in Hi. destruct (cr_slots c !! i) as [o|] eqn:E.
    + injection Hi as ->. destruct (Hr _ _ E) as [? Hx]. split; [done|]. by apply lookup_app_l_Some.
    + by destruct (i - length (cr_slots c))%nat.
Qed.

Lemma shared_submit m c tr cl i rec :
  shared m c tr cl -> length rec = event_size -> reports tr !! i = Some (decode_event rec) ->
  shared m (cr_submit c i rec) tr cl.
Proof.
  intros [Hp Hc Hn Hwf Hl Hr] Hlen He. split; try done.
  - by rewrite cr_submit_slot, length_insert.
  - intros j rec'. rewrite cr_submit_slot. intros [(-> & [= ->] & _)|[_ ?]]%list_lookup_insert_Some; eauto.
Qed.

Lemma shared_delete m c tr cl id :
  shared m c tr cl -> id ∈ cl -> shared (hdelete m id).2 c tr (cl ∖ {[id]}).
Proof.
  intros [Hp Hc Hn Hwf Hl Hr] Hid. destruct (Hc id Hid) as [Ho Hs].
  pose proof (hdelete_present m id Hs) as Hok. split; try done.
  - intros id' Hid'. rewrite hdelete_ok by done. case_decide; [by subst|]. apply Hp. set_solver.
  - intros id' Hid'. destruct (Hc id' ltac:(set_solver)) as [? ?]. rewrite hdelete_ok by done.
    rewrite decide_False by set_solver. done.
  - assert ({[id]} ⊆ cl) as Hsub by set_solver. pose proof (hcount_delete m id Hs).
    pose proof (subseteq_size _ _ Hsub) as Hle. rewrite size_difference by done.
    rewrite size_singleton in *. lia.
Qed.
End Shared.

Section Linearize.
Context {T M C : Type} `{BpfTask T, !BpfTaskLaws T}
  `{BpfHash Z enter_state M, !BpfHashLaws Z enter_state M, !BpfHashCapacity Z enter_state M}
  `{BpfRingSlots C, !BpfRingSlotsLaws C}.
Context (target_tgid : Z) (max cpus : nat).
Implicit Types (hs : list (hit T)) (os : list (obs (hit T))) (lin : list (hit T * bool)) (m : M) (c : C).

Definition view_of m c (tr : tracker) (cl : gset Z) : view :=
  View (hlookup m) (cr_slots c) (reports tr) cl.

(** [lin] is the order in which the hits take effect, with the answer of the ring
    buffer where it was asked. *)
Record cinv (g : cfg M C) os lin (tr : tracker) (cl : gset Z) (gh : gmap Z (ghost T)) : Prop := {
  ci_tracks : tracks target_tgid (max - cpus) fresh_tracker lin tr;
  ci_max : hmax (g_map g) = max;
  ci_shared : shared (g_map g) (g_ring g) tr cl;
  ci_threads : threads target_tgid (view_of (g_map g) (g_ring g) tr cl) (g_run g) gh;
  ci_bound : (size (g_run g) <= cpus)%nat;
  ci_sub : cl ⊆ dom (g_run g);
  ci_order id : thread_hits id (begun os) = thread_hits id lin.*1 ++ pending gh id;
  ci_refused : no_room lin = refused os;
}.

Lemma thread_hits_app id hs hs' : thread_hits id (hs ++ hs') = thread_hits id hs ++ thread_hits id hs'.
Proof using Type. apply filter_app. Qed.

Lemma thread_hits_one id (h : hit T) : thread_hits id [h] = if decide (hit_id h = id) then [h] else [].
Proof using Type. unfold thread_hits. rewrite filter_cons, filter_nil. by case_decide. Qed.

(** The hit of [id] has not taken effect yet, or does so now. *)
Definition effect id lin (g : ghost T) lin' (g' : ghost T) : Prop :=
  lin' = lin /\ gh_pending g' = gh_pending g \/
  exists h b, lin' = lin ++ [(h, b)] /\ hit_id h = id /\ gh_pending g = [h] /\ gh_pending g' = [].

Lemma no_room_app lin lin' : no_room (lin ++ lin') = no_room lin ++ no_room lin'.
Proof using Type. apply omap_app. Qed.

(** One operation of thread [id]. *)
Lemma cinv_op l m c run os lin tr cl gh id p g m' c' p' lin' tr' cl' g' :
  cinv (Cfg m c run) os lin tr cl gh -> run !! id = Some p -> gh !! id = Some g ->
  tracks target_tgid (max - cpus) fresh_tracker lin' tr' -> hmax m' = hmax m -> shared m' c' tr' cl' ->
  phase target_tgid (view_of m' c' tr' cl') id p' g' ->
  (forall id', id' <> id ->
     untouched id' (gh_slot g) (view_of m c tr cl) (view_of m' c' tr' cl')) ->
  (forall i, gh_slot g' = Some i -> gh_slot g = Some i \/ cr_slots c !! i = None) ->
  (forall i, cr_slots c' !! i = Some None ->
     gh_slot g' = Some i \/ cr_slots c !! i = Some None /\ gh_slot g <> Some i) ->
  effect id lin g lin' g' -> begun l = [] -> no_room lin' = no_room lin ++ refused l ->
  cinv (Cfg m' c' (<[id := p']> run)) (os ++ l) lin' tr' cl' (<[id := g']> gh).
Proof using Type.
  intros [Ht Hm Hs Hth Hb Hsub Ho Href] Hp Hg Ht' Hm' Hs' Hph Hun Hnew Hbusy He Hl Hnr. split; cbn [g_map g_ring g_run] in *.
  - done.
  - congruence.
  - done.
  - by eapply threads_step.
  - by rewrite map_size_insert_Some by eauto.
  - intros id' Hid'. rewrite dom_insert_lookup_L by eauto.
    destruct (decide (id' = id)) as [->|Hne]; [by eapply elem_of_dom_2|].
    apply Hsub. by apply (un_closing _ _ _ _ (Hun id' Hne)).
  - intros id'. specialize (Ho id'). rewrite begun_app, Hl, app_nil_r. unfold pending in *.
    rewrite lookup_insert. case_decide as E.
    + subst id'. rewrite Hg in Ho. destruct He as [[-> ->]|(h & b & -> & Hh & Hpe & ->)]; [done|].
      rewrite fmap_app, thread_hits_app. cbn [fmap list_fmap fst].
      by rewrite Ho, Hpe, thread_hits_one, decide_True, app_nil_r by done.
    + destruct He as [[-> _]|(h & b & -> & Hh & _ & _)]; [done|].
      rewrite fmap_app, thread_hits_app. cbn [fmap list_fmap fst].
      by rewrite Ho, thread_hits_one, decide_False, app_nil_r by congruence.
  - by rewrite refused_app, <- Href.
Qed.

(** What the operations leave alone. *)
Lemma untouched_map m m' c tr tr' cl cl' mine id id' :
  id' <> id -> hlookup m' id' = hlookup m id' -> reports tr' = reports tr ->
  (id' ∈ cl' <-> id' ∈ cl) -> untouched id' mine (view_of m c tr cl) (view_of m' c tr' cl').
Proof using Type. intros Hid Hm Hr Hc. split; simpl; [done|done|by rewrite Hr|done]. Qed.

Lemma update_other m id s f id' : id' <> id -> hlookup (hupdate m id s f).2 id' = hlookup m id'.
Proof.
  intros Hid. destruct (decide ((hupdate m id s f).1 = 0)).
  - by rewrite hupdate_ok, decide_False by congruence.
  - by rewrite hupdate_fail.
Qed.

Lemma delete_other m id id' : id' <> id -> hlookup (hdelete m id).2 id' = hlookup m id'.
Proof.
  intros Hid. destruct (decide ((hdelete m id).1 = 0)).
  - by rewrite hdelete_ok, decide_False by congruence.
  - by rewrite hdelete_fail.
Qed.

(** A full map holds, besides the open calls, at most one entry per program in
    progress. *)
Lemma full_table g os lin tr cl gh :
  cinv g os lin tr cl gh -> (hmax (g_map g) <= hcount (g_map g))%nat ->
  (max - cpus <= size (open_calls tr))%nat.
Proof using Type.
  intros [_ Hm Hs _ Hb Hsub _ _] Hfull. rewrite (sh_count _ _ _ _ Hs), Hm in Hfull.
  pose proof (subseteq_size _ _ Hsub) as Hle. rewrite size_dom in Hle. lia.
Qed.

Section Step.
Context (m : M) (c : C) (run : gmap Z ops) (os : list (obs (hit T))) (lin : list (hit T * bool)) (tr : tracker) (cl : gset Z)
  (gh : gmap Z (ghost T)) (id : Z).
Hypothesis inv : cinv (Cfg m c run) os lin tr cl gh.

(** The goal of each operation. *)
Definition continues_as (p' : ops) m' c' l : Prop :=
  exists lin' tr' cl' gh', cinv (Cfg m' c' (<[id := p']> run)) (os ++ l) lin' tr' cl' gh'.

Lemma no_room_skip h : no_room (lin ++ [(h, true)]) = no_room lin ++ refused (H := hit T) [].
Proof using Type. by rewrite no_room_app. Qed.

Lemma step_update p s t cx :
  run !! id = Some p -> gh !! id = Some (Ghost [HEnter t cx] None) ->
  get_current_pid_tgid t = id -> filtered target_tgid id = false -> (id ∉ cl) -> s = enter_record t cx ->
  continues_as ORet (hupdate m id s BPF_ANY).2 c [].
Proof.
  intros Hp Hg Hid Hf Hcl ->. pose proof (ci_shared _ _ _ _ _ _ inv) as Hs. cbn [g_map g_ring] in Hs.
  set (s := enter_record t cx).
  assert (forall tr', tracks target_tgid (max - cpus) fresh_tracker (lin ++ [(HEnter t cx, true)]) tr' ->
    shared (hupdate m id s BPF_ANY).2 c tr' cl -> reports tr' = reports tr ->
    continues_as ORet (hupdate m id s BPF_ANY).2 c []) as Hgo.
  { intros tr' Ht' Hs' Hr. exists (lin ++ [(HEnter t cx, true)]), tr', cl, (<[id := Ghost [] None]> gh).
    eapply cinv_op; [exact inv|done..|apply hmax_update|done|by apply PhDone| |done|by right| |done|apply no_room_skip].
    - intros id' Hne. apply (untouched_map _ _ _ _ _ _ _ _ id); [done| |done|done]. by apply update_other.
    - right. by exists (HEnter t cx), true. }
  pose proof (ci_tracks _ _ _ _ _ _ inv) as Ht.
  destruct (decide ((hupdate m id s BPF_ANY).1 = 0)) as [Hok|Hok].
  - eapply Hgo; [econstructor; [exact Ht|apply TrOpen; by rewrite Hid]| |done].
    rewrite Hid. by apply shared_insert; [..|apply enter_record_wf|].
  - eapply Hgo; [econstructor; [exact Ht|]|by apply shared_lost|done].
    assert (hlookup m id = None /\ (hmax m <= hcount m)%nat) as [Hn Hfull].
    { destruct (decide (is_Some (hlookup m id) \/ (hcount m < hmax m)%nat)) as [Hd|Hd].
      - by destruct Hok; apply hupdate_any_room.
      - split; [apply eq_None_not_Some; tauto|lia]. }
    apply TrLost; rewrite ?Hid; [done| |by eapply (full_table (Cfg m c run))].
    by rewrite <- (sh_plain _ _ _ _ Hs).
Qed.

Lemma step_lookup p t cx :
  run !! id = Some p -> gh !! id = Some (Ghost [HExit t cx] None) ->
  get_current_pid_tgid t = id -> filtered target_tgid id = false -> (id ∉ cl) ->
  continues_as (if bool_decide (is_Some (hlookup m id)) then reserve_ops id (sint 64 (rc_arg1 cx)) else ORet) m c [].
Proof.
  intros Hp Hg Hid Hf Hcl. pose proof (ci_shared _ _ _ _ _ _ inv) as Hs. cbn [g_map g_ring] in Hs.
  destruct (hlookup m id) as [s|] eqn:E; simpl.
  - exists lin, tr, cl, (<[id := Ghost [HExit t cx] None]> gh).
    eapply cinv_op; [exact inv|done|done|apply (ci_tracks _ _ _ _ _ _ inv)|done|done
      |by apply (PhReserve _ _ _ _ _ s)| |done|by right|by left|done|by rewrite app_nil_r].
    intros id' Hne. by apply (untouched_map _ _ _ _ _ _ _ _ id).
  - exists (lin ++ [(HExit t cx, true)]), tr, cl, (<[id := Ghost [] None]> gh).
    eapply cinv_op; [exact inv|done|done| |done|done|by apply PhDone| |done|by right| |done|apply no_room_skip].
    + econstructor; [apply (ci_tracks _ _ _ _ _ _ inv)|]. apply TrOrphan; rewrite Hid; [done|].
      by rewrite <- (sh_plain _ _ _ _ Hs).
    + intros id' Hne. by apply (untouched_map _ _ _ _ _ _ _ _ id).
    + right. by exists (HExit t cx), true.
Qed.

Lemma step_no_room p t cx s :
  run !! id = Some p -> gh !! id = Some (Ghost [HExit t cx] None) ->
  get_current_pid_tgid t = id -> filtered target_tgid id = false -> (id ∉ cl) -> hlookup m id = Some s ->
  continues_as (ODelete id ORet) m c [Refused id].
Proof.
  intros Hp Hg Hid Hf Hcl Hv. pose proof (ci_shared _ _ _ _ _ _ inv) as Hs. cbn [g_map g_ring] in Hs.
  exists (lin ++ [(HExit t cx, false)]), (Tracker (delete id (open_calls tr)) (reports tr)), ({[id]} ∪ cl),
    (<[id := Ghost [] None]> gh).
  eapply cinv_op; [exact inv|done|done| |done|by eapply shared_close| | |done|by right| |done|].
  - econstructor; [apply (ci_tracks _ _ _ _ _ _ inv)|].
    pose proof (TrDrop target_tgid (max - cpus) tr t cx s) as Hd. rewrite Hid in Hd. apply Hd; [done|].
    by rewrite <- (sh_plain _ _ _ _ Hs).
  - apply PhDelete; simpl; [set_solver|eauto].
  - intros id' Hne. apply (untouched_map _ _ _ _ _ _ _ _ id); [done..|set_solver].
  - right. by exists (HExit t cx), false.
  - rewrite no_room_app. unfold no_room at 2. cbn. by rewrite <- Hid.
Qed.

Lemma step_reserve p t cx s i e c' :
  run !! id = Some p -> gh !! id = Some (Ghost [HExit t cx] None) ->
  get_current_pid_tgid t = id -> filtered target_tgid id = false -> (id ∉ cl) -> hlookup m id = Some s ->
  cr_reserve c event_size = Some (i, e, c') ->
  continues_as (fill_ops id (sint 64 (rc_arg1 cx)) i e) m c' [].
Proof.
  intros Hp Hg Hid Hf Hcl Hv Hres. pose proof (ci_shared _ _ _ _ _ _ inv) as Hs. cbn [g_map g_ring] in Hs.
  destruct (cr_reserve_slot _ _ _ _ _ Hres) as (-> & He & Hc' & _).
  assert (open_calls tr !! id = Some s) as Ho by (by rewrite <- (sh_plain _ _ _ _ Hs)).
  set (ev := event_of id s (sint 64 (rc_arg1 cx))).
  eexists (lin ++ [(HExit t cx, true)]), (Tracker (delete id (open_calls tr)) (reports tr ++ [ev])), ({[id]} ∪ cl),
    (<[id := Ghost [] (Some (length (cr_slots c)))]> gh).
  eapply cinv_op; [exact inv|done|done| |done| | | | | | |done|apply no_room_skip].
  - econstructor; [apply (ci_tracks _ _ _ _ _ _ inv)|].
    pose proof (TrReport target_tgid (max - cpus) tr t cx s) as Hd. rewrite Hid in Hd. by apply Hd.
  - eapply (shared_reserve _ _ _ (Tracker _ _)); [by eapply shared_close|done].
  - apply (PhFill _ _ _ s); simpl; [set_solver|done|by apply (sh_wf _ _ _ _ Hs id)|apply sint_range; lia|done| |].
    + rewrite Hc'. by apply list_lookup_middle.
    + rewrite (sh_len _ _ _ _ Hs). by apply list_lookup_middle.
  - intros id' Hne. split; simpl; [done|set_solver|by apply prefix_app_r|].
    intros j Hj _. rewrite Hc'. by apply lookup_app_l_Some.
  - intros j [= <-]. right. by apply lookup_ge_None_2.
  - intros j Hj. rewrite Hc' in Hj. apply lookup_snoc_Some in Hj as [[? ?]|[-> _]]; [by right|by left].
  - right. by exists (HExit t cx), true.
Qed.

Lemma step_read p s ret i e :
  run !! id = Some p -> gh !! id = Some (Ghost [] (Some i)) ->
  id ∈ cl -> hlookup m id = Some s -> wf_enter s -> is_sint 64 ret -> length e = event_size ->
  cr_slots c !! i = Some None -> reports tr !! i = Some (event_of id s ret) ->
  continues_as (OSubmit i (write_event id s ret e) (ODelete id ORet)) m c [].
Proof.
  intros Hp Hg Hcl Hv Hwf Hret Hl Hsl Hrep.
  eexists lin, tr, cl, (<[id := Ghost [] (Some i)]> gh).
  eapply cinv_op; [exact inv|done|done|apply (ci_tracks _ _ _ _ _ _ inv)|done|apply (ci_shared _ _ _ _ _ _ inv)| | | | |by left|done|by rewrite app_nil_r].
  - apply PhSubmit; cbn [view_of v_closing v_val v_slots v_reports];
      [assumption|eauto|by apply length_write_event|assumption|].
    rewrite decode_written by assumption. assumption.
  - intros id' Hne. by apply (untouched_map _ _ _ _ _ _ _ _ id).
  - by left.
  - intros j Hj. simpl. destruct (decide (i = j)) as [->|]; [by left|right]. split; [done|congruence].
Qed.

Lemma step_submit p i rec :
  run !! id = Some p -> gh !! id = Some (Ghost [] (Some i)) ->
  id ∈ cl -> is_Some (hlookup m id) -> length rec = event_size -> cr_slots c !! i = Some None ->
  reports tr !! i = Some (decode_event rec) ->
  continues_as (ODelete id ORet) m (cr_submit c i rec) [].
Proof.
  intros Hp Hg Hcl Hv Hl Hsl Hrep.
  eexists lin, tr, cl, (<[id := Ghost [] None]> gh).
  eapply cinv_op; [exact inv|done|done|apply (ci_tracks _ _ _ _ _ _ inv)|done| | | |done| |by left|done|by rewrite app_nil_r].
  - apply shared_submit; [apply (ci_shared _ _ _ _ _ _ inv)|done|done].
  - by apply PhDelete.
  - intros id' Hne. split; simpl; [done..|]. intros j Hj Hne'. rewrite cr_submit_slot.
    by rewrite list_lookup_insert_ne by congruence.
  - intros j Hj. right. rewrite cr_submit_slot in Hj.
    apply list_lookup_insert_Some in Hj as [(-> & ? & _)|[Hij Hj]]; [done|]. split; [done|simpl; congruence].
Qed.

Lemma step_delete p :
  run !! id = Some p -> gh !! id = Some (Ghost [] None) -> id ∈ cl ->
  continues_as ORet (hdelete m id).2 c [].
Proof.
  intros Hp Hg Hcl. eexists lin, tr, (cl ∖ {[id]}), (<[id := Ghost [] None]> gh).
  eapply cinv_op; [exact inv|done|done|apply (ci_tracks _ _ _ _ _ _ inv)|apply hmax_delete| | | |done|by right|by left|done|by rewrite app_nil_r].
  - apply shared_delete; [apply (ci_shared _ _ _ _ _ _ inv)|done].
  - apply PhDone. simpl. set_solver.
  - intros id' Hne. apply (untouched_map _ _ _ _ _ _ _ _ id); [done|by apply delete_other|done|set_solver].
Qed.
End Step.

Lemma cinv_exec m c run os lin tr cl gh id p p' m' c' :
  cinv (Cfg m c run) os lin tr cl gh -> run !! id = Some p -> exec_op p m c = Some (p', m', c') ->
  exists lin' tr' cl' gh', cinv (Cfg m' c' (<[id := p']> run)) (os ++ op_obs id p c) lin' tr' cl' gh'.
Proof.
  intros Hi Hp He. destruct (th_phase _ _ _ _ (ci_threads _ _ _ _ _ _ Hi) _ _ Hp) as (g & Hg & Hph).
  destruct Hph as [t cx Hid Hf Hcl|t cx Hid Hf Hcl|t cx s Hid Hf Hcl Hv|s ret i e Hcl Hv Hwf Hret Hl Hsl Hrep
    |i rec Hcl Hv Hl Hsl Hrep|Hcl Hv|Hcl]; cbn [view_of v_val v_slots v_reports v_closing g_map g_ring] in *.
  - injection He as <- <- <-. by eapply step_update.
  - unfold sys_exit_ops in *. rewrite Hid, Hf in *. injection He as <- <- <-. by eapply step_lookup.
  - unfold reserve_ops, exec_op in He. unfold reserve_ops, op_obs. destruct (cr_reserve c event_size) as [[[i e] c1]|] eqn:Er; injection He as <- <- <-.
    + by eapply step_reserve.
    + by eapply step_no_room.
  - unfold fill_ops, exec_op in He. rewrite Hv in He. injection He as <- <- <-. by eapply step_read.
  - injection He as <- <- <-. by eapply step_submit.
  - injection He as <- <- <-. by eapply step_delete.
  - done.
Qed.

(** A hit that is filtered out takes effect, with no effect, when it starts. *)
Lemma cinv_begin m c run os lin tr cl gh h :
  cinv (Cfg m c run) os lin tr cl gh -> run !! hit_id h = None -> (size run < cpus)%nat ->
  exists lin' tr' cl' gh',
    cinv (Cfg m c (<[hit_id h := ops_of target_tgid h]> run)) (os ++ [Began h]) lin' tr' cl' gh'.
Proof.
  intros [Ht Hm Hs Hth Hb Hsub Ho Href] Hn Hsz. cbn [g_map g_ring g_run] in *. set (id := hit_id h) in *.
  assert (id ∉ cl) as Hcl by (intros Hin%Hsub; by apply not_elem_of_dom in Hn).
  assert (pending gh id = []) as Hpe.
  { unfold pending. destruct (gh !! id) as [g|] eqn:E; [|done].
    destruct (th_ghost _ _ _ _ Hth _ _ E). congruence. }
  assert (forall lin' pend, tracks target_tgid (max - cpus) fresh_tracker lin' tr ->
    phase target_tgid (view_of m c tr cl) id (ops_of target_tgid h) (Ghost pend None) ->
    lin'.*1 ++ pend = lin.*1 ++ [h] -> pend = [] \/ pend = [h] -> no_room lin' = no_room lin ->
    exists lin' tr' cl' gh', cinv (Cfg m c (<[id := ops_of target_tgid h]> run)) (os ++ [Began h]) lin' tr' cl' gh') as Hgo.
  { intros lin' pend Ht' Hph Heq Hpd Hnr. exists lin', tr, cl, (<[id := Ghost pend None]> gh).
    split; cbn [g_map g_ring g_run]; [done..|by apply threads_begin| | | |by rewrite Hnr, Href, refused_app, app_nil_r].
    - rewrite map_size_insert_None by done. lia.
    - rewrite dom_insert_L. set_solver.
    - intros id'. rewrite begun_app, thread_hits_app, Ho. change (begun [Began h]) with [h]. unfold pending at 2. rewrite lookup_insert.
      case_decide as E; [subst id'|].
      + rewrite Hpe, app_nil_r, <- thread_hits_app, <- Heq, thread_hits_app. f_equal. cbn [gh_pending].
        destruct Hpd as [->| ->]; [done|]. rewrite thread_hits_one. by rewrite decide_True.
      + fold (pending gh id'). rewrite thread_hits_one, decide_False, app_nil_r by done.
        destruct Hpd as [->| ->]; [rewrite app_nil_r in Heq; rewrite Heq|apply app_inj_2 in Heq as [-> _]; [done|done]].
        rewrite thread_hits_app, thread_hits_one, decide_False, app_nil_r by done. done. }
  destruct (filtered target_tgid id) eqn:Hf.
  - apply (Hgo (lin ++ [(h, true)]) []);
      [econstructor; [done|by apply TrFiltered]| |by rewrite app_nil_r, fmap_app|by left|by rewrite no_room_app, app_nil_r].
    destruct h as [t cx|t cx]; cbn [ops_of]; unfold sys_enter_ops, sys_exit_ops;
      change (get_current_pid_tgid t) with id; rewrite Hf; by apply PhDone.
  - apply (Hgo lin [h]); [done| |done|by right|done]. destruct h as [t cx|t cx]; cbn [ops_of].
    + unfold sys_enter_ops. change (get_current_pid_tgid t) with id. rewrite Hf. by apply PhEnter.
    + by apply PhLookup.
Qed.

Lemma cinv_end m c run os lin tr cl gh id :
  cinv (Cfg m c run) os lin tr cl gh -> run !! id = Some ORet ->
  cinv (Cfg m c (delete id run)) os lin tr cl (delete id gh).
Proof.
  intros [Ht Hm Hs Hth Hb Hsub Ho Href] Hp. cbn [g_map g_ring g_run] in *.
  destruct (th_phase _ _ _ _ Hth _ _ Hp) as (g & Hg & Hph).
  assert (gh_slot g = None /\ gh_pending g = [] /\ (id ∉ cl)) as (Hsl & Hpe & Hcl).
  { inversion Hph as [| | | | | |]; simplify_eq/=; [|done].
    exfalso. unfold sys_exit_ops in *. repeat case_match; congruence. }
  split; cbn [g_map g_ring g_run]; [done..|by eapply threads_end| | | |done].
  - rewrite map_size_delete_Some by eauto. lia.
  - intros id' Hid'. rewrite dom_delete_L. pose proof (Hsub _ Hid'). set_solver.
  - intros id'. rewrite Ho. f_equal. unfold pending. rewrite lookup_delete.
    case_decide; [subst id'; by rewrite Hg|done].
Qed.

(** The consumer takes records. *)
Lemma cinv_take m c run os lin tr cl gh n :
  cinv (Cfg m c run) os lin tr cl gh -> cinv (Cfg m (cr_take c n) run) os lin tr cl gh.
Proof.
  intros [Ht Hm [S1 S2 S3 S4 S5 S6] Hth Hb Hsub Ho Href]. cbn [g_map g_ring g_run] in *.
  split; cbn [g_map g_ring g_run]; [done..| | |done|done|done|done].
  - split; rewrite ?cr_take_slots; done.
  - unfold view_of in *. by rewrite cr_take_slots.
Qed.

Definition cfg_loaded (g : cfg M C) : Prop :=
  (forall id, hlookup (g_map g) id = None) /\ hcount (g_map g) = 0%nat /\ hmax (g_map g) = max /\
  cr_slots (g_ring g) = [] /\ cr_taken (g_ring g) = 0%nat /\ g_run g = ∅.

Lemma cinv_reach g os g' :
  cfg_loaded g -> creach target_tgid cpus g os g' ->
  exists lin tr cl gh, cinv g' os lin tr cl gh.
Proof.
  intros (Hl & Hn & Hmax & Hsl & _ & Hrun).
  induction 1 as [|os g1 l g2 _ (lin & tr & cl & gh & Hi) Hstep|os m c run n _ (lin & tr & cl & gh & Hi) _].
  - exists [], fresh_tracker, ∅, ∅. split; [apply TracksNil|done| | |rewrite Hrun, map_size_empty; lia|set_solver|done|done].
    + split; simpl; [done|set_solver|by rewrite Hn|apply map_Forall_empty|by rewrite Hsl|by rewrite Hsl].
    + rewrite Hrun. split; simpl; [done..|]. by rewrite Hsl.
  - destruct Hstep as [m c run h Hn1 Hsz|m c run id p p' m' c' Hp He|m c run id Hp].
    + by eapply cinv_begin.
    + by eapply cinv_exec.
    + rewrite app_nil_r. do 3 eexists. eexists. by eapply cinv_end.
  - exists lin, tr, cl, gh. by apply cinv_take.
Qed.

Lemma ready_prefix_reports slots reps :
  (forall i rec, slots !! i = Some (Some rec) -> reps !! i = Some (decode_event rec)) ->
  (decode_event <$> ready_prefix slots) `prefix_of` reps.
Proof using Type.
  revert reps. induction slots as [|[rec|] slots IH]; intros reps Hs; [apply prefix_nil| |apply prefix_nil].
  destruct reps as [|e reps]; [by specialize (Hs 0%nat rec eq_refl)|].
  specialize (Hs 0%nat rec eq_refl) as He. injection He as ->.
  apply prefix_cons, IH. intros i rec' Hi. exact (Hs (S i) rec' Hi).
Qed.

Lemma ready_prefix_all slots :
  (forall i, slots !! i <> Some None) -> length (ready_prefix slots) = length slots.
Proof using Type.
  induction slots as [|[rec|] slots IH]; intros Hs; [done| |by destruct (Hs 0%nat)].
  simpl. f_equal. apply IH. intros i. exact (Hs (S i)).
Qed.

Lemma creach_linearizes g os g' :
  cfg_loaded g -> creach target_tgid cpus g os g' ->
  exists lin tr, tracks target_tgid (max - cpus) fresh_tracker lin tr /\
    (forall id, thread_hits id lin.*1 `prefix_of` thread_hits id (begun os)) /\ no_room lin = refused os /\
    (decode_event <$> ready (g_ring g')) `prefix_of` reports tr /\
    (forall id, g_run g' !! id = None ->
       thread_hits id lin.*1 = thread_hits id (begun os) /\ hlookup (g_map g') id = open_calls tr !! id) /\
    (g_run g' = ∅ -> decode_event <$> ready (g_ring g') = reports tr).
Proof.
  intros Hl Hr. destruct (cinv_reach g os g' Hl Hr) as (lin & tr & cl & gh & [Ht _ Hs Hth _ Hsub Ho Href]).
  pose proof (ready_prefix_reports (cr_slots (g_ring g')) (reports tr)
    (fun i rec Hi => proj2 (sh_ready _ _ _ _ Hs i rec Hi))) as Hpre.
  exists lin, tr. split_and!; [done| |done|done| |].
  - intros id. rewrite Ho. by apply prefix_app_r.
  - intros id Hid. split.
    + rewrite Ho. unfold pending. destruct (gh !! id) as [gi|] eqn:E; [|by rewrite app_nil_r].
      destruct (th_ghost _ _ _ _ Hth _ _ E). congruence.
    + apply (sh_plain _ _ _ _ Hs). intros Hin%Hsub. by apply not_elem_of_dom in Hid.
  - intros Hrun. apply prefix_length_eq; [done|]. rewrite length_fmap, <- (sh_len _ _ _ _ Hs).
    unfold ready. rewrite ready_prefix_all; [done|]. intros i Hi.
    destruct (th_busy _ _ _ _ Hth i Hi) as (id & gi & Hg & _). destruct (th_ghost _ _ _ _ Hth _ _ Hg) as [p Hp].
    by rewrite Hrun in Hp.
Qed.

(** C6: the programs are linearizable.  However the operations of programs in
    progress on several CPUs interleave, there is an order of the hits, which
    keeps the order of each thread, and a run of the call tracker on it, such
    that the records the consumer has taken or can take are the first reports of
    that run; a completed call is not reported exactly when the ring buffer
    refused the record its program asked for ([no_room lin = refused os]: the same
    threads in the same order); the entry of every thread without a program in progress is its open call;
    and when no program is in progress all reports are there.  A call is lost
    for want of room only when all but [cpus] entries are taken by open calls:
    the entry of a call stays until its program has deleted it. *)
Theorem conc_linearizable g os g' :
  cfg_loaded g -> creach target_tgid cpus g os g' ->
  exists lin tr, tracks target_tgid (max - cpus) fresh_tracker lin tr /\
    (forall id, thread_hits id lin.*1 `prefix_of` thread_hits id (begun os)) /\ no_room lin = refused os /\
    (decode_event <$> ready (g_ring g')) `prefix_of` reports tr /\
    (forall id, g_run g' !! id = None ->
       thread_hits id lin.*1 = thread_hits id (begun os) /\ hlookup (g_map g') id = open_calls tr !! id) /\
    (g_run g' = ∅ -> decode_event <$> ready (g_ring g') = reports tr).
Proof. apply creach_linearizes. Qed.

Lemma creach_trans g os g' os' g'' :
  creach target_tgid cpus g os g' -> creach target_tgid cpus g' os' g'' ->
  creach (T := T) (M := M) (C := C) target_tgid cpus g (os ++ os') g''.
Proof using Type.
  intros Hr Hr'. induction Hr' as [|os1 g1 l g2 _ IH Hs|os1 m c run n _ IH Hn]; [by rewrite app_nil_r| |by constructor].
  rewrite app_assoc. by econstructor.
Qed.

Lemma creach_one g l g' : cstep (T := T) target_tgid cpus g l g' -> creach (M := M) (C := C) target_tgid cpus g l g'.
Proof using Type. intros Hs. apply (CReachSnoc _ _ _ [] g l); [constructor|done]. Qed.

Lemma creach_quiet g g' : cstep (T := T) target_tgid cpus g [] g' -> creach (M := M) (C := C) target_tgid cpus g [] g'.
Proof using Type. intros Hs. apply (CReachSnoc _ _ _ [] g []); [constructor|done]. Qed.

(** ** What the consumer sees only grows *)

Lemma ready_prefix_snoc slots : ready_prefix (slots ++ [None]) = ready_prefix slots.
Proof using Type. induction slots as [|[rec|] slots IH]; simpl; by rewrite ?IH. Qed.

Lemma ready_prefix_insert slots i rec :
  slots !! i = Some None -> ready_prefix slots `prefix_of` ready_prefix (<[i := Some rec]> slots).
Proof using Type.
  revert i. induction slots as [|[r|] slots IH]; intros i Hi; [done| |apply prefix_nil].
  destruct i as [|i]; [done|]. simpl. by apply prefix_cons, IH.
Qed.

Lemma cstep_ready g os g1 l g2 :
  cfg_loaded g -> creach target_tgid cpus g os g1 -> cstep target_tgid cpus g1 l g2 ->
  ready (g_ring g1) `prefix_of` ready (g_ring g2) /\ cr_taken (g_ring g2) = cr_taken (g_ring g1).
Proof.
  intros Hl Hr Hs. destruct (cinv_reach g os g1 Hl Hr) as (lin & tr & cl & gh & [_ _ _ Hth _ _ _ _]).
  destruct Hs as [m c run h|m c run id p p' m' c' Hp He|m c run id Hp]; cbn [g_ring g_run] in *; [done| |done].
  destruct (th_phase _ _ _ _ Hth _ _ Hp) as (gi & _ & Hph). unfold ready.
  destruct p as [|k v q|k f|k f|k q|z f|i rec q]; cbn [exec_op] in He; try by simplify_eq.
  - destruct (hlookup m k); simpl in He; by simplify_eq.
  - destruct (cr_reserve c z) as [[[i e] c1]|] eqn:Er; [|by simplify_eq]. injection He as <- <- <-.
    apply cr_reserve_slot in Er as (_ & _ & -> & ->). by rewrite ready_prefix_snoc.
  - injection He as <- <- <-. rewrite cr_submit_slot, cr_submit_taken. split; [|done]. apply ready_prefix_insert.
    inversion Hph; subst; [|done]. unfold sys_exit_ops in *. repeat case_match; done.
Qed.

Lemma creach_ready g os g1 os' g2 :
  cfg_loaded g -> creach target_tgid cpus g os g1 -> creach target_tgid cpus g1 os' g2 ->
  ready (g_ring g1) `prefix_of` ready (g_ring g2).
Proof.
  intros Hl Hr Hr'. induction Hr' as [|os1 g2 l g3 Hr' IH Hs|os1 m c run n _ IH _]; [done| |].
  - etrans; [exact IH|]. eapply cstep_ready; [done| |done]. by eapply creach_trans.
  - etrans; [exact IH|]. unfold ready. simpl. by rewrite cr_take_slots.
Qed.

Lemma creach_taken g os g1 :
  cfg_loaded g -> creach target_tgid cpus g os g1 -> (cr_taken (g_ring g1) <= length (ready (g_ring g1)))%nat.
Proof.
  intros Hl Hr. induction Hr as [|os g1 l g2 Hr IH Hs|os m c run n _ IH Hn].
  - destruct Hl as (_ & _ & _ & _ & -> & _). lia.
  - destruct (cstep_ready g os g1 l g2 Hl Hr Hs) as [Hp%prefix_length ->]. lia.
  - cbn [g_ring] in *. rewrite cr_take_taken by done. unfold ready in *. rewrite cr_take_slots.
    unfold unread, ready in Hn. rewrite length_drop in Hn. lia.
Qed.
End Linearize.
