(* ===== verification/StraceProps.v ===== *)
(** * Properties of the libbpfstrace kernel half

    Theorems about arbitrary interleavings of entry and exit hits: refinement
    of the call tracker, provenance and completeness of the reports, the
    process filter, isolation of threads, and well-formedness of every record
    handed to user space. *)

From stdpp Require Import base list gmap strings.
From Stdlib Require Import ZArith Lia.
From S2P Require Import Prelude Layout BpfIface StraceTypes StraceBpf StraceCapture StraceTrace.

Local Open Scope Z_scope.

Section Props.
Context {T M R : Type} `{BpfTask T, !BpfTaskLaws T}
  `{BpfHash Z enter_state M, !BpfHashLaws Z enter_state M, !BpfHashCapacity Z enter_state M}
  `{BpfRingbuf R, !BpfRingbufLaws R}.
Context (target_tgid : Z).
Implicit Types (k : kern M R) (hs : list (hit T)).

(** The state after loading the programs: empty map, empty ring buffer. *)
Record loaded k : Prop := {
  ld_inflight id : hlookup (k_inflight k) id = None;
  ld_count : hcount (k_inflight k) = 0%nat;
  ld_events : rb_records (k_events k) = [];
}.

Lemma loaded_sim k : loaded k -> sim k fresh_tracker.
Proof using Type.
  intros [Ho Hc Hr]. split; [done|done|unfold reported; by rewrite Hr| |by rewrite Hr].
  apply map_Forall_empty.
Qed.

(** C8: refinement.  From the loaded state, any sequence of entry and exit
    hits of any threads takes the two programs through a run of the call
    tracker: the map holds exactly the open calls, the ring buffer exactly
    the reports of the completed ones.  A call is lost only when the map is
    full of other threads' calls; a completed call is reported exactly when the
    ring buffer has room for an event at its exit. *)
Theorem bpf_run_refines k hs :
  loaded k ->
  exists tr, tracks target_tgid (hmax (k_inflight k)) fresh_tracker (with_room target_tgid k hs) tr /\
    (forall id, hlookup (k_inflight (bpf_run target_tgid k hs)) id = open_calls tr !! id) /\
    reported (bpf_run target_tgid k hs) = reports tr.
Proof using All.
  intros Hl%loaded_sim. destruct (bpf_run_sim target_tgid k _ hs Hl) as (tr & Ht & []).
  exists tr. auto.
Qed.

(** C12: provenance.  Every event in the ring buffer is a call that one thread
    entered and left with no hit of that thread in between, of a process that
    passes the filter; its members are what the entry program recorded at
    that entry and the return value of that exit. *)
Theorem reported_completed k hs e :
  loaded k -> e ∈ reported (bpf_run target_tgid k hs) -> completed_in target_tgid hs e.
Proof using All.
  intros Hl%loaded_sim He. destruct (bpf_run_sim target_tgid k _ hs Hl) as (tr & Ht & [_ _ Hr _ _]).
  rewrite Hr in He. rewrite <- (with_room_hits target_tgid k hs). by eapply tracks_reports.
Qed.

(** C9: completeness.  When the map has room for the threads that occur and
    the ring buffer always has room for a record, nothing is lost: the events
    reported are, in order, those of the reference matcher. *)
Theorem reported_all_calls k hs :
  loaded k -> roomy target_tgid k hs ->
  reported (bpf_run target_tgid k hs) = reports (match_calls target_tgid hs).
Proof using All.
  intros Hl%loaded_sim Hr. by destruct (run_matches target_tgid k hs Hl Hr).
Qed.

Lemma run_records_wf k hs :
  loaded k ->
  Forall (fun m => length m = event_size /\ wf_event (decode_event m) /\
                   completed_in target_tgid hs (decode_event m))
    (rb_records (k_events (bpf_run target_tgid k hs))).
Proof using All.
  intros Hl%loaded_sim. destruct (bpf_run_sim target_tgid k _ hs Hl) as (tr & Ht & Hs).
  destruct Hs as [_ _ Hr _ Hz]. rewrite Forall_forall in Hz |- *. intros m Hm.
  assert (decode_event m ∈ reports tr) as He.
  { rewrite <- Hr. apply list_elem_of_fmap. eauto. }
  pose proof (tracks_reports _ _ _ _ _ Ht He) as Hc. rewrite with_room_hits in Hc. split_and!; [by apply Hz| |done].
  destruct Hc as (h1 & t & c & h2 & t' & c' & h3 & _ & _ & _ & _ & ->).
  apply event_of_wf; [apply enter_record_wf|apply sint_range; lia].
Qed.

(** Every record handed to user space is a complete [struct
    syscall_event]: it has the size the consumer checks, and its members are
    in range, with a terminated command name and, when a string length is
    set, a terminated string of that length inside its 256 bytes. *)
Theorem records_wellformed k hs :
  loaded k ->
  Forall (fun m => length m = 384%nat /\ wf_event (decode_event m))
    (rb_records (k_events (bpf_run target_tgid k hs))).
Proof using All.
  intros Hl. eapply Forall_impl; [by apply run_records_wf|]. simpl.
  rewrite event_size_eq. naive_solver.
Qed.

(** C18: the process filter.  With a target process, only its events are
    reported and only its threads have entries in the map. *)
Theorem target_only k hs :
  loaded k -> target_tgid <> 0 ->
  Forall (fun e => ev_tgid e = target_tgid) (reported (bpf_run target_tgid k hs)) /\
  forall id, is_Some (hlookup (k_inflight (bpf_run target_tgid k hs)) id) ->
    tgid_of id = target_tgid.
Proof using All.
  intros Hl%loaded_sim Ht. destruct (bpf_run_sim target_tgid k _ hs Hl) as (tr & Htr & Hs).
  assert (forall id, filtered target_tgid id = false -> tgid_of id = target_tgid) as Hf.
  { intros id. unfold filtered. rewrite andb_false_iff, !negb_false_iff. lia. }
  destruct Hs as [Ho _ Hr _ _]. split.
  - rewrite Hr. apply Forall_forall. intros e He.
    destruct (tracks_reports _ _ _ _ _ Htr He) as (? & t & ? & ? & ? & ? & ? & _ & _ & _ & Hfl & ->).
    simpl. auto.
  - intros id [s Hid]. rewrite Ho in Hid. apply Hf. by destruct (tracks_open _ _ _ _ _ _ Htr Hid).
Qed.

(** An entry of the map is the call its thread is currently in: the last
    hit of the thread is the entry that recorded it, so a completed call
    leaves nothing behind. *)
Theorem inflight_is_open k hs id s :
  loaded k -> hlookup (k_inflight (bpf_run target_tgid k hs)) id = Some s ->
  open_in target_tgid hs id s.
Proof using All.
  intros Hl%loaded_sim. destruct (bpf_run_sim target_tgid k _ hs Hl) as (tr & Htr & [Ho _ _ _ _]).
  rewrite Ho, <- (with_room_hits target_tgid k hs) at 1. by eapply tracks_open.
Qed.

Lemma step_other k h id :
  hit_id h <> id ->
  hlookup (k_inflight (bpf_step target_tgid k h)) id = hlookup (k_inflight k) id.
Proof using All.
  unfold hit_id. destruct h as [t c|t c]; simpl; intros Hne;
    destruct (filtered target_tgid (get_current_pid_tgid t)) eqn:Hf.
  - by rewrite enter_filtered.
  - rewrite enter_unfold by done. simpl.
    destruct (decide ((hupdate (k_inflight k) (get_current_pid_tgid t) (enter_record t c) BPF_ANY).1 = 0)).
    + rewrite hupdate_ok by done. by rewrite decide_False.
    + by rewrite hupdate_fail.
  - by rewrite exit_skipped by auto.
  - destruct (hlookup (k_inflight k) (get_current_pid_tgid t)) as [s|] eqn:E.
    2: by rewrite exit_skipped by auto.
    rewrite (exit_unfold _ _ _ _ s) by done. simpl.
    rewrite hdelete_ok by (apply hdelete_present; rewrite E; eauto). by rewrite decide_False.
Qed.

Lemma run_other k hs id :
  Forall (not_of id) hs ->
  hlookup (k_inflight (bpf_run target_tgid k hs)) id = hlookup (k_inflight k) id.
Proof using All.
  intros Hn. induction hs as [|h hs IH] using rev_ind; [done|].
  apply Forall_app in Hn as [Hn Hh]. rewrite bpf_run_snoc, step_other; [by apply IH|].
  by inversion Hh.
Qed.

(** C19: threads do not interfere.  Hits of other threads, in any number and
    whatever happens to them, leave a thread's entry as it is (in particular
    the entry of a thread that never returns from its call stays in the
    map). *)
Theorem thread_isolation k hs id :
  Forall (not_of id) hs ->
  hlookup (k_inflight (bpf_run target_tgid k hs)) id = hlookup (k_inflight k) id.
Proof using All. apply run_other. Qed.

(** C25: one call: a thread that enters a call and leaves it, with any hits of
    other threads in between, is reported with exactly one new event when the
    map has room and the reservation at its exit succeeds, and its entry is
    gone from the map. *)
Theorem call_reported k t c hs t' c' :
  filtered target_tgid (get_current_pid_tgid t) = false ->
  get_current_pid_tgid t' = get_current_pid_tgid t ->
  Forall (not_of (get_current_pid_tgid t)) hs ->
  (hcount (k_inflight k) < hmax (k_inflight k))%nat ->
  let k1 := bpf_run target_tgid k (HEnter t c :: hs) in
  is_Some (rb_reserve (k_events k1) event_size) ->
  let k2 := bpf_step target_tgid k1 (HExit t' c') in
  reported k2 = reported k1 ++ [event_of (get_current_pid_tgid t) (enter_record t c) (sint 64 (rc_arg1 c'))] /\
  hlookup (k_inflight k2) (get_current_pid_tgid t) = None.
Proof using All.
  intros Hf Hid Hn Hroom k1 [[e r] Hring] k2.
  assert (hlookup (k_inflight k1) (get_current_pid_tgid t) = Some (enter_record t c)) as Hlk.
  { subst k1. change (bpf_run target_tgid k (HEnter t c :: hs))
      with (bpf_run target_tgid (bpf_step target_tgid k (HEnter t c)) hs).
    rewrite run_other by done. simpl. rewrite enter_unfold by done. simpl.
    rewrite hupdate_ok by (apply hupdate_any_room; auto). by rewrite decide_True. }
  subst k2. simpl. rewrite (exit_unfold _ _ _ _ (enter_record t c)) by (by rewrite Hid).
  rewrite Hring, Hid. simpl. split.
  - unfold reported. simpl. rewrite rb_submit_records, fmap_app, (rb_reserve_records _ _ _ _ Hring).
    f_equal. cbn [fmap list_fmap].
    rewrite decode_written; [done|apply enter_record_wf|apply sint_range; lia|by eapply rb_reserve_length].
  - rewrite hdelete_ok by (apply hdelete_present; rewrite Hlk; eauto). by rewrite decide_True.
Qed.
End Props.
