(* ===== verification/StraceFmt.v ===== *)
(** * The printing half of libbpfstrace (libbpfstrace.c)

    [errno_name], [futex_op_name], [format_sockaddr], [format_openat_flags],
    [arg_string], [syscall_name], [format_syscall_args] and [handle_event].
    Character arrays on the stack start with arbitrary contents ([junk]); a
    result of [None] is undefined behaviour.  [strerror] and [inet_ntop] are
    parameters, with the documented bound on the text of an address. *)

From stdpp Require Import base list gmap strings.
From Stdlib Require Import ZArith Lia.
From S2P Require Import Prelude CLib Printf Layout Uapi StraceTypes.

Local Open Scope string_scope.
Local Open Scope list_scope.
Local Open Scope Z_scope.

(** ** Names of numbers *)

(** [case label: return "name";] *)
Definition errno_cases : list (string * string) :=
  [("EPERM", "EPERM"); ("ENOENT", "ENOENT"); ("ESRCH", "ESRCH"); ("EINTR", "EINTR");
   ("EIO", "EIO"); ("ENXIO", "ENXIO"); ("E2BIG", "E2BIG"); ("ENOEXEC", "ENOEXEC");
   ("EBADF", "EBADF"); ("ECHILD", "ECHILD"); ("EAGAIN", "EAGAIN"); ("ENOMEM", "ENOMEM");
   ("EACCES", "EACCES"); ("EFAULT", "EFAULT"); ("EBUSY", "EBUSY"); ("EEXIST", "EEXIST");
   ("ENODEV", "ENODEV"); ("ENOTDIR", "ENOTDIR"); ("EISDIR", "EISDIR"); ("EINVAL", "EINVAL");
   ("ENFILE", "ENFILE"); ("EMFILE", "EMFILE"); ("ENOTTY", "ENOTTY"); ("ETXTBSY", "ETXTBSY");
   ("EFBIG", "EFBIG"); ("ENOSPC", "ENOSPC"); ("ESPIPE", "ESPIPE"); ("EROFS", "EROFS");
   ("EMLINK", "EMLINK"); ("EPIPE", "EPIPE"); ("EDOM", "EDOM"); ("ERANGE", "ERANGE");
   ("ENOSYS", "ENOSYS"); ("ECONNREFUSED", "ECONNREFUSED"); ("ETIMEDOUT", "ETIMEDOUT")].

(** The [switch]: the constants are those of the headers. *)
Fixpoint errno_find (err : Z) (cases : list (string * string)) : option string :=
  match cases with
  | [] => None
  | (label, name) :: cases =>
      match errno_lookup label errno_table with
      | Some v => if err =? v then Some name else errno_find err cases
      | None => errno_find err cases
      end
  end.

Definition errno_name (err : Z) : bytes :=
  match errno_find err errno_cases with Some n => B n | None => B "ERR" end.

Definition futex_cases : list string :=
  ["FUTEX_WAIT"; "FUTEX_WAKE"; "FUTEX_FD"; "FUTEX_REQUEUE"; "FUTEX_CMP_REQUEUE";
   "FUTEX_WAKE_OP"; "FUTEX_LOCK_PI"; "FUTEX_UNLOCK_PI"; "FUTEX_TRYLOCK_PI";
   "FUTEX_WAIT_BITSET"; "FUTEX_WAKE_BITSET"; "FUTEX_WAIT_REQUEUE_PI";
   "FUTEX_CMP_REQUEUE_PI"; "FUTEX_LOCK_PI2"].

(** [case i] is the [i]-th name. *)
Definition futex_op_name (op : Z) : bytes :=
  match futex_cases !! Z.to_nat (Z.land op 127) with
  | Some n => B n
  | None => B "FUTEX_UNKNOWN"
  end.

(** The [switch] over the expanded table, built for arm64. *)
Fixpoint syscall_find (nr : Z) (cases : list (Z * string)) : option string :=
  match cases with
  | [] => None
  | (n, call) :: cases => if nr =? n then Some call else syscall_find nr cases
  end.

Definition syscall_name (nr : Z) : bytes :=
  match syscall_find nr (syscall_cases arm64_config) with
  | Some call => B call
  | None => B "unknown"
  end.

(** [if (strncmp(name, "sys_", 4) == 0) name += 4;] *)
Definition strip_sys (name : bytes) : bytes :=
  if strncmp name (B "sys_") 4 =? 0 then drop 4 name else name.

#[global] Arguments errno_name : simpl never.
#[global] Arguments futex_op_name : simpl never.
#[global] Arguments syscall_name : simpl never.

(** [ntohs] on a little-endian host. *)
Definition ntohs (x : Z) : Z := Z.lor (Z.land (Z.shiftr x 8) 255) (Z.shiftl (Z.land x 255) 8).

Definition AF_INET : Z := 2.
Definition AF_INET6 : Z := 10.
Definition INET_ADDRSTRLEN : nat := 16.
Definition INET6_ADDRSTRLEN : nat := 46.

(** [snprintf] for its stores only. *)
Definition sprint (buf : bytes) (sz : Z) (fmt : bytes) (args : list parg) : option bytes :=
  fst <$> snprintf buf sz fmt args.

(** ** Flags of openat *)

Definition append_flag (flags sz : Z) (st : bytes * Z) (f : Z * string) : option (bytes * Z) :=
  let '(buf, off) := st in
  if Z.land flags f.1 =? 0 then Some st
  else
    '(buf, n) ← snprintf_at buf off (uint 64 (sz - off)) (B "|%s") [AStr (B f.2)];
    Some (buf, uint 64 (off + n)).

Fixpoint append_flags (flags sz : Z) (st : bytes * Z) (fs : list (Z * string)) : option (bytes * Z) :=
  match fs with
  | [] => Some st
  | f :: fs => st ← append_flag flags sz st f; append_flags flags sz st fs
  end.

Definition open_flag_list : list (Z * string) :=
  [(O_CREAT, "O_CREAT"); (O_EXCL, "O_EXCL"); (O_NOCTTY, "O_NOCTTY"); (O_TRUNC, "O_TRUNC");
   (O_APPEND, "O_APPEND"); (O_NONBLOCK, "O_NONBLOCK"); (O_DSYNC, "O_DSYNC"); (O_SYNC, "O_SYNC");
   (O_CLOEXEC, "O_CLOEXEC"); (O_DIRECTORY, "O_DIRECTORY"); (O_NOFOLLOW, "O_NOFOLLOW")].

Definition format_openat_flags (flags : Z) (buf : bytes) (sz : Z) : option bytes :=
  let access := Z.land flags O_ACCMODE in
  '(buf, n) ←
    (if access =? O_RDONLY then snprintf_at buf 0 (uint 64 (sz - 0)) (B "O_RDONLY") []
     else if access =? O_WRONLY then snprintf_at buf 0 (uint 64 (sz - 0)) (B "O_WRONLY") []
     else if access =? O_RDWR then snprintf_at buf 0 (uint 64 (sz - 0)) (B "O_RDWR") []
     else snprintf_at buf 0 (uint 64 (sz - 0)) (B "0x%llx") [AInt 2 access]);
  fst <$> append_flags flags sz (buf, uint 64 n) open_flag_list.

(** [arg_string]: [None] is the null pointer. *)
Definition arg_string (e : syscall_event) : option bytes :=
  if (0 <? ev_str_len e) && (ev_str_len e <=? Z.of_nat SYSCALL_STR_LEN)
  then Some (ev_str e) else None.

Definition ull (e : syscall_event) (i : nat) : parg := AInt 2 (arg (ev_args e) i).
Definition ll (e : syscall_event) (i : nat) : parg := AInt 2 (sint 64 (arg (ev_args e) i)).

Section Print.
(** Initial contents of an array of [n] characters. *)
Context (junk : nat -> bytes).
(** Text of an error number; text of an address of a family. *)
Context (strerror : Z -> bytes) (inet_ntop : Z -> bytes -> option bytes).

Definition format_sockaddr (e : syscall_event) (buf : bytes) (sz : Z) : option bytes :=
  if ev_sa_valid e =? 0 then sprint buf sz (B "NULL") []
  else if ev_sa_family e =? AF_INET then
    match inet_ntop AF_INET (le_bytes 4 (ev_sa_addr4 e)) with
    | None =>
        sprint buf sz (B "{sa_family=AF_INET, sin_port=%u, sin_addr=?}")
          [AInt 0 (ntohs (ev_sa_port e))]
    | Some ip =>
        sprint buf sz (B "{sa_family=AF_INET, sin_port=%u, sin_addr=`%s`}")
          [AInt 0 (ntohs (ev_sa_port e)); AStr ip]
    end
  else if ev_sa_family e =? AF_INET6 then
    match inet_ntop AF_INET6 (ev_sa_addr6 e) with
    | None =>
        sprint buf sz (B "{sa_family=AF_INET6, sin6_port=%u, sin6_addr=?}")
          [AInt 0 (ntohs (ev_sa_port e))]
    | Some ip =>
        sprint buf sz
          (B "{sa_family=AF_INET6, sin6_port=%u, sin6_addr=`%s`, sin6_scope_id=%u}")
          [AInt 0 (ntohs (ev_sa_port e)); AStr ip; AInt 0 (ev_sa_scope_id e)]
    end
  else sprint buf sz (B "{sa_family=%u}") [AInt 0 (ev_sa_family e)].

Definition format_syscall_args (e : syscall_event) (name out : bytes) (out_sz : Z) : option bytes :=
  let id := ev_syscall_id e in
  if id =? NR_read then
    sprint out out_sz (B "%s(fd=%llu, buf=%#llx, count=%llu)")
      [AStr name; ull e 0; ull e 1; ull e 2]
  else if id =? NR_write then
    sprint out out_sz (B "%s(fd=%llu, buf=%#llx, count=%llu)")
      [AStr name; ull e 0; ull e 1; ull e 2]
  else if id =? NR_ioctl then
    sprint out out_sz (B "%s(fd=%llu, cmd=%#llx, arg=%#llx)")
      [AStr name; ull e 0; ull e 1; ull e 2]
  else if id =? NR_futex then
    sprint out out_sz
      (B "%s(uaddr=%#llx, op=%s(%#llx), val=%llu, timeout/uaddr2=%#llx, val3=%#llx)")
      [AStr name; ull e 0; AStr (futex_op_name (arg (ev_args e) 1)); ull e 1; ull e 2;
       ull e 3; ull e 4]
  else if id =? NR_openat then
    flagbuf ← format_openat_flags (arg (ev_args e) 2) (junk 256) 256;
    flags ← cstr flagbuf;
    match arg_string e with
    | Some p =>
        s ← cstr p;
        sprint out out_sz (B "%s(dfd=%lld, pathname=`%s`, flags=%s, mode=%#llo)")
          [AStr name; ll e 0; AStr s; AStr flags; ull e 3]
    | None =>
        sprint out out_sz (B "%s(dfd=%lld, pathname=%#llx, flags=%s, mode=%#llo)")
          [AStr name; ll e 0; ull e 1; AStr flags; ull e 3]
    end
  else if id =? NR_openat2 then
    match arg_string e with
    | Some p =>
        s ← cstr p;
        sprint out out_sz (B "%s(dfd=%lld, pathname=`%s`, how=%#llx, size=%llu)")
          [AStr name; ll e 0; AStr s; ull e 2; ull e 3]
    | None =>
        sprint out out_sz (B "%s(dfd=%lld, pathname=%#llx, how=%#llx, size=%llu)")
          [AStr name; ll e 0; ull e 1; ull e 2; ull e 3]
    end
  else if id =? NR_execve then
    match arg_string e with
    | Some p =>
        s ← cstr p;
        sprint out out_sz (B "%s(filename=`%s`, argv=%#llx, envp=%#llx)")
          [AStr name; AStr s; ull e 1; ull e 2]
    | None =>
        sprint out out_sz (B "%s(filename=%#llx, argv=%#llx, envp=%#llx)")
          [AStr name; ull e 0; ull e 1; ull e 2]
    end
  else if (id =? NR_connect) || (id =? NR_bind) || (id =? NR_sendto) then
    addrbuf ← format_sockaddr e (junk 192) 192;
    addr ← cstr addrbuf;
    if id =? NR_sendto then
      sprint out out_sz
        (B "%s(sockfd=%llu, buf=%#llx, len=%llu, flags=%#llx, dest_addr=%s, addrlen=%llu)")
        [AStr name; ull e 0; ull e 1; ull e 2; ull e 3; AStr addr; ull e 5]
    else
      sprint out out_sz (B "%s(sockfd=%llu, addr=%s, addrlen=%llu)")
        [AStr name; ull e 0; AStr addr; ull e 2]
  else if id =? NR_epoll_pwait then
    sprint out out_sz
      (B "%s(epfd=%llu, events=%#llx, maxevents=%llu, timeout=%lld, sigmask=%#llx, sigsetsize=%llu)")
      [AStr name; ull e 0; ull e 1; ull e 2; ll e 3; ull e 4; ull e 5]
  else
    sprint out out_sz (B "%s(%#llx, %#llx, %#llx, %#llx, %#llx, %#llx)")
      [AStr name; ull e 0; ull e 1; ull e 2; ull e 3; ull e 4; ull e 5].

(** [-e->ret] overflows for the smallest [long long]. *)
Definition format_ret (ret : Z) (buf : bytes) (sz : Z) : option bytes :=
  if ret <? 0 then
    if ret =? LONG_MIN then None
    else
      let err := sint 32 (- ret) in
      sprint buf sz (B "-1 %s (%s)") [AStr (errno_name err); AStr (strerror err)]
  else sprint buf sz (B "%lld") [AInt 2 ret].

Definition line_format : bytes := B "pid=%d tid=%d comm=%s %s = %s [id=%d]" ++ [10].

(** [handle_event(ctx, data, data_sz)] on a record of [data_sz] bytes: the
    text printed (the result is always 0). *)
Definition handle_event (data : bytes) : option bytes :=
  if (length data <? event_size)%nat then Some []
  else
    let e := decode_event data in
    let name := strip_sys (syscall_name (ev_syscall_id e)) in
    callbuf ← format_syscall_args e name (junk 512) 512;
    retbuf ← format_ret (ev_ret e) (junk 128) 128;
    comm ← cstr (ev_comm e);
    call ← cstr callbuf;
    ret ← cstr retbuf;
    format line_format
      [AInt 0 (ev_tgid e); AInt 0 (ev_pid e); AStr comm; AStr call; AStr ret;
       AInt 0 (ev_syscall_id e)].
End Print.
