(* ===== verification/StraceFmtProps.v ===== *)
(** * The text libbpfstrace prints

    The formatting functions against reference definitions without buffers: no
    store outside an array, no truncation of the call (of the return text only
    what its array cannot hold), every conversion well typed, and the line printed
    for an event. *)

From stdpp Require Import base list gmap strings.
From Stdlib Require Import ZArith Lia.
From S2P Require Import Prelude CLib Printf Layout Uapi StraceTypes StraceFmt.

Local Open Scope string_scope.
Local Open Scope list_scope.
Local Open Scope Z_scope.

Lemma sprint_ready buf n fmt args bound :
  ready fmt args bound -> length buf = n -> (bound < n)%nat -> Z.of_nat n <= INT_MAX ->
  exists buf' out, sprint buf (Z.of_nat n) fmt args = Some buf' /\
    format fmt args = Some out /\ cstr buf' = Some out.
Proof.
  intros Hr Hl Hlt Hmax. destruct (snprintf_ready buf n fmt args bound) as (buf' & out & Hs & ? & ?); auto.
  exists buf', out. unfold sprint. by rewrite Hs.
Qed.

(** ** Flags of openat *)

Definition flag_text (flags : Z) (f : Z * string) : bytes :=
  if Z.land flags f.1 =? 0 then [] else 124 :: B f.2.

Definition access_text (access : Z) : bytes :=
  if access =? O_RDONLY then B "O_RDONLY"
  else if access =? O_WRONLY then B "O_WRONLY"
  else if access =? O_RDWR then B "O_RDWR"
  else B "0x3".

Definition flags_text (flags : Z) : bytes :=
  access_text (Z.land flags O_ACCMODE) ++ mjoin (flag_text flags <$> open_flag_list).

Lemma append_flag_holds flags n buf s f :
  length buf = n -> holds buf s -> (length s + S (length (B f.2)) < n)%nat -> Z.of_nat n <= INT_MAX ->
  exists buf',
    append_flag flags (Z.of_nat n) (buf, Z.of_nat (length s)) f
      = Some (buf', Z.of_nat (length (s ++ flag_text flags f))) /\
    length buf' = n /\ holds buf' (s ++ flag_text flags f).
Proof.
  intros Hl Hh Hlen Hn. unfold append_flag, flag_text.
  destruct (Z.land flags f.1 =? 0); [exists buf; by rewrite app_nil_r|].
  destruct (snprintf_append buf n s (B "|%s") [AStr (B f.2)] (124 :: B f.2)) as (buf' & -> & Hl' & Hh');
    auto.
  - unfold format. replace (parse_fmt None (B "|%s")) with (Some [DLit 124; DConv false 0 115])
      by reflexivity. simpl. by rewrite app_nil_r.
  - exists buf'. split; [|done]. simpl. rewrite uint_id; [|unfold is_uint, INT_MAX in *; lia].
    do 3 f_equal. rewrite length_app. simpl. lia.
Qed.

#[local] Arguments append_flag : simpl never.

Lemma append_flags_holds flags n buf s fs :
  length buf = n -> holds buf s ->
  (length s + sum_list ((fun f => S (length (B f.2))) <$> fs) < n)%nat -> Z.of_nat n <= INT_MAX ->
  exists buf',
    append_flags flags (Z.of_nat n) (buf, Z.of_nat (length s)) fs
      = Some (buf', Z.of_nat (length (s ++ mjoin (flag_text flags <$> fs)))) /\
    length buf' = n /\ holds buf' (s ++ mjoin (flag_text flags <$> fs)).
Proof.
  revert buf s. induction fs as [|f fs IH]; intros buf s Hl Hh Hlen Hn; csimpl in *.
  { exists buf. by rewrite app_nil_r. }
  destruct (append_flag_holds flags n buf s f) as (buf1 & -> & Hl1 & Hh1); [done|done|lia|done|].
  simpl. destruct (IH buf1 (s ++ flag_text flags f) Hl1 Hh1) as (buf' & -> & ? & ?); [|done|].
  - rewrite length_app. unfold flag_text at 1. case_match; simpl; lia.
  - exists buf'. by rewrite <- !app_assoc in *.
Qed.

Lemma accmode_cases flags :
  Z.land flags O_ACCMODE = 0 \/ Z.land flags O_ACCMODE = 1 \/
  Z.land flags O_ACCMODE = 2 \/ Z.land flags O_ACCMODE = 3.
Proof.
  change O_ACCMODE with (Z.ones 2). rewrite Z.land_ones by lia.
  pose proof (Z.mod_pos_bound flags (2 ^ 2)). lia.
Qed.

Lemma format_openat_flags_holds flags buf :
  length buf = 256%nat ->
  exists buf', format_openat_flags flags buf 256 = Some buf' /\ holds buf' (flags_text flags) /\
    length buf' = 256%nat.
Proof.
  intros Hl. unfold format_openat_flags, flags_text, access_text.
  assert (forall fmt args out, format fmt args = Some out -> (length out <= 10)%nat ->
    exists buf', ('(buf, n) ← snprintf_at buf 0 (uint 64 (256 - 0)) fmt args;
      fst <$> append_flags flags 256 (buf, uint 64 n) open_flag_list) = Some buf' /\
      holds buf' (out ++ mjoin (flag_text flags <$> open_flag_list)) /\ length buf' = 256%nat) as Hgen.
  { intros fmt args out Hf Hb.
    destruct (snprintf_append buf 256 [] fmt args out Hl) as (buf1 & Hs & Hl1 & Hh1);
      [auto|done|simpl; lia|unfold INT_MAX; lia|].
    change (256 - 0) with (Z.of_nat 256 - Z.of_nat (length (@nil Z))).
    change (snprintf_at buf 0) with (snprintf_at buf (Z.of_nat (length (@nil Z)))). rewrite Hs.
    cbn [mbind option_bind].
    rewrite uint_id by (unfold is_uint; lia).
    destruct (append_flags_holds flags 256 buf1 out open_flag_list) as (buf' & Ha & ? & ?);
      [done|done| |unfold INT_MAX; lia|].
    - replace (sum_list _) with 100%nat by (vm_compute; reflexivity). lia.
    - exists buf'. change (append_flags flags 256) with (append_flags flags (Z.of_nat 256)). by rewrite Ha. }
  destruct (accmode_cases flags) as [->|[->|[->| ->]]]; zeval;
    (apply Hgen; [reflexivity|vm_compute; lia]).
Qed.

Lemma flags_text_nonul flags : nonul (flags_text flags).
Proof.
  unfold flags_text, flag_text. apply nonul_app. split.
  - destruct (accmode_cases flags) as [->|[->|[->| ->]]];
      apply (bool_decide_unpack _); vm_compute; exact I.
  - unfold open_flag_list. cbn [fmap list_fmap]. cbn [mjoin list_join].
    repeat (apply nonul_app; split);
      try (destruct (_ =? _)); apply (bool_decide_unpack _); vm_compute; exact I.
Qed.

Lemma flags_join_length flags fs :
  (length (mjoin (flag_text flags <$> fs)) <= sum_list ((fun f => S (length (B f.2))) <$> fs))%nat.
Proof.
  induction fs as [|f fs IH]; csimpl; [lia|]. rewrite length_app.
  unfold flag_text at 1. case_match; simpl; lia.
Qed.

Lemma flags_text_length flags : (length (flags_text flags) <= 108)%nat.
Proof.
  unfold flags_text. rewrite length_app. pose proof (flags_join_length flags open_flag_list) as Hj.
  replace (sum_list _) with 100%nat in Hj by (vm_compute; reflexivity).
  assert (length (access_text (Z.land flags O_ACCMODE)) <= 8)%nat; [|lia].
  destruct (accmode_cases flags) as [->|[->|[->| ->]]]; vm_compute; lia.
Qed.

(** ** Socket addresses and calls *)

Lemma sint64_range x : is_sint 64 (sint 64 x).
Proof. apply sint_range. lia. Qed.

Lemma ntohs_range x : is_uint 32 (ntohs x).
Proof.
  unfold ntohs, is_uint. change 255 with (Z.ones 8). rewrite !Z.land_ones by lia.
  pose proof (Z.mod_pos_bound (Z.shiftr x 8) (2 ^ 8) ltac:(lia)).
  pose proof (Z.mod_pos_bound x (2 ^ 8) ltac:(lia)).
  split; [apply Z.lor_nonneg; split; [lia|]; apply Z.shiftl_nonneg; lia|].
  rewrite Z.shiftl_mul_pow2 by lia. rewrite <- (Z.mod_small (Z.lor _ _) (2 ^ 32)); [apply Z.mod_pos_bound; lia|].
  split; [apply Z.lor_nonneg; lia|].
  destruct (Z.eq_dec (Z.lor (Z.shiftr x 8 mod 2 ^ 8) (x mod 2 ^ 8 * 2 ^ 8)) 0) as [->|]; [lia|].
  apply Z.log2_lt_pow2; [assert (0 <= Z.lor (Z.shiftr x 8 mod 2 ^ 8) (x mod 2 ^ 8 * 2 ^ 8)) by (apply Z.lor_nonneg; lia); lia|].
  rewrite Z.log2_lor by lia. apply Z.max_lub_lt.
  - destruct (Z.eq_dec (Z.shiftr x 8 mod 2 ^ 8) 0) as [->|]; [done|apply Z.log2_lt_pow2; lia].
  - destruct (Z.eq_dec (x mod 2 ^ 8 * 2 ^ 8) 0) as [->|]; [done|apply Z.log2_lt_pow2; lia].
Qed.

Lemma uint16_32 x : is_uint 16 x -> is_uint 32 x.
Proof. unfold is_uint. lia. Qed.

#[export] Hint Resolve sint64_range ntohs_range uint16_32 : cint.

Lemma futex_op_name_text op : nonul (futex_op_name op) /\ (length (futex_op_name op) <= 21)%nat.
Proof.
  unfold futex_op_name. destruct (futex_cases !! Z.to_nat (Z.land op 127)) as [n|] eqn:E.
  - assert (Forall (fun n => nonul (B n) /\ (length (B n) <= 21)%nat) futex_cases) as Hall.
    { apply (bool_decide_unpack _). vm_compute. exact I. }
    by apply (Forall_lookup_1 _ _ _ _ Hall E).
  - split; [apply (bool_decide_unpack _); vm_compute; exact I|vm_compute; lia].
Qed.

(** Names of the table: at most 32 characters, prefixed "sys_". *)
Definition table_name_ok (call : string) : Prop :=
  nonul (B call) /\ (length (B call) <= 32)%nat /\ strncmp (B call) (B "sys_") 4 = 0.

#[export] Instance table_name_ok_dec call : Decision (table_name_ok call).
Proof. unfold table_name_ok. apply _. Defined.

Lemma table_names_ok : Forall (fun c => table_name_ok c.2) (syscall_cases arm64_config).
Proof. apply (bool_decide_unpack _). vm_compute. exact I. Qed.

Lemma syscall_find_in nr cases call : syscall_find nr cases = Some call -> (nr, call) ∈ cases.
Proof.
  induction cases as [|[n c] cases IH]; simpl; [done|].
  destruct (Z.eqb_spec nr n) as [->|]; [intros [= ->]; set_solver|set_solver].
Qed.

Lemma display_name_text nr :
  nonul (strip_sys (syscall_name nr)) /\ (length (strip_sys (syscall_name nr)) <= 32)%nat.
Proof.
  unfold syscall_name. destruct (syscall_find _ _) as [call|] eqn:E.
  - apply syscall_find_in in E. pose proof table_names_ok as Hall. rewrite Forall_forall in Hall.
    destruct (Hall _ E) as (Hn & Hl & Hp). simpl in *. unfold strip_sys. rewrite Hp. simpl.
    split; [by apply Forall_drop|rewrite length_drop; lia].
  - split; [apply (bool_decide_unpack _); vm_compute; exact I|vm_compute; lia].
Qed.

Lemma errno_find_in err cases n :
  errno_find err cases = Some n -> exists label, (label, n) ∈ cases /\ errno_lookup label errno_table = Some err.
Proof.
  induction cases as [|[label name] cases IH]; cbn [errno_find]; [done|].
  destruct (errno_lookup label errno_table) as [v|] eqn:El; [destruct (Z.eqb_spec err v) as [->|]|].
  1: intros [= ->]; exists label; split; [left|done].
  all: intros (l & ? & ?)%IH; exists l; split; [by right|done].
Qed.

Lemma errno_name_text err : nonul (errno_name err) /\ (length (errno_name err) <= 12)%nat.
Proof.
  assert (Forall (fun n => nonul (B n) /\ (length (B n) <= 12)%nat) errno_cases.*2) as Hall.
  { apply (bool_decide_unpack _). vm_compute. exact I. }
  unfold errno_name. destruct (errno_find err errno_cases) as [n|] eqn:E.
  - apply errno_find_in in E as (label & Hin & _). rewrite Forall_forall in Hall.
    apply Hall, list_elem_of_fmap. by exists (label, n).
  - split; [apply (bool_decide_unpack _); vm_compute; exact I|vm_compute; lia].
Qed.

Section Text.
Context (junk : nat -> bytes) (junk_length : forall n, length (junk n) = n).
Context (strerror : Z -> bytes) (inet_ntop : Z -> bytes -> option bytes).
Hypothesis strerror_text : forall err, nonul (strerror err).
Hypothesis ntop_text4 : forall a s,
  inet_ntop AF_INET a = Some s -> nonul s /\ (length s < INET_ADDRSTRLEN)%nat.
Hypothesis ntop_text6 : forall a s,
  inet_ntop AF_INET6 a = Some s -> nonul s /\ (length s < INET6_ADDRSTRLEN)%nat.

(** Format and arguments of the address text. *)
Definition sockaddr_request (e : syscall_event) : bytes * list parg :=
  if ev_sa_valid e =? 0 then (B "NULL", [])
  else if ev_sa_family e =? AF_INET then
    match inet_ntop AF_INET (le_bytes 4 (ev_sa_addr4 e)) with
    | None => (B "{sa_family=AF_INET, sin_port=%u, sin_addr=?}", [AInt 0 (ntohs (ev_sa_port e))])
    | Some ip => (B "{sa_family=AF_INET, sin_port=%u, sin_addr=`%s`}",
                  [AInt 0 (ntohs (ev_sa_port e)); AStr ip])
    end
  else if ev_sa_family e =? AF_INET6 then
    match inet_ntop AF_INET6 (ev_sa_addr6 e) with
    | None => (B "{sa_family=AF_INET6, sin6_port=%u, sin6_addr=?}",
               [AInt 0 (ntohs (ev_sa_port e))])
    | Some ip => (B "{sa_family=AF_INET6, sin6_port=%u, sin6_addr=`%s`, sin6_scope_id=%u}",
                  [AInt 0 (ntohs (ev_sa_port e)); AStr ip; AInt 0 (ev_sa_scope_id e)])
    end
  else (B "{sa_family=%u}", [AInt 0 (ev_sa_family e)]).

Definition sockaddr_text (e : syscall_event) : option bytes :=
  let '(fmt, args) := sockaddr_request e in format fmt args.

Lemma sockaddr_ready e :
  wf_event e -> ready (sockaddr_request e).1 (sockaddr_request e).2 150.
Proof using ntop_text4 ntop_text6.
  intros []. unfold sockaddr_request.
  destruct (ev_sa_valid e =? 0); [ready_tac|].
  destruct (ev_sa_family e =? AF_INET).
  { destruct (inet_ntop AF_INET _) as [ip|] eqn:E; [apply ntop_text4 in E as [? ?]|];
      unfold INET_ADDRSTRLEN in *; ready_tac; eauto with cint. }
  destruct (ev_sa_family e =? AF_INET6).
  { destruct (inet_ntop AF_INET6 _) as [ip|] eqn:E; [apply ntop_text6 in E as [? ?]|];
      unfold INET6_ADDRSTRLEN in *; ready_tac; eauto with cint. }
  ready_tac; eauto with cint.
Qed.

Lemma format_sockaddr_request e buf sz :
  format_sockaddr inet_ntop e buf sz =
    let '(fmt, args) := sockaddr_request e in sprint buf sz fmt args.
Proof using Type. unfold format_sockaddr, sockaddr_request. repeat case_match; done. Qed.

Lemma format_sockaddr_text e :
  wf_event e ->
  exists buf out, format_sockaddr inet_ntop e (junk 192) 192 = Some buf /\
    sockaddr_text e = Some out /\ cstr buf = Some out /\ (length out <= 150)%nat /\ nonul out.
Proof using junk_length ntop_text4 ntop_text6.
  intros Hr%sockaddr_ready. pose proof (ready_format _ _ _ Hr) as (out & Hf & Hn & Hl).
  destruct (sprint_ready (junk 192) 192 _ _ _ Hr) as (buf & out' & Hs & Hf' & Hc);
    [apply junk_length|lia|unfold INT_MAX; lia|].
  rewrite format_sockaddr_request. unfold sockaddr_text.
  destruct (sockaddr_request e) as [fmt args]. simpl in *. rewrite Hf in Hf'.
  exists buf, out. split_and!; try done. congruence.
Qed.

(** The string of a call, when one was captured. *)
Definition captured (e : syscall_event) : option bytes := arg_string e ≫= cstr.

Lemma arg_string_captured e :
  wf_event e ->
  arg_string e = None \/
  exists s, arg_string e = Some (ev_str e) /\ cstr (ev_str e) = Some s /\ captured e = Some s /\
    nonul s /\ (length s <= 255)%nat.
Proof using Type.
  intros []. unfold captured, arg_string.
  destruct wf_str as [Hz|(s & Hs & Hl)]; [left; rewrite Hz; done|].
  pose proof (cstr_length _ _ Hs) as Hlen. rewrite wf_str_size in Hlen.
  unfold SYSCALL_STR_LEN in *. right. exists s.
  rewrite (proj2 (Z.ltb_lt 0 _)), (proj2 (Z.leb_le _ _)) by lia. simpl.
  split_and!; [done..|by eapply cstr_nonul|lia].
Qed.

(** Format and arguments of the text of a call. *)
Definition call_request (e : syscall_event) (name : bytes) (str : option bytes) (flags addr : bytes)
  : bytes * list parg :=
  let id := ev_syscall_id e in
  if (id =? NR_read) || (id =? NR_write) then
    (B "%s(fd=%llu, buf=%#llx, count=%llu)", [AStr name; ull e 0; ull e 1; ull e 2])
  else if id =? NR_ioctl then
    (B "%s(fd=%llu, cmd=%#llx, arg=%#llx)", [AStr name; ull e 0; ull e 1; ull e 2])
  else if id =? NR_futex then
    (B "%s(uaddr=%#llx, op=%s(%#llx), val=%llu, timeout/uaddr2=%#llx, val3=%#llx)",
     [AStr name; ull e 0; AStr (futex_op_name (arg (ev_args e) 1)); ull e 1; ull e 2;
      ull e 3; ull e 4])
  else if id =? NR_openat then
    match str with
    | Some s => (B "%s(dfd=%lld, pathname=`%s`, flags=%s, mode=%#llo)",
                 [AStr name; ll e 0; AStr s; AStr flags; ull e 3])
    | None => (B "%s(dfd=%lld, pathname=%#llx, flags=%s, mode=%#llo)",
               [AStr name; ll e 0; ull e 1; AStr flags; ull e 3])
    end
  else if id =? NR_openat2 then
    match str with
    | Some s => (B "%s(dfd=%lld, pathname=`%s`, how=%#llx, size=%llu)",
                 [AStr name; ll e 0; AStr s; ull e 2; ull e 3])
    | None => (B "%s(dfd=%lld, pathname=%#llx, how=%#llx, size=%llu)",
               [AStr name; ll e 0; ull e 1; ull e 2; ull e 3])
    end
  else if id =? NR_execve then
    match str with
    | Some s => (B "%s(filename=`%s`, argv=%#llx, envp=%#llx)",
                 [AStr name; AStr s; ull e 1; ull e 2])
    | None => (B "%s(filename=%#llx, argv=%#llx, envp=%#llx)",
               [AStr name; ull e 0; ull e 1; ull e 2])
    end
  else if (id =? NR_connect) || (id =? NR_bind) || (id =? NR_sendto) then
    if id =? NR_sendto then
      (B "%s(sockfd=%llu, buf=%#llx, len=%llu, flags=%#llx, dest_addr=%s, addrlen=%llu)",
       [AStr name; ull e 0; ull e 1; ull e 2; ull e 3; AStr addr; ull e 5])
    else
      (B "%s(sockfd=%llu, addr=%s, addrlen=%llu)",
       [AStr name; ull e 0; AStr addr; ull e 2])
  else if id =? NR_epoll_pwait then
    (B "%s(epfd=%llu, events=%#llx, maxevents=%llu, timeout=%lld, sigmask=%#llx, sigsetsize=%llu)",
     [AStr name; ull e 0; ull e 1; ull e 2; ll e 3; ull e 4; ull e 5])
  else
    (B "%s(%#llx, %#llx, %#llx, %#llx, %#llx, %#llx)",
     [AStr name; ull e 0; ull e 1; ull e 2; ull e 3; ull e 4; ull e 5]).

Definition call_text (e : syscall_event) (name : bytes) : option bytes :=
  addr ← sockaddr_text e;
  let '(fmt, args) := call_request e name (captured e) (flags_text (arg (ev_args e) 2)) addr in
  format fmt args.

Lemma call_ready e name str flags addr :
  wf_event e -> nonul name -> (length name <= 32)%nat ->
  (forall s, str = Some s -> nonul s /\ (length s <= 255)%nat) ->
  nonul flags -> (length flags <= 108)%nat -> nonul addr -> (length addr <= 150)%nat ->
  let r := call_request e name str flags addr in ready r.1 r.2 500.
Proof using Type.
  intros [] Hn Hnl Hs Hf Hfl Ha Hal. unfold call_request, ull, ll.
  pose proof (futex_op_name_text (arg (ev_args e) 1)) as [Hx Hxl].
  destruct (_ || _); [ready_tac|].
  destruct (_ =? NR_ioctl); [ready_tac|].
  destruct (_ =? NR_futex); [ready_tac|].
  destruct str as [s|]; [destruct (Hs s eq_refl)|];
    (destruct (_ =? NR_openat); [ready_tac|]);
    (destruct (_ =? NR_openat2); [ready_tac|]);
    (destruct (_ =? NR_execve); [ready_tac|]);
    (destruct (_ || _); [destruct (_ =? NR_sendto); ready_tac|]);
    (destruct (_ =? NR_epoll_pwait); ready_tac).
Qed.

(** The return value, or the name and the text of the error. *)
Definition ret_text (ret : Z) : option bytes :=
  if ret <? 0 then
    format (B "-1 %s (%s)")
      [AStr (errno_name (sint 32 (- ret))); AStr (strerror (sint 32 (- ret)))]
  else format (B "%lld") [AInt 2 ret].

(** The line of an event, with the call and the return value changed by [cut]. *)
Definition line_with (cut : bytes -> bytes) (e : syscall_event) : option bytes :=
  comm ← cstr (ev_comm e);
  call ← call_text e (strip_sys (syscall_name (ev_syscall_id e)));
  ret ← ret_text (ev_ret e);
  format line_format
    [AInt 0 (ev_tgid e); AInt 0 (ev_pid e); AStr comm; AStr call; AStr (cut ret);
     AInt 0 (ev_syscall_id e)].

(** Nothing is cut. *)
Definition full_line : syscall_event -> option bytes := line_with (fun ret => ret).

(** The line printed: of the return value, what fits the array of 128 characters
    that [handle_event] has for it. *)
Definition event_line : syscall_event -> option bytes := line_with (take 127).

Lemma format_syscall_args_text e name :
  wf_event e -> nonul name -> (length name <= 32)%nat ->
  exists buf out, format_syscall_args junk inet_ntop e name (junk 512) 512 = Some buf /\
    call_text e name = Some out /\ cstr buf = Some out /\ (length out <= 500)%nat /\ nonul out.
Proof using junk_length ntop_text4 ntop_text6.
  intros Hwf Hn Hnl.
  destruct (format_sockaddr_text e Hwf) as (abuf & addr & Ha & Hat & Hac & Hal & Han).
  destruct (format_openat_flags_holds (arg (ev_args e) 2) (junk 256)) as (fbuf & Hf & Hfh & _);
    [apply junk_length|].
  pose proof (holds_cstr _ _ (flags_text_nonul _) Hfh) as Hfc.
  assert (forall s, captured e = Some s -> nonul s /\ (length s <= 255)%nat) as Hs.
  { intros s. unfold captured. destruct (arg_string_captured e Hwf) as [->|(s' & -> & Hc & _ & ? & ?)];
      [done|]. simpl. rewrite Hc. intros [= ->]. done. }
  pose proof (call_ready e name (captured e) _ addr Hwf Hn Hnl Hs
    (flags_text_nonul (arg (ev_args e) 2)) (flags_text_length _) Han Hal) as Hr.
  set (r := call_request e name (captured e) (flags_text (arg (ev_args e) 2)) addr) in *.
  assert (format_syscall_args junk inet_ntop e name (junk 512) 512 = sprint (junk 512) 512 r.1 r.2) as ->.
  { subst r. unfold format_syscall_args, call_request. rewrite Hf, Ha. cbn [mbind option_bind].
    rewrite Hfc, Hac. cbn [mbind option_bind]. unfold captured.
    destruct (arg_string_captured e Hwf) as [->|(s & -> & Hc & _)]; cbn [mbind option_bind];
      rewrite ?Hc; cbn [mbind option_bind]; repeat case_match; try done; lia. }
  pose proof (ready_format _ _ _ Hr) as (out & Hfo & Hno & Hlo).
  destruct (sprint_ready (junk 512) 512 _ _ _ Hr) as (buf & out' & Hsp & Hf' & Hc);
    [apply junk_length|lia|unfold INT_MAX; lia|].
  exists buf, out. split; [exact Hsp|]. split_and!; try done; [|congruence].
  unfold call_text. rewrite Hat. cbn [mbind option_bind]. fold r. by destruct r.
Qed.

(** A message of at most [INT_MAX] characters, cut to the array. *)
Lemma sprint_cut buf n fmt args out :
  format fmt args = Some out -> nonul out -> length buf = n -> (0 < n)%nat ->
  Z.of_nat n <= INT_MAX -> Z.of_nat (length out) <= INT_MAX ->
  exists buf', sprint buf (Z.of_nat n) fmt args = Some buf' /\
    cstr buf' = Some (take (pred n) out) /\ nonul (take (pred n) out).
Proof using Type.
  intros Hf Hno Hl Hn Hmax Hout. unfold sprint, snprintf.
  rewrite (snprintf_at_safe _ _ _ _ _ out) by (done || lia). eexists. split; [done|].
  replace (Z.to_nat (Z.of_nat n - 1)) with (pred n) by lia.
  assert (nonul (take (pred n) out)) by (by apply Forall_take).
  split; [|done]. apply cstr_store_head; [done|]. rewrite length_take. lia.
Qed.

(** The error message fits the result type of [snprintf]. *)
Hypothesis strerror_fits : forall err, Z.of_nat (length (strerror err)) + 20 <= INT_MAX.

Lemma format_ret_text ret :
  is_sint 64 ret -> ret <> LONG_MIN ->
  exists buf out, format_ret strerror ret (junk 128) 128 = Some buf /\
    ret_text ret = Some out /\ cstr buf = Some (take 127 out) /\ nonul (take 127 out) /\
    (length out <= length (strerror (sint 32 (- ret))) + 20)%nat.
Proof using junk_length strerror_fits strerror_text.
  intros Hr Hmin. unfold format_ret, ret_text.
  destruct (Z.eqb_spec ret LONG_MIN); [done|].
  set (err := sint 32 (- ret)). pose proof (errno_name_text err) as [Hen Hel].
  pose proof (strerror_fits err) as Hsl. pose proof (strerror_text err) as Hsn.
  generalize dependent (errno_name err). generalize dependent (strerror err).
  intros msg Hsl Hsn en Hen Hel. clear err.
  assert (exists fmt args, ready fmt args (length msg + 20) /\
    (if ret <? 0 then sprint (junk 128) 128 (B "-1 %s (%s)") [AStr en; AStr msg]
     else sprint (junk 128) 128 (B "%lld") [AInt 2 ret]) = sprint (junk 128) 128 fmt args /\
    (if ret <? 0 then format (B "-1 %s (%s)") [AStr en; AStr msg]
     else format (B "%lld") [AInt 2 ret]) = format fmt args) as (fmt & args & Hrd & -> & ->).
  { destruct (ret <? 0).
    - exists (B "-1 %s (%s)"), [AStr en; AStr msg]. split; [ready_tac|done].
    - exists (B "%lld"), [AInt 2 ret]. split; [ready_tac|done]. }
  apply ready_format in Hrd as (out & Hf & Hno & Hlo).
  destruct (sprint_cut (junk 128) 128 fmt args out) as (buf & Hs & Hc & Hn');
    [done|done|apply junk_length|lia|unfold INT_MAX; lia|lia|].
  exists buf, out. rewrite Hf. done.
Qed.

Lemma line_ready tgid pid id comm call ret :
  is_sint 32 tgid -> is_sint 32 pid -> is_sint 32 id -> nonul comm -> nonul call -> nonul ret ->
  ready line_format
    [AInt 0 tgid; AInt 0 pid; AStr comm; AStr call; AStr ret; AInt 0 id]
    (length comm + length call + length ret + 100).
Proof using Type. intros. unfold line_format. ready_tac. Qed.

Lemma handle_event_text data :
  length data = 384%nat -> wf_event (decode_event data) -> ev_ret (decode_event data) <> LONG_MIN ->
  exists line, handle_event junk strerror inet_ntop data = Some line /\
    event_line (decode_event data) = Some line /\
    ((length (strerror (sint 32 (- ev_ret (decode_event data)))) <= 107)%nat ->
     full_line (decode_event data) = Some line).
Proof using junk_length strerror_fits strerror_text ntop_text4 ntop_text6.
  intros Hl Hwf Hret. unfold handle_event. rewrite Hl, event_size_eq. cbv zeta.
  set (e := decode_event data) in *. change (384 <? 384)%nat with false. cbv match.
  pose proof (display_name_text (ev_syscall_id e)) as [Hnn Hnl].
  destruct (format_syscall_args_text e _ Hwf Hnn Hnl) as (cbuf & call & -> & Hct & Hcc & Hcl & Hcn).
  destruct (format_ret_text (ev_ret e)) as (rbuf & ret & -> & Hrt & Hrc & Hrn & Hrl); [apply Hwf|done|].
  destruct (wf_comm _ Hwf) as [comm Hcomm]. unfold event_line, full_line, line_with.
  rewrite Hcomm, Hct, Hrt. cbn [mbind option_bind]. rewrite Hcc, Hrc. cbn [mbind option_bind].
  pose proof Hwf as [Ht Hp Hi _ _ _ _ _ _ _ _ _ _ _ _ _].
  destruct (ready_format _ _ _ (line_ready (ev_tgid e) (ev_pid e) (ev_syscall_id e) comm call (take 127 ret)
    Ht Hp Hi (cstr_nonul _ _ Hcomm) Hcn Hrn)) as (line & Hline & _).
  exists line. split_and!; [done..|]. intros Hs. by rewrite <- (take_ge ret 127) by lia.
Qed.

(** The negation of the return value overflows for the smallest [long long], so
    such a record is not printed: its meaning is undefined. *)
Lemma smallest_ret_overflows data :
  length data = 384%nat -> wf_event (decode_event data) -> ev_ret (decode_event data) = LONG_MIN ->
  handle_event junk strerror inet_ntop data = None.
Proof using junk_length ntop_text4 ntop_text6.
  intros Hl Hwf Hret. unfold handle_event. rewrite Hl, event_size_eq. cbv zeta.
  set (e := decode_event data) in *. change (384 <? 384)%nat with false. cbv match.
  pose proof (display_name_text (ev_syscall_id e)) as [Hnn Hnl].
  destruct (format_syscall_args_text e _ Hwf Hnn Hnl) as (cbuf & call & -> & _).
  unfold format_ret. rewrite Hret. done.
Qed.
End Text.
