(* ===== verification/StraceOutput.v ===== *)
(** * Properties of what libbpfstrace prints

    The line of an event, memory safety of the printing half on every record
    the kernel half can submit, and the tables of names. *)

From stdpp Require Import base list gmap strings.
From Stdlib Require Import ZArith Lia.
From S2P Require Import Prelude CLib Printf Layout BpfIface Uapi StraceTypes StraceBpf.
From S2P Require Import StraceCapture StraceTrace StraceProps StraceFmt StraceFmtProps.

Local Open Scope string_scope.
Local Open Scope list_scope.
Local Open Scope Z_scope.

(** ** Tables of names *)

(** Whatever the configuration macros, the [case] labels that the system-call
    table expands to are pairwise distinct, so the [switch] of [syscall_name] is
    valid and every entry of the table is reachable. *)
Theorem syscall_labels_distinct c : NoDup ((syscall_cases c).*1).
Proof. rewrite syscall_cases_nrs. eapply increasing_NoDup, unistd_increasing. Qed.

Lemma syscall_find_NoDup nr call cases :
  NoDup (cases.*1) -> (nr, call) ∈ cases -> syscall_find nr cases = Some call.
Proof.
  induction cases as [|[n c] cases IH]; simpl; [set_solver|].
  intros [Hn Hnd]%NoDup_cons [Heq|Hin]%elem_of_cons; [simplify_eq; by rewrite Z.eqb_refl|].
  destruct (Z.eqb_spec nr n) as [->|]; [|by apply IH].
  destruct Hn. apply list_elem_of_fmap. by exists (n, call).
Qed.

(** C27: every entry of the arm64 system-call table is printed under its own
    name, without its "sys_" prefix. *)
Theorem syscall_name_printed nr call :
  (nr, call) ∈ syscall_cases arm64_config ->
  syscall_name nr = B call /\ B call = B "sys_" ++ strip_sys (syscall_name nr).
Proof.
  intros Hin. unfold syscall_name.
  rewrite (syscall_find_NoDup nr call); [|rewrite syscall_cases_nrs; eapply increasing_NoDup, unistd_increasing|done].
  split; [done|]. pose proof table_names_ok as Hall. rewrite Forall_forall in Hall.
  destruct (Hall _ Hin) as (Hn & _ & Hp). simpl in *. unfold strip_sys. rewrite Hp. simpl.
  assert (strncmp (B "sys_") (B call) 4 = 0) as Hq.
  { revert Hp. generalize (B call). intros l. unfold bytes_of_string, byte_of_ascii; simpl.
    do 4 (destruct l as [|? l]; simpl; [done|]; repeat ztest; subst; try done; try lia). }
  destruct (proj1 (strncmp_prefix (B "sys_") (B call) ltac:(apply (bool_decide_unpack _); vm_compute; exact I) Hn) Hq)
    as [t Ht].
  rewrite Ht. done.
Qed.

(** The numbers the BPF half and the printing half use for the calls they
    treat specially are those of the table. *)
Theorem special_calls_named :
  syscall_name NR_OPENAT = B "sys_openat" /\ syscall_name NR_OPENAT2 = B "sys_openat2" /\
  syscall_name NR_EXECVE = B "sys_execve" /\ syscall_name NR_CONNECT = B "sys_connect" /\
  syscall_name NR_BIND = B "sys_bind" /\ syscall_name NR_SENDTO = B "sys_sendto" /\
  syscall_name NR_read = B "sys_read" /\ syscall_name NR_write = B "sys_write" /\
  syscall_name NR_ioctl = B "sys_ioctl" /\ syscall_name NR_futex = B "sys_futex" /\
  syscall_name NR_epoll_pwait = B "sys_epoll_pwait" /\
  NR_openat = NR_OPENAT /\ NR_openat2 = NR_OPENAT2 /\ NR_execve = NR_EXECVE /\
  NR_connect = NR_CONNECT /\ NR_bind = NR_BIND /\ NR_sendto = NR_SENDTO.
Proof. vm_compute. repeat split. Qed.

(** The error numbers that have a name: those of errno-base.h, two left out, and
    three of errno.h. *)
Definition named_errnos : list (string * Z) :=
  filter (fun p => p.1 <> "ENOTBLK" /\ p.1 <> "EXDEV") errno_base ++
  [("ENOSYS", 38); ("ECONNREFUSED", 111); ("ETIMEDOUT", 110)].

Lemma errno_find_none v :
  v ∉ named_errnos.*2 -> errno_find v errno_cases = None.
Proof.
  intros Hv. destruct (errno_find v errno_cases) as [n|] eqn:E; [|done]. destruct Hv.
  apply errno_find_in in E as (label & Hin & Hl).
  assert (Forall (fun p => errno_lookup p.1 errno_table ∈ Some <$> named_errnos.*2) errno_cases) as Hall.
  { apply (bool_decide_unpack _). vm_compute. exact I. }
  rewrite Forall_forall in Hall. specialize (Hall _ Hin). cbn [fst] in Hall. rewrite Hl in Hall.
  apply list_elem_of_fmap in Hall as (w & [= ->] & Hw). exact Hw.
Qed.

(** C28: an error number is printed under the name the headers give it when it is
    one of errno-base.h (ENOTBLK and EXDEV left out) or ENOSYS, ECONNREFUSED or
    ETIMEDOUT, and as "ERR" in every other case; the name printed for a number is
    never that of another. *)
Theorem errno_name_printed v :
  (forall n, (n, v) ∈ named_errnos -> errno_lookup n errno_table = Some v /\ errno_name v = B n) /\
  (v ∉ named_errnos.*2 -> errno_name v = B "ERR").
Proof.
  split.
  - assert (Forall (fun p => errno_lookup p.1 errno_table = Some p.2 /\ errno_name p.2 = B p.1) named_errnos) as Hall.
    { apply (bool_decide_unpack _). vm_compute. exact I. }
    rewrite Forall_forall in Hall. intros n Hn. exact (Hall _ Hn).
  - intros Hv. unfold errno_name. by rewrite errno_find_none.
Qed.

(** ** Flags of openat *)

(** C26: for any flags, formatting the flags of openat into the 256-byte array
    stays inside it and is not cut: the array holds the access mode followed by
    the name of every flag that has a bit set, at most 108 characters. *)
Theorem openat_flags_exact flags buf :
  length buf = 256%nat ->
  exists buf', format_openat_flags flags buf 256 = Some buf' /\ length buf' = 256%nat /\
    cstr buf' = Some (flags_text flags) /\ (length (flags_text flags) <= 108)%nat.
Proof.
  intros Hl. destruct (format_openat_flags_holds flags buf Hl) as (buf' & Hf & Hh & Hl').
  exists buf'. split_and!; [done..|by apply holds_cstr, Hh; apply flags_text_nonul|apply flags_text_length].
Qed.

(** C38: a call with O_DSYNC is always printed with O_SYNC as well, set or not:
    the test for O_SYNC accepts any of its two bits, and one of them is
    O_DSYNC. *)
Theorem dsync_prints_sync flags buf :
  length buf = 256%nat -> Z.testbit flags 12 = true ->
  exists buf' pre post, format_openat_flags flags buf 256 = Some buf' /\
    cstr buf' = Some (pre ++ B "|O_DSYNC|O_SYNC" ++ post).
Proof.
  intros Hl Hbit. destruct (format_openat_flags_holds flags buf Hl) as (buf' & Hf & Hh & _).
  assert (forall m, Z.testbit m 12 = true -> (Z.land flags m =? 0) = false) as Hne.
  { intros m Hm. apply Z.eqb_neq. intros H0. apply (f_equal (fun x => Z.testbit x 12)) in H0.
    rewrite Z.land_spec, Hbit, Hm in H0. done. }
  exists buf', (access_text (Z.land flags O_ACCMODE) ++ mjoin (flag_text flags <$> take 6 open_flag_list)),
    (mjoin (flag_text flags <$> drop 8 open_flag_list)).
  split; [done|]. rewrite (holds_cstr _ _ (flags_text_nonul _) Hh). f_equal.
  unfold flags_text. rewrite <- app_assoc. f_equal.
  rewrite <- (take_drop 6 open_flag_list) at 1. rewrite fmap_app, join_app. f_equal.
  change (drop 6 open_flag_list) with ([(O_DSYNC, "O_DSYNC"); (O_SYNC, "O_SYNC")] ++ drop 8 open_flag_list).
  rewrite fmap_app, join_app. f_equal. cbn [fmap list_fmap mjoin list_join].
  unfold flag_text. cbn [fst snd]. rewrite !Hne by reflexivity. reflexivity.
Qed.

(** ** The consumer *)

Section Consumer.
Context (junk : nat -> bytes) (junk_length : forall n, length (junk n) = n).
Context (strerror : Z -> bytes) (inet_ntop : Z -> bytes -> option bytes).
Hypothesis strerror_text : forall err, nonul (strerror err).
Hypothesis strerror_fits : forall err, Z.of_nat (length (strerror err)) + 20 <= INT_MAX.
Hypothesis ntop_text4 : forall a s,
  inet_ntop AF_INET a = Some s -> nonul s /\ (length s < INET_ADDRSTRLEN)%nat.
Hypothesis ntop_text6 : forall a s,
  inet_ntop AF_INET6 a = Some s -> nonul s /\ (length s < INET6_ADDRSTRLEN)%nat.

(** C13: the line printed for a record of the kernel half whose return value is
    not the smallest [long long] has the process, the thread, the command, the
    call with its arguments and its address in full, the return value or the error
    as far as it fits the 127 characters of its array, and the call number.  It is
    the line without any cut when the text of the error has at most 107
    characters.  In particular no conversion is ill typed and no array is
    overrun. *)
Theorem handle_event_line data :
  length data = 384%nat -> wf_event (decode_event data) ->
  ev_ret (decode_event data) <> LONG_MIN ->
  exists line, handle_event junk strerror inet_ntop data = Some line /\
    event_line strerror inet_ntop (decode_event data) = Some line /\
    ((length (strerror (sint 32 (- ev_ret (decode_event data)))) <= 107)%nat ->
     full_line strerror inet_ntop (decode_event data) = Some line).
Proof using All. by apply handle_event_text. Qed.

(** A record too short for the structure is ignored. *)
Lemma handle_event_short data :
  (length data < 384)%nat -> handle_event junk strerror inet_ntop data = Some [].
Proof using Type.
  intros Hl. unfold handle_event. rewrite event_size_eq.
  by rewrite (proj2 (Nat.ltb_lt _ _)).
Qed.

Section Reports.
Context {T M R : Type} `{BpfTask T, !BpfTaskLaws T}
  `{BpfHash Z enter_state M, !BpfHashLaws Z enter_state M, !BpfHashCapacity Z enter_state M}
  `{BpfRingbuf R, !BpfRingbufLaws R}.
Context (target_tgid : Z).

(** The record [m] is printed as the line of a call completed in [hs]. *)
Definition prints_call (hs : list (hit T)) (m : bytes) : Prop :=
  exists e line, completed_in target_tgid hs e /\
    event_line strerror inet_ntop e = Some line /\
    handle_event junk strerror inet_ntop m = Some line.

Lemma run_records_print (k : kern M R) hs :
  loaded k -> (forall t c, HExit t c ∈ hs -> sint 64 (rc_arg1 c) <> LONG_MIN) ->
  Forall (prints_call hs) (rb_records (k_events (bpf_run target_tgid k hs))).
Proof using All.
  intros Hl Hret. eapply Forall_impl; [by apply run_records_wf|].
  intros m (Hm & Hwf & Hc). simpl in *. rewrite event_size_eq in Hm.
  destruct (handle_event_text junk junk_length strerror inet_ntop strerror_text ntop_text4
    ntop_text6 strerror_fits m Hm Hwf) as (line & Hh & He & _).
  { destruct Hc as (h1 & t & c & h2 & t' & c' & h3 & -> & _ & _ & _ & ->). simpl.
    apply (Hret t'). set_solver. }
  exists (decode_event m), line. done.
Qed.
End Reports.

(** End to end.  After any sequence of hits from the loaded state, every
    record in the ring buffer is printed without undefined behaviour, as the
    line of a call that completed in that sequence (the one return value
    excluded, the smallest 64-bit integer, is not a system-call result). *)
Theorem every_report_prints
    {T M R : Type} `{BpfTask T, !BpfTaskLaws T}
    `{BpfHash Z enter_state M, !BpfHashLaws Z enter_state M, !BpfHashCapacity Z enter_state M}
    `{BpfRingbuf R, !BpfRingbufLaws R}
    (target_tgid : Z) (k : kern M R) (hs : list (hit T)) :
  loaded k ->
  (forall t c, HExit t c ∈ hs -> sint 64 (rc_arg1 c) <> LONG_MIN) ->
  Forall (fun m => exists e line, completed_in target_tgid hs e /\
            event_line strerror inet_ntop e = Some line /\
            handle_event junk strerror inet_ntop m = Some line)
    (rb_records (k_events (bpf_run target_tgid k hs))).
Proof using All. apply run_records_print. Qed.
End Consumer.
