(* ===== verification/StraceProc.v ===== *)
(** * Finding the traced process (libbpfstrace.c)

    [parse_pid], [read_proc_comm], [read_proc_cmdline], [process_name_match]
    and [find_pid_by_name], over a snapshot of /proc: the names [readdir]
    returns, and the contents of files. *)

From stdpp Require Import base list gmap strings.
From Stdlib Require Import ZArith Lia.
From S2P Require Import Prelude CLib Printf.

Local Open Scope string_scope.
Local Open Scope list_scope.
Local Open Scope Z_scope.

(** [errno || end == s || *end != '\0' || v <= 0 || v > 0x7fffffff] rejects. *)
Definition strtol_pid (s : bytes) : option Z :=
  let r := strtol10 s in
  if st_erange r || negb (st_conv r) || negb (hd 0 (st_rest r) =? 0)
     || (st_value r <=? 0) || (INT_MAX <? st_value r)
  then None
  else Some (sint 32 (st_value r)).

(** [parse_pid(s, &pid)]: [None] is the result -1. *)
Definition parse_pid (s : bytes) : option Z := strtol_pid s.

Record proc_snapshot := ProcSnapshot {
  (** names in the order of [readdir]; [None] when [opendir] fails *)
  ps_dir : option (list bytes);
  (** contents of a file; [None] when [fopen] fails *)
  ps_file : bytes -> option bytes;
}.

(** [snprintf(path, sizeof(path), fmt, pid)] on [char path[64]]. *)
Definition proc_path (junk : bytes) (fmt : bytes) (pid : Z) : option bytes :=
  '(path, _) ← snprintf junk 64 fmt [AInt 0 pid]; cstr path.

(** [fgets(buf, n, fp)] at the start of a file: what is stored before the
    terminator, through the first newline; [None] at end of file. *)
Fixpoint fgets_text (n : nat) (f : bytes) : bytes :=
  match n, f with
  | S n, c :: f => if c =? 10 then [c] else c :: fgets_text n f
  | _, _ => []
  end.

(** A call that fails leaves the caller's array alone as far as it is used. *)
Definition read_proc_comm (ps : proc_snapshot) (pathbuf : bytes) (pid : Z) (buf : bytes)
  : option (Z * bytes) :=
  path ← proc_path pathbuf (B "/proc/%d/comm") pid;
  match ps_file ps path with
  | None => Some (-1, buf)
  | Some f =>
      match fgets_text (pred (length buf)) f with
      | [] => Some (-1, buf)
      | line =>
          let buf := store 0 (line ++ [0]) buf in
          s ← cstr buf;
          Some (0, store (strcspn1 s 10) [0] buf)
      end
  end.

Definition read_proc_cmdline (ps : proc_snapshot) (pathbuf : bytes) (pid : Z) (buf : bytes)
  : option (Z * bytes) :=
  path ← proc_path pathbuf (B "/proc/%d/cmdline") pid;
  match ps_file ps path with
  | None => Some (-1, buf)
  | Some f =>
      let data := take (pred (length buf)) f in
      if (length data =? 0)%nat then Some (-1, store 0 data buf)
      else Some (0, store (length data) [0] (store 0 data buf))
  end.

(** [process_name_match(target, name)]. *)
Definition process_name_match (target name : bytes) : option bool :=
  let len := length target in
  if strcmp target name =? 0 then Some true
  else if strncmp target name len =? 0 then
    c ← char_at name len; Some (c =? 58)
  else Some false.

Section Scan.
Context (ps : proc_snapshot) (pathbuf : bytes) (target : bytes).

(** The loop over the directory; [comm] and [cmdline] live outside it. *)
Fixpoint scan (entries : list bytes) (comm cmdline : bytes) : option (option Z) :=
  match entries with
  | [] => Some None
  | d :: entries =>
      match strtol_pid d with
      | None => scan entries comm cmdline
      | Some v =>
          '(r, cmdline) ← read_proc_cmdline ps pathbuf v cmdline;
          m ← (if r =? 0 then s ← cstr cmdline; process_name_match target s else Some false);
          if (m : bool) then Some (Some v)
          else
            '(r, comm) ← read_proc_comm ps pathbuf v comm;
            m ← (if r =? 0 then s ← cstr comm; process_name_match target s else Some false);
            if (m : bool) then Some (Some v) else scan entries comm cmdline
      end
  end.

(** [find_pid_by_name(name, &pid)]: inner [None] is the result -1. *)
Definition find_pid_by_name (comm cmdline : bytes) : option (option Z) :=
  match ps_dir ps with
  | None => Some None
  | Some entries => scan entries comm cmdline
  end.
End Scan.

(** ** Accepted process ids *)

Definition is_pid_text (s : bytes) (p : Z) : Prop :=
  exists ws sign ds, s = ws ++ sign ++ ds /\
    Forall (fun c => is_space c = true) ws /\ (sign = [] \/ sign = [43]) /\
    ds <> [] /\ Forall (fun c => is_digit c = true) ds /\
    dec_value ds = p /\ 0 < p <= INT_MAX.

Lemma fmt_conv_d v :
  0 <= v <= INT_MAX -> fmt_conv false 0 100 (AInt 0 v) = Some (digits 10 v).
Proof.
  intros Hv. simpl. change (2 ^ (32 - 1)) with (INT_MAX + 1).
  destruct (Z.leb_spec (- (INT_MAX + 1)) v); [|unfold INT_MAX in *; lia].
  destruct (Z.ltb_spec v (INT_MAX + 1)); [|lia]. simpl.
  unfold fmt_signed. destruct (Z.ltb_spec v 0); [lia|done].
Qed.

Lemma digit_not_space c : is_digit c = true -> is_space c = false.
Proof. unfold is_digit, is_space. intros. destruct (_ || _) eqn:E; [|done]. lia. Qed.

Lemma digit_not_sign c : is_digit c = true -> (c =? 45) = false /\ (c =? 43) = false.
Proof. unfold is_digit. intros. lia. Qed.

Lemma strtol_sign_spec s b s' :
  strtol_sign s = (b, s') ->
  exists sign, s = sign ++ s' /\
    (b = true /\ sign = [45] \/ b = false /\ (sign = [] \/ sign = [43])).
Proof.
  unfold strtol_sign. destruct s as [|x t]; [intros [= <- <-]; exists []; auto|].
  destruct (Z.eqb_spec x 45) as [->|]; [intros [= <- <-]; exists [45]; auto|].
  destruct (Z.eqb_spec x 43) as [->|]; intros [= <- <-]; [exists [43]; auto|exists []; auto].
Qed.

Lemma strtol_digits ws sign ds :
  Forall (fun c => is_space c = true) ws -> (sign = [] \/ sign = [43]) -> ds <> [] ->
  Forall (fun c => is_digit c = true) ds -> dec_value ds <= LONG_MAX ->
  strtol10 (ws ++ sign ++ ds) = StrtolResult (dec_value ds) [] true false.
Proof.
  intros Hw Hs Hne Hd Hv. unfold strtol10.
  assert (ds = hd 0 ds :: tl ds) as Hds by (destruct ds; done).
  assert (is_digit (hd 0 ds) = true) as Hh by (rewrite Hds in Hd; by inversion Hd).
  rewrite span_app; [|done|].
  2: { destruct Hs as [->| ->]; simpl; [|done]. rewrite Hds. by apply digit_not_space. }
  assert (strtol_sign (sign ++ ds) = (false, ds)) as ->.
  { destruct Hs as [->| ->]; [|done]. clear Hds. destruct ds as [|d ds]; [done|].
    simpl in *. destruct (digit_not_sign _ Hh) as [-> ->]. done. }
  rewrite <- (app_nil_r ds) at 1. rewrite span_app by done.
  pose proof (dec_value_nonneg ds Hd). rewrite Hds. rewrite <- Hds.
  destruct (Z.gtb_spec (dec_value ds) LONG_MAX); [lia|].
  destruct (Z.ltb_spec (dec_value ds) LONG_MIN); [unfold LONG_MIN in *; lia|]. done.
Qed.

Lemma strtol_pid_complete s p : is_pid_text s p -> strtol_pid s = Some p.
Proof.
  intros (ws & sign & ds & -> & Hw & Hs & Hne & Hd & <- & Hp). unfold strtol_pid.
  rewrite strtol_digits by (done || unfold INT_MAX, LONG_MAX in *; lia). simpl.
  destruct (Z.leb_spec (dec_value ds) 0); [lia|].
  destruct (Z.ltb_spec INT_MAX (dec_value ds)); [lia|]. simpl.
  f_equal. apply sint_id; [lia|]. unfold is_sint, INT_MAX in *. lia.
Qed.

Lemma strtol_pid_sound s p : nonul s -> strtol_pid s = Some p -> is_pid_text s p.
Proof.
  intros Hnn. unfold strtol_pid, strtol10.
  destruct (span is_space s) as [ws s1] eqn:Ew. apply span_spec in Ew as (-> & Hws & _).
  destruct (strtol_sign s1) as [b s2] eqn:Eb. apply strtol_sign_spec in Eb as (sign & -> & Hsg).
  destruct (span is_digit s2) as [ds rest] eqn:Ed. apply span_spec in Ed as (-> & Hds & _).
  destruct ds as [|d ds']; [simpl; done|]. set (ds := d :: ds') in *.
  pose proof (dec_value_nonneg ds Hds) as Hnn'. set (v := dec_value ds) in *.
  assert (nonul rest) as Hr.
  { apply nonul_app in Hnn as [_ Hnn]. apply nonul_app in Hnn as [_ Hnn]. by apply nonul_app in Hnn as [_ ?]. }
  destruct ((if b then - v else v) >? LONG_MAX) eqn:E1; [simpl; done|].
  destruct ((if b then - v else v) <? LONG_MIN) eqn:E2; [simpl; done|]. simpl.
  destruct rest as [|c rest]; simpl.
  2: { apply Forall_inv in Hr. destruct (Z.eqb_spec c 0); [done|]. simpl. done. }
  destruct (Z.leb_spec (if b then - v else v) 0); [done|].
  destruct (Z.ltb_spec INT_MAX (if b then - v else v)); [done|]. simpl. intros [= <-].
  destruct Hsg as [[-> ->]|[-> Hsg]]; [lia|]. rewrite app_nil_r.
  rewrite sint_id by (unfold is_sint, INT_MAX in *; lia).
  exists ws, sign, ds. split_and!; try done; lia.
Qed.

(** C23: [parse_pid] accepts exactly optional white space, an optional plus sign
    and decimal digits with a value from 1 to 2^31 - 1, and returns that value:
    nothing is truncated, wrapped or accepted with trailing characters. *)
Theorem parse_pid_exact s p : nonul s -> (parse_pid s = Some p <-> is_pid_text s p).
Proof. intros. split; [by apply strtol_pid_sound|apply strtol_pid_complete]. Qed.

(** The decimal text of a process id parses back to it. *)
Theorem parse_pid_roundtrip p :
  0 < p <= INT_MAX -> format (B "%d") [AInt 0 p] ≫= parse_pid = Some p.
Proof.
  intros Hp. unfold format.
  replace (parse_fmt None (B "%d")) with (Some [DConv false 0 100]) by reflexivity.
  cbn [mbind option_bind render]. rewrite fmt_conv_d by lia.
  cbn [mbind option_bind]. rewrite app_nil_r.
  pose proof (digits10_value p ltac:(lia)) as [Hd Hv].
  apply strtol_pid_complete. exists [], [], (digits 10 p).
  split_and!; auto using digits_nonempty; lia.
Qed.

(** ** Matching names *)

(** [name] is [target], or [target] followed by a colon and a suffix. *)
Definition name_matches (target name : bytes) : Prop :=
  name = target \/ exists suffix, name = target ++ 58 :: suffix.

Lemma process_name_match_spec target name :
  nonul target -> nonul name ->
  exists b, process_name_match target name = Some b /\ (b = true <-> name_matches target name).
Proof.
  intros Ht Hn. unfold process_name_match, name_matches.
  destruct (Z.eqb_spec (strcmp target name) 0) as [Hc|Hc].
  { exists true. split; [done|]. apply strcmp_eq in Hc; [|done..]. subst. naive_solver. }
  rewrite strcmp_eq in Hc by done.
  destruct (Z.eqb_spec (strncmp target name (length target)) 0) as [Hp|Hp].
  - apply strncmp_prefix in Hp as [t ->]; [|done..]. rewrite char_at_app. simpl.
    exists (hd 0 t =? 58). split; [done|]. rewrite Z.eqb_eq. split.
    + intros Hh. right. destruct t as [|c t]; [done|]. simpl in Hh. subst c. eauto.
    + intros [Heq|[sfx Heq]].
      * destruct Hc. by rewrite Heq.
      * apply app_inv_head in Heq. by subst t.
  - exists false. split; [done|]. split; [done|]. intros [->|[sfx ->]]; [done|].
    destruct Hp. apply strncmp_prefix; [done..|]. eauto.
Qed.

(** Two names match exactly when they are equal or the process name is the
    target followed by ":" and anything; the character after the common prefix
    is always readable. *)
Theorem process_name_match_exact target name :
  nonul target -> nonul name ->
  exists b, process_name_match target name = Some b /\ (b = true <-> name_matches target name).
Proof. apply process_name_match_spec. Qed.

(** ** Scanning /proc *)

Definition cmdline_path (v : Z) : bytes := B "/proc/" ++ digits 10 v ++ B "/cmdline".
Definition comm_path (v : Z) : bytes := B "/proc/" ++ digits 10 v ++ B "/comm".

(** The names of a process: the first argument (of the first 511 bytes) of its
    command line, and the first line of its comm file. *)
Definition cmdline_name (ps : proc_snapshot) (v : Z) : option bytes :=
  f ← ps_file ps (cmdline_path v);
  if (length (take 511 f) =? 0)%nat then None else Some (until 0 (take 511 f)).

Definition comm_name (ps : proc_snapshot) (v : Z) : option bytes :=
  f ← ps_file ps (comm_path v);
  if (length (fgets_text 255 f) =? 0)%nat then None
  else Some (until 10 (until 0 (fgets_text 255 f))).

Definition entry_matches (ps : proc_snapshot) (target d : bytes) (v : Z) : Prop :=
  strtol_pid d = Some v /\
  exists s, name_matches target s /\ (cmdline_name ps v = Some s \/ comm_name ps v = Some s).

(** The result of a search that takes the first matching entry. *)
Definition first_match (ps : proc_snapshot) (target : bytes) (entries : list bytes)
    (r : option Z) : Prop :=
  match r with
  | Some v => exists before d after, entries = before ++ d :: after /\
      entry_matches ps target d v /\
      forall d' v', d' ∈ before -> ~ entry_matches ps target d' v'
  | None => forall d v, d ∈ entries -> ~ entry_matches ps target d v
  end.

Lemma strtol_pid_range d v : strtol_pid d = Some v -> 0 < v <= INT_MAX.
Proof.
  unfold strtol_pid. destruct (_ || _) eqn:E; [done|]. intros [= <-].
  rewrite !orb_false_iff in E. destruct E as [[_ ?] ?].
  rewrite sint_id; unfold is_sint, INT_MAX in *; lia.
Qed.

Lemma proc_path_text pathbuf sfx v :
  length pathbuf = 64%nat -> 0 < v <= INT_MAX ->
  sfx = B "/comm" \/ sfx = B "/cmdline" ->
  proc_path pathbuf (B "/proc/%d" ++ sfx) v = Some (B "/proc/" ++ digits 10 v ++ sfx).
Proof.
  intros Hl Hv Hs. unfold proc_path, INT_MAX in *.
  assert (is_sint 32 v) by (unfold is_sint; lia).
  assert (ready (B "/proc/%d" ++ sfx) [AInt 0 v] 40) as Hr.
  { destruct Hs as [->| ->]; ready_tac. }
  destruct (snprintf_ready pathbuf 64 _ _ _ Hr Hl) as (buf & out & Hsp & Hf & Hc);
    [lia|unfold INT_MAX; lia|].
  change 64 with (Z.of_nat 64). rewrite Hsp. cbn [mbind option_bind]. rewrite Hc. f_equal.
  assert (fmt_conv false 0 100 (AInt 0 v) = Some (digits 10 v)) as Hd
    by (apply fmt_conv_d; unfold INT_MAX; lia).
  unfold format in Hf. destruct Hs as [->| ->];
    (match type of Hf with context [parse_fmt None ?f] =>
       let v := eval vm_compute in (parse_fmt None f) in change (parse_fmt None f) with v in Hf end;
     cbn [mbind option_bind render fmap option_fmap option_map] in Hf;
     rewrite Hd in Hf; cbn in Hf; by injection Hf as <-).
Qed.

Lemma fgets_text_length n f : (length (fgets_text n f) <= n)%nat.
Proof.
  revert f. induction n as [|n IH]; intros f; simpl; [lia|].
  destruct f as [|c f]; simpl; [lia|]. case_match; simpl; [lia|]. specialize (IH f). lia.
Qed.

Section ScanSpec.
Context (ps : proc_snapshot) (pathbuf : bytes) (pathbuf_size : length pathbuf = 64%nat).
Context (target : bytes) (target_text : nonul target).

Lemma read_proc_cmdline_spec v buf :
  0 < v <= INT_MAX -> length buf = 512%nat ->
  exists r buf', read_proc_cmdline ps pathbuf v buf = Some (r, buf') /\ length buf' = 512%nat /\
    (r = -1 /\ cmdline_name ps v = None \/
     r = 0 /\ exists s, cmdline_name ps v = Some s /\ cstr buf' = Some s).
Proof using pathbuf_size.
  intros Hv Hb. unfold read_proc_cmdline, cmdline_name.
  change (B "/proc/%d/cmdline") with (B "/proc/%d" ++ B "/cmdline").
  rewrite (proc_path_text _ _ v) by auto. cbn [mbind option_bind]. fold (cmdline_path v).
  destruct (ps_file ps (cmdline_path v)) as [f|]; cbn [mbind option_bind]; [|by exists (-1), buf; auto].
  rewrite Hb. cbn [pred]. assert (length (take 511 f) <= 511)%nat by (rewrite length_take; lia).
  assert (length (store 0 (take 511 f) buf) = 512%nat) by (rewrite length_store; lia).
  destruct (Nat.eqb_spec (length (take 511 f)) 0).
  { eexists _, _. split; [done|]. auto. }
  eexists _, _. split; [done|]. split; [rewrite length_store; simpl; lia|right].
  split; [done|]. eexists. split; [done|].
  unfold store at 1. unfold store. rewrite take_0. simpl app at 2.
  rewrite take_app_length. simpl. apply cstr_until.
Qed.

Lemma read_proc_comm_spec v buf :
  0 < v <= INT_MAX -> length buf = 256%nat ->
  exists r buf', read_proc_comm ps pathbuf v buf = Some (r, buf') /\ length buf' = 256%nat /\
    (r = -1 /\ comm_name ps v = None \/
     r = 0 /\ exists s, comm_name ps v = Some s /\ cstr buf' = Some s).
Proof using pathbuf_size.
  intros Hv Hb. unfold read_proc_comm, comm_name.
  change (B "/proc/%d/comm") with (B "/proc/%d" ++ B "/comm").
  rewrite (proc_path_text _ _ v) by auto. cbn [mbind option_bind]. fold (comm_path v).
  destruct (ps_file ps (comm_path v)) as [f|]; cbn [mbind option_bind]; [|by exists (-1), buf; auto].
  rewrite Hb. cbn [pred]. pose proof (fgets_text_length 255 f) as Hlen.
  destruct (fgets_text 255 f) as [|c l] eqn:E; [exists (-1), buf; auto|].
  set (line := c :: l) in *. assert (length line <> 0)%nat by done.
  destruct (Nat.eqb_spec (length line) 0); [done|].
  assert (store 0 (line ++ [0]) buf = line ++ 0 :: drop (length line + 1) buf) as ->.
  { unfold store. rewrite take_0, length_app. simpl. by rewrite <- app_assoc. }
  rewrite cstr_until. cbn [mbind option_bind]. set (s := until 0 line).
  eexists _, _. split; [done|]. pose proof (strcspn1_le s 10).
  assert (length s <= length line)%nat by (unfold s, until; rewrite length_take; lia).
  assert (length (line ++ 0 :: drop (length line + 1) buf) = 256%nat) as Hlen'
    by (rewrite length_app; cbn [length]; rewrite length_drop; lia).
  split; [rewrite length_store; [done|]; cbn [length] in *; rewrite Hlen'; lia|right].
  split; [done|]. eexists. split; [done|]. unfold store.
  assert (take (strcspn1 s 10) (line ++ 0 :: drop (length line + 1) buf) = until 10 s) as ->.
  { rewrite take_app_le by lia. unfold until at 1, s, until. rewrite take_take. f_equal.
    unfold s, until in *. rewrite length_take in *. lia. }
  cbn [app]. apply cstr_app. unfold until. apply Forall_take.
  assert (cstr (line ++ [0]) = Some s) as Hc by apply cstr_until. by apply cstr_nonul in Hc.
Qed.

(** Reading one of the two names and comparing it, as the loop does. *)
Lemma name_test (name : option bytes) r buf :
  (r = -1 /\ name = None \/ r = 0 /\ exists s, name = Some s /\ cstr buf = Some s) ->
  exists m : bool,
    (if r =? 0 then s ← cstr buf; process_name_match target s else Some false) = Some m /\
    (m = true <-> exists s, name_matches target s /\ name = Some s).
Proof using target_text.
  intros [[-> ->]|[-> (s & -> & Hs)]]; simpl.
  - exists false. split; [done|]. naive_solver.
  - rewrite Hs. simpl. destruct (process_name_match_spec target s) as (b & -> & Hb);
      [done|by apply cstr_nonul in Hs|].
    exists b. split; [done|]. rewrite Hb. naive_solver.
Qed.

(** One directory entry: the buffers keep their size and the loop stops
    exactly when the entry matches. *)
Lemma scan_step d entries comm cmdline :
  length comm = 256%nat -> length cmdline = 512%nat ->
  (exists v, entry_matches ps target d v /\
     scan ps pathbuf target (d :: entries) comm cmdline = Some (Some v)) \/
  (forall v, ~ entry_matches ps target d v) /\
  exists comm' cmdline', length comm' = 256%nat /\ length cmdline' = 512%nat /\
    scan ps pathbuf target (d :: entries) comm cmdline
    = scan ps pathbuf target entries comm' cmdline'.
Proof using pathbuf_size target_text.
  intros Hc Hl. cbn [scan]. unfold entry_matches.
  destruct (strtol_pid d) as [v|] eqn:Ed; [|right; split; [by intros v [? _]|eauto]].
  pose proof (strtol_pid_range _ _ Ed) as Hv.
  destruct (read_proc_cmdline_spec v cmdline Hv Hl) as (r1 & b1 & -> & Hb1 & Hn1).
  cbn [mbind option_bind]. destruct (name_test _ _ _ Hn1) as (m1 & -> & Hm1).
  cbn [mbind option_bind]. destruct m1.
  { left. exists v. destruct (proj1 Hm1 eq_refl) as (s & ? & ?). eauto 10. }
  destruct (read_proc_comm_spec v comm Hv Hc) as (r2 & b2 & -> & Hb2 & Hn2).
  cbn [mbind option_bind]. destruct (name_test _ _ _ Hn2) as (m2 & -> & Hm2).
  cbn [mbind option_bind]. destruct m2.
  { left. exists v. destruct (proj1 Hm2 eq_refl) as (s & ? & ?). eauto 10. }
  right. split; [|by exists b2, b1]. intros v' [[= <-] (s & Hs & [?|?])].
  - discriminate (proj2 Hm1 (ex_intro _ s (conj Hs ltac:(done)))).
  - discriminate (proj2 Hm2 (ex_intro _ s (conj Hs ltac:(done)))).
Qed.

Lemma scan_spec entries comm cmdline :
  length comm = 256%nat -> length cmdline = 512%nat ->
  exists r, scan ps pathbuf target entries comm cmdline = Some r /\
    first_match ps target entries r.
Proof using pathbuf_size target_text.
  revert comm cmdline. induction entries as [|d entries IH]; intros comm cmdline Hc Hl.
  { exists None. split; [done|]. intros d v Hd. inversion Hd. }
  destruct (scan_step d entries comm cmdline Hc Hl)
    as [(v & Hm & ->)|(Hno & c' & l' & Hc' & Hl' & ->)].
  - exists (Some v). split; [done|]. exists [], d, entries. split_and!; [done|done|].
    intros d' v' Hd. inversion Hd.
  - destruct (IH c' l' Hc' Hl') as (r & -> & Hr). exists r. split; [done|].
    destruct r as [v|]; simpl in *.
    + destruct Hr as (b & d0 & a & -> & Hm & Hb). exists (d :: b), d0, a.
      split_and!; [done|done|]. intros d' v' [->|?]%elem_of_cons; eauto.
    + intros d' v' [->|?]%elem_of_cons; eauto.
Qed.
End ScanSpec.

Lemma find_pid_spec ps pathbuf target comm cmdline :
  length pathbuf = 64%nat -> length comm = 256%nat -> length cmdline = 512%nat -> nonul target ->
  exists r, find_pid_by_name ps pathbuf target comm cmdline = Some r /\
    match ps_dir ps with
    | None => r = None
    | Some entries => first_match ps target entries r
    end.
Proof.
  intros Hp Hc Hl Ht. unfold find_pid_by_name.
  destruct (ps_dir ps) as [entries|]; [by apply scan_spec|eauto].
Qed.

Lemma first_match_range ps target entries v :
  first_match ps target entries (Some v) -> 0 < v <= INT_MAX.
Proof. intros (b & d & a & _ & [Hd _] & _). by apply strtol_pid_range in Hd. Qed.

(** C22: [find_pid_by_name] terminates on every directory, never reads outside
    its buffers, and returns the process id of the first entry of /proc that is
    a process id whose command line or comm matches; it fails when /proc cannot
    be opened or no entry matches. *)
Theorem find_pid_by_name_first ps pathbuf target comm cmdline :
  length pathbuf = 64%nat -> length comm = 256%nat -> length cmdline = 512%nat -> nonul target ->
  exists r, find_pid_by_name ps pathbuf target comm cmdline = Some r /\
    match ps_dir ps with
    | None => r = None
    | Some entries => first_match ps target entries r
    end.
Proof. apply find_pid_spec. Qed.
