(* ===== verification/Host.v ===== *)
(** * Programs that talk to libbpf and the system

    The three loaders are sequences of calls to libbpf and to the C library.
    A call gets its reply from an environment that may depend on everything
    that happened before; the state of a loader is the signal flag [exiting],
    [errno] and the log of calls with their replies.  [wp] is the weakest
    precondition of a computation, with or without the promise to return. *)

From stdpp Require Import base list gmap strings.
From Stdlib Require Import ZArith Lia.
From S2P Require Import Prelude CLib Printf StraceProc.

Local Open Scope Z_scope.

(** ** Skeletons (the parts of [struct bpf_object_skeleton] that are filled in) *)

Record map_skeleton := MapSkeleton {
  ms_name : string;
  ms_map : string;
  ms_mmaped : option string;
}.

Record prog_skeleton := ProgSkeleton {
  pk_name : string;
  pk_prog : string;
  pk_link : string;
}.

Record bpf_object_skeleton := Skeleton {
  s_self : Z;
  s_name : string;
  s_map_cnt : Z;
  s_maps_ptr : Z;
  s_maps : list map_skeleton;
  s_prog_cnt : Z;
  s_progs_ptr : Z;
  s_progs : list prog_skeleton;
  s_data_sz : Z;
}.

(** ** Calls and replies; pointers are numbers with NULL = 0 *)

Inductive call :=
  | CSignal (signo : Z)
  | CExiting
  | CSleep (seconds : Z)
  | COut (s : bytes)
  | CErr (s : bytes)
  | CCalloc (nmemb : Z) (type : string)
  | CFree (p : Z)
  | CProc
  | CSetStrict
  | CSetPrint
  | COpenSkeleton (s : bpf_object_skeleton)
  | CLoadSkeleton (s : bpf_object_skeleton)
  | CAttachSkeleton (s : bpf_object_skeleton)
  | CDetachSkeleton (s : bpf_object_skeleton)
  | CDestroySkeleton (s : option bpf_object_skeleton)
  | CSetTarget (obj : Z) (target_tgid : Z)
  | CRingNew
  | CPoll (rb : Z) (timeout_ms : Z)
  | CRingFree (rb : Z)
  | CSetrlimit
  | COpenAndLoad
  | CAttachUprobe (obj : Z) (retprobe : bool) (pid : Z) (path func : string) (offset : Z)
  | CLinkDestroy (link : Z)
  | CAttach (obj : Z)
  | CDestroy (obj : Z)
  | CGetpid
  | CMapUpdate (obj : Z) (key value : bytes) (flags : Z)
  | CSystem (cmd : string).

(** Calls that set [errno] reply with their result and [errno]. *)
Definition reply (c : call) : Type :=
  match c with
  | CProc => proc_snapshot
  | CCalloc _ _ | CGetpid | CSystem _ | CAttach _
  | COpenSkeleton _ | CLoadSkeleton _ | CAttachSkeleton _ | CMapUpdate _ _ _ _ => Z
  | CRingNew | COpenAndLoad | CAttachUprobe _ _ _ _ _ _ | CSetrlimit => Z * Z
  | CPoll _ _ => Z * list bytes
  | _ => unit
  end.

Record event := Event { ev_call : call; ev_reply : reply ev_call }.

(** The environment: the reply to a call after a history, and whether SIGINT or
    SIGTERM has arrived, since the handlers were installed, by the time of a
    history.  (A signal before that ends the process: there is no history.) *)
Class Env := {
  env_reply : list event -> forall c, reply c;
  env_signal : list event -> bool;
}.

Record hstate := HState {
  hs_exiting : Z;
  hs_errno : Z;
  hs_log : list event;
}.

Definition hs_init : hstate := HState 0 0 [].

Inductive outcome (A : Type) :=
  | Done (a : A) (st : hstate)
  | Undefined
  | NoFuel.
Arguments Done {A} a st.
Arguments Undefined {A}.
Arguments NoFuel {A}.

Definition M (A : Type) : Type := hstate -> outcome A.

#[export] Instance M_ret : MRet M := fun A a st => Done a st.
#[export] Instance M_bind : MBind M := fun A B k m st =>
  match m st with
  | Done a st => k a st
  | Undefined => Undefined
  | NoFuel => NoFuel
  end.

Definition ub {A} (o : option A) : M A :=
  fun st => match o with Some a => Done a st | None => Undefined end.

(** [-z] of an [int], which overflows for the smallest. *)
Definition neg (z : Z) : M Z := ub (if z =? INT_MIN then None else Some (- z)).

Definition no_fuel {A} : M A := fun _ => NoFuel.

Definition put_errno (z : Z) : M unit :=
  fun st => Done tt (HState (hs_exiting st) z (hs_log st)).

Definition get_errno : M Z := fun st => Done (hs_errno st) st.

(** [sig_handler]: the same body in libbpfstrace.c and libbpfso.c. *)
Definition sig_handler (signo : Z) (st : hstate) : hstate :=
  HState 1 (hs_errno st) (hs_log st).

Definition SIGINT : Z := 2.
Definition SIGTERM : Z := 15.

(** [signal] has been called for [signo]. *)
Definition handles (signo : Z) (h : list event) : bool :=
  existsb (fun e => match ev_call e with CSignal s => s =? signo | _ => false end) h.

Definition installed (h : list event) : bool := handles SIGINT h && handles SIGTERM h.

Lemma installed_app h1 h2 : installed h1 = true -> installed (h1 ++ h2) = true.
Proof.
  unfold installed, handles. rewrite !existsb_app. intros [-> ->]%andb_true_iff. done.
Qed.

Section Calls.
Context `{Env}.

Definition do (c : call) : M (reply c) :=
  fun st => let r := env_reply (hs_log st) c in
            Done r (HState (hs_exiting st) (hs_errno st) (hs_log st ++ [Event c r])).

(** A signal has reached the handlers. *)
Definition signalled (h : list event) : bool := installed h && env_signal h.

(** Reading the volatile flag; the handler has run if a signal reached it. *)
Definition exiting : M bool :=
  fun st =>
    let st := if signalled (hs_log st) then sig_handler SIGINT st else st in
    let r := env_reply (hs_log st) CExiting in
    Done (negb (hs_exiting st =? 0))
      (HState (hs_exiting st) (hs_errno st) (hs_log st ++ [Event CExiting r])).

Definition printf (fmt : bytes) (args : list parg) : M unit :=
  s ← ub (format fmt args); do (COut s).

Definition eprintf (fmt : bytes) (args : list parg) : M unit :=
  s ← ub (format fmt args); do (CErr s).
End Calls.

(** ** Weakest preconditions *)

(** [wp tot m Q st]: [m] from [st] never runs into undefined behaviour and ends
    in [Q]; with [tot] it returns. *)
Definition wp {A} (tot : bool) (m : M A) (Q : A -> hstate -> Prop) (st : hstate) : Prop :=
  match m st with
  | Done a st => Q a st
  | Undefined => False
  | NoFuel => tot = false
  end.

Section WpRules.
Context {A B : Type} (tot : bool).

Lemma wp_ret (a : A) Q st : Q a st -> wp tot (mret a) Q st.
Proof. done. Qed.

Lemma wp_bind (m : M A) (k : A -> M B) Q st :
  wp tot m (fun a => wp tot (k a) Q) st -> wp tot (m ≫= k) Q st.
Proof. unfold wp, mbind, M_bind. by destruct (m st). Qed.

Lemma wp_mono (m : M A) (Q Q' : A -> hstate -> Prop) st :
  wp tot m Q st -> (forall a st', Q a st' -> Q' a st') -> wp tot m Q' st.
Proof. unfold wp. destruct (m st); auto. Qed.

Lemma wp_done (m : M A) Q st :
  wp true m Q st -> exists a st', m st = Done a st' /\ Q a st'.
Proof. unfold wp. destruct (m st); naive_solver. Qed.

Lemma wp_run (m : M A) Q st a st' : wp tot m Q st -> m st = Done a st' -> Q a st'.
Proof. unfold wp. intros Hw Hm. by rewrite Hm in Hw. Qed.
End WpRules.

Section WpCalls.
Context `{Env} (tot : bool).

(** What a call leaves behind. *)
Record stepped (st : hstate) (c : call) (r : reply c) (st' : hstate) : Prop := {
  sp_reply : r = env_reply (hs_log st) c;
  sp_log : hs_log st' = hs_log st ++ [Event c r];
  sp_exiting : hs_exiting st' = hs_exiting st;
  sp_errno : hs_errno st' = hs_errno st;
}.

Lemma wp_do c Q st : (forall r st', stepped st c r st' -> Q r st') -> wp tot (do c) Q st.
Proof. intros HQ. by apply HQ. Qed.

Lemma wp_exiting Q st :
  (forall st', hs_log st' = hs_log st ++ [Event CExiting (env_reply (hs_log st) CExiting)] ->
     Q (signalled (hs_log st) || negb (hs_exiting st =? 0)) st') ->
  wp tot exiting Q st.
Proof.
  intros HQ. unfold wp, exiting. destruct (signalled _); by apply HQ.
Qed.

Lemma wp_ub {A} (o : option A) a Q st : o = Some a -> Q a st -> wp tot (ub o) Q st.
Proof. by intros ->. Qed.

Lemma wp_neg z Q st : z <> INT_MIN -> Q (- z) st -> wp tot (neg z) Q st.
Proof. intros Hz HQ. unfold neg. by destruct (Z.eqb_spec z INT_MIN). Qed.

Lemma wp_printf fmt args s Q st :
  format fmt args = Some s ->
  (forall st', stepped st (COut s) tt st' -> Q tt st') -> wp tot (printf fmt args) Q st.
Proof.
  intros Hf HQ. unfold printf. apply wp_bind. eapply wp_ub; [done|].
  apply wp_do. intros [] st'. apply HQ.
Qed.

Lemma wp_eprintf fmt args s Q st :
  format fmt args = Some s ->
  (forall st', stepped st (CErr s) tt st' -> Q tt st') -> wp tot (eprintf fmt args) Q st.
Proof.
  intros Hf HQ. unfold eprintf. apply wp_bind. eapply wp_ub; [done|].
  apply wp_do. intros [] st'. apply HQ.
Qed.
End WpCalls.

(** Running a call. *)
Definition after `{Env} (c : call) (st : hstate) : hstate :=
  HState (hs_exiting st) (hs_errno st) (hs_log st ++ [Event c (env_reply (hs_log st) c)]).

Ltac run_do :=
  match goal with
  | |- context [(mbind ?k (do ?c)) ?st] =>
      change (mbind k (do c) st) with (k (env_reply (hs_log st) c) (after c st)); cbv beta
  end.

(** ** Legal use of the libraries *)

Inductive stage := Closed | Opened | Loaded | Attached.

#[export] Instance stage_eq_dec : EqDecision stage.
Proof. solve_decision. Defined.

(** Resources that must be given back, the filter stored in the read-only data,
    and how far the BPF object has come. *)
Record usage := Usage { u_live : gset Z; u_target : Z; u_stage : stage }.

Definition unused : usage := Usage ∅ 0 Closed.

Definition acquire (p : Z) (st : stage) (u : usage) : option usage :=
  if decide (p = 0) then Some u
  else if decide (p ∈ u_live u) then None
  else Some (Usage ({[p]} ∪ u_live u) (u_target u) st).

(** Releasing NULL is allowed and does nothing. *)
Definition release (p : Z) (u : usage) : option usage :=
  if decide (p = 0) then Some u
  else if decide (p ∈ u_live u) then Some (Usage (u_live u ∖ {[p]}) (u_target u) (u_stage u))
  else None.

Definition need (P : Prop) `{Decision P} (u : usage) : option usage :=
  if decide P then Some u else None.

Definition to_stage (s : stage) (u : usage) : usage := Usage (u_live u) (u_target u) s.

(** The program of a destroyed link no longer runs. *)
Definition unlink (link : Z) (u : usage) : usage :=
  to_stage (if decide (link = 0) then u_stage u else Loaded) u.

Definition on_success (err : Z) (s : stage) (u : usage) : usage :=
  if decide (err = 0) then to_stage s u else u.

(** One call: [None] when it breaks a rule (a pointer that is not live, an
    object not yet opened, loaded or attached, a filter not set, something
    released twice). *)
Definition use (c : call) : reply c -> usage -> option usage :=
  match c return reply c -> usage -> option usage with
  | CCalloc _ _ => fun p u => acquire p (u_stage u) u
  | CFree p => fun _ u => release p u
  | COpenSkeleton s => fun err u =>
      on_success err Opened <$> need (s_self s ∈ u_live u /\ u_stage u = Closed) u
  | CSetTarget obj t => fun _ u =>
      (fun u => Usage (u_live u) t (u_stage u)) <$> need ((obj ∈ u_live u /\ u_stage u = Opened) /\ u_target u = 0) u
  | CLoadSkeleton s => fun err u =>
      on_success err Loaded <$>
        need ((s_self s ∈ u_live u /\ u_stage u = Opened) /\ 0 < u_target u) u
  | CAttachSkeleton s => fun err u =>
      on_success err Attached <$> need (s_self s ∈ u_live u /\ u_stage u = Loaded) u
  | CDetachSkeleton s => fun _ u => need (s_self s ∈ u_live u) u
  | CDestroySkeleton None => fun _ u => Some u
  | CDestroySkeleton (Some s) => fun _ u =>
      u ← release (s_maps_ptr s) u;
      u ← release (s_progs_ptr s) u;
      to_stage Closed <$> release (s_self s) u
  | CRingNew => fun r u => need (u_stage u = Loaded \/ u_stage u = Attached) u ≫= acquire r.1 (u_stage u)
  | CPoll rb _ => fun _ u => need (rb ∈ u_live u /\ u_stage u = Attached) u
  | CRingFree rb => fun _ u => release rb u
  | COpenAndLoad => fun r u => need (u_stage u = Closed) u ≫= acquire r.1 Loaded
  | CAttachUprobe obj _ _ _ _ _ => fun r u =>
      need (obj ∈ u_live u /\ u_stage u = Loaded) u ≫= acquire r.1 Attached
  | CLinkDestroy l => fun _ u => unlink l <$> release l u
  | CAttach obj => fun err u =>
      on_success err Attached <$> need (obj ∈ u_live u /\ u_stage u = Loaded) u
  | CDestroy obj => fun _ u => to_stage Closed <$> release obj u
  | CMapUpdate obj _ _ _ => fun _ u => need (obj ∈ u_live u /\ u_stage u = Loaded) u
  | _ => fun _ u => Some u
  end.

Definition use_event (u : option usage) (e : event) : option usage :=
  u ≫= use (ev_call e) (ev_reply e).

(** The usage after a history, [None] when a rule was broken. *)
Definition usage_of (h : list event) : option usage := foldl use_event (Some unused) h.

Lemma broken_stays h : foldl use_event None h = None.
Proof. by induction h. Qed.

Lemma usage_app h1 h2 u :
  usage_of (h1 ++ h2) = Some u ->
  exists u1, usage_of h1 = Some u1 /\ foldl use_event (Some u1) h2 = Some u.
Proof.
  unfold usage_of. rewrite foldl_app. destruct (foldl _ _ h1) as [u1|]; [by exists u1|].
  by rewrite broken_stays.
Qed.

Lemma use_target c r u u' : use c r u = Some u' -> u_target u <> 0 -> u_target u' = u_target u.
Proof.
  assert (forall p s u u', acquire p s u = Some u' -> u_target u' = u_target u) as Ha.
  { unfold acquire. intros p s v v' E. repeat case_decide; naive_solver. }
  assert (forall p u u', release p u = Some u' -> u_target u' = u_target u) as Hr.
  { unfold release. intros p v v' E. repeat case_decide; naive_solver. }
  assert (forall err s u, u_target (on_success err s u) = u_target u) as Hs.
  { unfold on_success. intros err s v. by case_decide. }
  intros Hc Hn. destruct c; try destruct s as [s|]; cbn [use] in Hc;
    repeat match type of Hc with
    | (?m ≫= _) = Some _ => destruct m eqn:?; cbn [mbind option_bind] in Hc; [|done]
    | (_ <$> ?m) = Some _ => destruct m eqn:?; cbn [fmap option_fmap option_map] in Hc; [|done]
    end; unfold need in *; repeat case_decide; simplify_eq;
    rewrite ?Hs; simpl; try tauto; try (erewrite !Hr by eassumption; done);
    try (by eapply Ha); try (by eapply Hr).
Qed.

(** The filter, once stored, is never changed. *)
Lemma usage_target_stays h u u' :
  foldl use_event (Some u) h = Some u' -> u_target u <> 0 -> u_target u' = u_target u.
Proof.
  revert u. induction h as [|[c r] h IH]; intros u Hf Hn; [by simplify_eq/=|].
  cbn [foldl] in Hf. change (use_event (Some u) (Event c r)) with (use c r u) in Hf.
  destruct (use c r u) as [u1|] eqn:E.
  - rewrite <- (use_target _ _ _ _ E Hn). apply IH; [done|]. by rewrite (use_target _ _ _ _ E Hn).
  - by rewrite broken_stays in Hf.
Qed.

Lemma usage_snoc h c r u u' :
  usage_of h = Some u -> use c r u = Some u' -> usage_of (h ++ [Event c r]) = Some u'.
Proof. intros Hh Hu. unfold usage_of in *. rewrite foldl_app, Hh. done. Qed.

(** The pointer a call hands out. *)
Definition new_pointer (c : call) : reply c -> Z :=
  match c return reply c -> Z with
  | CCalloc _ _ => fun p => p
  | CRingNew | COpenAndLoad | CAttachUprobe _ _ _ _ _ _ => fun r => r.1
  | _ => fun _ => 0
  end.

(** The C [int] a call replies with. *)
Definition int_reply (c : call) : reply c -> Z :=
  match c return reply c -> Z with
  | COpenSkeleton _ | CLoadSkeleton _ | CAttachSkeleton _ | CAttach _
  | CGetpid | CSystem _ | CMapUpdate _ _ _ _ => fun r => r
  | CPoll _ _ | CSetrlimit => fun r => r.1
  | CRingNew | COpenAndLoad | CAttachUprobe _ _ _ _ _ _ => fun r => r.2
  | _ => fun _ => 0
  end.

(** The error a call replies with: a negative error number as its result, or
    [errno]. *)
Definition error_reply (c : call) : reply c -> Z :=
  match c return reply c -> Z with
  | COpenSkeleton _ | CLoadSkeleton _ | CAttach _ | CMapUpdate _ _ _ _ => fun r => r
  | CRingNew | CAttachUprobe _ _ _ _ _ _ => fun r => r.2
  | _ => fun _ => 0
  end.

(** What the environment promises: allocators do not return live pointers,
    integers have the width of [int], and an error is an error number or a negated
    one, so it can be negated. *)
Class EnvLaws `{Env} := {
  env_fresh h u c : usage_of h = Some u -> new_pointer c (env_reply h c) ∉ u_live u \/
    new_pointer c (env_reply h c) = 0;
  env_int h c : is_sint 32 (int_reply c (env_reply h c));
  env_error h c : error_reply c (env_reply h c) <> INT_MIN;
}.

Section Uses.
Context `{Env, !EnvLaws}.

Definition uses (u : usage) (st : hstate) : Prop := usage_of (hs_log st) = Some u.

Lemma uses_step u u' st c r st' :
  uses u st -> stepped st c r st' -> use c r u = Some u' -> uses u' st'.
Proof. unfold uses. intros Hu [_ -> _ _] Hc. by eapply usage_snoc. Qed.

(** Calls without rules. *)
Lemma uses_free u st c r st' :
  uses u st -> stepped st c r st' -> (forall r, use c r u = Some u) -> uses u st'.
Proof. eauto using uses_step. Qed.

Lemma uses_acquire u st c r st' s :
  uses u st -> stepped st c r st' -> new_pointer c r <> 0 ->
  use c r u = acquire (new_pointer c r) s u ->
  (new_pointer c r ∉ u_live u) /\
  uses (Usage ({[new_pointer c r]} ∪ u_live u) (u_target u) s) st'.
Proof using All.
  intros Hu Hs Hn Hc. destruct (env_fresh (hs_log st) u c Hu) as [Hf|Hf];
    rewrite <- (sp_reply _ _ _ _ Hs) in Hf; [|done].
  split; [done|]. eapply uses_step; [done..|]. rewrite Hc. unfold acquire.
  by rewrite !decide_False.
Qed.
End Uses.

Lemma release_live p u :
  p <> 0 -> p ∈ u_live u -> release p u = Some (Usage (u_live u ∖ {[p]}) (u_target u) (u_stage u)).
Proof. intros. unfold release. by rewrite decide_False, decide_True. Qed.

Lemma union_remove (p : Z) (L : gset Z) : (p ∉ L) -> ({[p]} ∪ L) ∖ {[p]} = L.
Proof. set_solver. Qed.

Lemma release_one p L u :
  p <> 0 -> u_live u = {[p]} ∪ L -> (p ∉ L) ->
  release p u = Some (Usage L (u_target u) (u_stage u)).
Proof.
  intros Hp Hl Hf. rewrite release_live; [|done|rewrite Hl; set_solver].
  by rewrite Hl, union_remove.
Qed.

Lemma release_last p u :
  p <> 0 -> u_live u = {[p]} -> release p u = Some (Usage ∅ (u_target u) (u_stage u)).
Proof.
  intros Hp Hl. apply release_one; [done| |set_solver]. by rewrite Hl, (right_id_L ∅ (∪)).
Qed.

Lemma release_null u : release 0 u = Some u.
Proof. done. Qed.

Lemma need_true (P : Prop) `{Decision P} u : P -> need P u = Some u.
Proof. intros. unfold need. by rewrite decide_True. Qed.

(** Symbolic execution: up to the next call, whose reply, state and step fact
    get the given names. *)
Ltac wp_norm :=
  repeat first
    [ progress cbv beta
    | match goal with
      | |- wp _ (mbind _ _) _ _ => apply wp_bind
      | |- wp _ (mret _) _ _ => apply wp_ret
      end ].

Ltac wp_call r st Hst :=
  wp_norm;
  match goal with
  | |- wp ?tot (do ?c) ?Q ?st0 =>
      refine (wp_do tot c Q st0 _); intros r st Hst; try cbn [reply] in r
  end; cbv beta.

(** A [printf] or [fprintf(stderr, ...)] whose arguments have the types its
    format asks for. *)
Lemma format_fits fmt args :
  (exists ds, parse_fmt None fmt = Some ds /\ fits ds args) -> exists s, format fmt args = Some s.
Proof.
  intros (ds & Hp & Hf). destruct (render_fits _ _ Hf) as [s Hs].
  exists s. unfold format. by rewrite Hp.
Qed.

Ltac fits_tac :=
  eexists; split;
  [ vm_compute; reflexivity
  | cbn -[is_uint is_sint]; repeat match goal with |- _ /\ _ => split end;
    try (done || lia || eauto with cint) ].

Ltac wp_print st Hst :=
  wp_norm;
  let use_rule rule f a :=
    let m := fresh "m" in let Hm := fresh "Hm" in
    destruct (format_fits f a) as [m Hm];
    [ fits_tac
    | eapply rule; [exact Hm|]; intros st Hst; cbv beta ] in
  match goal with
  | |- wp _ (printf ?f ?a) _ _ => use_rule wp_printf f a
  | |- wp _ (eprintf ?f ?a) _ _ => use_rule wp_eprintf f a
  end.

(** ** Computations that make only certain calls *)

Definition only {A} (P : call -> Prop) (m : M A) : Prop :=
  forall st a st', m st = Done a st' ->
    exists new, hs_log st' = hs_log st ++ new /\ Forall (fun e => P (ev_call e)) new.

Section Only.
Context `{Env} {A B : Type} (P : call -> Prop).

Lemma only_ret (a : A) : only P (mret a).
Proof. intros st a' st' [= <- <-]. exists []. by rewrite app_nil_r. Qed.

Lemma only_ub (o : option A) : only P (ub o).
Proof. intros st a st'. unfold ub. destruct o; intros [= <- <-]. exists []. by rewrite app_nil_r. Qed.

Lemma only_put_errno z : only P (put_errno z).
Proof. intros st a st' [= <- <-]. exists []. by rewrite app_nil_r. Qed.

Lemma only_do c : P c -> only P (do c).
Proof. intros Hc st a st' [= <- <-]. eexists. split; [done|]. by constructor. Qed.

Lemma only_bind (m : M A) (k : A -> M B) :
  only P m -> (forall a, only P (k a)) -> only P (m ≫= k).
Proof.
  intros Hm Hk st b st' He. unfold mbind, M_bind in He.
  destruct (m st) as [a st1| |] eqn:E; [|done..].
  destruct (Hm _ _ _ E) as (n1 & Hl1 & Hf1). destruct (Hk _ _ _ _ He) as (n2 & Hl2 & Hf2).
  exists (n1 ++ n2). rewrite Hl2, Hl1, <- app_assoc. split; [done|]. by apply Forall_app.
Qed.

Lemma wp_only tot (m : M A) Q st :
  only P m -> wp tot m Q st ->
  wp tot m (fun a st' => Q a st' /\
    exists new, hs_log st' = hs_log st ++ new /\ Forall (fun e => P (ev_call e)) new) st.
Proof. unfold wp. intros Hm. destruct (m st) eqn:E; eauto. Qed.
End Only.

Lemma only_printf `{Env} (P : call -> Prop) fmt args : (forall s, P (COut s)) -> only P (printf fmt args).
Proof. intros HP. unfold printf. apply only_bind; [apply only_ub|]. intros s. exact (only_do P _ (HP s)). Qed.

Lemma only_eprintf `{Env} (P : call -> Prop) fmt args : (forall s, P (CErr s)) -> only P (eprintf fmt args).
Proof. intros HP. unfold eprintf. apply only_bind; [apply only_ub|]. intros s. exact (only_do P _ (HP s)). Qed.

Ltac only_tac :=
  repeat first
    [ apply only_bind; [|intros ?]
    | apply only_ret | apply only_ub | apply only_put_errno
    | match goal with
      | |- only ?P (do ?c) => refine (only_do P c _); done
      | |- only _ (if ?b then _ else _) => destruct b
      | |- only _ (match ?x with _ => _ end) => destruct x
      end
    | by apply only_printf | by apply only_eprintf ].

(** ** Computations as sequences of answered calls

    [grown P h h']: the history [h'] continues [h] with calls of [P], each with
    the reply the environment gives at that point. *)

Section Makes.
Context `{Env} (P : call -> Prop).

Inductive grown (h : list event) : list event -> Prop :=
| GrownRefl : grown h h
| GrownCall h' c : grown h h' -> P c -> grown h (h' ++ [Event c (env_reply h' c)]).

Lemma grown_trans h1 h2 h3 : grown h1 h2 -> grown h2 h3 -> grown h1 h3.
Proof. intros H12 H23. induction H23; [done|by constructor]. Qed.

Definition makes {A} (m : M A) : Prop :=
  forall st a st', m st = Done a st' -> grown (hs_log st) (hs_log st').

Lemma makes_ret {A} (a : A) : makes (mret a).
Proof. intros st a' st' [= <- <-]. constructor. Qed.

Lemma makes_ub {A} (o : option A) : makes (ub o).
Proof. intros st a st'. unfold ub. destruct o; intros [= <- <-]. constructor. Qed.

Lemma makes_no_fuel {A} : makes (no_fuel (A := A)).
Proof. intros st a st' [=]. Qed.

Lemma makes_put_errno z : makes (put_errno z).
Proof. intros st a st' [= <- <-]. constructor. Qed.

Lemma makes_do c : P c -> makes (do c).
Proof. intros Hc st a st' [= <- <-]. constructor; [constructor|done]. Qed.

Lemma makes_exiting : P CExiting -> makes exiting.
Proof.
  intros Hc st a st'. unfold exiting. destruct (signalled (hs_log st)); intros [= <- <-];
    (constructor; [constructor|done]).
Qed.

Lemma makes_bind {A B} (m : M A) (k : A -> M B) :
  makes m -> (forall a, makes (k a)) -> makes (m ≫= k).
Proof.
  intros Hm Hk st b st' He. unfold mbind, M_bind in He.
  destruct (m st) as [a st1| |] eqn:E; [|done..].
  eapply grown_trans; [by eapply Hm|by eapply Hk].
Qed.

Lemma makes_printf fmt args : (forall s, P (COut s)) -> makes (printf fmt args).
Proof. intros HP. apply makes_bind; [apply makes_ub|]. intros s. exact (makes_do _ (HP s)). Qed.

Lemma makes_eprintf fmt args : (forall s, P (CErr s)) -> makes (eprintf fmt args).
Proof. intros HP. apply makes_bind; [apply makes_ub|]. intros s. exact (makes_do _ (HP s)). Qed.
End Makes.

Ltac makes_tac :=
  repeat first
    [ apply makes_bind; [|intros ?]
    | apply makes_ret | apply makes_ub | apply makes_put_errno | apply makes_no_fuel
    | by apply makes_exiting
    | match goal with
      | |- makes ?P (do ?c) => refine (makes_do P c _); done
      | |- makes _ (if ?b then _ else _) => destruct b
      | |- makes _ (match ?x with _ => _ end) => destruct x
      end
    | by apply makes_printf | by apply makes_eprintf ].
