(* ===== verification/PollLoop.v ===== *)
(** * The poll loop of the loaders

    [ring_buffer__poll] in a loop until a signal arrives or it fails, as
    libbpfstrace.c and libbpfso.c have it, with the callback as a parameter; and
    what an observer sees of a run: its output, its polls, its records. *)

From stdpp Require Import base list gmap strings.
From Stdlib Require Import ZArith Lia.
From S2P Require Import Prelude CLib Printf Uapi StraceProc Host.

Local Open Scope string_scope.
Local Open Scope list_scope.
Local Open Scope Z_scope.

Section Poll.
Context `{Env}.
(** The text the callback prints for a record, and the poll timeout. *)
Context (handle : bytes -> option bytes) (timeout_ms : Z).
(** The variable [err]: an [int], or one that may be uninitialised. *)
Context {E : Type} (set_err : Z -> E).

(** The callback of the ring buffer on the records one poll delivers. *)
Fixpoint deliver (records : list bytes) : M unit :=
  match records with
  | [] => mret tt
  | data :: records =>
      line ← ub (handle data);
      do (COut line);;
      deliver records
  end.

Definition ring_buffer_poll (rb : Z) : M Z :=
  r ← do (CPoll rb timeout_ms);
  deliver r.2;;
  mret r.1.

Fixpoint poll_loop (fuel : nat) (rb : Z) (err : E) : M E :=
  match fuel with
  | O => no_fuel
  | S fuel =>
      e ← exiting;
      if (e : bool) then mret err
      else
        r ← ring_buffer_poll rb;
        if r =? - EINTR then poll_loop fuel rb (set_err r)
        else if r <? 0 then
          eprintf (B "ring_buffer__poll failed: %d" ++ [10]) [AInt 0 r];;
          mret (set_err r)
        else poll_loop fuel rb (set_err r)
  end.
End Poll.

(** The calls of the loop. *)
Section PollCalls.
Context `{Env} (P : call -> Prop).
Hypothesis (P_exiting : P CExiting) (P_out : forall s, P (COut s)) (P_err : forall s, P (CErr s)).
Hypothesis P_poll : forall rb ms, P (CPoll rb ms).

Lemma makes_deliver handle records : makes P (deliver handle records).
Proof using P_out. induction records as [|data records IH]; cbn [deliver]; makes_tac; exact IH. Qed.

Lemma makes_poll_loop handle ms {A} (set : Z -> A) fuel rb err :
  makes P (poll_loop handle ms set fuel rb err).
Proof using All.
  revert err. induction fuel as [|fuel IH]; intros err; cbn [poll_loop]; [makes_tac|].
  unfold ring_buffer_poll. makes_tac; auto using makes_deliver.
Qed.
End PollCalls.

(** A signal arrives before [fuel] calls (needed when [tot] holds). *)
Definition signal_by `{Env} (tot : bool) (fuel : nat) : Prop :=
  tot = true -> exists N, (forall h, (N <= length h)%nat -> env_signal h = true) /\ (N < fuel)%nat.

(** The handlers are installed, and a signal arrives in time for [fuel] more
    iterations. *)
Definition in_time `{Env} (tot : bool) (fuel : nat) (st : hstate) : Prop :=
  tot = true -> installed (hs_log st) = true /\
    exists N, (forall h, (N <= length h)%nat -> env_signal h = true) /\
      (0 < fuel)%nat /\ (N < fuel + length (hs_log st))%nat.

Lemma in_time_start `{Env} tot fuel st :
  signal_by tot fuel -> installed (hs_log st) = true -> in_time tot fuel st.
Proof. intros Hs Hi Ht. destruct (Hs Ht) as (N & HN & Hlt). split; [done|]. exists N. split_and!; [done|lia..]. Qed.

Lemma in_time_zero `{Env} tot st : in_time tot 0 st -> tot = false.
Proof. intros Hi. destruct tot; [|done]. destruct Hi as (_ & N & _ & ? & _); [done|lia]. Qed.

Lemma in_time_step `{Env} tot fuel st st' :
  in_time tot (S fuel) st -> signalled (hs_log st) = false ->
  hs_log st `prefix_of` hs_log st' -> (length (hs_log st) < length (hs_log st'))%nat -> in_time tot fuel st'.
Proof.
  intros Hi Hf [r Hr] Hl Ht. destruct (Hi Ht) as (Hin & N & Hs & _ & HN).
  split; [rewrite Hr; by apply installed_app|]. exists N.
  split; [done|]. destruct (decide (N <= length (hs_log st))%nat) as [Hle|]; [|lia].
  unfold signalled in Hf. rewrite Hin, Hs in Hf by done. done.
Qed.

Lemma in_time_mono `{Env} tot fuel st st' :
  in_time tot fuel st -> hs_log st `prefix_of` hs_log st' -> in_time tot fuel st'.
Proof.
  intros Hi Hp Ht. destruct (Hi Ht) as (Hin & N & Hs & ? & HN). pose proof (prefix_length _ _ Hp).
  destruct Hp as [r Hr]. split; [rewrite Hr; by apply installed_app|]. exists N. split_and!; [done|lia..].
Qed.

(** The text of a run on the standard output, the records it was handed, and
    the results of its polls. *)
Definition out_of (e : event) : bytes :=
  match ev_call e with COut s => s | _ => [] end.

Definition polled (e : event) : list (Z * list bytes) :=
  match e with
  | Event c r =>
      match c return reply c -> list (Z * list bytes) with
      | CPoll _ _ => fun r => [r]
      | _ => fun _ => []
      end r
  end.

Definition stdout_of (h : list event) : bytes := mjoin (out_of <$> h).
Definition polls (h : list event) : list (Z * list bytes) := mjoin (polled <$> h).
Definition delivered (h : list event) : list bytes := mjoin (snd <$> polls h).

Lemma stdout_app h1 h2 : stdout_of (h1 ++ h2) = stdout_of h1 ++ stdout_of h2.
Proof. unfold stdout_of. by rewrite fmap_app, join_app. Qed.

Lemma polls_app h1 h2 : polls (h1 ++ h2) = polls h1 ++ polls h2.
Proof. unfold polls. by rewrite fmap_app, join_app. Qed.

Lemma delivered_app h1 h2 : delivered (h1 ++ h2) = delivered h1 ++ delivered h2.
Proof. unfold delivered. by rewrite polls_app, fmap_app, join_app. Qed.

(** Stretches of a run without output and polls. *)
Definition silent (st st' : hstate) : Prop :=
  exists new, hs_log st' = hs_log st ++ new /\ stdout_of new = [] /\ polls new = [].

Definition is_silent (c : call) : Prop :=
  match c with COut _ | CPoll _ _ => False | _ => True end.

Lemma silent_new new :
  Forall (fun e => is_silent (ev_call e)) new -> stdout_of new = [] /\ polls new = [].
Proof.
  induction 1 as [|[c r] new Hc _ [IHs IHp]]; [done|]. change (Event c r :: new) with ([Event c r] ++ new).
  rewrite stdout_app, polls_app, IHs, IHp. simpl in Hc. by destruct c.
Qed.

Lemma silent_refl st : silent st st.
Proof. exists []. by rewrite app_nil_r. Qed.

Lemma silent_trans st1 st2 st3 : silent st1 st2 -> silent st2 st3 -> silent st1 st3.
Proof.
  intros (n1 & Hl1 & Ho1 & Hp1) (n2 & Hl2 & Ho2 & Hp2). exists (n1 ++ n2).
  by rewrite Hl2, Hl1, stdout_app, polls_app, Ho1, Ho2, Hp1, Hp2, <- app_assoc.
Qed.

Lemma silent_step `{Env} st c r st' : stepped st c r st' -> is_silent c -> silent st st'.
Proof. intros Hs Hc. eexists. split; [apply Hs|]. apply silent_new. by constructor. Qed.

Lemma silent_view st st' :
  silent st st' ->
  stdout_of (hs_log st') = stdout_of (hs_log st) /\ polls (hs_log st') = polls (hs_log st).
Proof.
  intros (new & -> & Ho & Hp). by rewrite stdout_app, polls_app, Ho, Hp, !app_nil_r.
Qed.

Lemma print_view `{Env} st s r st' :
  stepped st (COut s) r st' ->
  stdout_of (hs_log st') = stdout_of (hs_log st) ++ s /\ polls (hs_log st') = polls (hs_log st).
Proof.
  intros Hs. rewrite (sp_log _ _ _ _ Hs), stdout_app, polls_app.
  change (polls [Event (COut s) r]) with (@nil (Z * list bytes)).
  change (stdout_of [Event (COut s) r]) with (s ++ []). by rewrite !app_nil_r.
Qed.

Lemma silent_exiting st st' r :
  hs_log st' = hs_log st ++ [Event CExiting r] -> silent st st'.
Proof. intros Hl. by exists [Event CExiting r]. Qed.

Lemma silent_prefix st st' : silent st st' -> hs_log st `prefix_of` hs_log st'.
Proof. intros (new & -> & _). by apply prefix_app_r. Qed.

Lemma silent_length st st' : silent st st' -> (length (hs_log st) <= length (hs_log st'))%nat.
Proof. intros (new & -> & _). rewrite length_app. lia. Qed.

(** The records libbpf hands to the callback are of the kind the kernel half
    writes. *)
Class RecordLaws `{Env} (good : bytes -> Prop) := {
  env_records h rb t : Forall good (env_reply h (CPoll rb t)).2;
}.

Section Loops.
Context `{Env, !EnvLaws} (good : bytes -> Prop) `{!RecordLaws good} (tot : bool).
Context (handle : bytes -> option bytes) (timeout_ms : Z) {E : Type} (set_err : Z -> E).
Hypothesis handle_good : forall data, good data -> is_Some (handle data).

(** Each record becomes one line. *)
Definition prints (records : list bytes) (text : bytes) : Prop :=
  exists lines, text = mjoin lines /\
    Forall2 (fun data l => good data /\ handle data = Some l) records lines.

Lemma prints_app r1 r2 t1 t2 : prints r1 t1 -> prints r2 t2 -> prints (r1 ++ r2) (t1 ++ t2).
Proof using Type.
  intros (l1 & -> & Hl1) (l2 & -> & Hl2). exists (l1 ++ l2).
  split; [by rewrite join_app|by apply Forall2_app].
Qed.

Lemma deliver_spec u records st :
  uses u st -> Forall good records ->
  wp tot (deliver handle records) (fun _ st' => uses u st' /\
    exists new, hs_log st' = hs_log st ++ new /\ polls new = [] /\ prints records (stdout_of new)) st.
Proof using All.
  intros Hu Hr. revert st Hu. induction Hr as [|data records Hg _ IH]; intros st Hu.
  { apply wp_ret. split; [done|]. exists []. rewrite app_nil_r. split_and!; [done..|].
    exists []. by split. }
  cbn [deliver]. apply wp_bind.
  destruct (handle_good data Hg) as [line Hh].
  eapply wp_ub; [done|]. wp_call r st1 Hs1. pose proof (sp_log _ _ _ _ Hs1) as Hlog.
  eapply uses_step in Hs1; [|done|done].
  eapply wp_mono; [by apply IH|]. intros [] st2 (Hu2 & new & Hlog2 & Hp & lines & Hout & Hf).
  split; [done|]. exists (Event (COut line) r :: new).
  split_and!; [by rewrite Hlog2, Hlog, <- app_assoc|done|].
  exists (line :: lines). split; [|by constructor].
  change (line ++ stdout_of new = line ++ mjoin lines). by rewrite Hout.
Qed.

Lemma poll_spec u rb st :
  uses u st -> rb ∈ u_live u -> u_stage u = Attached ->
  wp tot (ring_buffer_poll handle timeout_ms rb) (fun r st' =>
    uses u st' /\ is_sint 32 r /\ exists new recs, hs_log st' = hs_log st ++ new /\
      polls new = [(r, recs)] /\ prints recs (stdout_of new)) st.
Proof using All.
  intros Hu Hin Hst. unfold ring_buffer_poll. wp_call r st1 Hs1.
  pose proof (sp_log _ _ _ _ Hs1) as Hlog. pose proof (sp_reply _ _ _ _ Hs1) as Hr.
  eapply uses_step in Hs1; [|done|cbn [use]; by rewrite need_true].
  apply wp_bind. eapply wp_mono; [apply (deliver_spec u); [done|]|].
  { rewrite Hr. apply env_records. }
  intros [] st2 (Hu2 & new & Hlog2 & Hp & Hpr). apply wp_ret.
  split_and!; [done|rewrite Hr; apply (env_int _ (CPoll rb timeout_ms))|].
  exists (Event (CPoll rb timeout_ms) r :: new), r.2.
  split_and!; [by rewrite Hlog2, Hlog, <- app_assoc| |done].
  change (r :: polls new = [(r.1, r.2)]). rewrite Hp. by destruct r.
Qed.

(** The value [err] has after the loop, from the results of the polls: all
    but the last let the loop go on. *)
Definition loop_result (err : E) (rs : list Z) (err' : E) : Prop :=
  rs = [] /\ err' = err \/
  exists rs0 r, rs = rs0 ++ [r] /\ err' = set_err r /\ Forall (fun r => 0 <= r \/ r = - EINTR) rs0.

Lemma loop_result_cons err r rs err' :
  0 <= r \/ r = - EINTR -> loop_result (set_err r) rs err' -> loop_result err (r :: rs) err'.
Proof using Type.
  intros Hr [[-> ->]|(rs0 & r' & -> & -> & Hf)]; right; [by exists [], r|].
  exists (r :: rs0), r'. split_and!; [done..|by constructor].
Qed.

(** One more round in front of the rest of the loop. *)
Lemma poll_again u err r recs new st st2 err' st3 :
  hs_log st2 = hs_log st ++ new -> polls new = [(r, recs)] ->
  prints (delivered new) (stdout_of new) -> 0 <= r \/ r = - EINTR ->
  (uses u st3 /\ exists new, hs_log st3 = hs_log st2 ++ new /\
      loop_result (set_err r) (fst <$> polls new) err' /\ prints (delivered new) (stdout_of new) /\
      (signalled (hs_log st2) = false -> hs_exiting st2 = 0 -> polls new <> [])) ->
  uses u st3 /\ exists new, hs_log st3 = hs_log st ++ new /\
      loop_result err (fst <$> polls new) err' /\ prints (delivered new) (stdout_of new) /\
      (signalled (hs_log st) = false -> hs_exiting st = 0 -> polls new <> []).
Proof using Type.
  intros Hlog Hp Hpr Hr (Hu & more & Hlog3 & Hres & Hmore & _). split; [done|].
  exists (new ++ more). rewrite Hlog3, Hlog, <- app_assoc, polls_app, delivered_app, stdout_app, Hp.
  split_and!; [done|by apply loop_result_cons|by apply prints_app|done].
Qed.

Lemma poll_loop_spec fuel u rb err st :
  uses u st -> rb ∈ u_live u -> u_stage u = Attached -> in_time tot fuel st ->
  wp tot (poll_loop handle timeout_ms set_err fuel rb err) (fun err' st' =>
    uses u st' /\ exists new, hs_log st' = hs_log st ++ new /\
      loop_result err (fst <$> polls new) err' /\ prints (delivered new) (stdout_of new) /\
      (signalled (hs_log st) = false -> hs_exiting st = 0 -> polls new <> [])) st.
Proof using All.
  intros Hu Hin Hstg Ht. revert err st Hu Ht. induction fuel as [|fuel IH]; intros err st Hu Ht.
  { by apply in_time_zero in Ht. }
  cbn [poll_loop]. apply wp_bind, wp_exiting. intros st1 Hlog1.
  set (b := signalled (hs_log st) || _).
  assert (uses u st1) as Hu1 by (unfold uses; rewrite Hlog1; by eapply usage_snoc).
  destruct b eqn:Hb; unfold b in Hb.
  { apply wp_ret. split; [done|]. eexists. split; [exact Hlog1|].
    split_and!; [by left|by exists []|]. intros Hs He. by rewrite Hs, He in Hb. }
  apply wp_bind. eapply wp_mono; [by apply poll_spec|]. cbv beta.
  intros r st2 (Hu2 & Hr & new & recs & Hlog2 & Hp & Hpr).
  assert (signalled (hs_log st) = false) as Hsig by (by apply orb_false_iff in Hb as [? _]).
  eapply (in_time_step _ _ st st2) in Ht as Ht2;
    [|done|rewrite Hlog2, Hlog1, <- app_assoc; by apply prefix_app_r|rewrite Hlog2, Hlog1, !length_app; simpl; lia].
  set (ev := Event CExiting _) in Hlog1.
  assert (hs_log st2 = hs_log st ++ (ev :: new)) as Hlog
    by (rewrite Hlog2, Hlog1, <- app_assoc; done).
  assert (polls (ev :: new) = [(r, recs)]) as Hps by exact Hp.
  assert (prints (delivered (ev :: new)) (stdout_of (ev :: new))) as Hprs.
  { unfold delivered. rewrite Hps. simpl. by rewrite app_nil_r. }
  destruct (Z.eqb_spec r (- EINTR)) as [Hint|Hint]; [|destruct (Z.ltb_spec r 0) as [Hneg|Hneg]].
  - eapply wp_mono; [by apply IH|]. cbv beta. intros err' st3. by eapply poll_again; eauto.
  - wp_print st3 Hs3. wp_norm.
    pose proof (sp_log _ _ _ _ Hs3) as Hlog3. eapply uses_step in Hs3; [|done|done].
    split; [done|]. exists ((ev :: new) ++ [Event (CErr m) tt]).
    rewrite Hlog3, Hlog, polls_app, delivered_app, stdout_app, Hps, <- app_assoc.
    split_and!; [done|right; by exists [], r| |done]. apply prints_app; [done|]. by exists [].
  - eapply wp_mono; [by apply IH|]. cbv beta. intros err' st3. by eapply poll_again; eauto.
Qed.

End Loops.
