(* ===== verification/Timeline.v ===== *)
(** * A kernel half beside a command

    libbpfstrace and libbpfso are built alike: programs run in the kernel while
    a command runs, and a ring buffer that the command polls connects the two.
    This file composes the halves once for both tools, against an interface:
    the programs turn hits into records ([Producer]), and a specification says
    which calls the records stand for ([Tracked]). *)

From stdpp Require Import base list gmap strings.
From Stdlib Require Import ZArith Lia.
From S2P Require Import Prelude CLib StraceProc Host PollLoop.

Local Open Scope Z_scope.

(** ** The interface *)

(** Programs in the kernel: [K] their maps and ring buffer, [X] the hits.  The
    first argument of [pr_run] is the filter in the read-only data.  [pr_seen] are
    the hits as a specification sees them: [Y] adds what it has to know of the
    state at the hit, such as whether the ring buffer has room. *)
Class Producer (K X Y : Type) := {
  pr_run : Z -> K -> list X -> option K;
  pr_seen : Z -> K -> list X -> list Y;
  pr_records : K -> list bytes;
  pr_take : nat -> K -> K;
}.

(** Their specification: [O] the calls in progress, [E] the calls reported.
    [tk_steps t o ys o' es]: the hits [ys] lead from [o] to [o'] and report
    [es]; [tk_holds k o es]: the kernel is in [o], the ring buffer holds the
    reports [es]. *)
Class Tracked (K X Y O E : Type) := {
  tk_start : O;
  tk_hit : X -> Prop;
  tk_good : bytes -> Prop;
  tk_shows : bytes -> E -> Prop;
  tk_steps : Z -> O -> list Y -> O -> list E -> Prop;
  tk_holds : K -> O -> list E -> Prop;
}.

Class TrackedLaws (K X Y O E : Type) `{Producer K X Y, Tracked K X Y O E} := {
  tk_seen_nil t k : pr_seen t k [] = [];
  tk_nil t o o' es : tk_steps t o [] o' es <-> o' = o /\ es = [];
  tk_app t o xs o1 es1 ys o2 es2 :
    tk_steps t o xs o1 es1 -> tk_steps t o1 ys o2 es2 -> tk_steps t o (xs ++ ys) o2 (es1 ++ es2);
  tk_run t k o es xs :
    is_sint 32 t -> Forall tk_hit xs -> tk_holds k o es ->
    exists k' o' new, pr_run t k xs = Some k' /\ tk_steps t o (pr_seen t k xs) o' new /\
      tk_holds k' o' (es ++ new);
  tk_take n k o es : tk_holds k o es -> tk_holds (pr_take n k) o (drop n es);
  tk_records k o es : tk_holds k o es -> Forall2 tk_shows (pr_records k) es;
  tk_all_good k o es : tk_holds k o es -> Forall tk_good (pr_records k);
}.

(** ** The kernel along a history of the command *)

(** The [int] stored as the filter. *)
Definition filter_of (h : list event) : Z :=
  match usage_of h with Some u => sint 32 (u_target u) | None => 0 end.

Definition attached (h : list event) : bool :=
  match usage_of h with Some u => bool_decide (u_stage u = Attached) | None => false end.

(** A poll takes the records it delivers out of the ring buffer. *)
Definition taken (e : event) : nat := length (delivered [e]).

Lemma filter_int h : is_sint 32 (filter_of h).
Proof. unfold filter_of. destruct (usage_of h); [apply sint_range; lia|unfold is_sint; lia]. Qed.

Section Timeline.
Context {K X Y : Type} `{Producer K X Y}.
(** The kernel when the object is loaded, and the hits between the last call of
    a history and the next. *)
Context (k0 : K) (hits : list event -> list X).
Implicit Types (h future : list event) (k : K).

(** Hits run the programs while they are attached. *)
Definition hits_at h : list X := if attached h then hits h else [].

Fixpoint kern_from h k future : option K :=
  match future with
  | [] => Some k
  | e :: future =>
      k ← pr_run (filter_of (h ++ [e])) (pr_take (taken e) k) (hits_at (h ++ [e]));
      kern_from (h ++ [e]) k future
  end.

(** The kernel at the end of a history; [None] if a program got stuck. *)
Definition kern_at h : option K := kern_from [] k0 h.

Fixpoint hits_from h future : list X :=
  match future with
  | [] => []
  | e :: future => hits_at (h ++ [e]) ++ hits_from (h ++ [e]) future
  end.

Definition all_hits h : list X := hits_from [] h.

(** The hits of a history as the specification sees them. *)
Fixpoint seen_from h k future : list Y :=
  match future with
  | [] => []
  | e :: future =>
      let t := filter_of (h ++ [e]) in
      let k := pr_take (taken e) k in
      let xs := hits_at (h ++ [e]) in
      pr_seen t k xs ++
      match pr_run t k xs with Some k => seen_from (h ++ [e]) k future | None => [] end
  end.

Definition all_seen h : list Y := seen_from [] k0 h.

Lemma kern_at_snoc h e :
  kern_at (h ++ [e]) =
    k ← kern_at h; pr_run (filter_of (h ++ [e])) (pr_take (taken e) k) (hits_at (h ++ [e])).
Proof using Type.
  assert (forall h0 k, kern_from h0 k (h ++ [e]) =
    k ← kern_from h0 k h; pr_run (filter_of (h0 ++ h ++ [e])) (pr_take (taken e) k) (hits_at (h0 ++ h ++ [e])))
    as Hk; [|exact (Hk [] k0)].
  induction h as [|e' h IH]; intros h0 k; simpl.
  - by destruct (pr_run _ _ _).
  - destruct (pr_run _ _ _) as [k'|]; [|done]. simpl. rewrite IH.
    by rewrite <- !(app_assoc h0 [e']).
Qed.

Lemma all_hits_snoc h e : all_hits (h ++ [e]) = all_hits h ++ hits_at (h ++ [e]).
Proof using Type.
  assert (forall h0, hits_from h0 (h ++ [e]) = hits_from h0 h ++ hits_at (h0 ++ h ++ [e])) as Hh;
    [|exact (Hh [])].
  induction h as [|e' h IH]; intros h0; simpl; [by rewrite app_nil_r|].
  rewrite IH, <- !app_assoc. done.
Qed.

Lemma all_seen_snoc h e k :
  kern_at h = Some k ->
  all_seen (h ++ [e]) =
    all_seen h ++ pr_seen (filter_of (h ++ [e])) (pr_take (taken e) k) (hits_at (h ++ [e])).
Proof using Type.
  assert (forall h0 k1, kern_from h0 k1 h = Some k ->
    seen_from h0 k1 (h ++ [e]) = seen_from h0 k1 h ++
      pr_seen (filter_of (h0 ++ h ++ [e])) (pr_take (taken e) k) (hits_at (h0 ++ h ++ [e])))
    as Hs; [|exact (Hs [] k0)].
  induction h as [|e' h IH]; intros h0 k1; cbn [seen_from kern_from app].
  - intros [= ->]. destruct (pr_run _ _ _); by rewrite app_nil_r.
  - destruct (pr_run _ _ _) as [k'|]; [|done]. cbn [mbind option_bind]. intros Hk.
    rewrite IH by done. by rewrite <- !(app_assoc h0 [e']), app_assoc.
Qed.

(** When seeing a hit keeps what [f] and [g] read of it, so does seeing a
    history. *)
Lemma all_seen_map {A} (f : Y -> A) (g : X -> A) h k :
  (forall t k xs k', pr_run t k xs = Some k' -> f <$> pr_seen t k xs = g <$> xs) ->
  kern_at h = Some k -> f <$> all_seen h = g <$> all_hits h.
Proof using Type.
  intros Hfg. unfold kern_at, all_seen, all_hits. generalize k0 as k1. generalize (@nil event) as h0.
  induction h as [|e h IH]; intros h0 k1; cbn [seen_from kern_from hits_from]; [done|].
  destruct (pr_run _ _ _) as [k'|] eqn:E; [|done]. cbn [mbind option_bind]. intros Hk.
  rewrite !fmap_app, (IH _ _ Hk). f_equal. by eapply Hfg.
Qed.

(** ** Both halves together *)

Context {O E : Type} `{!Tracked K X Y O E, !TrackedLaws K X Y O E} `{Env}.

(** What the kernel and libbpf do: the tool starts with nothing reported, hits
    are of the form the programs get, and a poll delivers the oldest records. *)
Class TimelineLaws := {
  tl_start : tk_holds k0 tk_start [];
  tl_hits h : Forall tk_hit (hits h);
  tl_poll h k rb ms : kern_at h = Some k ->
    exists n, (env_reply h (CPoll rb ms)).2 = take n (pr_records k);
}.
Context `{!TimelineLaws}.

Lemma hits_at_run k o es h :
  tk_holds k o es ->
  exists k' o' new, pr_run (filter_of h) k (hits_at h) = Some k' /\
    tk_steps (filter_of h) o (pr_seen (filter_of h) k (hits_at h)) o' new /\ tk_holds k' o' (es ++ new).
Proof using All.
  apply tk_run; [apply filter_int|]. unfold hits_at. destruct (attached h); [apply tl_hits|constructor].
Qed.

Lemma kern_at_holds h : exists k o es, kern_at h = Some k /\ tk_holds k o es.
Proof using All.
  induction h as [|e h (k & o & es & Hk & Hh)] using rev_ind; [exists k0, tk_start, []; split; [done|apply tl_start]|].
  destruct (hits_at_run _ _ _ (h ++ [e]) (tk_take (taken e) _ _ _ Hh)) as (k' & o' & new & Hr & _ & Hh').
  exists k', o', (drop (taken e) es ++ new). rewrite kern_at_snoc, Hk. done.
Qed.

(** The records polls deliver are those the programs wrote. *)
Lemma timeline_records : RecordLaws tk_good.
Proof using All.
  split. intros h rb ms. destruct (kern_at_holds h) as (k & o & es & Hk & Hh).
  destruct (tl_poll h k rb ms Hk) as [n ->]. apply Forall_take. by eapply tk_all_good.
Qed.

(** What an answered call takes out of the ring buffer is the front of it. *)
Lemma taken_front h c k :
  kern_at h = Some k ->
  let e := Event c (env_reply h c) in delivered [e] = take (taken e) (pr_records k).
Proof using All.
  intros Hk e. unfold taken. destruct c; try done. unfold e.
  change (delivered [Event (CPoll rb timeout_ms) (env_reply h (CPoll rb timeout_ms))])
    with ((env_reply h (CPoll rb timeout_ms)).2 ++ []). rewrite app_nil_r.
  destruct (tl_poll h k rb timeout_ms Hk) as [n ->]. rewrite length_take. symmetry.
  destruct (Nat.min_spec n (length (pr_records k))) as [[_ ->]|[? ->]]; [done|]. by rewrite !take_ge by lia.
Qed.

(** After a history of the command: the kernel is where the specification leads
    on all the hits so far; of its reports, [old] have been delivered and
    [rest] are in the ring buffer. *)
Record follows (t : Z) h (o : O) (old rest : list E) k : Prop := {
  fo_kern : kern_at h = Some k;
  fo_steps : tk_steps t tk_start (all_seen h) o (old ++ rest);
  fo_old : Forall2 tk_shows (delivered h) old;
  fo_rest : tk_holds k o rest;
}.

(** The hits after a history count as hits with the filter [t]. *)
Definition filter_fits (t : Z) h : Prop :=
  forall k o o' es, let ys := pr_seen (filter_of h) k (hits_at h) in
    tk_steps (filter_of h) o ys o' es -> tk_steps t o ys o' es.

Lemma filter_fits_eq t h : hits_at h = [] \/ filter_of h = t -> filter_fits t h.
Proof using TrackedLaws0. intros [E0| <-] k o o' es; [|done]. cbv zeta. by rewrite E0, tk_seen_nil, !tk_nil. Qed.

Lemma follows_call t h c o old rest k :
  let h' := h ++ [Event c (env_reply h c)] in
  follows t h o old rest k -> filter_fits t h' ->
  exists o' old' rest' k', follows t h' o' old' rest' k'.
Proof using All.
  set (e := Event c (env_reply h c)). intros h' [Hk Ht Hold Hrest] Hf.
  pose proof (taken_front h c k Hk) as Htk. fold e in Htk. cbv zeta in Htk. set (n := taken e) in *.
  destruct (hits_at_run _ _ _ h' (tk_take n _ _ _ Hrest)) as (k' & o' & new & Hrun & Hst & Hh').
  apply Hf in Hst.
  exists o', (old ++ take n rest), (drop n rest ++ new), k'. split.
  - unfold h'. rewrite kern_at_snoc, Hk. exact Hrun.
  - unfold h' at 1. rewrite (all_seen_snoc _ _ k Hk), <- app_assoc, (app_assoc (take n rest)), take_drop, app_assoc.
    by eapply tk_app.
  - unfold h'. rewrite delivered_app, Htk. apply Forall2_app; [done|]. apply Forall2_take. by eapply tk_records.
  - done.
Qed.

(** Along the calls of a command. *)
Lemma history_follows (P : call -> Prop) t h :
  grown P [] h -> (forall h', grown P [] h' -> h' `prefix_of` h -> filter_fits t h') ->
  exists o old rest k, follows t h o old rest k.
Proof using All.
  intros Hg Hf. induction Hg as [|h c Hg IH Hc].
  - exists tk_start, [], [], k0. split; [done|by apply tk_nil|constructor|apply tl_start].
  - destruct IH as (o & old & rest & k & Hfo).
    { intros h' Hg' Hp. apply Hf; [done|]. by apply prefix_app_r. }
    eapply follows_call; [done|]. apply Hf; [by constructor|done].
Qed.
End Timeline.
