(* ===== verification/StraceSkel.v ===== *)
(** * The skeleton of libbpfstrace (libbpfstrace/out/libbpfstrace.skel.h)

    Opening, loading, attaching and destroying the BPF object, with the
    allocations each step makes and the ways it fails. *)

From stdpp Require Import base list gmap strings.
From Stdlib Require Import ZArith Lia.
From S2P Require Import Prelude CLib Printf Uapi StraceProc Host.

Local Open Scope string_scope.
Local Open Scope list_scope.
Local Open Scope Z_scope.

(** [struct libbpfstrace_bpf]: its address and its [skeleton] member. *)
Record libbpfstrace_bpf := Obj {
  ob_self : Z;
  ob_skeleton : option bpf_object_skeleton;
}.

Definition skel_maps : list map_skeleton :=
  [MapSkeleton "inflight" "maps.inflight" None;
   MapSkeleton "events" "maps.events" None;
   MapSkeleton "libbpfst.rodata" "maps.rodata" (Some "rodata")].

Definition skel_progs : list prog_skeleton :=
  [ProgSkeleton "handle_sys_enter" "progs.handle_sys_enter" "links.handle_sys_enter";
   ProgSkeleton "handle_sys_exit" "progs.handle_sys_exit" "links.handle_sys_exit"].

Definition elf_size : Z := 15088.

Section Skel.
Context `{Env}.

Definition bpf_destroy (obj : option libbpfstrace_bpf) : M unit :=
  match obj with
  | None => mret tt
  | Some o =>
      match ob_skeleton o with
      | Some s => do (CDestroySkeleton (Some s))
      | None => mret tt
      end;;
      do (CFree (ob_self o))
  end.

(** The error code and the object, its [skeleton] set on success. *)
Definition create_skeleton (o : libbpfstrace_bpf) : M (Z * libbpfstrace_bpf) :=
  s ← do (CCalloc 1 "struct bpf_object_skeleton");
  if s =? 0 then
    do (CDestroySkeleton None);; mret (- ENOMEM, o)
  else
    maps ← do (CCalloc 3 "struct bpf_map_skeleton");
    if maps =? 0 then
      do (CDestroySkeleton (Some (Skeleton s "libbpfstrace_bpf" 3 0 [] 0 0 [] 0)));;
      mret (- ENOMEM, o)
    else
      progs ← do (CCalloc 2 "struct bpf_prog_skeleton");
      if progs =? 0 then
        do (CDestroySkeleton (Some (Skeleton s "libbpfstrace_bpf" 3 maps skel_maps 2 0 [] 0)));;
        mret (- ENOMEM, o)
      else
        mret (0, Obj (ob_self o)
                (Some (Skeleton s "libbpfstrace_bpf" 3 maps skel_maps 2 progs skel_progs elf_size))).

(** [libbpfstrace_bpf__open_opts(NULL)]: [None] is NULL, with [errno] set. *)
Definition bpf_open_opts : M (option libbpfstrace_bpf) :=
  p ← do (CCalloc 1 "struct libbpfstrace_bpf");
  if p =? 0 then put_errno ENOMEM;; mret None
  else
    '(err, o) ← create_skeleton (Obj p None);
    if negb (err =? 0) then
      bpf_destroy (Some o);; e ← neg err; put_errno e;; mret None
    else
      s ← ub (ob_skeleton o);
      err ← do (COpenSkeleton s);
      if negb (err =? 0) then
        bpf_destroy (Some o);; e ← neg err; put_errno e;; mret None
      else mret (Some o).

Definition bpf_open : M (option libbpfstrace_bpf) := bpf_open_opts.

Definition bpf_load (o : libbpfstrace_bpf) : M Z :=
  s ← ub (ob_skeleton o); do (CLoadSkeleton s).

Definition bpf_attach (o : libbpfstrace_bpf) : M Z :=
  s ← ub (ob_skeleton o); do (CAttachSkeleton s).

Definition bpf_detach (o : libbpfstrace_bpf) : M unit :=
  s ← ub (ob_skeleton o); do (CDetachSkeleton s).

(** [libbpfstrace_bpf__open_and_load()] *)
Definition bpf_open_and_load : M (option libbpfstrace_bpf) :=
  o ← bpf_open;
  match o with
  | None => mret None
  | Some o =>
      err ← bpf_load o;
      if negb (err =? 0) then
        bpf_destroy (Some o);; e ← neg err; put_errno e;; mret None
      else mret (Some o)
  end.
End Skel.

(** ** What the skeleton's functions own and give back *)

(** [live] is exactly the four allocations behind an open object. *)
Record owned (o : libbpfstrace_bpf) (s : bpf_object_skeleton) (live : gset Z) : Prop := {
  own_skeleton : ob_skeleton o = Some s;
  own_live : live = {[ob_self o; s_self s; s_maps_ptr s; s_progs_ptr s]};
  own_nonnull : Forall (fun p => p <> 0) [ob_self o; s_self s; s_maps_ptr s; s_progs_ptr s];
  own_distinct : NoDup [ob_self o; s_self s; s_maps_ptr s; s_progs_ptr s];
}.

Lemma owned_self o s live : owned o s live -> ob_self o ∈ live /\ s_self s ∈ live.
Proof. intros [_ -> _ _]. set_solver. Qed.

Ltac owned_facts Ho :=
  let Hs := fresh "Hskel" in let Hl := fresh "Hlive" in
  destruct Ho as [Hs Hl ?Hnz ?Hnd];
  rewrite !Forall_cons in Hnz; rewrite !NoDup_cons, !not_elem_of_cons in Hnd;
  destruct_and?.

Section SkelSpec.
Context `{Env, !EnvLaws} (tot : bool).

Lemma destroy_owned o s u st :
  uses u st -> owned o s (u_live u) ->
  wp tot (bpf_destroy (Some o)) (fun _ => uses (Usage ∅ (u_target u) Closed)) st.
Proof using All.
  intros Hu Ho. owned_facts Ho. unfold bpf_destroy. rewrite Hskel.
  wp_call r st1 Hs1.
  eapply uses_step in Hs1; [|done|].
  2: { cbn [use]. rewrite release_live by set_solver. cbn [mbind option_bind].
       rewrite release_live by set_solver. cbn [mbind option_bind].
       rewrite release_live by set_solver. done. }
  wp_call r2 st2 Hs2. eapply uses_step; [done..|].
  cbn [use]. rewrite release_live by set_solver. f_equal.
  cbn [u_live u_target u_stage to_stage]. f_equal. set_solver.
Qed.

(** Giving back a skeleton that was only partly built. *)
Lemma destroy_partial L s u st r st' :
  uses u st -> stepped st (CDestroySkeleton (Some s)) r st' ->
  s_progs_ptr s = 0 -> s_self s <> 0 -> (s_self s ∉ L) -> u_stage u = Closed ->
  (s_maps_ptr s = 0 /\ u_live u = {[s_self s]} ∪ L \/
   s_maps_ptr s <> 0 /\ (s_maps_ptr s ∉ {[s_self s]} ∪ L) /\
     u_live u = {[s_maps_ptr s]} ∪ ({[s_self s]} ∪ L)) ->
  uses (Usage L (u_target u) Closed) st'.
Proof using All.
  intros Hu Hst Hp Hs Hf Hc Hm. eapply uses_step; [done..|]. cbn [use]. rewrite Hp.
  destruct Hm as [[-> Hl]|(Hm & Hm' & Hl)].
  - rewrite release_null. cbn [mbind option_bind]. rewrite release_null. cbn [mbind option_bind].
    rewrite release_live; [|done|rewrite Hl; set_solver].
    cbn. rewrite Hl. unfold to_stage. simpl. by rewrite union_remove.
  - rewrite release_live; [|done|rewrite Hl; set_solver].
    cbn [mbind option_bind]. rewrite release_null.
    cbn [mbind option_bind].
    rewrite Hl, union_remove by done. rewrite release_live; [|done|set_solver].
    cbn. unfold to_stage. simpl. by rewrite union_remove.
Qed.

Lemma create_skeleton_spec p t st :
  p <> 0 -> uses (Usage {[p]} t Closed) st ->
  wp tot (create_skeleton (Obj p None)) (fun '(err, o) st' =>
    (err = - ENOMEM /\ o = Obj p None /\ uses (Usage {[p]} t Closed) st') \/
    (err = 0 /\ ob_self o = p /\ exists s live, owned o s live /\ uses (Usage live t Closed) st')) st.
Proof using All.
  intros Hp Hu. unfold create_skeleton. wp_call s st1 Hs1. cbn [reply] in s.
  destruct (Z.eqb_spec s 0) as [->|Hs].
  { wp_call r st2 Hs2. apply wp_ret. left. split_and!; [done..|].
    eapply uses_free; [|done..]. by eapply uses_step. }
  destruct (uses_acquire _ _ _ _ _ Closed Hu Hs1 Hs eq_refl) as [Hfs Hu1]. simpl in Hfs, Hu1.
  wp_call m st2 Hs2. cbn [reply] in m.
  destruct (Z.eqb_spec m 0) as [->|Hm].
  { eapply uses_step in Hs2; [|done|done].
    wp_call r st3 Hs3. apply wp_ret. left. split_and!; [done..|].
    apply (destroy_partial _ _ _ _ _ _ Hs2 Hs3); [done..|]. left. done. }
  destruct (uses_acquire _ _ _ _ _ Closed Hu1 Hs2 Hm eq_refl) as [Hfm Hu2]. simpl in Hfm, Hu2.
  wp_call g st3 Hs3. cbn [reply] in g.
  destruct (Z.eqb_spec g 0) as [->|Hg].
  { eapply uses_step in Hs3; [|done|done].
    wp_call r st4 Hs4. apply wp_ret. left. split_and!; [done..|].
    apply (destroy_partial _ _ _ _ _ _ Hs3 Hs4); [done..|]. right. done. }
  destruct (uses_acquire _ _ _ _ _ Closed Hu2 Hs3 Hg eq_refl) as [Hfg Hu3]. simpl in Hfg, Hu3.
  apply wp_ret. right. split_and!; [done..|]. eexists _, _. split; [|done].
  split; simpl; [done|set_solver|by repeat constructor|].
  rewrite !NoDup_cons. split_and!; [set_solver..|constructor].
Qed.

(** [libbpfstrace_bpf__open]: an object that owns its four allocations, or
    NULL with nothing left allocated. *)
Lemma open_spec st t :
  uses (Usage ∅ t Closed) st ->
  wp tot bpf_open (fun r st' =>
    match r with
    | Some o => exists s u, owned o s (u_live u) /\ u_stage u = Opened /\ u_target u = t /\ uses u st'
    | None => uses (Usage ∅ t Closed) st'
    end) st.
Proof using All.
  intros Hu. unfold bpf_open, bpf_open_opts.
  wp_call p st1 Hs1. cbn [reply] in p.
  destruct (Z.eqb_spec p 0) as [->|Hp].
  { eapply uses_step in Hs1; [|exact Hu|done]. done. }
  destruct (uses_acquire _ _ _ _ _ Closed Hu Hs1 Hp eq_refl) as [_ Hu1]. simpl in Hu1.
  rewrite (right_id_L ∅ (∪)) in Hu1.
  apply wp_bind. eapply wp_mono; [by apply create_skeleton_spec|].
  intros [err o] st2 [(-> & -> & Hu2)|(-> & Hself & s & live & Ho & Hu2)].
  - change (- ENOMEM =? 0) with false. cbn [negb]. unfold bpf_destroy. cbn [ob_skeleton ob_self].
    wp_call r st3 Hs3.
    eapply uses_step in Hs3; [|done|]; [|cbn [use]; rewrite release_live by set_solver; done].
    cbn in Hs3. rewrite difference_diag_L in Hs3. by apply wp_bind, wp_neg.
  - cbn [Z.eqb negb]. apply wp_bind. eapply wp_ub; [apply (own_skeleton _ _ _ Ho)|].
    wp_call err st3 Hs3. cbn [reply] in err.
    pose proof (owned_self _ _ _ Ho) as [_ Hin].
    pose proof (env_error (hs_log st2) (COpenSkeleton s)) as He. rewrite <- (sp_reply _ _ _ _ Hs3) in He.
    eapply uses_step in Hs3; [|done|cbn [use]; rewrite need_true by done; done].
    unfold on_success in Hs3. destruct (Z.eqb_spec err 0) as [->|Hne]; simpl.
    + apply wp_ret. eexists s, _. split_and!; [| | |exact Hs3]; done.
    + rewrite decide_False in Hs3 by done.
      apply wp_bind. eapply wp_mono; [by eapply destroy_owned|]. intros [] st4 Hu4. by apply wp_bind, wp_neg.
Qed.
End SkelSpec.

(** None of the skeleton's functions polls or prints. *)
Definition is_quiet (c : call) : Prop :=
  match c with CPoll _ _ | COut _ | CSetTarget _ _ | CProc => False | _ => True end.

Lemma destroy_quiet `{Env} o : only is_quiet (bpf_destroy o).
Proof. unfold bpf_destroy. only_tac. Qed.

Lemma open_quiet `{Env} : only is_quiet bpf_open.
Proof. unfold bpf_open, bpf_open_opts, create_skeleton. only_tac; apply destroy_quiet. Qed.

(** C34: opening the skeleton, whichever of its allocations or libbpf calls
    fail: it returns an object that owns exactly its four allocations (its own
    structure, the skeleton, the map and the program arrays), or NULL with
    every allocation given back exactly once. *)
Theorem bpf_open_owns `{Env, !EnvLaws} :
  exists r st', bpf_open hs_init = Done r st' /\
    match r with
    | Some o => exists s live, owned o s live /\ usage_of (hs_log st') = Some (Usage live 0 Opened)
    | None => usage_of (hs_log st') = Some unused
    end.
Proof.
  destruct (wp_done _ _ _ (open_spec true hs_init 0 ltac:(done))) as (r & st' & Ho & Hr).
  exists r, st'. split; [done|]. destruct r as [o|]; [|exact Hr].
  destruct Hr as (s & [live t stg] & Hown & Hst & Ht & Hu). simpl in *. subst. by exists s, live.
Qed.
