(* ===== verification/StraceMain.v ===== *)
(** * The libbpfstrace command (libbpfstrace.c, [main])

    Argument handling, the wait for a process name, the life of the BPF object
    and the poll loop.  [fuel] bounds the iterations of the two loops; the
    theorems give an amount that is enough. *)

From stdpp Require Import base list gmap strings.
From Stdlib Require Import ZArith Lia.
From S2P Require Import Prelude CLib Printf Uapi StraceTypes StraceFmt StraceFmtProps StraceProc.
From S2P Require Import Host PollLoop StraceSkel.

Local Open Scope string_scope.
Local Open Scope list_scope.
Local Open Scope Z_scope.

(** [enum libbpf_print_level] of bpf/libbpf.h. *)
Inductive libbpf_print_level := LIBBPF_WARN | LIBBPF_INFO | LIBBPF_DEBUG.

Section Main.
Context `{Env}.
Context (junk : nat -> bytes) (strerror : Z -> bytes) (inet_ntop : Z -> bytes -> option bytes).

(** [libbpf_print_fn]: the number of characters written to stderr. *)
Definition libbpf_print_fn (level : libbpf_print_level) (fmt : bytes) (args : list parg) : M Z :=
  match level with
  | LIBBPF_DEBUG => mret 0
  | _ => s ← ub (format fmt args); do (CErr s);; mret (Z.of_nat (length s))
  end.

(** [while (!exiting) { if (find_pid_by_name(...) == 0) break; sleep(1); }] *)
Fixpoint wait_loop (fuel : nat) (name : bytes) (target_pid : Z) : M Z :=
  match fuel with
  | O => no_fuel
  | S fuel =>
      e ← exiting;
      if (e : bool) then mret target_pid
      else
        ps ← do CProc;
        r ← ub (find_pid_by_name ps (junk 64) name (junk 256) (junk 512));
        match r with
        | Some v => mret v
        | None => do (CSleep 1);; wait_loop fuel name target_pid
        end
  end.

(** [cleanup:] *)
Definition cleanup (rb : Z) (skel : libbpfstrace_bpf) (err : Z) : M Z :=
  do (CRingFree rb);;
  bpf_destroy (Some skel);;
  mret (if err =? 0 then 0 else 1).

(** From the start message on. *)
Definition tracing (fuel : nat) (arg : bytes) (is_pid : bool) (target_pid rb : Z)
    (skel : libbpfstrace_bpf) (err : Z) : M Z :=
  (if is_pid then
     printf (B "libbpfstrace started, tracing pid=%d" ++ [10]) [AInt 0 target_pid]
   else
     printf (B "libbpfstrace started, tracing process '%s' pid=%d" ++ [10])
       [AStr arg; AInt 0 target_pid]);;
  err ← poll_loop (handle_event junk strerror inet_ntop) 200 (fun r => r) fuel rb err;
  cleanup rb skel err.

(** From [libbpfstrace_bpf__attach] to the end. *)
Definition attach_and_trace (fuel : nat) (arg : bytes) (is_pid : bool) (target_pid : Z)
    (skel : libbpfstrace_bpf) : M Z :=
  err ← bpf_attach skel;
  if negb (err =? 0) then
    eprintf (B "failed to attach BPF programs: %d" ++ [10]) [AInt 0 err];;
    cleanup 0 skel err
  else
    '(rb, errno) ← do CRingNew;
    if rb =? 0 then
      put_errno errno;;
      eprintf (B "failed to create ring buffer: %s" ++ [10]) [AStr (strerror errno)];;
      err ← neg errno;
      cleanup rb skel err
    else
      tracing fuel arg is_pid target_pid rb skel err.

(** From [libbpf_set_strict_mode] to the end. *)
Definition trace (fuel : nat) (arg : bytes) (is_pid : bool) (target_pid : Z) : M Z :=
  do CSetStrict;;
  do CSetPrint;;
  skel ← bpf_open;
  match skel with
  | None => eprintf (B "failed to open skeleton" ++ [10]) [];; mret 1
  | Some skel =>
      do (CSetTarget (ob_self skel) target_pid);;
      err ← bpf_load skel;
      if negb (err =? 0) then
        eprintf (B "failed to load BPF object: %d" ++ [10]) [AInt 0 err];;
        cleanup 0 skel err
      else
        attach_and_trace fuel arg is_pid target_pid skel
  end.

(** The branch for a process name. *)
Definition wait_for_name (fuel : nat) (arg : bytes) : M Z :=
  printf (B "waiting for process name '%s' ..." ++ [10]) [AStr arg];;
  target_pid ← wait_loop fuel arg 0;
  e ← exiting;
  if (e : bool) || (target_pid <=? 0) then
    eprintf (B "interrupted before process '%s' started" ++ [10]) [AStr arg];;
    mret 1
  else
    printf (B "found process '%s' with pid=%d" ++ [10]) [AStr arg; AInt 0 target_pid];;
    trace fuel arg false target_pid.

Definition main (fuel : nat) (argv : list bytes) : M Z :=
  if negb (length argv =? 2)%nat then
    argv0 ← ub (argv !! 0%nat);
    eprintf (B "Usage: %s <pid|process_name>" ++ [10]) [AStr argv0];;
    mret 1
  else
    arg ← ub (argv !! 1%nat);
    do (CSignal SIGINT);;
    do (CSignal SIGTERM);;
    match parse_pid arg with
    | Some target_pid => trace fuel arg true target_pid
    | None => wait_for_name fuel arg
    end.
End Main.

(** ** Properties *)

(** A record as the kernel half writes it ([records_wellformed]); the return
    value excluded is not a system-call result. *)
Definition good_record (data : bytes) : Prop :=
  length data = 384%nat /\ wf_event (decode_event data) /\ ev_ret (decode_event data) <> LONG_MIN.

Lemma silent_quiet st st' new :
  hs_log st' = hs_log st ++ new -> Forall (fun e => is_quiet (ev_call e)) new -> silent st st'.
Proof.
  intros Hl Hf. exists new. split; [done|]. apply silent_new. eapply Forall_impl; [done|].
  intros [c r]. simpl. by destruct c.
Qed.


Section Loops.
Context `{Env, !EnvLaws, !RecordLaws good_record} (tot : bool).
Context (junk : nat -> bytes) (junk_length : forall n, length (junk n) = n).
Context (strerror : Z -> bytes) (inet_ntop : Z -> bytes -> option bytes).
Hypothesis strerror_text : forall err, nonul (strerror err).
Hypothesis strerror_fits : forall err, Z.of_nat (length (strerror err)) + 20 <= INT_MAX.
Hypothesis ntop_text4 : forall a s,
  inet_ntop AF_INET a = Some s -> nonul s /\ (length s < INET_ADDRSTRLEN)%nat.
Hypothesis ntop_text6 : forall a s,
  inet_ntop AF_INET6 a = Some s -> nonul s /\ (length s < INET6_ADDRSTRLEN)%nat.

Local Notation trace_prints := (prints good_record (handle_event junk strerror inet_ntop)).

Lemma handle_good data :
  good_record data -> is_Some (handle_event junk strerror inet_ntop data).
Proof using All.
  intros (Hl & Hwf & Hret). destruct (handle_event_text junk junk_length strerror inet_ntop
    strerror_text ntop_text4 ntop_text6 strerror_fits data Hl Hwf Hret) as (line & Hh & _).
  by exists line.
Qed.

(** A scan of /proc in [h] found process [v] under the name. *)
Definition found_in (h : list event) (name : bytes) (v : Z) : Prop :=
  exists ps entries, Event CProc ps ∈ h /\ ps_dir ps = Some entries /\
    first_match ps name entries (Some v).

Lemma wait_loop_spec fuel u name st :
  nonul name -> uses u st -> in_time tot fuel st ->
  wp tot (wait_loop junk fuel name 0) (fun v st' =>
    uses u st' /\ silent st st' /\ (v = 0 \/ found_in (hs_log st') name v)) st.
Proof using All.
  intros Hn. revert st. induction fuel as [|fuel IH]; intros st Hu Ht.
  { by apply in_time_zero in Ht. }
  cbn [wait_loop]. apply wp_bind, wp_exiting. intros st1 Hlog1.
  set (b := signalled (hs_log st) || _).
  assert (uses u st1) as Hu1 by (unfold uses; rewrite Hlog1; by eapply usage_snoc).
  assert (silent st st1) as Hsil1 by (eexists; split; [exact Hlog1|done]).
  destruct b eqn:Hb; unfold b in Hb; [apply wp_ret; split_and!; [done..|by left]|].
  assert (signalled (hs_log st) = false) as Hsig by (by apply orb_false_iff in Hb as [? _]).
  wp_call ps st2 Hs2. pose proof (sp_log _ _ _ _ Hs2) as Hlog2.
  assert (silent st st2) as Hsil2 by (eapply silent_trans; [done|by eapply silent_step]).
  eapply uses_step in Hs2; [|done|done].
  destruct (find_pid_spec ps (junk 64) name (junk 256) (junk 512)) as (r & Hr & Hm);
    [apply junk_length..|done|].
  apply wp_bind. eapply wp_ub; [exact Hr|]. destruct r as [v|].
  - destruct (ps_dir ps) as [entries|] eqn:Hd; [|done]. apply wp_ret.
    split_and!; [done..|right].
    exists ps, entries. split_and!; [rewrite Hlog2; set_solver|done..].
  - wp_call x st3 Hs3. pose proof (sp_log _ _ _ _ Hs3) as Hlog3.
    assert (silent st st3) as Hsil3 by (eapply silent_trans; [done|by eapply silent_step]).
    eapply uses_step in Hs3; [|done|done].
    assert (length (hs_log st) < length (hs_log st3))%nat as Hl3
      by (rewrite Hlog3, Hlog2, Hlog1, !length_app; simpl; lia).
    eapply wp_mono; [apply IH; [done|eapply (in_time_step _ _ st st3); [done..|by apply silent_prefix|done]]|]. cbv beta.
    intros v st4 (? & ? & ?). split_and!; [done|by eapply silent_trans|done].
Qed.

Lemma cleanup_spec o s u rb err st :
  uses u st ->
  (rb = 0 /\ owned o s (u_live u) \/
   rb <> 0 /\ exists L, owned o s L /\ (rb ∉ L) /\ u_live u = {[rb]} ∪ L) ->
  wp tot (cleanup rb o err) (fun r st' => r = (if err =? 0 then 0 else 1) /\
    silent st st' /\ uses (Usage ∅ (u_target u) Closed) st') st.
Proof using All.
  intros Hu Hrb. unfold cleanup. wp_call x st1 Hs1. apply wp_bind.
  pose proof (silent_step _ _ _ _ Hs1 I) as Hsil.
  assert (exists live, uses (Usage live (u_target u) (u_stage u)) st1 /\ owned o s live)
    as (live & Hu1 & Ho).
  { destruct Hrb as [[-> Ho]|(Hne & L & Ho & Hf & Hl)].
    - exists (u_live u). split; [|done]. eapply uses_step; [done..|]. by destruct u.
    - exists L. split; [|done]. eapply uses_step; [done..|]. cbn [use].
      rewrite release_live; [|done|rewrite Hl; set_solver]. by rewrite Hl, union_remove. }
  eapply wp_mono; [apply (wp_only is_quiet); [apply destroy_quiet|by eapply destroy_owned]|].
  intros [] st2 [Hu2 (new & Hlog & Hf)]. apply wp_ret.
  split_and!; [done| |done]. eapply silent_trans; [done|]. by eapply silent_quiet.
Qed.

(** The end of a run: nothing is left allocated, the filter was [target] if
    it was set at all, each record was printed after the banner, and the exit
    status tells whether the last poll returned 0. *)
Definition finished (target status : Z) (banner : bytes) (st st' : hstate) : Prop :=
  exists t new text, uses (Usage ∅ t Closed) st' /\ (t = 0 \/ t = target) /\
    hs_log st' = hs_log st ++ new /\
    (stdout_of new = text \/ stdout_of new = banner ++ text) /\ trace_prints (delivered new) text /\
    (status = 0 \/ status = 1) /\
    match last (fst <$> polls new) with
    | Some r => status = (if r =? 0 then 0 else 1)
    | None => True
    end.

Lemma finished_early target status banner st st' t :
  uses (Usage ∅ t Closed) st' -> t = 0 \/ t = target -> silent st st' ->
  status = 0 \/ status = 1 -> finished target status banner st st'.
Proof using Type.
  intros Hu Ht (new & Hl & Ho & Hp) Hs. exists t, new, []. unfold delivered. rewrite Hp.
  split_and!; [done|done|done|by left| |done|done]. by exists [].
Qed.

Definition start_line (is_pid : bool) (arg : bytes) (target : Z) : option bytes :=
  if is_pid then format (B "libbpfstrace started, tracing pid=%d" ++ [10]) [AInt 0 target]
  else format (B "libbpfstrace started, tracing process '%s' pid=%d" ++ [10]) [AStr arg; AInt 0 target].

Lemma tracing_spec fuel arg is_pid target rb o s u L st :
  uses u st -> owned o s L -> rb <> 0 -> (rb ∉ L) -> u_live u = {[rb]} ∪ L ->
  u_stage u = Attached -> u_target u = target -> is_sint 32 target -> nonul arg ->
  in_time tot fuel st ->
  wp tot (tracing junk strerror inet_ntop fuel arg is_pid target rb o 0) (fun status st' =>
    exists banner, start_line is_pid arg target = Some banner /\
      finished target status banner st st') st.
Proof using All.
  intros Hu Ho Hrb Hf Hl Hstg Htgt Ht Harg Htime. unfold tracing.
  assert (exists banner, start_line is_pid arg target = Some banner) as [banner Hb].
  { unfold start_line. destruct is_pid; apply format_fits; fits_tac. }
  apply wp_bind. eapply (wp_mono _ _ (fun _ st1 => stepped st (COut banner) tt st1)).
  { unfold start_line in Hb. destruct is_pid; by eapply wp_printf. }
  intros [] st1 Hs1. pose proof (sp_log _ _ _ _ Hs1) as Hlog1.
  eapply uses_step in Hs1; [|done|done].
  apply wp_bind. eapply wp_mono; [apply (poll_loop_spec good_record tot _ _ _ handle_good fuel u);
    [done|rewrite Hl; set_solver|done|]|].
  { eapply in_time_mono; [done|]. rewrite Hlog1. by apply prefix_app_r. }
  cbv beta. intros err st2 (Hu2 & new & Hlog2 & Hres & Hpr & _).
  eapply wp_mono; [eapply cleanup_spec; [done|by right; eauto 10]|]. cbv beta.
  intros status st3 (-> & (tail & Hlog3 & Hto & Htp) & Hu3). exists banner. split; [done|].
  exists target, ([Event (COut banner) tt] ++ new ++ tail), (stdout_of new).
  set (ev := Event (COut banner) tt).
  assert (delivered tail = []) as Hdt by (unfold delivered; by rewrite Htp).
  assert (stdout_of ([ev] ++ new ++ tail) = banner ++ stdout_of new) as ->.
  { rewrite !stdout_app, Hto, app_nil_r. change (stdout_of [ev]) with (banner ++ []).
    by rewrite app_nil_r. }
  assert (polls ([ev] ++ new ++ tail) = polls new) as ->
    by (rewrite !polls_app, Htp, app_nil_r; done).
  assert (delivered ([ev] ++ new ++ tail) = delivered new) as ->
    by (rewrite !delivered_app, Hdt, app_nil_r; done).
  rewrite Htgt in Hu3. split_and!; [done|by right| |by right|done|by case_match; auto|].
  { by rewrite Hlog3, Hlog2, Hlog1, <- !app_assoc. }
  destruct Hres as [[-> ->]|(rs0 & r & -> & -> & _)]; [done|]. by rewrite last_snoc.
Qed.

Lemma start_line_some is_pid arg target :
  is_sint 32 target -> exists banner, start_line is_pid arg target = Some banner.
Proof using Type. intros. unfold start_line. destruct is_pid; apply format_fits; fits_tac. Qed.

(** A failure before the ring buffer exists. *)
Lemma fail_spec target is_pid arg o s u err st st0 :
  uses u st -> owned o s (u_live u) -> u_target u = target -> is_sint 32 target -> silent st0 st ->
  wp tot (cleanup 0 o err) (fun status st' =>
    exists banner, start_line is_pid arg target = Some banner /\
      finished target status banner st0 st') st.
Proof using All.
  intros Hu Ho Ht Hi Hsil. destruct (start_line_some is_pid arg target Hi) as [banner Hb].
  eapply wp_mono; [by eapply cleanup_spec; [|left]|]. cbv beta.
  intros status st' (-> & Hs & Hu'). exists banner. split; [done|].
  eapply finished_early; [done|by right| |by case_match; auto]. by eapply silent_trans.
Qed.

Lemma finished_silent target status banner st st1 st' :
  silent st st1 -> finished target status banner st1 st' -> finished target status banner st st'.
Proof using Type.
  intros (n & Hl & Ho & Hp) (t & new & text & Hu & Ht & Hl' & Hout & Hpr & Hs & Hlast).
  exists t, (n ++ new), text. rewrite stdout_app, delivered_app, polls_app, Ho, Hp.
  unfold delivered at 1. rewrite Hp. split_and!; try done. by rewrite Hl', Hl, <- app_assoc.
Qed.

Lemma attach_spec fuel arg is_pid target o s u st0 st :
  uses u st -> owned o s (u_live u) -> u_stage u = Loaded -> u_target u = target ->
  is_sint 32 target -> nonul arg -> in_time tot fuel st0 -> silent st0 st ->
  wp tot (attach_and_trace junk strerror inet_ntop fuel arg is_pid target o) (fun status st' =>
    exists banner, start_line is_pid arg target = Some banner /\
      finished target status banner st0 st') st.
Proof using All.
  intros Hu Ho Hstg Ht Hti Harg Htime Hsil. unfold attach_and_trace, bpf_attach.
  pose proof (owned_self _ _ _ Ho) as [Ho1 Ho2].
  apply wp_bind, wp_bind. eapply wp_ub; [apply Ho|]. wp_call err st1 Hs1.
  assert (silent st0 st1) as Hsil1 by (eapply silent_trans; [done|by eapply silent_step]).
  pose proof (sp_reply _ _ _ _ Hs1) as Herr.
  pose proof (env_int (hs_log st) (CAttachSkeleton s)) as Hint. rewrite <- Herr in Hint.
  eapply uses_step in Hs1; [|done|cbn [use]; rewrite need_true by done; done].
  unfold on_success, to_stage in Hs1. simpl in Hs1, Hint.
  destruct (Z.eqb_spec err 0) as [->|Hne]; cbn [negb].
  2: { rewrite decide_False in Hs1 by done. wp_print st2 Hs2.
       assert (silent st0 st2) as Hsil2 by (eapply silent_trans; [done|by eapply silent_step]).
       eapply uses_step in Hs2; [|done|done]. by eapply fail_spec. }
  rewrite decide_True in Hs1 by done. wp_call r st2 Hs2.
  pose proof (env_error (hs_log st1) CRingNew) as He. rewrite <- (sp_reply _ _ _ _ Hs2) in He.
  destruct r as [rb errno]. simpl in He.
  assert (silent st0 st2) as Hsil2 by (eapply silent_trans; [done|by eapply silent_step]).
  destruct (Z.eqb_spec rb 0) as [->|Hrb].
  - eapply uses_step in Hs2; [|done|cbn [use]; by rewrite need_true by (simpl; auto)].
    apply wp_bind. unfold put_errno, wp at 1. set (st3 := HState _ _ _).
    assert (silent st0 st3) as Hsil3 by exact Hsil2.
    wp_print st4 Hs4.
    assert (silent st0 st4) as Hsil4 by (eapply silent_trans; [done|by eapply silent_step]).
    eapply uses_step in Hs4; [|exact Hs2|done]. apply wp_bind, wp_neg; [done|]. by eapply fail_spec.
  - destruct (uses_acquire _ _ _ _ _ Attached Hs1 Hs2 Hrb) as [Hf Hu2].
    { cbn [use]. by rewrite need_true by (simpl; auto). }
    eapply wp_mono; [eapply (tracing_spec fuel arg is_pid target rb o s _ (u_live u)); try done|].
    { eapply in_time_mono; [done|]. by apply silent_prefix. }
    cbv beta. intros status st3 (banner & Hb & Hfin). exists banner. split; [done|].
    by eapply finished_silent.
Qed.

Lemma trace_spec fuel arg is_pid target st :
  uses unused st -> 0 < target <= INT_MAX -> nonul arg -> in_time tot fuel st ->
  wp tot (trace junk strerror inet_ntop fuel arg is_pid target) (fun status st' =>
    exists banner, start_line is_pid arg target = Some banner /\
      finished target status banner st st') st.
Proof using All.
  intros Hu Ht Harg Htime.
  assert (is_sint 32 target) as Hti by (unfold is_sint, INT_MAX in *; lia).
  unfold trace. wp_call x1 st1 Hs1. wp_call x2 st2 Hs2. apply wp_bind.
  assert (silent st st2) as Hsil2.
  { eapply silent_trans; [by eapply silent_step|by eapply silent_step]. }
  eapply uses_step in Hs1; [|done|done]. eapply uses_step in Hs2; [|done|done].
  eapply wp_mono; [apply (wp_only is_quiet); [apply open_quiet|by apply open_spec]|].
  intros [o|] st3 [Hopen (n3 & Hl3 & Hq3)].
  all: assert (silent st st3) as Hsil3 by (eapply silent_trans; [done|by eapply silent_quiet]).
  2: { wp_print st4 Hs4. apply wp_ret. destruct (start_line_some is_pid arg target Hti) as [banner Hb].
       exists banner. split; [done|]. eapply finished_early; [by eapply uses_step| |..]; [by left| |by right].
       eapply silent_trans; [done|by eapply silent_step]. }
  destruct Hopen as (s & u & Ho & Hstg & Hz & Hu3). pose proof (owned_self _ _ _ Ho) as [Ho1 Ho2].
  wp_call x4 st4 Hs4. assert (silent st st4) as Hsil4
    by (eapply silent_trans; [done|by eapply silent_step]).
  eapply uses_step in Hs4; [|done|cbn [use]; rewrite need_true by done; done].
  unfold bpf_load. apply wp_bind, wp_bind. eapply wp_ub; [apply Ho|]. wp_call err st5 Hs5.
  assert (silent st st5) as Hsil5 by (eapply silent_trans; [done|by eapply silent_step]).
  pose proof (sp_reply _ _ _ _ Hs5) as Herr5.
  pose proof (env_int (hs_log st4) (CLoadSkeleton s)) as Hint5. rewrite <- Herr5 in Hint5.
  eapply uses_step in Hs5; [|done|cbn [use]; rewrite need_true by (split; [done|simpl; lia]); done].
  unfold on_success, to_stage in Hs5. simpl in Hs5, Hint5.
  destruct (Z.eqb_spec err 0) as [->|Hne]; cbn [negb].
  2: { rewrite decide_False in Hs5 by done. wp_print st6 Hs6.
       assert (silent st st6) as Hsil6 by (eapply silent_trans; [done|by eapply silent_step]).
       eapply uses_step in Hs6; [|done|done]. by eapply fail_spec. }
  by eapply attach_spec.
Qed.
End Loops.
