(* ===== verification/StraceRun.v ===== *)
(** * Runs of the libbpfstrace command

    What a whole run of [main] does in every environment: it ends after a
    signal, follows the rules of the libraries, gives everything back, traces
    the process it was asked for, prints every record and reports its exit
    status. *)

From stdpp Require Import base list gmap strings.
From Stdlib Require Import ZArith Lia.
From S2P Require Import Prelude CLib Printf Uapi StraceTypes StraceFmt StraceFmtProps StraceProc.
From S2P Require Import Host PollLoop StraceSkel StraceMain.

Local Open Scope string_scope.
Local Open Scope list_scope.
Local Open Scope Z_scope.

(** The process asked for: the parsed id, or one found under the name. *)
Definition chosen (h : list event) (arg : bytes) (v : Z) : Prop :=
  parse_pid arg = Some v \/ parse_pid arg = None /\ found_in h arg v.

Lemma found_in_app h1 h2 name v : found_in h1 name v -> found_in (h1 ++ h2) name v.
Proof. intros (ps & es & Hin & Hd & Hm). exists ps, es. split_and!; [|done..].
  apply elem_of_app. by left.
Qed.

Lemma found_in_range h name v : found_in h name v -> 0 < v <= INT_MAX.
Proof. intros (ps & es & _ & _ & Hm). by eapply first_match_range. Qed.

Lemma chosen_range h arg v : chosen h arg v -> 0 < v <= INT_MAX.
Proof. intros [Hp|[_ Hf]]; [by eapply strtol_pid_range|by eapply found_in_range]. Qed.

(** The lines printed before the first record. *)
Definition preamble (arg : bytes) (t : Z) (pre : bytes) : Prop :=
  pre = [] \/
  match parse_pid arg with
  | Some _ => start_line true arg t = Some pre
  | None => exists w, format (B "waiting for process name '%s' ..." ++ [10]) [AStr arg] = Some w /\
      (pre = w \/
       exists f, format (B "found process '%s' with pid=%d" ++ [10]) [AStr arg; AInt 0 t] = Some f /\
         (pre = w ++ f \/
          exists b, start_line false arg t = Some b /\ pre = w ++ f ++ b))
  end.

Section Run.
Context `{Env, !EnvLaws, !RecordLaws good_record}.
Context (junk : nat -> bytes) (junk_length : forall n, length (junk n) = n).
Context (strerror : Z -> bytes) (inet_ntop : Z -> bytes -> option bytes).
Hypothesis strerror_text : forall err, nonul (strerror err).
Hypothesis strerror_fits : forall err, Z.of_nat (length (strerror err)) + 20 <= INT_MAX.
Hypothesis ntop_text4 : forall a s,
  inet_ntop AF_INET a = Some s -> nonul s /\ (length s < INET_ADDRSTRLEN)%nat.
Hypothesis ntop_text6 : forall a s,
  inet_ntop AF_INET6 a = Some s -> nonul s /\ (length s < INET6_ADDRSTRLEN)%nat.

(** What holds when [main] returns. *)
Record run_ok (argv : list bytes) (status : Z) (h : list event) : Prop := {
  ro_usage : exists t, usage_of h = Some (Usage ∅ t Closed) /\
    (t <> 0 -> exists arg, argv !! 1%nat = Some arg /\ length argv = 2%nat /\ chosen h arg t);
  ro_status : status = 0 \/ status = 1;
  ro_last : match last (fst <$> polls h) with
            | Some r => status = (if r =? 0 then 0 else 1)
            | None => True
            end;
  ro_out : exists pre text t, stdout_of h = pre ++ text /\
    prints good_record (handle_event junk strerror inet_ntop) (delivered h) text /\
    (forall arg, argv !! 1%nat = Some arg -> preamble arg t pre);
}.

(** A run that ends before any record. *)
Lemma run_early argv status st pre t :
  uses unused st -> polls (hs_log st) = [] -> stdout_of (hs_log st) = pre ->
  (forall arg, argv !! 1%nat = Some arg -> preamble arg t pre) ->
  status = 0 \/ status = 1 -> run_ok argv status (hs_log st).
Proof using Type.
  intros Hu Hp Ho Hpre Hs. split; [by exists 0|done|by rewrite Hp|].
  exists pre, [], t. rewrite Ho, app_nil_r. split_and!; [done| |done].
  unfold delivered. rewrite Hp. by exists [].
Qed.

(** A run whose last part is [finished]. *)
Lemma run_finished a0 arg is_pid target status banner pre st st' :
  uses unused st -> polls (hs_log st) = [] -> stdout_of (hs_log st) = pre ->
  chosen (hs_log st) arg target ->
  preamble arg target pre -> preamble arg target (pre ++ banner) ->
  start_line is_pid arg target = Some banner ->
  finished junk strerror inet_ntop target status banner st st' -> run_ok [a0; arg] status (hs_log st').
Proof using Type.
  intros Hu Hp Hpre Hch Hp1 Hp2 Hb (t & new & text & Hu' & Ht & Hl & Hout & Hpr & Hs & Hlast).
  split; [| done | |].
  - exists t. split; [done|]. intros Hn. exists arg. split_and!; [done..|].
    destruct Ht as [?| ->]; [done|]. rewrite Hl. destruct Hch as [|[? ?]]; [by left|right].
    split; [done|]. by apply found_in_app.
  - rewrite Hl, polls_app, Hp. done.
  - rewrite Hl, stdout_app, delivered_app, Hpre. unfold delivered at 1. rewrite Hp. cbn [fmap list_fmap].
    destruct Hout as [Hout|Hout]; rewrite Hout.
    + exists pre, text, target. split_and!; [done..|]. by intros ? [= <-].
    + exists (pre ++ banner), text, target. rewrite <- app_assoc. split_and!; [done..|].
      by intros ? [= <-].
Qed.

Lemma main_pid_spec tot fuel a0 arg target st :
  parse_pid arg = Some target -> nonul arg -> uses unused st ->
  polls (hs_log st) = [] -> stdout_of (hs_log st) = [] -> in_time tot fuel st ->
  wp tot (trace junk strerror inet_ntop fuel arg true target)
    (fun status st' => run_ok [a0; arg] status (hs_log st')) st.
Proof using All.
  intros Hp Harg Hu Hpo Ho Ht. pose proof (strtol_pid_range _ _ Hp) as Hr.
  eapply wp_mono; [apply (trace_spec tot junk junk_length strerror inet_ntop); done|].
  cbv beta. intros status st' (banner & Hb & Hf).
  eapply run_finished; [done..|by left|by left| |done|done].
  right. by rewrite Hp.
Qed.

Lemma main_name_spec tot fuel a0 arg st :
  parse_pid arg = None -> nonul arg -> uses unused st ->
  polls (hs_log st) = [] -> stdout_of (hs_log st) = [] -> in_time tot fuel st ->
  wp tot (wait_for_name junk strerror inet_ntop fuel arg)
    (fun status st' => run_ok [a0; arg] status (hs_log st')) st.
Proof using All.
  intros Hp Harg Hu Hpo Ho Ht. unfold wait_for_name.
  wp_print st1 Hs1. destruct (print_view _ _ _ _ Hs1) as [Ho1 Hp1]. rewrite Ho in Ho1.
  pose proof (sp_log _ _ _ _ Hs1) as Hl1. eapply uses_step in Hs1; [|done|done].
  assert (in_time tot fuel st1) as Ht1
    by (eapply in_time_mono; [done|rewrite Hl1; by apply prefix_app_r]).
  apply wp_bind. eapply wp_mono;
    [by apply (wait_loop_spec tot junk junk_length strerror inet_ntop)|]. cbv beta.
  intros v st2 (Hu2 & Hsil2 & Hv).
  apply wp_bind, wp_exiting. intros st3 Hl3.
  set (b := signalled (hs_log st2) || _).
  pose proof (silent_trans _ _ _ Hsil2 (silent_exiting _ _ _ Hl3)) as Hsil3.
  assert (uses unused st3) as Hu3 by (unfold uses; rewrite Hl3; by eapply usage_snoc).
  destruct (silent_view _ _ Hsil3) as [Ho3 Hp3]. rewrite Ho1 in Ho3. rewrite Hp1, Hpo in Hp3.
  destruct (b || (v <=? 0)) eqn:Hb.
  - wp_print st4 Hs4. apply wp_ret. destruct (silent_view _ _ (silent_step _ _ _ _ Hs4 I)) as [Ho4 Hp4].
    eapply (run_early _ _ _ _ 0); [by eapply uses_step|by rewrite Hp4|by rewrite Ho4| |by right].
    intros ? [= <-]. right. rewrite Hp. eauto.
  - assert (found_in (hs_log st3) arg v) as Hf3.
    { rewrite Hl3. apply found_in_app. destruct Hv as [->|?]; [by rewrite orb_true_r in Hb|done]. }
    pose proof (found_in_range _ _ _ Hf3) as Hr.
    assert (is_sint 32 v) by (unfold is_sint, INT_MAX in *; lia).
    wp_print st4 Hs4. destruct (print_view _ _ _ _ Hs4) as [Ho4 Hp4]. rewrite Ho3 in Ho4.
    pose proof (sp_log _ _ _ _ Hs4) as Hl4. eapply uses_step in Hs4; [|done|done].
    eapply wp_mono; [apply (trace_spec tot junk junk_length strerror inet_ntop); try done|].
    { eapply in_time_mono; [exact Ht1|]. rewrite Hl4. apply prefix_app_r. by apply silent_prefix. }
    cbv beta. intros status st' (banner & Hban & Hf).
    eapply run_finished; [done|by rewrite Hp4|exact Ho4| | | |done|done].
    + right. split; [done|]. rewrite Hl4. by apply found_in_app.
    + right. rewrite Hp. simpl. eauto 10.
    + right. rewrite Hp. simpl. rewrite <- app_assoc. eauto 12.
Qed.

Lemma main_spec tot fuel argv :
  argv <> [] -> Forall nonul argv -> signal_by tot fuel ->
  wp tot (main junk strerror inet_ntop fuel argv)
    (fun status st' => run_ok argv status (hs_log st')) hs_init.
Proof using All.
  intros Hne Hargv Ht. unfold main. destruct (Nat.eqb_spec (length argv) 2) as [H2|H2]; cbn [negb].
  - destruct argv as [|a0 [|arg [|]]]; try done.
    apply wp_bind. eapply wp_ub; [done|]. wp_call x1 st1 Hs1. wp_call x2 st2 Hs2.
    pose proof (silent_trans _ _ _ (silent_step _ _ _ _ Hs1 I) (silent_step _ _ _ _ Hs2 I)) as Hsil.
    assert (in_time tot fuel st2) as Ht2.
    { apply in_time_start; [done|]. by rewrite (sp_log _ _ _ _ Hs2), (sp_log _ _ _ _ Hs1). }
    eapply uses_step in Hs1; [|done|done]. eapply uses_step in Hs2; [|done|done].
    destruct (silent_view _ _ Hsil) as [Ho Hp].
    change (stdout_of (hs_log st2) = []) in Ho. change (polls (hs_log st2) = []) in Hp.
    assert (nonul arg) as Harg by (by inversion_clear Hargv as [|? ? ? Hr]; inversion_clear Hr).
    destruct (parse_pid arg) as [target|] eqn:Hpid; [by apply main_pid_spec|by apply main_name_spec].
  - destruct argv as [|a0 argv]; [done|]. apply wp_bind. eapply wp_ub; [done|].
    wp_print st1 Hs1. apply wp_ret. destruct (silent_view _ _ (silent_step _ _ _ _ Hs1 I)) as [Ho Hp].
    eapply uses_step in Hs1; [|by instantiate (1 := unused)|done].
    eapply (run_early _ _ _ [] 0); [done|by rewrite Hp|by rewrite Ho| |by right].
    intros. by left.
Qed.

(** C15: the command returns.  Once a signal has arrived (after at most [N]
    calls), [N + 1] iterations of the loops are enough, for any command line,
    any state of /proc, any failure of libbpf and any records as the kernel half
    writes them ([good_record]: the size of the structure, well formed, the return
    value not the smallest [long long]); the exit status is 0 or 1. *)
Theorem main_returns N fuel argv :
  argv <> [] -> Forall nonul argv ->
  (forall h, (N <= length h)%nat -> env_signal h = true) -> (N < fuel)%nat ->
  exists status st', main junk strerror inet_ntop fuel argv hs_init = Done status st' /\
    (status = 0 \/ status = 1).
Proof using All.
  intros Hne Hargv Hsig HN. assert (signal_by true fuel) as Ht by (intros _; by exists N).
  destruct (wp_done _ _ _ (main_spec true fuel argv Hne Hargv Ht)) as (status & st' & Hm & Hok).
  exists status, st'. split; [done|apply Hok].
Qed.

Lemma main_run_ok fuel argv status st' :
  argv <> [] -> Forall nonul argv ->
  main junk strerror inet_ntop fuel argv hs_init = Done status st' ->
  run_ok argv status (hs_log st').
Proof using All.
  intros Hne Hargv Hm. assert (signal_by false fuel) as Ht by done.
  exact (wp_run _ _ _ _ _ _ (main_spec false fuel argv Hne Hargv Ht) Hm).
Qed.

(** C14: every run follows the rules of the libraries from start to end (no
    call before its object is opened, loaded or attached, no polling of a
    ring buffer that is not there, nothing freed twice or used afterwards)
    and gives back everything it got, on every path. *)
Theorem main_releases_all fuel argv status st' :
  argv <> [] -> Forall nonul argv ->
  main junk strerror inet_ntop fuel argv hs_init = Done status st' ->
  exists t, usage_of (hs_log st') = Some (Usage ∅ t Closed).
Proof using All.
  intros Hne Hargv Hm. destruct (main_run_ok _ _ _ _ Hne Hargv Hm) as [(t & Hu & _) _ _ _].
  by exists t.
Qed.

(** C16: whenever the BPF object is loaded, its filter is the process asked
    for: the id on the command line, or one a scan of /proc found under the
    name.  In particular it is not 0, which would trace every process. *)
Theorem main_traces_target fuel argv status st' h1 s r h2 :
  argv <> [] -> Forall nonul argv ->
  main junk strerror inet_ntop fuel argv hs_init = Done status st' ->
  hs_log st' = h1 ++ Event (CLoadSkeleton s) r :: h2 ->
  exists u arg, usage_of h1 = Some u /\ argv !! 1%nat = Some arg /\ length argv = 2%nat /\
    0 < u_target u /\ chosen (hs_log st') arg (u_target u).
Proof using All.
  intros Hne Hargv Hm Hl. destruct (main_run_ok _ _ _ _ Hne Hargv Hm) as [(t & Hu & Ht) _ _ _].
  rewrite Hl in Hu. apply usage_app in Hu as (u1 & Hu1 & Hrest).
  assert (0 < u_target u1) as Hpos.
  { cbn [foldl] in Hrest. change (use_event (Some u1) (Event (CLoadSkeleton s) r))
      with (use (CLoadSkeleton s) r u1) in Hrest. cbn [use] in Hrest. unfold need in Hrest.
    case_decide as Hd; [apply Hd|]. by rewrite broken_stays in Hrest. }
  pose proof (usage_target_stays _ _ _ Hrest ltac:(lia)) as Heq. simpl in Heq. subst t.
  destruct (Ht ltac:(lia)) as (arg & ? & ? & ?). exists u1, arg. auto.
Qed.

(** C40: the standard output of a run is a preamble (the messages about
    waiting and starting) followed by the lines of exactly the records libbpf
    delivered, one line each, in order, when these are records as the kernel half
    writes them. *)
Theorem main_prints_records fuel a0 arg status st' :
  nonul a0 -> nonul arg ->
  main junk strerror inet_ntop fuel [a0; arg] hs_init = Done status st' ->
  exists pre lines t, stdout_of (hs_log st') = pre ++ mjoin lines /\ preamble arg t pre /\
    Forall2 (fun data l => event_line strerror inet_ntop (decode_event data) = Some l)
      (delivered (hs_log st')) lines.
Proof using All.
  intros Ha Harg Hm. assert (Forall nonul [a0; arg]) as Hargv by auto.
  destruct (main_run_ok fuel [a0; arg] _ _ ltac:(done) Hargv Hm) as [_ _ _ (pre & text & t & Ho & (lines & -> & Hf) & Hp)].
  exists pre, lines, t. split_and!; [done|by apply Hp|]. eapply Forall2_impl; [done|].
  intros data l [(Hl & Hwf & Hret) Hh]. destruct (handle_event_text junk junk_length strerror
    inet_ntop strerror_text ntop_text4 ntop_text6 strerror_fits data Hl Hwf Hret)
    as (line & Hh' & He & _). congruence.
Qed.

(** C35: the exit status tells only whether the last poll returned 0: a run
    ended by a signal during a poll exits with 1, as does one whose last poll
    delivered records, although nothing went wrong. *)
Theorem exit_status_of_last_poll fuel argv status st' r :
  argv <> [] -> Forall nonul argv ->
  main junk strerror inet_ntop fuel argv hs_init = Done status st' ->
  last (fst <$> polls (hs_log st')) = Some r -> (status = 0 <-> r = 0).
Proof using All.
  intros Hne Hargv Hm Hr. destruct (main_run_ok _ _ _ _ Hne Hargv Hm) as [_ _ Hs _].
  rewrite Hr in Hs. destruct (Z.eqb_spec r 0); naive_solver.
Qed.
End Run.
