(* ===== verification/StraceLive.v ===== *)
(** * The wait for a process name ends

    [wait_loop] scans /proc once per second.  Once a process of the name is
    there, the next scan finds it and the command stops waiting. *)

From stdpp Require Import base list gmap strings.
From Stdlib Require Import ZArith Lia.
From S2P Require Import Prelude CLib Printf Uapi StraceTypes StraceFmt StraceFmtProps StraceProc.
From S2P Require Import Host PollLoop StraceSkel StraceMain StraceRun.

Local Open Scope string_scope.
Local Open Scope list_scope.
Local Open Scope Z_scope.

(** A process of the name is in the snapshot. *)
Definition shows (ps : proc_snapshot) (name : bytes) : Prop :=
  exists entries d v, ps_dir ps = Some entries /\ d ∈ entries /\ entry_matches ps name d v.

Lemma shows_found ps name entries r :
  shows ps name -> ps_dir ps = Some entries -> first_match ps name entries r -> is_Some r.
Proof.
  intros (es & d & v & Hd & Hin & Hm) Hd' Hf. destruct r as [|]; [by eexists|].
  assert (es = entries) as -> by congruence. by destruct (Hf d v Hin).
Qed.

Section Live.
Context `{Env, !EnvLaws, !RecordLaws good_record}.
Context (junk : nat -> bytes) (junk_length : forall n, length (junk n) = n).
Context (strerror : Z -> bytes) (inet_ntop : Z -> bytes -> option bytes).
Hypothesis strerror_text : forall err, nonul (strerror err).
Hypothesis strerror_fits : forall err, Z.of_nat (length (strerror err)) + 20 <= INT_MAX.
Hypothesis ntop_text4 : forall a s,
  inet_ntop AF_INET a = Some s -> nonul s /\ (length s < INET_ADDRSTRLEN)%nat.
Hypothesis ntop_text6 : forall a s,
  inet_ntop AF_INET6 a = Some s -> nonul s /\ (length s < INET6_ADDRSTRLEN)%nat.

(** Without a signal the flag stays clear. *)
Lemma wp_running tot Q st :
  env_signal (hs_log st) = false -> hs_exiting st = 0 ->
  (forall st', stepped st CExiting (env_reply (hs_log st) CExiting) st' -> Q false st') ->
  wp tot exiting Q st.
Proof using Type.
  intros Hs He HQ. unfold wp, exiting, signalled. rewrite Hs, andb_false_r, He. by apply HQ.
Qed.

(** From call [n] on the process is there; no signal up to [n + 5] calls. *)
Context (name : bytes) (name_text : nonul name) (n : nat).
Hypothesis appears : forall h, (n <= length h)%nat -> shows (env_reply h CProc) name.
Hypothesis undisturbed : forall h, (length h <= n + 5)%nat -> env_signal h = false.

Lemma wait_loop_finds fuel u st :
  uses u st -> hs_exiting st = 0 -> (length (hs_log st) <= n + 3)%nat ->
  (n < fuel + length (hs_log st))%nat -> (0 < fuel)%nat ->
  wp true (wait_loop junk fuel name 0) (fun v st' =>
    uses u st' /\ silent st st' /\ hs_exiting st' = 0 /\
    (length (hs_log st') <= n + 5)%nat /\ found_in (hs_log st') name v) st.
Proof using All.
  revert st. induction fuel as [|fuel IH]; intros st Hu He Hl Hn Hf; [lia|].
  cbn [wait_loop]. apply wp_bind, wp_running; [apply undisturbed; lia|done|].
  intros st1 Hs1. pose proof (sp_log _ _ _ _ Hs1) as Hlog1. pose proof (sp_exiting _ _ _ _ Hs1) as He1.
  pose proof (silent_step _ _ _ _ Hs1 I) as Hsil1. eapply uses_step in Hs1; [|done|done].
  wp_call ps st2 Hs2. pose proof (sp_log _ _ _ _ Hs2) as Hlog2. pose proof (sp_exiting _ _ _ _ Hs2) as He2.
  pose proof (sp_reply _ _ _ _ Hs2) as Hps.
  pose proof (silent_trans _ _ _ Hsil1 (silent_step _ _ _ _ Hs2 I)) as Hsil2.
  eapply uses_step in Hs2; [|done|done].
  assert (length (hs_log st1) = S (length (hs_log st))) as Hl1 by (rewrite Hlog1, length_app; simpl; lia).
  assert (length (hs_log st2) = S (S (length (hs_log st)))) as Hl2
    by (rewrite Hlog2, length_app, Hl1; simpl; lia).
  destruct (find_pid_spec ps (junk 64) name (junk 256) (junk 512)) as (r & Hr & Hm);
    [apply junk_length..|done|].
  apply wp_bind. eapply wp_ub; [exact Hr|]. destruct r as [v|].
  - destruct (ps_dir ps) as [entries|] eqn:Hd; [|done]. apply wp_ret.
    split_and!; [done..|congruence|lia|]. exists ps, entries.
    split_and!; [rewrite Hlog2; set_solver|done..].
  - destruct (decide (n <= length (hs_log st1))%nat) as [Hge|Hlt].
    { pose proof (appears _ Hge) as Hsh. rewrite <- Hps in Hsh.
      destruct (ps_dir ps) as [entries|] eqn:Hd; [|by destruct Hsh as (? & ? & ? & ? & _); congruence].
      by destruct (shows_found _ _ _ _ Hsh Hd Hm). }
    wp_call x st3 Hs3. pose proof (sp_log _ _ _ _ Hs3) as Hlog3.
    pose proof (sp_exiting _ _ _ _ Hs3) as He3.
    pose proof (silent_trans _ _ _ Hsil2 (silent_step _ _ _ _ Hs3 I)) as Hsil3.
    eapply uses_step in Hs3; [|done|done].
    assert (length (hs_log st3) = S (length (hs_log st2))) as Hl3 by (rewrite Hlog3, length_app; simpl; lia).
    eapply wp_mono; [apply IH; [done|congruence|lia|lia|lia]|]. cbv beta.
    intros v st4 (? & ? & ? & ? & ?). split_and!; [done|by eapply silent_trans|done..].
Qed.

(** The lines printed when the wait is over. *)
Definition announced (v : Z) (out : bytes) : Prop :=
  exists w f rest, format (B "waiting for process name '%s' ..." ++ [10]) [AStr name] = Some w /\
    format (B "found process '%s' with pid=%d" ++ [10]) [AStr name; AInt 0 v] = Some f /\
    out = w ++ f ++ rest.

Lemma finished_output target status banner st st' :
  finished junk strerror inet_ntop target status banner st st' ->
  exists new, hs_log st' = hs_log st ++ new.
Proof using Type. intros (t & new & text & _ & _ & Hl & _). by exists new. Qed.

Lemma wait_for_name_finds fuel st :
  uses unused st -> hs_exiting st = 0 -> (length (hs_log st) <= 2)%nat -> stdout_of (hs_log st) = [] ->
  (n < fuel)%nat -> in_time true fuel st ->
  wp true (wait_for_name junk strerror inet_ntop fuel name) (fun _ st' =>
    exists v, found_in (hs_log st') name v /\ announced v (stdout_of (hs_log st'))) st.
Proof using All.
  intros Hu He Hl Ho Hn Ht. unfold wait_for_name.
  wp_print st1 Hs1. destruct (print_view _ _ _ _ Hs1) as [Ho1 _]. rewrite Ho in Ho1.
  pose proof (sp_log _ _ _ _ Hs1) as Hlog1. pose proof (sp_exiting _ _ _ _ Hs1) as He1.
  assert (length (hs_log st1) = S (length (hs_log st))) as Hl1 by (rewrite Hlog1, length_app; simpl; lia).
  eapply uses_step in Hs1; [|done|done]. apply wp_bind.
  eapply wp_mono; [apply wait_loop_finds; [done|congruence|lia|lia|lia]|]. cbv beta.
  intros v st2 (Hu2 & Hsil2 & He2 & Hl2 & Hv). pose proof (found_in_range _ _ _ Hv) as Hr.
  apply wp_bind, wp_running; [by apply undisturbed|done|]. intros st3 Hs3.
  pose proof (silent_trans _ _ _ Hsil2 (silent_step _ _ _ _ Hs3 I)) as Hsil3.
  pose proof (sp_log _ _ _ _ Hs3) as Hlog3. eapply uses_step in Hs3; [|done|done].
  destruct (silent_view _ _ Hsil3) as [Ho3 _]. rewrite Ho1 in Ho3.
  replace (false || (v <=? 0)) with false by (symmetry; apply Z.leb_gt; lia).
  assert (is_sint 32 v) by (unfold is_sint, INT_MAX in *; lia).
  wp_print st4 Hs4. destruct (print_view _ _ _ _ Hs4) as [Ho4 _]. rewrite Ho3 in Ho4.
  pose proof (sp_log _ _ _ _ Hs4) as Hlog4. eapply uses_step in Hs4; [|done|done].
  eapply wp_mono; [apply (trace_spec true junk junk_length strerror inet_ntop); try done|].
  { eapply in_time_mono; [done|]. rewrite Hlog4. apply prefix_app_r.
    etrans; [|by apply silent_prefix]. rewrite Hlog1. by apply prefix_app_r. }
  cbv beta. intros status st' (banner & _ & Hf). destruct (finished_output _ _ _ _ _ Hf) as [new Hnew].
  exists v. rewrite Hnew. split.
  - rewrite Hlog4, Hlog3. by do 3 apply found_in_app.
  - exists m, m0, (stdout_of new). split_and!; [done..|]. by rewrite stdout_app, Ho4, <- app_assoc.
Qed.

(** C17: a process that starts is found.  If from some point on /proc shows a
    process of the name and no signal arrives before the scan after that point,
    the command stops waiting: it announces the process, with an id a scan found
    under the name, and returns once a signal arrives. *)
Theorem waiting_ends N fuel a0 :
  parse_pid name = None -> (forall h, (N <= length h)%nat -> env_signal h = true) -> (N < fuel)%nat ->
  exists status st' v, main junk strerror inet_ntop fuel [a0; name] hs_init = Done status st' /\
    found_in (hs_log st') name v /\ announced v (stdout_of (hs_log st')).
Proof using All.
  intros Hp Hsig HN.
  assert (n < fuel)%nat as Hn.
  { destruct (decide (n < fuel)%nat); [done|]. pose proof (Hsig (replicate N (Event CExiting tt))) as Ht.
    rewrite undisturbed in Ht; rewrite ?length_replicate in *; [by specialize (Ht ltac:(lia))|lia]. }
  assert (wp true (main junk strerror inet_ntop fuel [a0; name]) (fun _ st' =>
    exists v, found_in (hs_log st') name v /\ announced v (stdout_of (hs_log st'))) hs_init) as Hw.
  { unfold main. cbn [length Nat.eqb negb]. apply wp_bind. eapply wp_ub; [done|].
    wp_call x1 st1 Hs1. wp_call x2 st2 Hs2. rewrite Hp.
    pose proof (silent_trans _ _ _ (silent_step _ _ _ _ Hs1 I) (silent_step _ _ _ _ Hs2 I)) as Hsil.
    pose proof (sp_exiting _ _ _ _ Hs1) as E1. pose proof (sp_exiting _ _ _ _ Hs2) as E2.
    pose proof (sp_log _ _ _ _ Hs1) as L1. pose proof (sp_log _ _ _ _ Hs2) as L2.
    eapply uses_step in Hs1; [|by instantiate (1 := unused)|done]. eapply uses_step in Hs2; [|done|done].
    destruct (silent_view _ _ Hsil) as [Ho _].
    apply wait_for_name_finds; [done|by rewrite E2, E1|by rewrite L2, L1|by rewrite Ho|done|].
    apply in_time_start; [intros _; by exists N|]. by rewrite L2, L1. }
  destruct (wp_done _ _ _ Hw) as (status & st' & Hm & v & ? & ?). by exists status, st', v.
Qed.
End Live.
