(* ===== verification/SoTrace.v ===== *)
(** * libbpfso: reporting android_dlopen_ext (libbpfso.bpf.c, libbpfso.c)

    The uprobe program, which reports the library name of every call through a
    ring buffer, and the consumer that prints it. *)

From stdpp Require Import base list gmap strings.
From Stdlib Require Import ZArith Lia.
From S2P Require Import Prelude CLib Printf Layout BpfIface StraceTypes StraceBpf.

Local Open Scope string_scope.
Local Open Scope list_scope.
Local Open Scope Z_scope.

(** [struct event] of libbpfso.h. *)
Definition so_event_fields : fields :=
  [("pid", TInt 4); ("comm", char_array TASK_COMM_LEN); ("filename", char_array 256)].

Definition so_event_size : nat := struct_size so_event_fields.

Definition FILENAME_LEN : nat := 256.

Section Program.
Context {T R : Type} `{BpfTask T} `{BpfRingbuf R}.

(** Up to the [__builtin_memset] of the name. *)
Definition prepare_event (t : T) (e : bytes) : bytes :=
  let id := get_current_pid_tgid t in
  let e := put_int so_event_fields "pid" (Z.shiftr id 32) e in
  let e := set_field so_event_fields "comm" (get_current_comm t TASK_COMM_LEN).2 e in
  set_field so_event_fields "filename" (replicate FILENAME_LEN 0) e.

(** Then the read of the name; [filename] is the user address of the
    argument. *)
Definition so_fill_event (t : T) (filename : Z) (e : bytes) : bytes :=
  let e := prepare_event t e in
  let '(r, str) := probe_read_user_str t (get_field so_event_fields "filename" e) FILENAME_LEN filename in
  let e := set_field so_event_fields "filename" str e in
  if sint 32 r <? 0
  then set_field so_event_fields "filename"
         (store 0 (B "<failed>") (get_field so_event_fields "filename" e)) e
  else e.

Definition handle_andrid_dlopen_ext (t : T) (filename : Z) (events : R) : R * Z :=
  if filename =? 0 then (events, 0)
  else
    match rb_reserve events so_event_size with
    | None => (events, 0)
    | Some (e, events) => (rb_submit events (so_fill_event t filename e), 0)
    end.

(** The program at a sequence of calls: task and first argument. *)
Definition so_run (events : R) (hits : list (T * Z)) : R :=
  foldl (fun r h => (handle_andrid_dlopen_ext h.1 h.2 r).1) events hits.
End Program.

(** Whether the ring buffer has room for a record when each call comes. *)
Fixpoint so_seen {T R} `{BpfTask T} `{BpfRingbuf R} (events : R) (hits : list (T * Z)) : list (T * Z * bool) :=
  match hits with
  | [] => []
  | h :: hits =>
      (h, bool_decide (is_Some (rb_reserve events so_event_size)))
      :: so_seen (handle_andrid_dlopen_ext h.1 h.2 events).1 hits
  end.

Lemma so_seen_hits {T R} `{BpfTask T} `{BpfRingbuf R} (events : R) (hits : list (T * Z)) :
  (so_seen events hits).*1 = hits.
Proof. revert events. induction hits as [|h hits IH]; intros r; cbn; [done|]. by rewrite IH. Qed.

(** [so_handle_event]: the text printed for a record; the size is not checked. *)
Definition so_handle_event (data : bytes) : option bytes :=
  comm ← cstr (get_field so_event_fields "comm" data);
  filename ← cstr (get_field so_event_fields "filename" data);
  format (B "dlopen_ext called by pid %d (%s), filename: %s" ++ [10])
    [AInt 0 (get_sint so_event_fields "pid" data); AStr comm; AStr filename].

(** ** Properties *)

Lemma so_event_aligned : aligned so_event_fields.
Proof. apply (bool_decide_unpack _). vm_compute. done. Qed.

Lemma so_event_size_eq : so_event_size = 276%nat.
Proof. vm_compute. done. Qed.

(** The name of a call can be read, or the failed read leaves the cleared array
    clear.  The program needs this: it copies the marker without a terminator, and
    what a failed read leaves in its destination is not documented. *)
Definition name_clear {T} `{BpfTask T} (t : T) (filename : Z) : Prop :=
  let '(r, str) := probe_read_user_str t (replicate FILENAME_LEN 0) FILENAME_LEN filename in
  r < 0 -> str = replicate FILENAME_LEN 0.

(** A call as the user sees it: process, command and library name, or the
    marker of an unreadable name. *)
Record call_info := CallInfo { ci_pid : Z; ci_comm : bytes; ci_name : bytes }.

Definition info_line (c : call_info) : option bytes :=
  format (B "dlopen_ext called by pid %d (%s), filename: %s" ++ [10])
    [AInt 0 (ci_pid c); AStr (ci_comm c); AStr (ci_name c)].

Definition info_of {T} `{BpfTask T} (t : T) (filename : Z) (c : call_info) : Prop :=
  ci_pid c = tgid_of (get_current_pid_tgid t) /\
  cstr (get_current_comm t TASK_COMM_LEN).2 = Some (ci_comm c) /\
  (user_string t filename FILENAME_LEN (ci_name c) \/ ci_name c = B "<failed>").

(** The record holds the call. *)
Record holds_call (m : bytes) (c : call_info) : Prop := {
  hc_size : length m = so_event_size;
  hc_pid : get_sint so_event_fields "pid" m = ci_pid c;
  hc_comm : cstr (get_field so_event_fields "comm" m) = Some (ci_comm c);
  hc_name : cstr (get_field so_event_fields "filename" m) = Some (ci_name c);
}.

(** Replacing the name keeps the rest. *)
Lemma set_filename m c bs name :
  length m = so_event_size -> get_sint so_event_fields "pid" m = ci_pid c ->
  cstr (get_field so_event_fields "comm" m) = Some (ci_comm c) ->
  length bs = FILENAME_LEN -> cstr bs = Some name ->
  holds_call (set_field so_event_fields "filename" bs m) (CallInfo (ci_pid c) (ci_comm c) name).
Proof.
  intros Hl Hp Hc Hb Hn. pose proof so_event_aligned as Ha. split; simpl.
  - by apply length_set_field.
  - unfold get_sint, get_uint. by rewrite (get_set_field_ne _ Ha m Hl "pid" "filename").
  - by rewrite (get_set_field_ne _ Ha m Hl "comm" "filename").
  - by rewrite (get_set_field_eq _ Ha m Hl "filename").
Qed.

Lemma failed_name :
  let str := store 0 (B "<failed>") (replicate FILENAME_LEN 0) in
  length str = FILENAME_LEN /\ cstr str = Some (B "<failed>").
Proof. split; vm_compute; done. Qed.

Section Reports.
Context {T R : Type} `{BpfTaskLaws T} `{BpfRingbuf R, !BpfRingbufLaws R}.
Implicit Types (t : T) (r : R).

Lemma prepare_event_spec t e :
  length e = so_event_size ->
  exists cs, cstr (get_current_comm t TASK_COMM_LEN).2 = Some cs /\
    let m := prepare_event t e in length m = so_event_size /\
    get_sint so_event_fields "pid" m = tgid_of (get_current_pid_tgid t) /\
    cstr (get_field so_event_fields "comm" m) = Some cs /\
    get_field so_event_fields "filename" m = replicate FILENAME_LEN 0.
Proof using All.
  intros He. pose proof so_event_aligned as Ha.
  set (comm := (get_current_comm t TASK_COMM_LEN).2).
  assert (length comm = TASK_COMM_LEN) as Hcl by apply comm_length.
  assert (exists cs, cstr comm = Some cs) as [cs Hcs]
    by (apply terminated_elem, comm_terminated; unfold TASK_COMM_LEN; lia).
  exists cs. split; [done|]. unfold prepare_event. fold comm. cbv zeta.
  set (e1 := put_int so_event_fields "pid" _ e).
  assert (length e1 = so_event_size) as Hl1 by by apply length_put_int.
  assert (get_sint so_event_fields "pid" e1 = tgid_of (get_current_pid_tgid t)) as Hp1.
  { unfold get_sint, e1. rewrite (get_put_uint _ Ha e He). by apply sint_uint. }
  destruct (set_filename (set_field so_event_fields "comm" comm e1)
    (CallInfo (tgid_of (get_current_pid_tgid t)) cs []) (replicate FILENAME_LEN 0) []) as [Hl Hp Hc _].
  - by apply length_set_field.
  - rewrite <- Hp1. unfold get_sint, get_uint. by rewrite (get_set_field_ne _ Ha e1 Hl1 "pid" "comm").
  - by rewrite (get_set_field_eq _ Ha e1 Hl1 "comm").
  - done.
  - done.
  - split_and!; [done..|]. apply (get_set_field_eq _ Ha); [by apply length_set_field|done].
Qed.

Lemma so_fill_event_holds t filename e :
  length e = so_event_size -> name_clear t filename ->
  exists c, info_of t filename c /\ holds_call (so_fill_event t filename e) c.
Proof using All.
  intros He Hfail. destruct (prepare_event_spec t e He) as (cs & Hcs & Hl & Hp & Hc & Hf). unfold so_fill_event.
  set (m := prepare_event t e) in *. cbv zeta. rewrite Hf.
  set (c0 := CallInfo (tgid_of (get_current_pid_tgid t)) cs []). set (zeros := replicate FILENAME_LEN 0).
  pose proof (read_str_length t zeros FILENAME_LEN filename ltac:(done)) as Hlen.
  pose proof (read_str_errno t zeros FILENAME_LEN filename) as Herr.
  pose proof (read_str_ok t zeros FILENAME_LEN filename ltac:(vm_compute; lia)) as Hok.
  unfold name_clear in Hfail. fold zeros in Hfail.
  destruct (probe_read_user_str t zeros FILENAME_LEN filename) as [r str]. simpl fst in *. simpl snd in *.
  destruct (decide (0 <= r)) as [Hr|Hr].
  - destruct (Hok Hr) as (name & Hn & Hlt & -> & Hstr & Hi & Ht).
    assert (is_sint 32 (Z.of_nat (S (length name)))) by (unfold is_sint, FILENAME_LEN in *; lia).
    rewrite sint_id by (done || lia). destruct (Z.ltb_spec (Z.of_nat (S (length name))) 0); [lia|].
    exists (CallInfo (ci_pid c0) (ci_comm c0) name). split; [|apply set_filename; try done].
    + split_and!; [done..|left]. by repeat split.
    + rewrite Hstr. by apply cstr_app.
  - rewrite sint_id; [|lia|unfold is_sint; lia]. destruct (Z.ltb_spec r 0); [|lia].
    rewrite (Hfail ltac:(lia)). destruct failed_name as [Hfl Hfc]. fold zeros in Hfl, Hfc.
    pose proof so_event_aligned as Ha. set (m' := set_field so_event_fields "filename" zeros m).
    assert (length m' = so_event_size) as Hl' by by apply length_set_field.
    assert (get_field so_event_fields "filename" m' = zeros) as -> by by apply get_set_field_eq.
    exists (CallInfo (ci_pid c0) (ci_comm c0) (B "<failed>")). split; [by split_and!; [..|right]|].
    apply (set_filename m' c0); [done| | |done|done].
    + etransitivity; [|exact Hp]. unfold get_sint, get_uint, m'. by rewrite (get_set_field_ne _ Ha m Hl "pid" "filename").
    + etransitivity; [|exact Hc]. f_equal. by apply get_set_field_ne.
Qed.

(** Otherwise the consumer reads past the end of the record: with a full array,
    the marker of a failed read has no terminator. *)
Lemma failed_marker_unterminated t filename e (r : Z) str :
  length e = so_event_size -> r < 0 -> nonul str ->
  probe_read_user_str t (replicate FILENAME_LEN 0) FILENAME_LEN filename = (r, str) ->
  so_handle_event (so_fill_event t filename e) = None.
Proof using All.
  intros He Hr Hs E. destruct (prepare_event_spec t e He) as (cs & Hcs & Hl & Hp & Hc & Hf).
  pose proof (read_str_length t (replicate FILENAME_LEN 0) FILENAME_LEN filename ltac:(done)) as Hlen.
  pose proof (read_str_errno t (replicate FILENAME_LEN 0) FILENAME_LEN filename) as Herr. rewrite E in Hlen, Herr.
  simpl fst in Herr. simpl snd in Hlen. rewrite length_replicate in Hlen.
  unfold so_fill_event. set (m := prepare_event t e) in *. cbv zeta. rewrite Hf, E.
  rewrite sint_id; [|lia|unfold is_sint; lia]. destruct (Z.ltb_spec r 0); [|lia].
  pose proof so_event_aligned as Ha. set (m' := set_field so_event_fields "filename" str m).
  assert (length m' = so_event_size) as Hl' by by apply length_set_field.
  assert (get_field so_event_fields "filename" m' = str) as -> by by apply get_set_field_eq.
  assert (length (store 0 (B "<failed>") str) = field_size so_event_fields "filename") as Hst.
  { rewrite length_store; rewrite Hlen; [done|vm_compute; lia]. }
  unfold so_handle_event. rewrite (get_set_field_eq _ Ha m' Hl' "filename") by exact Hst.
  assert (nonul (store 0 (B "<failed>") str)) as Hn by (unfold store; simpl; repeat constructor; try done; by apply Forall_drop).
  assert (cstr (store 0 (B "<failed>") str) = None) as -> by by apply nonul_cstr. match goal with |- mbind _ ?o = _ => destruct o as [cm|] end; reflexivity.
Qed.

Lemma holds_call_line m c :
  is_sint 32 (ci_pid c) -> holds_call m c ->
  exists line, so_handle_event m = Some line /\ info_line c = Some line.
Proof using Type.
  intros Hp [_ Hpid Hcomm Hname]. unfold so_handle_event. rewrite Hcomm, Hname, Hpid.
  cbn [mbind option_bind]. fold (info_line c).
  assert (ready (B "dlopen_ext called by pid %d (%s), filename: %s" ++ [10])
    [AInt 0 (ci_pid c); AStr (ci_comm c); AStr (ci_name c)]
    (200 + length (ci_comm c) + length (ci_name c))) as Hr.
  { ready_tac; by eapply cstr_nonul. }
  destruct (ready_format _ _ _ Hr) as (line & Hl & _). exists line. by unfold info_line.
Qed.
End Reports.
