(* ===== verification/SoMain.v ===== *)
(** * The libbpfso command (libbpfso.c, [main])

    [err] is not initialised: it is an [option], and reading it before an
    assignment is undefined.  libbpfso.skel.h is generated by the build and not
    part of the repository: its functions are calls of the environment. *)

From stdpp Require Import base list gmap strings.
From Stdlib Require Import ZArith Lia.
From S2P Require Import Prelude CLib Printf Uapi Layout BpfIface StraceTypes StraceBpf SoTrace.
From S2P Require Import StraceProc Host PollLoop.

Local Open Scope string_scope.
Local Open Scope list_scope.
Local Open Scope Z_scope.

Definition libdl_path : string := "/system/lib64/libdl.so".

Section Main.
Context `{Env} (strerror : Z -> bytes).

(** [so_print_fn] prints every level. *)
Definition so_print_fn (fmt : bytes) (args : list parg) : M Z :=
  s ← ub (format fmt args); do (CErr s);; mret (Z.of_nat (length s)).

(** [cleanup:], with NULL as 0. *)
Definition so_cleanup (rb link skel : Z) (err : option Z) : M Z :=
  (if negb (rb =? 0) then do (CRingFree rb) else mret tt);;
  (if negb (link =? 0) then do (CLinkDestroy link) else mret tt);;
  (if negb (skel =? 0) then do (CDestroy skel) else mret tt);;
  err ← ub err;
  mret (if err =? 0 then 0 else 1).

(** From the creation of the ring buffer on. *)
Definition consume (fuel : nat) (link skel : Z) (err : option Z) : M Z :=
  '(rb, _) ← do CRingNew;
  if rb =? 0 then
    eprintf (B "failed to create ring buffer" ++ [10]) [];;
    so_cleanup rb link skel err
  else
    do (CSignal SIGINT);;
    do (CSignal SIGTERM);;
    printf (B "Started uprobe on %s:android_dlopen_ext, Ctrl+C to exit" ++ [10])
      [AStr (B libdl_path)];;
    err ← poll_loop so_handle_event 100 Some fuel rb err;
    so_cleanup rb link skel err.

Definition so_main (fuel : nat) : M Z :=
  do CSetStrict;;
  do CSetPrint;;
  '(r, errno) ← do CSetrlimit;
  if negb (r =? 0) then
    eprintf (B "setrlimit: %s" ++ [10]) [AStr (strerror errno)];; mret 1
  else
    '(skel, _) ← do COpenAndLoad;
    if skel =? 0 then
      eprintf (B "failed to open and load skeleton" ++ [10]) [];; mret 1
    else
      '(link, errno) ← do (CAttachUprobe skel false (-1) libdl_path "android_dlopen_ext" 0);
      if link =? 0 then
        eprintf (B "failed to attach uprobe: %s" ++ [10]) [AStr (strerror errno)];;
        err ← neg errno;
        so_cleanup 0 link skel (Some err)
      else consume fuel link skel None.
End Main.

(** ** Properties *)

(** A record as the uprobe program writes it. *)
Definition so_good_record (data : bytes) : Prop :=
  exists c, is_sint 32 (ci_pid c) /\ holds_call data c.

Section Run.
Context `{Env, !EnvLaws, !RecordLaws so_good_record} (tot : bool).

Lemma so_handle_good data : so_good_record data -> is_Some (so_handle_event data).
Proof using Type.
  intros (c & Hp & Hh). destruct (holds_call_line data c Hp Hh) as (line & Hl & _). by exists line.
Qed.

(** What the three pointers still own. *)
Definition holding (rb link skel : Z) (L : gset Z) : Prop :=
  skel <> 0 /\
  (rb = 0 /\ link = 0 /\ L = {[skel]} \/
   rb <> 0 /\ link <> 0 /\ link <> skel /\ (rb ∉ ({[link]} ∪ {[skel]} : gset Z)) /\
     L = {[rb]} ∪ ({[link]} ∪ {[skel]})).

(** Releasing in the order of [cleanup] what is held leaves nothing. *)
Lemma so_cleanup_spec rb link skel (err : Z) u st :
  uses u st -> holding rb link skel (u_live u) ->
  wp tot (so_cleanup rb link skel (Some err)) (fun status st' =>
    status = (if err =? 0 then 0 else 1) /\ uses (Usage ∅ (u_target u) Closed) st' /\
    silent st st') st.
Proof using All.
  intros Hu [Hs Hh]. unfold so_cleanup. rewrite (proj2 (Z.eqb_neq skel 0)) by done.
  destruct Hh as [(-> & -> & Hl)|(Hrb & Hlk & Hne & Hf & Hl)]; cbn [Z.eqb negb].
  - wp_call x st1 Hs1. pose proof (silent_step _ _ _ _ Hs1 I).
    eapply uses_step in Hs1; [|done|cbn [use]; by rewrite release_last].
    by apply wp_bind, wp_ret.
  - rewrite (proj2 (Z.eqb_neq rb 0)), (proj2 (Z.eqb_neq link 0)) by done. cbn [negb].
    wp_call x1 st1 Hs1. wp_call x2 st2 Hs2. wp_call x3 st3 Hs3.
    assert (silent st st3) as Hsil
      by (eapply silent_trans; [by eapply silent_step|];
          eapply silent_trans; by eapply silent_step).
    eapply uses_step in Hs1; [|done|cbn [use]; by eapply release_one].
    eapply uses_step in Hs2; [|done|cbn [use]; erewrite release_one; [done..|set_solver]].
    eapply uses_step in Hs3; [|done|cbn [use]; by rewrite release_last].
    by apply wp_bind, wp_ret.
Qed.

(** The end of a run, and what it printed. *)
Definition so_finished (status : Z) (st st' : hstate) : Prop :=
  exists t new text banner, uses (Usage ∅ t Closed) st' /\ (status = 0 \/ status = 1) /\
    hs_log st' = hs_log st ++ new /\
    prints so_good_record so_handle_event (delivered new) text /\
    (stdout_of new = text \/ stdout_of new = banner ++ text) /\
    format (B "Started uprobe on %s:android_dlopen_ext, Ctrl+C to exit" ++ [10])
      [AStr (B libdl_path)] = Some banner.

Lemma so_finished_silent status st st1 st' t :
  silent st st1 -> uses (Usage ∅ t Closed) st' -> silent st1 st' -> (status = 0 \/ status = 1) ->
  so_finished status st st'.
Proof using Type.
  intros Hs1 Hu Hs2 Hst. destruct (silent_trans _ _ _ Hs1 Hs2) as (new & Hl & Ho & Hp).
  eexists t, new, [], _. unfold delivered. rewrite Hp.
  split_and!; [done..|by exists []|by left|reflexivity].
Qed.
End Run.

Section Runs.
Context `{Env, !EnvLaws, !RecordLaws so_good_record} (tot : bool) (strerror : Z -> bytes).
Hypothesis ring_made : forall h, (env_reply h CRingNew).1 <> 0.

Lemma consume_spec fuel link skel u st0 st :
  uses u st -> u_stage u = Attached -> skel <> 0 -> link <> 0 -> link <> skel ->
  u_live u = {[link]} ∪ {[skel]} -> signal_by tot fuel -> silent st0 st ->
  hs_exiting st = 0 -> (forall h, (length h = length (hs_log st) + 4)%nat -> env_signal h = false) ->
  wp tot (consume fuel link skel None) (fun status st' => so_finished status st0 st') st.
Proof using All.
  intros Hu Hstg Hs Hlk Hne Hl Ht Hsil Hex Hsig. unfold consume. wp_call r st1 Hs1. destruct r as [rb errno].
  assert (rb <> 0) as Hrb.
  { pose proof (ring_made (hs_log st)) as Hr. by rewrite <- (sp_reply _ _ _ _ Hs1) in Hr. }
  rewrite (proj2 (Z.eqb_neq rb 0)) by done.
  destruct (uses_acquire _ _ _ _ _ Attached Hu Hs1 Hrb) as [Hf Hu1].
  { cbn [use]. rewrite need_true by auto. by rewrite Hstg. }
  wp_call x2 st2 Hs2. wp_call x3 st3 Hs3. wp_print st4 Hs4.
  assert (silent st0 st3) as Hsil3.
  { eapply silent_trans; [done|]. eapply silent_trans; [by eapply silent_step|].
    eapply silent_trans; by eapply silent_step. }
  assert (hs_exiting st4 = 0) as Hex4
    by (by rewrite (sp_exiting _ _ _ _ Hs4), (sp_exiting _ _ _ _ Hs3), (sp_exiting _ _ _ _ Hs2),
          (sp_exiting _ _ _ _ Hs1)).
  assert (length (hs_log st4) = length (hs_log st) + 4)%nat as Hl4
    by (rewrite (sp_log _ _ _ _ Hs4), (sp_log _ _ _ _ Hs3), (sp_log _ _ _ _ Hs2),
          (sp_log _ _ _ _ Hs1), !length_app; simpl; lia).
  pose proof (sp_log _ _ _ _ Hs4) as Hlog4.
  assert (in_time tot fuel st4) as Ht4.
  { apply in_time_start; [done|]. rewrite Hlog4, (sp_log _ _ _ _ Hs3), (sp_log _ _ _ _ Hs2).
    unfold installed, handles. by rewrite !existsb_app, !orb_true_r. }
  eapply uses_step in Hs2; [|done|done]. eapply uses_step in Hs3; [|done|done].
  eapply uses_step in Hs4; [|done|done]. apply wp_bind.
  eapply wp_mono; [eapply (poll_loop_spec so_good_record tot _ _ _ so_handle_good fuel _ rb None st4);
    [exact Hs4|simpl; set_solver|done|done]|].
  cbv beta. intros err st5 (Hu5 & new & Hlog5 & Hres & Hpr & Hne5).
  specialize (Hne5 ltac:(unfold signalled; rewrite Hsig by lia; apply andb_false_r) Hex4).
  destruct Hres as [[Hnil _]|(rs & r & Hrs & -> & _)]; [by apply fmap_nil_inv in Hnil|].
  eapply wp_mono; [eapply so_cleanup_spec; [exact Hu5|]|].
  { split; [done|right]. split_and!; [done..|by rewrite <- Hl|by simpl; rewrite <- Hl]. }
  cbv beta. intros status st6 (-> & Hu6 & (tail & Hlog6 & Hot & Hpt)).
  destruct Hsil3 as (n0 & Hlog3 & Ho0 & Hp0).
  exists (u_target u), (n0 ++ [Event (COut m) tt] ++ new ++ tail), (stdout_of new), m.
  assert (delivered (n0 ++ [Event (COut m) tt] ++ new ++ tail) = delivered new) as ->.
  { unfold delivered. rewrite !polls_app, Hp0, Hpt, app_nil_r. done. }
  rewrite !stdout_app, Ho0, Hot, app_nil_r.
  split_and!; [done|by case_match; auto| |done|right|done].
  - by rewrite Hlog6, Hlog5, Hlog4, Hlog3, <- !app_assoc.
  - change (stdout_of [Event (COut m) tt]) with (m ++ []). by rewrite app_nil_r.
Qed.

Lemma so_main_spec fuel :
  signal_by tot fuel -> (forall h, (length h = 9)%nat -> env_signal h = false) ->
  wp tot (so_main strerror fuel) (fun status st' => so_finished status hs_init st') hs_init.
Proof using All.
  intros Ht Hsig. unfold so_main. wp_call x1 st1 Hs1. wp_call x2 st2 Hs2. wp_call x3 st3 Hs3.
  destruct x3 as [r errno].
  assert (silent hs_init st3) as Hsil3.
  { eapply silent_trans; [by eapply silent_step|]. eapply silent_trans; by eapply silent_step. }
  assert (hs_exiting st3 = 0 /\ length (hs_log st3) = 3%nat) as [Hex3 Hl3].
  { by rewrite (sp_exiting _ _ _ _ Hs3), (sp_exiting _ _ _ _ Hs2), (sp_exiting _ _ _ _ Hs1),
      (sp_log _ _ _ _ Hs3), (sp_log _ _ _ _ Hs2), (sp_log _ _ _ _ Hs1). }
  eapply (uses_step unused) in Hs1; [|done|done]. eapply uses_step in Hs2; [|done|done].
  eapply uses_step in Hs3; [|done|done].
  destruct (Z.eqb_spec r 0) as [->|Hr]; cbn [negb].
  2: { wp_print st4 Hs4. apply wp_ret. pose proof (silent_step _ _ _ _ Hs4 I).
       eapply so_finished_silent; [done| |done|by right]. by eapply uses_step. }
  wp_call x4 st4 Hs4. destruct x4 as [skel errno4].
  pose proof (silent_trans _ _ _ Hsil3 (silent_step _ _ _ _ Hs4 I)) as Hsil4.
  pose proof (sp_exiting _ _ _ _ Hs4) as Hex4. pose proof (sp_log _ _ _ _ Hs4) as Hl4.
  destruct (Z.eqb_spec skel 0) as [->|Hskel].
  { eapply uses_step in Hs4; [|done|done]. wp_print st5 Hs5. apply wp_ret.
    pose proof (silent_step _ _ _ _ Hs5 I). eapply so_finished_silent; [done| |done|by right].
    by eapply uses_step. }
  destruct (uses_acquire _ _ _ _ _ Loaded Hs3 Hs4 Hskel eq_refl) as [_ Hu4].
  simpl in Hu4. rewrite (right_id_L ∅ (∪)) in Hu4.
  wp_call x5 st5 Hs5. pose proof (env_error (hs_log st4) (CAttachUprobe skel false (-1) libdl_path "android_dlopen_ext" 0)) as He.
  rewrite <- (sp_reply _ _ _ _ Hs5) in He. destruct x5 as [link errno5]. simpl in He.
  pose proof (silent_trans _ _ _ Hsil4 (silent_step _ _ _ _ Hs5 I)) as Hsil5.
  pose proof (sp_exiting _ _ _ _ Hs5) as Hex5. pose proof (sp_log _ _ _ _ Hs5) as Hl5.
  assert (skel ∈ u_live (Usage {[skel]} 0 Loaded) /\ Loaded = Loaded) as Hneed by (simpl; set_solver).
  destruct (Z.eqb_spec link 0) as [->|Hlink].
  - eapply uses_step in Hs5; [|done|cbn [use]; by rewrite need_true]. wp_print st6 Hs6.
    pose proof (silent_trans _ _ _ Hsil5 (silent_step _ _ _ _ Hs6 I)) as Hsil6.
    eapply uses_step in Hs6; [|done|done]. apply wp_bind, wp_neg; [done|].
    eapply wp_mono; [by eapply so_cleanup_spec; [|split; [|left]]|]. cbv beta.
    intros status st7 (-> & Hu7 & Hsil7). by eapply so_finished_silent; [..|case_match; auto].
  - destruct (uses_acquire _ _ _ _ _ Attached Hu4 Hs5 Hlink) as [Hf Hu5].
    { cbn [use]. by rewrite need_true. }
    eapply consume_spec; [done|done|done|done|simpl in Hf; set_solver|done|done|done| |].
    + by rewrite Hex5, Hex4.
    + intros h Hh. apply Hsig. rewrite Hl5, Hl4, !length_app, Hl3 in Hh. simpl in Hh. lia.
Qed.
End Runs.

Section Claims.
Context `{Env} (strerror : Z -> bytes).

(** C30: when the ring buffer can be created and no signal arrives before the
    flag is read for the first time (after nine calls), the command returns after
    a signal (or a failing call), on every path follows the rules of the libraries
    and gives back what it got, prints one line per record delivered, in order,
    and exits with 0 or 1. *)
Theorem so_main_ok N fuel `{!EnvLaws, !RecordLaws so_good_record} :
  (forall h, (env_reply h CRingNew).1 <> 0) ->
  (forall h, (length h = 9)%nat -> env_signal h = false) ->
  (forall h, (N <= length h)%nat -> env_signal h = true) -> (N < fuel)%nat ->
  exists status st' t banner lines, so_main strerror fuel hs_init = Done status st' /\
    (status = 0 \/ status = 1) /\ usage_of (hs_log st') = Some (Usage ∅ t Closed) /\
    Forall2 (fun data l => so_handle_event data = Some l) (delivered (hs_log st')) lines /\
    (stdout_of (hs_log st') = mjoin lines \/
     stdout_of (hs_log st') = banner ++ mjoin lines /\
     format (B "Started uprobe on %s:android_dlopen_ext, Ctrl+C to exit" ++ [10])
       [AStr (B libdl_path)] = Some banner).
Proof using Type.
  intros Hring Hlate Hsig HN. assert (signal_by true fuel) as Ht by (intros _; by exists N).
  destruct (wp_done _ _ _ (so_main_spec true strerror Hring fuel Ht Hlate)) as (status & st' & Hm & Hf).
  destruct Hf as (t & new & text & banner & Hu & Hst & Hlog & (lines & -> & Hl) & Ho & Hb).
  simpl in Hlog. rewrite <- Hlog in *. exists status, st', t, banner, lines.
  split_and!; [done..| |by destruct Ho; auto].
  eapply Forall2_impl; [done|]. by intros data l [_ ?].
Qed.

(** The calls before the ring buffer succeed. *)
Definition setup_ok : Prop :=
  (forall h, (env_reply h CSetrlimit).1 = 0) /\ (forall h, (env_reply h COpenAndLoad).1 <> 0) /\
  (forall h obj b p path f o, (env_reply h (CAttachUprobe obj b p path f o)).1 <> 0).

Lemma setup_reaches_consume fuel :
  setup_ok -> exists link skel st,
    so_main strerror fuel hs_init = consume fuel link skel None st /\ hs_exiting st = 0 /\
    length (hs_log st) = 5%nat.
Proof using Type.
  intros (Hr & Ho & Ha). unfold so_main. do 3 run_do.
  set (st2 := after CSetPrint _). specialize (Hr (hs_log st2)).
  destruct (env_reply (hs_log st2) CSetrlimit) as [r e]. simpl in Hr. subst r. cbn [Z.eqb negb].
  run_do. set (st3 := after CSetrlimit st2). specialize (Ho (hs_log st3)).
  destruct (env_reply (hs_log st3) COpenAndLoad) as [skel e1]. simpl in Ho.
  rewrite (proj2 (Z.eqb_neq skel 0)) by done. run_do. set (st4 := after COpenAndLoad st3).
  specialize (Ha (hs_log st4) skel false (-1) libdl_path "android_dlopen_ext" 0).
  destruct (env_reply (hs_log st4) _) as [link e2]. simpl in Ha.
  rewrite (proj2 (Z.eqb_neq link 0)) by done. by eexists link, skel, _.
Qed.

Lemma cleanup_uninitialised rb link skel st : so_cleanup rb link skel None st = Undefined.
Proof using Type.
  unfold so_cleanup. destruct (negb (rb =? 0)), (negb (link =? 0)), (negb (skel =? 0)); reflexivity.
Qed.

(** C36: the exit status reads [err] before any assignment when the ring
    buffer cannot be created, and when a signal arrives after the handlers are
    installed (the seventh and eighth calls) and before the flag is read for the
    first time, after nine calls. *)
Theorem so_main_reads_uninitialised fuel :
  setup_ok -> (0 < fuel)%nat ->
  (forall h, (env_reply h CRingNew).1 = 0) \/ (forall h, length h = 9%nat -> env_signal h = true) ->
  so_main strerror fuel hs_init = Undefined.
Proof using Type.
  intros Hok Hf Hbad. destruct (setup_reaches_consume fuel Hok) as (link & skel & st & -> & Hex & Hlen).
  unfold consume. run_do. destruct (env_reply (hs_log st) CRingNew) as [rb e] eqn:E.
  destruct (Z.eqb_spec rb 0) as [->|Hrb].
  { unfold eprintf, mbind, M_bind, ub. destruct (format _ _); [|done]. unfold do.
    apply cleanup_uninitialised. }
  destruct Hbad as [Hz|Hsig]; [specialize (Hz (hs_log st)); by rewrite E in Hz|].
  do 2 run_do. destruct fuel as [|fuel]; [lia|].
  unfold printf, mbind, M_bind. cbn [poll_loop]. unfold mbind, M_bind, exiting, ub.
  destruct (format _ _) as [s|]; [|done]. unfold do at 1. cbv zeta.
  set (st' := HState _ _ _). assert (signalled (hs_log st') = true) as Hs.
  { unfold signalled. rewrite Hsig by (cbn; rewrite !length_app, Hlen; done).
    unfold installed, handles. cbn. by rewrite !existsb_app, !orb_true_r. }
  rewrite Hs. cbn. apply cleanup_uninitialised.
Qed.
End Claims.
