(* ===== verification/SoSystem.v ===== *)
(** * libbpfso: the kernel half and the command together

    The uprobe program runs at calls of android_dlopen_ext while the command
    polls the ring buffer (Timeline); what the command prints is then the calls
    made, in order. *)

From stdpp Require Import base list gmap strings.
From Stdlib Require Import ZArith Lia.
From S2P Require Import Prelude CLib Printf Layout BpfIface StraceTypes StraceBpf SoTrace.
From S2P Require Import StraceProc Host PollLoop Timeline SoMain.

Local Open Scope string_scope.
Local Open Scope list_scope.
Local Open Scope Z_scope.

(** ** What the program promises *)

(** The calls reported at a sequence of hits, each with whether the ring buffer
    has room for its record.  A call is passed over when it has no name, and when
    there is no room; then only. *)
Inductive reports_calls {T} `{BpfTask T} : list (T * Z * bool) -> list call_info -> Prop :=
| RcNil : reports_calls [] []
| RcReport t filename c xs cs :
    filename <> 0 -> info_of t filename c -> reports_calls xs cs ->
    reports_calls ((t, filename, true) :: xs) (c :: cs)
| RcNoName t room xs cs : reports_calls xs cs -> reports_calls ((t, 0, room) :: xs) cs
| RcNoRoom t filename xs cs : reports_calls xs cs -> reports_calls ((t, filename, false) :: xs) cs.

Lemma reports_calls_app {T} `{BpfTask T} (xs ys : list (T * Z * bool)) cs ds :
  reports_calls xs cs -> reports_calls ys ds -> reports_calls (xs ++ ys) (cs ++ ds).
Proof. induction 1; simpl; intros; [done|constructor; auto..]. Qed.

(** The calls reported are those with a name that found room, all of them. *)
Lemma reports_calls_named {T} `{BpfTask T} (xs : list (T * Z * bool)) cs :
  reports_calls xs cs ->
  Forall2 (fun x c => info_of x.1.1 x.1.2 c) (filter (fun x => x.1.2 <> 0 /\ x.2 = true) xs) cs.
Proof.
  induction 1 as [|t filename c xs cs Hn Hi _ IH|t room xs cs _ IH|t filename xs cs _ IH]; [constructor|..].
  - rewrite filter_cons_True by done. by constructor.
  - by rewrite filter_cons_False by (simpl; lia).
  - by rewrite filter_cons_False by (simpl; by intros []).
Qed.

(** The record shows the call. *)
Definition shows_call (m : bytes) (c : call_info) : Prop := holds_call m c /\ is_sint 32 (ci_pid c).

Section Producer.
Context {T R : Type} `{BpfTaskLaws T} `{BpfRingbuf R, !BpfRingbufLaws R, !BpfRingbufTake R}.

#[global] Instance so_producer : Producer R (T * Z) (T * Z * bool) := {|
  pr_run _ r hits := Some (so_run r hits);
  pr_seen _ := so_seen;
  pr_records := rb_records;
  pr_take n r := rb_take r n;
|}.

(** The program keeps nothing between calls. *)
#[global] Instance calls_spec : Tracked R (T * Z) (T * Z * bool) unit call_info := {|
  tk_start := tt;
  tk_hit x := name_clear x.1 x.2;
  tk_good := so_good_record;
  tk_shows := shows_call;
  tk_steps _ _ xs _ cs := reports_calls xs cs;
  tk_holds r _ cs := Forall2 shows_call (rb_records r) cs;
|}.

Lemma run_step r h hits : so_run r (h :: hits) = so_run (handle_andrid_dlopen_ext h.1 h.2 r).1 hits.
Proof using Type. done. Qed.

(** One call is reported or passed over. *)
Lemma call_step t filename r cs :
  name_clear t filename -> Forall2 shows_call (rb_records r) cs ->
  exists new, reports_calls (so_seen r [(t, filename)]) new /\
    Forall2 shows_call (rb_records (handle_andrid_dlopen_ext t filename r).1) (cs ++ new).
Proof using All.
  intros Hok Hcs. cbn [so_seen fst snd]. unfold handle_andrid_dlopen_ext. destruct (Z.eqb_spec filename 0) as [->|Hn].
  { exists []. rewrite app_nil_r. split; [|done]. apply RcNoName. constructor. }
  destruct (rb_reserve r so_event_size) as [[e r1]|] eqn:E.
  - destruct (so_fill_event_holds t filename e) as (c & Hi & Hh); [by eapply rb_reserve_length|done|].
    exists [c]. split; [apply RcReport; [done..|constructor]|]. cbn [fst]. rewrite rb_submit_records, (rb_reserve_records _ _ _ _ E).
    apply Forall2_app; [done|]. constructor; [split; [done|]|constructor].
    destruct Hi as [-> _]. apply sint_range. lia.
  - exists []. rewrite app_nil_r. split; [|done]. apply RcNoRoom. constructor.
Qed.

Lemma run_reports hits r cs :
  Forall (fun x => name_clear x.1 x.2) hits -> Forall2 shows_call (rb_records r) cs ->
  exists new, reports_calls (so_seen r hits) new /\ Forall2 shows_call (rb_records (so_run r hits)) (cs ++ new).
Proof using All.
  intros Hok. revert r cs. induction Hok as [|[t filename] hits Hx _ IH]; intros r cs Hcs.
  { exists []. rewrite app_nil_r. split; [constructor|done]. }
  rewrite run_step. destruct (call_step t filename r cs Hx Hcs) as (new1 & H1' & Hcs1).
  destruct (IH _ _ Hcs1) as (new2 & H2' & Hcs2). exists (new1 ++ new2). rewrite app_assoc.
  split; [|done]. by apply (reports_calls_app [_] _ new1).
Qed.

#[global] Instance so_tracked : TrackedLaws R (T * Z) (T * Z * bool) unit call_info.
Proof using All.
  split; cbn [calls_spec so_producer tk_steps tk_holds tk_shows tk_good tk_hit pr_run pr_seen pr_records pr_take].
  - done.
  - intros t [] [] es. split; [by inversion 1|]. intros [_ ->]. constructor.
  - intros t _ xs _ es1 ys _ es2. apply reports_calls_app.
  - intros t r [] es xs _ Hx Hr. destruct (run_reports xs r es Hx Hr) as (new & Hn & Hr'). by exists (so_run r xs), tt, new.
  - intros n r [] es Hr. rewrite rb_take_records. by apply Forall2_drop.
  - done.
  - intros r [] es Hr. eapply Forall2_Forall_l; [exact Hr|]. apply Forall_true. intros c m [Hh Hp]. by exists c.
Qed.
End Producer.

(** ** The whole tool *)

Lemma makes_so_main `{Env} strerror fuel : makes (fun _ => True) (so_main strerror fuel).
Proof. unfold so_main, consume, so_cleanup. makes_tac; by apply makes_poll_loop. Qed.

Section System.
Context {T R : Type} `{BpfTaskLaws T} `{BpfRingbuf R, !BpfRingbufLaws R, !BpfRingbufTake R}
  `{Env, !EnvLaws} (strerror : Z -> bytes).
Context (r0 : R) (hits : list event -> list (T * Z)).

(** The ring buffer starts empty, the names of the calls can be read (or a failed
    read leaves the array clear), and a poll delivers the oldest records. *)
Class RingLaws := {
  rl_empty : rb_records r0 = [];
  rl_names h : Forall (fun x => name_clear x.1 x.2) (hits h);
  rl_poll h r rb ms : kern_at r0 hits h = Some r ->
    exists n, (env_reply h (CPoll rb ms)).2 = take n (rb_records r);
}.
Context `{!RingLaws}.

#[local] Instance so_timeline : TimelineLaws r0 hits.
Proof using All.
  split; [|apply rl_names|apply rl_poll]. cbn [tk_holds calls_spec]. rewrite rl_empty. constructor.
Qed.

#[local] Instance so_records : RecordLaws so_good_record.
Proof using All. exact (timeline_records r0 hits). Qed.

Definition so_banner : option bytes :=
  format (B "Started uprobe on %s:android_dlopen_ext, Ctrl+C to exit" ++ [10]) [AStr (B libdl_path)].

Lemma so_follows h :
  grown (fun _ => True) [] h -> exists old rest r, follows r0 hits 0 h tt old rest r.
Proof using All.
  intros Hg. destruct (history_follows r0 hits _ 0 h Hg) as ([] & old & rest & r & Hf); [by intros h' _ _ k o o' es|].
  by exists old, rest, r.
Qed.

Lemma printed_lines records cs lines :
  Forall2 shows_call records cs ->
  Forall2 (fun data l => so_good_record data /\ so_handle_event data = Some l) records lines ->
  Forall2 (fun c l => info_line c = Some l) cs lines.
Proof using Type.
  intros Hc. revert lines. induction Hc as [|m c ms cs [Hh Hp] _ IH]; intros lines Hl; inversion Hl as [|? l ? ls [_ Hm]]; [constructor|].
  subst. constructor; [|by apply IH]. destruct (holds_call_line m c Hp Hh) as (l' & Hl' & Hi). congruence.
Qed.

(** C29: libbpfso as a whole.  The command runs in an environment that creates
    the ring buffer, with no signal before the flag is read for the first time (after nine calls), while the uprobe program
    runs at any calls of android_dlopen_ext.  Once a signal arrives it returns;
    the calls that have a name and found room in the ring buffer when they came are,
    all of them and in order, those printed, one line each after the banner,
    followed by those still in the ring buffer. *)
Theorem so_system N fuel :
  (forall h, (env_reply h CRingNew).1 <> 0) ->
  (forall h, (length h = 9)%nat -> env_signal h = false) ->
  (forall h, (N <= length h)%nat -> env_signal h = true) -> (N < fuel)%nat ->
  exists status st', so_main strerror fuel hs_init = Done status st' /\
    let h := hs_log st' in
    exists r printed waiting banner lines, kern_at r0 hits h = Some r /\
      (all_seen r0 hits h).*1 = all_hits hits h /\
      Forall2 (fun x c => info_of x.1.1 x.1.2 c)
        (filter (fun x => x.1.2 <> 0 /\ x.2 = true) (all_seen r0 hits h)) (printed ++ waiting) /\
      Forall2 shows_call (rb_records r) waiting /\
      so_banner = Some banner /\ (stdout_of h = mjoin lines \/ stdout_of h = banner ++ mjoin lines) /\
      Forall2 (fun c l => info_line c = Some l) printed lines.
Proof using All.
  intros Hring Hlate Hsig HN. assert (signal_by true fuel) as Ht by (intros _; by exists N).
  destruct (wp_done _ _ _ (so_main_spec true strerror Hring fuel Ht Hlate)) as (status & st' & Hm & Hf).
  destruct Hf as (t & new & text & banner & Hu & Hst & Hlog & (lines & -> & Hl) & Ho & Hb).
  simpl in Hlog. rewrite <- Hlog in *. exists status, st'. split; [done|]. cbv zeta.
  destruct (so_follows (hs_log st')) as (old & rest & r & [Hk Hsteps Hold Hrest]).
  { exact (makes_so_main _ _ _ _ _ Hm). }
  exists r, old, rest, banner, lines. split_and!; [done| |by apply reports_calls_named|done..|by eapply printed_lines].
  rewrite <- (list_fmap_id (all_hits hits (hs_log st'))). apply (all_seen_map r0 hits fst id _ r); [|done].
  intros. rewrite list_fmap_id. apply so_seen_hits.
Qed.
End System.
