(* ===== verification/AppTrace.v ===== *)
(** * libbpfapp: tracing execve (libbpfapp.bpf.c)

    The tracepoint program.  The map [execs] is used as per-thread scratch
    memory: the program inserts an empty event, fills it in place, prints it
    and deletes it.  What [bpf_printk] gets is recorded, not formatted. *)

From stdpp Require Import base list gmap strings.
From Stdlib Require Import ZArith Lia.
From S2P Require Import Prelude Layout BpfIface StraceTypes StraceBpf SoTrace.

Local Open Scope string_scope.
Local Open Scope list_scope.
Local Open Scope Z_scope.

(** [struct event] of libbpfapp.bpf.c. *)
Definition app_event_fields : fields :=
  [("pid", TInt 4); ("ppid", TInt 4); ("uid", TInt 4); ("comm", char_array 16);
   ("args", char_array 128)].

Definition app_event_size : nat := struct_size app_event_fields.

Definition empty_event : bytes := replicate app_event_size 0.

(** An argument of [bpf_printk]: an integer, or the array a [%s] points to. *)
Inductive karg := KInt (z : Z) | KStr (buf : bytes).

Definition printk := (string * list karg)%type.

(** What the remaining helpers return during one run of the program. *)
Record helpers := Helpers {
  h_ktime : Z;
  h_boot : Z;
  h_task_tgid : Z;
  h_prandom : Z;
  h_cpu : Z;
  h_regs : Z;
}.

Section Program.
Context {T M : Type} `{BpfTask T} `{BpfHash Z bytes M}.

(** [my_pid_map] has the one index 0, which a lookup always finds. *)
Record app_state := AppState { my_pid : Z; execs : M }.

(** The assignments through [event], up to the read of the file name. *)
Definition app_fill_event (t : T) (filename : Z) (e : bytes) : bytes :=
  let id := get_current_pid_tgid t in
  let e := put_int app_event_fields "pid" (sint 32 (Z.shiftr id 32)) e in
  let e := put_int app_event_fields "uid" (uint 32 (get_current_uid_gid t)) e in
  let e := set_field app_event_fields "comm" (get_current_comm t 16).2 e in
  let '(_, str) := probe_read_user_str t (get_field app_event_fields "args" e) 127 filename in
  set_field app_event_fields "args" str e.

Definition report (t : T) (hp : helpers) (pid : Z) (e : bytes) : list printk :=
  [("BPF triggerd from PID %d.\n", [KInt pid]);
   ("BPF bpf_ktime_get_ns(): %ld.\n", [KInt (h_ktime hp)]);
   ("BPF bpf_ktime_get_boot_ns(): %ld.\n", [KInt (h_boot hp)]);
   ("BPF bpf_get_current_uid_gid(): 0x%lx.\n", [KInt (get_current_uid_gid t)]);
   ("BPF bpf_get_current_pid_tgid(): 0x%lx.\n", [KInt (get_current_pid_tgid t)]);
   ("BPF bpf_probe_read_user_str(): comm:%s, args:%s\n",
    [KStr (get_field app_event_fields "comm" e); KStr (get_field app_event_fields "args" e)]);
   ("BPF bpf_get_current_task pid: 0x%lx.\n", [KInt (h_task_tgid hp)]);
   ("BPF bpf_get_prandom_u32: 0x%lx.\n", [KInt (h_prandom hp)]);
   ("BPF bpf_get_smp_processor_id: 0x%lx.\n", [KInt (h_cpu hp)]);
   ("BPF bpf_task_pt_regs: 0x%lx.\n", [KInt (h_regs hp)])].

(** The program for a call whose first argument is the address [filename]:
    the new state and what was printed (the result is always 0). *)
Definition sys_enter_execve (t : T) (hp : helpers) (filename : Z) (k : app_state) : app_state * list printk :=
  let out := [("my pid is %d\n", [KInt (my_pid k)])] in
  let pid := sint 32 (get_current_pid_tgid t) in
  let '(err, m) := hupdate (execs k) pid empty_event BPF_NOEXIST in
  if negb (err =? 0) then (AppState (my_pid k) m, out)
  else
    match hlookup m pid with
    | None => (AppState (my_pid k) m, out)
    | Some e =>
        let e := app_fill_event t filename e in
        let m := hassign m pid e in
        let '(_, m) := hdelete m pid in
        (AppState (my_pid k) m, out ++ report t hp pid e)
    end.

(** The program at a sequence of calls. *)
Fixpoint app_run (k : app_state) (hits : list (T * helpers * Z)) : app_state * list printk :=
  match hits with
  | [] => (k, [])
  | (t, hp, filename) :: hits =>
      let '(k, out) := sys_enter_execve t hp filename k in
      let '(k, outs) := app_run k hits in
      (k, out ++ outs)
  end.
End Program.

#[global] Arguments app_state : clear implicits.
#[global] Arguments AppState {_} _ _.

(** ** Properties *)

Lemma app_event_aligned : aligned app_event_fields.
Proof. apply (bool_decide_unpack _). vm_compute. done. Qed.

Lemma app_event_size_eq : app_event_size = 156%nat.
Proof. vm_compute. done. Qed.

Section Scratch.
Context {T M : Type} `{BpfTaskLaws T} `{BpfHash Z bytes M, !BpfHashLaws Z bytes M,
  !BpfHashCapacity Z bytes M}.
Implicit Types (t : T) (k : app_state M).

Lemma execve_restores t hp filename k id :
  hlookup (execs (sys_enter_execve t hp filename k).1) id = hlookup (execs k) id.
Proof using All.
  unfold sys_enter_execve. set (pid := sint 32 (get_current_pid_tgid t)).
  pose proof (hupdate_ok (execs k) pid empty_event BPF_NOEXIST) as Hok.
  pose proof (hupdate_fail (execs k) pid empty_event BPF_NOEXIST) as Hfail.
  assert (forall v, hlookup (execs k) pid = Some v ->
    (hupdate (execs k) pid empty_event BPF_NOEXIST).1 < 0) as Hnoex by (intros; by eapply hupdate_noexist).
  destruct (hupdate (execs k) pid empty_event BPF_NOEXIST) as [err m]. simpl in *.
  destruct (Z.eqb_spec err 0) as [->|Hne]; cbn [negb]; [|by apply Hfail].
  assert (hlookup (execs k) pid = None) as Hnone.
  { destruct (hlookup (execs k) pid) eqn:E; [|done]. by specialize (Hnoex _ eq_refl). }
  assert (hlookup m pid = Some empty_event) as Hm by (rewrite Hok by done; by rewrite decide_True).
  rewrite Hm. set (e := app_fill_event t filename empty_event).
  pose proof (hassign_lookup m pid e _ pid Hm) as Ha. rewrite decide_True in Ha by done.
  pose proof (hdelete_present (hassign m pid e) pid ltac:(by rewrite Ha)) as Hd.
  pose proof (hdelete_ok (hassign m pid e) pid id Hd) as Hdel.
  destruct (hdelete (hassign m pid e) pid) as [r m']. simpl in *. rewrite Hdel.
  case_decide as Hid; [by rewrite <- Hid|]. rewrite (hassign_lookup m pid e _ id Hm).
  rewrite decide_False by done. rewrite Hok by done. by rewrite decide_False.
Qed.

(** C31: the map is scratch memory.  Whatever sequence of calls is traced, by
    whichever threads and whether or not each is reported, the map ends as it
    started: no entry is left behind, none is lost. *)
Theorem execve_map_restored hits k id :
  hlookup (execs (app_run k hits).1) id = hlookup (execs k) id.
Proof using All.
  revert k. induction hits as [|[[t hp] filename] hits IH]; intros k; [done|]. cbn [app_run].
  pose proof (execve_restores t hp filename k id) as Hs.
  destruct (sys_enter_execve t hp filename k) as [k1 out]. simpl in Hs.
  specialize (IH k1). destruct (app_run k1 hits) as [k2 outs]. simpl in *. by rewrite IH, Hs.
Qed.

(** The name cannot be read, and [s] is what the read leaves: nothing, if it
    leaves the cleared array clear. *)
Definition unreadable (t : T) (filename : Z) (s : bytes) : Prop :=
  let '(r, str) := probe_read_user_str t (replicate 128 0) 127 filename in
  r < 0 /\ cstr str = Some s /\ (str = replicate 128 0 -> s = []).

(** What the filled event holds. *)
Record filled (t : T) (filename : Z) (e : bytes) : Prop := {
  fi_pid : get_sint app_event_fields "pid" e = tgid_of (get_current_pid_tgid t);
  fi_ppid : get_sint app_event_fields "ppid" e = 0;
  fi_uid : get_uint app_event_fields "uid" e = uint 32 (get_current_uid_gid t);
  fi_comm : get_field app_event_fields "comm" e = (get_current_comm t 16).2;
  fi_args : exists s, cstr (get_field app_event_fields "args" e) = Some s /\
    (user_string t filename 127 s \/ unreadable t filename s);
}.

(** The name read into the cleared array of 128 bytes. *)
Lemma args_read t filename :
  let str := (probe_read_user_str t (replicate 128 0) 127 filename).2 in
  length str = 128%nat /\
  exists s, cstr str = Some s /\ (user_string t filename 127 s \/ unreadable t filename s).
Proof using All.
  pose proof (read_str_length t (replicate 128 0) 127 filename ltac:(simpl; lia)) as Hlen.
  pose proof (read_str_ok t (replicate 128 0) 127 filename ltac:(simpl; lia)) as Hok.
  pose proof (read_str_frame t (replicate 128 0) 127 filename ltac:(simpl; lia)) as Hfr. unfold unreadable.
  destruct (probe_read_user_str t (replicate 128 0) 127 filename) as [r str]. simpl fst in *. simpl snd in *.
  split; [done|]. destruct (decide (0 <= r)) as [Hr|Hr].
  - destruct (Hok Hr) as (s & Hn & Hlt & _ & -> & Hi & Hz). exists s.
    split; [by apply cstr_app|left]. by repeat split.
  - destruct (terminated_elem str) as [Ht _]. destruct Ht as [s Hs]; [|exists s; split; [done|right]].
    { rewrite <- (take_drop 127 str), Hfr. set_solver. }
    split_and!; [lia|done|]. intros ->. by injection Hs as <-.
Qed.

Lemma app_fill_event_filled t filename : filled t filename (app_fill_event t filename empty_event).
Proof using All.
  unfold app_fill_event. pose proof app_event_aligned as Ha.
  set (e1 := put_int app_event_fields "pid" _ empty_event).
  assert (length e1 = app_event_size) as Hl1 by by apply length_put_int.
  set (e2 := put_int app_event_fields "uid" _ e1).
  assert (length e2 = app_event_size) as Hl2 by by apply length_put_int.
  assert (length (get_current_comm t 16).2 = 16%nat) as Hcl by apply comm_length.
  set (e3 := set_field app_event_fields "comm" _ e2).
  assert (length e3 = app_event_size) as Hl3 by by apply length_set_field.
  assert (get_field app_event_fields "args" e3 = replicate 128 0) as Hargs.
  { unfold e3. rewrite (get_set_field_ne _ Ha e2 Hl2 "args" "comm") by done.
    unfold e2. rewrite (get_put_field_ne _ Ha e1 Hl1 "args" "uid") by done.
    unfold e1. rewrite (get_put_field_ne _ Ha empty_event) by done. reflexivity. }
  rewrite Hargs. destruct (args_read t filename) as [Hsl Hstr].
  destruct (probe_read_user_str t (replicate 128 0) 127 filename) as [r str]. simpl in Hsl, Hstr.
  assert (forall n, n <> "args" -> get_field app_event_fields n (set_field app_event_fields "args" str e3)
    = get_field app_event_fields n e3) as Hkeep by (intros; by apply get_set_field_ne).
  assert (forall n, n <> "comm" -> get_field app_event_fields n e3 = get_field app_event_fields n e2) as Hkeep3
    by (intros; by apply get_set_field_ne).
  assert (forall n, n <> "uid" -> get_field app_event_fields n e2 = get_field app_event_fields n e1) as Hkeep2
    by (intros; by apply get_put_field_ne).
  split.
  - unfold get_sint, get_uint. rewrite Hkeep, Hkeep3, Hkeep2 by done.
    fold (get_uint app_event_fields "pid" e1). unfold e1. rewrite (get_put_uint _ Ha empty_event) by done.
    rewrite sint_uint by done. apply sint_id; [done|]. apply sint_range. lia.
  - unfold get_sint, get_uint. rewrite Hkeep, Hkeep3, Hkeep2 by done.
    unfold e1. rewrite (get_put_field_ne _ Ha empty_event) by done. reflexivity.
  - unfold get_uint. rewrite Hkeep, Hkeep3 by done.
    fold (get_uint app_event_fields "uid" e2). unfold e2. rewrite (get_put_uint _ Ha e1 Hl1).
    apply uint_id, uint_range. done.
  - rewrite Hkeep by done. by apply get_set_field_eq.
  - by rewrite (get_set_field_eq _ Ha e3 Hl3).
Qed.

(** C32: an execve of a thread without an entry, with room in the map, is
    reported in full: process, user, command name, and the file name in user
    memory (its first 126 bytes; when it cannot be read, what the failed read leaves
    in the cleared array), each string terminated inside its array. *)
Theorem execve_reported t hp filename k :
  hlookup (execs k) (sint 32 (get_current_pid_tgid t)) = None ->
  (hcount (execs k) < hmax (execs k))%nat ->
  exists e, filled t filename e /\ terminated (get_field app_event_fields "comm" e) /\
    (sys_enter_execve t hp filename k).2
    = ("my pid is %d\n", [KInt (my_pid k)])
      :: report t hp (sint 32 (get_current_pid_tgid t)) e.
Proof using All.
  intros Hn Hroom. set (pid := sint 32 (get_current_pid_tgid t)) in *.
  exists (app_fill_event t filename empty_event). pose proof (app_fill_event_filled t filename) as Hf.
  split_and!; [done| |].
  { rewrite (fi_comm _ _ _ Hf). apply terminated_elem, comm_terminated. lia. }
  unfold sys_enter_execve. fold pid.
  pose proof (hupdate_noexist_room (execs k) pid empty_event Hn Hroom) as Hz.
  pose proof (hupdate_ok (execs k) pid empty_event BPF_NOEXIST pid Hz) as Hl.
  destruct (hupdate (execs k) pid empty_event BPF_NOEXIST) as [err m]. simpl in Hz, Hl. subst err.
  rewrite decide_True in Hl by done. cbn [Z.eqb negb]. rewrite Hl.
  by destruct (hdelete _ pid).
Qed.

(** C39: the process id the loader stores does not select anything: two
    states that differ only in it report the same calls, apart from the
    message that prints it. *)
Theorem execve_ignores_my_pid t hp filename p p' (m : M) :
  execs (sys_enter_execve t hp filename (AppState p m)).1
  = execs (sys_enter_execve t hp filename (AppState p' m)).1 /\
  tail (sys_enter_execve t hp filename (AppState p m)).2
  = tail (sys_enter_execve t hp filename (AppState p' m)).2.
Proof using Type.
  unfold sys_enter_execve. cbn [execs my_pid].
  destruct (hupdate m _ empty_event BPF_NOEXIST) as [err m']. destruct (negb (err =? 0)); [done|].
  destruct (hlookup m' _) as [e|]; [|done]. by destruct (hdelete _ _).
Qed.
End Scratch.
