(* ===== verification/AppMain.v ===== *)
(** * The libbpfapp command (libbpfapp.c, [main]) *)

From stdpp Require Import base list gmap strings.
From Stdlib Require Import ZArith Lia.
From S2P Require Import Prelude CLib Printf Uapi BpfIface StraceProc Host PollLoop.

Local Open Scope string_scope.
Local Open Scope list_scope.
Local Open Scope Z_scope.

Definition trace_pipe : string := "cat /sys/kernel/tracing/trace_pipe".

Section Main.
Context `{Env} (strerror : Z -> bytes).

(** [libbpf_print] prints every level. *)
Definition libbpf_print (fmt : bytes) (args : list parg) : M Z :=
  s ← ub (format fmt args); do (CErr s);; mret (Z.of_nat (length s)).

(** [cleanup:] *)
Definition app_cleanup (skel err : Z) : M Z :=
  do (CDestroy skel);; neg err.

Definition app_main : M Z :=
  do CSetStrict;;
  do CSetPrint;;
  '(skel, _) ← do COpenAndLoad;
  if skel =? 0 then
    eprintf (B "failed to open and load skeleton" ++ [10]) [];; mret 1
  else
    pid ← do CGetpid;
    err ← do (CMapUpdate skel (le_bytes 4 0) (le_bytes 4 pid) BPF_ANY);
    if err <? 0 then
      eprintf (B "Error updating map with pid: %s" ++ [10]) [AStr (strerror err)];;
      app_cleanup skel err
    else
      err ← do (CAttach skel);
      if negb (err =? 0) then
        eprintf (B "failed to attach: %d" ++ [10]) [AInt 0 err];;
        app_cleanup skel err
      else
        printf (B "Successfully started!" ++ [10]) [];;
        do (CSystem trace_pipe);;
        app_cleanup skel err.
End Main.

(** The result of the failing step, if any: of the map update (when negative),
    else of the attachment. *)
Definition update_result (e : event) : list Z :=
  match e with
  | Event c r =>
      match c return reply c -> list Z with
      | CMapUpdate _ _ _ _ | CAttach _ => fun r => [r]
      | _ => fun _ => []
      end r
  end.

Definition step_results (h : list event) : list Z := mjoin (update_result <$> h).

Lemma results_step `{Env} st c r st' :
  stepped st c r st' ->
  step_results (hs_log st') = step_results (hs_log st) ++ update_result (Event c r).
Proof.
  intros Hs. rewrite (sp_log _ _ _ _ Hs). unfold step_results. rewrite fmap_app, join_app.
  simpl. by rewrite app_nil_r.
Qed.

Section Run.
Context `{Env, !EnvLaws} (tot : bool) (strerror : Z -> bytes).

Lemma app_cleanup_spec skel err u st :
  uses u st -> skel <> 0 -> u_live u = {[skel]} -> err <> INT_MIN ->
  wp tot (app_cleanup skel err) (fun status st' => status = - err /\
    uses (Usage ∅ (u_target u) Closed) st' /\
    step_results (hs_log st') = step_results (hs_log st)) st.
Proof using All.
  intros Hu Hs Hl He. unfold app_cleanup. wp_call x st1 Hs1. apply wp_neg; [done|].
  pose proof (results_step _ _ _ _ Hs1) as Hres.
  eapply uses_step in Hs1; [|done|cbn [use]; by rewrite release_last].
  split_and!; [done..|]. rewrite Hres. apply app_nil_r.
Qed.

(** The end of a run: nothing left, and where the exit status comes from. *)
Definition app_finished (status : Z) (st : hstate) : Prop :=
  (exists t, uses (Usage ∅ t Closed) st) /\
  (step_results (hs_log st) = [] /\ status = 1 \/
   exists r, last (step_results (hs_log st)) = Some r /\ status = - r).

Lemma finish skel err u st rs :
  uses u st -> skel <> 0 -> u_live u = {[skel]} -> err <> INT_MIN -> step_results (hs_log st) = rs ++ [err] ->
  wp tot (app_cleanup skel err) app_finished st.
Proof using All.
  intros Hu Hs Hl He Hr. eapply wp_mono; [by apply app_cleanup_spec|]. cbv beta.
  intros status st' (-> & Hu' & Hres). split; [by eexists|right]. exists err.
  rewrite Hres, Hr. split; [apply last_snoc|done].
Qed.

Lemma app_main_spec : wp tot (app_main strerror) app_finished hs_init.
Proof using All.
  unfold app_main. wp_call x1 st1 Hs1. wp_call x2 st2 Hs2. wp_call x3 st3 Hs3. destruct x3 as [skel errno].
  assert (step_results (hs_log st3) = []) as Hr3
    by (by rewrite (results_step _ _ _ _ Hs3), (results_step _ _ _ _ Hs2), (results_step _ _ _ _ Hs1)).
  eapply (uses_step unused) in Hs1; [|done|done]. eapply uses_step in Hs2; [|done|done].
  destruct (Z.eqb_spec skel 0) as [->|Hskel].
  { eapply uses_step in Hs3; [|done|done]. wp_print st4 Hs4. apply wp_ret.
    pose proof (results_step _ _ _ _ Hs4) as Hr4. rewrite Hr3 in Hr4.
    split; [eexists; by eapply uses_step|by left]. }
  destruct (uses_acquire _ _ _ _ _ Loaded Hs2 Hs3 Hskel eq_refl) as [_ Hu3].
  simpl in Hu3. rewrite (right_id_L ∅ (∪)) in Hu3.
  assert (skel ∈ ({[skel]} : gset Z)) as Hin by set_solver.
  wp_call pid st4 Hs4. wp_call err st5 Hs5.
  pose proof (env_error (hs_log st4) (CMapUpdate skel (le_bytes 4 0) (le_bytes 4 pid) BPF_ANY)) as He.
  rewrite <- (sp_reply _ _ _ _ Hs5) in He. simpl in He.
  assert (step_results (hs_log st5) = [err]) as Hr5
    by (by rewrite (results_step _ _ _ _ Hs5), (results_step _ _ _ _ Hs4), Hr3).
  eapply uses_step in Hs4; [|done|done].
  eapply uses_step in Hs5; [|done|cbn [use]; by rewrite need_true].
  destruct (Z.ltb_spec err 0) as [Hneg|Hpos].
  { wp_print st6 Hs6. pose proof (results_step _ _ _ _ Hs6) as Hr6. rewrite Hr5 in Hr6.
    eapply uses_step in Hs6; [|done|done]. by eapply (finish _ _ _ _ []). }
  wp_call err2 st6 Hs6. pose proof (results_step _ _ _ _ Hs6) as Hr6. rewrite Hr5 in Hr6.
  pose proof (env_int (hs_log st5) (CAttach skel)) as Hint. pose proof (env_error (hs_log st5) (CAttach skel)) as He2.
  rewrite <- (sp_reply _ _ _ _ Hs6) in Hint, He2. simpl in Hint, He2.
  eapply uses_step in Hs6; [|done|cbn [use]; by rewrite need_true].
  unfold on_success, to_stage in Hs6. simpl in Hs6.
  destruct (Z.eqb_spec err2 0) as [->|Hne]; cbn [negb].
  - wp_print st7 Hs7. wp_call x8 st8 Hs8.
    assert (step_results (hs_log st8) = [err] ++ [0]) as Hr8
      by (by rewrite (results_step _ _ _ _ Hs8), (results_step _ _ _ _ Hs7), Hr6).
    eapply uses_step in Hs7; [|done|done]. eapply uses_step in Hs8; [|done|done].
    by eapply finish.
  - rewrite decide_False in Hs6 by done. wp_print st7 Hs7.
    assert (step_results (hs_log st7) = [err] ++ [err2]) as Hr7
      by (by rewrite (results_step _ _ _ _ Hs7), Hr6).
    eapply uses_step in Hs7; [|done|done]. by eapply finish.
Qed.

End Run.

Section Claim.
Context `{Env, !EnvLaws} (strerror : Z -> bytes).

(** C33: the command always returns from its setup, follows the rules of the
    libraries, gives the object back on every path, and its exit status is
    1 when the object cannot be opened and otherwise the negated result of
    the last step (a failed map update or the attachment). *)
Theorem app_main_ok :
  exists status st' t, app_main strerror hs_init = Done status st' /\
    usage_of (hs_log st') = Some (Usage ∅ t Closed) /\
    (step_results (hs_log st') = [] /\ status = 1 \/
     exists r, last (step_results (hs_log st')) = Some r /\ status = - r).
Proof using All.
  destruct (wp_done _ _ _ (app_main_spec true strerror)) as (status & st' & Hm & (t & Hu) & Hs).
  by exists status, st', t.
Qed.
End Claim.
