(* ===== verification/ElfBlob.v ===== *)
(** * The object file embedded in the skeleton

    The bytes [libbpfstrace_bpf__elf_bytes] returns, of
    libbpfstrace/out/libbpfstrace.skel.h, in hexadecimal, one line of digits per
    line of the C string. *)

From stdpp Require Import base list strings.
From Stdlib Require Import ZArith Ascii.
From S2P Require Import Prelude.

Local Open Scope string_scope.
Local Open Scope list_scope.
Local Open Scope Z_scope.

(** The value of a lower-case hexadecimal digit. *)
Definition hex_digit (c : ascii) : Z :=
  let n := byte_of_ascii c in
  if n <=? 57 then n - 48 else n - 87.

Fixpoint unhex (s : string) : bytes :=
  match s with
  | String a (String b s) => 16 * hex_digit a + hex_digit b :: unhex s
  | _ => []
  end.

Definition elf_1 : list string :=
  [ "7f454c460201010000000000000000000100f700010000000000000000";
    "0000000000000000000000f0360000000000000000000040000000000040001000";
    "0100bf16000000000000b7010000000000007b1ad8ff000000007b1a";
    "d0ff000000007b1ac8ff000000007b1ac0ff000000007b1ab8";
    "ff000000007b1ab0ff000000007b1aa8ff000000007b1aa0ff00";
    "0000007b1a98ff000000007b1a90ff000000007b1a88ff00000000";
    "7b1a80ff000000007b1a78ff000000007b1a70ff000000007b";
    "1a68ff000000007b1a60ff000000007b1a58ff000000007b1a";
    "50ff000000007b1a48ff000000007b1a40ff000000007b1a38";
    "ff000000007b1a30ff000000007b1a28ff000000007b1a20ff00";
    "0000007b1a18ff000000007b1a10ff000000007b1a08ff00000000";
    "7b1a00ff000000007b1af8fe000000007b1af0fe000000007b1a";
    "e8fe000000007b1ae0fe000000007b1ad8fe000000007b1ad0";
    "fe000000007b1ac8fe000000007b1ac0fe000000007b1ab8fe00";
    "0000007b1ab0fe000000007b1aa8fe000000007b1aa0fe00000000";
    "7b1a98fe000000007b1a90fe000000007b1a88fe000000007b";
    "1a80fe000000007b1a78fe000000007b1a70fe00000000796700";
    "0000000000850000000e0000007b0a68fe0000000018010000000000000000";
    "00000000000061120000000000001502030000000000611100000000000077";
    "000000200000005d01a800000000007961080000000000631a70fe00";
    "000000b701000000000000bf730000000000000f13000000000000bfa60000";
    "000000000706000078feffffbf61000000000000b702000008000000";
    "8500000071000000b701000008000000bf730000000000000f1300000000";
    "0000bfa100000000000007010000e0ffffffb70200000800000085";
    "0000007100000079a1e0ff000000007b1a80fe00000000b7010000";
    "10000000bf730000000000000f13000000000000bfa10000000000000701";
    "0000e0ffffffb702000008000000850000007100000079a1e0ff";
    "000000007b1a88fe00000000b701000018000000bf730000000000000f";
    "13000000000000bfa100000000000007010000e0ffffffb7020000";
    "08000000850000007100000079a1e0ff000000007b1a90fe00000000";
    "b701000020000000bf730000000000000f13000000000000bfa100000000";
    "000007010000e0ffffffb702000008000000850000007100000079";
    "a1e0ff000000007b1a98fe00000000b7010000280000000f170000";
    "00000000bfa100000000000007010000e0ffffffb702000008000000";
    "bf73000000000000850000007100000079a1e0ff000000007b1aa0";
    "fe00000000bfa100000000000007010000a8feffffb70200001000";
    "00008500000010000000bfa20000000000000702000080feffff61";
    "a170fe00000000150103003800000015010200b50100005501";
    "0e00dd000000bf62000000000000792300000000000015030a0000000000";
    "bfa100000000000007010000b8feffffb702000000010000850000";
    "0072000000bf010000000000006701000020000000c701000020000000";
    "b7020000010000006d12010000000000630ab8ff0000000061a1";
    "70fe00000000bf120000000000000702000038ffffff25024e00";
    "06000000b7030000010000006f23000000000000570300004900000055";
    "03010000000000050049000000000079a680fe000000001506470000";
    "000000bf12000000000000bfa100000000000007010000a0feffff15";
    "020200ce000000bfa10000000000000701000088feffff791700";
    "0000000000b7010000020000002d713e0000000000bfa100000000000007";
    "010000feffffffb702000002000000bf6300000000000085000000";
    "70000000b7010000000000006d0137000000000069a1feff00000000";
    "6b1abcff000000005501130002000000b7020000100000002d72";
    "110000000000b7070000000000007b7ae8ff000000007b7ae0ff0000";
    "0000bfa100000000000007010000e0ffffffbf630000000000008500";
    "0000700000006d072a0000000000b701000001000000731ad8ff0000";
    "0000bfa100000000000007010000e0ffffff69120200000000006b";
    "2abeff000000006111040000000000631ac0ff0000000005002100";
    "00000000550120000a000000b70100001c0000002d711e0000000000";
    "b707000000000000637af8ff000000007b7af0ff000000007b7a";
    "e8ff000000007b7ae0ff00000000bfa100000000000007010000e0";
    "ffffffb70200001c000000bf6300000000000085000000700000006d";
    "07130000000000b701000001000000731ad8ff00000000b7010000";
    "08000000bfa200000000000007020000e0ffffffbf23000000000000";
    "0f130000000000006131040000000000631ac8ff00000000612108";
    "0000000000631ac4ff0000000061310c0000000000631ad0ff000000";
    "006131080000000000631accff0000000069210200000000006b1a";
    "beff000000006121180000000000631ad4ff00000000bfa200000000";
    "00000702000068feffffbfa30000000000000703000070feff";
    "ff18010000000000000000000000000000b70400000000000085000000020000";
    "00b7000000000000009500000000000000bf17000000000000850000000e000000";
    "bf080000000000007b8af8ff00000000770800002000000018010000";
    "0000000000000000000000006112000000000000150202000000000061110000";
    "000000005d81800000000000bfa200000000000007020000f8ffffff";
    "180100000000000000000000000000008500000001000000bf06000000000000";
    "150679000000000018010000000000000000000000000000b70200008001";
    "0000b703000000000000850000008300000015006e00000000006380000000";
    "00000079a1f8ff000000006310040000000000616100000000000063";
    "1008000000000079710800000000007b101000000000007961080000";
    "0000007b1018000000000079611000000000007b1020000000000079";
    "611800000000007b1028000000000079612000000000007b10300000";
    "00000079612800000000007b1038000000000079613000000000007b";
    "1040000000000079613800000000007b104800000000007961400000";
    "0000007b1050000000000079614800000000007b1058000000000079";
    "615000000000007b1060000000000079615800000000007b10680000";
    "00000079616000000000007b1070000000000079616800000000007b";
    "1078000000000079617000000000007b108000000000007961780000";
    "0000007b1088000000000079618000000000007b1090000000000079";
    "618800000000007b1098000000000079619000000000007b10a00000";
    "00000079619800000000007b10a800000000007961a000000000007b";
    "10b000000000007961a800000000007b10b800000000007961b00000";
    "0000007b10c000000000007961b800000000007b10c8000000000079";
    "61c000000000007b10d000000000007961c800000000007b10d80000";
    "0000007961d000000000007b10e000000000007961d800000000007b";
    "10e800000000007961e000000000007b10f000000000007961e80000";
    "0000007b10f800000000007961f000000000007b1000010000000079";
    "61f800000000007b1008010000000079610001000000007b1010";
    "010000000079610801000000007b101801000000007961100100";
    "0000007b1020010000000079611801000000007b10280100000000";
    "79612001000000007b1030010000000079612801000000007b";
    "1038010000000079613001000000007b104001000000007961";
    "3801000000007b1048010000000079614001000000007b1050";
    "01000000006161480100000000631058010000000069614c0100";
    "0000006b105c010000000069614e01000000006b105e0100000000";
    "61615001000000006310600100000000616158010000000063";
    "10680100000000616154010000000063106401000000006161";
    "600100000000631070010000000061615c010000000063106c";
    "0100000000616164010000000063107401000000007161680100";
    "0000007310780100000000bf01000000000000b702000000000000850000";
    "0084000000bfa200000000000007020000f8ffffff18010000000000";
    "0000000000000000008500000003000000b700000000000000950000000000000044";
    "75616c204253442f47504c0000000000000000000000000000000000";
    "000000000000000000000000000000000000000000000000000000000000000000000000000000";
    "000000009feb01001800000000000000cc060000cc060000a50d000000";
    "0000000000000203000000010000000000000104000000200000010000000000";
    "00000300000000020000000400000001000000050000000000000104000000";
    "200000000000000000000002060000000000000000000003000000000200000004";
    "000000004000000000000000000002080000001900000000000008090000001d";
    "000000000000080a00000023000000000000010800000040000000000000000000";
    "00020c000000360000000b00000470010000420000000200000000000000";
    "4d0000000d00000040000000520000000f000000c0010000570000001000";
    "0000400200005b00000011000000400a00006300000012000000600a00";
    "006d00000012000000700a00007500000011000000800a00007e000000";
    "14000000a00a00008700000011000000200b0000930000001300000040";
    "0b00000000000000000003000000000a00000004000000060000009c0000000000";
    "000101000000080000010000000000000003000000000e0000000400000010";
    "0000000000000000000003000000000e0000000400000000010000a1000000000000";
    "010400000020000000ae000000000000010200000010000000bd0000000000";
    "0001010000000800000000000000000000030000000013000000040000001000";
    "0000000000000400000420000000cb0000000100000000000000d00000000500";
    "000040000000dc0000000700000080000000e00000000b000000c0000000e6";
    "0000000000000e150000000100000000000000000000021800000000000000000000";
    "030000000002000000040000001b00000000000000000000021a00000000000000";
    "0000000300000000020000000400000000000001000000000200000410000000";
    "cb0000001700000000000000d00000001900000040000000ef0000000000000e";
    "1b0000000100000000000000000000021e000000f60000000100000400000000";
    "4d0000001f0000000000000000000000000000030000000009000000040000000000";
    "0000000000000100000d020000000e0100001d00000012010000010000";
    "0c20000000940200000400000410010000a102000023000000000000";
    "00a602000009000000c0070000a90200000900000000080000ac0200";
    "00090000004008000000000000000000030000000009000000040000001f0000";
    "009703000009000004500100000000000025000000000000009f030000";
    "0800000080080000a703000028000000c0080000b10300002a000000";
    "e0080000b90300000800000000090000c40300000800000040090000";
    "cd0300002c00000080090000d803000008000000000a0000e9030000";
    "08000000400a0000000000000200000510010000f20300002200000000";
    "000000000000002600000000000000000000000400000410010000a1020000" ].

Definition elf_2 : list string :=
  [ "2700000000000000a602000008000000c0070000a90200000800000000";
    "080000ac020000080000004008000000000000000000030000000008000000";
    "040000001f000000fc030000000000082900000000040000000000080200";
    "000006040000000000082b0000000a04000000000008110000000000000000";
    "000003000000000800000004000000020000002b07000004000004100000";
    "00370700002e00000000000000420700002f000000100000004b070000";
    "31000000200000005407000033000000400000005a0700000000000812";
    "0000006f07000000000008300000007607000000000008120000007c07";
    "000001000004040000008407000032000000000000008b07000000000008";
    "2b00000000000000000000030000000013000000040000000800000097080000";
    "050000041c000000a40800001200000000000000b00800002f00000010";
    "000000ba0800003200000020000000c80800003500000040000000d208";
    "00002b000000c0000000e00800000100000410000000e9080000360000";
    "0000000000000000000300000510000000ef0800003800000000000000f808";
    "00003900000000000000020900003a000000000000000c0900000000000813";
    "00000000000000000000030000000037000000040000001000000000000000000000";
    "03000000002f000000040000000800000000000000000000030000000032000000";
    "0400000004000000000000000100000d020000000e0100001d000000ed";
    "0900000100000c3b0000000000000000000003000000000e00000004000000";
    "0d0000007b0d00000000000e3d00000001000000000000000000000a400000";
    "00000000000000000902000000830d00000000000e3f000000010000008f";
    "0d00000200000f000000001600000000000000200000001c0000000000000010";
    "000000950d00000100000f000000004100000000000000040000009d0d0000";
    "0100000f000000003e000000000000000d00000000696e74005f5f41";
    "525241595f53495a455f545950455f5f00753634";
    "005f5f75363400756e7369676e6564206c6f6e67";
    "206c6f6e6700656e7465725f7374617465007379";
    "7363616c6c5f6964006172677300636f6d6d007374";
    "72007374725f6c656e0073615f66616d696c790073";
    "615f706f72740073615f61646472340073615f61";
    "646472360073615f73636f70655f69640073615f";
    "76616c6964006368617200756e7369676e656420";
    "696e7400756e7369676e65642073686f72740075";
    "6e7369676e656420636861720074797065006d61";
    "785f656e7472696573006b65790076616c75650069";
    "6e666c69676874006576656e7473006270665f72";
    "61775f7472616365706f696e745f617267730063";
    "74780068616e646c655f7379735f656e74657200";
    "7261775f7472616365706f696e742f7379735f";
    "656e746572002f686f6d652f6d692f31742f6c69";
    "626270665f6465762f6c696262706673747261";
    "63652f6c69626270667374726163652e627066";
    "2e6300696e742068616e646c655f7379735f656e";
    "74657228737472756374206270665f7261775f";
    "7472616365706f696e745f61726773202a6374";
    "7829002020202073747275637420656e7465725f";
    "73746174652073203d207b7d3b00303a303a3000";
    "2020202072656773203d202873747275637420";
    "70745f72656773202a296374782d3e61726773";
    "5b305d3b00202020206964203d206270665f6765";
    "745f63757272656e745f7069645f7467696428";
    "293b0020202020696620287461726765745f7467";
    "696420213d2030202626207467696420213d20";
    "7461726765745f74676964290020202020746769";
    "64203d206964203e3e2033323b00303a303a3100";
    "20202020732e73797363616c6c5f6964203d20";
    "28696e74296374782d3e617267735b315d3b0075";
    "7365725f70745f7265677300726567730073700070";
    "63007073746174650020202020732e617267735b";
    "305d203d2050545f524547535f5041524d315f";
    "434f52452872656773293b0020202020732e6172";
    "67735b315d203d2050545f524547535f504152";
    "4d325f434f52452872656773293b00303a303a32";
    "0020202020732e617267735b325d203d2050545f";
    "524547535f5041524d335f434f524528726567";
    "73293b00303a303a330020202020732e61726773";
    "5b335d203d2050545f524547535f5041524d34";
    "5f434f52452872656773293b00303a303a340020";
    "202020732e617267735b345d203d2050545f52";
    "4547535f5041524d355f434f52452872656773";
    "293b0070745f72656773006f7269675f7830007379";
    "7363616c6c6e6f00756e75736564320073646569";
    "5f747462723100706d725f736176650073746163";
    "6b6672616d65006c6f636b6465705f6861726469";
    "72717300657869745f72637500757365725f7265";
    "677300733332005f5f73333200753332005f5f7533";
    "3200303a303a313a303a350020202020732e6172";
    "67735b355d203d204250465f434f52455f5245";
    "414428726567732c20726567735b355d293b0020";
    "2020206270665f6765745f63757272656e745f";
    "636f6d6d2826732e636f6d6d2c2073697a656f";
    "6628732e636f6d6d29293b002020202069662028";
    "732d3e73797363616c6c5f6964203d3d204e52";
    "5f4f50454e4154207c7c20732d3e7379736361";
    "6c6c5f6964203d3d204e525f4f50454e415432";
    "2900202020206966202821702900202020206e20";
    "3d206270665f70726f62655f726561645f7573";
    "65725f73747228732d3e7374722c2073697a65";
    "6f6628732d3e737472292c2070293b0020202020";
    "696620286e203e20302900202020202020202073";
    "2d3e7374725f6c656e203d2028756e7369676e";
    "656420696e74296e3b002020202069662028732d";
    "3e73797363616c6c5f696420213d204e525f43";
    "4f4e4e45435420262620732d3e73797363616c";
    "6c5f696420213d204e525f42494e4420262620";
    "732d3e73797363616c6c5f696420213d204e52";
    "5f53454e44544f2900202020207561646472203d";
    "2028766f6964202a29732d3e617267735b315d";
    "3b00202020206966202821756164647229002020";
    "202069662028732d3e73797363616c6c5f6964";
    "203d3d204e525f53454e44544f29002020202069";
    "6620286c656e203c2073697a656f662866616d";
    "696c7929290020202020696620286270665f7072";
    "6f62655f726561645f75736572282666616d69";
    "6c792c2073697a656f662866616d696c79292c";
    "20756164647229203c2030290020202020732d3e";
    "73615f66616d696c79203d2066616d696c793b00";
    "202020206966202866616d696c79203d3d2041";
    "465f494e45545f56414c202626206c656e203e";
    "3d2073697a656f662873747275637420736f63";
    "6b616464725f696e2929207b0020202020202020";
    "2073747275637420736f636b616464725f696e";
    "20696e34203d207b7d3b00202020202020202069";
    "6620286270665f70726f62655f726561645f75";
    "7365722826696e342c2073697a656f6628696e";
    "34292c20756164647229203c2030290020202020";
    "20202020732d3e73615f76616c6964203d2031";
    "3b00736f636b616464725f696e0073696e5f6661";
    "6d696c790073696e5f706f72740073696e5f6164";
    "6472005f5f706164005f5f6b65726e656c5f7361";
    "5f66616d696c795f74005f5f62653136005f5f75";
    "313600696e5f6164647200735f61646472005f5f62";
    "65333200303a31002020202020202020732d3e73";
    "615f706f7274203d20696e342e73696e5f706f";
    "72743b00303a323a30002020202020202020732d";
    "3e73615f6164647234203d20696e342e73696e";
    "5f616464722e735f616464723b00202020206966";
    "202866616d696c79203d3d2041465f494e4554";
    "365f56414c202626206c656e203e3d2073697a";
    "656f662873747275637420736f636b61646472";
    "5f696e362929207b002020202020202020737472";
    "75637420736f636b616464725f696e3620696e";
    "36203d207b7d3b00202020202020202069662028";
    "6270665f70726f62655f726561645f75736572";
    "2826696e362c2073697a656f6628696e36292c";
    "20756164647229203c20302900736f636b616464";
    "725f696e360073696e365f66616d696c79007369";
    "6e365f706f72740073696e365f666c6f77696e66";
    "6f0073696e365f616464720073696e365f73636f";
    "70655f696400696e365f6164647200696e365f7500";
    "75365f61646472380075365f6164647231360075";
    "365f616464723332005f5f753800303a3300202020";
    "20202020205f5f6275696c74696e5f6d656d63";
    "707928732d3e73615f61646472362c2026696e";
    "362e73696e365f616464722c2073697a656f66" ].

Definition elf_3 : list string :=
  [ "28732d3e73615f616464723629293b0020202020";
    "20202020732d3e73615f706f7274203d20696e";
    "362e73696e365f706f72743b00303a3400202020";
    "2020202020732d3e73615f73636f70655f6964";
    "203d20696e362e73696e365f73636f70655f69";
    "643b00202020206270665f6d61705f7570646174";
    "655f656c656d2826696e666c696768742c2026";
    "69642c2026732c204250465f414e59293b007d00";
    "68616e646c655f7379735f65786974007261775f";
    "7472616365706f696e742f7379735f6578697400";
    "696e742068616e646c655f7379735f65786974";
    "28737472756374206270665f7261775f747261";
    "6365706f696e745f61726773202a637478290020";
    "20202073203d206270665f6d61705f6c6f6f6b";
    "75705f656c656d2826696e666c696768742c20";
    "266964293b002020202069662028217329002020";
    "202065203d206270665f72696e676275665f72";
    "65736572766528266576656e74732c2073697a";
    "656f66282a65292c2030293b0020202020696620";
    "28216529207b0020202020652d3e74676964203d";
    "20746769643b0020202020652d3e706964203d20";
    "28696e742969643b0020202020652d3e73797363";
    "616c6c5f6964203d20732d3e73797363616c6c";
    "5f69643b0020202020652d3e726574203d20286c";
    "6f6e67206c6f6e67296374782d3e617267735b";
    "315d3b0020202020652d3e617267735b305d203d";
    "20732d3e617267735b305d3b0020202020652d3e";
    "617267735b315d203d20732d3e617267735b31";
    "5d3b0020202020652d3e617267735b325d203d20";
    "732d3e617267735b325d3b0020202020652d3e61";
    "7267735b335d203d20732d3e617267735b335d";
    "3b0020202020652d3e617267735b345d203d2073";
    "2d3e617267735b345d3b0020202020652d3e6172";
    "67735b355d203d20732d3e617267735b355d3b00";
    "202020205f5f6275696c74696e5f6d656d6370";
    "7928652d3e636f6d6d2c20732d3e636f6d6d2c";
    "2073697a656f6628652d3e636f6d6d29293b0020";
    "2020205f5f6275696c74696e5f6d656d637079";
    "28652d3e7374722c20732d3e7374722c207369";
    "7a656f6628652d3e73747229293b002020202065";
    "2d3e7374725f6c656e203d20732d3e7374725f";
    "6c656e3b0020202020652d3e73615f66616d696c";
    "79203d20732d3e73615f66616d696c793b002020";
    "2020652d3e73615f706f7274203d20732d3e73";
    "615f706f72743b0020202020652d3e73615f6164";
    "647234203d20732d3e73615f61646472343b0020";
    "2020205f5f6275696c74696e5f6d656d637079";
    "28652d3e73615f61646472362c20732d3e7361";
    "5f61646472362c2073697a656f6628652d3e73";
    "615f616464723629293b0020202020652d3e7361";
    "5f73636f70655f6964203d20732d3e73615f73";
    "636f70655f69643b0020202020652d3e73615f76";
    "616c6964203d20732d3e73615f76616c69643b00";
    "202020206270665f72696e676275665f737562";
    "6d697428652c2030293b004c4943454e53450074";
    "61726765745f74676964002e6d617073002e726f";
    "64617461006c6963656e7365000000009feb010020000000";
    "0000000024000000240000002408000048080000040100000800000023";
    "010000010000000000000021000000fd09000001000000000000003c000000";
    "10000000230100004f000000000000003c0100007301000000400200";
    "100000003c010000ad01000018480200800100003c010000d2";
    "0100001e5c0200880100003c010000fd0100000a68020090";
    "0100003c010000fd01000008680200980100003c0100002202";
    "000009780200b00100003c010000220200001a780200b80100";
    "003c0100002202000025780200c00100003c01000053020000";
    "0f6c0200c80100003c0100002202000009780200d0010000";
    "3c0100006e02000019880200d80100003c0100006e02000012";
    "880200f80100003c010000b302000007940200080200003c";
    "010000b302000011940200400200003c0100006e0200001988";
    "0200480200003c010000dd02000011980200580200003c0100";
    "00dd02000011980200600200003c010000dd0200000f980200";
    "880200003c0100006e02000019880200900200003c0100000d";
    "030000119c0200a00200003c0100000d030000119c0200a8";
    "0200003c0100000d0300000f9c0200d00200003c0100006e02";
    "000019880200d80200003c0100003d03000011a00200e80200";
    "003c0100003d03000011a00200f00200003c0100003d030000";
    "0fa00200180300003c0100006e0200001988020020030000";
    "3c0100006d03000011a40200300300003c0100006d03000011";
    "a40200380300003c0100006d0300000fa40200580300003c";
    "0100006e02000019880200600300003c0100001a04000011a8";
    "0200780300003c0100001a04000011a80200800300003c0100";
    "001a0400000fa80200880300003c010000480400001dac0200";
    "980300003c0100004804000005ac0200a80300003c010000dd";
    "02000005980200b80300003c0100007b0400000c240100c0";
    "0300003c0100007b04000024240100e00300003c01000000000000";
    "00000000e80300003c010000be04000009380100f00300003c01";
    "0000ca04000024480100000400003c010000ca04000009480100";
    "300400003c01000006050000094c0100380400003c01000015";
    "05000014500100400400003c0100003b0500000c78010048";
    "0400003c0100003b05000025780100880400003c0100009a05";
    "000015840100900400003c010000ba05000009880100980400";
    "003c010000ca05000017980100a00400003c01000000000000000000";
    "00d80400003c010000ee05000009ac0100e80400003c01000000";
    "00000000000000f00400003c0100000c06000009bc010010050000";
    "3c0100000c06000009bc0100180500003c0100004d06000014";
    "c80100200500003c0100004d06000012c80100280500003c";
    "010000680600001fd00100480500003c010000ae0600001cd4";
    "0100680500003c010000d30600000de00100780500003c0100";
    "00d30600000de00100880500003c0100001207000015f40100";
    "a00500003c010000960700001aec0100a80500003c01000096";
    "07000014ec0100b00500003c010000bf07000024f00100b8";
    "0500003c010000bf07000015f00100c80500003c010000ea07";
    "000020040200e80500003c010000320800001d080200180600";
    "003c010000580800000d140200300600003c01000058080000";
    "0d140200400600003c01000012070000152c020070060000";
    "3c0100001509000009240200b00600003c010000610900001a";
    "200200b80600003c0100006109000014200200c00600003c";
    "010000890900001e280200c80600003c010000890900001828";
    "0200d80600003c0100000000000000000000f00600003c010000b509";
    "000005c40200100700003c010000eb09000001cc0200fd0900";
    "0032000000000000003c010000150a000000d80200080000003c010000";
    "fd0100000af40200180000003c010000fd01000008f4020020";
    "0000003c010000530200000ff80200280000003c01000022020000";
    "09040300400000003c010000220200001a040300480000003c";
    "0100002202000025040300500000003c010000220200000904";
    "0300600000003c0100000000000000000000680000003c0100004e0a0000";
    "09140300880000003c0100007b0a000009180300900000003c";
    "010000870a000009280300b80000003c010000bc0a0000092c";
    "0300c00000003c010000ca0a00000d480300c80000003c010000";
    "de0a0000134c0300d00000003c010000de0a00000c4c0300d8";
    "0000003c010000f40a000018500300e00000003c010000f40a0000";
    "13500300e80000003c010000170b000019540300f00000003c";
    "010000170b00000c540300f80000003c0100003d0b00001260";
    "0300000100003c0100003d0b000010600300080100003c010000";
    "5a0b000012640300100100003c0100005a0b000010640300";
    "180100003c010000770b000012680300200100003c01000077";
    "0b000010680300280100003c010000940b0000126c030030";
    "0100003c010000940b0000106c0300380100003c010000b10b";
    "000012700300400100003c010000b10b000010700300480100";
    "003c010000ce0b000012740300500100003c010000ce0b0000";
    "10740300580100003c010000eb0b0000057c030078010000";
    "3c010000240c000005800300780300003c0100005a0c000015";
    "840300800300003c0100005a0c000010840300880300003c";
    "010000770c0000178c0300900300003c010000770c0000128c";
    "0300980300003c010000980c000015900300a00300003c0100";
    "00980c000010900300a80300003c010000b50c000016940300";
    "b00300003c010000b50c000011940300b80300003c010000d4";
    "0c000005980300f80300003c010000190d0000199c03000004";
    "00003c010000190d0000149c0300080400003c0100003e0d0000";
    "16a00300100400003c0100003e0d000011a0030018040000";
    "3c0100005d0d000005ac0300380400003c0100000000000000000000";
    "580400003c010000eb09000001b8030010000000230100000e00";
    "0000800100001e000000cc01000000000000d00100001e000000680200";
    "0000000000e001000022000000cc01000000000000200200002200000068";
    "0200000000000068020000220000000703000000000000b0020000220000" ].

Definition elf_4 : list string :=
  [ "003703000000000000f802000022000000670300000000000040030000";
    "240000001004000000000000a00500002d0000009207000000000000b0";
    "0500002d000000b907000000000000480600003400000011090000000000";
    "0080060000340000001109000000000000b00600003400000092070000";
    "00000000c0060000340000008509000000000000fd09000001000000e800";
    "00001e000000680200000000000000000000000000000000000000000000000000000000";
    "00000000000003000300000000000000000000000000000000000a01000000000300";
    "d0010000000000000000000000000000e400000000000300100700000000000000";
    "00000000000000dd00000000000300e00300000000000000000000000000002101";
    "00000000030048040000000000000000000000000000cf000000000003004004";
    "0000000000000000000000000000f300000000000300d0060000000000000000000000";
    "000000110100000000030088040000000000000000000000000000fb0000000000";
    "0300c80400000000000000000000000000001901000000000300c805000000";
    "000000000000000000000000000000030005000000000000000000000000000000000003";
    "0100000000050058000000000000000000000000000000d60000000000050058";
    "040000000000000000000000000000ec000000000005003004000000000000000000";
    "00000000005600000012000300000000000000000020070000000000009a000000";
    "110008000000000000000000040000000000000040000000110009000000000000";
    "000000200000000000000014000000120005000000000000000000680400000000";
    "0000490000001100090020000000000000001000000000000000c70000001100";
    "070000000000000000000d00000000000000980100000000000001000000100000";
    "00f0060000000000000100000011000000280000000000000001000000100000";
    "006800000000000000010000001100000090000000000000000100000013000000";
    "40040000000000000100000011000000a00600000000000004000000110000";
    "00ac060000000000000400000013000000c406000000000000030000001000";
    "0000dc0600000000000004000000140000002c00000000000000040000000100";
    "00003c00000000000000040000000b000000500000000000000004000000010000";
    "006000000000000000040000000100000070000000000000000400000001000000";
    "8000000000000000040000000100000090000000000000000400000001000000";
    "a0000000000000000400000001000000b0000000000000000400000001000000";
    "c0000000000000000400000001000000d0000000000000000400000001000000";
    "e0000000000000000400000001000000f000000000000000040000000100000000";
    "01000000000000040000000100000010010000000000000400000001000000";
    "20010000000000000400000001000000300100000000000004000000010000";
    "00400100000000000004000000010000005001000000000000040000000100";
    "00006001000000000000040000000100000070010000000000000400000001";
    "00000080010000000000000400000001000000900100000000000004000000";
    "01000000a0010000000000000400000001000000b001000000000000040000";
    "0001000000c0010000000000000400000001000000d0010000000000000400";
    "000001000000e0010000000000000400000001000000f00100000000000004";
    "0000000100000000020000000000000400000001000000100200000000000004";
    "00000001000000200200000000000004000000010000003002000000000000";
    "04000000010000004002000000000000040000000100000050020000000000";
    "00040000000100000060020000000000000400000001000000700200000000";
    "00000400000001000000800200000000000004000000010000009002000000";
    "0000000400000001000000a0020000000000000400000001000000b0020000";
    "000000000400000001000000c0020000000000000400000001000000d00200";
    "00000000000400000001000000e0020000000000000400000001000000f002";
    "0000000000000400000001000000000300000000000004000000010000001003";
    "00000000000004000000010000002003000000000000040000000100000030";
    "03000000000000040000000100000040030000000000000400000001000000";
    "50030000000000000400000001000000600300000000000004000000010000";
    "00700300000000000004000000010000008003000000000000040000000100";
    "000090030000000000000400000001000000a0030000000000000400000001";
    "000000b0030000000000000400000001000000c00300000000000004000000";
    "01000000d0030000000000000400000001000000e003000000000000040000";
    "0001000000f00300000000000004000000010000000004000000000000040000";
    "00010000001004000000000000040000000100000020040000000000000400";
    "00000100000030040000000000000400000001000000400400000000000004";
    "00000001000000500400000000000004000000010000006004000000000000";
    "04000000010000007004000000000000040000000100000080040000000000";
    "00040000000100000090040000000000000400000001000000a00400000000";
    "00000400000001000000b0040000000000000400000001000000c004000000";
    "0000000400000001000000d0040000000000000400000001000000e0040000";
    "000000000400000001000000f004000000000000040000000100000000050000";
    "00000000040000000100000010050000000000000400000001000000200500";
    "00000000000400000001000000300500000000000004000000010000004805";
    "000000000000040000000b0000005805000000000000040000000b00000068";
    "05000000000000040000000b0000007805000000000000040000000b000000";
    "8805000000000000040000000b0000009805000000000000040000000b0000";
    "00a805000000000000040000000b000000b805000000000000040000000b00";
    "0000c805000000000000040000000b000000d805000000000000040000000b";
    "000000e805000000000000040000000b000000f80500000000000004000000";
    "0b0000000806000000000000040000000b0000001806000000000000040000";
    "000b0000002806000000000000040000000b00000038060000000000000400";
    "00000b0000004806000000000000040000000b000000580600000000000004";
    "0000000b0000006806000000000000040000000b0000007806000000000000";
    "040000000b0000008806000000000000040000000b00000098060000000000";
    "00040000000b000000a806000000000000040000000b000000b80600000000";
    "0000040000000b000000c806000000000000040000000b000000d806000000";
    "000000040000000b000000e806000000000000040000000b000000f8060000";
    "00000000040000000b0000000807000000000000040000000b000000180700";
    "0000000000040000000b0000002807000000000000040000000b0000003807";
    "000000000000040000000b0000004807000000000000040000000b00000058";
    "07000000000000040000000b0000006807000000000000040000000b000000";
    "7807000000000000040000000b0000008807000000000000040000000b0000";
    "009807000000000000040000000b000000a807000000000000040000000b00";
    "0000b807000000000000040000000b000000c807000000000000040000000b";
    "000000d807000000000000040000000b000000e80700000000000004000000";
    "0b000000f807000000000000040000000b0000000808000000000000040000";
    "000b0000001808000000000000040000000b00000028080000000000000400";
    "00000b0000003808000000000000040000000b000000480800000000000004";
    "0000000b0000005808000000000000040000000b0000007408000000000000";
    "04000000010000008408000000000000040000000100000094080000000000";
    "000400000001000000a4080000000000000400000001000000b40800000000";
    "00000400000001000000c4080000000000000400000001000000d408000000";
    "0000000400000001000000e4080000000000000400000001000000f4080000";
    "00000000040000000100000004090000000000000400000001000000140900";
    "00000000000400000001000000240900000000000004000000010000003409";
    "0000000000000400000001000000440900000000000004000000010000005c";
    "09000000000000040000000b000000191c1e1a1b1d002e746578";
    "74002e72656c2e4254462e6578740068616e646c";
    "655f7379735f65786974002e72656c7261775f74";
    "72616365706f696e742f7379735f657869740069";
    "6e666c69676874006576656e7473002e6d61707300";
    "68616e646c655f7379735f656e746572002e7265";
    "6c7261775f7472616365706f696e742f737973";
    "5f656e746572002e6c6c766d5f61646472736967";
    "006c6963656e7365007461726765745f7467696400";
    "2e737472746162002e73796d746162002e726f64";
    "617461002e72656c2e425446004c4943454e534500";
    "4c4242305f39004c4242315f36004c4242305f3600";
    "4c4242305f3236004c4242315f35004c4242305f";
    "3235004c4242305f3135004c4242315f32004c4242";
    "305f32004c4242305f3132004c4242305f3231004c";
    "4242305f3130000000000000000000000000000000000000000000000000000000";
    "000000000000000000000000000000000000000000000000000000000000000000000000000000";
    "a60000000300000000000000000000000000000000000000c63500000000000029";
    "0100000000000000000000000000000100000000000000000000000000000001000000";
    "010000000600000000000000000000000000000040000000000000000000000000000000";
    "0000000000000000040000000000000000000000000000006b00000001000000060000";
    "000000000000000000000000004000000000000000200700000000000000000000000000";
    "0008000000000000000000000000000000670000000900000040000000000000000000";
    "000000000000002c00000000000020000000000000000f0000000300000008000000";
    "0000000010000000000000002800000001000000060000000000000000000000000000";
    "00600700000000000068040000000000000000000000000000080000000000000000";
    "00000000000000240000000900000040000000000000000000000000000000202c00";
    "000000000040000000000000000f0000000500000008000000000000001000000000";
    "000000920000000100000003000000000000000000000000000000c80b0000000000";
    "000d00000000000000000000000000000001000000000000000000000000000000b60000";
    "000100000002000000000000000000000000000000d80b0000000000000400000000";
    "0000000000000000000000040000000000000000000000000000005000000001000000";
    "03000000000000000000000000000000e00b0000000000003000000000000000000000";
    "000000000008000000000000000000000000000000c20000000100000000000000000000";
    "000000000000000000100c0000000000008914000000000000000000000000000004";
    "000000000000000000000000000000be0000000900000040000000000000000000000000";
    "000000602c00000000000040000000000000000f0000000a000000080000000000";
    "000010000000000000000b00000001000000000000000000000000000000000000009c";
    "200000000000006c090000000000000000000000000000040000000000000000000000";
    "00000000070000000900000040000000000000000000000000000000a02c00000000";
    "000020090000000000000f0000000c000000080000000000000010000000000000";
    "0084000000034cff6f00000080000000000000000000000000c03500000000";
    "00000600000000000000000000000000000001000000000000000000000000000000ae00";
    "00000200000000000000000000000000000000000000082a000000000000f8010000";
    "00000000010000000f00000008000000000000001800000000000000" ].

(** All of them. *)
Definition elf_bytes : bytes :=
  mjoin (unhex <$> elf_1 ++ elf_2 ++ elf_3 ++ elf_4).
