(* ===== verification/ElfObject.v ===== *)
(** * Reading the embedded object file

    The ELF structures of akita-include/kernel-headers/include/uapi/linux/elf.h
    and the instruction format and helper numbers of
    ebpf-android-sdk/include/linux/bpf.h, applied to the object of the
    skeleton: its sections, symbols and compiled programs. *)

From stdpp Require Import base list gmap strings.
From Stdlib Require Import ZArith Lia.
From S2P Require Import Prelude CLib Layout StraceTypes Host StraceSkel ElfBlob.

Local Open Scope string_scope.
Local Open Scope list_scope.
Local Open Scope Z_scope.

(** ** ELF structures *)

Definition Elf64_Ehdr : fields :=
  [("e_ident", char_array 16); ("e_type", TInt 2); ("e_machine", TInt 2); ("e_version", TInt 4);
   ("e_entry", TInt 8); ("e_phoff", TInt 8); ("e_shoff", TInt 8); ("e_flags", TInt 4);
   ("e_ehsize", TInt 2); ("e_phentsize", TInt 2); ("e_phnum", TInt 2); ("e_shentsize", TInt 2);
   ("e_shnum", TInt 2); ("e_shstrndx", TInt 2)].

Definition Elf64_Shdr : fields :=
  [("sh_name", TInt 4); ("sh_type", TInt 4); ("sh_flags", TInt 8); ("sh_addr", TInt 8);
   ("sh_offset", TInt 8); ("sh_size", TInt 8); ("sh_link", TInt 4); ("sh_info", TInt 4);
   ("sh_addralign", TInt 8); ("sh_entsize", TInt 8)].

Definition Elf64_Sym : fields :=
  [("st_name", TInt 4); ("st_info", TInt 1); ("st_other", TInt 1); ("st_shndx", TInt 2);
   ("st_value", TInt 8); ("st_size", TInt 8)].

Definition EM_BPF : Z := 247.
Definition SHT_SYMTAB : Z := 2.
Definition STT_OBJECT : Z := 1.
Definition STT_FUNC : Z := 2.

(** ** Helper numbers *)

Definition func_mapper_1 : list string :=
  [ "unspec"; "map_lookup_elem"; "map_update_elem"; "map_delete_elem"; "probe_read";
    "ktime_get_ns"; "trace_printk"; "get_prandom_u32"; "get_smp_processor_id";
    "skb_store_bytes"; "l3_csum_replace"; "l4_csum_replace"; "tail_call"; "clone_redirect";
    "get_current_pid_tgid"; "get_current_uid_gid"; "get_current_comm";
    "get_cgroup_classid"; "skb_vlan_push"; "skb_vlan_pop"; "skb_get_tunnel_key";
    "skb_set_tunnel_key"; "perf_event_read"; "redirect"; "get_route_realm";
    "perf_event_output"; "skb_load_bytes"; "get_stackid"; "csum_diff";
    "skb_get_tunnel_opt"; "skb_set_tunnel_opt"; "skb_change_proto"; "skb_change_type";
    "skb_under_cgroup"; "get_hash_recalc"; "get_current_task"; "probe_write_user";
    "current_task_under_cgroup"; "skb_change_tail"; "skb_pull_data"; "csum_update";
    "set_hash_invalid"; "get_numa_node_id"; "skb_change_head"; "xdp_adjust_head";
    "probe_read_str"; "get_socket_cookie"; "get_socket_uid"; "set_hash"; "setsockopt";
    "skb_adjust_room"; "redirect_map"; "sk_redirect_map"; "sock_map_update";
    "xdp_adjust_meta"; "perf_event_read_value"; "perf_prog_read_value"; "getsockopt";
    "override_return"; "sock_ops_cb_flags_set"; "msg_redirect_map"; "msg_apply_bytes";
    "msg_cork_bytes"; "msg_pull_data"; "bind"; "xdp_adjust_tail"; "skb_get_xfrm_state";
    "get_stack"; "skb_load_bytes_relative"; "fib_lookup"; "sock_hash_update";
    "msg_redirect_hash"; "sk_redirect_hash"; "lwt_push_encap"; "lwt_seg6_store_bytes";
    "lwt_seg6_adjust_srh"; "lwt_seg6_action"; "rc_repeat"; "rc_keydown"; "skb_cgroup_id";
    "get_current_cgroup_id"; "get_local_storage"; "sk_select_reuseport";
    "skb_ancestor_cgroup_id"; "sk_lookup_tcp"; "sk_lookup_udp"; "sk_release";
    "map_push_elem"; "map_pop_elem"; "map_peek_elem"; "msg_push_data"; "msg_pop_data";
    "rc_pointer_rel"; "spin_lock"; "spin_unlock"; "sk_fullsock"; "tcp_sock";
    "skb_ecn_set_ce"; "get_listener_sock"; "skc_lookup_tcp"; "tcp_check_syncookie";
    "sysctl_get_name"; "sysctl_get_current_value"; "sysctl_get_new_value";
    "sysctl_set_new_value"; "strtol"; "strtoul"; "sk_storage_get"; "sk_storage_delete";
    "send_signal"; "tcp_gen_syncookie"; "skb_output"; "probe_read_user";
    "probe_read_kernel"; "probe_read_user_str"; "probe_read_kernel_str"; "tcp_send_ack";
    "send_signal_thread"; "jiffies64"; "read_branch_records"; "get_ns_current_pid_tgid";
    "xdp_output"; "get_netns_cookie"; "get_current_ancestor_cgroup_id"; "sk_assign";
    "ktime_get_boot_ns"; "seq_printf"; "seq_write"; "sk_cgroup_id";
    "sk_ancestor_cgroup_id"; "ringbuf_output"; "ringbuf_reserve"; "ringbuf_submit";
    "ringbuf_discard"; "ringbuf_query"; "csum_level"; "skc_to_tcp6_sock";
    "skc_to_tcp_sock"; "skc_to_tcp_timewait_sock"; "skc_to_tcp_request_sock" ].

Definition func_mapper_2 : list string :=
  [ "skc_to_udp6_sock"; "get_task_stack"; "load_hdr_opt"; "store_hdr_opt";
    "reserve_hdr_opt"; "inode_storage_get"; "inode_storage_delete"; "d_path";
    "copy_from_user"; "snprintf_btf"; "seq_printf_btf"; "skb_cgroup_classid";
    "redirect_neigh"; "per_cpu_ptr"; "this_cpu_ptr"; "redirect_peer"; "task_storage_get";
    "task_storage_delete"; "get_current_task_btf"; "bprm_opts_set"; "ktime_get_coarse_ns";
    "ima_inode_hash"; "sock_from_file"; "check_mtu"; "for_each_map_elem"; "snprintf";
    "sys_bpf"; "btf_find_by_name_kind"; "sys_close"; "timer_init"; "timer_set_callback";
    "timer_start"; "timer_cancel"; "get_func_ip"; "get_attach_cookie"; "task_pt_regs";
    "get_branch_snapshot"; "trace_vprintk"; "skc_to_unix_sock"; "kallsyms_lookup_name";
    "find_vma"; "loop"; "strncmp"; "get_func_arg"; "get_func_ret"; "get_func_arg_cnt";
    "get_retval"; "set_retval"; "xdp_get_buff_len"; "xdp_load_bytes"; "xdp_store_bytes";
    "copy_from_user_task"; "skb_set_tstamp"; "ima_file_hash"; "kptr_xchg";
    "map_lookup_percpu_elem"; "skc_to_mptcp_sock"; "dynptr_from_mem";
    "ringbuf_reserve_dynptr"; "ringbuf_submit_dynptr"; "ringbuf_discard_dynptr";
    "dynptr_read"; "dynptr_write"; "dynptr_data"; "tcp_raw_gen_syncookie_ipv4";
    "tcp_raw_gen_syncookie_ipv6"; "tcp_raw_check_syncookie_ipv4";
    "tcp_raw_check_syncookie_ipv6"; "ktime_get_tai_ns" ].

(** [enum bpf_func_id]: the names in order, counted from 0. *)
Definition bpf_func_name (id : Z) : option string :=
  if id <? 0 then None else (func_mapper_1 ++ func_mapper_2) !! Z.to_nat id.

(** ** Instructions *)

Record bpf_insn := Insn { i_code : Z; i_dst : Z; i_src : Z; i_off : Z; i_imm : Z }.

Definition insn_fields : fields :=
  [("code", TInt 1); ("regs", TInt 1); ("off", TInt 2); ("imm", TInt 4)].

Definition decode_insn (m : bytes) : bpf_insn :=
  let regs := get_uint insn_fields "regs" m in
  Insn (get_uint insn_fields "code" m) (Z.land regs 15) (Z.shiftr regs 4)
    (get_sint insn_fields "off" m) (get_sint insn_fields "imm" m).

Fixpoint decode_insns (fuel : nat) (m : bytes) : list bpf_insn :=
  match fuel, m with
  | S fuel, _ :: _ => decode_insn m :: decode_insns fuel (drop 8 m)
  | _, _ => []
  end.

Definition Elf64_Rel : fields := [("r_offset", TInt 8); ("r_info", TInt 8)].

(** ** The object *)

Section Object.
Context (elf : bytes).

Definition ehdr (n : string) : Z := get_uint Elf64_Ehdr n elf.

(** The header of section [i]. *)
Definition shdr (i : nat) : bytes :=
  drop (Z.to_nat (ehdr "e_shoff" + Z.of_nat i * ehdr "e_shentsize")) elf.

Definition sh (n : string) (i : nat) : Z := get_uint Elf64_Shdr n (shdr i).

Definition sections : list nat := seq 0 (Z.to_nat (ehdr "e_shnum")).

Definition section_bytes (i : nat) : bytes :=
  load (Z.to_nat (sh "sh_offset" i)) (Z.to_nat (sh "sh_size" i)) elf.

(** The string at [off] of string table [i]. *)
Definition strtab (i : nat) (off : Z) : option bytes := cstr (drop (Z.to_nat off) (section_bytes i)).

Definition section_name (i : nat) : option bytes :=
  strtab (Z.to_nat (ehdr "e_shstrndx")) (sh "sh_name" i).

Definition find_section (name : bytes) : option nat :=
  head (filter (fun i => section_name i = Some name) sections).

Definition symtab : option nat := head (filter (fun i => sh "sh_type" i = SHT_SYMTAB) sections).

(** Entries of [size] bytes. *)
Fixpoint entries (fuel : nat) (size : nat) (m : bytes) : list bytes :=
  match fuel, m with
  | S fuel, _ :: _ => take size m :: entries fuel size (drop size m)
  | _, _ => []
  end.

Definition symbols : list bytes :=
  match symtab with
  | Some i => entries (length elf) (struct_size Elf64_Sym) (section_bytes i)
  | None => []
  end.

Definition sym_name (s : bytes) : option bytes :=
  i ← symtab; strtab (Z.to_nat (sh "sh_link" i)) (get_uint Elf64_Sym "st_name" s).

Definition sym_type (s : bytes) : Z := Z.land (get_uint Elf64_Sym "st_info" s) 15.

Definition find_symbol (name : bytes) : option bytes :=
  head (filter (fun s => sym_name s = Some name) symbols).

(** The section and the bytes of a symbol of the given type. *)
Definition symbol_bytes (type : Z) (name : bytes) : option (bytes * bytes) :=
  s ← find_symbol name;
  if sym_type s =? type then
    let i := Z.to_nat (get_uint Elf64_Sym "st_shndx" s) in
    sec ← section_name i;
    Some (sec, load (Z.to_nat (get_uint Elf64_Sym "st_value" s))
                 (Z.to_nat (get_uint Elf64_Sym "st_size" s)) (section_bytes i))
  else None.

(** A program: its section and its instructions. *)
Definition object_program (name : bytes) : option (bytes * list bpf_insn) :=
  '(sec, m) ← symbol_bytes STT_FUNC name; Some (sec, decode_insns (length m) m).

(** The relocations of a section: instruction and symbol. *)
Definition relocations (sec : bytes) : option (list (Z * option bytes)) :=
  i ← find_section (B ".rel" ++ sec);
  Some ((fun r => (get_uint Elf64_Rel "r_offset" r / 8,
                   s ← symbols !! Z.to_nat (Z.shiftr (get_uint Elf64_Rel "r_info" r) 32);
                   sym_name s))
        <$> entries (length elf) (struct_size Elf64_Rel) (section_bytes i)).
End Object.

(** ** Control flow *)

Definition is_jump (i : bpf_insn) : bool :=
  (Z.land (i_code i) 7 =? 5) || (Z.land (i_code i) 7 =? 6).
Definition is_exit (i : bpf_insn) : bool := i_code i =? 149.
Definition is_call (i : bpf_insn) : bool := i_code i =? 133.
Definition is_goto (i : bpf_insn) : bool := i_code i =? 5.
(** a 64-bit immediate takes two slots *)
Definition is_wide (i : bpf_insn) : bool := i_code i =? 24.

(** The instructions that may follow the one at [pc]. *)
Definition succs (code : list bpf_insn) (pc : nat) : list nat :=
  match code !! pc with
  | None => []
  | Some i =>
      let target := Z.to_nat (Z.of_nat pc + 1 + i_off i) in
      if is_exit i then []
      else if is_call i then [S pc]
      else if is_goto i then [target]
      else if is_jump i then [S pc; target]
      else if is_wide i then [S (S pc)]
      else [S pc]
  end.

Inductive path (code : list bpf_insn) : nat -> list nat -> Prop :=
| path_nil pc : path code pc []
| path_cons pc next pcs : next ∈ succs code pc -> path code next pcs -> path code pc (next :: pcs).

(** Where instructions start. *)
Fixpoint starts (code : list bpf_insn) (pc : nat) (skip : bool) : list nat :=
  match code with
  | [] => []
  | i :: code => if skip then starts code (S pc) false else pc :: starts code (S pc) (is_wide i)
  end.

(** Every branch goes forward to the start of an instruction, and only an exit
    has no successor. *)
Definition flow_ok (code : list bpf_insn) : bool :=
  let st := starts code 0 false in
  forallb (fun pc =>
    forallb (fun next => (pc <? next)%nat && existsb (Nat.eqb next) st) (succs code pc) &&
    match code !! pc with
    | Some i => is_exit i || negb (length (succs code pc) =? 0)%nat
    | None => false
    end) st.

(** The helpers a program calls, in the order of its instructions. *)
Definition calls_of (code : list bpf_insn) : list (option string) :=
  bpf_func_name ∘ i_imm <$> filter (fun i => is_call i = true) code.

(** ** Properties *)

Lemma starts_range code pc skip p : p ∈ starts code pc skip -> (pc <= p < pc + length code)%nat.
Proof.
  revert pc skip. induction code as [|i code IH]; intros pc skip; simpl; [set_solver|].
  destruct skip; [intros ?%IH; lia|]. intros [->|?%IH]%elem_of_cons; lia.
Qed.

Lemma flow_step code pc next :
  flow_ok code = true -> pc ∈ starts code 0 false -> next ∈ succs code pc ->
  (pc < next)%nat /\ next ∈ starts code 0 false.
Proof.
  unfold flow_ok. intros Hf Hpc Hn. rewrite forallb_forall in Hf.
  specialize (Hf pc (proj1 (list_elem_of_In _ _) Hpc)). apply andb_true_iff in Hf as [Hf _].
  rewrite forallb_forall in Hf. specialize (Hf next (proj1 (list_elem_of_In _ _) Hn)).
  apply andb_true_iff in Hf as [Hlt Hex]. apply Nat.ltb_lt in Hlt. split; [done|].
  apply existsb_exists in Hex as (x & Hx & ->%Nat.eqb_eq). by apply list_elem_of_In.
Qed.

Lemma flow_end code pc :
  flow_ok code = true -> pc ∈ starts code 0 false -> succs code pc = [] ->
  exists i, code !! pc = Some i /\ is_exit i = true.
Proof.
  unfold flow_ok. intros Hf Hpc Hs. rewrite forallb_forall in Hf.
  specialize (Hf pc (proj1 (list_elem_of_In _ _) Hpc)). apply andb_true_iff in Hf as [_ Hf].
  rewrite Hs in Hf. destruct (code !! pc) as [i|]; [|done]. exists i. split; [done|].
  simpl in Hf. by destruct (is_exit i).
Qed.

Lemma last_from (next d : nat) pcs : List.last (next :: pcs) d = List.last pcs next.
Proof.
  revert next d. induction pcs as [|p pcs IH]; intros next d; [done|].
  change (List.last (p :: pcs) d = List.last (p :: pcs) next). by rewrite !IH.
Qed.

Lemma program_flow p :
  p ∈ skel_progs ->
  exists sec code, object_program elf_bytes (B (pk_name p)) = Some (sec, code) /\
    flow_ok code = true /\ 0%nat ∈ starts code 0 false.
Proof.
  assert (Forall (fun p => match object_program elf_bytes (B (pk_name p)) with
    | Some (_, code) => flow_ok code && bool_decide (0%nat ∈ starts code 0 false)
    | None => false end = true) skel_progs) as Hall by (repeat constructor; vm_compute; reflexivity).
  intros Hp. rewrite Forall_forall in Hall. specialize (Hall p Hp).
  destruct (object_program elf_bytes (B (pk_name p))) as [[sec code]|]; [|done].
  apply andb_true_iff in Hall as [Hf Hs]. exists sec, code. split_and!; [done..|].
  by apply bool_decide_eq_true in Hs.
Qed.

Lemma flow_path code pc pcs :
  flow_ok code = true -> path code pc pcs -> pc ∈ starts code 0 false ->
  (pc + length pcs < length code)%nat /\ List.last pcs pc ∈ starts code 0 false.
Proof.
  intros Hf Hp. induction Hp as [pc|pc next pcs Hn Hp IH]; intros Hpc.
  - apply starts_range in Hpc as ?. simpl. split; [lia|done].
  - destruct (flow_step _ _ _ Hf Hpc Hn) as [Hlt Hst]. destruct (IH Hst) as [Hl Hlast].
    split; [simpl; lia|]. by rewrite last_from.
Qed.

(** The embedded object terminates.  In each of the two programs of the
    skeleton every branch goes forward to the start of an instruction, so every
    path through the code is shorter than the code, and it can only stop at an
    exit instruction. *)
Theorem object_programs_terminate p :
  p ∈ skel_progs ->
  exists sec code, object_program elf_bytes (B (pk_name p)) = Some (sec, code) /\
    forall pcs, path code 0 pcs -> (length pcs < length code)%nat /\
      (succs code (List.last pcs 0%nat) = [] ->
       exists i, code !! List.last pcs 0%nat = Some i /\ is_exit i = true).
Proof.
  intros Hp. destruct (program_flow p Hp) as (sec & code & Ho & Hf & H0).
  exists sec, code. split; [done|]. intros pcs Hpath. destruct (flow_path _ _ _ Hf Hpath H0) as [Hl Hs].
  split; [lia|]. by apply flow_end.
Qed.

(** The skeleton and its object agree: the object has the announced size
    and is a BPF object; each program is a function symbol in the section of
    its tracepoint and each of the two maps of the source an object symbol in
    .maps; the read-only data is the single [int] target_tgid, zero until the
    loader stores the filter. *)
Theorem skeleton_matches_object :
  Z.of_nat (length elf_bytes) = elf_size /\ ehdr elf_bytes "e_machine" = EM_BPF /\
  (fun p => fst <$> object_program elf_bytes (B (pk_name p))) <$> skel_progs
    = [Some (B "raw_tracepoint/sys_enter"); Some (B "raw_tracepoint/sys_exit")] /\
  (fun m => fst <$> symbol_bytes elf_bytes STT_OBJECT (B (ms_name m))) <$> take 2 skel_maps
    = [Some (B ".maps"); Some (B ".maps")] /\
  symbol_bytes elf_bytes STT_OBJECT (B "target_tgid") = Some (B ".rodata", [0; 0; 0; 0]) /\
  section_bytes elf_bytes <$> find_section elf_bytes (B ".rodata") = Some [0; 0; 0; 0] /\
  section_bytes elf_bytes <$> find_section elf_bytes (B "license") = Some (B "Dual BSD/GPL" ++ [0]).
Proof. split_and!; vm_compute; reflexivity. Qed.

(** The compiled programs use the helpers and the objects the source
    uses: the entry program reads the filter, the ids, six registers, the
    command name, the string and the address, and updates the map; the exit
    program looks the call up, reserves, submits and deletes. *)
Theorem object_calls_helpers :
  calls_of ∘ snd <$> object_program elf_bytes (B "handle_sys_enter")
  = Some (Some <$> ["get_current_pid_tgid"; "probe_read_kernel"; "probe_read_kernel";
      "probe_read_kernel"; "probe_read_kernel"; "probe_read_kernel"; "probe_read_kernel";
      "get_current_comm"; "probe_read_user_str"; "probe_read_user"; "probe_read_user";
      "probe_read_user"; "map_update_elem"]) /\
  calls_of ∘ snd <$> object_program elf_bytes (B "handle_sys_exit")
  = Some (Some <$> ["get_current_pid_tgid"; "map_lookup_elem"; "ringbuf_reserve"; "ringbuf_submit";
      "map_delete_elem"]) /\
  (fun l => l.*2) <$> relocations elf_bytes (B "raw_tracepoint/sys_enter")
  = Some [Some (B "target_tgid"); Some (B "inflight")] /\
  (fun l => l.*2) <$> relocations elf_bytes (B "raw_tracepoint/sys_exit")
  = Some [Some (B "target_tgid"); Some (B "inflight"); Some (B "events"); Some (B "inflight")].
Proof. split_and!; vm_compute; reflexivity. Qed.
