(* ===== verification/BpfInsn.v ===== *)
(** * BPF instructions

    The instruction formats of linux/bpf_common.h and linux/bpf.h, the macros of
    linux/filter.h that build instructions, and the decoder that inverts them. *)

From stdpp Require Import base list gmap strings.
From Stdlib Require Import ZArith Lia.
From S2P Require Import Prelude CLib Layout StraceTypes ElfObject.

Local Open Scope string_scope.
Local Open Scope list_scope.
Local Open Scope Z_scope.

(** [a .| b] is the bitwise or of C. *)
Declare Scope insn_scope.
Notation "a .| b" := (Z.lor a b) (at level 50, left associativity) : insn_scope.
Local Open Scope insn_scope.

(** ** Fields of an opcode *)

(** [BPF_CLASS] *)
Inductive insn_class := C_LD | C_LDX | C_ST | C_STX | C_ALU | C_JMP | C_JMP32 | C_ALU64.

Definition BPF_CLASS (code : Z) : Z := Z.land code 7.
Definition BPF_SIZE (code : Z) : Z := Z.land code 24.
Definition BPF_MODE (code : Z) : Z := Z.land code 224.
Definition BPF_OP (code : Z) : Z := Z.land code 240.
Definition BPF_SRC (code : Z) : Z := Z.land code 8.

Definition class_code (c : insn_class) : Z :=
  match c with
  | C_LD => 0 | C_LDX => 1 | C_ST => 2 | C_STX => 3
  | C_ALU => 4 | C_JMP => 5 | C_JMP32 => 6 | C_ALU64 => 7
  end.

Inductive mem_size := BPF_W | BPF_H | BPF_B | BPF_DW.

Definition size_code (s : mem_size) : Z :=
  match s with BPF_W => 0 | BPF_H => 8 | BPF_B => 16 | BPF_DW => 24 end.

(** [bpf_size_to_bytes] *)
Definition bpf_size_to_bytes (s : mem_size) : nat :=
  match s with BPF_B => 1 | BPF_H => 2 | BPF_W => 4 | BPF_DW => 8 end.

(** [bytes_to_bpf_size], with [-EINVAL] as [None]. *)
Definition bytes_to_bpf_size (bytes : nat) : option mem_size :=
  if (bytes =? 1)%nat then Some BPF_B
  else if (bytes =? 2)%nat then Some BPF_H
  else if (bytes =? 4)%nat then Some BPF_W
  else if (bytes =? 8)%nat then Some BPF_DW
  else None.

Lemma bytes_to_bpf_size_iff n s : bytes_to_bpf_size n = Some s <-> n = bpf_size_to_bytes s.
Proof.
  split; [|by intros ->; destruct s]. unfold bytes_to_bpf_size.
  repeat (match goal with |- context [(n =? ?k)%nat] => destruct (Nat.eqb_spec n k) as [->|_]; [by intros [= <-]|] end).
  done.
Qed.

Definition BPF_IMM : Z := 0.
Definition BPF_ABS : Z := 32.
Definition BPF_IND : Z := 64.
Definition BPF_MEM : Z := 96.
Definition BPF_ATOMIC : Z := 192.
Definition BPF_NOSPEC : Z := 192.
Definition BPF_K : Z := 0.
Definition BPF_X : Z := 8.

Inductive alu_op :=
  BPF_ADD | BPF_SUB | BPF_MUL | BPF_DIV | BPF_OR | BPF_AND | BPF_LSH | BPF_RSH | BPF_NEG | BPF_MOD
| BPF_XOR | BPF_MOV | BPF_ARSH.

Definition alu_code (op : alu_op) : Z :=
  match op with
  | BPF_ADD => 0 | BPF_SUB => 16 | BPF_MUL => 32 | BPF_DIV => 48 | BPF_OR => 64 | BPF_AND => 80
  | BPF_LSH => 96 | BPF_RSH => 112 | BPF_NEG => 128 | BPF_MOD => 144 | BPF_XOR => 160
  | BPF_MOV => 176 | BPF_ARSH => 192
  end.

(** Byte order: the target of [BPF_END]. *)
Definition BPF_END : Z := 208.
Inductive byte_order := BPF_TO_LE | BPF_TO_BE.

Definition order_code (o : byte_order) : Z := match o with BPF_TO_LE => 0 | BPF_TO_BE => 8 end.

(** Atomic operations, with or without the old value in the source register. *)
Definition BPF_FETCH : Z := 1.
Inductive atomic_op := AtAdd (fetch : bool) | AtOr (fetch : bool) | AtAnd (fetch : bool) | AtXor (fetch : bool)
| BPF_XCHG | BPF_CMPXCHG.

Definition fetch_code (fetch : bool) : Z := if fetch then BPF_FETCH else 0.

Definition atomic_code (op : atomic_op) : Z :=
  match op with
  | AtAdd f => alu_code BPF_ADD .| fetch_code f
  | AtOr f => alu_code BPF_OR .| fetch_code f
  | AtAnd f => alu_code BPF_AND .| fetch_code f
  | AtXor f => alu_code BPF_XOR .| fetch_code f
  | BPF_XCHG => 224 .| BPF_FETCH
  | BPF_CMPXCHG => 240 .| BPF_FETCH
  end.

Inductive jmp_op :=
  BPF_JEQ | BPF_JGT | BPF_JGE | BPF_JSET | BPF_JNE | BPF_JSGT | BPF_JSGE | BPF_JLT | BPF_JLE
| BPF_JSLT | BPF_JSLE.

Definition jmp_code (op : jmp_op) : Z :=
  match op with
  | BPF_JEQ => 16 | BPF_JGT => 32 | BPF_JGE => 48 | BPF_JSET => 64 | BPF_JNE => 80
  | BPF_JSGT => 96 | BPF_JSGE => 112 | BPF_JLT => 160 | BPF_JLE => 176 | BPF_JSLT => 192
  | BPF_JSLE => 208
  end.

Definition BPF_JA : Z := 0.
Definition BPF_CALL : Z := 128.
Definition BPF_EXIT : Z := 144.
Definition BPF_PSEUDO_MAP_FD : Z := 1.
Definition BPF_PSEUDO_CALL : Z := 1.

#[export] Instance mem_size_eq_dec : EqDecision mem_size.
Proof. solve_decision. Defined.
#[export] Instance alu_op_eq_dec : EqDecision alu_op.
Proof. solve_decision. Defined.
#[export] Instance jmp_op_eq_dec : EqDecision jmp_op.
Proof. solve_decision. Defined.
#[export] Instance bpf_insn_eq_dec : EqDecision bpf_insn.
Proof. solve_decision. Defined.

(** ** The macros of filter.h *)

Definition BPF_ALU64_REG (op : alu_op) (dst src : Z) : bpf_insn :=
  Insn (class_code C_ALU64 .| alu_code op .| BPF_X) dst src 0 0.
Definition BPF_ALU32_REG (op : alu_op) (dst src : Z) : bpf_insn :=
  Insn (class_code C_ALU .| alu_code op .| BPF_X) dst src 0 0.
Definition BPF_ALU64_IMM (op : alu_op) (dst imm : Z) : bpf_insn :=
  Insn (class_code C_ALU64 .| alu_code op .| BPF_K) dst 0 0 imm.
Definition BPF_ALU32_IMM (op : alu_op) (dst imm : Z) : bpf_insn :=
  Insn (class_code C_ALU .| alu_code op .| BPF_K) dst 0 0 imm.

Definition BPF_ENDIAN (type : byte_order) (dst len : Z) : bpf_insn :=
  Insn (class_code C_ALU .| BPF_END .| order_code type) dst 0 0 len.

Definition BPF_MOV64_REG (dst src : Z) : bpf_insn :=
  Insn (class_code C_ALU64 .| alu_code BPF_MOV .| BPF_X) dst src 0 0.
Definition BPF_MOV32_REG (dst src : Z) : bpf_insn :=
  Insn (class_code C_ALU .| alu_code BPF_MOV .| BPF_X) dst src 0 0.
Definition BPF_MOV64_IMM (dst imm : Z) : bpf_insn :=
  Insn (class_code C_ALU64 .| alu_code BPF_MOV .| BPF_K) dst 0 0 imm.
Definition BPF_MOV32_IMM (dst imm : Z) : bpf_insn :=
  Insn (class_code C_ALU .| alu_code BPF_MOV .| BPF_K) dst 0 0 imm.

Definition BPF_MOV64_RAW (type dst src imm : Z) : bpf_insn :=
  Insn (class_code C_ALU64 .| alu_code BPF_MOV .| BPF_SRC type) dst src 0 imm.
Definition BPF_MOV32_RAW (type dst src imm : Z) : bpf_insn :=
  Insn (class_code C_ALU .| alu_code BPF_MOV .| BPF_SRC type) dst src 0 imm.

(** A 32-bit move marked as a zero extension by its immediate. *)
Definition BPF_ZEXT_REG (dst : Z) : bpf_insn :=
  Insn (class_code C_ALU .| alu_code BPF_MOV .| BPF_X) dst dst 0 1.
Definition insn_is_zext (i : bpf_insn) : bool :=
  (i_code i =? (class_code C_ALU .| alu_code BPF_MOV .| BPF_X)) && (i_imm i =? 1).

(** Two slots: the low and the high half of the immediate. *)
Definition BPF_LD_IMM64_RAW (dst src imm : Z) : bpf_insn * bpf_insn :=
  (Insn (class_code C_LD .| size_code BPF_DW .| BPF_IMM) dst src 0 (sint 32 imm),
   Insn 0 0 0 0 (sint 32 (Z.shiftr (uint 64 imm) 32))).

Definition BPF_LD_IMM64 (dst imm : Z) : bpf_insn * bpf_insn := BPF_LD_IMM64_RAW dst 0 imm.
Definition BPF_LD_MAP_FD (dst map_fd : Z) : bpf_insn * bpf_insn :=
  BPF_LD_IMM64_RAW dst BPF_PSEUDO_MAP_FD map_fd.

(** Packet accesses: relative to the start, and with an index register. *)
Definition BPF_LD_ABS (s : mem_size) (imm : Z) : bpf_insn :=
  Insn (class_code C_LD .| size_code s .| BPF_ABS) 0 0 0 imm.
Definition BPF_LD_IND (s : mem_size) (src imm : Z) : bpf_insn :=
  Insn (class_code C_LD .| size_code s .| BPF_IND) 0 src 0 imm.

Definition BPF_LDX_MEM (s : mem_size) (dst src off : Z) : bpf_insn :=
  Insn (class_code C_LDX .| size_code s .| BPF_MEM) dst src off 0.
Definition BPF_STX_MEM (s : mem_size) (dst src off : Z) : bpf_insn :=
  Insn (class_code C_STX .| size_code s .| BPF_MEM) dst src off 0.
Definition BPF_ATOMIC_OP (s : mem_size) (op : atomic_op) (dst src off : Z) : bpf_insn :=
  Insn (class_code C_STX .| size_code s .| BPF_ATOMIC) dst src off (atomic_code op).
Definition BPF_STX_XADD (s : mem_size) (dst src off : Z) : bpf_insn :=
  BPF_ATOMIC_OP s (AtAdd false) dst src off.
Definition BPF_ST_MEM (s : mem_size) (dst off imm : Z) : bpf_insn :=
  Insn (class_code C_ST .| size_code s .| BPF_MEM) dst 0 off imm.

Definition BPF_JMP_REG (op : jmp_op) (dst src off : Z) : bpf_insn :=
  Insn (class_code C_JMP .| jmp_code op .| BPF_X) dst src off 0.
Definition BPF_JMP_IMM (op : jmp_op) (dst imm off : Z) : bpf_insn :=
  Insn (class_code C_JMP .| jmp_code op .| BPF_K) dst 0 off imm.
Definition BPF_JMP32_REG (op : jmp_op) (dst src off : Z) : bpf_insn :=
  Insn (class_code C_JMP32 .| jmp_code op .| BPF_X) dst src off 0.
Definition BPF_JMP32_IMM (op : jmp_op) (dst imm off : Z) : bpf_insn :=
  Insn (class_code C_JMP32 .| jmp_code op .| BPF_K) dst 0 off imm.
Definition BPF_JMP_A (off : Z) : bpf_insn := Insn (class_code C_JMP .| BPF_JA) 0 0 off 0.

Definition BPF_CALL_REL (tgt : Z) : bpf_insn :=
  Insn (class_code C_JMP .| BPF_CALL) 0 BPF_PSEUDO_CALL 0 tgt.

Definition BPF_RAW_INSN (code dst src off imm : Z) : bpf_insn := Insn code dst src off imm.
Definition BPF_EXIT_INSN : bpf_insn := Insn (class_code C_JMP .| BPF_EXIT) 0 0 0 0.
Definition BPF_ST_NOSPEC : bpf_insn := Insn (class_code C_ST .| BPF_NOSPEC) 0 0 0 0.

(** ** Instructions as data *)

Inductive operand := Reg (r : Z) | Imm (i : Z).

Inductive instr :=
| IAlu (is64 : bool) (op : alu_op) (dst : Z) (src : operand)
| IEnd (order : byte_order) (dst len : Z)
| ILdImm64 (dst src imm : Z)
| ILdAbs (s : mem_size) (imm : Z)
| ILdInd (s : mem_size) (src imm : Z)
| ILdx (s : mem_size) (dst src off : Z)
| IStx (s : mem_size) (dst src off : Z)
| IAtomic (s : mem_size) (op : atomic_op) (dst src off : Z)
| ISt (s : mem_size) (dst off imm : Z)
| INospec
| IJmp (is64 : bool) (op : jmp_op) (dst : Z) (src : operand) (off : Z)
| IJa (off : Z)
| ICall (func : Z)
| ICallRel (tgt : Z)
| IExit.

(** The slots of an instruction, by the macro that builds it.  In an object file
    the immediate of a call is the number of the helper. *)
Definition encode (i : instr) : list bpf_insn :=
  match i with
  | IAlu true op dst (Reg src) => [BPF_ALU64_REG op dst src]
  | IAlu true op dst (Imm imm) => [BPF_ALU64_IMM op dst imm]
  | IAlu false op dst (Reg src) => [BPF_ALU32_REG op dst src]
  | IAlu false op dst (Imm imm) => [BPF_ALU32_IMM op dst imm]
  | IEnd order dst len => [BPF_ENDIAN order dst len]
  | ILdAbs s imm => [BPF_LD_ABS s imm]
  | ILdInd s src imm => [BPF_LD_IND s src imm]
  | ILdImm64 dst src imm => let '(a, b) := BPF_LD_IMM64_RAW dst src imm in [a; b]
  | ILdx s dst src off => [BPF_LDX_MEM s dst src off]
  | IStx s dst src off => [BPF_STX_MEM s dst src off]
  | IAtomic s op dst src off => [BPF_ATOMIC_OP s op dst src off]
  | INospec => [BPF_ST_NOSPEC]
  | ISt s dst off imm => [BPF_ST_MEM s dst off imm]
  | IJmp true op dst (Reg src) off => [BPF_JMP_REG op dst src off]
  | IJmp true op dst (Imm imm) off => [BPF_JMP_IMM op dst imm off]
  | IJmp false op dst (Reg src) off => [BPF_JMP32_REG op dst src off]
  | IJmp false op dst (Imm imm) off => [BPF_JMP32_IMM op dst imm off]
  | IJa off => [BPF_JMP_A off]
  | ICall func => [BPF_RAW_INSN (class_code C_JMP .| BPF_CALL) 0 0 0 func]
  | ICallRel tgt => [BPF_CALL_REL tgt]
  | IExit => [BPF_EXIT_INSN]
  end.

(** ** Decoding *)

Definition sizes : list mem_size := [BPF_W; BPF_H; BPF_B; BPF_DW].
Definition alu_ops : list alu_op :=
  [BPF_ADD; BPF_SUB; BPF_MUL; BPF_DIV; BPF_OR; BPF_AND; BPF_LSH; BPF_RSH; BPF_NEG; BPF_MOD;
   BPF_XOR; BPF_MOV; BPF_ARSH].
Definition jmp_ops : list jmp_op :=
  [BPF_JEQ; BPF_JGT; BPF_JGE; BPF_JSET; BPF_JNE; BPF_JSGT; BPF_JSGE; BPF_JLT; BPF_JLE;
   BPF_JSLT; BPF_JSLE].

Definition atomic_ops : list atomic_op :=
  [AtAdd false; AtAdd true; AtOr false; AtOr true; AtAnd false; AtAnd true; AtXor false; AtXor true;
   BPF_XCHG; BPF_CMPXCHG].

Definition by_code {A} (f : A -> Z) (l : list A) (z : Z) : option A :=
  head (filter (fun x => f x = z) l).

Definition size_of (code : Z) : option mem_size := by_code size_code sizes (BPF_SIZE code).
Definition alu_of (code : Z) : option alu_op := by_code alu_code alu_ops (BPF_OP code).
Definition jmp_of (code : Z) : option jmp_op := by_code jmp_code jmp_ops (BPF_OP code).

Definition atomic_of (imm : Z) : option atomic_op := by_code atomic_code atomic_ops imm.

Definition operand_of (i : bpf_insn) : operand :=
  if BPF_SRC (i_code i) =? BPF_X then Reg (i_src i) else Imm (i_imm i).

(** A one-slot instruction.  The forms that no macro above builds are refused. *)
Definition decode1 (i : bpf_insn) : option instr :=
  let code := i_code i in
  let cls := BPF_CLASS code in
  if cls =? class_code C_ALU64 then op ← alu_of code; Some (IAlu true op (i_dst i) (operand_of i))
  else if cls =? class_code C_ALU then
    if BPF_OP code =? BPF_END then
      Some (IEnd (if BPF_SRC code =? order_code BPF_TO_BE then BPF_TO_BE else BPF_TO_LE) (i_dst i) (i_imm i))
    else op ← alu_of code; Some (IAlu false op (i_dst i) (operand_of i))
  else if cls =? class_code C_LDX then
    if BPF_MODE code =? BPF_MEM then s ← size_of code; Some (ILdx s (i_dst i) (i_src i) (i_off i))
    else None
  else if cls =? class_code C_STX then
    if BPF_MODE code =? BPF_MEM then s ← size_of code; Some (IStx s (i_dst i) (i_src i) (i_off i))
    else if BPF_MODE code =? BPF_ATOMIC then
      s ← size_of code; op ← atomic_of (i_imm i); Some (IAtomic s op (i_dst i) (i_src i) (i_off i))
    else None
  else if cls =? class_code C_ST then
    if BPF_MODE code =? BPF_MEM then s ← size_of code; Some (ISt s (i_dst i) (i_off i) (i_imm i))
    else if code =? (class_code C_ST .| BPF_NOSPEC) then Some INospec
    else None
  else if cls =? class_code C_JMP then
    if code =? (class_code C_JMP .| BPF_JA) then Some (IJa (i_off i))
    else if code =? (class_code C_JMP .| BPF_CALL) then
      if i_src i =? 0 then Some (ICall (i_imm i))
      else if i_src i =? BPF_PSEUDO_CALL then Some (ICallRel (i_imm i)) else None
    else if code =? (class_code C_JMP .| BPF_EXIT) then Some IExit
    else op ← jmp_of code; Some (IJmp true op (i_dst i) (operand_of i) (i_off i))
  else if cls =? class_code C_JMP32 then
    op ← jmp_of code; Some (IJmp false op (i_dst i) (operand_of i) (i_off i))
  else if BPF_MODE code =? BPF_ABS then s ← size_of code; Some (ILdAbs s (i_imm i))
  else if BPF_MODE code =? BPF_IND then s ← size_of code; Some (ILdInd s (i_src i) (i_imm i))
  else None.

Definition decode2 (i j : bpf_insn) : instr :=
  ILdImm64 (i_dst i) (i_src i) (uint 32 (i_imm i) + Z.shiftl (uint 32 (i_imm j)) 32).

(** The instruction that starts in each slot of a program. *)
Fixpoint decode_prog (code : list bpf_insn) : option (list (option instr)) :=
  match code with
  | [] => Some []
  | i :: code =>
      if is_wide i then
        match code with
        | [] => None
        | j :: code => slots ← decode_prog code; Some (Some (decode2 i j) :: None :: slots)
        end
      else
        ins ← decode1 i; slots ← decode_prog code; Some (Some ins :: slots)
  end.

Definition slots_of (i : instr) : list (option instr) :=
  match i with ILdImm64 _ _ _ => [Some i; None] | _ => [Some i] end.

(** ** Bytes *)

Definition insn_bytes (i : bpf_insn) : bytes :=
  put_int insn_fields "code" (i_code i)
    (put_int insn_fields "regs" (Z.lor (i_dst i) (Z.shiftl (i_src i) 4))
      (put_int insn_fields "off" (i_off i)
        (put_int insn_fields "imm" (i_imm i) (replicate (struct_size insn_fields) 0)))).

Definition assemble (p : list instr) : bytes := concat (insn_bytes <$> concat (encode <$> p)).

Definition disassemble (m : bytes) : option (list (option instr)) :=
  decode_prog (decode_insns (length m) m).

(** ** Round trip *)

Definition is_reg (r : Z) : Prop := is_uint 4 r.

Definition wf_operand (o : operand) : Prop :=
  match o with Reg r => is_reg r | Imm i => is_sint 32 i end.

Definition wf_instr (i : instr) : Prop :=
  match i with
  | IAlu _ _ dst src => is_reg dst /\ wf_operand src
  | IEnd _ dst len => is_reg dst /\ is_sint 32 len
  | ILdAbs _ imm => is_sint 32 imm
  | ILdInd _ src imm => is_reg src /\ is_sint 32 imm
  | ILdImm64 dst src imm => is_reg dst /\ is_reg src /\ is_uint 64 imm
  | ILdx _ dst src off | IStx _ dst src off | IAtomic _ _ dst src off => is_reg dst /\ is_reg src /\ is_sint 16 off
  | ISt _ dst off imm => is_reg dst /\ is_sint 16 off /\ is_sint 32 imm
  | IJmp _ _ dst src off => is_reg dst /\ wf_operand src /\ is_sint 16 off
  | IJa off => is_sint 16 off
  | ICall imm | ICallRel imm => is_sint 32 imm
  | INospec | IExit => True
  end.

(** The members of an instruction fit their bit fields. *)
Record wf_insn (i : bpf_insn) : Prop := {
  wi_code : is_uint 8 (i_code i);
  wi_dst : is_reg (i_dst i);
  wi_src : is_reg (i_src i);
  wi_off : is_sint 16 (i_off i);
  wi_imm : is_sint 32 (i_imm i);
}.

Lemma uint_halves x : is_uint 64 x -> uint 32 x + Z.shiftl (uint 32 (Z.shiftr x 32)) 32 = x.
Proof.
  unfold is_uint, uint. intros Hx. rewrite Z.shiftl_mul_pow2, Z.shiftr_div_pow2 by lia.
  rewrite (Z.mod_small (x / 2 ^ 32)).
  - rewrite (Z.div_mod x (2 ^ 32)) at 3 by lia. lia.
  - split; [apply Z.div_pos; lia|]. apply Z.div_lt_upper_bound; lia.
Qed.

Lemma decode_encode i rest :
  wf_instr i ->
  decode_prog (encode i ++ rest) = (fun slots => slots_of i ++ slots) <$> decode_prog rest.
Proof.
  destruct i as [[] op dst [src|imm]|[] dst len|dst src imm|s imm|s src imm|s dst src off|s dst src off
                |s op dst src off|s dst off imm| |[] op dst [src|imm] off|off|func|tgt|]; intros Hwf.
  all: try (destruct op; reflexivity).
  all: try (destruct s; reflexivity).
  all: try (destruct s, op as [[]|[]|[]|[]| |]; reflexivity).
  all: try reflexivity.
  destruct Hwf as (_ & _ & Hi). simpl. destruct (decode_prog rest) as [slots|]; simpl; [|done].
  unfold decode2. simpl. do 3 f_equal.
  rewrite !uint_sint by lia. rewrite (uint_id 64) by done. f_equal. by apply uint_halves.
Qed.

Lemma decode_encode_prog p :
  Forall wf_instr p -> decode_prog (concat (encode <$> p)) = Some (concat (slots_of <$> p)).
Proof.
  induction 1 as [|i p Hi _ IH]; [done|]. cbn [fmap list_fmap concat].
  rewrite decode_encode by done. change (list_fmap _ _ encode p) with (encode <$> p).
  by rewrite IH.
Qed.

(** The other macros build instructions of the same forms; the mark of a zero
    extension does not change what the instruction is. *)
Lemma derived_insns dst src imm s off :
  decode1 (BPF_MOV64_REG dst src) = Some (IAlu true BPF_MOV dst (Reg src)) /\
  decode1 (BPF_MOV32_REG dst src) = Some (IAlu false BPF_MOV dst (Reg src)) /\
  decode1 (BPF_MOV64_IMM dst imm) = Some (IAlu true BPF_MOV dst (Imm imm)) /\
  decode1 (BPF_MOV32_IMM dst imm) = Some (IAlu false BPF_MOV dst (Imm imm)) /\
  BPF_MOV64_RAW BPF_X dst src 0 = BPF_MOV64_REG dst src /\ BPF_MOV32_RAW BPF_K dst 0 imm = BPF_MOV32_IMM dst imm /\
  decode1 (BPF_ZEXT_REG dst) = decode1 (BPF_MOV32_REG dst dst) /\
  insn_is_zext (BPF_ZEXT_REG dst) = true /\ insn_is_zext (BPF_MOV32_REG dst src) = false /\
  decode1 (BPF_STX_XADD s dst src off) = Some (IAtomic s (AtAdd false) dst src off).
Proof. split_and!; try reflexivity. by destruct s. Qed.

Lemma is_reg_zero : is_reg 0.
Proof. unfold is_reg, is_uint. lia. Qed.

Lemma is_sint_zero w : 0 < w -> is_sint w 0.
Proof. intros. unfold is_sint. pose proof (Z.pow_pos_nonneg 2 (w - 1)). lia. Qed.

Lemma encode_wf i : wf_instr i -> Forall wf_insn (encode i).
Proof.
  pose proof is_reg_zero. pose proof (is_sint_zero 16 eq_refl). pose proof (is_sint_zero 32 eq_refl).
  assert (forall z, is_sint 32 (sint 32 z)) by (intros; apply sint_range; lia).
  assert (forall op, is_sint 32 (atomic_code op)) by (intros [[]|[]|[]|[]| |]; vm_compute; done).
  assert (forall c, (0 <=? c) && (c <? 256) = true -> is_uint 8 c) as Hc
    by (intros c; unfold is_uint; lia).
  destruct i as [[] op dst [src|imm]|[] dst len|dst src imm|s imm|s src imm|s dst src off|s dst src off
                |s op dst src off|s dst off imm| |[] op dst [src|imm] off|off|func|tgt|]; simpl; intros Hwf; destruct_and?;
    repeat (apply Forall_cons; split); try apply Forall_nil; auto; split; simpl; auto;
    apply Hc; try destruct op; try destruct s; reflexivity.
Qed.

Lemma insn_aligned : aligned insn_fields.
Proof. apply (bool_decide_unpack _). vm_compute. done. Qed.

Lemma length_insn_bytes i : length (insn_bytes i) = 8%nat.
Proof. unfold insn_bytes. by rewrite !length_put_int by (done || apply insn_aligned). Qed.

(** Reading a member of an instruction ignores what follows it. *)
Lemma get_field_app n m rest :
  length m = 8%nat -> get_field insn_fields n (m ++ rest) = get_field insn_fields n m.
Proof.
  intros Hm. unfold get_field. destruct (field_at insn_fields n) as [[o t]|] eqn:E; [|done].
  pose proof (field_in_struct _ _ _ _ insn_aligned E) as Hr.
  change (struct_size insn_fields) with 8%nat in Hr. unfold load.
  rewrite drop_app_le by lia. rewrite take_app_le; [done|]. rewrite length_drop. lia.
Qed.

Lemma nibbles d s : is_reg d -> is_reg s ->
  let r := uint 8 (Z.lor d (Z.shiftl s 4)) in Z.land r 15 = d /\ Z.shiftr r 4 = s.
Proof.
  unfold is_reg, is_uint. intros Hd Hs. cbv zeta.
  assert (forallb (fun d => forallb (fun s =>
    (Z.land (uint 8 (Z.lor d (Z.shiftl s 4))) 15 =? d) && (Z.shiftr (uint 8 (Z.lor d (Z.shiftl s 4))) 4 =? s))
    (Z.of_nat <$> seq 0 16)) (Z.of_nat <$> seq 0 16) = true) as Hall by reflexivity.
  assert (forall x, 0 <= x < 2 ^ 4 -> In x (Z.of_nat <$> seq 0 16)) as Hin.
  { intros x Hx. apply list_elem_of_In, list_elem_of_fmap. exists (Z.to_nat x).
    split; [lia|]. apply elem_of_seq. lia. }
  rewrite forallb_forall in Hall. specialize (Hall d (Hin d Hd)).
  rewrite forallb_forall in Hall. specialize (Hall s (Hin s Hs)). lia.
Qed.

Lemma get_insn_bytes i n bs :
  assoc n [("imm", le_bytes 4 (i_imm i)); ("off", le_bytes 2 (i_off i));
    ("regs", le_bytes 1 (Z.lor (i_dst i) (Z.shiftl (i_src i) 4))); ("code", le_bytes 1 (i_code i))]
    = Some bs ->
  get_field insn_fields n (insn_bytes i) = bs.
Proof.
  intros Ha. etransitivity; [|eapply (get_apply_writes insn_fields insn_aligned _
    (replicate (struct_size insn_fields) 0)); [done| | |exact Ha]].
  - reflexivity.
  - repeat constructor; apply length_le_bytes.
  - apply (bool_decide_unpack _). done.
Qed.

Lemma decode_insn_bytes i rest : wf_insn i -> decode_insn (insn_bytes i ++ rest) = i.
Proof.
  intros [Hc Hd Hs Ho Hi]. unfold decode_insn, get_sint, get_uint.
  rewrite !get_field_app by apply length_insn_bytes.
  rewrite (get_insn_bytes i "code" _ eq_refl), (get_insn_bytes i "regs" _ eq_refl),
    (get_insn_bytes i "off" _ eq_refl), (get_insn_bytes i "imm" _ eq_refl).
  rewrite !le_value_le_bytes.
  change (8 * Z.of_nat (field_size insn_fields "off")) with 16.
  change (8 * Z.of_nat (field_size insn_fields "imm")) with 32.
  change (8 * Z.of_nat 1) with 8. change (8 * Z.of_nat 2) with 16. change (8 * Z.of_nat 4) with 32.
  destruct (nibbles _ _ Hd Hs) as [-> ->].
  rewrite !sint_uint, !sint_id, uint_id by (done || lia). by destruct i.
Qed.

Lemma decode_insns_bytes l fuel :
  Forall wf_insn l -> (length l <= fuel)%nat -> decode_insns fuel (concat (insn_bytes <$> l)) = l.
Proof.
  intros Hl. revert fuel. induction Hl as [|i l Hi _ IH]; intros fuel Hf; [by destruct fuel|].
  simpl in Hf. destruct fuel as [|fuel]; [lia|]. cbn [fmap list_fmap concat].
  change (list_fmap _ _ insn_bytes l) with (insn_bytes <$> l).
  pose proof (length_insn_bytes i) as Hb.
  assert (exists b m, insn_bytes i ++ concat (insn_bytes <$> l) = b :: m) as (b & m & E)
    by (destruct (insn_bytes i); [done|eauto]).
  cbn [decode_insns]. rewrite E. rewrite <- E, decode_insn_bytes by done.
  rewrite drop_app_length' by done. rewrite IH by lia. done.
Qed.

(** C24: assembling a program with the macros of filter.h and decoding the bytes
    gives the program back: the decoder that reads the embedded object inverts
    the instruction encoding. *)
Theorem disassemble_assemble p :
  Forall wf_instr p -> disassemble (assemble p) = Some (concat (slots_of <$> p)).
Proof.
  intros Hp. unfold disassemble, assemble.
  assert (Forall wf_insn (concat (encode <$> p))) as Hw.
  { apply Forall_concat, Forall_fmap. eapply Forall_impl; [exact Hp|]. apply encode_wf. }
  rewrite decode_insns_bytes; [by apply decode_encode_prog|done|].
  clear Hp. induction Hw as [|i l Hi _ IH]; [done|]. cbn [fmap list_fmap concat].
  rewrite length_app, length_insn_bytes. simpl. change (list_fmap _ _ insn_bytes l) with (insn_bytes <$> l). lia.
Qed.
