(* ===== verification/BpfMachine.v ===== *)
(** * The BPF machine

    What the kernel does with the instructions of a loaded program: eleven
    registers that hold numbers or pointers into an object (the classification
    of [enum bpf_reg_type] of linux/bpf.h), a stack of 512 bytes, and the helpers
    of [BpfIface] over byte memory.  An access outside an object, the use of an
    uninitialised register, a pointer stored as a number, a helper called with
    the wrong kind of argument, or a record that is never submitted makes the
    machine [Stuck]: what the kernel's verifier refuses to load.  The instruction
    set is the language of the embedded object; the machine is its semantics on a
    little-endian machine.  Packet accesses and calls between functions of the
    object, which a single tracepoint program cannot use, are stuck. *)

From stdpp Require Import base list gmap strings.
From Stdlib Require Import ZArith Lia.
From S2P Require Import Prelude CLib Layout BpfIface StraceTypes StraceBpf ElfObject BpfInsn.

Local Open Scope string_scope.
Local Open Scope list_scope.
Local Open Scope Z_scope.

(** ** Arithmetic *)

(** An immediate is sign-extended to 64 bits. *)
Definition imm64 (i : Z) : Z := if i <? 0 then i + 2 ^ 64 else i.

(** The signed reading of a 64-bit number. *)
Definition signed64 (z : Z) : Z := if z <? 2 ^ 63 then z else z - 2 ^ 64.

(** An operation on [w]-bit numbers; shift counts are taken modulo [w], and a
    division by zero gives 0, its remainder the dividend. *)
Definition alu (w : Z) (op : alu_op) (x y : Z) : Z :=
  match op with
  | BPF_ADD => uint w (x + y)
  | BPF_SUB => uint w (x - y)
  | BPF_MUL => uint w (x * y)
  | BPF_OR => uint w (Z.lor x y)
  | BPF_AND => uint w (Z.land x y)
  | BPF_XOR => uint w (Z.lxor x y)
  | BPF_LSH => uint w (Z.shiftl x (y mod w))
  | BPF_RSH => Z.shiftr (uint w x) (y mod w)
  | BPF_ARSH => uint w (Z.shiftr (sint w x) (y mod w))
  | BPF_NEG => uint w (- x)
  | BPF_MOV => uint w y
  | BPF_DIV => if uint w y =? 0 then 0 else uint w x / uint w y
  | BPF_MOD => if uint w y =? 0 then uint w x else uint w x mod uint w y
  end.

Definition jmp_test (w : Z) (op : jmp_op) (x y : Z) : bool :=
  match op with
  | BPF_JEQ => uint w x =? uint w y
  | BPF_JNE => negb (uint w x =? uint w y)
  | BPF_JGT => uint w y <? uint w x
  | BPF_JGE => uint w y <=? uint w x
  | BPF_JLT => uint w x <? uint w y
  | BPF_JLE => uint w x <=? uint w y
  | BPF_JSET => negb (Z.land (uint w x) (uint w y) =? 0)
  | BPF_JSGT => sint w y <? sint w x
  | BPF_JSGE => sint w y <=? sint w x
  | BPF_JSLT => sint w x <? sint w y
  | BPF_JSLE => sint w x <=? sint w y
  end.

(** [BPF_END]: the low [len] bits in the given byte order. *)
Definition endian (order : byte_order) (len x : Z) : option Z :=
  if bool_decide (len = 16 \/ len = 32 \/ len = 64) then
    let bs := le_bytes (Z.to_nat (len / 8)) x in
    Some (le_value (match order with BPF_TO_LE => bs | BPF_TO_BE => rev bs end))
  else None.

(** Little-endian order truncates; the other order twice does too. *)
Lemma endian_le len x : len = 16 \/ len = 32 \/ len = 64 -> endian BPF_TO_LE len x = Some (uint len x).
Proof.
  intros Hl. unfold endian. rewrite bool_decide_eq_true_2 by done. rewrite le_value_le_bytes.
  by destruct Hl as [->|[->| ->]].
Qed.

Lemma endian_be_twice len x :
  len = 16 \/ len = 32 \/ len = 64 ->
  (y ← endian BPF_TO_BE len x; endian BPF_TO_BE len y) = Some (uint len x).
Proof.
  intros Hl. unfold endian. rewrite !bool_decide_eq_true_2 by done. cbn [mbind option_bind].
  set (bs := le_bytes (Z.to_nat (len / 8)) x).
  assert (le_bytes (Z.to_nat (len / 8)) (le_value (rev bs)) = rev bs) as ->.
  { rewrite <- (length_le_bytes (Z.to_nat (len / 8)) x) at 1. fold bs. rewrite <- (length_rev bs).
    apply le_bytes_le_value, Forall_rev, le_bytes_byte. }
  rewrite rev_involutive. unfold bs. rewrite le_value_le_bytes. by destruct Hl as [->|[->| ->]].
Qed.

(** What an atomic operation stores, from the old value, the source register and
    r0 (all of [w] bits). *)
Definition atomic (w : Z) (op : atomic_op) (old src r0 : Z) : Z :=
  match op with
  | AtAdd _ => alu w BPF_ADD old src
  | AtOr _ => alu w BPF_OR old src
  | AtAnd _ => alu w BPF_AND old src
  | AtXor _ => alu w BPF_XOR old src
  | BPF_XCHG => uint w src
  | BPF_CMPXCHG => if uint w r0 =? old then uint w src else old
  end.

(** The register that gets the old value. *)
Definition fetches (op : atomic_op) (src : Z) : option Z :=
  match op with
  | AtAdd f | AtOr f | AtAnd f | AtXor f => if f then Some src else None
  | BPF_XCHG => Some src
  | BPF_CMPXCHG => Some 0
  end.

Definition width (is64 : bool) : Z := if is64 then 64 else 32.

(** ** Values and objects *)

Inductive map_id := Inflight | Events.

(** The objects a pointer can point into: the context, the read-only data, the
    stack frame, the reserved ring-buffer record, the value the last lookup found
    in the hash map, and a map itself. *)
Inductive region := RCtx | RData | RStack | RRecord | RValue | RMap (m : map_id).

Inductive val := Undef | Scalar (z : Z) | Ptr (r : region) (off : Z).

Definition alu_val (is64 : bool) (op : alu_op) (x y : val) : option val :=
  match op, x, y with
  | BPF_MOV, _, Scalar z => Some (if is64 then Scalar z else Scalar (alu 32 BPF_MOV 0 z))
  | BPF_MOV, _, Ptr r o => if is64 then Some (Ptr r o) else None
  | BPF_ADD, Ptr r o, Scalar z => if is64 then Some (Ptr r (o + signed64 z)) else None
  | op, Scalar a, Scalar b => Some (Scalar (alu (width is64) op a b))
  | _, _, _ => None
  end.

(** A pointer is compared with NULL only. *)
Definition jmp_val (is64 : bool) (op : jmp_op) (x y : val) : option bool :=
  match x, y with
  | Scalar a, Scalar b => Some (jmp_test (width is64) op a b)
  | Ptr _ _, Scalar 0 =>
      match op with
      | BPF_JEQ => if is64 then Some false else None
      | BPF_JNE => if is64 then Some true else None
      | _ => None
      end
  | _, _ => None
  end.

(** Loads and stores at an integer offset. *)
Definition zload (o n : Z) (m : bytes) : bytes := load (Z.to_nat o) (Z.to_nat n) m.
Definition zstore (o : Z) (bs m : bytes) : bytes := store (Z.to_nat o) bs m.

Definition MAX_BPF_STACK : Z := 512.

(** Reads of kernel memory: result and contents of the destination. *)
Class BpfKernelRead (T : Type) := probe_read_kernel : T -> nat -> Z -> Z * bytes.

Class BpfLongLaws (T : Type) `{BpfTask T, BpfKernelRead T} := {
  read_kernel_length t n a : length (probe_read_kernel t n a).2 = n;
  read_kernel_byte t n a : Forall is_byte (probe_read_kernel t n a).2;
  (** an error is a negative errno *)
  read_user_errno t n a : -4095 <= (probe_read_user t n a).1;
}.

(** What a helper returns and what it writes. *)
Definition res_value (res : Z * bytes) : Z := res.1.
Definition res_bytes (res : Z * bytes) : bytes := res.2.

(** Sizes of the context (two arguments), of the read-only data, and of keys
    and values of the hash map. *)
Definition ctx_size : Z := 16.
Definition data_size : Z := 4.
Definition key_size : Z := 8.
Definition value_size : Z := 368.

Section Machine.
Context {T M R : Type} `{BpfTask T, BpfKernelRead T} `{BpfHash Z bytes M} `{BpfRingbuf R}.

Record mach := Mach {
  m_pc : nat;
  m_regs : list val;
  m_stack : bytes;
  m_kern : kern M R;
  (** size and contents of the record that is reserved and not submitted *)
  m_record : option (Z * bytes);
  (** key and value of the last lookup, until the map is changed *)
  m_value : option (Z * bytes);
}.

Inductive outcome := Running (st : mach) | Exited (r0 : Z) (k : kern M R) | Stuck.

(** What is fixed during a run: the program with its relocated immediates, the
    current task, the context and the read-only data. *)
Context (prog : list (option instr)) (reloc : nat -> option val).
Context (t : T) (ctx rodata : bytes).

(** ** Memory *)

Definition region_size (st : mach) (r : region) : Z :=
  match r with
  | RCtx => ctx_size
  | RData => data_size
  | RStack => MAX_BPF_STACK
  | RRecord => match m_record st with Some (n, _) => n | None => 0 end
  | RValue => value_size
  | RMap _ => 0
  end.

Definition region_bytes (st : mach) (r : region) : option bytes :=
  match r with
  | RCtx => Some ctx
  | RData => Some rodata
  | RStack => Some (m_stack st)
  | RRecord => snd <$> m_record st
  | RValue => snd <$> m_value st
  | RMap _ => None
  end.

Definition in_range (st : mach) (r : region) (o n : Z) : bool :=
  (0 <=? o) && (o + n <=? region_size st r).

Definition mem_load (st : mach) (p : val) (off n : Z) : option bytes :=
  match p with
  | Ptr r o => if in_range st r (o + off) n then zload (o + off) n <$> region_bytes st r else None
  | _ => None
  end.

Definition set_bytes (st : mach) (r : region) (m : bytes) : option mach :=
  match r with
  | RStack => Some (Mach (m_pc st) (m_regs st) m (m_kern st) (m_record st) (m_value st))
  | RRecord =>
      '(n, _) ← m_record st;
      Some (Mach (m_pc st) (m_regs st) (m_stack st) (m_kern st) (Some (n, m)) (m_value st))
  | RValue =>
      '(k, _) ← m_value st;
      let kn := m_kern st in
      Some (Mach (m_pc st) (m_regs st) (m_stack st)
              (Kern (hassign (k_inflight kn) k m) (k_events kn)) (m_record st) (Some (k, m)))
  | _ => None
  end.

(** The store of the [n] bytes [bs]. *)
Definition mem_store (st : mach) (p : val) (off n : Z) (bs : bytes) : option mach :=
  match p with
  | Ptr r o =>
      if in_range st r (o + off) n then
        m ← region_bytes st r; set_bytes st r (zstore (o + off) bs m)
      else None
  | _ => None
  end.

(** ** Registers *)

Definition reg (st : mach) (r : Z) : option val :=
  match m_regs st !! Z.to_nat r with Some Undef => None | v => v end.

Definition scalar (v : val) : option Z := match v with Scalar z => Some z | _ => None end.

Definition operand_val (st : mach) (o : operand) : option val :=
  match o with Reg r => reg st r | Imm i => Some (Scalar (imm64 i)) end.

(** The frame pointer is read-only. *)
Definition set_reg (st : mach) (r : Z) (v : val) : option mach :=
  if (0 <=? r) && (r <? 10) then
    Some (Mach (m_pc st) (<[Z.to_nat r := v]> (m_regs st)) (m_stack st) (m_kern st) (m_record st)
            (m_value st))
  else None.

Definition goto (st : mach) (pc : Z) : outcome :=
  Running (Mach (Z.to_nat pc) (m_regs st) (m_stack st) (m_kern st) (m_record st) (m_value st)).

(** ** Helpers

    Arguments are in r1 to r5. *)

Definition arg_scalar (st : mach) (i : Z) : option Z := v ← reg st i; scalar v.

Definition with_inflight (st : mach) (m : M) : mach :=
  Mach (m_pc st) (m_regs st) (m_stack st) (Kern m (k_events (m_kern st))) (m_record st) None.

Definition with_ring (st : mach) (r : R) (rec : option (Z * bytes)) : mach :=
  Mach (m_pc st) (m_regs st) (m_stack st) (Kern (k_inflight (m_kern st)) r) rec (m_value st).

Definition with_value (st : mach) (k : Z) (v : bytes) : mach :=
  Mach (m_pc st) (m_regs st) (m_stack st) (m_kern st) (m_record st) (Some (k, v)).

(** A result and the contents of the destination in r1, of the size in r2. *)
Definition fill (st : mach) (res : Z * bytes) : option (val * mach) :=
  dst ← reg st 1; n ← arg_scalar st 2; st' ← mem_store st dst 0 n (res_bytes res);
  Some (Scalar (uint 64 (res_value res)), st').

(** The key in r2 of the hash map in r1. *)
Definition map_key (st : mach) : option Z :=
  m ← reg st 1; p ← reg st 2;
  match m with Ptr (RMap Inflight) 0 => le_value <$> mem_load st p 0 key_size | _ => None end.

Definition helper (name : string) (st : mach) : option (val * mach) :=
  if String.eqb name "get_current_pid_tgid" then
    Some (Scalar (uint 64 (get_current_pid_tgid t)), st)
  else if String.eqb name "get_current_comm" then
    n ← arg_scalar st 2; fill st (get_current_comm t (Z.to_nat n))
  else if String.eqb name "probe_read_kernel" then
    n ← arg_scalar st 2; a ← arg_scalar st 3; fill st (probe_read_kernel t (Z.to_nat n) a)
  else if String.eqb name "probe_read_user" then
    n ← arg_scalar st 2; a ← arg_scalar st 3; fill st (probe_read_user t (Z.to_nat n) a)
  else if String.eqb name "probe_read_user_str" then
    dst ← reg st 1; n ← arg_scalar st 2; a ← arg_scalar st 3; old ← mem_load st dst 0 n;
    fill st (probe_read_user_str t old (Z.to_nat n) a)
  else if String.eqb name "map_lookup_elem" then
    k ← map_key st;
    Some (match hlookup (k_inflight (m_kern st)) k with
          | Some v => (Ptr RValue 0, with_value st k v)
          | None => (Scalar 0, st)
          end)
  else if String.eqb name "map_update_elem" then
    k ← map_key st; p ← reg st 3; v ← mem_load st p 0 value_size; f ← arg_scalar st 4;
    let '(r, m) := hupdate (k_inflight (m_kern st)) k v f in
    Some (Scalar (uint 64 r), with_inflight st m)
  else if String.eqb name "map_delete_elem" then
    k ← map_key st;
    let '(r, m) := hdelete (k_inflight (m_kern st)) k in
    Some (Scalar (uint 64 r), with_inflight st m)
  else if String.eqb name "ringbuf_reserve" then
    match reg st 1, reg st 2, reg st 3, m_record st with
    | Some (Ptr (RMap Events) 0), Some (Scalar n), Some (Scalar 0), None =>
        Some (match rb_reserve (k_events (m_kern st)) (Z.to_nat n) with
              | Some (slot, r) => (Ptr RRecord 0, with_ring st r (Some (n, slot)))
              | None => (Scalar 0, st)
              end)
    | _, _, _, _ => None
    end
  else if String.eqb name "ringbuf_submit" then
    match reg st 1, reg st 2, m_record st with
    | Some (Ptr RRecord 0), Some (Scalar 0), Some (_, rec) =>
        Some (Scalar 0, with_ring st (rb_submit (k_events (m_kern st)) rec) None)
    | _, _, _ => None
    end
  else None.

(** A call leaves its result in r0 and r1 to r5 undefined. *)
Definition call (st : mach) (f : Z) : option mach :=
  name ← bpf_func_name f; '(v, st') ← helper name st;
  Some (Mach (m_pc st') (v :: replicate 5 Undef ++ drop 6 (m_regs st')) (m_stack st') (m_kern st')
          (m_record st') (m_value st')).

(** ** Steps *)

(** Atomic operations are on words and double words. *)
Definition atomic_step (st : mach) (s : mem_size) (op : atomic_op) (dst src off : Z) : option mach :=
  let n := bpf_size_to_bytes s in
  if (n <? 4)%nat then None
  else
    p ← reg st dst; z ← arg_scalar st src; bs ← mem_load st p off (Z.of_nat n);
    r0 ← (match op with BPF_CMPXCHG => arg_scalar st 0 | _ => Some 0 end);
    let old := le_value bs in
    st ← mem_store st p off (Z.of_nat n) (le_bytes n (atomic (8 * Z.of_nat n) op old z r0));
    match fetches op src with Some r => set_reg st r (Scalar old) | None => Some st end.

Definition next (st : option mach) : outcome :=
  match st with Some st => goto st (Z.of_nat (m_pc st) + 1) | None => Stuck end.

Definition step (st : mach) : outcome :=
  match prog !! m_pc st with
  | Some (Some (IAlu is64 op dst src)) =>
      next (y ← operand_val st src;
            x ← (match op with BPF_MOV => Some Undef | _ => reg st dst end);
            v ← alu_val is64 op x y; set_reg st dst v)
  | Some (Some (IEnd order dst len)) =>
      next (x ← arg_scalar st dst; z ← endian order len x; set_reg st dst (Scalar z))
  | Some (Some (IAtomic s op dst src off)) => next (atomic_step st s op dst src off)
  | Some (Some INospec) => next (Some st)
  | Some (Some (ILdImm64 dst src imm)) =>
      match (v ← (match reloc (m_pc st) with
                  | Some v => Some v
                  | None => if src =? 0 then Some (Scalar imm) else None
                  end); set_reg st dst v) with
      | Some st => goto st (Z.of_nat (m_pc st) + 2)
      | None => Stuck
      end
  | Some (Some (ILdx s dst src off)) =>
      next (p ← reg st src; bs ← mem_load st p off (Z.of_nat (bpf_size_to_bytes s));
            set_reg st dst (Scalar (le_value bs)))
  | Some (Some (IStx s dst src off)) =>
      next (p ← reg st dst; z ← arg_scalar st src;
            mem_store st p off (Z.of_nat (bpf_size_to_bytes s)) (le_bytes (bpf_size_to_bytes s) z))
  | Some (Some (ISt s dst off imm)) =>
      next (p ← reg st dst;
            mem_store st p off (Z.of_nat (bpf_size_to_bytes s))
              (le_bytes (bpf_size_to_bytes s) (imm64 imm)))
  | Some (Some (IJmp is64 op dst src off)) =>
      match (x ← reg st dst; y ← operand_val st src; jmp_val is64 op x y) with
      | Some b => if b : bool then goto st (Z.of_nat (m_pc st) + 1 + off) else next (Some st)
      | None => Stuck
      end
  | Some (Some (IJa off)) => goto st (Z.of_nat (m_pc st) + 1 + off)
  | Some (Some (ICall f)) => next (call st f)
  | Some (Some IExit) =>
      match reg st 0, m_record st with
      | Some (Scalar z), None => Exited z (m_kern st)
      | _, _ => Stuck
      end
  | _ => Stuck
  end.

Fixpoint run (n : nat) (o : outcome) : outcome :=
  match n, o with
  | S n, Running st => run n (step st)
  | _, _ => o
  end.

(** The registers of a program that starts: the context in r1, the end of the
    stack frame in r10. *)
Definition init_regs : list val :=
  [Undef; Ptr RCtx 0; Undef; Undef; Undef; Undef; Undef; Undef; Undef; Undef; Ptr RStack MAX_BPF_STACK].

Definition init (stack : bytes) (k : kern M R) : mach := Mach 0 init_regs stack k None None.
End Machine.

#[global] Arguments mach : clear implicits.
#[global] Arguments outcome : clear implicits.
#[global] Arguments Mach {_ _} _ _ _ _ _ _.
#[global] Arguments Running {_ _} _.
#[global] Arguments Exited {_ _} _ _.
#[global] Arguments Stuck {_ _}.

(** ** Running a program of an object file *)

(** What libbpf puts into the instruction for a relocated symbol: the address of
    the value of the map that holds the section's data, or the map. *)
Definition resolve (sym : bytes) : option val :=
  if decide (sym = B "target_tgid") then Some (Ptr RData 0)
  else if decide (sym = B "inflight") then Some (Ptr (RMap Inflight) 0)
  else if decide (sym = B "events") then Some (Ptr (RMap Events) 0)
  else None.

Definition reloc_of (rel : list (Z * option bytes)) (pc : nat) : option val :=
  r ← head (filter (fun r => r.1 = Z.of_nat pc) rel); sym ← r.2; resolve sym.

Section Exec.
Context {T M R : Type} `{BpfTask T, BpfKernelRead T} `{BpfHash Z bytes M} `{BpfRingbuf R}.

(** The program [name] of the object, on the tracepoint arguments [a0] and [a1]
    and whatever the stack holds.  No instruction is executed twice, so as many
    steps as slots are enough. *)
Definition exec_program (elf name : bytes) (target_tgid : Z) (t : T) (a0 a1 : Z) (stack : bytes)
    (k : kern M R) : outcome M R :=
  match (p ← object_program elf name; slots ← decode_prog p.2; rel ← relocations elf p.1;
         Some (slots, rel)) with
  | Some (slots, rel) =>
      run slots (reloc_of rel) t (le_bytes 8 a0 ++ le_bytes 8 a1) (le_bytes 4 target_tgid)
        (length slots) (Running (init stack k))
  | None => Stuck
  end.
End Exec.

(** ** An executable machine *)

Module SmallMachine.
Import SmallKernel.

(** A task and the kernel memory its programs can read. *)
Record ktask := KTask { kt_task : task; kt_mem : gmap Z Z }.

#[export] Instance ktask_ops : BpfTask ktask := {|
  get_current_pid_tgid t := get_current_pid_tgid (kt_task t);
  get_current_uid_gid t := get_current_uid_gid (kt_task t);
  get_current_comm t := get_current_comm (kt_task t);
  probe_read_user t := probe_read_user (kt_task t);
  probe_read_user_str t := probe_read_user_str (kt_task t);
  user_byte t := user_byte (kt_task t);
|}.

#[export] Instance ktask_read : BpfKernelRead ktask := fun t n a =>
  match read_mem (kt_mem t) a n with Some bs => (0, bs) | None => (EFAULT_ret, replicate n 0) end.

#[export] Instance ktask_laws : BpfTaskLaws ktask.
Proof.
  split; intros t; intros.
  - apply (pid_tgid_u64 (kt_task t)).
  - apply (uid_gid_u64 (kt_task t)).
  - apply (comm_length (kt_task t)).
  - apply (comm_byte (kt_task t)).
  - by apply (comm_terminated (kt_task t)).
  - apply (read_user_result (kt_task t)).
  - apply (read_user_length (kt_task t)).
  - apply (read_user_byte (kt_task t)).
  - by apply (read_user_ok (kt_task t)).
  - by apply (read_str_length (kt_task t)).
  - by apply (read_str_byte (kt_task t)).
  - by apply (read_str_frame (kt_task t)).
  - apply (read_str_errno (kt_task t)).
  - by apply (read_str_ok (kt_task t)).
Qed.

#[export] Instance ktask_long : BpfLongLaws ktask.
Proof.
  split; intros t n a; unfold probe_read_kernel, ktask_read; simpl.
  - destruct (read_mem (kt_mem t) a n) as [bs|] eqn:E; simpl; [|apply length_replicate].
    by apply read_mem_spec in E as (? & _ & _).
  - destruct (read_mem (kt_mem t) a n) as [bs|] eqn:E; simpl; [|apply zeros_byte].
    by apply read_mem_spec in E as (_ & ? & _).
  - destruct (read_mem (tk_mem (kt_task t)) a n); unfold EFAULT_ret; simpl; lia.
Qed.
End SmallMachine.
