(* ===== verification/ObjMem.v ===== *)
(** * Memory of the compiled programs

    Laws of loads and stores at integer offsets, and the representation of
    [struct enter_state] (libbpfstrace.bpf.c) as the value of the map
    [inflight]: the layout of its members, encoding, decoding, round trip. *)

From stdpp Require Import base list gmap strings.
From Stdlib Require Import ZArith Lia.
From S2P Require Import Prelude CLib Layout BpfIface StraceTypes StraceBpf ElfObject BpfInsn BpfMachine.

Local Open Scope string_scope.
Local Open Scope list_scope.
Local Open Scope Z_scope.

(** ** Loads and stores *)

Lemma length_zload o n m :
  0 <= o -> 0 <= n -> o + n <= Z.of_nat (length m) -> Z.of_nat (length (zload o n m)) = n.
Proof. intros. unfold zload. rewrite length_load; lia. Qed.

Lemma length_zstore o bs m :
  0 <= o -> o + Z.of_nat (length bs) <= Z.of_nat (length m) ->
  length (zstore o bs m) = length m.
Proof. intros. unfold zstore. apply length_store. lia. Qed.

Lemma zload_zstore_eq o n bs m :
  0 <= o -> n = Z.of_nat (length bs) -> o + n <= Z.of_nat (length m) ->
  zload o n (zstore o bs m) = bs.
Proof. intros ? -> ?. unfold zload, zstore. rewrite Nat2Z.id. apply load_store_eq. lia. Qed.

Lemma zload_zstore_ne o n o' bs m :
  0 <= o -> 0 <= n -> 0 <= o' -> o' + Z.of_nat (length bs) <= Z.of_nat (length m) ->
  o + n <= o' \/ o' + Z.of_nat (length bs) <= o ->
  zload o n (zstore o' bs m) = zload o n m.
Proof.
  intros ? ? ? ? [?|?]; unfold zload, zstore; [apply load_store_before|apply load_store_after]; lia.
Qed.

(** Two byte strings are equal when they agree at every index. *)
Lemma lookup_load o n (m : bytes) i :
  load o n m !! i = if decide (i < n)%nat then m !! (o + i)%nat else None.
Proof.
  unfold load. case_decide.
  - rewrite lookup_take_lt by done. apply lookup_drop.
  - apply lookup_take_ge. lia.
Qed.

Lemma lookup_store o bs (m : bytes) i :
  (o + length bs <= length m)%nat ->
  store o bs m !! i =
    if decide (o <= i < o + length bs)%nat then bs !! (i - o)%nat else m !! i.
Proof.
  intros Hl. unfold store. case_decide as Hi.
  - rewrite lookup_app_r by (rewrite length_take; lia).
    rewrite length_take, lookup_app_l by lia. f_equal. lia.
  - destruct (decide (i < o)%nat).
    + rewrite lookup_app_l by (rewrite length_take; lia). by apply lookup_take_lt.
    + rewrite !lookup_app_r by (rewrite ?length_take; lia). rewrite lookup_drop, length_take.
      f_equal. lia.
Qed.

Lemma zload_zload o n b k m :
  0 <= o -> 0 <= b -> 0 <= n -> o + n <= k -> zload o n (zload b k m) = zload (b + o) n m.
Proof.
  intros. unfold zload. apply list_eq. intros i. rewrite !lookup_load.
  repeat case_decide; try done; try lia. f_equal. lia.
Qed.

Lemma zload_zstore_in b k a bs m :
  0 <= b -> b <= a -> a + Z.of_nat (length bs) <= b + k -> b + k <= Z.of_nat (length m) ->
  zload b k (zstore a bs m) = zstore (a - b) bs (zload b k m).
Proof.
  intros. unfold zload, zstore. apply list_eq. intros i.
  rewrite lookup_load, !lookup_store by (rewrite ?length_load; lia). rewrite lookup_load.
  repeat case_decide; try done; try lia; f_equal; lia.
Qed.

(** Consecutive stores are one store. *)
Lemma zstore_join o a b m :
  0 <= o -> o + Z.of_nat (length a) + Z.of_nat (length b) <= Z.of_nat (length m) ->
  zstore (o + Z.of_nat (length a)) b (zstore o a m) = zstore o (a ++ b) m.
Proof.
  intros. unfold zstore. apply list_eq. intros i.
  assert (Z.to_nat (o + Z.of_nat (length a)) = Z.to_nat o + length a)%nat as -> by lia.
  rewrite !lookup_store by (rewrite ?length_store, ?length_app; lia). rewrite length_app.
  repeat case_decide; try done; try lia.
  - rewrite lookup_app_r by lia. f_equal. lia.
  - rewrite lookup_app_l by lia. done.
Qed.

Lemma zstore_join_down o a b m :
  0 <= o -> o + Z.of_nat (length a) + Z.of_nat (length b) <= Z.of_nat (length m) ->
  zstore o a (zstore (o + Z.of_nat (length a)) b m) = zstore o (a ++ b) m.
Proof.
  intros. unfold zstore. apply list_eq. intros i.
  assert (Z.to_nat (o + Z.of_nat (length a)) = Z.to_nat o + length a)%nat as -> by lia.
  rewrite !lookup_store by (rewrite ?length_store, ?length_app; lia). rewrite length_app.
  repeat case_decide; try done; try lia.
  - rewrite lookup_app_l by lia. done.
  - rewrite lookup_app_r by lia. f_equal. lia.
Qed.

Lemma zload_join o n k m :
  0 <= o -> 0 <= n -> 0 <= k -> o + n <= Z.of_nat (length m) ->
  zload o n m ++ zload (o + n) k m = zload o (n + k) m.
Proof.
  intros. unfold zload. apply list_eq. intros i. rewrite lookup_load.
  destruct (decide (i < Z.to_nat n)%nat).
  - rewrite lookup_app_l by (rewrite length_load; lia). rewrite lookup_load.
    repeat case_decide; try done; lia.
  - rewrite lookup_app_r by (rewrite length_load; lia). rewrite lookup_load, length_load by lia.
    repeat case_decide; try done; try lia. f_equal. lia.
Qed.

(** Four words stored out of order are one store. *)
Lemma zstore_words4 o a b c d m :
  length a = 4%nat -> length b = 4%nat -> length c = 4%nat -> length d = 4%nat ->
  0 <= o -> o + 16 <= Z.of_nat (length m) ->
  zstore (o + 8) c (zstore (o + 12) d (zstore o a (zstore (o + 4) b m)))
    = zstore o (a ++ b ++ c ++ d) m.
Proof.
  intros Ha Hb Hc Hd ? ?.
  assert (forall o x y m', length x = 4%nat -> length y = 4%nat -> 0 <= o -> o + 8 <= Z.of_nat (length m') ->
    zstore o x (zstore (o + 4) y m') = zstore o (x ++ y) m') as Hj.
  { intros o' x y m' Hx Hy ? ?. rewrite <- zstore_join_down by lia. f_equal. f_equal. lia. }
  rewrite (Hj o a b) by (done || lia). replace (o + 12) with (o + 8 + 4) by lia.
  assert (length (a ++ b) = 8%nat) as Hab by (rewrite length_app; lia).
  rewrite (Hj (o + 8) c d) by (try done; rewrite ?length_zstore by lia; lia).
  rewrite (app_assoc a b). rewrite <- (zstore_join o (a ++ b)) by (rewrite ?Hab, ?length_app; lia).
  rewrite Hab. done.
Qed.

(** A load from what was just stored. *)
Lemma zload_zstore_part o a n bs m :
  0 <= o -> 0 <= a -> 0 <= n -> a + n <= Z.of_nat (length bs) ->
  o + Z.of_nat (length bs) <= Z.of_nat (length m) ->
  zload (o + a) n (zstore o bs m) = zload a n bs.
Proof.
  intros. rewrite <- (zload_zload a n o (Z.of_nat (length bs))) by lia.
  by rewrite zload_zstore_eq by lia.
Qed.

Lemma zload_byte o n m : Forall is_byte m -> Forall is_byte (zload o n m).
Proof. intros. by apply Forall_take, Forall_drop. Qed.

Lemma zload_all n m : n = Z.of_nat (length m) -> zload 0 n m = m.
Proof. intros ->. unfold zload, load. rewrite Nat2Z.id. apply firstn_all. Qed.

(** Lengths and bounds of nested loads and stores. *)
Ltac zlen :=
  repeat (rewrite length_le_bytes || rewrite length_replicate || (rewrite length_zstore by zlen) ||
          (rewrite length_zload by zlen)); lia || done || (unfold is_byte; lia).

(** ** Integers in memory *)

Lemma le_bytes_uint n z : le_bytes n (uint (8 * Z.of_nat n) z) = le_bytes n z.
Proof.
  rewrite <- le_value_le_bytes.
  rewrite <- (length_le_bytes n z) at 1. apply le_bytes_le_value, le_bytes_byte.
Qed.

Lemma le_bytes_sint n z : (0 < n)%nat -> le_bytes n (sint (8 * Z.of_nat n) z) = le_bytes n z.
Proof. intros. rewrite <- le_bytes_uint, uint_sint by lia. apply le_bytes_uint. Qed.

Lemma uint_uint w w' z : 0 <= w <= w' -> uint w (uint w' z) = uint w z.
Proof.
  intros. unfold uint. apply Z.mod_mod_divide.
  exists (2 ^ (w' - w)). rewrite <- Z.pow_add_r by lia. f_equal. lia.
Qed.

Lemma sint_low w w' z : 0 < w <= w' -> sint w (uint w' z) = sint w z.
Proof. intros. rewrite <- sint_uint, uint_uint, sint_uint by lia. done. Qed.

(** Only the low bytes are stored. *)
Lemma le_bytes_low n w z : 8 * Z.of_nat n <= w -> le_bytes n (uint w z) = le_bytes n z.
Proof. intros. by rewrite <- le_bytes_uint, uint_uint, le_bytes_uint by lia. Qed.

(** A number loaded from memory and stored is a copy of its bytes. *)
Lemma copy_bytes n o m :
  Forall is_byte m -> 0 <= o -> o + Z.of_nat n <= Z.of_nat (length m) ->
  le_bytes n (le_value (zload o (Z.of_nat n) m)) = zload o (Z.of_nat n) m.
Proof.
  intros Hb ? ?. rewrite <- (le_bytes_le_value (zload o (Z.of_nat n) m)) at 2 by by apply zload_byte.
  f_equal. pose proof (length_zload o (Z.of_nat n) m). lia.
Qed.

Lemma copy_exact n bs : length bs = n -> Forall is_byte bs -> le_bytes n (le_value bs) = bs.
Proof. intros <-. apply le_bytes_le_value. Qed.

(** Four loaded words are a load of their bytes. *)
Lemma load_words4 p m :
  Forall is_byte m -> 0 <= p -> p + 16 <= Z.of_nat (length m) ->
  let word i := le_bytes 4 (le_value (zload (p + i) 4 m)) in
  word 0 ++ word 4 ++ word 8 ++ word 12 = zload p 16 m.
Proof.
  intros Hb ? ?. cbv zeta beta.
  rewrite !(copy_bytes 4 _ m Hb) by lia. change (Z.of_nat 4) with 4. rewrite Z.add_0_r.
  replace (p + 12) with (p + 8 + 4) by lia. rewrite zload_join by lia.
  replace (p + 8) with (p + 4 + 4) by lia. change (4 + 4) with 8.
  rewrite zload_join by lia. rewrite zload_join by lia. done.
Qed.

(** ** Sequences of word stores *)

Definition word0 : bytes := le_bytes 8 0.

(** [n] words set to zero, the last one first. *)
Fixpoint zero_words (n : nat) (o : Z) (m : bytes) : bytes :=
  match n with
  | O => m
  | S n => zstore o word0 (zero_words n (o + 8) m)
  end.

Lemma zero_words_spec n o m :
  0 <= o -> o + 8 * Z.of_nat n <= Z.of_nat (length m) ->
  zero_words n o m = match n with O => m | _ => zstore o (replicate (8 * n) 0) m end.
Proof.
  revert o. induction n as [|n IH]; intros o Ho Hl; [done|]. cbn [zero_words].
  rewrite IH by lia. destruct n as [|n]; [done|].
  replace (8 * S (S n))%nat with (length word0 + 8 * S n)%nat by (cbn; lia).
  rewrite replicate_add. change (replicate (length word0) 0) with word0.
  change 8 with (Z.of_nat (length word0)).
  apply zstore_join_down; [done|]. rewrite length_replicate. cbn [length word0 le_bytes]. lia.
Qed.

(** [n] words copied from [v] at [p] to [o], the first one first. *)
Fixpoint copy_words (n : nat) (w : nat) (p o : Z) (v m : bytes) : bytes :=
  match n with
  | O => m
  | S n =>
      copy_words n w (p + Z.of_nat w) (o + Z.of_nat w) v
        (zstore o (le_bytes w (le_value (zload p (Z.of_nat w) v))) m)
  end.

Lemma copy_words_add n k w p o v m :
  copy_words (n + k) w p o v m =
    copy_words k w (p + Z.of_nat (n * w)) (o + Z.of_nat (n * w)) v (copy_words n w p o v m).
Proof.
  revert p o m. induction n as [|n IH]; intros p o m; simpl.
  - by rewrite !Z.add_0_r.
  - rewrite IH. f_equal; lia.
Qed.

Lemma zstore_nil o m : zstore o [] m = m.
Proof. unfold zstore, store. simpl. by rewrite Nat.add_0_r, take_drop. Qed.

Lemma zload_nil o m : zload o 0 m = [].
Proof. done. Qed.

Lemma copy_words_spec n w p o v m :
  Forall is_byte v -> 0 <= p -> 0 <= o ->
  p + Z.of_nat (n * w) <= Z.of_nat (length v) -> o + Z.of_nat (n * w) <= Z.of_nat (length m) ->
  copy_words n w p o v m = zstore o (zload p (Z.of_nat (n * w)) v) m.
Proof.
  intros Hb. revert p o m. induction n as [|n IH]; intros p o m Hp Ho Hv Hm.
  - simpl. change (Z.of_nat 0) with 0. by rewrite zload_nil, zstore_nil.
  - assert (Z.of_nat (S n * w) = Z.of_nat w + Z.of_nat (n * w)) as Hs by lia.
    pose proof (length_zload p (Z.of_nat w) v). pose proof (length_zload (p + Z.of_nat w) (Z.of_nat (n * w)) v).
    cbn [copy_words]. rewrite copy_bytes by (done || lia).
    rewrite IH by (try done; rewrite ?length_zstore; lia).
    rewrite Hs, <- zload_join by lia. rewrite <- zstore_join by lia. f_equal. lia.
Qed.

(** ** [struct enter_state] in memory *)

Definition enter_fields : fields :=
  [("syscall_id", TInt 4)] ++ elems "args" (TInt 8) 6 ++
  [("comm", char_array TASK_COMM_LEN); ("str", char_array SYSCALL_STR_LEN); ("str_len", TInt 4);
   ("sa_family", TInt 2); ("sa_port", TInt 2); ("sa_addr4", TInt 4); ("sa_addr6", char_array 16);
   ("sa_scope_id", TInt 4); ("sa_valid", TInt 1)].

Definition decode_enter (m : bytes) : enter_state := {|
  es_syscall_id := get_sint enter_fields "syscall_id" m;
  es_args := (fun i => get_uint enter_fields (elem_name "args" i) m) <$> seq 0 6;
  es_comm := get_field enter_fields "comm" m;
  es_str := get_field enter_fields "str" m;
  es_str_len := get_uint enter_fields "str_len" m;
  es_sa_family := get_uint enter_fields "sa_family" m;
  es_sa_port := get_uint enter_fields "sa_port" m;
  es_sa_addr4 := get_uint enter_fields "sa_addr4" m;
  es_sa_addr6 := get_field enter_fields "sa_addr6" m;
  es_sa_scope_id := get_uint enter_fields "sa_scope_id" m;
  es_sa_valid := get_uint enter_fields "sa_valid" m;
|}.

(** The members and the padding between them, in order. *)
Definition enter_chunks (s : enter_state) : list bytes :=
  [le_bytes 4 (es_syscall_id s); replicate 4 0;
   le_bytes 8 (arg (es_args s) 0); le_bytes 8 (arg (es_args s) 1); le_bytes 8 (arg (es_args s) 2);
   le_bytes 8 (arg (es_args s) 3); le_bytes 8 (arg (es_args s) 4); le_bytes 8 (arg (es_args s) 5);
   es_comm s; es_str s; le_bytes 4 (es_str_len s); le_bytes 2 (es_sa_family s);
   le_bytes 2 (es_sa_port s); le_bytes 4 (es_sa_addr4 s); es_sa_addr6 s;
   le_bytes 4 (es_sa_scope_id s); le_bytes 1 (es_sa_valid s); replicate 7 0].

Definition encode_enter (s : enter_state) : bytes := concat (enter_chunks s).

Definition enter_sizes : list nat := [4; 4; 8; 8; 8; 8; 8; 8; 16; 256; 4; 2; 2; 4; 16; 4; 1; 7]%nat.

(** The arrays have the sizes of their types. *)
Record sized (s : enter_state) : Prop := {
  sz_comm : length (es_comm s) = TASK_COMM_LEN;
  sz_str : length (es_str s) = SYSCALL_STR_LEN;
  sz_addr6 : length (es_sa_addr6 s) = 16%nat;
}.

Lemma wf_sized s : wf_enter s -> sized s.
Proof. intros []. by split. Qed.

Lemma sized_chunks s : sized s -> length <$> enter_chunks s = enter_sizes.
Proof.
  intros [Hc Hs H6]. unfold enter_chunks. cbn [fmap list_fmap].
  rewrite !length_le_bytes, Hc, Hs, H6. done.
Qed.

(** The start of chunk [i]. *)
Definition chunk_off (i : nat) : Z := Z.of_nat (sum_list (take i enter_sizes)).

Lemma length_concat (cs : list bytes) : length (concat cs) = sum_list (length <$> cs).
Proof. induction cs; simpl; [done|]. rewrite length_app. by f_equal. Qed.

Section Chunks.
Context (s : enter_state) (s_sized : sized s).

Lemma length_encode_enter : length (encode_enter s) = 368%nat.
Proof using s_sized. unfold encode_enter. by rewrite length_concat, sized_chunks. Qed.

Lemma chunk_split i c :
  enter_chunks s !! i = Some c ->
  encode_enter s = concat (take i (enter_chunks s)) ++ c ++ concat (drop (S i) (enter_chunks s)) /\
  Z.of_nat (length (concat (take i (enter_chunks s)))) = chunk_off i /\
  enter_sizes !! i = Some (length c).
Proof using s_sized.
  intros Hi. split_and!.
  - unfold encode_enter. rewrite <- (take_drop_middle _ _ _ Hi) at 1. by rewrite concat_app.
  - unfold chunk_off. rewrite length_concat, <- (sized_chunks s s_sized), fmap_take. done.
  - rewrite <- (sized_chunks s s_sized). by rewrite list_lookup_fmap, Hi.
Qed.

Lemma zload_enter i c o n :
  enter_chunks s !! i = Some c -> o = chunk_off i -> n = Z.of_nat (length c) ->
  zload o n (encode_enter s) = c.
Proof using s_sized.
  intros (E & Ho & _)%chunk_split -> ->. rewrite E. unfold zload, load.
  rewrite drop_app_length', Nat2Z.id, take_app_length by lia. done.
Qed.

Lemma zstore_enter i bs o s' :
  o = chunk_off i -> enter_sizes !! i = Some (length bs) ->
  <[i := bs]> (enter_chunks s) = enter_chunks s' ->
  zstore o bs (encode_enter s) = encode_enter s'.
Proof using s_sized.
  intros -> Hs Hi. destruct (enter_chunks s !! i) as [c|] eqn:Hc.
  2: { rewrite <- (sized_chunks s s_sized), list_lookup_fmap, Hc in Hs. done. }
  apply chunk_split in Hc as Hsplit. destruct Hsplit as (E & Ho & Hl).
  assert (i < length (enter_chunks s))%nat by (by eapply lookup_lt_Some).
  unfold encode_enter at 2. rewrite <- Hi, insert_take_drop, concat_app by done. cbn [concat].
  rewrite E. unfold zstore, store. rewrite take_app_length' by lia. f_equal. f_equal.
  rewrite app_assoc, drop_app_length'; [done|]. rewrite length_app.
  rewrite Hl in Hs. injection Hs as Hs. lia.
Qed.
End Chunks.

(** *** Round trip *)

Lemma enter_aligned : aligned enter_fields.
Proof. apply (bool_decide_unpack _). vm_compute. done. Qed.

Lemma enter_size_eq : struct_size enter_fields = 368%nat.
Proof. vm_compute. done. Qed.

(** A member is the chunk at its offset. *)
Lemma get_enter_field s i c n o ty :
  sized s -> enter_chunks s !! i = Some c -> field_at enter_fields n = Some (o, ty) ->
  (Z.of_nat o =? chunk_off i) = true -> ty_size ty = length c ->
  get_field enter_fields n (encode_enter s) = c.
Proof.
  intros Hs Hi Hf Ho Hl. unfold get_field. rewrite Hf, Hl.
  rewrite <- (zload_enter s Hs i c (Z.of_nat o) (Z.of_nat (length c))) at 2 by (done || lia).
  unfold zload. by rewrite !Nat2Z.id.
Qed.

Lemma get_enter_uint s i z n o k w :
  sized s -> enter_chunks s !! i = Some (le_bytes k z) -> field_at enter_fields n = Some (o, TInt k) ->
  (Z.of_nat o =? chunk_off i) = true -> 8 * Z.of_nat k = w ->
  get_uint enter_fields n (encode_enter s) = uint w z.
Proof.
  intros Hs Hi Hf Ho <-. unfold get_uint.
  rewrite (get_enter_field s i (le_bytes k z) n o (TInt k)); try done.
  - apply le_value_le_bytes.
  - simpl. by rewrite length_le_bytes.
Qed.

(** The value of the map determines the record: what the exit program finds
    is what the entry program stored. *)
Lemma decode_encode_enter s : wf_enter s -> decode_enter (encode_enter s) = s.
Proof.
  intros Hwf. pose proof (wf_sized s Hwf) as Hs. destruct Hwf.
  unfold decode_enter, get_sint.
  change (8 * Z.of_nat (field_size enter_fields "syscall_id")) with 32.
  rewrite (get_enter_uint s 0 (es_syscall_id s) "syscall_id" 0 4 32) by done.
  rewrite (get_enter_field s 8 (es_comm s) "comm" 56 (char_array 16)) by (done || by destruct Hs).
  rewrite (get_enter_field s 9 (es_str s) "str" 72 (char_array 256)) by (done || by destruct Hs).
  rewrite (get_enter_uint s 10 (es_str_len s) "str_len" 328 4 32) by done.
  rewrite (get_enter_uint s 11 (es_sa_family s) "sa_family" 332 2 16) by done.
  rewrite (get_enter_uint s 12 (es_sa_port s) "sa_port" 334 2 16) by done.
  rewrite (get_enter_uint s 13 (es_sa_addr4 s) "sa_addr4" 336 4 32) by done.
  rewrite (get_enter_field s 14 (es_sa_addr6 s) "sa_addr6" 340 (char_array 16)) by (done || by destruct Hs).
  rewrite (get_enter_uint s 15 (es_sa_scope_id s) "sa_scope_id" 356 4 32) by done.
  rewrite (get_enter_uint s 16 (es_sa_valid s) "sa_valid" 360 1 8) by done.
  assert ((fun i => get_uint enter_fields (elem_name "args" i) (encode_enter s)) <$> seq 0 6
          = es_args s) as ->.
  { etransitivity; [|by apply args_by_index]. cbn [seq fmap list_fmap].
    rewrite (get_enter_uint s 2 (arg (es_args s) 0) _ 8 8 64) by done.
    rewrite (get_enter_uint s 3 (arg (es_args s) 1) _ 16 8 64) by done.
    rewrite (get_enter_uint s 4 (arg (es_args s) 2) _ 24 8 64) by done.
    rewrite (get_enter_uint s 5 (arg (es_args s) 3) _ 32 8 64) by done.
    rewrite (get_enter_uint s 6 (arg (es_args s) 4) _ 40 8 64) by done.
    rewrite (get_enter_uint s 7 (arg (es_args s) 5) _ 48 8 64) by done.
    by rewrite !uint_id by (by apply arg_u64). }
  rewrite sint_uint, sint_id by (done || lia). rewrite !uint_id; [by destruct s|..]; try done.
  - unfold is_uint. lia.
  - destruct we_str as [->|(str & Hc & ->)]; [unfold is_uint; lia|].
    apply cstr_length in Hc. unfold SYSCALL_STR_LEN, is_uint in *. lia.
Qed.

(** The value has the bytes of its members. *)
Lemma encode_enter_byte s :
  Forall is_byte (es_comm s) -> Forall is_byte (es_str s) -> Forall is_byte (es_sa_addr6 s) ->
  Forall is_byte (encode_enter s).
Proof.
  intros. apply Forall_concat. unfold enter_chunks.
  assert (forall n, Forall is_byte (replicate n 0))
    by (intros; apply Forall_replicate; unfold is_byte; lia).
  rewrite !Forall_cons. split_and!; auto using le_bytes_byte.
Qed.
