(* ===== verification/ObjExec.v ===== *)
(** * Symbolic execution of the embedded programs

    The decoded programs of the object, lemmas to run them a block of
    instructions at a time, and the tests the compiler makes of the values it
    loaded. *)

From stdpp Require Import base list gmap strings.
From Stdlib Require Import ZArith Lia.
From S2P Require Import Prelude CLib Layout BpfIface StraceTypes StraceBpf ElfBlob ElfObject BpfInsn BpfMachine ObjMem.

Local Open Scope string_scope.
Local Open Scope list_scope.
Local Open Scope Z_scope.

(** ** The programs *)

Definition slots_and_relocs (elf name : bytes) : option (list (option instr) * list (Z * option bytes)) :=
  p ← object_program elf name; slots ← decode_prog p.2; rel ← relocations elf p.1; Some (slots, rel).

Definition enter_prog : list (option instr) * list (Z * option bytes) :=
  Eval vm_compute in default ([], []) (slots_and_relocs elf_bytes (B "handle_sys_enter")).

Definition exit_prog : list (option instr) * list (Z * option bytes) :=
  Eval vm_compute in default ([], []) (slots_and_relocs elf_bytes (B "handle_sys_exit")).

Lemma enter_prog_object : slots_and_relocs elf_bytes (B "handle_sys_enter") = Some enter_prog.
Proof. vm_compute. reflexivity. Qed.

Lemma exit_prog_object : slots_and_relocs elf_bytes (B "handle_sys_exit") = Some exit_prog.
Proof. vm_compute. reflexivity. Qed.

(** ** Runs *)

Section Runs.
Context {T M R : Type} `{BpfTask T, BpfKernelRead T} `{BpfHash Z bytes M} `{BpfRingbuf R}.

Lemma exec_program_run elf name p tg (t : T) a0 a1 stack (k : kern M R) :
  slots_and_relocs elf name = Some p ->
  exec_program elf name tg t a0 a1 stack k =
    run p.1 (reloc_of p.2) t (le_bytes 8 a0 ++ le_bytes 8 a1) (le_bytes 4 tg) (length p.1)
      (Running (init stack k)).
Proof using Type.
  unfold exec_program, slots_and_relocs. intros ->. by destruct p.
Qed.

Context (prog : list (option instr)) (reloc : nat -> option val) (t : T) (ctx data : bytes).
Abbreviation exec := (run (M:=M) (R:=R) prog reloc t ctx data).

Lemma run_stop n o : (forall st, o <> Running st) -> exec n o = o.
Proof using Type. destruct n, o; try done. intros Hn. by destruct (Hn st). Qed.

End Runs.

(** Evaluate instructions: what the program computes from memory, the tests, and
    the answers of the kernel stay symbolic. *)
Ltac meval e :=
  eval lazy -[res_value res_bytes zload zstore le_bytes le_value uint sint alu jmp_test get_current_pid_tgid
    get_current_comm probe_read_user probe_read_user_str probe_read_kernel
    hlookup hupdate hdelete hassign rb_reserve rb_submit
    es_syscall_id es_args es_comm es_str es_str_len arg encode_enter write_event] in e.

(** ** Tests *)

Lemma test_eq x y : is_uint 64 x -> is_uint 64 y -> jmp_test 64 BPF_JEQ x y = (x =? y).
Proof. intros. unfold jmp_test. by rewrite !uint_id. Qed.

Lemma test_ne x y : is_uint 64 x -> is_uint 64 y -> jmp_test 64 BPF_JNE x y = negb (x =? y).
Proof. intros. unfold jmp_test. by rewrite !uint_id. Qed.

Lemma test_gt x y : is_uint 64 x -> is_uint 64 y -> jmp_test 64 BPF_JGT x y = (y <? x).
Proof. intros. unfold jmp_test. by rewrite !uint_id. Qed.

(** NULL is NULL. *)
Lemma test_null : jmp_test 64 BPF_JEQ 0 0 = true.
Proof. done. Qed.

(** The signed comparison of a constant with the result of a helper. *)
Lemma test_sgt_long c r :
  is_sint 64 c -> is_sint 64 r -> jmp_test 64 BPF_JSGT c (uint 64 r) = (r <? c).
Proof. intros. unfold jmp_test. by rewrite sint_uint, !sint_id by (done || lia). Qed.

Lemma uint_lit w z : (0 <=? z) && (z <? 2 ^ w) = true -> is_uint w z.
Proof. unfold is_uint. lia. Qed.

Lemma is_uint_le w w' z : w <= w' -> is_uint w z -> is_uint w' z.
Proof. unfold is_uint. intros ? [? ?]. pose proof (Z.pow_le_mono_r 2 w w'). lia. Qed.

(** A small constant is equal to a signed number when it is equal to its
    representation. *)
Lemma uint_eqb w x c :
  0 < w -> is_sint w x -> is_sint w c -> 0 <= c -> (uint w x =? c) = (x =? c).
Proof.
  intros Hw Hx Hc H0. pose proof (pow2_split w Hw).
  assert (uint w c = c) as E by (apply uint_id; unfold is_uint, is_sint in *; lia).
  destruct (Z.eqb_spec x c) as [->|Hn]; [by rewrite E, Z.eqb_refl|].
  apply Z.eqb_neq. intros He. apply Hn.
  pose proof (sint_uint w x Hw) as Hu. rewrite He, !sint_id in Hu by done. done.
Qed.

(** The conversion of a [long] to [int]: a shift left and an arithmetic shift
    right. *)
Lemma sext32 x : alu 64 BPF_ARSH (alu 64 BPF_LSH x 32) 32 = uint 64 (sint 32 x).
Proof.
  unfold alu. change (32 mod 64) with 32. f_equal. rewrite sint_uint by lia.
  rewrite Z.shiftl_mul_pow2, Z.shiftr_div_pow2 by lia. unfold sint.
  change (64 - 1) with 63. change (32 - 1) with 31.
  replace (x * 2 ^ 32 + 2 ^ 63) with (2 ^ 32 * (x + 2 ^ 31)) by lia.
  change (2 ^ 64) with (2 ^ 32 * 2 ^ 32). rewrite Z.mul_mod_distr_l by lia.
  replace (2 ^ 32 * ((x + 2 ^ 31) mod 2 ^ 32) - 2 ^ 63)
    with (((x + 2 ^ 31) mod 2 ^ 32 - 2 ^ 31) * 2 ^ 32) by lia.
  by apply Z.div_mul.
Qed.

Lemma sint32_long x : is_sint 64 (sint 32 x).
Proof. pose proof (sint_range 32 x). unfold is_sint in *. lia. Qed.

(** A quotient of [x] is no larger than [x]. *)
Lemma quotient_range w x d : is_uint w x -> 0 < d -> is_uint w (x / d).
Proof.
  unfold is_uint. intros Hx Hd. split; [apply Z.div_pos; lia|].
  apply Z.div_lt_upper_bound; [lia|]. nia.
Qed.

Lemma alu_range op x y : is_uint 64 x -> is_uint 64 (alu 64 op x y).
Proof.
  intros Hx. pose proof (uint_range 64 y ltac:(lia)) as Hy.
  destruct op; unfold alu; rewrite ?(uint_id 64 x) by done; try (apply uint_range; lia).
  - case_match; [unfold is_uint; lia|]. apply quotient_range; [done|]. unfold is_uint in Hy. lia.
  - rewrite Z.shiftr_div_pow2 by (apply Z.mod_pos_bound; lia).
    apply quotient_range; [done|]. apply Z.pow_pos_nonneg; [lia|]. apply Z.mod_pos_bound. lia.
  - case_match; [done|]. unfold is_uint in *. pose proof (Z.mod_pos_bound x (uint 64 y)). lia.
Qed.

(** The process filter of both programs. *)
Lemma tgid_test tg id :
  is_sint 32 tg -> is_uint 64 id ->
  (uint 32 tg =? alu 64 BPF_RSH id 32) = (tgid_of id =? tg).
Proof.
  intros Ht Hid. unfold alu, tgid_of. rewrite (uint_id 64 id) by done. change (32 mod 64) with 32.
  assert (is_uint 32 (Z.shiftr id 32)) as Hs.
  { unfold is_uint in *. rewrite Z.shiftr_div_pow2 by lia. split; [apply Z.div_pos; lia|].
    apply Z.div_lt_upper_bound; lia. }
  apply eq_true_iff_eq. rewrite !Z.eqb_eq. split.
  - intros <-. by rewrite sint_uint, sint_id by (done || lia).
  - intros <-. by rewrite uint_sint, uint_id by (done || lia).
Qed.

Lemma filter_value tg : le_value (zload 0 4 (le_bytes 4 tg)) = uint 32 tg.
Proof. rewrite zload_all by (by rewrite length_le_bytes). apply le_value_le_bytes. Qed.

Lemma ctx_arg0 a0 a1 : is_uint 64 a0 -> le_value (zload 0 8 (le_bytes 8 a0 ++ le_bytes 8 a1)) = a0.
Proof.
  intros. unfold zload, load. change (Z.to_nat 0) with 0%nat. change (Z.to_nat 8) with 8%nat.
  rewrite drop_0, take_app_length' by (by rewrite length_le_bytes).
  rewrite le_value_le_bytes. by apply uint_id.
Qed.

Lemma ctx_arg1 a0 a1 : is_uint 64 a1 -> le_value (zload 8 8 (le_bytes 8 a0 ++ le_bytes 8 a1)) = a1.
Proof.
  intros. unfold zload, load. change (Z.to_nat 8) with 8%nat.
  rewrite drop_app_length', take_ge by (rewrite ?length_le_bytes; lia).
  rewrite le_value_le_bytes. by apply uint_id.
Qed.

(** ** The kernel seen through the C types

    The map [inflight] of bytes as a map of [struct enter_state]. *)
Section View.
Context {M : Type} `{BpfHash Z bytes M}.

Definition typed_view : BpfHash Z enter_state M := {|
  hlookup m k := decode_enter <$> hlookup m k;
  hupdate m k s f := hupdate m k (encode_enter s) f;
  hdelete m k := hdelete m k;
  hassign m k s := hassign m k (encode_enter s);
|}.

(** Every value has the size the map was created with. *)
Definition values_ok (m : M) : Prop :=
  forall k v, hlookup m k = Some v -> length v = 368%nat /\ Forall is_byte v.
End View.

(** The context of the source functions: what the reads of the registers at
    [a0] return, and the second argument of the tracepoint. *)
Definition tp_ctx {T} `{BpfKernelRead T} (t : T) (a0 a1 : Z) : raw_ctx :=
  RawCtx ((fun i => le_value (probe_read_kernel t 8 (uint 64 (a0 + 8 * Z.of_nat i))).2) <$> seq 0 6) a1.
