(* ===== verification/ObjOps.v ===== *)
(** * What a compiled program does to shared objects

    [does n sl st p]: whatever other programs do to the map and the ring buffer
    between any two of its instructions, the machine in state [st] performs the
    operations [p] of StraceConc and exits within [n] instructions.  The kernel
    stored in [st] plays no part; the only thing assumed of the kernel is that
    the entry a lookup found is not changed by others.  A program that does [p]
    and is not interrupted runs as [run_ops p]. *)

From stdpp Require Import base list gmap strings.
From Stdlib Require Import ZArith Lia.
From S2P Require Import Prelude CLib Layout BpfIface StraceTypes StraceBpf StraceTrace StraceConc.
From S2P Require Import ElfBlob ElfObject BpfInsn BpfMachine ObjMem ObjExec.

Local Open Scope string_scope.
Local Open Scope list_scope.
Local Open Scope Z_scope.

(** ** The kernel of a machine *)

Section Kern.
Context {M R : Type}.

Definition at_kern (k : kern M R) (st : mach M R) : mach M R :=
  Mach (m_pc st) (m_regs st) (m_stack st) k (m_record st) (m_value st).

Definition out_at_kern (k : kern M R) (o : outcome M R) : outcome M R :=
  match o with Running st => Running (at_kern k st) | o => o end.
End Kern.

(** Helpers that do not touch the map and the ring buffer. *)
Definition local_helpers : list string :=
  ["get_current_pid_tgid"; "get_current_comm"; "probe_read_kernel"; "probe_read_user"; "probe_read_user_str"].

Section Does.
Context {T M R : Type} `{BpfTask T, BpfKernelRead T} `{BpfHash Z bytes M} `{BpfRingbuf R}.
Context (prog : list (option instr)) (reloc : nat -> option val) (t : T) (ctx data : bytes).
Implicit Types (st : mach M R) (k : kern M R) (o : outcome M R).

Abbreviation mstep := (step prog reloc t ctx data).

(** ** Quiet instructions *)

(** The register points into the map. *)
Definition value_reg st (r : Z) : bool :=
  match reg st r with Some (Ptr RValue _) => true | _ => false end.

(** The instruction neither calls a helper on a shared object nor stores through
    a pointer into the map nor exits. *)
Definition quiet st : bool :=
  match prog !! m_pc st with
  | Some (Some (IStx _ dst _ _)) | Some (Some (ISt _ dst _ _)) | Some (Some (IAtomic _ _ dst _ _)) =>
      negb (value_reg st dst)
  | Some (Some (ICall f)) =>
      match bpf_func_name f with
      | Some name => existsb (String.eqb name) local_helpers && negb (value_reg st 1)
      | None => false
      end
  | Some (Some IExit) => false
  | _ => true
  end.

(** The size of the record that the next instruction asks the ring buffer for: it
    is a call of [bpf_ringbuf_reserve]. *)
Definition asks st : option nat :=
  match prog !! m_pc st with
  | Some (Some (ICall f)) =>
      match bpf_func_name f, reg st 2 with
      | Some name, Some (Scalar n) => if String.eqb name "ringbuf_reserve" then Some (Z.to_nat n) else None
      | _, _ => None
      end
  | _ => None
  end.

Lemma quiet_asks st : quiet st = true -> asks st = None.
Proof using Type.
  unfold quiet, asks. destruct (prog !! m_pc st) as [[[]|]|]; try done.
  destruct (bpf_func_name func) as [name|]; [|done]. destruct (String.eqb_spec name "ringbuf_reserve") as [->|]; [done|].
  intros _. by destruct (reg st 2) as [[]|].
Qed.

Lemma reg_at_kern k st r : reg (at_kern k st) r = reg st r.
Proof using Type. done. Qed.

Lemma set_reg_kern k st r v : set_reg (at_kern k st) r v = at_kern k <$> set_reg st r v.
Proof using Type. unfold set_reg. by destruct (_ && _). Qed.

Lemma set_reg_value st r v st' : set_reg st r v = Some st' -> m_value st' = m_value st.
Proof using Type. unfold set_reg. destruct (_ && _); [|done]. by intros [= <-]. Qed.

Lemma set_bytes_kern k st r m : r <> RValue -> set_bytes (at_kern k st) r m = at_kern k <$> set_bytes st r m.
Proof using Type. intros Hr. destruct r; try done. simpl. by destruct (m_record st) as [[]|]. Qed.

Lemma set_bytes_value st r m st' : r <> RValue -> set_bytes st r m = Some st' -> m_value st' = m_value st.
Proof using Type.
  intros Hr. destruct r; simpl; try done; [by intros [= <-]|]. destruct (m_record st) as [[]|]; [|done]. by intros [= <-].
Qed.

Lemma mem_load_kern k st p off n : mem_load ctx data (at_kern k st) p off n = mem_load ctx data st p off n.
Proof using Type. by destruct p as [| |[]]. Qed.

(** The destination does not point into the map. *)
Definition no_value (p : val) : Prop := match p with Ptr RValue _ => False | _ => True end.

Lemma mem_store_kern k st p off n bs :
  no_value p -> mem_store ctx data (at_kern k st) p off n bs = at_kern k <$> mem_store ctx data st p off n bs.
Proof using Type.
  intros Hp. destruct p as [| |r o]; try done. unfold mem_store.
  change (in_range (at_kern k st) r (o + off) n) with (in_range st r (o + off) n).
  destruct (in_range _ _ _ _); [|done].
  change (region_bytes ctx data (at_kern k st) r) with (region_bytes ctx data st r).
  destruct (region_bytes ctx data st r); [|done]. apply set_bytes_kern. by intros ->.
Qed.

Lemma mem_store_value st p off n bs st' :
  no_value p -> mem_store ctx data st p off n bs = Some st' -> m_value st' = m_value st.
Proof using Type.
  intros Hp. destruct p as [| |r o]; try done. unfold mem_store. destruct (in_range _ _ _ _); [|done].
  destruct (region_bytes ctx data st r); [|done]. apply set_bytes_value. by intros ->.
Qed.

Lemma value_reg_dst st r p : value_reg st r = false -> reg st r = Some p -> no_value p.
Proof using Type. unfold value_reg. intros Hv E. rewrite E in Hv. by destruct p as [| |[]]. Qed.

(** [b] is a step of [st] that does not depend on the kernel, and [a] the same
    step with the kernel [k]. *)
Record keeps k st (a b : option (mach M R)) : Prop := {
  kp_kern : a = at_kern k <$> b;
  kp_value st' : b = Some st' -> m_value st' = m_value st;
}.

Lemma keeps_none k st : keeps k st None None.
Proof using Type. by split. Qed.

Lemma keeps_set_reg k st r v : keeps k st (set_reg (at_kern k st) r v) (set_reg st r v).
Proof using Type. split; [apply set_reg_kern|apply set_reg_value]. Qed.

Lemma keeps_store k st p off n bs :
  no_value p -> keeps k st (mem_store ctx data (at_kern k st) p off n bs) (mem_store ctx data st p off n bs).
Proof using Type. intros Hp. split; [by apply mem_store_kern|]. intros st' E. by eapply mem_store_value. Qed.

Lemma keeps_bind {A} k st (x : option A) f g :
  (forall a, x = Some a -> keeps k st (f a) (g a)) -> keeps k st (x ≫= f) (x ≫= g).
Proof using Type. intros Hx. destruct x as [a|]; [by apply Hx|apply keeps_none]. Qed.

(** Two steps in a row. *)
Lemma keeps_seq k st (a b : option (mach M R)) f :
  keeps k st a b -> (forall st1, m_value st1 = m_value st -> keeps k st (f (at_kern k st1)) (f st1)) ->
  keeps k st (a ≫= f) (b ≫= f).
Proof using Type.
  intros [-> Hv] Hf. destruct b as [st1|]; [|apply keeps_none]. simpl. apply Hf. by apply Hv.
Qed.

Lemma keeps_set_after k st st1 r v :
  m_value st1 = m_value st -> keeps k st (set_reg (at_kern k st1) r v) (set_reg st1 r v).
Proof using Type.
  intros Hv. split; [apply set_reg_kern|]. intros st' E. rewrite <- Hv. by eapply set_reg_value.
Qed.

Lemma keeps_atomic k st s op dst src off :
  value_reg st dst = false ->
  keeps k st (atomic_step ctx data (at_kern k st) s op dst src off) (atomic_step ctx data st s op dst src off).
Proof using Type.
  intros Hv. unfold atomic_step. destruct (_ <? 4)%nat; [apply keeps_none|].
  rewrite reg_at_kern. apply keeps_bind. intros p Hp. apply keeps_bind. intros z _.
  rewrite mem_load_kern. apply keeps_bind. intros bs _. apply (keeps_bind k st (match op with BPF_CMPXCHG => _ | _ => _ end)).
  intros r0 _. apply keeps_seq; [by apply keeps_store, (value_reg_dst st dst)|].
  intros st1 Hv1. destruct (fetches op src); [by apply keeps_set_after|by split; [|intros ? [= <-]]].
Qed.

(** A helper on local memory. *)
Definition with_result (x : option (val * mach M R)) : option (mach M R) :=
  '(v, st') ← x;
  Some (Mach (m_pc st') (v :: replicate 5 Undef ++ drop 6 (m_regs st')) (m_stack st') (m_kern st')
          (m_record st') (m_value st')).

Lemma keeps_fill k st res :
  value_reg st 1 = false -> keeps k st (with_result (fill ctx data (at_kern k st) res)) (with_result (fill ctx data st res)).
Proof using Type.
  intros Hv. unfold fill. rewrite reg_at_kern. destruct (reg st 1) as [p|] eqn:Hp; [|apply keeps_none].
  change (arg_scalar (at_kern k st) 2) with (arg_scalar st 2).
  destruct (arg_scalar st 2) as [n|]; [|apply keeps_none]. cbn [mbind option_bind].
  rewrite mem_store_kern by by eapply value_reg_dst.
  destruct (mem_store ctx data st p 0 n (res_bytes res)) as [st1|] eqn:E; [|apply keeps_none].
  split; [done|]. intros st' [= <-]. cbn [m_value]. eapply mem_store_value; [|exact E]. by eapply value_reg_dst.
Qed.

Lemma keeps_helper k st name :
  existsb (String.eqb name) local_helpers = true -> value_reg st 1 = false ->
  keeps k st (with_result (helper t ctx data name (at_kern k st))) (with_result (helper t ctx data name st)).
Proof using Type.
  intros (x & Hin & ->%String.eqb_eq)%existsb_exists Hv.
  assert (forall res, keeps k st (with_result (fill ctx data (at_kern k st) res)) (with_result (fill ctx data st res)))
    as Hfill by (intros; by apply keeps_fill).
  destruct Hin as [<-|[<-|[<-|[<-|[<-|[]]]]]]; unfold helper; cbn [String.eqb Ascii.eqb Bool.eqb];
    change (arg_scalar (at_kern k st)) with (arg_scalar st).
  - split; [done|]. by intros st' [= <-].
  - destruct (arg_scalar st 2); [apply Hfill|apply keeps_none].
  - destruct (arg_scalar st 2), (arg_scalar st 3); try apply keeps_none. apply Hfill.
  - destruct (arg_scalar st 2), (arg_scalar st 3); try apply keeps_none. apply Hfill.
  - rewrite reg_at_kern. destruct (reg st 1) as [p|], (arg_scalar st 2), (arg_scalar st 3); try apply keeps_none.
    cbn [mbind option_bind]. rewrite mem_load_kern. destruct (mem_load _ _ _ _ _ _); [apply Hfill|apply keeps_none].
Qed.

Lemma keeps_next k st a b :
  keeps k st a b ->
  next a = out_at_kern k (next b) /\
  forall o, next b = o -> match o with Running st' => m_value st' = m_value st | Exited _ _ => False | Stuck => True end.
Proof using Type.
  intros [-> Hv]. destruct b as [st1|]; [|by split; [|intros o <-]]. split; [done|].
  intros o <-. exact (Hv st1 eq_refl).
Qed.

(** A quiet instruction does the same whatever the kernel is, and leaves the
    kernel and the view of the map entry alone. *)
Lemma quiet_step k st :
  quiet st = true ->
  mstep (at_kern k st) = out_at_kern k (mstep st) /\
  match mstep st with Running st' => m_value st' = m_value st | Exited _ _ => False | Stuck => True end.
Proof using Type.
  assert (forall a b, keeps k st a b -> next a = out_at_kern k (next b) /\
    match next b with Running st' => m_value st' = m_value st | Exited _ _ => False | Stuck => True end) as Hnext.
  { intros a b [Hk Hv]%keeps_next. split; [done|]. by apply Hv. }
  unfold quiet, step. change (m_pc (at_kern k st)) with (m_pc st).
  destruct (prog !! m_pc st) as [[i|]|]; [|done..].
  change (operand_val (at_kern k st)) with (operand_val st). change (arg_scalar (at_kern k st)) with (arg_scalar st).
  change (reg (at_kern k st)) with (reg st).
  destruct i as [is64 op dst src|order dst len|dst src imm|s imm|s src imm|s dst src off|s dst src off
                |s op dst src off|s dst off imm| |is64 op dst src off|off|func|tgt|]; intros Hq; try done.
  - apply Hnext. apply keeps_bind. intros y _. apply (keeps_bind k st (match op with BPF_MOV => _ | _ => _ end)).
    intros x _. apply keeps_bind. intros v _. apply keeps_set_reg.
  - apply Hnext. do 2 (apply keeps_bind; intros ? _). apply keeps_set_reg.
  - destruct (match reloc (m_pc st) with Some v => _ | None => _ end) as [v|]; [|done]. cbn [mbind option_bind].
    rewrite set_reg_kern. destruct (set_reg st dst v) as [st1|] eqn:E; [|done]. split; [done|]. by apply set_reg_value in E.
  - apply Hnext. apply keeps_bind. intros p _. rewrite mem_load_kern. apply keeps_bind. intros bs _. apply keeps_set_reg.
  - apply Hnext. apply keeps_bind. intros p Hp. apply keeps_bind. intros z _. apply keeps_store.
    apply negb_true_iff in Hq. by eapply value_reg_dst.
  - apply Hnext, keeps_atomic. by apply negb_true_iff.
  - apply Hnext. apply keeps_bind. intros p Hp. apply keeps_store. apply negb_true_iff in Hq. by eapply value_reg_dst.
  - destruct (x ← reg st dst; y ← operand_val st src; jmp_val is64 op x y) as [[]|]; done.
  - apply Hnext. unfold call. destruct (bpf_func_name func) as [name|]; [|done].
    apply andb_true_iff in Hq as [Hn Hv%negb_true_iff]. exact (keeps_helper k st name Hn Hv).
Qed.

(** ** What a program does *)

(** The entry the program has a pointer to is the one it found. *)
Definition seen k st : Prop :=
  forall id v, m_value st = Some (id, v) -> hlookup (k_inflight k) id = Some v.

(** Reads through that pointer may take place. *)
Definition reads st (p : ops) : ops :=
  match p, m_value st with
  | ORead id next, Some (id', v) => if id =? id' then next (decode_enter v) else p
  | _, _ => p
  end.

Definition value_ok (v : bytes) : Prop := length v = 368%nat /\ Forall is_byte v.

(** The size of the record that the first operation asks for. *)
Definition wants (p : ops) : option nat :=
  match p with OReserve z _ => Some z | _ => None end.

(** The instruction that takes [st] with the kernel [k] to [st'] performs the
    first operation of [p], and [D] holds of the rest.  [sl] is the slot of the
    record the program has reserved. *)
Definition performs (D : option nat -> mach M R -> ops -> Prop) (sl : option nat) st k (p : ops) st' : Prop :=
  let m := k_inflight k in
  let r := k_events k in
  match p with
  | ORet | ORead _ _ => False
  | OUpdate id s next =>
      m_kern st' = Kern (hupdate m id (encode_enter s) BPF_ANY).2 r /\ m_value st' = None /\ D sl st' next
  | OLookup id next =>
      m_kern st' = k /\ m_value st' = pair id <$> hlookup m id /\
      ((forall v, hlookup m id = Some v -> value_ok v) ->
       D sl st' (next (bool_decide (is_Some (hlookup m id)))))
  | ODelete id next =>
      (exists v, m_value st = Some (id, v)) /\
      m_kern st' = Kern (hdelete m id).2 r /\ m_value st' = None /\ D sl st' next
  | OReserve z next =>
      sl = None /\ m_value st' = m_value st /\
      match rb_reserve r z with
      | None => m_kern st' = k /\ D None st' (next None)
      | Some (e, r') => m_kern st' = Kern m r' /\ forall i, D (Some i) st' (next (Some (i, e)))
      end
  | OSubmit i rec next =>
      sl = Some i /\ m_value st' = m_value st /\ m_kern st' = Kern m (rb_submit r rec) /\ D None st' next
  end.

Fixpoint does (n : nat) (sl : option nat) st (p : ops) : Prop :=
  match n with
  | O => False
  | S n =>
      forall k, seen k st ->
      match mstep (at_kern k st) with
      | Running st' =>
          (asks st = None /\ m_kern st' = k /\ m_value st' = m_value st /\ does n sl st' p) \/
          (asks st = wants (reads st p) /\ performs (does n) sl st k (reads st p) st')
      | Exited r k' => r = 0 /\ k' = k /\ p = ORet /\ sl = None
      | Stuck => False
      end
  end.

Lemma does_at_kern n sl k st p : does n sl (at_kern k st) p <-> does n sl st p.
Proof using Type. by destruct n. Qed.

Lemma performs_mono (D D' : option nat -> mach M R -> ops -> Prop) sl st k p st' :
  (forall sl st p, D sl st p -> D' sl st p) -> performs D sl st k p st' -> performs D' sl st k p st'.
Proof using Type.
  intros HD. destruct p; simpl; try done.
  - intros (? & ? & ?). split_and!; auto.
  - intros (? & ? & Hd). split_and!; auto.
  - intros (? & ? & ? & ?). split_and!; auto.
  - intros (? & ? & Hd). split_and!; [done..|]. destruct (rb_reserve _ _) as [[]|]; destruct Hd; split; auto.
  - intros (? & ? & ? & ?). split_and!; auto.
Qed.

Lemma does_more n n' sl st p : (n <= n')%nat -> does n sl st p -> does n' sl st p.
Proof using Type.
  revert n' sl st p. induction n as [|n IH]; intros n' sl st p Hn; [done|].
  destruct n' as [|n']; [lia|]. intros Hd k Hk. specialize (Hd k Hk).
  destruct (mstep (at_kern k st)) as [st'|r k'|]; [|done..].
  destruct Hd as [(? & ? & ? & Hd)|[? Hd]]; [left|right; split; [done|]].
  - split_and!; [done..|]. apply IH; [lia|done].
  - eapply performs_mono; [|exact Hd]. intros. apply IH; [lia|done].
Qed.

(** ** Symbolic execution *)

(** Quiet instructions only. *)
Fixpoint qrun (n : nat) o : outcome M R :=
  match n, o with
  | S n, Running st => if quiet st then qrun n (mstep st) else Stuck
  | _, _ => o
  end.

Definition doing (n : nat) (sl : option nat) o (p : ops) : Prop :=
  match o with Running st => does n sl st p | _ => False end.

Lemma qrun_stop i o : (forall st, o <> Running st) -> qrun i o = o.
Proof using Type. destruct i, o; try done. intros Hn. by destruct (Hn st). Qed.

Lemma doing_quiet i n sl o p : doing n sl (qrun i o) p -> doing (i + n) sl o p.
Proof using Type.
  revert o. induction i as [|i IH]; intros o Hd; [done|].
  destruct o as [st|r k|]; [|done..]. cbn [qrun] in Hd.
  destruct (quiet st) eqn:Hq; [|done]. specialize (IH _ Hd). cbn [doing Nat.add does] in *. intros k Hk.
  destruct (quiet_step k st Hq) as [-> Hv]. destruct (mstep st) as [st'|r k'|]; [|done..].
  left. cbn [out_at_kern doing] in *. split_and!; [by apply quiet_asks|done..|]. by apply does_at_kern.
Qed.

Lemma doing_steps i n sl o p : (i <= n)%nat -> doing (n - i) sl (qrun i o) p -> doing n sl o p.
Proof using Type. intros Hi Hd. replace n with (i + (n - i))%nat by lia. by apply doing_quiet. Qed.

Lemma doing_enough n n' sl o p : (n <= n')%nat -> doing n sl o p -> doing n' sl o p.
Proof using Type. destruct o; try done. apply does_more. Qed.

(** An instruction that is not quiet. *)
Lemma doing_op n sl st p :
  (1 <= n)%nat -> asks st = wants (reads st p) ->
  (forall im ev, seen (Kern im ev) st ->
    match mstep (at_kern (Kern im ev) st) with
    | Running st' =>
        performs (fun sl st p => doing (n - 1) sl (Running st) p) sl st (Kern im ev) (reads st p) st'
    | Exited r k' => r = 0 /\ k' = Kern im ev /\ p = ORet /\ sl = None
    | Stuck => False
    end) ->
  doing n sl (Running st) p.
Proof using Type.
  intros Hn Ha Hs. destruct n as [|n]; [lia|]. cbn [doing]. intros [im ev] Hk. specialize (Hs im ev Hk).
  cbn [Nat.sub] in Hs. rewrite Nat.sub_0_r in Hs.
  destruct (mstep _) as [st'|r k'|]; [by right|exact Hs..].
Qed.

(** ** Without interruption *)

#[local] Existing Instance typed_view.

(** The values that lookups find have the size of the map's values. *)
Fixpoint lookups_ok (p : ops) k : Prop :=
  let m := k_inflight k in
  let r := k_events k in
  match p with
  | ORet => True
  | OUpdate id s next => lookups_ok next (Kern (hupdate m id s BPF_ANY).2 r)
  | OLookup id next =>
      (forall v, hlookup (V := bytes) m id = Some v -> value_ok v) /\
      lookups_ok (next (bool_decide (is_Some (hlookup (V := bytes) m id)))) k
  | ORead id next => forall s, hlookup m id = Some s -> lookups_ok (next s) k
  | ODelete id next => lookups_ok next (Kern (hdelete (V := bytes) m id).2 r)
  | OReserve n next =>
      match rb_reserve r n with
      | None => lookups_ok (next None) k
      | Some (e, r) => lookups_ok (next (Some (0%nat, e))) (Kern m r)
      end
  | OSubmit _ rec next => lookups_ok next (Kern m (rb_submit r rec))
  end.

Lemma reads_same k st p :
  seen k st -> run_ops (reads st p) k = run_ops p k /\ (lookups_ok p k -> lookups_ok (reads st p) k).
Proof using Type.
  intros Hs. destruct p; try done. cbn [reads]. destruct (m_value st) as [[id' v]|] eqn:E; [|done].
  destruct (Z.eqb_spec k0 id') as [->|]; [|done]. specialize (Hs id' v E).
  cbn [run_ops lookups_ok hlookup typed_view]. rewrite Hs. split; [done|]. intros Hl. by apply Hl.
Qed.

Lemma does_run n sl st p k :
  does n sl st p -> seen k st -> lookups_ok p k ->
  exists k', run_ops p k = Some k' /\ run prog reloc t ctx data n (Running (at_kern k st)) = Exited 0 k'.
Proof using Type.
  revert sl st p k. induction n as [|n IH]; intros sl st p k Hd Hs Hl; [done|].
  specialize (Hd k Hs). cbn [run]. destruct (mstep (at_kern k st)) as [st'|r k'|]; [| |done].
  2: { destruct Hd as (-> & -> & -> & _). exists k. split; [done|]. by apply run_stop. }
  assert (forall k sl st p, does n sl st p -> m_kern st = k -> seen k st -> lookups_ok p k ->
    exists k', run_ops p k = Some k' /\ run prog reloc t ctx data n (Running st) = Exited 0 k') as IH'.
  { intros k1 sl1 st1 p1 Hd1 Hk1 Hs1 Hl1. destruct (IH sl1 st1 p1 k1 Hd1 Hs1 Hl1) as (k2 & Hr & Hx).
    exists k2. split; [done|]. rewrite <- Hx. f_equal. f_equal. destruct st1. cbn in Hk1. by subst k1. }
  clear IH. destruct Hd as [(_ & Hk & Hv & Hd)|[_ Hd]].
  { eapply IH'; [exact Hd|done| |done]. intros id v E. apply Hs. by rewrite <- Hv. }
  destruct (reads_same k st p Hs) as [<- Hl']. specialize (Hl' Hl). clear Hl. revert Hd Hl'.
  assert (forall k1, k_inflight k1 = k_inflight k -> m_value st' = m_value st -> seen k1 st') as Hsame.
  { intros k1 Hk1 Hv id v E. rewrite Hk1. apply Hs. by rewrite <- Hv. }
  assert (forall k1, m_value st' = None -> seen k1 st') as Hnone by (intros k1 Hv id v E; by rewrite Hv in E).
  destruct (reads st p) as [|id s next|id next|id next|id next|z next|i rec next];
    cbn [performs lookups_ok run_ops hlookup hupdate hdelete typed_view]; try done.
  - intros (Hk & Hv & Hd) Hl. eapply IH'; [exact Hd|done|by apply Hnone|done].
  - intros (Hk & Hv & Hd) [Hok Hl]. specialize (Hd Hok).
    rewrite (bool_decide_ext _ (is_Some (hlookup (V := bytes) (k_inflight k) id))) by by rewrite fmap_is_Some.
    eapply IH'; [exact Hd|done| |done]. intros id' v E. rewrite Hv in E.
    destruct (hlookup (k_inflight k) id) eqn:Ei; [|done]. simpl in E. by injection E as <- <-.
  - intros (_ & Hk & Hv & Hd) Hl. eapply IH'; [exact Hd|done|by apply Hnone|done].
  - intros (_ & Hv & Hd) Hl. destruct (rb_reserve (k_events k) z) as [[e r]|].
    + destruct Hd as [Hk Hd]. eapply IH'; [exact (Hd 0%nat)|done|by apply Hsame|done].
    + destruct Hd as [Hk Hd]. eapply IH'; [exact Hd|done|by apply Hsame|done].
  - intros (_ & Hv & Hk & Hd) Hl. eapply IH'; [exact Hd|done|by apply Hsame|done].
Qed.

(** A program from its start. *)
Lemma doing_run n stack p k k' :
  doing n None (Running (init stack k)) p -> lookups_ok p k -> run_ops p k = Some k' ->
  run prog reloc t ctx data n (Running (init stack k)) = Exited 0 k'.
Proof using Type.
  intros Hd Hl Hr. destruct (does_run n None (init stack k) p k Hd) as (k2 & Hr2 & Hx); [done|done|].
  change (at_kern k (init stack k)) with (init (M := M) (R := R) stack k) in Hx. congruence.
Qed.
End Does.

(** Run [i] quiet instructions of the current state. *)
Ltac msteps i :=
  apply (doing_steps _ _ _ _ _ i); [lia|];
  match goal with
  | |- doing _ _ _ _ _ _ _ ?o _ => let o' := meval o in change o with o'
  end.

(** The size that the next instruction asks for. *)
Ltac masks :=
  match goal with
  | |- ?a = _ => let a' := meval a in change a with a'
  end;
  unfold fill_ops, reserve_ops; cbn [wants reads m_value]; rewrite ?Z.eqb_refl; reflexivity.

(** Run the next instruction, which touches a shared object or exits. *)
Tactic Notation "mop" ident(im) ident(ev) :=
  apply doing_op; [lia|masks|]; intros im ev _;
  match goal with
  | |- match ?o with _ => _ end => let o' := meval o in change o with o'
  end.

(** What the instruction performed. *)
Ltac mperf := cbn [performs reads m_value m_kern k_inflight k_events fst snd].
