(* ===== verification/ObjExit.v ===== *)
(** * The compiled exit program

    The program [handle_sys_exit] of the embedded object computes what the
    source function computes, from every kernel state, task, context and
    contents of the stack.  Whatever others do to the map and the ring buffer
    between its instructions, it does the operations [sys_exit_ops]; run without
    interruption these are the source function. *)

From stdpp Require Import base list gmap strings.
From Stdlib Require Import ZArith Lia.
From S2P Require Import Prelude CLib Layout BpfIface StraceTypes StraceBpf StraceTrace StraceConc ElfBlob ElfObject BpfInsn BpfMachine ObjMem ObjExec ObjOps.

Local Open Scope string_scope.
Local Open Scope list_scope.
Local Open Scope Z_scope.

(** ** The record *)

(** The stores of the compiled program into the reserved record, in its order:
    [v] is the value found in the map. *)
Definition object_record (id ret : Z) (v e : bytes) : bytes :=
  let word o p := zstore o (le_bytes 4 (le_value (zload p 4 v))) in
  zstore 376 (le_bytes 1 (le_value (zload 360 1 v)))
   (word 372 356 (word 364 348 (word 368 352 (word 356 340 (word 360 344 (word 352 336
     (zstore 350 (le_bytes 2 (le_value (zload 334 2 v)))
      (zstore 348 (le_bytes 2 (le_value (zload 332 2 v)))
       (word 344 328
        (copy_words 40 8 8 24 v
          (zstore 16 (le_bytes 8 ret)
           (word 8 0
            (zstore 4 (le_bytes 4 id)
             (zstore 0 (le_bytes 4 (alu 64 BPF_RSH id 32)) e)))))))))))))).

(** A C member assignment at its offset. *)
Lemma set_event_field n o ty bs e :
  field_at event_fields n = Some (Z.to_nat o, ty) -> set_field event_fields n bs e = zstore o bs e.
Proof. intros E. unfold set_field. by rewrite E. Qed.

Lemma put_event_int n o k z e :
  field_at event_fields n = Some (Z.to_nat o, TInt k) ->
  put_int event_fields n z e = zstore o (le_bytes k z) e.
Proof. intros E. unfold put_int, set_field, field_size. by rewrite E. Qed.

Lemma get_value_uint n o k v :
  field_at enter_fields n = Some (Z.to_nat o, TInt (Z.to_nat k)) ->
  get_uint enter_fields n v = le_value (zload o k v).
Proof. intros E. unfold get_uint, get_field. by rewrite E. Qed.

Lemma get_value_field n o k v :
  field_at enter_fields n = Some (Z.to_nat o, char_array (Z.to_nat k)) ->
  get_field enter_fields n v = zload o k v.
Proof.
  intros E. unfold get_field, zload. rewrite E. simpl. by rewrite Nat.mul_1_r.
Qed.

Section Record.
Context (id ret : Z) (v e : bytes).
Hypothesis id_u64 : is_uint 64 id.
Hypothesis v_size : length v = 368%nat.
Hypothesis v_byte : Forall is_byte v.
Hypothesis e_size : length e = 384%nat.

Lemma addr6_copy m :
  length m = 384%nat ->
  let word o p := zstore o (le_bytes 4 (le_value (zload p 4 v))) in
  word 364 348 (word 368 352 (word 356 340 (word 360 344 m))) = zstore 356 (zload 340 16 v) m.
Proof using v_size v_byte.
  clear e e_size. intros Hm. cbv beta zeta. rewrite <- load_words4 by (done || lia).
  symmetry. rewrite <- (zstore_words4 356) by zlen. reflexivity.
Qed.

Lemma object_record_write :
  object_record id ret v e = write_event id (decode_enter v) (sint 64 ret) e.
Proof using All.
  unfold write_event, decode_enter, get_sint.
  change (8 * Z.of_nat (field_size enter_fields "syscall_id")) with 32.
  cbn [es_syscall_id es_args es_comm es_str es_str_len es_sa_family es_sa_port es_sa_addr4
       es_sa_addr6 es_sa_scope_id es_sa_valid arg nth fmap list_fmap seq].
  rewrite (get_value_uint "syscall_id" 0 4), (get_value_uint (elem_name "args" 0) 8 8),
    (get_value_uint (elem_name "args" 1) 16 8), (get_value_uint (elem_name "args" 2) 24 8),
    (get_value_uint (elem_name "args" 3) 32 8), (get_value_uint (elem_name "args" 4) 40 8),
    (get_value_uint (elem_name "args" 5) 48 8), (get_value_field "comm" 56 16),
    (get_value_field "str" 72 256), (get_value_uint "str_len" 328 4), (get_value_uint "sa_family" 332 2),
    (get_value_uint "sa_port" 334 2), (get_value_uint "sa_addr4" 336 4),
    (get_value_field "sa_addr6" 340 16), (get_value_uint "sa_scope_id" 356 4),
    (get_value_uint "sa_valid" 360 1) by reflexivity.
  rewrite (put_event_int "tgid" 0 4), (put_event_int "pid" 4 4), (put_event_int "syscall_id" 8 4),
    (put_event_int "ret" 16 8), (put_event_int (elem_name "args" 0) 24 8),
    (put_event_int (elem_name "args" 1) 32 8), (put_event_int (elem_name "args" 2) 40 8),
    (put_event_int (elem_name "args" 3) 48 8), (put_event_int (elem_name "args" 4) 56 8),
    (put_event_int (elem_name "args" 5) 64 8), (set_event_field "comm" 72 (char_array 16)),
    (set_event_field "str" 88 (char_array 256)), (put_event_int "str_len" 344 4),
    (put_event_int "sa_family" 348 2), (put_event_int "sa_port" 350 2), (put_event_int "sa_addr4" 352 4),
    (set_event_field "sa_addr6" 356 (char_array 16)), (put_event_int "sa_scope_id" 372 4),
    (put_event_int "sa_valid" 376 1) by reflexivity.
  unfold tgid_of, object_record. cbv beta zeta.
  rewrite !(le_bytes_sint 4 _ ltac:(lia) : le_bytes 4 (sint 32 _) = _).
  rewrite !(le_bytes_sint 8 _ ltac:(lia) : le_bytes 8 (sint 64 _) = _).
  replace (alu 64 BPF_RSH id 32) with (Z.shiftr id 32) by (unfold alu; by rewrite uint_id).
  set (x0 := zstore 16 (le_bytes 8 ret) _).
  assert (length x0 = 384%nat) as H0.
  { unfold x0. zlen. }
  rewrite (copy_words_add 6 34 8 8 24), (copy_words_add 2 32).
  change (8 + Z.of_nat (6 * 8)) with 56. change (24 + Z.of_nat (6 * 8)) with 72.
  change (56 + Z.of_nat (2 * 8)) with 72. change (72 + Z.of_nat (2 * 8)) with 88.
  set (x1 := copy_words 6 8 8 24 v x0).
  assert (length x1 = 384%nat) as H1.
  { unfold x1. rewrite copy_words_spec by (done || lia).
    zlen. }
  rewrite (copy_words_spec 2 8 56 72 v x1) by (done || lia).
  rewrite (copy_words_spec 32 8 72 88) by (done || zlen).
  change (Z.of_nat (2 * 8)) with 16. change (Z.of_nat (32 * 8)) with 256.
  rewrite addr6_copy by zlen. reflexivity.
Qed.
End Record.

(** ** The program *)

Section Exit.
Context {T M R : Type} `{BpfTask T, !BpfTaskLaws T, BpfKernelRead T} `{BpfHash Z bytes M} `{BpfRingbuf R}.
Context (tg : Z) (t : T) (a0 a1 : Z) (stack : bytes).
Implicit Types (k : kern M R).
Hypothesis tg_int : is_sint 32 tg.
Hypothesis a1_u64 : is_uint 64 a1.
Hypothesis stack_size : length stack = 512%nat.
Hypothesis reserve_size : forall (r : R) n e r', rb_reserve r n = Some (e, r') -> length e = n.

Abbreviation exec := (doing (M:=M) (R:=R) exit_prog.1 (reloc_of exit_prog.2) t
  (le_bytes 8 a0 ++ le_bytes 8 a1) (le_bytes 4 tg)).
Abbreviation id := (get_current_pid_tgid t).

(** The frame after the entry: the id at the end of the stack. *)
Abbreviation frame := (zstore 504 (le_bytes 8 id) stack).

Lemma id_u64 : is_uint 64 id.
Proof using BpfTaskLaws0. apply pid_tgid_u64. Qed.

Lemma frame_key : le_value (zload 504 8 frame) = id.
Proof using stack_size BpfTaskLaws0.
  rewrite zload_zstore_eq by zlen. rewrite le_value_le_bytes. apply uint_id, id_u64.
Qed.

(** The registers after the filter. *)
Definition exit_regs (v1 v2 : val) : list val :=
  [Scalar id; v1; v2; Undef; Undef; Undef; Undef; Ptr RCtx 0; Scalar (alu 64 BPF_RSH id 32); Undef;
   Ptr RStack 512].

(** [return 0;] *)
Lemma exit_return k n v1 v2 v3 v4 v5 v6 v7 v8 v9 v10 m c val : 
  exec (2 + n) None (Running (Mach 139 [v1; v2; v3; v4; v5; v6; v7; v8; v9; v10; c] m k None val)) ORet.
Proof using All. msteps 1%nat. mop im ev. done. Qed.

Lemma exit_prologue k n p :
  (2 <= n)%nat ->
  (forall v1 v2, exec n None (Running (Mach 11 (exit_regs v1 v2) frame k None None)) p) ->
  exec (10 + n) None (Running (init stack k)) (if filtered tg id then ORet else p).
Proof using All.
  intros Hn Hcont. unfold filtered. msteps 8%nat.
  rewrite (uint_id 64 id), filter_value by apply id_u64.
  assert (is_uint 64 (uint 32 tg)) by (apply (is_uint_le 32), uint_range; lia).
  rewrite test_eq, uint_eqb by (done || by apply is_sint_zero).
  destruct (tg =? 0); cbn [negb andb].
  - eapply doing_enough; [|apply Hcont]. lia.
  - msteps 2%nat. rewrite filter_value, test_ne, tgid_test
      by (done || apply id_u64 || apply alu_range, id_u64).
    destruct (tgid_of id =? tg); cbn [negb].
    + eapply doing_enough; [|apply Hcont]. lia.
    + eapply doing_enough; [|apply (exit_return _ 0)]. lia.
Qed.

(** The entry is deleted. *)
Lemma exit_delete k n v r0 r1 r2 r3 r4 r5 r6 r7 r8 r9 :
  exec (6 + n) None
    (Running (Mach 134 [r0; r1; r2; r3; r4; r5; r6; r7; r8; r9; Ptr RStack 512] frame k None (Some (id, v))))
    (ODelete id ORet).
Proof using All.
  msteps 3%nat. mop im ev. rewrite frame_key. destruct (hdelete im id) as [d im'] eqn:E. mperf. rewrite E.
  split_and!; [by exists v|done..|]. eapply doing_enough; [|apply (exit_return _ 0)]. lia.
Qed.

(** The record is filled from the entry and submitted. *)
Lemma exit_fill k n i v e r1 r2 r3 r4 r5 r9 :
  value_ok v -> length e = 384%nat ->
  exec (118 + n) (Some i)
    (Running (Mach 23 [Ptr RRecord 0; r1; r2; r3; r4; r5; Ptr RValue 0; Ptr RCtx 0; Scalar (alu 64 BPF_RSH id 32);
       r9; Ptr RStack 512] frame k (Some (384, e)) (Some (id, v))))
    (fill_ops id (sint 64 a1) i e).
Proof using All.
  intros [Hl Hb] He. msteps 110%nat. rewrite frame_key, ctx_arg1 by done.
  match goal with |- context [Some (384, ?rec)] =>
    assert (object_record id a1 v e = rec) as <-
      by (lazy -[zload zstore le_bytes le_value alu get_current_pid_tgid]; reflexivity) end.
  rewrite object_record_write by (done || apply id_u64).
  set (rec := write_event id (decode_enter v) (sint 64 a1) e).
  mop im ev. unfold fill_ops. mperf. rewrite Z.eqb_refl. mperf. split_and!; [done..|].
  eapply doing_enough; [|apply (exit_delete _ 0)]. lia.
Qed.

Lemma exit_body k v1 v2 :
  exec 129 None (Running (Mach 11 (exit_regs v1 v2) frame k None None))
    (OLookup id (fun b => if b : bool then reserve_ops id (sint 64 a1) else ORet)).
Proof using All.
  msteps 3%nat. mop im ev. rewrite frame_key. destruct (hlookup im id) as [v|] eqn:Hv.
  2: { mperf. rewrite Hv. split_and!; [done..|]. intros _. rewrite bool_decide_eq_false_2 by by intros [].
       msteps 2%nat. rewrite test_null. eapply doing_enough; [|apply (exit_return _ 0)]. lia. }
  mperf. rewrite Hv. split_and!; [done..|]. intros Hok. rewrite bool_decide_eq_true_2 by done.
  specialize (Hok v eq_refl).
  msteps 5%nat. mop im2 ev2. destruct (rb_reserve ev2 384) as [[e r]|] eqn:Hr; unfold reserve_ops; mperf;
    rewrite event_size_eq, Hr; split_and!; try done.
  - intros i. eapply doing_enough; [|apply (exit_fill _ 0)]; [lia|done|by eapply reserve_size].
  - msteps 1%nat. rewrite test_null. eapply doing_enough; [|apply (exit_delete _ 0)]. lia.
Qed.

(** The program performs the operations of the source. *)
Lemma object_exit_does k :
  exec 141 None (Running (init stack k)) (sys_exit_ops tg t (tp_ctx t a0 a1)).
Proof using All.
  unfold sys_exit_ops. apply (exit_prologue k 131); [lia|]. intros. eapply doing_enough; [|apply exit_body]. lia.
Qed.

#[local] Existing Instance typed_view.

Lemma exit_lookups k : values_ok (k_inflight k) -> lookups_ok (sys_exit_ops tg t (tp_ctx t a0 a1)) k.
Proof using Type.
  intros Hv. unfold sys_exit_ops. destruct (filtered tg id); [done|]. cbn [lookups_ok]. split; [apply Hv|].
  destruct (bool_decide _); [|done]. unfold reserve_ops, fill_ops. cbn [lookups_ok].
  by destruct (rb_reserve _ _) as [[]|].
Qed.

Lemma exit_status c k : handle_sys_exit tg t c k = ((handle_sys_exit tg t c k).1, 0).
Proof using Type.
  unfold handle_sys_exit. destruct (filtered tg id); [reflexivity|].
  destruct (hlookup (k_inflight k) id) as [s|]; [|reflexivity].
  destruct (rb_reserve (k_events k) event_size) as [[e r]|]; destruct (hdelete (k_inflight k) id); reflexivity.
Qed.

Lemma object_exit_run k :
  values_ok (k_inflight k) ->
  exec_program elf_bytes (B "handle_sys_exit") tg t a0 a1 stack k =
    let '(k', r) := handle_sys_exit tg t (tp_ctx t a0 a1) k in Exited r k'.
Proof using All.
  intros Hv. rewrite (exec_program_run _ _ _ _ _ _ _ _ _ exit_prog_object), exit_status.
  apply (doing_run _ _ _ _ _ _ _ _ _ _ (object_exit_does k) (exit_lookups k Hv)).
  exact (run_ops_of tg (HExit t (tp_ctx t a0 a1)) k).
Qed.
End Exit.
