(* ===== verification/ObjEnter.v ===== *)
(** * The compiled entry program

    The program [handle_sys_enter] of the embedded object computes what the
    source function computes.  Whatever others do between its instructions, it
    does the operations [sys_enter_ops].  Its frame holds the id at offset 104, the
    [struct enter_state] at 112 and temporaries from 480 on; the blocks of the
    program correspond to the parts of the source. *)

From stdpp Require Import base list gmap strings.
From Stdlib Require Import ZArith Lia.
From S2P Require Import Prelude CLib Layout BpfIface StraceTypes StraceBpf StraceCapture StraceTrace StraceConc ElfBlob ElfObject BpfInsn BpfMachine ObjMem ObjExec ObjOps.

Local Open Scope string_scope.
Local Open Scope list_scope.
Local Open Scope Z_scope.

(** ** The frame *)

Record frame (m : bytes) (id : Z) (s : enter_state) : Prop := {
  fr_size : length m = 512%nat;
  fr_id : zload 104 8 m = le_bytes 8 id;
  fr_state : zload 112 368 m = encode_enter s;
  fr_sized : sized s;
}.

Lemma frame_temp m id s o bs :
  frame m id s -> 480 <= o -> o + Z.of_nat (length bs) <= 512 -> frame (zstore o bs m) id s.
Proof.
  intros [Hl Hi Hs Hz] ? ?. split; [zlen|..|done].
  - by rewrite zload_zstore_ne by lia.
  - by rewrite zload_zstore_ne by lia.
Qed.

Lemma frame_field m id s s' i o bs :
  frame m id s -> o = 112 + chunk_off i -> enter_sizes !! i = Some (length bs) ->
  <[i := bs]> (enter_chunks s) = enter_chunks s' -> sized s' -> frame (zstore o bs m) id s'.
Proof.
  intros [Hl Hi Hs Hz] -> Hb Hc Hz'.
  assert (0 <= chunk_off i /\ chunk_off i + Z.of_nat (length bs) <= 368) as [? ?].
  { unfold chunk_off. split; [lia|]. assert (i < 18)%nat as Hlt by (by eapply lookup_lt_Some in Hb).
    do 18 (destruct i as [|i]; [injection Hb as <-; cbn; lia|]). lia. }
  split; [zlen|..|done].
  - by rewrite zload_zstore_ne by lia.
  - rewrite zload_zstore_in, Hs by lia. eapply zstore_enter; eauto. lia.
Qed.

Lemma frame_load m id s i c o n :
  frame m id s -> enter_chunks s !! i = Some c -> o = 112 + chunk_off i ->
  n = Z.of_nat (length c) -> chunk_off i + n <= 368 -> zload o n m = c.
Proof.
  intros [Hl Hi Hs Hz] Hc -> -> ?.
  etransitivity; [|by apply (zload_enter s Hz i c (chunk_off i) (Z.of_nat (length c)))].
  rewrite <- Hs, zload_zload; unfold chunk_off in *; lia || done.
Qed.

(** The frame after it is cleared and the id is stored. *)
Lemma frame_zero m id :
  length m = 512%nat -> frame (zstore 104 (le_bytes 8 id) (zero_words 46 112 m)) id enter_state_zero.
Proof.
  intros Hl. rewrite zero_words_spec by (rewrite ?Hl; lia).
  split; [rewrite !length_zstore; zlen|..|by split].
  - apply zload_zstore_eq; zlen.
  - rewrite zload_zstore_ne by zlen. rewrite zload_zstore_eq by zlen. by vm_compute.
Qed.

(** An argument assigned. *)
Definition set_arg (s : enter_state) (i : nat) (z : Z) : enter_state :=
  EnterState (es_syscall_id s) (<[i := z]> (es_args s)) (es_comm s) (es_str s) (es_str_len s)
    (es_sa_family s) (es_sa_port s) (es_sa_addr4 s) (es_sa_addr6 s) (es_sa_scope_id s) (es_sa_valid s).

Lemma set_arg_sized s i z : sized s -> sized (set_arg s i z).
Proof. intros []. by split. Qed.

Lemma frame_arg m id s i o bs :
  frame m id s -> (i < 6)%nat -> length (es_args s) = 6%nat -> o = 120 + 8 * Z.of_nat i ->
  length bs = 8%nat -> Forall is_byte bs ->
  frame (zstore o bs m) id (set_arg s i (le_value bs)).
Proof.
  intros Hf Hi Hl -> Hb Hy. eapply (frame_field _ _ _ _ (S (S i))); [exact Hf|..].
  - do 6 (destruct i as [|i]; [reflexivity|]). lia.
  - rewrite Hb. do 6 (destruct i as [|i]; [reflexivity|]). lia.
  - destruct s as [? args]. simpl in Hl. do 6 (destruct args as [|? args]; [done|]).
    destruct args; [|done].
    do 6 (destruct i as [|i]; [unfold enter_chunks, set_arg; cbn -[le_bytes]; by rewrite copy_exact|]). lia.
  - apply set_arg_sized, Hf.
Qed.

(** An argument read through a temporary. *)
Lemma frame_arg_temp m id s i o bs :
  frame m id s -> (i < 6)%nat -> length (es_args s) = 6%nat -> o = 120 + 8 * Z.of_nat i ->
  length bs = 8%nat -> Forall is_byte bs ->
  frame (zstore o (le_bytes 8 (le_value (zload 480 8 (zstore 480 bs m)))) (zstore 480 bs m)) id
    (set_arg s i (le_value bs)).
Proof.
  intros Hf Hi Hl -> Hb Hy. pose proof (fr_size _ _ _ Hf).
  rewrite zload_zstore_eq by (rewrite ?Hb; lia). rewrite copy_exact by done.
  apply frame_arg; try done. apply frame_temp; [done|lia..].
Qed.

(** ** The blocks *)

Section Enter.
Context {T M R : Type} `{BpfTask T, !BpfTaskLaws T, BpfKernelRead T, !BpfLongLaws T} `{BpfHash Z bytes M}
  `{BpfRingbuf R}.
Context (tg : Z) (t : T) (a0 a1 : Z) (kn : kern M R).
Hypothesis tg_int : is_sint 32 tg.
Hypothesis a0_u64 : is_uint 64 a0.
Hypothesis a1_u64 : is_uint 64 a1.

Abbreviation exec n o p := (doing (M:=M) (R:=R) enter_prog.1 (reloc_of enter_prog.2) t
  (le_bytes 8 a0 ++ le_bytes 8 a1) (le_bytes 4 tg) n None o p).
Abbreviation id := (get_current_pid_tgid t).

(** The states between blocks: only the frame pointer matters. *)
Definition at_pc (pc : nat) (v0 v1 v2 v3 v4 v5 v6 v7 v8 v9 : val) (m : bytes) : outcome M R :=
  Running (Mach pc [v0; v1; v2; v3; v4; v5; v6; v7; v8; v9; Ptr RStack 512] m kn None None).

(** The rest of the program runs from [pc] with every frame that holds [s], and
    performs [ps]. *)
Definition continues (n pc : nat) (s : enter_state) (ps : ops) : Prop :=
  forall v0 v1 v2 v3 v4 v5 v6 v7 v8 v9 m, frame m id s ->
    exec n (at_pc pc v0 v1 v2 v3 v4 v5 v6 v7 v8 v9 m) ps.

Lemma continue_at n n' pc s ps v0 v1 v2 v3 v4 v5 v6 v7 v8 v9 m :
  continues n pc s ps -> frame m id s -> (n <= n')%nat ->
  exec n' (Running (Mach pc [v0; v1; v2; v3; v4; v5; v6; v7; v8; v9; Ptr RStack 512] m kn
    None None)) ps.
Proof using Type. intros Hc Hf Hn. eapply doing_enough; [exact Hn|]. by apply Hc. Qed.

(** [return 0;] *)
Lemma enter_return k0 n r0 r1 r2 r3 r4 r5 r6 r7 r8 r9 c m :
  exec (2 + n) (Running (Mach 226 [r0; r1; r2; r3; r4; r5; r6; r7; r8; r9; c] m k0 None None)) ORet.
Proof using Type. msteps 1%nat. mop im ev. done. Qed.

(** [bpf_map_update_elem(&inflight, &id, &s, BPF_ANY); return 0;] *)
Lemma update_block s : continues 9 218 s (OUpdate id s ORet).
Proof using BpfTaskLaws0.
  intros v0 v1 v2 v3 v4 v5 v6 v7 v8 v9 m [Hl Hi Hs Hz]. unfold at_pc. msteps 6%nat. mop im ev.
  rewrite Hi, Hs, le_value_le_bytes, uint_id by apply pid_tgid_u64.
  change 0 with BPF_ANY at 1. destruct (hupdate im id (encode_enter s) BPF_ANY) as [r im'] eqn:E. mperf. rewrite E.
  split_and!; [done..|]. apply (enter_return _ 0).
Qed.

(** The assignments of the system call number, the arguments and the name. *)
Definition set_id (s : enter_state) (z : Z) : enter_state := set_regs s z (es_args s) (es_comm s).
Definition set_comm (s : enter_state) (c : bytes) : enter_state :=
  set_regs s (es_syscall_id s) (es_args s) c.

Lemma frame_id m s z : frame m id s -> frame (zstore 112 (le_bytes 4 z) m) id (set_id s (sint 32 z)).
Proof using Type.
  intros Hf. eapply (frame_field _ _ _ _ 0); [exact Hf|reflexivity|by rewrite length_le_bytes| |].
  - unfold enter_chunks. cbn -[le_bytes]. by rewrite (le_bytes_sint 4) by lia.
  - destruct Hf as [_ _ _ []]. by split.
Qed.

Lemma frame_comm m s c : length c = 16%nat -> frame m id s -> frame (zstore 168 c m) id (set_comm s c).
Proof using Type.
  intros Hc Hf. eapply (frame_field _ _ _ _ 8); [exact Hf|reflexivity|by rewrite Hc|reflexivity|].
  destruct Hf as [_ _ _ []]. by split.
Qed.

Abbreviation reg_bytes i := (res_bytes (probe_read_kernel t 8 (alu 64 BPF_ADD a0 i))).

Lemma read_reg (i : nat) : (i < 6)%nat ->
  le_value (reg_bytes (8 * Z.of_nat i)) = pt_reg (tp_ctx t a0 a1) i.
Proof using BpfLongLaws0.
  intros Hi. unfold pt_reg, res_bytes, alu.
  assert (nth i (rc_regs (tp_ctx t a0 a1)) 0
    = le_value (probe_read_kernel t 8 (uint 64 (a0 + 8 * Z.of_nat i))).2) as ->
    by (do 6 (destruct i as [|i]; [reflexivity|]); lia).
  symmetry. apply uint_id. eapply (is_uint_le (8 * Z.of_nat 8)); [lia|].
  rewrite <- (read_kernel_length t 8 (uint 64 (a0 + 8 * Z.of_nat i))) at 1.
  apply le_value_range, read_kernel_byte.
Qed.

Lemma regs_block n v0 v1 v2 v8 v9 m ps :
  let s := set_regs enter_state_zero (sint 32 a1) (pt_reg (tp_ctx t a0 a1) <$> seq 0 6)
    (get_current_comm t TASK_COMM_LEN).2 in
  frame m id enter_state_zero ->
  (forall v0 v1 v2 v3 v4 v5 v7 v8 v9 m, frame m id s ->
    exec n (at_pc 117 v0 v1 v2 v3 v4 v5 (Ptr RStack 120) v7 v8 v9 m) ps) ->
  exec (59 + n) (at_pc 58 v0 v1 v2 Undef Undef Undef (Ptr RCtx 0) (Scalar a0) v8 v9 m) ps.
Proof using All.
  intros s Hf Hc. unfold at_pc. msteps 59%nat. rewrite ctx_arg1 by done.
  replace (59 + n - 59)%nat with n by lia. apply Hc.
  assert (forall i, length (reg_bytes i) = 8%nat) by (intros; apply read_kernel_length).
  assert (forall i, Forall is_byte (reg_bytes i)) by (intros; apply read_kernel_byte).
  apply (frame_id _ _ a1) in Hf.
  apply (frame_arg _ _ _ 0 120 (reg_bytes 0)) in Hf; [|lia|done|done|done|done].
  apply (frame_arg_temp _ _ _ 1 128 (reg_bytes 8)) in Hf; [|lia|done|done|done|done].
  apply (frame_arg_temp _ _ _ 2 136 (reg_bytes 16)) in Hf; [|lia|done|done|done|done].
  apply (frame_arg_temp _ _ _ 3 144 (reg_bytes 24)) in Hf; [|lia|done|done|done|done].
  apply (frame_arg_temp _ _ _ 4 152 (reg_bytes 32)) in Hf; [|lia|done|done|done|done].
  apply (frame_arg_temp _ _ _ 5 160 (reg_bytes 40)) in Hf; [|lia|done|done|done|done].
  apply (frame_comm _ _ (get_current_comm t 16).2) in Hf; [|apply comm_length].
  unfold s, seq. cbn [fmap list_fmap].
  rewrite <- (read_reg 0), <- (read_reg 1), <- (read_reg 2), <- (read_reg 3), <- (read_reg 4),
    <- (read_reg 5) by lia.
  exact Hf.
Qed.

(** *** maybe_capture_string *)

Lemma load_id m s : frame m id s -> le_value (zload 112 4 m) = uint 32 (es_syscall_id s).
Proof using Type.
  intros Hf. rewrite (frame_load m id s 0 (le_bytes 4 (es_syscall_id s)) 112 4) by done.
  apply le_value_le_bytes.
Qed.

Lemma load_arg m s i o :
  frame m id s -> Forall (is_uint 64) (es_args s) -> (i < 6)%nat -> o = 120 + 8 * Z.of_nat i ->
  le_value (zload o 8 m) = arg (es_args s) i.
Proof using Type.
  intros Hf Ha Hi ->. rewrite (frame_load m id s (S (S i)) (le_bytes 8 (arg (es_args s) i))); [|done|..].
  - rewrite le_value_le_bytes. apply uint_id, arg_u64, Ha.
  - do 6 (destruct i as [|i]; [reflexivity|]). lia.
  - do 6 (destruct i as [|i]; [reflexivity|]). lia.
  - by rewrite length_le_bytes.
  - do 6 (destruct i as [|i]; [vm_compute; congruence|]). lia.
Qed.

(** The state after the capture of strings: r1 holds the number of the call. *)
Definition continues1 (n : nat) (s : enter_state) (ps : ops) : Prop :=
  forall v0 v2 v3 v4 v5 v6 v7 v8 v9 m, frame m id s ->
    exec n (at_pc 137 v0 (Scalar (uint 32 (es_syscall_id s))) v2 v3 v4 v5 v6 v7 v8 v9 m) ps.

Lemma continue1_at n n' s ps v0 v1 v2 v3 v4 v5 v6 v7 v8 v9 m :
  continues1 n s ps -> frame m id s -> (1 + n <= n')%nat ->
  exec n' (Running (Mach 136 [v0; v1; v2; v3; v4; v5; v6; v7; v8; v9; Ptr RStack 512] m kn
    None None)) ps.
Proof using Type.
  intros Hc Hf Hn. eapply doing_enough; [exact Hn|]. msteps 1%nat. rewrite (load_id m s) by done.
  replace (1 + n - 1)%nat with n by lia. by apply Hc.
Qed.

Lemma frame_str m s str :
  length str = 256%nat -> frame m id s -> frame (zstore 184 str m) id (set_str s str (es_str_len s)).
Proof using Type.
  intros Hs Hf. eapply (frame_field _ _ _ _ 9); [exact Hf|reflexivity|by rewrite Hs|reflexivity|].
  destruct Hf as [_ _ _ []]. by split.
Qed.

Lemma frame_str_len m s z :
  frame m id s -> frame (zstore 440 (le_bytes 4 z) m) id (set_str s (es_str s) (uint 32 z)).
Proof using Type.
  intros Hf. eapply (frame_field _ _ _ _ 10); [exact Hf|reflexivity|by rewrite length_le_bytes| |].
  - unfold enter_chunks. cbn -[le_bytes]. by rewrite le_bytes_low by lia.
  - destruct Hf as [_ _ _ []]. by split.
Qed.

(** The call of bpf_probe_read_user_str and the test of its result. *)
Lemma string_read n p v0 v1 v2 v4 v5 v6 v7 v8 v9 m s ps :
  frame m id s ->
  continues1 n (let '(r, str) := probe_read_user_str t (es_str s) SYSCALL_STR_LEN p in
     set_str s str (if 0 <? sint 32 r then uint 32 (sint 32 r) else es_str_len s)) ps ->
  exec (11 + n) (at_pc 126 v0 v1 v2 (Scalar p) v4 v5 v6 v7 v8 v9 m) ps.
Proof using All.
  intros Hf Hc. unfold at_pc. msteps 4%nat.
  rewrite (frame_load m id s 9 (es_str s) 184 256); [|done|done|done|by rewrite (sz_str _ (fr_sized _ _ _ Hf))|done].
  pose proof (read_str_length t (es_str s) SYSCALL_STR_LEN p) as Hl.
  rewrite (sz_str _ (fr_sized _ _ _ Hf)) in Hl. unfold SYSCALL_STR_LEN, res_bytes, res_value in *.
  destruct (probe_read_user_str t (es_str s) 256 p) as [r str]. cbn [fst snd] in *.
  msteps 5%nat. rewrite sext32, test_sgt_long, sint_low by (done || lia || apply sint32_long).
  apply (frame_str _ _ str) in Hf; [|lia].
  replace (0 <? sint 32 r) with (negb (sint 32 r <? 1)) in Hc by lia.
  destruct (sint 32 r <? 1); cbn [negb] in Hc.
  - eapply continue1_at; [exact Hc|exact Hf|lia].
  - msteps 1%nat. rewrite le_bytes_low by lia.
    eapply continue1_at; [exact Hc| |lia]. rewrite uint_sint by lia.
    by apply (frame_str_len _ _ r) in Hf.
Qed.

(** Tests of the number of the call. *)
Lemma test_id s c :
  is_sint 32 (es_syscall_id s) -> (0 <=? c) && (c <? 2 ^ 31) = true ->
  jmp_test 64 BPF_JEQ (uint 32 (es_syscall_id s)) c = (es_syscall_id s =? c).
Proof using Type.
  intros Hs Hc. rewrite test_eq.
  - apply uint_eqb; [done|done|unfold is_sint; lia|lia].
  - apply (is_uint_le 32), uint_range; lia.
  - unfold is_uint. lia.
Qed.

(** The read at a pointer in argument [i], unless it is NULL. *)
Lemma string_pointer n i v0 v1 v3 v4 v5 v6 v7 v8 v9 m s ps :
  frame m id s -> Forall (is_uint 64) (es_args s) -> (i < 2)%nat ->
  continues1 n (if arg (es_args s) i =? 0 then s else
    let '(r, str) := probe_read_user_str t (es_str s) SYSCALL_STR_LEN (arg (es_args s) i) in
    set_str s str (if 0 <? sint 32 r then uint 32 (sint 32 r) else es_str_len s)) ps ->
  exec (13 + n) (at_pc 124 v0 v1 (Ptr RStack (120 + 8 * Z.of_nat i)) v3 v4 v5 v6 v7 v8 v9 m) ps.
Proof using All.
  intros Hf Ha Hi Hc. unfold at_pc.
  destruct i as [|[|i]]; [msteps 2%nat; rewrite (load_arg m s 0) by (done || lia)
                         |msteps 2%nat; rewrite (load_arg m s 1) by (done || lia)|lia].
  all: rewrite test_eq by (by apply arg_u64 || by apply uint_lit).
  all: destruct (_ =? 0); [eapply continue1_at; [exact Hc|exact Hf|lia]|].
  all: replace (13 + n - 2)%nat with (11 + n)%nat by lia.
  all: by apply (string_read _ _ _ _ _ _ _ _ _ _ _ _ _ _ Hf Hc).
Qed.

Lemma string_block n v0 v1 v2 v3 v4 v5 v7 v8 v9 m s ps :
  frame m id s -> is_sint 32 (es_syscall_id s) -> Forall (is_uint 64) (es_args s) ->
  continues1 n (maybe_capture_string t s) ps ->
  exec (20 + n) (at_pc 117 v0 v1 v2 v3 v4 v5 (Ptr RStack 120) v7 v8 v9 m) ps.
Proof using All.
  intros Hf Hs Ha Hc. unfold maybe_capture_string in Hc. unfold at_pc.
  msteps 4%nat. rewrite (load_id m s), (test_id s) by done. unfold NR_OPENAT in Hc.
  destruct (es_syscall_id s =? 56).
  { eapply doing_enough; [|eapply (string_pointer n 1); [exact Hf|done|lia|exact Hc]]. lia. }
  msteps 1%nat. rewrite (test_id s) by done. unfold NR_OPENAT2 in Hc.
  destruct (es_syscall_id s =? 437).
  { eapply doing_enough; [|eapply (string_pointer n 1); [exact Hf|done|lia|exact Hc]]. lia. }
  msteps 1%nat. rewrite test_ne by (first [by apply uint_lit | apply (is_uint_le 32), uint_range; lia]).
  rewrite uint_eqb by (done || unfold is_sint; lia). unfold NR_EXECVE in Hc.
  destruct (es_syscall_id s =? 221); cbn [negb orb] in *.
  - msteps 1%nat. eapply doing_enough; [|eapply (string_pointer n 0); [exact Hf|done|lia|exact Hc]]. lia.
  - change (continues1 n s ps) in Hc. eapply doing_enough; [|by apply Hc]. lia.
Qed.

(** *** maybe_capture_sockaddr *)

(** The members of the address, one at a time. *)
Definition set_port (s : enter_state) (z : Z) : enter_state :=
  EnterState (es_syscall_id s) (es_args s) (es_comm s) (es_str s) (es_str_len s) (es_sa_family s) z
    (es_sa_addr4 s) (es_sa_addr6 s) (es_sa_scope_id s) (es_sa_valid s).
Definition set_in (s : enter_state) (z : Z) : enter_state :=
  EnterState (es_syscall_id s) (es_args s) (es_comm s) (es_str s) (es_str_len s) (es_sa_family s)
    (es_sa_port s) z (es_sa_addr6 s) (es_sa_scope_id s) (es_sa_valid s).
Definition set_in6 (s : enter_state) (b : bytes) : enter_state :=
  EnterState (es_syscall_id s) (es_args s) (es_comm s) (es_str s) (es_str_len s) (es_sa_family s)
    (es_sa_port s) (es_sa_addr4 s) b (es_sa_scope_id s) (es_sa_valid s).
Definition set_scope (s : enter_state) (z : Z) : enter_state :=
  EnterState (es_syscall_id s) (es_args s) (es_comm s) (es_str s) (es_str_len s) (es_sa_family s)
    (es_sa_port s) (es_sa_addr4 s) (es_sa_addr6 s) z (es_sa_valid s).
Definition set_valid (s : enter_state) : enter_state :=
  EnterState (es_syscall_id s) (es_args s) (es_comm s) (es_str s) (es_str_len s) (es_sa_family s)
    (es_sa_port s) (es_sa_addr4 s) (es_sa_addr6 s) (es_sa_scope_id s) 1.

Ltac frame_member i Hf :=
  eapply (frame_field _ _ _ _ i); [exact Hf|reflexivity|by rewrite ?length_le_bytes|reflexivity|];
  destruct Hf as [_ _ _ []]; by split.

Lemma frame_family m s z : frame m id s -> frame (zstore 444 (le_bytes 2 z) m) id (set_family s z).
Proof using Type. intros Hf. frame_member 11%nat Hf. Qed.
Lemma frame_port m s z : frame m id s -> frame (zstore 446 (le_bytes 2 z) m) id (set_port s z).
Proof using Type. intros Hf. frame_member 12%nat Hf. Qed.
Lemma frame_in m s z : frame m id s -> frame (zstore 448 (le_bytes 4 z) m) id (set_in s z).
Proof using Type. intros Hf. frame_member 13%nat Hf. Qed.
Lemma frame_scope m s z : frame m id s -> frame (zstore 468 (le_bytes 4 z) m) id (set_scope s z).
Proof using Type. intros Hf. frame_member 15%nat Hf. Qed.
Lemma frame_valid m s : frame m id s -> frame (zstore 472 (le_bytes 1 1) m) id (set_valid s).
Proof using Type. intros Hf. frame_member 16%nat Hf. Qed.
Lemma frame_in6 m s b : length b = 16%nat -> frame m id s -> frame (zstore 452 b m) id (set_in6 s b).
Proof using Type.
  intros Hb Hf. eapply (frame_field _ _ _ _ 14); [exact Hf|reflexivity|by rewrite Hb|reflexivity|].
  destruct Hf as [_ _ _ []]. by split.
Qed.

(** What a successful read of user memory leaves. *)
Lemma read_user_size n a : length (res_bytes (probe_read_user t n a)) = n.
Proof using BpfTaskLaws0. apply read_user_length. Qed.

Lemma test_read c n a :
  c = 0 ->
  jmp_test 64 BPF_JSGT c (uint 64 (res_value (probe_read_user t n a))) = ((probe_read_user t n a).1 <? 0).
Proof using BpfTaskLaws0 BpfLongLaws0.
  intros ->. apply test_sgt_long; [by apply is_sint_zero|].
  pose proof (read_user_errno t n a). pose proof (read_user_result t n a).
  unfold is_sint, res_value. lia.
Qed.

(** [struct sockaddr_in] read at [uaddr]. *)
Lemma inet_block n uaddr v0 v1 v3 v4 v5 v7 v8 v9 m s ps :
  frame m id s ->
  continues n 218 (let '(r, in4) := probe_read_user t (struct_size sockaddr_in) uaddr in
    if r <? 0 then s
    else set_addr4 s (get_uint sockaddr_in "sin_port" in4) (get_uint sockaddr_in "sin_addr" in4)) ps ->
  exec (17 + n) (at_pc 168 v0 v1 (Scalar 16) v3 v4 v5 (Scalar uaddr) v7 v8 v9 m) ps.
Proof using All.
  intros Hf Hc. rewrite sockaddr_in_size in Hc. unfold at_pc. msteps 8%nat. rewrite test_read by done.
  pose proof (read_user_size 16 uaddr) as Hl.
  unfold res_bytes, res_value in *. destruct (probe_read_user t 16 uaddr) as [r in4]. cbn [fst snd] in *.
  set (m1 := zstore 480 in4 _).
  assert (frame m1 id s) as Hf1 by (unfold m1; repeat (apply frame_temp; [|zlen..]); done).
  pose proof (fr_size _ _ _ Hf1) as Hm1.
  assert (forall o a w, o = 480 + a -> 0 <= a -> 0 <= w -> a + w <= 16 -> zload o w m1 = zload a w in4) as Hld.
  { intros ? ? ? -> ? ? ?. unfold m1. apply zload_zstore_part; rewrite ?Hl; try lia.
    pose proof (fr_size _ _ _ Hf). zlen. }
  clearbody m1. destruct (r <? 0); [eapply continue_at; [exact Hc|done|lia]|].
  msteps 9%nat. rewrite !zload_zstore_ne by zlen.
  rewrite (Hld 482 2 2), (Hld 484 4 4) by lia.
  eapply continue_at; [exact Hc| |lia].
  apply frame_valid in Hf1. apply (frame_port _ _ (le_value (zload 2 2 in4))) in Hf1.
  apply (frame_in _ _ (le_value (zload 4 4 in4))) in Hf1. exact Hf1.
Qed.

(** [struct sockaddr_in6] read at [uaddr]. *)
Lemma inet6_block n uaddr v0 v1 v2 v3 v4 v5 v7 v8 v9 m s ps :
  frame m id s ->
  continues n 218 (let '(r, in6) := probe_read_user t (struct_size sockaddr_in6) uaddr in
    if r <? 0 then s
    else set_addr6 s (get_uint sockaddr_in6 "sin6_port" in6) (get_field sockaddr_in6 "sin6_addr" in6)
           (get_uint sockaddr_in6 "sin6_scope_id" in6)) ps ->
  exec (30 + n) (at_pc 188 v0 v1 v2 v3 v4 v5 (Scalar uaddr) v7 v8 v9 m) ps.
Proof using All.
  intros Hf Hc. rewrite sockaddr_in6_size in Hc. unfold at_pc. msteps 11%nat. rewrite test_read by done.
  pose proof (read_user_size 28 uaddr) as Hl. pose proof (read_user_byte t 28 uaddr) as Hb.
  unfold res_bytes, res_value in *. destruct (probe_read_user t 28 uaddr) as [r in6]. cbn [fst snd] in *.
  set (m1 := zstore 480 in6 _).
  assert (frame m1 id s) as Hf1 by (unfold m1; repeat (apply frame_temp; [|zlen..]); done).
  pose proof (fr_size _ _ _ Hf1) as Hm1.
  assert (forall o a w, o = 480 + a -> 0 <= a -> 0 <= w -> a + w <= 28 -> zload o w m1 = zload a w in6) as Hld.
  { intros ? ? ? -> ? ? ?. unfold m1. apply zload_zstore_part; rewrite ?Hl; try lia.
    pose proof (fr_size _ _ _ Hf). zlen. }
  clearbody m1. destruct (r <? 0); [eapply continue_at; [exact Hc|done|lia]|].
  msteps 19%nat. rewrite !zload_zstore_ne by zlen.
  rewrite (Hld 482 2 2), (Hld 488 8 4), (Hld 492 12 4), (Hld 496 16 4), (Hld 500 20 4), (Hld 504 24 4) by lia.
  eapply continue_at; [exact Hc| |lia].
  apply frame_valid in Hf1.
  pose proof (load_words4 8 in6 Hb ltac:(lia) ltac:(lia)) as Hw. cbv beta zeta in Hw.
  apply (frame_in6 _ _ (zload 8 16 in6)) in Hf1; [|pose proof (length_zload 8 16 in6); lia].
  rewrite <- Hw, <- (zstore_words4 452) in Hf1 by zlen.
  apply (frame_port _ _ (le_value (zload 2 2 in6))) in Hf1.
  apply (frame_scope _ _ (le_value (zload 24 4 in6))) in Hf1.
  rewrite Hw in Hf1. exact Hf1.
Qed.

(** The read of the family and of the address. *)
Definition sock_read (s : enter_state) (uaddr len : Z) : enter_state :=
  let '(r, fam) := probe_read_user t 2 uaddr in
  if r <? 0 then s
  else
    let family := le_value fam in
    let s := set_family s family in
    if (family =? AF_INET_VAL) && (Z.of_nat (struct_size sockaddr_in) <=? len) then
      let '(r, in4) := probe_read_user t (struct_size sockaddr_in) uaddr in
      if r <? 0 then s
      else set_addr4 s (get_uint sockaddr_in "sin_port" in4) (get_uint sockaddr_in "sin_addr" in4)
    else if (family =? AF_INET6_VAL) && (Z.of_nat (struct_size sockaddr_in6) <=? len) then
      let '(r, in6) := probe_read_user t (struct_size sockaddr_in6) uaddr in
      if r <? 0 then s
      else set_addr6 s (get_uint sockaddr_in6 "sin6_port" in6) (get_field sockaddr_in6 "sin6_addr" in6)
             (get_uint sockaddr_in6 "sin6_scope_id" in6)
    else s.

Lemma test_len c len : is_uint 64 c -> is_uint 64 len -> jmp_test 64 BPF_JGT c len = negb (c <=? len).
Proof using Type. intros. rewrite test_gt by done. lia. Qed.

Lemma family_block n uaddr len v0 v1 v2 v3 v4 v5 v8 v9 m s ps :
  frame m id s -> is_uint 64 len -> continues n 218 (sock_read s uaddr len) ps ->
  exec (45 + n) (at_pc 156 v0 v1 v2 v3 v4 v5 (Scalar uaddr) (Scalar len) v8 v9 m) ps.
Proof using All.
  intros Hf Hlen Hc. unfold sock_read in Hc. unfold at_pc. msteps 7%nat. rewrite test_read by done.
  pose proof (read_user_size 2 uaddr) as Hl. pose proof (read_user_byte t 2 uaddr) as Hb.
  unfold res_bytes, res_value in *. destruct (probe_read_user t 2 uaddr) as [r fam]. cbn [fst snd] in *.
  pose proof (fr_size _ _ _ Hf) as Hm. apply (frame_temp _ _ _ 510 fam) in Hf; [|lia..].
  destruct (r <? 0); [eapply continue_at; [exact Hc|done|lia]|].
  msteps 3%nat. rewrite zload_zstore_eq by zlen.
  assert (is_uint 64 (le_value fam)) as Hfam.
  { apply (is_uint_le 16); [lia|]. change 16 with (8 * Z.of_nat 2). rewrite <- Hl. by apply le_value_range. }
  apply (frame_family _ _ (le_value fam)) in Hf.
  set (m2 := zstore 444 _ _) in *. clearbody m2. revert Hc. generalize dependent (le_value fam).
  intros family Hf Hfam Hc. cbv zeta in Hc. rewrite sockaddr_in_size, sockaddr_in6_size in Hc.
  unfold AF_INET_VAL, AF_INET6_VAL in Hc. rewrite test_ne by (done || by apply uint_lit).
  destruct (family =? 2) eqn:E2; cbn [negb andb] in *.
  - msteps 2%nat. rewrite test_len by (done || by apply uint_lit).
    change (Z.of_nat 16) with 16 in Hc.
    destruct (16 <=? len); cbn [negb].
    + eapply doing_enough; [|eapply (inet_block n); [exact Hf|exact Hc]]. lia.
    + msteps 1%nat. rewrite test_ne by (done || by apply uint_lit).
      assert ((family =? 10) = false) as E10 by lia. rewrite E10 in *. cbn [negb andb] in *.
      eapply continue_at; [exact Hc|done|lia].
  - msteps 1%nat. rewrite test_ne by (done || by apply uint_lit).
    destruct (family =? 10); cbn [negb andb] in *; [|eapply continue_at; [exact Hc|done|lia]].
    msteps 2%nat. rewrite test_len by (done || by apply uint_lit). change (Z.of_nat 28) with 28 in Hc.
    destruct (28 <=? len); cbn [negb].
    + eapply doing_enough; [|eapply (inet6_block n); [exact Hf|exact Hc]]. lia.
    + eapply continue_at; [exact Hc|done|lia].
Qed.

(** The calls with an address: 200, 203 and 206 by a bit mask. *)
Lemma sock_mask x :
  is_uint 32 x ->
  let d := alu 64 BPF_ADD x 18446744073709551416 in
  negb (jmp_test 64 BPF_JGT d 6) && jmp_test 64 BPF_JNE (alu 64 BPF_AND (alu 64 BPF_LSH 1 d) 73) 0
    = (x =? 203) || (x =? 200) || (x =? 206).
Proof using Type.
  unfold is_uint. intros Hx. cbv zeta.
  destruct (decide (200 <= x <= 206)) as [Hr|Hr].
  - assert (x = 200 \/ x = 201 \/ x = 202 \/ x = 203 \/ x = 204 \/ x = 205 \/ x = 206) as Hcases by lia.
    destruct_or! Hcases; subst x; reflexivity.
  - replace ((x =? 203) || (x =? 200) || (x =? 206)) with false by lia.
    assert (6 < alu 64 BPF_ADD x 18446744073709551416 < 2 ^ 64) as Hd.
    { unfold alu, uint. destruct (decide (x < 200)).
      - rewrite Z.mod_small; lia.
      - replace (x + 18446744073709551416) with ((x - 200) + 1 * 2 ^ 64) by lia.
        rewrite Z.mod_add, Z.mod_small by lia. lia. }
    rewrite test_gt by (unfold is_uint; lia). assert ((6 <? alu 64 BPF_ADD x 18446744073709551416) = true) as -> by lia.
    done.
Qed.

Lemma sock_block n s ps :
  is_sint 32 (es_syscall_id s) -> Forall (is_uint 64) (es_args s) ->
  continues n 218 (maybe_capture_sockaddr t s) ps -> continues1 (64 + n) s ps.
Proof using All.
  intros Hs Ha Hc v0 v2 v3 v4 v5 v6 v7 v8 v9 m Hf. unfold at_pc.
  assert (maybe_capture_sockaddr t s =
    if negb ((es_syscall_id s =? 203) || (es_syscall_id s =? 200) || (es_syscall_id s =? 206)) then s
    else if arg (es_args s) 1 =? 0 then s
    else let len := if es_syscall_id s =? 206 then arg (es_args s) 5 else arg (es_args s) 2 in
      if len <? 2 then s else sock_read s (arg (es_args s) 1) len) as E.
  { unfold maybe_capture_sockaddr, NR_CONNECT, NR_BIND, NR_SENDTO. by rewrite !negb_orb. }
  rewrite E in Hc. clear E.
  rewrite <- !(uint_eqb 32 (es_syscall_id s)) in Hc by (done || unfold is_sint; lia).
  rewrite <- sock_mask in Hc by (apply uint_range; lia). cbv zeta in Hc.
  msteps 3%nat. destruct (jmp_test 64 BPF_JGT _ 6); cbn [negb andb] in Hc.
  { eapply continue_at; [exact Hc|done|lia]. }
  msteps 4%nat. destruct (jmp_test 64 BPF_JNE _ 0); cbn [negb] in Hc.
  2: { msteps 1%nat. eapply continue_at; [exact Hc|done|lia]. }
  msteps 2%nat. rewrite (load_arg m s 1), test_eq by (done || lia || by apply arg_u64 || by apply uint_lit).
  destruct (arg (es_args s) 1 =? 0); [eapply continue_at; [exact Hc|done|lia]|].
  msteps 4%nat.
  rewrite test_eq by (first [by apply uint_lit|apply (is_uint_le 32), uint_range; lia]).
  destruct (uint 32 (es_syscall_id s) =? 206).
  - msteps 3%nat. rewrite (load_arg m s 5), test_gt by (done || lia || by apply arg_u64 || by apply uint_lit).
    destruct (arg (es_args s) 5 <? 2); [eapply continue_at; [exact Hc|done|lia]|].
    eapply doing_enough; [|eapply (family_block n); [exact Hf| |exact Hc]]; [lia|by apply arg_u64].
  - msteps 5%nat. rewrite (load_arg m s 2), test_gt by (done || lia || by apply arg_u64 || by apply uint_lit).
    destruct (arg (es_args s) 2 <? 2); [eapply continue_at; [exact Hc|done|lia]|].
    eapply doing_enough; [|eapply (family_block n); [exact Hf| |exact Hc]]; [lia|by apply arg_u64].
Qed.

(** The prologue: the frame is cleared, the id stored, the filter applied. *)
Lemma enter_prologue n stack ps :
  length stack = 512%nat -> (2 <= n)%nat ->
  (forall v0 v1 v2 v8 v9 m, frame m id enter_state_zero ->
    exec n (at_pc 58 v0 v1 v2 Undef Undef Undef (Ptr RCtx 0) (Scalar a0) v8 v9 m) ps) ->
  exec (57 + n) (Running (init stack kn)) (if filtered tg id then ORet else ps).
Proof using All.
  intros Hl Hn Hcont. pose proof (frame_zero stack id Hl) as Hf.
  assert (is_uint 64 id) as Hid by apply pid_tgid_u64. unfold filtered.
  msteps 54%nat. rewrite (uint_id 64 id), filter_value, ctx_arg0 by done.
  match goal with |- context [Mach 58 _ ?m _ _ _] =>
    assert (zstore 104 (le_bytes 8 id) (zero_words 46 112 stack) = m) as Hm end.
  { lazy -[zstore le_bytes get_current_pid_tgid]. reflexivity. }
  rewrite <- Hm. clear Hm. set (m1 := zstore 104 _ _) in *. clearbody m1.
  assert (is_uint 64 (uint 32 tg)) by (apply (is_uint_le 32), uint_range; lia).
  rewrite test_eq, uint_eqb by (done || by apply is_sint_zero).
  destruct (tg =? 0); cbn [negb andb].
  - eapply doing_enough; [|by apply Hcont]. lia.
  - msteps 3%nat. rewrite filter_value, test_ne, tgid_test
      by (done || apply alu_range; done).
    destruct (tgid_of id =? tg); cbn [negb].
    + eapply doing_enough; [|by apply Hcont]. lia.
    + eapply doing_enough; [|apply (enter_return _ 0)]. lia.
Qed.

(** The program performs the operations of the source. *)
Lemma object_enter_does stack :
  length stack = 512%nat -> exec 228 (Running (init stack kn)) (sys_enter_ops tg t (tp_ctx t a0 a1)).
Proof using All.
  intros Hl.
  set (s0 := set_regs enter_state_zero (sint 32 a1) (pt_reg (tp_ctx t a0 a1) <$> seq 0 6)
    (get_current_comm t TASK_COMM_LEN).2).
  apply (enter_prologue 171 stack); [done|lia|].
  intros v0 v1 v2 v8 v9 m Hf. apply (doing_enough _ _ _ _ _ (59 + (20 + (64 + 9)))); [lia|].
  apply regs_block; [done|]. fold s0. clear v0 v1 v2 v8 v9 m Hf. intros v0 v1 v2 v3 v4 v5 v7 v8 v9 m Hf.
  assert (is_sint 32 (es_syscall_id s0)) as Hid by (apply sint_range; lia).
  assert (Forall (is_uint 64) (es_args s0)) as Ha.
  { cbn [s0 set_regs es_args]. apply Forall_fmap, Forall_true. intros i. apply uint_range. lia. }
  apply (string_block _ _ _ _ _ _ _ _ _ _ _ s0); [done..|].
  destruct (capture_string_frame t s0) as (Ei & Ea & _). apply sock_block.
  + by rewrite Ei.
  + by rewrite Ea.
  + apply update_block.
Qed.

#[local] Existing Instance typed_view.

Lemma enter_status c (k : kern M R) : handle_sys_enter tg t c k = ((handle_sys_enter tg t c k).1, 0).
Proof using Type.
  unfold handle_sys_enter. destruct (filtered tg id); [reflexivity|]. by destruct (hupdate (k_inflight k) id _ BPF_ANY).
Qed.

Lemma object_enter_run stack :
  length stack = 512%nat ->
  exec_program elf_bytes (B "handle_sys_enter") tg t a0 a1 stack kn =
    let '(k', r) := handle_sys_enter tg t (tp_ctx t a0 a1) kn in Exited r k'.
Proof using All.
  intros Hl. rewrite (exec_program_run _ _ _ _ _ _ _ _ _ enter_prog_object), enter_status.
  apply (doing_run _ _ _ _ _ _ _ _ _ _ (object_enter_does stack Hl)).
  - unfold sys_enter_ops. by destruct (filtered tg id).
  - exact (run_ops_of tg (HEnter t (tp_ctx t a0 a1)) kn).
Qed.
End Enter.
