(* ===== verification/ObjTrace.v ===== *)
(** * The embedded object on sequences of tracepoint hits

    The compiled programs compute what the source functions compute on the
    same kernel seen through the C types; so on any interleaving of hits the
    object implements the call tracker. *)

From stdpp Require Import base list gmap strings.
From Stdlib Require Import ZArith Lia.
From S2P Require Import Prelude CLib Layout BpfIface StraceTypes StraceBpf StraceCapture StraceTrace StraceProps.
From S2P Require Import Printf StraceFmt StraceFmtProps StraceOutput.
From S2P Require Import ElfBlob ElfObject BpfInsn BpfMachine ObjMem ObjExec ObjExit ObjEnter.

Local Open Scope string_scope.
Local Open Scope list_scope.
Local Open Scope Z_scope.

(** ** The programs *)

Section Programs.
Context {T M R : Type} `{BpfTask T, !BpfTaskLaws T, BpfKernelRead T, !BpfLongLaws T}
  `{BpfHash Z bytes M} `{BpfRingbuf R, !BpfRingbufLaws R}.
Context (target_tgid : Z).

(** C10: the compiled entry program is correct.  From every kernel state and
    whatever the stack holds, running the instructions of [handle_sys_enter] in
    the embedded object ends within as many steps as it has instructions, with
    the return value and the kernel state of the source function: never an
    access outside an object, an uninitialised register or a wrong argument of
    a helper. *)
Theorem object_enter_correct (t : T) a0 a1 stack (k : kern M R) :
  is_sint 32 target_tgid -> is_uint 64 a0 -> is_uint 64 a1 -> length stack = 512%nat ->
  exec_program elf_bytes (B "handle_sys_enter") target_tgid t a0 a1 stack k =
    let '(k', r) := handle_sys_enter (H0 := typed_view) target_tgid t (tp_ctx t a0 a1) k in Exited r k'.
Proof using All. intros. by apply object_enter_run. Qed.

(** C11: the compiled exit program is correct, in the same sense, when the values
    of the map have the size the map was created with. *)
Theorem object_exit_correct (t : T) a0 a1 stack (k : kern M R) :
  is_sint 32 target_tgid -> is_uint 64 a1 -> length stack = 512%nat -> values_ok (k_inflight k) ->
  exec_program elf_bytes (B "handle_sys_exit") target_tgid t a0 a1 stack k =
    let '(k', r) := handle_sys_exit (H0 := typed_view) target_tgid t (tp_ctx t a0 a1) k in Exited r k'.
Proof using All. intros. apply object_exit_run; [done..|apply rb_reserve_length|done]. Qed.
End Programs.

(** ** Sequences of hits *)

(** A hit of a tracepoint: the program, the task, the two arguments, and what
    the stack of the program happens to hold. *)
Record object_hit (T : Type) := ObjectHit {
  oh_enter : bool;
  oh_task : T;
  oh_arg0 : Z;
  oh_arg1 : Z;
  oh_stack : bytes;
}.
#[global] Arguments ObjectHit {_} _ _ _ _ _.
#[global] Arguments oh_enter {_} _.
#[global] Arguments oh_task {_} _.
#[global] Arguments oh_arg0 {_} _.
#[global] Arguments oh_arg1 {_} _.
#[global] Arguments oh_stack {_} _.

Record hit_ok {T} (h : object_hit T) : Prop := {
  ho_arg0 : is_uint 64 (oh_arg0 h);
  ho_arg1 : is_uint 64 (oh_arg1 h);
  ho_stack : length (oh_stack h) = 512%nat;
}.

(** The hit as the source functions see it. *)
Definition source_hit {T} `{BpfKernelRead T} (h : object_hit T) : hit T :=
  let c := tp_ctx (oh_task h) (oh_arg0 h) (oh_arg1 h) in
  if oh_enter h then HEnter (oh_task h) c else HExit (oh_task h) c.

Section Run.
Context {T M R : Type} `{BpfTask T, BpfKernelRead T} `{BpfHash Z bytes M} `{BpfRingbuf R}.

Definition object_step (target_tgid : Z) (k : option (kern M R)) (h : object_hit T) : option (kern M R) :=
  k ← k;
  match exec_program elf_bytes (if oh_enter h then B "handle_sys_enter" else B "handle_sys_exit")
          target_tgid (oh_task h) (oh_arg0 h) (oh_arg1 h) (oh_stack h) k with
  | Exited _ k' => Some k'
  | _ => None
  end.

(** [None] if a program got stuck or did not end. *)
Definition object_run (target_tgid : Z) (k : kern M R) (hs : list (object_hit T)) : option (kern M R) :=
  foldl (object_step target_tgid) (Some k) hs.

(** Whether the ring buffer has room for an event when each hit comes. *)
Fixpoint object_rooms (target_tgid : Z) (k : kern M R) (hs : list (object_hit T)) : list bool :=
  match hs with
  | [] => []
  | h :: hs =>
      has_room k ::
      match object_step target_tgid (Some k) h with
      | Some k => object_rooms target_tgid k hs
      | None => []
      end
  end.

(** The hits as the source functions see them, each with whether there is room. *)
Definition object_hits (target_tgid : Z) (k : kern M R) (hs : list (object_hit T)) : list (hit T * bool) :=
  zip (source_hit <$> hs) (object_rooms target_tgid k hs).

Lemma object_hits_source target_tgid k hs k' :
  object_run target_tgid k hs = Some k' -> (object_hits target_tgid k hs).*1 = source_hit <$> hs.
Proof using Type.
  assert (forall hs, foldl (object_step target_tgid) None hs = None) as Hnone by (intros l; by induction l).
  unfold object_run, object_hits. revert k. induction hs as [|h hs IH]; intros k; [done|].
  cbn [foldl object_rooms]. destruct (object_step target_tgid (Some k) h) as [k1|] eqn:E; [|by rewrite Hnone].
  intros Hr. cbn. f_equal. by apply IH.
Qed.

Lemma object_run_snoc target_tgid k hs h :
  object_run target_tgid k (hs ++ [h]) = object_step target_tgid (object_run target_tgid k hs) h.
Proof using Type. unfold object_run. by rewrite foldl_app. Qed.
End Run.

(** ** Stored values are representations of well-formed records *)

Record byte_arrays (s : enter_state) : Prop := {
  ba_comm : Forall is_byte (es_comm s);
  ba_str : Forall is_byte (es_str s);
  ba_addr6 : Forall is_byte (es_sa_addr6 s);
}.

Section RecordBytes.
Context {T : Type} `{BpfTaskLaws T}.

Lemma zeros_bytes n : Forall is_byte (replicate n 0).
Proof using Type. apply Forall_replicate. unfold is_byte. lia. Qed.

Lemma enter_record_bytes (t : T) c : byte_arrays (enter_record t c).
Proof.
  unfold enter_record. fold (enter_start t c).
  assert (byte_arrays (maybe_capture_string t (enter_start t c))) as Hs.
  { assert (byte_arrays (enter_start t c)) as []
      by (split; [apply comm_byte|apply (zeros_bytes 256)|apply (zeros_bytes 16)]).
    unfold maybe_capture_string. case_match; [by split|].
    pose proof (read_str_byte t (es_str (enter_start t c)) SYSCALL_STR_LEN
      (if (es_syscall_id (enter_start t c) =? NR_OPENAT) || (es_syscall_id (enter_start t c) =? NR_OPENAT2)
       then arg (es_args (enter_start t c)) 1
       else if es_syscall_id (enter_start t c) =? NR_EXECVE then arg (es_args (enter_start t c)) 0 else 0)
      ltac:(done)) as Hr.
    by destruct (probe_read_user_str t _ _ _). }
  destruct (capture_sockaddr_outcome t (maybe_capture_string t (enter_start t c)))
    as [|fam|fam in4|fam in6 _ _ _ _ _ E]; destruct Hs; split; try done.
  apply read_user_facts in E as (_ & Hb & _). by apply get_field_byte.
Qed.
End RecordBytes.

(** ** Bytes and records: two maps with the same entries *)

Section Relation.
Context {T M N R : Type} `{BpfTask T, !BpfTaskLaws T}
  `{BpfHash Z bytes M, !BpfHashLaws Z bytes M, !BpfHashCapacity Z bytes M}
  `{BpfHash Z enter_state N, !BpfHashLaws Z enter_state N, !BpfHashCapacity Z enter_state N}
  `{BpfRingbuf R}.
Implicit Types (m : M) (n : N).

Record same_map m n : Prop := {
  sm_lookup id : hlookup m id = encode_enter <$> hlookup n id;
  sm_wf id s : hlookup n id = Some s -> wf_enter s /\ byte_arrays s;
  sm_count : hcount m = hcount n;
  sm_max : hmax m = hmax n;
}.

Lemma same_map_values m n : same_map m n -> values_ok m.
Proof using Type.
  intros Hs k v. rewrite (sm_lookup _ _ Hs). destruct (hlookup n k) as [s|] eqn:E; [|done].
  intros [= <-]. destruct (sm_wf _ _ Hs _ _ E) as [Hwf []]. split.
  - by apply length_encode_enter, wf_sized.
  - by apply encode_enter_byte.
Qed.

Lemma same_map_decode m n id : same_map m n -> decode_enter <$> hlookup m id = hlookup n id.
Proof using Type.
  intros Hs. rewrite (sm_lookup _ _ Hs). destruct (hlookup n id) as [s|] eqn:E; [|done]. simpl.
  f_equal. apply decode_encode_enter. by destruct (sm_wf _ _ Hs _ _ E).
Qed.

(** An update succeeds on both or on neither. *)
Lemma same_map_update m n id s :
  same_map m n -> wf_enter s -> byte_arrays s ->
  same_map (hupdate m id (encode_enter s) BPF_ANY).2 (hupdate n id s BPF_ANY).2.
Proof.
  intros Hs Hwf Hb. pose proof Hs as [Hl Hw Hc Hm].
  assert (is_Some (hlookup m id) <-> is_Some (hlookup n id)) as Hi by (rewrite Hl; by rewrite fmap_is_Some).
  destruct (decide (is_Some (hlookup n id) \/ (hcount n < hmax n)%nat)) as [Hroom|Hfull].
  - pose proof (hupdate_any_room n id s Hroom) as En.
    pose proof (hupdate_any_room m id (encode_enter s) ltac:(rewrite Hi, Hc, Hm; done)) as Em.
    split; [| |by destruct (hlookup n id) eqn:E;
      [rewrite !hcount_update_old by (rewrite ?Hl, ?E; eauto)|
       rewrite !hcount_update_new by (rewrite ?Hl, ?E; eauto)]; rewrite ?Hc|by rewrite !hmax_update].
    + intros k. rewrite !hupdate_ok by done. by case_decide.
    + intros k s'. rewrite hupdate_ok by done. case_decide; [by intros [= <-]|apply Hw].
  - assert (hlookup n id = None) as E by (apply eq_None_not_Some; tauto).
    pose proof (hupdate_any_full n id s E ltac:(lia)) as En.
    pose proof (hupdate_any_full m id (encode_enter s) ltac:(by rewrite Hl, E) ltac:(lia)) as Em.
    split; [| |by rewrite !hcount_update_fail by lia|by rewrite !hmax_update].
    + intros k. by rewrite !hupdate_fail by lia.
    + intros k s'. rewrite hupdate_fail by lia. apply Hw.
Qed.

Lemma same_map_delete m n id :
  same_map m n -> is_Some (hlookup n id) -> same_map (hdelete m id).2 (hdelete n id).2.
Proof.
  intros Hs Hin. pose proof Hs as [Hl Hw Hc Hm].
  assert (is_Some (hlookup m id)) as Him by (rewrite Hl; by rewrite fmap_is_Some).
  pose proof (hdelete_present m id Him) as Dm. pose proof (hdelete_present n id Hin) as Dn.
  split.
  - intros k. rewrite !hdelete_ok by done. by case_decide.
  - intros k s'. rewrite hdelete_ok by done. case_decide; [done|apply Hw].
  - pose proof (hcount_delete m id Him). pose proof (hcount_delete n id Hin). lia.
  - by rewrite !hmax_delete.
Qed.

Record same_kern (k : kern M R) (l : kern N R) : Prop := {
  sk_map : same_map (k_inflight k) (k_inflight l);
  sk_events : k_events k = k_events l;
}.

Lemma same_enter tg (t : T) c k l :
  same_kern k l ->
  same_kern (handle_sys_enter (H0 := typed_view) tg t c k).1 (handle_sys_enter tg t c l).1.
Proof.
  intros [Hm He]. unfold handle_sys_enter. destruct (filtered tg _); [by split|].
  pose proof (same_map_update _ _ (get_current_pid_tgid t) (enter_record t c) Hm
    (enter_record_wf t c) (enter_record_bytes t c)) as Hu.
  cbn [hupdate typed_view].
  destruct (hupdate (k_inflight k) _ _ BPF_ANY), (hupdate (k_inflight l) _ _ BPF_ANY).
  by split.
Qed.

Lemma same_exit tg (t : T) c k l :
  same_kern k l ->
  same_kern (handle_sys_exit (H0 := typed_view) tg t c k).1 (handle_sys_exit tg t c l).1.
Proof.
  intros [Hm He]. unfold handle_sys_exit. destruct (filtered tg _); [by split|].
  cbn [hlookup hdelete typed_view]. rewrite (same_map_decode _ _ _ Hm), He.
  destruct (hlookup (k_inflight l) _) as [s|] eqn:E; [|by split].
  pose proof (same_map_delete _ _ (get_current_pid_tgid t) Hm ltac:(eauto)) as Hd.
  destruct (rb_reserve _ _) as [[e r]|]; destruct (hdelete (k_inflight k) _), (hdelete (k_inflight l) _);
    by split.
Qed.
End Relation.

(** ** Refinement *)

(** The reference map of records. *)
Import SmallKernel.

Section Refinement.
Context {T M R : Type} `{BpfTask T, !BpfTaskLaws T, BpfKernelRead T, !BpfLongLaws T}
  `{BpfHash Z bytes M, !BpfHashLaws Z bytes M, !BpfHashCapacity Z bytes M}
  `{BpfRingbuf R, !BpfRingbufLaws R}.
Context (target_tgid : Z) (target_int : is_sint 32 target_tgid).
Implicit Types (k : kern M R) (hs : list (object_hit T)).

(** A map of records with the same capacity as the map of bytes. *)
Abbreviation records := (SmallKernel.hmap enter_state).

(** The object simulates the source functions, hit by hit. *)
Lemma object_step_source k (l : kern records R) h :
  same_kern k l -> hit_ok h ->
  exists k', object_step target_tgid (Some k) h = Some k' /\
    same_kern k' (bpf_step target_tgid l (source_hit h)).
Proof using All.
  intros Hs [Ha0 Ha1 Hst]. destruct h as [e t a0 a1 stack]. cbn [oh_arg0 oh_arg1 oh_stack] in *.
  unfold object_step, source_hit. cbn [mbind option_bind oh_enter oh_task oh_arg0 oh_arg1 oh_stack].
  destruct k as [im ev]. pose proof (same_map_values _ _ (sk_map _ _ Hs)) as Hv. destruct e.
  - rewrite object_enter_run by done. destruct (handle_sys_enter target_tgid t (tp_ctx t a0 a1) (Kern im ev)) as [k1 r] eqn:E.
    exists k1. split; [done|]. pose proof (same_enter target_tgid t (tp_ctx t a0 a1) _ _ Hs) as Hn.
    by rewrite E in Hn.
  - rewrite object_exit_run by (done || apply rb_reserve_length). destruct (handle_sys_exit target_tgid t (tp_ctx t a0 a1) (Kern im ev)) as [k1 r] eqn:E.
    exists k1. split; [done|]. pose proof (same_exit target_tgid t (tp_ctx t a0 a1) _ _ Hs) as Hn.
    by rewrite E in Hn.
Qed.

Lemma object_run_source k (l : kern records R) hs :
  same_kern k l -> Forall hit_ok hs ->
  exists k', object_run target_tgid k hs = Some k' /\
    same_kern k' (bpf_run target_tgid l (source_hit <$> hs)) /\
    object_hits target_tgid k hs = with_room target_tgid l (source_hit <$> hs).
Proof using All.
  intros Hs Hok. revert k l Hs. induction Hok as [|h hs Hh _ IH]; intros k l Hs; [by exists k|].
  destruct (object_step_source k l h Hs Hh) as (k1 & Hstep & Hs1).
  destruct (IH k1 _ Hs1) as (k' & Hr & Hs' & Hrooms). exists k'. unfold object_run, object_hits in *.
  cbn [foldl fmap list_fmap object_rooms with_room zip_with]. rewrite Hstep. split_and!; [done|done|].
  f_equal; [|done]. unfold has_room. by rewrite (sk_events _ _ Hs).
Qed.

(** The state after loading the object. *)
Record object_loaded k : Prop := {
  ol_inflight id : hlookup (k_inflight k) id = None;
  ol_count : hcount (k_inflight k) = 0%nat;
  ol_events : rb_records (k_events k) = [];
}.

Lemma loaded_same k :
  object_loaded k ->
  let l := Kern (SmallKernel.HMap (hmax (k_inflight k)) ∅ : records) (k_events k) in
  same_kern k l /\ loaded l.
Proof using Type.
  intros [Hi Hc He]. split; [split; [split|]|split]; try done.
Qed.

(** C5: the embedded object refines the call tracker.  From the loaded state,
    any sequence of tracepoint hits of any threads takes the compiled programs
    through a run of the tracker, without a stuck or endless run: the map holds
    the representations of exactly the open calls, the ring buffer exactly the
    reports of the completed ones.  A completed call is reported exactly when the
    ring buffer has room for an event at its exit. *)
Theorem object_run_refines k hs :
  object_loaded k -> Forall hit_ok hs ->
  exists k' tr, object_run target_tgid k hs = Some k' /\
    tracks target_tgid (hmax (k_inflight k)) fresh_tracker (object_hits target_tgid k hs) tr /\
    (forall id, hlookup (k_inflight k') id = encode_enter <$> open_calls tr !! id) /\
    reported k' = reports tr.
Proof using All.
  intros Hl Hok. destruct (loaded_same k Hl) as [Hs Hld].
  destruct (object_run_source _ _ hs Hs Hok) as (k' & Hr & [Hm He] & ->).
  destruct (bpf_run_sim target_tgid _ _ (source_hit <$> hs) (loaded_sim _ Hld)) as (tr & Ht & Hsim).
  exists k', tr. split_and!; [done|done| |].
  - intros id. rewrite (sm_lookup _ _ Hm). f_equal. apply (sim_open _ _ Hsim).
  - unfold reported. rewrite He. apply (sim_reports _ _ Hsim).
Qed.

(** ** From the compiled programs to the output *)

Context (junk : nat -> bytes) (junk_length : forall n, length (junk n) = n).
Context (strerror : Z -> bytes) (inet_ntop : Z -> bytes -> option bytes).
Hypothesis strerror_text : forall err, nonul (strerror err).
Hypothesis strerror_fits : forall err, Z.of_nat (length (strerror err)) + 20 <= INT_MAX.
Hypothesis ntop_text4 : forall a s,
  inet_ntop AF_INET a = Some s -> nonul s /\ (length s < INET_ADDRSTRLEN)%nat.
Hypothesis ntop_text6 : forall a s,
  inet_ntop AF_INET6 a = Some s -> nonul s /\ (length s < INET6_ADDRSTRLEN)%nat.

(** From the object file to the output.  Whatever the hits, the bytes the
    compiled programs leave in the ring buffer are printed by the consumer
    without undefined behaviour, each record as the line of a call that
    completed (the smallest 64-bit integer, which no system call returns,
    excluded). *)
Theorem object_reports_print k hs :
  object_loaded k -> Forall hit_ok hs ->
  Forall (fun h => oh_enter h = false -> sint 64 (oh_arg1 h) <> LONG_MIN) hs ->
  exists k', object_run target_tgid k hs = Some k' /\
    Forall (prints_call junk strerror inet_ntop target_tgid (source_hit <$> hs))
      (rb_records (k_events k')).
Proof using All.
  intros Hl Hok Hret. destruct (loaded_same k Hl) as [Hs Hld].
  destruct (object_run_source _ _ hs Hs Hok) as (k' & Hr & [_ He] & _).
  exists k'. split; [done|]. rewrite He.
  apply (run_records_print junk junk_length strerror inet_ntop strerror_text strerror_fits ntop_text4
    ntop_text6 target_tgid _ (source_hit <$> hs) Hld).
  intros t c (h & Hh & Hin)%list_elem_of_fmap. rewrite Forall_forall in Hret.
  specialize (Hret h Hin). destruct h as [[] t' a0 a1 st]; [done|]. injection Hh as <- ->. by apply Hret.
Qed.
End Refinement.
