(* ===== verification/ObjConc.v ===== *)
(** * The compiled programs on several CPUs

    The instructions of the embedded object's programs interleave: any thread
    may execute its next instruction at any time, on the shared map and ring
    buffer as they are then.  A pointer into the map is to the entry as it is at
    the moment of an access.  Every such execution is an interleaving of the
    operations of the source (StraceConc), so it is explained by a run of the
    call tracker. *)

From stdpp Require Import base list gmap strings.
From Stdlib Require Import ZArith Lia.
From S2P Require Import Prelude CLib Layout BpfIface StraceTypes StraceBpf StraceCapture StraceTrace StraceConc.
From S2P Require Import ElfBlob ElfObject BpfInsn BpfMachine ObjMem ObjExec ObjOps ObjExit ObjEnter ObjTrace.

Local Open Scope string_scope.
Local Open Scope list_scope.
Local Open Scope Z_scope.

(** ** Configurations *)

(** A ring buffer with the slot that the program has reserved. *)
#[export] Instance slot_ringbuf {C} `{BpfRingSlots C} : BpfRingbuf (C * option nat) := {|
  rb_reserve r n := '(i, e, c) ← cr_reserve r.1 n; Some (e, (c, Some i));
  rb_submit r rec := match r.2 with Some i => (cr_submit r.1 i rec, None) | None => r end;
  rb_records r := unread r.1;
|}.

Section Config.
Context {T M C : Type} `{BpfTask T, BpfKernelRead T} `{BpfHash Z bytes M} `{BpfRingSlots C}.

(** A program in progress: the hit that started it and its machine.  The kernel
    stored in the machine is the one of its last instruction. *)
Record thread := Thread { th_hit : object_hit T; th_mach : mach M (C * option nat) }.

Record xcfg := XCfg { x_map : M; x_ring : C; x_run : gmap Z thread }.

Definition slot_of (st : mach M (C * option nat)) : option nat := (k_events (m_kern st)).2.

(** The machine before its next instruction: the shared objects as they are now,
    and the map entry it has a pointer to. *)
Definition load_shared (m : M) (c : C) (st : mach M (C * option nat)) : mach M (C * option nat) :=
  Mach (m_pc st) (m_regs st) (m_stack st) (Kern m (c, slot_of st)) (m_record st)
    (match m_value st with Some (id, _) => pair id <$> hlookup m id | None => None end).

Definition hit_prog (h : object_hit T) : list (option instr) * list (Z * option bytes) :=
  if oh_enter h then enter_prog else exit_prog.

(** One instruction of the program that [h] runs. *)
Definition hit_step (target_tgid : Z) (h : object_hit T) (st : mach M (C * option nat)) :=
  step (hit_prog h).1 (reloc_of (hit_prog h).2) (oh_task h)
    (le_bytes 8 (oh_arg0 h) ++ le_bytes 8 (oh_arg1 h)) (le_bytes 4 target_tgid) st.

Definition hit_thread (h : object_hit T) : Z := get_current_pid_tgid (oh_task h).

(** What is observed of an instruction of thread [id]: a call of
    [bpf_ringbuf_reserve] that the ring buffer [c] refuses. *)
Definition instr_obs (c : C) (id : Z) (h : object_hit T) (st : mach M (C * option nat)) : list (obs (object_hit T)) :=
  match asks (hit_prog h).1 st with
  | Some z => match cr_reserve c z with None => [Refused id] | Some _ => [] end
  | None => []
  end.

Lemma instr_obs_begun c id h st : begun (instr_obs c id h st) = [].
Proof using Type. unfold instr_obs. destruct (asks _ _); [|done]. by destruct (cr_reserve c n). Qed.

(** At most [cpus] programs are in progress, and at most one of a thread. *)
Inductive xstep (target_tgid : Z) (cpus : nat) : xcfg -> list (obs (object_hit T)) -> xcfg -> Prop :=
| XBegin m c run h :
    run !! hit_thread h = None -> (size run < cpus)%nat ->
    xstep target_tgid cpus (XCfg m c run) [Began h]
      (XCfg m c (<[hit_thread h := Thread h (init (oh_stack h) (Kern m (c, None)))]> run))
| XInstr m c run id h st st' :
    run !! id = Some (Thread h st) -> hit_step target_tgid h (load_shared m c st) = Running st' ->
    xstep target_tgid cpus (XCfg m c run) (instr_obs c id h st)
      (XCfg (k_inflight (m_kern st')) (k_events (m_kern st')).1 (<[id := Thread h st']> run))
| XExit m c run id h st r k :
    run !! id = Some (Thread h st) -> hit_step target_tgid h (load_shared m c st) = Exited r k ->
    xstep target_tgid cpus (XCfg m c run) [] (XCfg (k_inflight k) (k_events k).1 (delete id run)).

Inductive xreach (target_tgid : Z) (cpus : nat) (x : xcfg) : list (obs (object_hit T)) -> xcfg -> Prop :=
| XReachNil : xreach target_tgid cpus x [] x
| XReachSnoc os x' l x'' :
    xreach target_tgid cpus x os x' -> xstep target_tgid cpus x' l x'' ->
    xreach target_tgid cpus x (os ++ l) x''
| XReachTake os m c run n :
    xreach target_tgid cpus x os (XCfg m c run) -> (n <= length (unread c))%nat ->
    xreach target_tgid cpus x os (XCfg m (cr_take c n) run).

(** ** Schedules

    A hit starts its program, or the program of a thread executes an instruction.
    A move that is not possible, with the thread busy, no free CPU or no program,
    does nothing. *)

Inductive cpu_move := Start (h : object_hit T) | Exec (id : Z).

(** The configuration and what is observed; [None] if an instruction is stuck. *)
Definition exec_move (target_tgid : Z) (cpus : nat) (x : xcfg) (mv : cpu_move) : option (xcfg * list (obs (object_hit T))) :=
  match mv with
  | Start h =>
      match x_run x !! hit_thread h with
      | None =>
          if (size (x_run x) <? cpus)%nat then
            let st := init (oh_stack h) (Kern (x_map x) (x_ring x, None)) in
            Some (XCfg (x_map x) (x_ring x) (<[hit_thread h := Thread h st]> (x_run x)), [Began h])
          else Some (x, [])
      | Some _ => Some (x, [])
      end
  | Exec id =>
      match x_run x !! id with
      | None => Some (x, [])
      | Some (Thread h st) =>
          match hit_step target_tgid h (load_shared (x_map x) (x_ring x) st) with
          | Running st' =>
              Some (XCfg (k_inflight (m_kern st')) (k_events (m_kern st')).1 (<[id := Thread h st']> (x_run x)),
                instr_obs (x_ring x) id h st)
          | Exited _ k => Some (XCfg (k_inflight k) (k_events k).1 (delete id (x_run x)), [])
          | Stuck => None
          end
      end
  end.

Fixpoint exec_moves (target_tgid : Z) (cpus : nat) (x : xcfg) (mvs : list cpu_move) : option (xcfg * list (obs (object_hit T))) :=
  match mvs with
  | [] => Some (x, [])
  | mv :: mvs =>
      '(x, l) ← exec_move target_tgid cpus x mv;
      '(x, os) ← exec_moves target_tgid cpus x mvs;
      Some (x, l ++ os)
  end.

Lemma exec_move_step target_tgid cpus x mv x' l :
  exec_move target_tgid cpus x mv = Some (x', l) ->
  x' = x /\ l = [] \/ xstep target_tgid cpus x l x'.
Proof using Type.
  destruct x as [m c run], mv as [h|id]; cbn [exec_move x_map x_ring x_run].
  - destruct (run !! hit_thread h) eqn:E; [intros [= <- <-]; by left|].
    destruct (Nat.ltb_spec (size run) cpus); intros [= <- <-]; [right; by apply XBegin|by left].
  - destruct (run !! id) as [[h st]|] eqn:E; [|intros [= <- <-]; by left].
    destruct (hit_step _ _ _) as [st'|r k|] eqn:Es; [intros [= <- <-]; right..|done]; [by eapply XInstr|by eapply XExit].
Qed.

Lemma exec_moves_reach target_tgid cpus x0 os x mvs x' l :
  xreach target_tgid cpus x0 os x -> exec_moves target_tgid cpus x mvs = Some (x', l) ->
  xreach target_tgid cpus x0 (os ++ l) x'.
Proof using Type.
  revert os x l. induction mvs as [|mv mvs IH]; intros os x l Hr; cbn [exec_moves].
  { intros [= <- <-]. by rewrite app_nil_r. }
  destruct (exec_move target_tgid cpus x mv) as [[x1 l1]|] eqn:E; [|done]. cbn [mbind option_bind].
  destruct (exec_moves target_tgid cpus x1 mvs) as [[x2 l2]|] eqn:Es; [|done]. intros [= <- <-].
  rewrite app_assoc. eapply IH; [|done]. destruct (exec_move_step _ _ _ _ _ _ E) as [[-> ->]|Hs];
    [by rewrite app_nil_r|by eapply XReachSnoc].
Qed.

(** The hits of a schedule. *)
Definition move_hit (P : object_hit T -> Prop) (mv : cpu_move) : Prop :=
  match mv with Start h => P h | Exec _ => True end.

Lemma exec_move_hits P target_tgid cpus x mv x' l :
  move_hit P mv -> exec_move target_tgid cpus x mv = Some (x', l) -> Forall P (begun l).
Proof using Type.
  intros Hp. destruct mv as [h|id]; cbn [exec_move]; intros E; repeat case_match; simplify_eq;
    rewrite ?instr_obs_begun; repeat constructor; done.
Qed.

Lemma exec_moves_hits P target_tgid cpus x mvs x' l :
  Forall (move_hit P) mvs -> exec_moves target_tgid cpus x mvs = Some (x', l) -> Forall P (begun l).
Proof using Type.
  intros Hp. revert x l. induction Hp as [|mv mvs Hmv _ IH]; intros x l; cbn [exec_moves]; [intros [= <- <-]; constructor|].
  destruct (exec_move target_tgid cpus x mv) as [[x1 l1]|] eqn:E; [|done]. cbn [mbind option_bind].
  destruct (exec_moves target_tgid cpus x1 mvs) as [[x2 l2]|] eqn:Es; [|done]. intros [= <- <-].
  rewrite begun_app. apply Forall_app. split; [by eapply exec_move_hits|by eapply IH].
Qed.

Lemma exec_moves_started target_tgid cpus x mvs x' l :
  exec_moves target_tgid cpus x mvs = Some (x', l) -> (Start <$> begun l) `sublist_of` mvs.
Proof using Type.
  revert x l. induction mvs as [|mv mvs IH]; intros x l; cbn [exec_moves]; [by intros [= <- <-]|].
  destruct (exec_move target_tgid cpus x mv) as [[x1 l1]|] eqn:E; [|done]. cbn [mbind option_bind].
  destruct (exec_moves target_tgid cpus x1 mvs) as [[x2 l2]|] eqn:Es; [|done]. intros [= <- <-].
  rewrite begun_app. assert (begun l1 = [] \/ Start <$> begun l1 = [mv]) as [->|Hl]; [|by apply sublist_cons, (IH x1)|].
  { destruct mv; cbn [exec_move] in E; repeat case_match; simplify_eq; rewrite ?instr_obs_begun; auto. }
  rewrite fmap_app, Hl. by apply sublist_skip, (IH x1).
Qed.
End Config.
#[global] Arguments cpu_move : clear implicits.
#[global] Arguments Start {_} _.
#[global] Arguments Exec {_} _.
#[global] Arguments thread : clear implicits.
#[global] Arguments xcfg : clear implicits.

(** ** Programs that touch their own entry only *)

(** Every key is [id], and what is stored is a record of an entry program. *)
Inductive proper (id : Z) : ops -> Prop :=
| PrRet : proper id ORet
| PrUpdate s p : wf_enter s -> byte_arrays s -> proper id p -> proper id (OUpdate id s p)
| PrLookup f : (forall b, proper id (f b)) -> proper id (OLookup id f)
| PrRead f : (forall s, proper id (f s)) -> proper id (ORead id f)
| PrDelete p : proper id p -> proper id (ODelete id p)
| PrReserve n f : (forall o, proper id (f o)) -> proper id (OReserve n f)
| PrSubmit i rec p : proper id p -> proper id (OSubmit i rec p).

Lemma proper_ops_of {T} `{BpfTask T, !BpfTaskLaws T} target_tgid (h : hit T) :
  proper (hit_id h) (ops_of target_tgid h).
Proof.
  destruct h as [t c|t c]; cbn [ops_of].
  - unfold sys_enter_ops. destruct (filtered _ _); [constructor|].
    apply (PrUpdate (get_current_pid_tgid t)); [apply enter_record_wf|apply enter_record_bytes|constructor].
  - unfold sys_exit_ops. destruct (filtered _ _); [constructor|].
    apply (PrLookup (get_current_pid_tgid t)). intros []; [|constructor].
    unfold reserve_ops, fill_ops. constructor. intros [[i e]|]; [|by repeat constructor].
    apply (PrRead (get_current_pid_tgid t)). intros s. by repeat constructor.
Qed.

(** ** Budgets of instructions, by thread *)

Definition upd (b : Z -> nat) (id : Z) (i : nat) : Z -> nat := fun id' => if decide (id' = id) then i else b id'.

(** The instructions that the threads [X] have left. *)
Definition budget (b : Z -> nat) (X : gset Z) : nat := sum_list (b <$> elements X).

Lemma budget_pick b X id : id ∈ X -> budget b X = (b id + budget b (X ∖ {[id]}))%nat.
Proof.
  intros Hin. unfold budget. rewrite (union_difference_singleton_L id X) at 1 by done.
  rewrite elements_disj_union by set_solver. by rewrite elements_singleton.
Qed.

Lemma budget_upd b X id i : (id ∉ X) -> budget (upd b id i) X = budget b X.
Proof.
  intros Hn. unfold budget. f_equal. apply list_fmap_ext. intros j id' Hj%list_elem_of_lookup_2%elem_of_elements.
  unfold upd. rewrite decide_False by congruence. done.
Qed.

Lemma budget_const n X : budget (fun _ => n) X = (n * size X)%nat.
Proof.
  unfold budget. assert (forall l : list Z, sum_list ((fun _ => n) <$> l) = (n * length l)%nat) as -> by
    (induction l as [|id l IH]; [simpl; lia|]; rewrite fmap_cons; simpl; rewrite IH; lia). done.
Qed.

(** ** The simulation *)

Import SmallKernel.

Section Simulation.
Context {T M C : Type} `{BpfTask T, !BpfTaskLaws T, BpfKernelRead T, !BpfLongLaws T}
  `{BpfHash Z bytes M, !BpfHashLaws Z bytes M, !BpfHashCapacity Z bytes M}
  `{BpfRingSlots C, !BpfRingSlotsLaws C}.
Context (target_tgid : Z) (cpus : nat) (target_int : is_sint 32 target_tgid).
Implicit Types (m : M) (c : C) (h : object_hit T) (st : mach M (C * option nat)).

(** A map of records with the same entries as the map of bytes. *)
Abbreviation records := (SmallKernel.hmap enter_state).
Implicit Types (n : records).

(** The rest of the program that [h] runs performs [p]. *)
Definition hit_does h (i : nat) st (p : ops) : Prop :=
  doing (hit_prog h).1 (reloc_of (hit_prog h).2) (oh_task h)
    (le_bytes 8 (oh_arg0 h) ++ le_bytes 8 (oh_arg1 h)) (le_bytes 4 target_tgid) i (slot_of st) (Running st) p.

Lemma slot_reserve_size (r : C * option nat) z e r' : rb_reserve r z = Some (e, r') -> length e = z.
Proof using BpfRingSlotsLaws0.
  simpl. destruct (cr_reserve r.1 z) as [[[i e'] c]|] eqn:E; [|done]. intros [= <- <-].
  by apply cr_reserve_slot in E as (_ & ? & _).
Qed.

(** Both programs start by performing the operations of the source. *)
Lemma hit_starts h m c :
  hit_ok h -> hit_does h 228 (init (oh_stack h) (Kern m (c, None))) (ops_of target_tgid (source_hit h)).
Proof using All.
  destruct h as [e t a0 a1 stack]. intros [Ha0 Ha1 Hs]. cbn [oh_arg0 oh_arg1 oh_stack] in *.
  unfold hit_does. change (slot_of (init stack (Kern m (c, None)))) with (@None nat).
  unfold hit_prog, source_hit. cbn [oh_enter oh_task oh_arg0 oh_arg1 oh_stack]. destruct e; cbn [ops_of].
  - exact (object_enter_does target_tgid t a0 a1 (Kern m (c, None)) target_int Ha0 Ha1 stack Hs).
  - eapply doing_enough; [|exact (object_exit_does target_tgid t a0 a1 stack target_int Ha1 Hs slot_reserve_size
      (Kern m (c, None)))]. lia.
Qed.

(** The machine of thread [id] performs [p] within [i] instructions; what it has a
    pointer to is its own entry as it is in the map. *)
Record thread_sim m (id : Z) (i : nat) (th : thread T M C) (p : ops) : Prop := {
  ts_id : hit_thread (th_hit th) = id;
  ts_proper : proper id p;
  ts_does : hit_does (th_hit th) i (th_mach th) p;
  ts_value id' v : m_value (th_mach th) = Some (id', v) -> id' = id /\ hlookup m id = Some v;
}.

(** Thread [id] has at most [b id] instructions left. *)
Definition threads_sim (b : Z -> nat) m (xs : gmap Z (thread T M C)) (ps : gmap Z ops) : Prop :=
  forall id, option_Forall2 (thread_sim m id (b id)) (xs !! id) (ps !! id).

Record xsim (b : Z -> nat) (x : xcfg T M C) (g : cfg records C) : Prop := {
  xs_map : same_map (x_map x) (g_map g);
  xs_ring : x_ring x = g_ring g;
  xs_threads : threads_sim b (x_map x) (x_run x) (g_run g);
}.

Lemma thread_sim_more m id i i' th p : (i <= i')%nat -> thread_sim m id i th p -> thread_sim m id i' th p.
Proof using Type. intros Hi [? ? Hd ?]. split; [done..| |done]. by eapply doing_enough. Qed.

Lemma xsim_more b b' x g : (forall id, b id <= b' id)%nat -> xsim b x g -> xsim b' x g.
Proof using Type.
  intros Hb [Hm Hr Ht]. split; [done..|]. intros id. destruct (Ht id) as [th p Hs|]; constructor.
  eapply thread_sim_more; [apply Hb|done].
Qed.

Lemma threads_size b m xs ps : threads_sim b m xs ps -> size xs = size ps.
Proof using Type.
  intros Ht. rewrite <- !size_dom. f_equal. apply set_eq. intros id. rewrite !elem_of_dom.
  specialize (Ht id). destruct Ht; split; intros []; eauto; done.
Qed.

(** Loading the shared objects gives the machine its view back. *)
Lemma load_seen m c id i th p :
  thread_sim m id i th p ->
  let k := Kern m (c, slot_of (th_mach th)) in
  load_shared m c (th_mach th) = at_kern k (th_mach th) /\ seen k (th_mach th).
Proof using Type.
  intros [_ _ _ Hv]. destruct th as [h st]. cbn [th_mach] in *. unfold load_shared, at_kern, seen.
  destruct (m_value st) as [[id' v]|]; [|done].
  destruct (Hv id' v eq_refl) as [-> Hl]. rewrite Hl. split; [done|]. by intros ? ? [= <- <-].
Qed.

(** The entries of other threads are the same. *)
Definition others_same (id : Z) m m' : Prop := forall id', id' <> id -> hlookup m' id' = hlookup m id'.

Lemma thread_sim_other id id' m m' i th p :
  others_same id m m' -> id' <> id -> thread_sim m id' i th p -> thread_sim m' id' i th p.
Proof using Type.
  intros Ho Hn [Hi Hp Hd Hv]. split; [done..|]. intros j v E. destruct (Hv j v E) as [-> Hl].
  split; [done|]. by rewrite Ho.
Qed.

Lemma threads_sim_step b id m m' xs ps i th p :
  others_same id m m' -> threads_sim b m xs ps -> thread_sim m' id i th p ->
  threads_sim (upd b id i) m' (<[id := th]> xs) (<[id := p]> ps).
Proof using Type.
  intros Ho Ht Hth id'. unfold upd. case_decide as Hn.
  - subst id'. rewrite !lookup_insert_eq. by constructor.
  - rewrite !lookup_insert_ne by done. destruct (Ht id') as [th' p' Hs|]; constructor. by eapply thread_sim_other.
Qed.

Lemma threads_sim_end b id m xs ps : threads_sim b m xs ps -> threads_sim b m (delete id xs) (delete id ps).
Proof using Type.
  intros Ht id'. destruct (decide (id' = id)) as [->|Hn]; [rewrite !lookup_delete_eq; constructor|].
  rewrite !lookup_delete_ne by done. apply Ht.
Qed.

Lemma others_update id m v : others_same id m (hupdate m id v BPF_ANY).2.
Proof using BpfHashLaws0.
  intros id' Hn. destruct (decide ((hupdate m id v BPF_ANY).1 = 0)).
  - by rewrite hupdate_ok, decide_False by congruence.
  - by rewrite hupdate_fail.
Qed.

Lemma others_delete id m : others_same id m (hdelete m id).2.
Proof using BpfHashLaws0.
  intros id' Hn. destruct (decide ((hdelete m id).1 = 0)).
  - by rewrite hdelete_ok, decide_False by congruence.
  - by rewrite hdelete_fail.
Qed.

(** ** Instructions *)

Lemma op_reach n c ps id p p' n' c' :
  ps !! id = Some p -> exec_op p n c = Some (p', n', c') ->
  creach (T := T) target_tgid cpus (Cfg n c ps) (op_obs id p c) (Cfg n' c' (<[id := p']> ps)).
Proof using Type. intros Hp He. by apply creach_one, COp. Qed.

(** The refusals of the machine are those of the source. *)
Lemma instr_obs_op c id h st p :
  asks (hit_prog h).1 st = wants p -> obs_map source_hit <$> instr_obs c id h st = op_obs id p c.
Proof using Type.
  unfold instr_obs, op_obs. intros ->. destruct p; try done. simpl. by destruct (cr_reserve c n).
Qed.

(** A read through the pointer takes place in the source too. *)
Lemma reads_reach m n c ps id i th p :
  same_map m n -> thread_sim m id i th p -> ps !! id = Some p ->
  let p' := reads (th_mach th) p in
  proper id p' /\ creach (T := T) target_tgid cpus (Cfg n c ps) [] (Cfg n c (<[id := p']> ps)).
Proof using All.
  intros Hm [_ Hp _ Hv] Hps. cbv zeta.
  assert (creach (T := T) target_tgid cpus (Cfg n c ps) [] (Cfg n c (<[id := p]> ps))) as Hrefl
    by (rewrite insert_id by done; constructor).
  destruct p as [| | |k f| | |]; try done. assert (k = id /\ forall s, proper id (f s)) as [-> Hf] by by inversion Hp.
  cbn [reads]. destruct (m_value (th_mach th)) as [[id' v]|]; [|done]. destruct (Hv id' v eq_refl) as [-> Hl].
  rewrite Z.eqb_refl. split; [apply Hf|]. apply (op_reach n c ps id (ORead id f)); [done|]. simpl.
  pose proof (same_map_decode m n id Hm) as Hdec. rewrite Hl in Hdec. simpl in Hdec. by rewrite <- Hdec.
Qed.

(** What an instruction leaves behind, seen from the source. *)
Record stepped (id : Z) (i : nat) h m n c (ps : gmap Z ops) (l : list (obs (hit T))) st' : Prop := {
  sd_ops : exists n' p',
    creach target_tgid cpus (Cfg n c ps) l (Cfg n' (k_events (m_kern st')).1 (<[id := p']> ps)) /\
    same_map (k_inflight (m_kern st')) n' /\
    thread_sim (k_inflight (m_kern st')) id i (Thread h st') p';
  sd_others : others_same id m (k_inflight (m_kern st'));
  sd_taken : cr_taken (k_events (m_kern st')).1 = cr_taken c;
}.

(** The rest of the program, from [st] with the reserved slot [sl]. *)
Definition rest_does h (i : nat) (sl : option nat) st (p : ops) : Prop :=
  doing (hit_prog h).1 (reloc_of (hit_prog h).2) (oh_task h)
    (le_bytes 8 (oh_arg0 h) ++ le_bytes 8 (oh_arg1 h)) (le_bytes 4 target_tgid) i sl (Running st) p.

Lemma exec_op_taken p n c p' n' c' : exec_op p n c = Some (p', n', c') -> cr_taken c' = cr_taken c.
Proof using BpfRingSlotsLaws0.
  destruct p as [| | |k f| |z f|]; cbn [exec_op]; try (by intros [= <- <- <-]).
  - destruct (hlookup n k); [by intros [= <- <- <-]|done].
  - destruct (cr_reserve c z) as [[[i e] c1]|] eqn:E; [|by intros [= <- <- <-]]. intros [= <- <- <-].
    by apply cr_reserve_slot in E as (_ & _ & _ & ?).
  - intros [= <- <- <-]. apply cr_submit_taken.
Qed.

Lemma stepped_op id i h m n c ps p st' p' m' n' c' sl :
  hit_thread h = id -> ps !! id = Some p -> m_kern st' = Kern m' (c', sl) ->
  exec_op p n c = Some (p', n', c') -> same_map m' n' -> others_same id m m' -> proper id p' ->
  rest_does h i sl st' p' ->
  (forall id' v, m_value st' = Some (id', v) -> id' = id /\ hlookup m' id = Some v) ->
  stepped id i h m n c ps (op_obs id p c) st'.
Proof using BpfRingSlotsLaws0.
  intros Hid Hps Hk He Hm Ho Hp Hd Hv. split; rewrite Hk; [|done|by eapply exec_op_taken]. exists n', p'.
  split_and!; [by eapply op_reach|done|]. split; [done..| |done].
  unfold hit_does, slot_of. cbn [th_mach th_hit]. by rewrite Hk.
Qed.

Lemma performs_stepped m n c ps id i h st p st' :
  hit_thread h = id -> same_map m n ->
  (forall id' v, m_value st = Some (id', v) -> id' = id /\ hlookup m id = Some v) ->
  ps !! id = Some p -> proper id p ->
  performs (rest_does h i) (slot_of st) st (Kern m (c, slot_of st)) p st' ->
  stepped id i h m n c ps (op_obs id p c) st'.
Proof using All.
  intros Hid Hm Hv Hps Hp Hd.
  destruct Hp as [|s p Hwf Hb Hp|f Hf|f Hf|p Hp|z f Hf|sl rec p Hp]; cbn [performs k_inflight k_events] in Hd; try done.
  - destruct Hd as (Hk & Hv' & Hd). eapply stepped_op; try done; [by apply same_map_update|apply others_update|congruence].
  - destruct Hd as (Hk & Hv' & Hd). specialize (Hd (fun v E => same_map_values m n Hm id v E)).
    eapply stepped_op; try done.
    + rewrite (bool_decide_ext (is_Some (hlookup n id)) (is_Some (hlookup m id)))
        by (rewrite (sm_lookup _ _ Hm); by rewrite fmap_is_Some). exact Hd.
    + intros id' v E. rewrite Hv' in E. destruct (hlookup m id) eqn:El; [|done]. simpl in E. by injection E as <- <-.
  - destruct Hd as ((v & Ev) & Hk & Hv' & Hd). destruct (Hv id v Ev) as [_ Hl].
    assert (is_Some (hlookup n id)) as Hin.
    { apply fmap_is_Some with (f := encode_enter). rewrite <- (sm_lookup _ _ Hm), Hl. eauto. }
    eapply stepped_op; try done; [by apply same_map_delete|apply others_delete|congruence].
  - destruct Hd as (Hsl & Hv' & Hd). rewrite <- Hv' in Hv. simpl in Hd.
    destruct (cr_reserve c z) as [[[sl e] c']|] eqn:Er; destruct Hd as [Hk Hd].
    + eapply (stepped_op id i h m n c ps _ st' (f (Some (sl, e)))); try done. simpl. by rewrite Er.
    + eapply (stepped_op id i h m n c ps _ st' (f None)); try done; [simpl; by rewrite Er|by rewrite Hsl].
  - destruct Hd as (Hsl & Hv' & Hk & Hd). rewrite <- Hv' in Hv. rewrite Hsl in Hk. simpl in Hk.
    eapply (stepped_op id i h m n c ps _ st' p); done.
Qed.

(** An instruction of a program in progress, whatever the others did before it:
    never stuck; it performs operations of the source, or the program ends where
    the source does. *)
Lemma instr_sim m n c ps id i th p :
  same_map m n -> thread_sim m id i th p -> ps !! id = Some p ->
  exists i', i = S i' /\
  match hit_step target_tgid (th_hit th) (load_shared m c (th_mach th)) with
  | Running st' =>
      stepped id i' (th_hit th) m n c ps (obs_map source_hit <$> instr_obs c id (th_hit th) (th_mach th)) st'
  | Exited r k => r = 0 /\ k = Kern m (c, None) /\ p = ORet
  | Stuck => False
  end.
Proof using All.
  intros Hm Hts Hps. destruct (load_seen m c id i th p Hts) as [-> Hseen]. cbv zeta in Hseen.
  pose proof Hts as [Hid Hp Hd Hv]. destruct th as [h st]. cbn [th_hit th_mach] in *. unfold hit_does, doing in Hd.
  destruct i as [|i]; [done|]. exists i. split; [done|]. specialize (Hd _ Hseen). unfold hit_step.
  destruct (step _ _ _ _ _ _) as [st'|r k|]; [| |done].
  2: { destruct Hd as (-> & -> & -> & Hsl). by rewrite Hsl. }
  destruct Hd as [(Ha & Hk & Hv' & Hd)|[Ha Hd]].
  - unfold instr_obs. rewrite Ha. split; rewrite Hk; [|done..]. exists n, p. cbn [k_inflight k_events fst]. rewrite insert_id by done.
    split_and!; [constructor|done|]. split; [done..| |cbn [th_mach]; by rewrite Hv'].
    unfold hit_does, slot_of. cbn [th_mach th_hit]. by rewrite Hk.
  - destruct (reads_reach m n c ps id _ (Thread h st) p Hm Hts Hps) as [Hp' Hr].
    destruct (performs_stepped m n c (<[id := reads st p]> ps) id i h st (reads st p) st' Hid Hm Hv)
      as [(n' & p' & Hr' & Hm' & Hts') Ho Htk]; [apply lookup_insert_eq|done|exact Hd|].
    rewrite insert_insert_eq in Hr'. split; [|done..]. exists n', p'. split_and!; [|done..].
    rewrite (instr_obs_op c id h st (reads st p)) by done. exact (creach_trans target_tgid cpus _ [] _ _ _ Hr Hr').
Qed.
(** ** Executions *)

Lemma hit_thread_source h : hit_id (source_hit h) = hit_thread h.
Proof using Type. by destruct h as [[] ? ? ? ?]. Qed.

(** A step of the machines is a sequence of steps of the source; a step without a
    new hit leaves fewer instructions. *)
Lemma xstep_sim b x g l x' :
  xsim b x g -> Forall hit_ok (begun l) -> xstep target_tgid cpus x l x' ->
  exists b' g', creach target_tgid cpus g (obs_map source_hit <$> l) g' /\ xsim b' x' g' /\
    (forall id, b' id <= b id `max` 228)%nat /\ cr_taken (x_ring x') = cr_taken (x_ring x) /\
    (begun l = [] -> budget b' (dom (x_run x')) < budget b (dom (x_run x)))%nat.
Proof using All.
  intros [Hm Hr Ht] Hok Hs. destruct g as [n c0 ps]. cbn [g_map g_ring g_run] in *.
  assert (forall id th, x_run x !! id = Some th -> exists p, ps !! id = Some p /\ thread_sim (x_map x) id (b id) th p) as Hat.
  { intros id th E. specialize (Ht id). rewrite E in Ht. inversion Ht. eauto. }
  destruct Hs as [m c run h Hn Hsz|m c run id h st st' Hid Hst|m c run id h st r k Hid Hst]; cbn [x_map x_ring x_run] in *;
    subst c0.
  - apply Forall_cons in Hok as [Hok _]. exists (upd b (hit_thread h) 228).
    exists (Cfg n c (<[hit_thread h := ops_of target_tgid (source_hit h)]> ps)). split_and!; [| | |done|done].
    + apply (CReachSnoc _ _ _ [] (Cfg n c ps) [Began (source_hit h)]); [constructor|]. rewrite <- hit_thread_source.
      apply CBegin; [|by rewrite <- (threads_size _ _ _ _ Ht)]. specialize (Ht (hit_thread h)).
      rewrite Hn in Ht. rewrite hit_thread_source. by inversion Ht.
    + split; [done..|]. apply (threads_sim_step _ _ m); [done|done|]. split; [done| | |done].
      * cbn. rewrite <- hit_thread_source. apply proper_ops_of.
      * cbn [th_hit th_mach]. exact (hit_starts h m c Hok).
    + intros id. unfold upd. case_decide; lia.
  - destruct (Hat id _ Hid) as (p & Hp & Hts). destruct (instr_sim m n c ps id (b id) _ p Hm Hts Hp) as (i & Hi & Hx).
    cbn [th_hit th_mach] in Hx. rewrite Hst in Hx. destruct Hx as [(n' & p' & Hre & Hm' & Hts') Ho Htk].
    exists (upd b id i), (Cfg n' (k_events (m_kern st')).1 (<[id := p']> ps)). split_and!; [done| | |done|].
    + split; [done..|]. by apply (threads_sim_step _ _ m).
    + intros id'. unfold upd. case_decide; subst; lia.
    + intros _. cbn [x_run]. assert (id ∈ dom run) as Hin by (apply elem_of_dom; eauto).
      rewrite dom_insert_L, subseteq_union_1_L by set_solver.
      rewrite !(budget_pick _ _ id Hin), budget_upd by set_solver. unfold upd. rewrite decide_True by done. lia.
  - destruct (Hat id _ Hid) as (p & Hp & Hts). destruct (instr_sim m n c ps id (b id) _ p Hm Hts Hp) as (i & Hi & Hx).
    cbn [th_hit th_mach] in Hx. rewrite Hst in Hx. destruct Hx as (-> & -> & ->).
    exists b, (Cfg n c (delete id ps)). split_and!; [by apply creach_quiet, CEnd| |lia|done|].
    + split; [done..|]. by apply threads_sim_end.
    + intros _. cbn [x_run]. assert (id ∈ dom run) as Hin by (apply elem_of_dom; eauto).
      rewrite dom_delete_L, (budget_pick _ _ id Hin). lia.
Qed.

Abbreviation full := (fun _ : Z => 228%nat).

Lemma take_sim b g hs m c run (n : nat) :
  (exists g', creach target_tgid cpus g (obs_map source_hit <$> hs) g' /\ xsim b (XCfg m c run) g') ->
  (n <= length (unread c))%nat ->
  exists g', creach target_tgid cpus g (obs_map source_hit <$> hs) g' /\ xsim b (XCfg m (cr_take c n) run) g'.
Proof using Type.
  intros ([m' c' run'] & Hr & [Hm Hc Ht]) Hn. cbn in Hm, Hc, Ht. subst c'.
  exists (Cfg m' (cr_take c n) run'). split; [by constructor|by split].
Qed.

Lemma xreach_sim x g hs x' :
  xsim full x g -> Forall hit_ok (begun hs) -> xreach target_tgid cpus x hs x' ->
  exists g', creach target_tgid cpus g (obs_map source_hit <$> hs) g' /\ xsim full x' g'.
Proof using All.
  intros Hx Hok Hr. induction Hr as [|hs x1 l x2 _ IH Hs|hs m c run j _ IH Hn]; [exists g; by split; [constructor|]| |by apply take_sim; [apply IH|]].
  rewrite begun_app in Hok. apply Forall_app in Hok as [Hok Hl]. destruct (IH Hok) as (g1 & Hg1 & Hx1).
  destruct (xstep_sim full x1 g1 l x2 Hx1 Hl Hs) as (b' & g2 & Hg2 & Hx2 & Hb & _ & _). exists g2.
  rewrite fmap_app. split; [by eapply creach_trans|]. eapply xsim_more; [|done]. intros id. specialize (Hb id). simpl in Hb. lia.
Qed.
(** ** The theorems *)

(** The state after loading the object, with a map of [max] entries. *)
Record x_loaded (max : nat) (x : xcfg T M C) : Prop := {
  xl_inflight id : hlookup (x_map x) id = None;
  xl_count : hcount (x_map x) = 0%nat;
  xl_max : hmax (x_map x) = max;
  xl_slots : cr_slots (x_ring x) = [];
  xl_taken : cr_taken (x_ring x) = 0%nat;
  xl_run : x_run x = ∅;
}.

Lemma loaded_xsim max x :
  x_loaded max x ->
  let g := Cfg (HMap max ∅ : records) (x_ring x) ∅ in xsim full x g /\ cfg_loaded max g.
Proof using Type.
  intros [Hi Hc Hm Hs Htk Hr]. split; [split; [split| |]|by split_and!]; try done. intros id. rewrite Hr. constructor.
Qed.

Lemma loaded_reach max x hs x' :
  x_loaded max x -> Forall hit_ok (begun hs) -> xreach target_tgid cpus x hs x' ->
  exists g g', cfg_loaded max g /\ creach target_tgid cpus g (obs_map source_hit <$> hs) g' /\ xsim full x' g'.
Proof using All.
  intros Hl Hok Hr. destruct (loaded_xsim max x Hl) as [Hx Hg].
  destruct (xreach_sim _ _ hs x' Hx Hok Hr) as (g' & Hg' & Hx'). eauto.
Qed.

Lemma xsim_idle b x g id : xsim b x g -> x_run x !! id = None <-> g_run g !! id = None.
Proof using Type. intros [_ _ Ht]. specialize (Ht id). by destruct Ht. Qed.

(** C3: the compiled programs are linearizable, instruction by instruction.
    However the instructions of the embedded object's programs on several CPUs
    interleave, there is an order of the hits, which keeps the order of each
    thread, and a run of the call tracker on it, such that the records the
    consumer has taken or can take are the first reports of that run; a completed
    call is not reported exactly when the ring buffer refused the record that its
    program asked for; the map entry of every
    thread without a program in progress is the representation of its open call;
    and when no program is in progress all reports are there. *)
Theorem object_conc_refines max x os x' :
  x_loaded max x -> Forall hit_ok (begun os) -> xreach target_tgid cpus x os x' ->
  exists lin tr, tracks target_tgid (max - cpus) fresh_tracker lin tr /\
    (forall id, thread_hits id lin.*1 `prefix_of` thread_hits id (source_hit <$> begun os)) /\
    no_room lin = refused os /\
    (decode_event <$> ready (x_ring x')) `prefix_of` reports tr /\
    (forall id, x_run x' !! id = None ->
       thread_hits id lin.*1 = thread_hits id (source_hit <$> begun os) /\
       hlookup (x_map x') id = encode_enter <$> open_calls tr !! id) /\
    (x_run x' = ∅ -> decode_event <$> ready (x_ring x') = reports tr).
Proof using All.
  intros Hl Hok Hr. destruct (loaded_reach max x os x' Hl Hok Hr) as (g & g' & Hg & Hg' & Hx).
  destruct (creach_linearizes target_tgid max cpus g _ g' Hg Hg') as (lin & tr & Ht & Hpre & Hno & Hrec & Hidle & Hall).
  rewrite begun_map in Hpre, Hidle. rewrite refused_map in Hno.
  rewrite (xs_ring _ _ _ Hx). exists lin, tr. split_and!; [done..| |].
  - intros id Hid. destruct (Hidle id) as [Hh Ho]; [by apply (xsim_idle _ _ _ id Hx)|].
    split; [done|]. by rewrite (sm_lookup _ _ (xs_map _ _ _ Hx)), Ho.
  - intros Hn. apply Hall. apply map_empty. intros id. apply (xsim_idle _ _ _ id Hx). by rewrite Hn.
Qed.

(** One instruction of one of the programs in progress. *)
Definition xquiet (x x' : xcfg T M C) : Prop := exists l, begun l = [] /\ xstep (T := T) target_tgid cpus x l x'.

Lemma xsim_progress b x g id th :
  xsim b x g -> x_run x !! id = Some th ->
  hit_step target_tgid (th_hit th) (load_shared (x_map x) (x_ring x) (th_mach th)) <> Stuck.
Proof using All.
  intros [Hm _ Ht] Hid. specialize (Ht id). rewrite Hid in Ht. inversion Ht as [? p Hts Hp|]; subst.
  destruct (instr_sim (x_map x) (g_map g) (x_ring x) (g_run g) id (b id) th p Hm Hts) as (i & _ & Hx); [done|].
  intros E. by rewrite E in Hx.
Qed.

Lemma xsim_moves b x g id th : xsim b x g -> x_run x !! id = Some th -> exists x', xquiet x x'.
Proof using All.
  intros Hx Hid. pose proof (xsim_progress b x g id th Hx Hid) as Hst. destruct x as [m c run], th as [h st].
  cbn [x_map x_ring x_run th_hit th_mach] in *. destruct (hit_step _ _ _) as [st'|r k|] eqn:E; [| |done];
    do 2 eexists; (split; [|first [by eapply XInstr|by eapply XExit]]); [apply instr_obs_begun|done].
Qed.

(** Every schedule can be executed. *)
Lemma exec_move_sim x g mv :
  xsim full x g -> move_hit hit_ok mv ->
  exists x' l g', exec_move target_tgid cpus x mv = Some (x', l) /\
    creach target_tgid cpus g (obs_map source_hit <$> l) g' /\ xsim full x' g' /\ cr_taken (x_ring x') = cr_taken (x_ring x).
Proof using All.
  intros Hx Hok. assert (exists r, exec_move target_tgid cpus x mv = Some r) as [[x' l] E].
  { destruct mv as [h|id]; cbn [exec_move].
    - destruct (x_run x !! hit_thread h); [by eexists|]. destruct (_ <? _)%nat; by eexists.
    - destruct (x_run x !! id) as [[h st]|] eqn:Ei; [|by eexists].
      pose proof (xsim_progress full x g id _ Hx Ei) as Hst. cbn [th_hit th_mach] in Hst.
      destruct (hit_step _ _ _); [by eexists..|done]. }
  exists x', l. destruct (exec_move_step _ _ _ _ _ _ E) as [[-> ->]|Hs]; [exists g; by split_and!; [|constructor|..]|].
  destruct (xstep_sim full x g l x' Hx) as (b' & g' & Hg & Hx' & Hb & Ht & _); [by eapply exec_move_hits|done|].
  exists g'. split_and!; [done..| |done]. eapply xsim_more; [|done]. intros id. specialize (Hb id). simpl in Hb. lia.
Qed.

Lemma exec_moves_sim x g mvs :
  xsim full x g -> Forall (move_hit hit_ok) mvs ->
  exists x' l g', exec_moves target_tgid cpus x mvs = Some (x', l) /\
    creach target_tgid cpus g (obs_map source_hit <$> l) g' /\ xsim full x' g' /\ cr_taken (x_ring x') = cr_taken (x_ring x).
Proof using All.
  intros Hx Hok. revert x g Hx. induction Hok as [|mv mvs Hmv _ IH]; intros x g Hx; cbn [exec_moves].
  { exists x, [], g. by split_and!; [|constructor|..]. }
  destruct (exec_move_sim x g mv Hx Hmv) as (x1 & l1 & g1 & -> & Hg1 & Hx1 & Ht1). cbn [mbind option_bind].
  destruct (IH x1 g1 Hx1) as (x2 & l2 & g2 & -> & Hg2 & Hx2 & Ht2). exists x2, (l1 ++ l2), g2.
  rewrite fmap_app. split_and!; [done|by eapply creach_trans|done|congruence].
Qed.

Lemma xquiet_sim b x g x' :
  xsim b x g -> xquiet x x' ->
  exists b' g', xsim b' x' g' /\ (budget b' (dom (x_run x')) < budget b (dom (x_run x)))%nat.
Proof using All.
  intros Hx (l & Hl & Hs). destruct (xstep_sim b x g l x' Hx) as (b' & g' & _ & Hx' & _ & _ & Hb); [by rewrite Hl|done|]. eauto.
Qed.

Lemma quiet_bound (n : nat) b x g x' :
  xsim b x g -> nsteps xquiet n x x' -> (n <= budget b (dom (x_run x)))%nat.
Proof using All.
  intros Hx Hn. revert b g Hx. induction Hn as [x|n x x1 x2 Hs _ IH]; intros b g Hx; [lia|].
  destruct (xquiet_sim b x g x1 Hx Hs) as (b' & g' & Hx' & Hb). specialize (IH b' g' Hx'). lia.
Qed.

Lemma quiet_ends b x g : xsim b x g -> exists x', rtc xquiet x x' /\ x_run x' = ∅.
Proof using All.
  remember (budget b (dom (x_run x))) as n eqn:Hn. revert b x g Hn.
  induction (lt_wf n) as [n _ IH]; intros b x g Hn Hx.
  destruct (decide (x_run x = ∅)) as [E|E]; [by exists x|].
  destruct (map_choose _ E) as (id & th & Hid). destruct (xsim_moves b x g id th Hx Hid) as [x1 Hs].
  destruct (xquiet_sim b x g x1 Hx Hs) as (b' & g' & Hx' & Hb). subst n.
  destruct (IH _ Hb b' x1 g' eq_refl Hx') as (x2 & Hr & He). exists x2. split; [by econstructor|done].
Qed.

(** C4: the compiled programs are safe and end, however their instructions
    interleave.  The next instruction of a program in progress is never stuck (an
    access outside an object, an uninitialised register, a pointer into an entry
    that is gone); the programs in progress together execute at most 228
    instructions per program, in any order; and they can always all be run to
    their ends. *)
Theorem object_conc_finishes max x os x' :
  x_loaded max x -> Forall hit_ok (begun os) -> xreach target_tgid cpus x os x' ->
  (forall id th, x_run x' !! id = Some th ->
     hit_step target_tgid (th_hit th) (load_shared (x_map x') (x_ring x') (th_mach th)) <> Stuck) /\
  (forall (n : nat) x'', nsteps xquiet n x' x'' -> (n <= 228 * size (x_run x'))%nat) /\
  exists x'', rtc xquiet x' x'' /\ x_run x'' = ∅.
Proof using All.
  intros Hl Hok Hr. destruct (loaded_reach max x os x' Hl Hok Hr) as (g & g' & _ & _ & Hx). split_and!.
  - intros id th. by eapply xsim_progress.
  - intros n x'' Hn. pose proof (quiet_bound n full x' g' x'' Hx Hn) as Hb.
    by rewrite budget_const, size_dom in Hb.
  - by eapply quiet_ends.
Qed.
End Simulation.
