(* ===== verification/StraceSystem.v ===== *)
(** * The kernel half and the command together

    The compiled programs run in the kernel while the command runs; the ring
    buffer connects them.  The state of the kernel after a history of the
    command is what the hits in between and the records taken by the polls make
    of it; what the command prints is then the calls the tracker reports. *)

From stdpp Require Import base list gmap strings.
From Stdlib Require Import ZArith Lia.
From S2P Require Import Prelude CLib Printf Layout BpfIface Uapi StraceTypes StraceBpf StraceCapture StraceTrace.
From S2P Require Import StraceProps StraceFmt StraceFmtProps StraceOutput StraceProc.
From S2P Require Import ElfBlob BpfMachine ObjMem ObjExec ObjTrace.
From S2P Require Import Host PollLoop Timeline StraceSkel StraceMain StraceRun.

Local Open Scope string_scope.
Local Open Scope list_scope.
Local Open Scope Z_scope.

(** ** Calls of the command *)

(** The command neither uses the loading functions of the other tools nor
    attaches or detaches programs one by one. *)
Definition strace_call (c : call) : Prop :=
  match c with
  | COpenAndLoad | CAttach _ | CAttachUprobe _ _ _ _ _ _ | CLinkDestroy _ => False
  | _ => True
  end.

Section Calls.
Context `{Env}.
Context (junk : nat -> bytes) (strerror : Z -> bytes) (inet_ntop : Z -> bytes -> option bytes).

Lemma makes_wait_loop fuel name pid : makes strace_call (wait_loop junk fuel name pid).
Proof using Type. induction fuel as [|fuel IH]; cbn [wait_loop]; makes_tac. exact IH. Qed.

Lemma makes_main fuel argv : makes strace_call (main junk strerror inet_ntop fuel argv).
Proof using Type.
  unfold main, wait_for_name, trace, attach_and_trace, tracing, cleanup, bpf_open, bpf_open_opts,
    create_skeleton, bpf_load, bpf_attach, bpf_destroy.
  makes_tac; try (by apply makes_poll_loop); auto using makes_wait_loop.
Qed.
End Calls.

(** After these calls a loaded object has its filter set. *)
Definition filter_set (u : usage) : Prop :=
  u_stage u = Loaded \/ u_stage u = Attached -> 0 < u_target u.

Lemma release_same p u u' : release p u = Some u' -> u_target u' = u_target u /\ u_stage u' = u_stage u.
Proof. unfold release. intros E. repeat case_decide; by simplify_eq. Qed.

Lemma acquire_same p s u u' : acquire p s u = Some u' -> u_target u' = u_target u /\ (u_stage u' = u_stage u \/ u_stage u' = s).
Proof. unfold acquire. intros E. repeat case_decide; simplify_eq; auto. Qed.

Lemma need_some (P : Prop) `{Decision P} u u' : need P u = Some u' -> P /\ u' = u.
Proof. unfold need. case_decide; [|done]. by intros [= ->]. Qed.

Lemma on_success_filter err s u : filter_set u -> (s = Loaded \/ s = Attached -> 0 < u_target u) -> filter_set (on_success err s u).
Proof. unfold on_success. intros. by case_decide. Qed.

Lemma same_filter_set u u' :
  u_target u' = u_target u -> u_stage u' = u_stage u -> filter_set u -> filter_set u'.
Proof. unfold filter_set. by intros -> ->. Qed.

Lemma use_filter_set c r u u' : strace_call c -> use c r u = Some u' -> filter_set u -> filter_set u'.
Proof.
  intros Hc Hu Hf. destruct c; cbn [use] in Hu; try done; try (injection Hu as <-; exact Hf).
  - apply acquire_same in Hu as [Ht Hs]. apply (same_filter_set u); tauto.
  - apply release_same in Hu as [Ht Hs]. by apply (same_filter_set u).
  - apply fmap_Some in Hu as (u1 & [_ ->]%need_some & ->). apply on_success_filter; [done|by intros [?|?]].
  - apply fmap_Some in Hu as (u1 & [[[_ Hs] Hp] ->]%need_some & ->). apply on_success_filter; [done|by intros].
  - apply fmap_Some in Hu as (u1 & [[_ Hs] ->]%need_some & ->). apply on_success_filter; [done|].
    intros _. apply Hf. by left.
  - by apply need_some in Hu as [_ ->].
  - destruct s as [s|]; [|by injection Hu as <-].
    apply bind_Some in Hu as (u1 & _ & Hu). apply bind_Some in Hu as (u2 & _ & Hu).
    apply fmap_Some in Hu as (u3 & _ & ->). by intros [?|?].
  - apply fmap_Some in Hu as (u1 & [[[_ Hs] _] ->]%need_some & ->). unfold filter_set. simpl. rewrite Hs. by intros [?|?].
  - apply bind_Some in Hu as (u1 & [_ ->]%need_some & [Ht Hs]%acquire_same). apply (same_filter_set u); tauto.
  - by apply need_some in Hu as [_ ->].
  - apply release_same in Hu as [Ht Hs]. by apply (same_filter_set u).
  - apply fmap_Some in Hu as (u1 & _ & ->). by intros [?|?].
  - by apply need_some in Hu as [_ ->].
Qed.

Lemma grown_filter_set `{Env} h u : grown strace_call [] h -> usage_of h = Some u -> filter_set u.
Proof.
  intros Hg. revert u. induction Hg as [|h c Hg IH Hc]; intros u Hu.
  - injection Hu as <-. by intros [?|?].
  - apply usage_app in Hu as (u1 & Hu1 & Hrest). eapply use_filter_set; [done|exact Hrest|by apply IH].
Qed.

(** ** Facts about the tracker *)

(** What a report must satisfy to be printed. *)
Definition good_event (e : syscall_event) : Prop := wf_event e /\ ev_ret e <> LONG_MIN.

Record tracker_ok (tr : tracker) : Prop := {
  to_open : map_Forall (fun _ s => wf_enter s) (open_calls tr);
  to_reports : Forall good_event (reports tr);
}.

Section Tracker.
Context {T : Type} `{BpfTask T, !BpfTaskLaws T} (target_tgid : Z) (max : nat).
Implicit Types (xs : list (hit T * bool)).

Definition returns_ok (h : hit T) : Prop :=
  match h with HExit _ c => sint 64 (rc_arg1 c) <> LONG_MIN | HEnter _ _ => True end.

Lemma track_ok tr x tr' : track target_tgid max tr x tr' -> returns_ok x.1 -> tracker_ok tr -> tracker_ok tr'.
Proof using All.
  intros Ht Hr [Ho Hg]. destruct Ht as [|tr t c|tr t c|tr t c|tr t c s|tr t c s]; try by split.
  - split; [|done]. apply map_Forall_insert_2; [apply enter_record_wf|done].
  - split; [by apply map_Forall_delete|]. apply Forall_app; split; [done|]. constructor; [|constructor].
    split; [|done]. apply event_of_wf; [by eapply Ho|apply sint_range; lia].
  - split; [by apply map_Forall_delete|done].
Qed.

Lemma tracks_ok tr xs tr' :
  tracks target_tgid max tr xs tr' -> Forall returns_ok xs.*1 -> tracker_ok tr -> tracker_ok tr'.
Proof using All.
  induction 1 as [|tr xs tr' x tr'' _ IH Hh]; intros Hr Htr; [done|].
  rewrite fmap_app in Hr. apply Forall_app in Hr as [Hr [? _]%Forall_cons]. eapply track_ok; eauto.
Qed.

Lemma tracks_app tr hs1 tr1 hs2 tr2 :
  tracks target_tgid max tr hs1 tr1 -> tracks target_tgid max tr1 hs2 tr2 ->
  tracks target_tgid max tr (hs1 ++ hs2) tr2.
Proof using Type.
  intros H1 H2. induction H2 as [|tr1 hs2 tr2 h tr3 _ IH Hh]; [by rewrite app_nil_r|].
  rewrite app_assoc. econstructor; [by apply IH|done].
Qed.

(** A run adds to the reports already made and does not depend on them. *)
Lemma tracks_new tr hs tr' :
  tracks target_tgid max tr hs tr' ->
  exists new, reports tr' = reports tr ++ new /\
    forall old, tracks target_tgid max (Tracker (open_calls tr) old) hs (Tracker (open_calls tr') (old ++ new)).
Proof using Type.
  induction 1 as [tr|tr hs tr' h tr'' _ (new & Hr & IH) Hh].
  { exists []. rewrite app_nil_r. split; [done|]. intros old. rewrite app_nil_r. constructor. }
  destruct Hh as [tr' h Hf|tr' t c Hf|tr' t c Hf Hn Hm|tr' t c Hf Hn|tr' t c s Hf Hs|tr' t c s Hf Hs];
    [exists new..|exists (new ++ [event_of (get_current_pid_tgid t) s (sint 64 (rc_arg1 c))])|exists new];
    (split; [cbn [reports]; rewrite ?Hr, ?app_assoc; done|intros old]);
    (econstructor; [apply IH|]).
  - by apply TrFiltered.
  - by apply (TrOpen _ _ (Tracker _ _)).
  - by apply TrLost.
  - by apply TrOrphan.
  - rewrite app_assoc. by apply (TrReport _ _ (Tracker _ _)).
  - by apply (TrDrop _ _ (Tracker _ _) t c s).
Qed.
End Tracker.

(** ** The command beside programs that keep a specification *)

Section Filter.
Context {X : Type} `{Env} (hits : list event -> list X).

(** Programs only run with the filter of the usage at the end. *)
Lemma attached_filter h u t h' :
  usage_of h = Some u -> (u_target u <> 0 -> sint 32 (u_target u) = t) ->
  grown strace_call [] h' -> h' `prefix_of` h -> hits_at hits h' = [] \/ filter_of h' = t /\ u_target u <> 0.
Proof using Type.
  intros Hu Ht Hg [rest ->]. apply usage_app in Hu as (u' & Hu' & Hrest).
  pose proof (grown_filter_set h' u' Hg Hu') as Hfs.
  unfold hits_at, attached, filter_of. rewrite Hu'. case_bool_decide as Ha; [right|by left].
  specialize (Hfs (or_intror Ha)). assert (u_target u' <> 0) as Hn by lia.
  pose proof (usage_target_stays _ _ _ Hrest Hn) as E. split; [|lia]. rewrite <- E. apply Ht. lia.
Qed.

(** Without a filter no program has run. *)
Lemma no_filter_no_hits h u :
  grown strace_call [] h -> usage_of h = Some u -> u_target u = 0 -> all_hits hits h = [].
Proof using Type.
  intros Hg Hu Hz. assert (forall h', grown strace_call [] h' -> h' `prefix_of` h -> hits_at hits h' = []) as Hn.
  { intros h' Hg' Hp. destruct (attached_filter h u 0 h' Hu ltac:(lia) Hg' Hp) as [|[_ ?]]; [done|lia]. }
  clear u Hu Hz. induction Hg as [|h c Hg IH Hc]; [done|]. rewrite all_hits_snoc, IH, Hn; [done|by constructor|done|].
  intros h' Hg' Hp. apply Hn; [done|]. by apply prefix_app_r.
Qed.
End Filter.

Section Command.
Context {K X Y O : Type} `{Producer K X Y} `{!Tracked K X Y O syscall_event, !TrackedLaws K X Y O syscall_event} `{Env}.
Context (k0 : K) (hits : list event -> list X) `{!TimelineLaws k0 hits}.
Hypothesis good_records : forall m, tk_good m -> good_record m.
Hypothesis shows_decoded : forall m e, tk_shows m e -> decode_event m = e.

#[local] Instance system_records : RecordLaws good_record.
Proof using All.
  destruct (timeline_records k0 hits) as [Hr]. split. intros h rb ms.
  eapply Forall_impl; [apply Hr|exact good_records].
Qed.

Context `{!EnvLaws}.
Context (junk : nat -> bytes) (junk_length : forall n, length (junk n) = n).
Context (strerror : Z -> bytes) (inet_ntop : Z -> bytes -> option bytes).
Hypothesis strerror_text : forall err, nonul (strerror err).
Hypothesis strerror_fits : forall err, Z.of_nat (length (strerror err)) + 20 <= INT_MAX.
Hypothesis ntop_text4 : forall a s,
  inet_ntop AF_INET a = Some s -> nonul s /\ (length s < INET_ADDRSTRLEN)%nat.
Hypothesis ntop_text6 : forall a s,
  inet_ntop AF_INET6 a = Some s -> nonul s /\ (length s < INET6_ADDRSTRLEN)%nat.

(** The lines are those of the events delivered. *)
Lemma delivered_lines h text :
  prints good_record (handle_event junk strerror inet_ntop) (delivered h) text ->
  exists lines, text = mjoin lines /\
    Forall2 (fun e l => event_line strerror inet_ntop e = Some l) (decode_event <$> delivered h) lines.
Proof using strerror_text strerror_fits ntop_text4 ntop_text6 junk_length.
  intros (lines & -> & Hf). exists lines. split; [done|]. apply Forall2_fmap_l. eapply Forall2_impl; [exact Hf|].
  intros data l [(Hl & Hwf & Hret) Hh]. destruct (handle_event_text junk junk_length strerror
    inet_ntop strerror_text ntop_text4 ntop_text6 strerror_fits data Hl Hwf Hret)
    as (line & Hh' & He & _). simpl. congruence.
Qed.

(** The command returns, its output is the preamble and the lines of the reports
    delivered, and the programs were where their specification says, with the
    filter it chose. *)
Lemma command_follows N fuel a0 arg :
  nonul a0 -> nonul arg -> (forall h, (N <= length h)%nat -> env_signal h = true) -> (N < fuel)%nat ->
  exists status st', main junk strerror inet_ntop fuel [a0; arg] hs_init = Done status st' /\
    let h := hs_log st' in
    exists t o old rest k pre lines p, follows k0 hits t h o old rest k /\
      (all_hits hits h = [] \/ chosen h arg t) /\
      stdout_of h = pre ++ mjoin lines /\ preamble arg p pre /\
      Forall2 (fun e l => event_line strerror inet_ntop e = Some l) old lines.
Proof using All.
  intros Ha Harg Hsig HN. assert (Forall nonul [a0; arg]) as Hargv by auto.
  assert (signal_by true fuel) as Htime by (intros _; by exists N).
  destruct (wp_done _ _ _ (main_spec junk junk_length strerror inet_ntop strerror_text strerror_fits
    ntop_text4 ntop_text6 true fuel [a0; arg] ltac:(done) Hargv Htime))
    as (status & st' & Hm & [(t & Hu & Hch) _ _ (pre & text & p & Ho & (lines & -> & Hf)%delivered_lines & Hp)]).
  exists status, st'. split; [done|]. intros h. fold h in Hu, Ho, Hf, Hch.
  assert (t <> 0 -> chosen h arg t) as Hch'.
  { intros Hn. destruct (Hch Hn) as (arg' & [= <-] & _ & ?). done. }
  assert (grown strace_call [] h) as Hg by exact (makes_main _ _ _ _ _ _ _ _ Hm).
  destruct (history_follows k0 hits strace_call t h Hg) as (o & old & rest & k & Hfo).
  { intros h' Hg' Hp'. apply (filter_fits_eq hits). destruct (attached_filter hits h _ t h' Hu) as [|[? _]]; auto.
    simpl. intros Hn. apply sint_id; [lia|]. pose proof (chosen_range _ _ _ (Hch' Hn)).
    unfold is_sint, INT_MAX in *. lia. }
  assert (decode_event <$> delivered h = old) as Hdec.
  { apply list_eq_Forall2, Forall2_fmap_l. eapply Forall2_impl; [apply (fo_old _ _ _ _ _ _ _ _ Hfo)|]. auto. }
  rewrite Hdec in Hf. exists t, o, old, rest, k, pre, lines, p. split_and!; [done| |done|by apply Hp|done].
  destruct (decide (t = 0)) as [->|Hn]; [left|right; by apply Hch']. by eapply no_filter_no_hits.
Qed.
End Command.

(** ** The kernel beside the command *)

Import SmallKernel.

Section Producer.
Context {T M R : Type} `{BpfTask T, !BpfTaskLaws T, BpfKernelRead T, !BpfLongLaws T}
  `{BpfHash Z bytes M, !BpfHashLaws Z bytes M, !BpfHashCapacity Z bytes M}
  `{BpfRingbuf R, !BpfRingbufLaws R, !BpfRingbufTake R}.

#[global] Instance object_producer : Producer (kern M R) (object_hit T) (hit T * bool) := {|
  pr_run := object_run;
  pr_seen := object_hits;
  pr_records k := rb_records (k_events k);
  pr_take n k := Kern (k_inflight k) (rb_take (k_events k) n);
|}.

(** The kernel holds the open calls and the reports of [tr]. *)
Record holds (max : nat) (k : kern M R) (tr : tracker) : Prop := {
  hd_sim : exists l : kern (SmallKernel.hmap enter_state) R, same_kern k l /\ sim l tr;
  hd_max : hmax (k_inflight k) = max;
  hd_ok : tracker_ok tr;
}.

(** The hits have the form the programs get, and no call returns the smallest
    integer. *)
Definition kernel_hit (x : object_hit T) : Prop :=
  hit_ok x /\ (oh_enter x = false -> sint 64 (oh_arg1 x) <> LONG_MIN).

(** The call tracker, with a table of [max] entries. *)
Definition tracker_spec (max : nat) : 
    Tracked (kern M R) (object_hit T) (hit T * bool) (gmap Z enter_state) syscall_event := {|
  tk_start := ∅;
  tk_hit := kernel_hit;
  tk_good := good_record;
  tk_shows m e := decode_event m = e;
  tk_steps t o xs o' es :=
    forall old, tracks t max (Tracker o old) xs (Tracker o' (old ++ es));
  tk_holds k o es := holds max k (Tracker o es);
|}.

Lemma kernel_hits xs :
  Forall kernel_hit xs -> Forall hit_ok xs /\ Forall returns_ok (source_hit <$> xs).
Proof using Type.
  intros Hx. split; [by eapply Forall_impl; [done|intros x [? _]]|].
  apply Forall_fmap. eapply Forall_impl; [done|]. intros [[] t a0 a1 st] [_ Hr]; [done|]. by simpl in *; auto.
Qed.

(** The programs follow the tracker. *)
Lemma hits_hold max t k tr xs :
  is_sint 32 t -> Forall kernel_hit xs -> holds max k tr ->
  exists k' tr', object_run t k xs = Some k' /\
    tracks t max tr (object_hits t k xs) tr' /\ holds max k' tr'.
Proof using All.
  intros Hf [Hh Hr]%kernel_hits [(l & Hs & Hsim) Hm Hok].
  destruct (object_run_source t Hf k l xs Hs Hh) as (k' & Hk & Hs' & ->).
  destruct (bpf_run_sim t l tr (source_hit <$> xs) Hsim) as (tr' & Ht & Hsim').
  rewrite <- (sm_max _ _ (sk_map _ _ Hs)), Hm in Ht.
  exists k', tr'. split_and!; [done..|]. split; [by eexists| |eapply tracks_ok; [done|by rewrite with_room_hits|done]].
  by rewrite (sm_max _ _ (sk_map _ _ Hs')), hmax_run, <- (sm_max _ _ (sk_map _ _ Hs)).
Qed.

Lemma take_holds max n k o es : holds max k (Tracker o es) -> holds max (pr_take n k) (Tracker o (drop n es)).
Proof using All.
  intros [(l & [Hmap Hev] & Hsim) Hm [Ho Hg]]. split; [|done|by split; [|apply Forall_drop]].
  exists (Kern (k_inflight l) (rb_take (k_events l) n)). split; [split; [done|simpl; by rewrite Hev]|].
  destruct Hsim as [S1 S2 S3 S4 S5]. split; [done|done| |done|].
  - unfold reported in *. cbn [k_events reports]. by rewrite rb_take_records, fmap_drop, S3.
  - cbn [k_events]. rewrite rb_take_records. by apply Forall_drop.
Qed.

Lemma holds_reports max k tr : holds max k tr -> decode_event <$> rb_records (k_events k) = reports tr.
Proof using Type.
  intros [(l & Hs & Hsim) _ _]. rewrite (sk_events _ _ Hs). exact (sim_reports _ _ Hsim).
Qed.

Lemma holds_good max k tr : holds max k tr -> Forall good_record (rb_records (k_events k)).
Proof using All.
  intros Hh. pose proof (holds_reports _ _ _ Hh) as Hr.
  destruct Hh as [(l & [_ Hev] & Hsim) _ [_ Hg]].
  pose proof (sim_size _ _ Hsim) as Hz. rewrite <- Hev in Hz. rewrite <- Hr in Hg.
  rewrite Forall_forall. intros m Hin.
  assert (length m = event_size) as Hm by (rewrite Forall_forall in Hz; by apply Hz).
  assert (good_event (decode_event m)) as [? ?].
  { rewrite Forall_forall in Hg. apply Hg, list_elem_of_fmap. eauto. }
  split_and!; [|done..]. by rewrite Hm, event_size_eq.
Qed.

(** The compiled programs keep what the tracker promises. *)
Lemma object_tracked max : TrackedLaws (H0 := tracker_spec max) (kern M R) (object_hit T) (hit T * bool) _ _.
Proof using All.
  split; cbn [tracker_spec tk_steps tk_holds tk_shows tk_good tk_hit pr_run pr_seen pr_records object_producer].
  - done.
  - intros t o o' es. split.
    + intros Hn. specialize (Hn []). inversion Hn as [|? hs0 ? ? ? ? ? Hb]; [done|]. by destruct hs0.
    + intros [-> ->] old. rewrite app_nil_r. constructor.
  - intros t o xs o1 es1 ys o2 es2 Hx Hy old. rewrite app_assoc. by eapply tracks_app.
  - intros t k o es xs Ht Hx Hh. destruct (hits_hold max t k _ xs Ht Hx Hh) as (k' & [o' es'] & Hk & Htr & Hh').
    destruct (tracks_new _ _ _ _ _ Htr) as (new & Hr & Hnew). cbn [open_calls reports] in *. subst es'.
    by exists k', o', new.
  - intros n k o es. apply take_holds.
  - intros k o es Hh. change es with (reports (Tracker o es)). rewrite <- (holds_reports _ _ _ Hh).
    apply Forall2_fmap_r, Forall_Forall2_diag. by apply Forall_true.
  - intros k o es. apply holds_good.
Qed.
End Producer.

Section System.
Context {T M R : Type} `{BpfTask T, !BpfTaskLaws T, BpfKernelRead T, !BpfLongLaws T}
  `{BpfHash Z bytes M, !BpfHashLaws Z bytes M, !BpfHashCapacity Z bytes M}
  `{BpfRingbuf R, !BpfRingbufLaws R, !BpfRingbufTake R} `{Env}.
Context (k0 : kern M R) (hits : list event -> list (object_hit T)).
Implicit Types (h : list event) (k : kern M R).

(** What the kernel and libbpf do; a poll delivers the oldest records. *)
Class KernelLaws := {
  kl_loaded : object_loaded k0;
  kl_hits h : Forall kernel_hit (hits h);
  kl_poll h k rb ms : kern_at k0 hits h = Some k ->
    exists n, (env_reply h (CPoll rb ms)).2 = take n (rb_records (k_events k));
}.
Context `{!KernelLaws}.

Lemma start_holds : holds (hmax (k_inflight k0)) k0 fresh_tracker.
Proof using All.
  destruct (loaded_same k0 kl_loaded) as [Hs Hl%loaded_sim].
  split; [by eexists|done|]. split; [apply map_Forall_empty|constructor].
Qed.

#[local] Instance system_timeline : TimelineLaws (Tracked0 := tracker_spec (hmax (k_inflight k0))) k0 hits.
Proof using All. split; [exact start_holds|apply kl_hits|apply kl_poll]. Qed.

(** ** The whole tool *)

Context `{!EnvLaws}.
Context (junk : nat -> bytes) (junk_length : forall n, length (junk n) = n).
Context (strerror : Z -> bytes) (inet_ntop : Z -> bytes -> option bytes).
Hypothesis strerror_text : forall err, nonul (strerror err).
Hypothesis strerror_fits : forall err, Z.of_nat (length (strerror err)) + 20 <= INT_MAX.
Hypothesis ntop_text4 : forall a s,
  inet_ntop AF_INET a = Some s -> nonul s /\ (length s < INET_ADDRSTRLEN)%nat.
Hypothesis ntop_text6 : forall a s,
  inet_ntop AF_INET6 a = Some s -> nonul s /\ (length s < INET6_ADDRSTRLEN)%nat.

(** C2: the tool as a whole.  The command runs in any environment while the
    compiled programs run at any tracepoint hits in between.  Once a signal
    arrives the command returns; the programs never got stuck, and some run of
    the call tracker on exactly these hits, for the process asked for, explains
    everything: its reports are, in order, those printed by the command, one
    line each after the preamble, followed by those still in the ring buffer.
    The run gets each hit with whether the ring buffer had room for an event when
    it came, and leaves out the report of a completed call only where it had not.
    Nothing is lost, duplicated or reordered between the kernel and the
    output. *)
Theorem strace_system N fuel a0 arg :
  nonul a0 -> nonul arg -> (forall h, (N <= length h)%nat -> env_signal h = true) -> (N < fuel)%nat ->
  exists status st', main junk strerror inet_ntop fuel [a0; arg] hs_init = Done status st' /\
    let h := hs_log st' in
    exists t k tr printed pre lines p, kern_at k0 hits h = Some k /\
      (all_seen k0 hits h).*1 = source_hit <$> all_hits hits h /\
      tracks t (hmax (k_inflight k0)) fresh_tracker (all_seen k0 hits h) tr /\
      (all_hits hits h = [] \/ chosen h arg t) /\
      reports tr = printed ++ reported k /\
      stdout_of h = pre ++ mjoin lines /\ preamble arg p pre /\
      Forall2 (fun e l => event_line strerror inet_ntop e = Some l) printed lines.
Proof using All.
  intros Ha Harg Hsig HN. destruct (command_follows (TrackedLaws0 := object_tracked _) k0 hits ltac:(done) ltac:(done)
    junk junk_length strerror inet_ntop strerror_text strerror_fits ntop_text4 ntop_text6 N fuel a0 arg Ha Harg Hsig HN)
    as (status & st' & Hm & t & o & old & rest & k & pre & lines & p & [Hk Ht _ Hrest] & Hch & Ho & Hp & Hl).
  exists status, st'. split; [done|]. exists t, k, (Tracker o (old ++ rest)), old, pre, lines, p.
  split_and!; [done| |exact (Ht [])|done| |done..].
  { eapply all_seen_map; [|exact Hk]. intros. by eapply object_hits_source. }
  cbn [reports]. f_equal. symmetry. exact (holds_reports _ _ _ Hrest).
Qed.
End System.
