(* ===== verification/ConcOutput.v ===== *)
(** * Printing what programs on several CPUs report

    Every record the consumer can take, at any moment of any interleaving of the
    programs (StraceConc), is printed as the line of a call that a thread
    entered and left. *)

From stdpp Require Import base list gmap strings.
From Stdlib Require Import ZArith Lia.
From S2P Require Import Prelude CLib Printf Layout BpfIface Uapi StraceTypes StraceBpf StraceCapture StraceTrace.
From S2P Require Import StraceConc StraceFmt StraceFmtProps StraceOutput StraceMain StraceSystem.
From S2P Require Import BpfMachine ObjMem ObjExec ObjTrace ObjConc.

Local Open Scope Z_scope.

(** ** Completed calls depend on the order of each thread only *)

Section Filter.
Context {A : Type} (P : A -> Prop) `{forall x, Decision (P x)}.

Lemma filter_at l a x b :
  filter P l = a ++ x :: b -> exists l1 l2, l = l1 ++ x :: l2 /\ filter P l1 = a /\ filter P l2 = b.
Proof.
  revert a. induction l as [|y l IH]; intros a Hf; [by destruct a|].
  rewrite filter_cons in Hf. destruct (decide (P y)) as [Hy|Hy].
  - destruct a as [|z a]; injection Hf as -> Hf; [by exists [], l|].
    destruct (IH a Hf) as (l1 & l2 & -> & <- & <-). exists (z :: l1), l2. by rewrite filter_cons_True.
  - destruct (IH a Hf) as (l1 & l2 & -> & <- & <-). exists (y :: l1), l2. by rewrite filter_cons_False.
Qed.

Lemma filter_none l : filter P l = [] <-> Forall (fun x => ~ P x) l.
Proof.
  induction l as [|y l IH]; [done|]. rewrite filter_cons, Forall_cons, <- IH. case_decide; naive_solver.
Qed.
End Filter.

Section Order.
Context {T : Type} `{BpfTask T} (target_tgid : Z).
Implicit Types (hs lin : list (hit T)).

(** The calls of each thread in [lin] come first in [hs]. *)
Definition ordered_in lin hs : Prop := forall id, thread_hits id lin `prefix_of` thread_hits id hs.

Lemma ordered_elem lin hs h : ordered_in lin hs -> h ∈ lin -> h ∈ hs.
Proof using Type.
  intros Ho Hin. assert (h ∈ thread_hits (hit_id h) lin) as Hl by (by apply list_elem_of_filter).
  destruct (Ho (hit_id h)) as [rest Hr]. assert (h ∈ thread_hits (hit_id h) hs) as Hh by (rewrite Hr; set_solver).
  by apply list_elem_of_filter in Hh as [_ ?].
Qed.

Lemma ordered_completed lin hs e :
  ordered_in lin hs -> completed_in target_tgid lin e -> completed_in target_tgid hs e.
Proof using Type.
  intros Ho (h1 & t & c & h2 & t' & c' & h3 & -> & Ht & Hn & Hf & ->).
  set (id := get_current_pid_tgid t) in *. destruct (Ho id) as [rest Hr]. unfold thread_hits in Hr.
  rewrite filter_app, filter_cons_True, filter_app, filter_cons_True, (proj2 (filter_none _ h2) Hn),
    app_nil_l, <- app_assoc in Hr by done.
  apply filter_at in Hr as (l1 & l2 & -> & _ & Hr).
  destruct (filter_at _ l2 [] (HExit t' c') _ Hr) as (l3 & l4 & -> & Hl3%filter_none & _).
  by exists l1, t, c, l3, t', c', l4.
Qed.
End Order.

(** ** The consumer *)

Section Consumer.
Context (junk : nat -> bytes) (junk_length : forall n, length (junk n) = n).
Context (strerror : Z -> bytes) (inet_ntop : Z -> bytes -> option bytes).
Hypothesis strerror_text : forall err, nonul (strerror err).
Hypothesis strerror_fits : forall err, Z.of_nat (length (strerror err)) + 20 <= INT_MAX.
Hypothesis ntop_text4 : forall a s,
  inet_ntop AF_INET a = Some s -> nonul s /\ (length s < INET_ADDRSTRLEN)%nat.
Hypothesis ntop_text6 : forall a s,
  inet_ntop AF_INET6 a = Some s -> nonul s /\ (length s < INET6_ADDRSTRLEN)%nat.

Context {T M C : Type} `{BpfTask T, !BpfTaskLaws T}
  `{BpfHash Z enter_state M, !BpfHashLaws Z enter_state M, !BpfHashCapacity Z enter_state M}
  `{BpfRingSlots C, !BpfRingSlotsLaws C}.
Context (target_tgid : Z) (max cpus : nat).
Implicit Types (hs lin : list (hit T)) (g : cfg M C).

Lemma ready_prefix_elem slots m : m ∈ ready_prefix slots -> exists i, slots !! i = Some (Some m).
Proof using Type.
  induction slots as [|[rec|] slots IH]; simpl; [by intros ?%not_elem_of_nil| |by intros ?%not_elem_of_nil].
  intros [->|[i Hi]%IH]%elem_of_cons; [by exists 0%nat|by exists (S i)].
Qed.

(** The smallest integer is not the result of a system call. *)
Lemma ordered_returns lin hs :
  ordered_in lin hs -> (forall t c, HExit t c ∈ hs -> sint 64 (rc_arg1 c) <> LONG_MIN) ->
  Forall returns_ok lin.
Proof using Type.
  intros Ho Hr. apply Forall_forall. intros [t c|t c] Hin; [done|]. simpl.
  by eapply Hr, ordered_elem.
Qed.

(** What the consumer has taken or can take can be printed. *)
Lemma creach_good g os g' :
  cfg_loaded max g -> creach target_tgid cpus g os g' ->
  (forall t c, HExit t c ∈ begun os -> sint 64 (rc_arg1 c) <> LONG_MIN) ->
  Forall (fun m => good_record m /\ completed_in target_tgid (begun os) (decode_event m)) (ready (g_ring g')).
Proof using BpfTaskLaws0 BpfHashLaws0 BpfHashCapacity0 BpfRingSlotsLaws0.
  intros Hl Hr Hret. destruct (cinv_reach target_tgid max cpus g os g' Hl Hr) as (lin & tr & cl & gh & [Ht _ Hs _ _ _ Ho _]).
  assert (ordered_in lin.*1 (begun os)) as Hord by (intros id; rewrite Ho; by apply prefix_app_r).
  assert (tracker_ok tr) as [_ Hg].
  { eapply tracks_ok; [exact Ht|by eapply ordered_returns|]. split; [apply map_Forall_empty|constructor]. }
  apply Forall_forall. intros m [i Hi]%ready_prefix_elem.
  destruct (sh_ready _ _ _ _ Hs i m Hi) as [Hm Hrep%list_elem_of_lookup_2].
  rewrite Forall_forall in Hg. destruct (Hg _ Hrep) as [Hwf Hn]. split; [split_and!; [by rewrite Hm, event_size_eq|done..]|].
  eapply ordered_completed; [done|]. by eapply tracks_reports.
Qed.

(** At any moment of any interleaved execution, every record the consumer can
    take has the size of the structure and is printed, without undefined
    behaviour, as the line of a call that a thread of the traced process entered
    and left, with no hit of that thread in between, in the order in which the
    hits happened. *)
Lemma conc_reports_print g os g' :
  cfg_loaded max g -> creach target_tgid cpus g os g' ->
  (forall t c, HExit t c ∈ begun os -> sint 64 (rc_arg1 c) <> LONG_MIN) ->
  Forall (fun m => length m = event_size /\ prints_call junk strerror inet_ntop target_tgid (begun os) m)
    (ready (g_ring g')).
Proof using All.
  intros Hl Hr Hret. eapply Forall_impl; [by eapply creach_good|]. intros m [(Hm & Hwf & Hn) Hc]. simpl in *.
  destruct (handle_event_text junk junk_length strerror inet_ntop strerror_text ntop_text4 ntop_text6
    strerror_fits m Hm Hwf Hn) as (line & Hh & He & _).
  split; [by rewrite Hm, event_size_eq|]. by exists (decode_event m), line.
Qed.
End Consumer.

(** ** The compiled programs *)

Import SmallKernel.

Section Object.
Context (junk : nat -> bytes) (junk_length : forall n, length (junk n) = n).
Context (strerror : Z -> bytes) (inet_ntop : Z -> bytes -> option bytes).
Hypothesis strerror_text : forall err, nonul (strerror err).
Hypothesis strerror_fits : forall err, Z.of_nat (length (strerror err)) + 20 <= INT_MAX.
Hypothesis ntop_text4 : forall a s,
  inet_ntop AF_INET a = Some s -> nonul s /\ (length s < INET_ADDRSTRLEN)%nat.
Hypothesis ntop_text6 : forall a s,
  inet_ntop AF_INET6 a = Some s -> nonul s /\ (length s < INET6_ADDRSTRLEN)%nat.

Context {T M C : Type} `{BpfTask T, !BpfTaskLaws T, BpfKernelRead T, !BpfLongLaws T}
  `{BpfHash Z bytes M, !BpfHashLaws Z bytes M, !BpfHashCapacity Z bytes M}
  `{BpfRingSlots C, !BpfRingSlotsLaws C}.
Context (target_tgid : Z) (cpus : nat).

(** C7: from interleaved instructions to the output.  At any moment of any
    interleaving of the instructions of the compiled programs, every record the
    consumer can take has the size of the structure and is printed, without
    undefined behaviour, as the line of a call that a thread of the traced
    process entered and left, with no hit of that thread in between, in the order
    in which the hits happened (the smallest 64-bit integer, which no system call
    returns, excluded). *)
Theorem object_conc_prints max (x : xcfg T M C) os x' :
  is_sint 32 target_tgid -> x_loaded max x -> Forall hit_ok (begun os) -> xreach target_tgid cpus x os x' ->
  Forall (fun h => oh_enter h = false -> sint 64 (oh_arg1 h) <> LONG_MIN) (begun os) ->
  Forall (fun m => length m = event_size /\
      prints_call junk strerror inet_ntop target_tgid (source_hit <$> begun os) m)
    (ready (x_ring x')).
Proof using All.
  intros Hint Hl Hok Hr Hret.
  destruct (loaded_reach target_tgid cpus Hint max x os x' Hl Hok Hr) as (g & g' & Hg & Hg' & Hx).
  rewrite (xs_ring _ _ _ _ Hx), <- begun_map.
  apply (conc_reports_print junk junk_length strerror inet_ntop strerror_text strerror_fits ntop_text4 ntop_text6
    target_tgid max cpus g _ g' Hg Hg').
  rewrite begun_map. intros t c (h & Hh & Hin)%list_elem_of_fmap. rewrite Forall_forall in Hret.
  specialize (Hret h Hin). destruct h as [[] t' a0 a1 st]; [done|]. injection Hh as <- ->. by apply Hret.
Qed.
End Object.
