(* ===== verification/ConcSystem.v ===== *)
(** * The compiled programs on several CPUs and the command together

    While the command runs, the instructions of the compiled programs interleave
    on several CPUs (ObjConc); between two calls of the command any schedule of
    them is executed, and programs are in progress across calls.  The polls take
    what is submitted.  What the command prints is explained by a run of the call
    tracker. *)

From stdpp Require Import base list gmap strings.
From Stdlib Require Import ZArith Lia.
From S2P Require Import Prelude CLib Printf Layout BpfIface StraceTypes StraceBpf StraceTrace StraceConc.
From S2P Require Import StraceFmt StraceFmtProps StraceOutput StraceProc.
From S2P Require Import BpfMachine ObjMem ObjTrace ObjConc.
From S2P Require Import Host PollLoop Timeline StraceMain StraceRun StraceSystem ConcOutput.

Local Open Scope string_scope.
Local Open Scope list_scope.
Local Open Scope Z_scope.

Import SmallKernel.

(** ** The kernel side *)

Section Kernel.
Context {T M C : Type} `{BpfTask T, BpfKernelRead T} `{BpfHash Z bytes M} `{BpfRingSlots C}.

(** The read-only data, which is fixed once programs run, the configuration, and
    what was observed so far: the hits that started a program, and the refusals of
    the ring buffer. *)
Record sys := Sys { s_rodata : option Z; s_cfg : xcfg T M C; s_obs : list (obs (object_hit T)) }.

Definition sys_run (cpus : nat) (t : Z) (k : sys) (mvs : list (cpu_move T)) : option sys :=
  match mvs with
  | [] => Some k
  | _ =>
      let f := default t (s_rodata k) in
      '(x, l) ← exec_moves f cpus (s_cfg k) mvs;
      Some (Sys (Some f) x (s_obs k ++ l))
  end.

(** The consumer takes the oldest records, as far as there are any. *)
Definition sys_take (n : nat) (k : sys) : sys :=
  let x := s_cfg k in
  Sys (s_rodata k) (XCfg (x_map x) (cr_take (x_ring x) (n `min` length (unread (x_ring x)))) (x_run x)) (s_obs k).

Definition conc_producer (cpus : nat) : Producer sys (cpu_move T) (cpu_move T) := {|
  pr_run := sys_run cpus;
  pr_seen _ _ mvs := mvs;
  pr_records k := unread (x_ring (s_cfg k));
  pr_take := sys_take;
|}.
End Kernel.
#[global] Arguments sys : clear implicits.

(** ** What it keeps *)

(** The read-only data, what was observed, and the reports submitted. *)
Record progress (T : Type) := Progress {
  p_rodata : option Z;
  p_obs : list (obs (object_hit T));
  p_ready : list syscall_event;
}.
#[global] Arguments Progress {_} _ _ _.
#[global] Arguments p_rodata {_} _.
#[global] Arguments p_obs {_} _.
#[global] Arguments p_ready {_} _.

Section Spec.
Context {T M C : Type} `{BpfTask T, !BpfTaskLaws T, BpfKernelRead T, !BpfLongLaws T}
  `{BpfHash Z bytes M, !BpfHashLaws Z bytes M, !BpfHashCapacity Z bytes M}
  `{BpfRingSlots C, !BpfRingSlotsLaws C}.
Context (max cpus : nat).
Implicit Types (k : sys T M C) (o : progress T).

(** Whatever filter the programs have run with, an execution of the source
    explains the configuration. *)
Record sys_holds k o (es : list syscall_event) : Prop := {
  sy_rodata : s_rodata k = p_rodata o;
  sy_obs : s_obs k = p_obs o;
  sy_ready : p_ready o = decode_event <$> ready (x_ring (s_cfg k));
  sy_unread : es = decode_event <$> unread (x_ring (s_cfg k));
  sy_int t : s_rodata k = Some t -> is_sint 32 t;
  sy_hits : Forall kernel_hit (begun (s_obs k));
  sy_reach t : is_sint 32 t -> default t (s_rodata k) = t ->
    exists g0 g, cfg_loaded max g0 /\ creach t cpus g0 (obs_map source_hit <$> s_obs k) g /\
      xsim t (fun _ => 228%nat) (s_cfg k) g;
}.

Definition sys_steps (t : Z) o (xs : list (cpu_move T)) o' (es : list syscall_event) : Prop :=
  match xs with
  | [] => o' = o /\ es = []
  | _ =>
      p_rodata o' = Some (default t (p_rodata o)) /\ p_ready o' = p_ready o ++ es /\
      exists l, p_obs o' = p_obs o ++ l /\ (Start <$> begun l) `sublist_of` xs
  end.

Definition sys_spec : Tracked (sys T M C) (cpu_move T) (cpu_move T) (progress T) syscall_event := {|
  tk_start := Progress None [] [];
  tk_hit := move_hit kernel_hit;
  tk_good := good_record;
  tk_shows m e := decode_event m = e;
  tk_steps := sys_steps;
  tk_holds := sys_holds;
|}.

(** The filter in use, with an execution of the source. *)
Lemma holds_filter k o es t :
  sys_holds k o es -> is_sint 32 t ->
  let f := default t (s_rodata k) in
  is_sint 32 f /\ exists g0 g, cfg_loaded max g0 /\ creach f cpus g0 (obs_map source_hit <$> s_obs k) g /\
    xsim f (fun _ => 228%nat) (s_cfg k) g.
Proof using Type.
  intros [Hro _ _ _ Hint _ Hr] Ht f. assert (is_sint 32 f) as Hf.
  { unfold f. destruct (s_rodata k) eqn:E; [by apply Hint|done]. }
  split; [done|]. apply Hr; [done|]. unfold f. by destruct (s_rodata k).
Qed.

Lemma drop_snoc_prefix (l l' : list bytes) n :
  l `prefix_of` l' -> (n <= length l)%nat -> drop n l' = drop n l ++ drop (length l) l'.
Proof using Type. intros [r ->] Hn. by rewrite drop_app_le, drop_app_length. Qed.

Lemma sys_run_holds k o es t xs :
  is_sint 32 t -> Forall (move_hit kernel_hit) xs -> sys_holds k o es ->
  exists k' o' new, sys_run cpus t k xs = Some k' /\ sys_steps t o xs o' new /\ sys_holds k' o' (es ++ new).
Proof using All.
  intros Ht Hxs Hk. destruct xs as [|mv mvs]; [exists k, o, []; by rewrite app_nil_r|].
  unfold sys_run, sys_steps. set (xs := mv :: mvs) in *.
  destruct (holds_filter k o es t Hk Ht) as (Hf & g0 & g & Hg0 & Hg & Hx). set (f := default t (s_rodata k)) in *.
  assert (Forall (move_hit hit_ok) xs) as Hok.
  { eapply Forall_impl; [exact Hxs|]. intros [h|id]; [by intros [? _]|done]. }
  destruct (exec_moves_sim f cpus Hf (s_cfg k) g xs Hx Hok) as (x' & l & g' & Hrun & Hg' & Hx' & Htk).
  cbv zeta. rewrite Hrun. cbn [mbind option_bind]. destruct Hk as [Hro Hb Hre Hun _ Hh _].
  pose proof (creach_ready f max cpus g0 _ g _ g' Hg0 Hg Hg') as Hpre.
  pose proof (creach_taken f max cpus g0 _ g Hg0 Hg) as Hle.
  rewrite <- (xs_ring _ _ _ _ Hx) in Hpre, Hle. rewrite <- (xs_ring _ _ _ _ Hx') in Hpre.
  set (new := drop (length (ready (x_ring (s_cfg k)))) (ready (x_ring x'))).
  exists (Sys (Some f) x' (s_obs k ++ l)), (Progress (Some f) (p_obs o ++ l) (decode_event <$> ready (x_ring x'))),
    (decode_event <$> new). cbn [p_rodata p_obs p_ready]. split_and!; [done| | |eexists; split; [done|by eapply exec_moves_started]|].
  - unfold f. by rewrite Hro.
  - rewrite Hre, <- fmap_app. f_equal. destruct Hpre as [r Hr]. unfold new. by rewrite Hr, drop_app_length.
  - split; cbn [s_rodata s_obs s_cfg p_rodata p_obs p_ready]; [done|by rewrite Hb|done| |by intros ? [= <-]| |].
    + rewrite Hun, <- fmap_app. f_equal. unfold unread. rewrite Htk. symmetry. by apply drop_snoc_prefix.
    + rewrite begun_app. apply Forall_app. split; [done|]. by eapply exec_moves_hits.
    + intros t' _ [= <-]. exists g0, g'. rewrite fmap_app. split_and!; [done|by eapply creach_trans|done].
Qed.

Lemma sys_take_holds n k o es : sys_holds k o es -> sys_holds (sys_take n k) o (drop n es).
Proof using All.
  intros [Hro Hb Hre Hun Hint Hh Hr]. destruct k as [ro [m c run] b]. cbn [s_rodata s_obs s_cfg x_ring x_map x_run] in *.
  set (j := (n `min` length (unread c))%nat). assert (j <= length (unread c))%nat as Hj by lia.
  split; unfold sys_take; cbn [s_rodata s_obs s_cfg x_ring x_map x_run]; [done..| | |done|done|].
  - unfold ready. by rewrite cr_take_slots.
  - rewrite Hun, <- fmap_drop. f_equal. unfold unread at 2. rewrite cr_take_taken by done. fold j.
    unfold ready. rewrite cr_take_slots. fold (ready c). rewrite <- drop_drop. fold (unread c). unfold j.
    destruct (Nat.min_spec n (length (unread c))) as [[_ ->]|[? ->]]; [done|]. by rewrite !drop_ge by lia.
  - intros t Ht Hd. destruct (Hr t Ht Hd) as (g0 & g & Hg0 & Hg & Hx). fold j.
    destruct (take_sim t cpus (fun _ => 228%nat) g0 b m c run j) as (g' & Hg' & Hx'); [by exists g|done|]. by exists g0, g'.
Qed.

Lemma sys_good k o es : sys_holds k o es -> Forall good_record (unread (x_ring (s_cfg k))).
Proof using All.
  intros Hk. destruct (holds_filter k o es 0 Hk ltac:(unfold is_sint; lia)) as (_ & g0 & g & Hg0 & Hg & Hx).
  unfold unread. apply Forall_drop. rewrite (xs_ring _ _ _ _ Hx).
  eapply Forall_impl; [eapply creach_good; [done..|]|by intros m [? _]].
  rewrite begun_map. intros t c (h & Hh & Hin)%list_elem_of_fmap. pose proof (sy_hits _ _ _ Hk) as Hkh. rewrite Forall_forall in Hkh.
  destruct (Hkh h Hin) as [_ Hret]. destruct h as [[] t' a0 a1 st]; [done|]. injection Hh as <- ->. by apply Hret.
Qed.

Lemma sys_tracked :
  TrackedLaws (H := conc_producer cpus) (H0 := sys_spec) (sys T M C) (cpu_move T) (cpu_move T) (progress T) syscall_event.
Proof using All.
  split; cbn [sys_spec tk_steps tk_holds tk_shows tk_good tk_hit pr_run pr_seen pr_records pr_take conc_producer].
  - done.
  - done.
  - intros t o xs o1 es1 ys o2 es2 Hx Hy. destruct xs as [|mv xs]; [destruct Hx as [-> ->]; done|].
    destruct ys as [|mv' ys]; [destruct Hy as [-> ->]; by rewrite !app_nil_r|].
    destruct Hx as (F1 & R1 & l1 & B1 & S1), Hy as (F2 & R2 & l2 & B2 & S2). cbn [app sys_steps].
    rewrite F2, F1, R2, R1, B2, B1. split_and!; [done|by rewrite app_assoc|]. exists (l1 ++ l2).
    rewrite app_assoc, begun_app, fmap_app. split; [done|]. exact (sublist_app _ _ _ _ S1 S2).
  - intros t k o es xs. apply sys_run_holds.
  - apply sys_take_holds.
  - intros k o es Hk. rewrite (sy_unread _ _ _ Hk). apply Forall2_fmap_r, Forall_Forall2_diag. by apply Forall_true.
  - apply sys_good.
Qed.
End Spec.

(** ** The whole tool *)

Section System.
Context {T M C : Type} `{BpfTask T, !BpfTaskLaws T, BpfKernelRead T, !BpfLongLaws T}
  `{BpfHash Z bytes M, !BpfHashLaws Z bytes M, !BpfHashCapacity Z bytes M}
  `{BpfRingSlots C, !BpfRingSlotsLaws C} `{Env}.
Context (max cpus : nat) (x0 : xcfg T M C) (moves : list event -> list (cpu_move T)).

#[local] Instance sys_producer : Producer (sys T M C) (cpu_move T) (cpu_move T) := conc_producer cpus.

(** The object when it is loaded. *)
Definition sys0 : sys T M C := Sys None x0 [].

(** What the kernel and libbpf do: the schedule between two calls is arbitrary,
    and a poll delivers the oldest records submitted. *)
Class ConcKernelLaws := {
  ck_loaded : x_loaded max x0;
  ck_moves h : Forall (move_hit kernel_hit) (moves h);
  ck_poll h k rb ms : kern_at sys0 moves h = Some k ->
    exists n, (env_reply h (CPoll rb ms)).2 = take n (unread (x_ring (s_cfg k)));
}.
Context `{!ConcKernelLaws}.

#[local] Instance sys_timeline : TimelineLaws (Tracked0 := sys_spec max cpus) sys0 moves.
Proof using All.
  split; [|apply ck_moves|apply ck_poll]. pose proof ck_loaded as Hl.
  assert (ready (x_ring x0) = []) as Hr by (unfold ready; by rewrite (xl_slots _ _ Hl)).
  split; cbn [sys0 s_rodata s_obs s_cfg p_rodata p_obs p_ready tk_start sys_spec];
    [done|done|by rewrite Hr|unfold unread; by rewrite Hr, drop_nil|done|constructor|].
  intros t Ht _. destruct (loaded_xsim t max x0 Hl) as [Hx Hg]. eexists _, _. split_and!; [exact Hg|constructor|exact Hx].
Qed.

(** From nothing, every report submitted is new. *)
Lemma steps_from_start t xs (o : progress T) es :
  sys_steps t (Progress None [] []) xs o es ->
  p_ready o = es /\ (Start <$> begun (p_obs o)) `sublist_of` xs /\ (xs = [] /\ p_obs o = [] \/ p_rodata o = Some t).
Proof using Type.
  destruct xs as [|mv xs]; cbn [sys_steps p_rodata p_obs p_ready]; [intros [-> ->]; split_and!; [done..|by left]|].
  intros (Hf & Hr & l & Hb & Hs). rewrite Hb. auto.
Qed.

Context `{!EnvLaws}.
Context (junk : nat -> bytes) (junk_length : forall n, length (junk n) = n).
Context (strerror : Z -> bytes) (inet_ntop : Z -> bytes -> option bytes).
Hypothesis strerror_text : forall err, nonul (strerror err).
Hypothesis strerror_fits : forall err, Z.of_nat (length (strerror err)) + 20 <= INT_MAX.
Hypothesis ntop_text4 : forall a s,
  inet_ntop AF_INET a = Some s -> nonul s /\ (length s < INET_ADDRSTRLEN)%nat.
Hypothesis ntop_text6 : forall a s,
  inet_ntop AF_INET6 a = Some s -> nonul s /\ (length s < INET6_ADDRSTRLEN)%nat.

End System.
