(* ===== verification/Btf.v ===== *)
(** * Type information of the embedded object

    The BTF format of linux/btf.h and the accessors of bpf/btf.h, applied to the
    .BTF section of the object: what the compiler recorded about the structures
    and the map definitions of libbpfstrace.bpf.c. *)

From stdpp Require Import base list gmap strings.
From Stdlib Require Import ZArith Lia.
From S2P Require Import Prelude CLib Layout StraceTypes StraceBpf ElfBlob ElfObject BpfMachine ObjMem.

Local Open Scope string_scope.
Local Open Scope list_scope.
Local Open Scope Z_scope.

(** ** Structures of the format *)

Definition BTF_MAGIC : Z := 60319.
Definition BTF_VERSION : Z := 1.

Definition btf_header : fields :=
  [("magic", TInt 2); ("version", TInt 1); ("flags", TInt 1); ("hdr_len", TInt 4);
   ("type_off", TInt 4); ("type_len", TInt 4); ("str_off", TInt 4); ("str_len", TInt 4)].

(** the last member is a union of [size] and [type] *)
Definition btf_type : fields := [("name_off", TInt 4); ("info", TInt 4); ("size_type", TInt 4)].

Definition btf_enum_fields : fields := [("name_off", TInt 4); ("val", TInt 4)].
Definition btf_array_fields : fields := [("type", TInt 4); ("index_type", TInt 4); ("nelems", TInt 4)].
Definition btf_member_fields : fields := [("name_off", TInt 4); ("type", TInt 4); ("offset", TInt 4)].
Definition btf_param_fields : fields := [("name_off", TInt 4); ("type", TInt 4)].
Definition btf_var_fields : fields := [("linkage", TInt 4)].
Definition btf_var_secinfo_fields : fields := [("type", TInt 4); ("offset", TInt 4); ("size", TInt 4)].
Definition btf_decl_tag_fields : fields := [("component_idx", TInt 4)].
Definition btf_enum64_fields : fields := [("name_off", TInt 4); ("val_lo32", TInt 4); ("val_hi32", TInt 4)].

Definition BTF_INFO_KIND (info : Z) : Z := Z.land (Z.shiftr info 24) 31.
Definition BTF_INFO_VLEN (info : Z) : Z := Z.land info 65535.
Definition BTF_INFO_KFLAG (info : Z) : Z := Z.shiftr info 31.

Inductive btf_kinds :=
  BTF_KIND_UNKN | BTF_KIND_INT | BTF_KIND_PTR | BTF_KIND_ARRAY | BTF_KIND_STRUCT | BTF_KIND_UNION
| BTF_KIND_ENUM | BTF_KIND_FWD | BTF_KIND_TYPEDEF | BTF_KIND_VOLATILE | BTF_KIND_CONST
| BTF_KIND_RESTRICT | BTF_KIND_FUNC | BTF_KIND_FUNC_PROTO | BTF_KIND_VAR | BTF_KIND_DATASEC
| BTF_KIND_FLOAT | BTF_KIND_DECL_TAG | BTF_KIND_TYPE_TAG | BTF_KIND_ENUM64.

Definition kind_list : list btf_kinds :=
  [BTF_KIND_UNKN; BTF_KIND_INT; BTF_KIND_PTR; BTF_KIND_ARRAY; BTF_KIND_STRUCT; BTF_KIND_UNION;
   BTF_KIND_ENUM; BTF_KIND_FWD; BTF_KIND_TYPEDEF; BTF_KIND_VOLATILE; BTF_KIND_CONST;
   BTF_KIND_RESTRICT; BTF_KIND_FUNC; BTF_KIND_FUNC_PROTO; BTF_KIND_VAR; BTF_KIND_DATASEC;
   BTF_KIND_FLOAT; BTF_KIND_DECL_TAG; BTF_KIND_TYPE_TAG; BTF_KIND_ENUM64].

Definition kind_code (k : btf_kinds) : Z :=
  match k with
  | BTF_KIND_UNKN => 0 | BTF_KIND_INT => 1 | BTF_KIND_PTR => 2 | BTF_KIND_ARRAY => 3
  | BTF_KIND_STRUCT => 4 | BTF_KIND_UNION => 5 | BTF_KIND_ENUM => 6 | BTF_KIND_FWD => 7
  | BTF_KIND_TYPEDEF => 8 | BTF_KIND_VOLATILE => 9 | BTF_KIND_CONST => 10 | BTF_KIND_RESTRICT => 11
  | BTF_KIND_FUNC => 12 | BTF_KIND_FUNC_PROTO => 13 | BTF_KIND_VAR => 14 | BTF_KIND_DATASEC => 15
  | BTF_KIND_FLOAT => 16 | BTF_KIND_DECL_TAG => 17 | BTF_KIND_TYPE_TAG => 18 | BTF_KIND_ENUM64 => 19
  end.

Definition BTF_INT_ENCODING (v : Z) : Z := Z.shiftr (Z.land v 251658240) 24.
Definition BTF_INT_OFFSET (v : Z) : Z := Z.shiftr (Z.land v 16711680) 16.
Definition BTF_INT_BITS (v : Z) : Z := Z.land v 255.

Definition BTF_MEMBER_BITFIELD_SIZE (v : Z) : Z := Z.shiftr v 24.
Definition BTF_MEMBER_BIT_OFFSET (v : Z) : Z := Z.land v 16777215.

(** ** Accessors (bpf/btf.h)

    A pointer to a type is the section from the type on. *)

Definition btf_info (t : bytes) : Z := get_uint btf_type "info" t.
Definition btf_size (t : bytes) : Z := get_uint btf_type "size_type" t.

Definition btf_kind (t : bytes) : Z := BTF_INFO_KIND (btf_info t).
Definition btf_vlen (t : bytes) : nat := Z.to_nat (BTF_INFO_VLEN (btf_info t)).
Definition btf_kflag (t : bytes) : bool := negb (BTF_INFO_KFLAG (btf_info t) =? 0).

Definition has_kind (t : bytes) (k : btf_kinds) : bool := btf_kind t =? kind_code k.

Definition btf_is_void (t : bytes) : bool := has_kind t BTF_KIND_UNKN.
Definition btf_is_int (t : bytes) : bool := has_kind t BTF_KIND_INT.
Definition btf_is_ptr (t : bytes) : bool := has_kind t BTF_KIND_PTR.
Definition btf_is_array (t : bytes) : bool := has_kind t BTF_KIND_ARRAY.
Definition btf_is_struct (t : bytes) : bool := has_kind t BTF_KIND_STRUCT.
Definition btf_is_union (t : bytes) : bool := has_kind t BTF_KIND_UNION.
Definition btf_is_composite (t : bytes) : bool := has_kind t BTF_KIND_STRUCT || has_kind t BTF_KIND_UNION.
Definition btf_is_enum (t : bytes) : bool := has_kind t BTF_KIND_ENUM.
Definition btf_is_enum64 (t : bytes) : bool := has_kind t BTF_KIND_ENUM64.
Definition btf_is_fwd (t : bytes) : bool := has_kind t BTF_KIND_FWD.
Definition btf_is_typedef (t : bytes) : bool := has_kind t BTF_KIND_TYPEDEF.
Definition btf_is_volatile (t : bytes) : bool := has_kind t BTF_KIND_VOLATILE.
Definition btf_is_const (t : bytes) : bool := has_kind t BTF_KIND_CONST.
Definition btf_is_restrict (t : bytes) : bool := has_kind t BTF_KIND_RESTRICT.
Definition btf_is_mod (t : bytes) : bool :=
  has_kind t BTF_KIND_VOLATILE || has_kind t BTF_KIND_CONST || has_kind t BTF_KIND_RESTRICT ||
  has_kind t BTF_KIND_TYPE_TAG.
Definition btf_is_func (t : bytes) : bool := has_kind t BTF_KIND_FUNC.
Definition btf_is_func_proto (t : bytes) : bool := has_kind t BTF_KIND_FUNC_PROTO.
Definition btf_is_var (t : bytes) : bool := has_kind t BTF_KIND_VAR.
Definition btf_is_datasec (t : bytes) : bool := has_kind t BTF_KIND_DATASEC.
Definition btf_is_float (t : bytes) : bool := has_kind t BTF_KIND_FLOAT.
Definition btf_is_decl_tag (t : bytes) : bool := has_kind t BTF_KIND_DECL_TAG.
Definition btf_is_type_tag (t : bytes) : bool := has_kind t BTF_KIND_TYPE_TAG.
Definition btf_is_any_enum (t : bytes) : bool := btf_is_enum t || btf_is_enum64 t.

Definition btf_kind_core_compat (t1 t2 : bytes) : bool :=
  (btf_kind t1 =? btf_kind t2) || (btf_is_any_enum t1 && btf_is_any_enum t2).

(** [t + 1] *)
Definition btf_extra (t : bytes) : bytes := drop (struct_size btf_type) t.

Definition btf_int_data (t : bytes) : Z := le_value (take 4 (btf_extra t)).
Definition btf_int_encoding (t : bytes) : Z := BTF_INT_ENCODING (btf_int_data t).
Definition btf_int_offset (t : bytes) : Z := BTF_INT_OFFSET (btf_int_data t).
Definition btf_int_bits (t : bytes) : Z := BTF_INT_BITS (btf_int_data t).

(** [((__u64)e->val_hi32 << 32) | e->val_lo32] *)
Definition btf_enum64_value (e : bytes) : Z :=
  Z.lor (uint 64 (Z.shiftl (get_uint btf_enum64_fields "val_hi32" e) 32))
    (get_uint btf_enum64_fields "val_lo32" e).

Definition btf_array (t : bytes) : bytes := btf_extra t.

(** [btf_members(t) + i] *)
Definition btf_member (t : bytes) (i : nat) : bytes :=
  drop (i * struct_size btf_member_fields) (btf_extra t).

Definition btf_member_bit_offset (t : bytes) (i : nat) : Z :=
  let off := get_uint btf_member_fields "offset" (btf_member t i) in
  if btf_kflag t then BTF_MEMBER_BIT_OFFSET off else off.

Definition btf_member_bitfield_size (t : bytes) (i : nat) : Z :=
  let off := get_uint btf_member_fields "offset" (btf_member t i) in
  if btf_kflag t then BTF_MEMBER_BITFIELD_SIZE off else 0.

(** ** The section *)

(** Bytes after [struct btf_type], by the comments of linux/btf.h. *)
Definition extra_size (t : bytes) : option nat :=
  k ← kind_list !! Z.to_nat (btf_kind t);
  match k with
  | BTF_KIND_INT => Some 4%nat
  | BTF_KIND_ARRAY => Some (struct_size btf_array_fields)
  | BTF_KIND_STRUCT | BTF_KIND_UNION => Some (btf_vlen t * struct_size btf_member_fields)%nat
  | BTF_KIND_ENUM => Some (btf_vlen t * struct_size btf_enum_fields)%nat
  | BTF_KIND_ENUM64 => Some (btf_vlen t * struct_size btf_enum64_fields)%nat
  | BTF_KIND_FUNC_PROTO => Some (btf_vlen t * struct_size btf_param_fields)%nat
  | BTF_KIND_VAR => Some (struct_size btf_var_fields)
  | BTF_KIND_DATASEC => Some (btf_vlen t * struct_size btf_var_secinfo_fields)%nat
  | BTF_KIND_DECL_TAG => Some (struct_size btf_decl_tag_fields)
  | BTF_KIND_UNKN => None
  | _ => Some 0%nat
  end.

(** The types of a type section, in order; [None] if it is malformed. *)
Fixpoint types_from (fuel : nat) (m : bytes) : option (list bytes) :=
  match fuel, m with
  | _, [] => Some []
  | S fuel, _ =>
      e ← extra_size m; ts ← types_from fuel (drop (struct_size btf_type + e) m); Some (m :: ts)
  | O, _ => None
  end.

(** A BTF section: its types, numbered from 1, and its strings. *)
Record btf := Btf { btf_types : list bytes; btf_strs : bytes }.

Definition parse_btf (m : bytes) : option btf :=
  let h n := Z.to_nat (get_uint btf_header n m) in
  if (get_uint btf_header "magic" m =? BTF_MAGIC) && (get_uint btf_header "version" m =? BTF_VERSION) then
    let body := drop (h "hdr_len") m in
    let ts := load (h "type_off") (h "type_len") body in
    ts ← types_from (length ts) ts; Some (Btf ts (load (h "str_off") (h "str_len") body))
  else None.

Definition object_btf (elf : bytes) : option btf :=
  i ← find_section elf (B ".BTF"); parse_btf (section_bytes elf i).

Section Types.
Context (b : btf).

Definition btf_str (off : Z) : option bytes := cstr (drop (Z.to_nat off) (btf_strs b)).

Definition type_by_id (id : Z) : option bytes :=
  if id <=? 0 then None else btf_types b !! Z.to_nat (id - 1).

Definition type_name (t : bytes) : option bytes := btf_str (get_uint btf_type "name_off" t).

Definition find_type (k : btf_kinds) (name : bytes) : option bytes :=
  head (filter (fun t => btf_kind t = kind_code k /\ type_name t = Some name) (btf_types b)).

(** The size of a type; chains of types are no longer than the list. *)
Fixpoint type_size (fuel : nat) (id : Z) : option Z :=
  match fuel with
  | O => None
  | S fuel =>
      t ← type_by_id id;
      if btf_is_ptr t then Some 8
      else if btf_is_typedef t || btf_is_mod t then type_size fuel (btf_size t)
      else if btf_is_array t then
        n ← type_size fuel (get_uint btf_array_fields "type" (btf_array t));
        Some (n * get_uint btf_array_fields "nelems" (btf_array t))
      else if btf_is_int t || btf_is_composite t || btf_is_any_enum t then Some (btf_size t)
      else None
  end.

Definition size_of_type (id : Z) : option Z := type_size (length (btf_types b)) id.

(** Name, byte offset and size of each member. *)
Definition struct_members (t : bytes) : option (list (bytes * Z * Z)) :=
  mapM (fun i =>
    n ← btf_str (get_uint btf_member_fields "name_off" (btf_member t i));
    sz ← size_of_type (get_uint btf_member_fields "type" (btf_member t i));
    Some (n, btf_member_bit_offset t i / 8, sz)) (seq 0 (btf_vlen t)).

(** Size and members of the structure [name]. *)
Definition btf_struct (name : bytes) : option (Z * list (bytes * Z * Z)) :=
  t ← find_type BTF_KIND_STRUCT name; ms ← struct_members t; Some (btf_size t, ms).

(** *** Map definitions

    A map is a variable of a structure type whose members carry numbers
    ([__uint]: a pointer to an array of that many elements) and types
    ([__type]: a pointer to the type). *)

Definition map_member (t : bytes) (name : bytes) : option Z :=
  i ← head (filter (fun i =>
        btf_str (get_uint btf_member_fields "name_off" (btf_member t i)) = Some name) (seq 0 (btf_vlen t)));
  p ← type_by_id (get_uint btf_member_fields "type" (btf_member t i));
  if btf_is_ptr p then Some (btf_size p) else None.

Definition map_uint (t : bytes) (name : bytes) : option Z :=
  id ← map_member t name; a ← type_by_id id;
  if btf_is_array a then Some (get_uint btf_array_fields "nelems" (btf_array a)) else None.

Definition map_type_size (t : bytes) (name : bytes) : option Z :=
  id ← map_member t name; size_of_type id.

Record map_def := MapDef {
  md_type : option Z;
  md_max_entries : option Z;
  md_key_size : option Z;
  md_value_size : option Z;
}.

Definition btf_map (name : bytes) : option map_def :=
  v ← find_type BTF_KIND_VAR name; t ← type_by_id (btf_size v);
  if btf_is_struct t then
    Some (MapDef (map_uint t (B "type")) (map_uint t (B "max_entries"))
            (map_type_size t (B "key")) (map_type_size t (B "value")))
  else None.
End Types.

(** [enum bpf_map_type], numbered from 0. *)
Definition map_types : list string :=
  ["UNSPEC"; "HASH"; "ARRAY"; "PROG_ARRAY"; "PERF_EVENT_ARRAY"; "PERCPU_HASH"; "PERCPU_ARRAY";
   "STACK_TRACE"; "CGROUP_ARRAY"; "LRU_HASH"; "LRU_PERCPU_HASH"; "LPM_TRIE"; "ARRAY_OF_MAPS";
   "HASH_OF_MAPS"; "DEVMAP"; "SOCKMAP"; "CPUMAP"; "XSKMAP"; "SOCKHASH"; "CGROUP_STORAGE";
   "REUSEPORT_SOCKARRAY"; "PERCPU_CGROUP_STORAGE"; "QUEUE"; "STACK"; "SK_STORAGE"; "DEVMAP_HASH";
   "STRUCT_OPS"; "RINGBUF"; "INODE_STORAGE"; "TASK_STORAGE"; "BLOOM_FILTER"].

Definition map_type_name (z : Z) : option string := map_types !! Z.to_nat z.

(** ** The object's types

    Name, offset and size of the members of a structure. *)

Definition layout_of (fs : fields) : list (bytes * Z * Z) :=
  (fun f => (B f.1, Z.of_nat f.2.1, Z.of_nat (ty_size f.2.2))) <$> place 0 fs.

(** An array member [n] described by its [k] elements. *)
Definition split_member (n : string) (k : nat) (m : bytes * Z * Z) : list (bytes * Z * Z) :=
  let '(n', off, sz) := m in
  if decide (n' = B n) then
    (fun i => (B (elem_name n i), off + Z.of_nat i * (sz / Z.of_nat k), sz / Z.of_nat k)) <$> seq 0 k
  else [m].

(** The compiler laid the structures out as the model does: the size and
    the offset and width of every member of [struct enter_state] and of the two
    socket addresses, as the type information of the object has them, are those
    of the layouts with which the model reads and writes them; the registers of
    [struct user_pt_regs] are 31 words from its start. *)
Theorem object_layouts :
  exists b, object_btf elf_bytes = Some b /\
    (prod_map id (mbind (split_member "args" 6)) <$> btf_struct b (B "enter_state"))
      = Some (Z.of_nat (struct_size enter_fields), layout_of enter_fields) /\
    btf_struct b (B "sockaddr_in") = Some (Z.of_nat (struct_size sockaddr_in), layout_of sockaddr_in) /\
    btf_struct b (B "sockaddr_in6") = Some (Z.of_nat (struct_size sockaddr_in6), layout_of sockaddr_in6) /\
    (head ∘ snd <$> btf_struct b (B "user_pt_regs")) = Some (Some (B "regs", 0, 31 * 8)).
Proof. eexists. split; [vm_compute; reflexivity|]. split_and!; vm_compute; reflexivity. Qed.

(** The maps the compiled programs use are those of the source: [inflight]
    is a hash map with 16384 entries whose keys and values have the sizes the
    machine copies and which the loader would allocate, [events] a ring buffer
    of 16 MiB without key and value. *)
Theorem object_maps :
  exists b im ev, object_btf elf_bytes = Some b /\
    btf_map b (B "inflight") = Some im /\ btf_map b (B "events") = Some ev /\
    (md_type im ≫= map_type_name) = Some "HASH" /\ md_max_entries im = Some inflight_max_entries /\
    md_key_size im = Some key_size /\ md_value_size im = Some value_size /\
    value_size = Z.of_nat (struct_size enter_fields) /\
    (md_type ev ≫= map_type_name) = Some "RINGBUF" /\ md_max_entries ev = Some events_max_entries /\
    md_key_size ev = None /\ md_value_size ev = None.
Proof. do 3 eexists. split; [vm_compute; reflexivity|]. split_and!; vm_compute; reflexivity. Qed.
