(* ===== verification/Examples.v ===== *)
(** * Concrete kernels, tasks and environments

    Small executable instances of the interfaces: the theorems are applied to
    them in the [*_witness] lemmas of the last files. *)

From stdpp Require Import base list gmap strings.
From Stdlib Require Import ZArith Lia.
From S2P Require Import Prelude CLib Printf Layout BpfIface StraceTypes StraceBpf StraceTrace.
From S2P Require Import StraceProps StraceFmt StraceProc SoTrace Host PollLoop StraceMain SoMain.
From S2P Require Import BpfMachine ObjTrace.

Local Open Scope string_scope.
Local Open Scope list_scope.
Local Open Scope Z_scope.

Import SmallKernel.

(** ** The kernel side *)

(** A string in user memory. *)
Fixpoint poke (a : Z) (s : bytes) (m : gmap Z Z) : gmap Z Z :=
  match s with [] => <[a:=0]> m | c :: s => <[a:=c]> (poke (a + 1) s m) end.

(** Thread 43 of process 42, with a path at address 4096. *)
Definition task42 : task :=
  Task (42 * 2 ^ 32 + 43) (1000 * 2 ^ 32 + 2000) (B "app") (poke 4096 (B "/etc/hosts") ∅).

(** Thread 7 of process 7. *)
Definition task7 : task := Task (7 * 2 ^ 32 + 7) 0 (B "other") ∅.

(** openat(AT_FDCWD, path, O_RDONLY|O_CLOEXEC), returning 3. *)
Definition openat_enter : raw_ctx := RawCtx [-100; 4096; 524288; 0; 0; 0] 56.
Definition openat_exit : raw_ctx := RawCtx [] 3.

Definition kern0 : kern (hmap enter_state) ring := StraceBpf.Kern (HMap 4 ∅) (Ring 1000 []).

Definition hits0 : list (hit task) :=
  [HEnter task42 openat_enter; HEnter task7 openat_enter; HExit task42 openat_exit].

Lemma kern0_loaded : loaded kern0.
Proof. split; done. Qed.

Definition record0 : bytes :=
  match rb_records (k_events (bpf_run 42 kern0 hits0)) with m :: _ => m | [] => [] end.

Lemma record0_good : good_record record0.
Proof.
  pose proof (run_records_wf 42 kern0 hits0 kern0_loaded) as Hr. unfold record0.
  assert (exists m ms, rb_records (k_events (bpf_run 42 kern0 hits0)) = m :: ms) as (m & ms & E)
    by (vm_compute; by do 2 eexists).
  assert (ev_ret (decode_event m) = 3) as H3.
  { assert (match rb_records (k_events (bpf_run 42 kern0 hits0)) with m :: _ => ev_ret (decode_event m) | [] => 0 end = 3)
      as Hv by (vm_compute; done). by rewrite E in Hv. }
  rewrite E in Hr |- *. apply Forall_cons in Hr as [(Hl & Hwf & _) _].
  split_and!; [by rewrite Hl, event_size_eq|done|by rewrite H3].
Qed.

(** ** The compiled programs *)

Import SmallMachine.

(** The bytes [s] at address [a]. *)
Fixpoint poke_bytes (a : Z) (s : bytes) (m : gmap Z Z) : gmap Z Z :=
  match s with [] => m | c :: s => <[a:=c]> (poke_bytes (a + 1) s m) end.

(** The registers of the call of [task42] at the kernel address 65536. *)
Definition ktask42 : ktask :=
  KTask task42 (poke_bytes 65536 (concat (le_bytes 8 <$> [-100; 4096; 524288; 0; 0; 0])) ∅).

Definition okern0 : kern (hmap bytes) ring := StraceBpf.Kern (HMap 4 ∅) (Ring 1000 []).

Definition junk_stack : bytes := replicate 512 171.

Definition ohits0 : list (object_hit ktask) :=
  [ObjectHit true ktask42 65536 56 junk_stack; ObjectHit false ktask42 65536 3 junk_stack].

Lemma okern0_loaded : object_loaded okern0.
Proof. split; done. Qed.

Lemma ohits0_ok : Forall hit_ok ohits0.
Proof. repeat constructor; done. Qed.

(** The object reports the call with its path and its result. *)
Example object_example :
  (fun k => (fun e => (ev_syscall_id e, ev_ret e, cstr (ev_str e), ev_args e)) <$> reported k)
    <$> object_run 42 okern0 ohits0
  = Some [(56, 3, Some (B "/etc/hosts"), [2 ^ 64 - 100; 4096; 524288; 0; 0; 0])].
Proof. vm_compute. reflexivity. Qed.

(** ** The user side *)

Definition junk7 (n : nat) : bytes := replicate n 7.
Definition strerror_msg (err : Z) : bytes := B "error".
Definition ntop_any (af : Z) (a : bytes) : option bytes := Some (B "1.2.3.4").

Lemma junk7_length n : length (junk7 n) = n.
Proof. apply length_replicate. Qed.

Lemma strerror_msg_text err : nonul (strerror_msg err).
Proof. apply (bool_decide_unpack _). vm_compute. done. Qed.

Lemma strerror_msg_fits err : Z.of_nat (length (strerror_msg err)) + 20 <= INT_MAX.
Proof. vm_compute. done. Qed.

Lemma ntop_any_text4 a s : ntop_any AF_INET a = Some s -> nonul s /\ (length s < INET_ADDRSTRLEN)%nat.
Proof. intros [= <-]. split; [apply (bool_decide_unpack _); vm_compute; done|vm_compute; lia]. Qed.

Lemma ntop_any_text6 a s : ntop_any AF_INET6 a = Some s -> nonul s /\ (length s < INET6_ADDRSTRLEN)%nat.
Proof. intros [= <-]. split; [apply (bool_decide_unpack _); vm_compute; done|vm_compute; lia]. Qed.

(** A pointer that is not live. *)
Definition new_ptr (h : list event) : Z :=
  match usage_of h with
  | Some u => 1 + foldr Z.max 0 (elements (u_live u))
  | None => 1
  end.

Lemma foldr_max_ge (l : list Z) x : x ∈ l -> x <= foldr Z.max 0 l.
Proof. induction 1; simpl; lia. Qed.

Lemma new_ptr_fresh h u : usage_of h = Some u -> new_ptr h ∉ u_live u.
Proof.
  intros Hu Hin%elem_of_elements%foldr_max_ge. unfold new_ptr in Hin. rewrite Hu in Hin. lia.
Qed.

(** /proc with the process 42, "app:sub". *)
Definition proc42 : proc_snapshot := {|
  ps_dir := Some [B "."; B "self"; B "7"; B "42"];
  ps_file p := if decide (p = B "/proc/42/cmdline") then Some (B "app:sub" ++ [0]) else None;
|}.

(** Everything succeeds; the first poll delivers [records], the others return
    [later]; a signal arrives after [late] calls. *)
Definition env_ok (records : list bytes) (later : Z) (late : nat) : Env := {|
  env_reply h c :=
    match c return reply c with
    | CProc => proc42
    | CCalloc _ _ => new_ptr h
    | CRingNew | COpenAndLoad | CAttachUprobe _ _ _ _ _ _ => (new_ptr h, 0)
    | CSetrlimit => (0, 0)
    | CPoll _ _ => match polls h with [] => (Z.of_nat (length records), records) | _ => (later, []) end
    | CGetpid => 99
    | COpenSkeleton _ | CLoadSkeleton _ | CAttachSkeleton _ | CAttach _ | CSystem _
    | CMapUpdate _ _ _ _ => 0
    | _ => tt
    end;
  env_signal h := (late <=? length h)%nat;
|}.

Lemma env_ok_laws records later late :
  Z.of_nat (length records) <= 1000 -> is_sint 32 later -> @EnvLaws (env_ok records later late).
Proof.
  intros Hr Hl. split.
  - intros h u c Hu. pose proof (new_ptr_fresh h u Hu). destruct c; simpl; auto.
  - intros h c. unfold is_sint in *. destruct c; simpl; try lia. destruct (polls h); simpl; lia.
  - intros h c. destruct c; simpl; unfold INT_MIN; lia.
Qed.

Lemma env_ok_records good records later late :
  Forall good records -> @RecordLaws (env_ok records later late) good.
Proof. intros Hg. split. intros h rb t. simpl. destruct (polls h); simpl; [done|constructor]. Qed.

(** Polls deliver what is in the ring buffer; a signal arrives after [late]
    calls. *)
Definition env_polls (records : list event -> list bytes) (late : nat) : Env := {|
  env_reply h c :=
    match c return reply c with
    | CPoll _ _ => let r := records h in (sint 32 (Z.of_nat (length r)), r)
    | c => env_reply (Env := env_ok [] 0 late) h c
    end;
  env_signal h := (late <=? length h)%nat;
|}.

Lemma env_polls_laws records late : EnvLaws (H := env_polls records late).
Proof.
  destruct (env_ok_laws [] 0 late ltac:(simpl; lia) ltac:(unfold is_sint; lia)) as [Hf Hi He].
  split; intros h; [intros u c Hu; pose proof (Hf h u c Hu)|intros c; pose proof (Hi h c)|intros c; pose proof (He h c)];
    destruct c; try done. apply sint_range. lia.
Qed.

Definition final_state (o : Host.outcome Z) : hstate := match o with Done _ st => st | _ => hs_init end.
