(* ===== verification/StraceWitness.v ===== *)
(** * The theorems about libbpfstrace at concrete inputs *)

From stdpp Require Import base list gmap strings.
From Stdlib Require Import ZArith Lia.
From S2P Require Import Prelude CLib Printf Layout BpfIface Uapi StraceTypes StraceBpf.
From S2P Require Import StraceCapture StraceTrace StraceProps StraceFmt StraceFmtProps.
From S2P Require Import StraceOutput StraceProc Host PollLoop StraceSkel StraceMain StraceRun.
From S2P Require Import ElfBlob ElfObject Examples.

Local Open Scope string_scope.
Local Open Scope list_scope.
Local Open Scope Z_scope.

Import SmallKernel.

(** ** The kernel half: one openat of process 42, another process filtered out *)

Lemma bpf_run_refines_witness :
  exists tr, tracks 42 4 fresh_tracker (with_room 42 kern0 hits0) tr /\
    (forall id, hlookup (k_inflight (bpf_run 42 kern0 hits0)) id = open_calls tr !! id) /\
    reported (bpf_run 42 kern0 hits0) = reports tr.
Proof. exact (bpf_run_refines 42 kern0 hits0 kern0_loaded). Defined.

Definition event0 : syscall_event := decode_event record0.

Lemma reported_completed_witness : completed_in 42 hits0 event0.
Proof.
  apply (reported_completed 42 kern0 hits0 event0 kern0_loaded).
  vm_compute. apply elem_of_cons. left. reflexivity.
Defined.

Lemma reported_all_calls_witness :
  reported (bpf_run 42 kern0 hits0) = reports (match_calls 42 hits0) /\
  length (reports (match_calls 42 hits0)) = 1%nat.
Proof.
  split; [|vm_compute; reflexivity]. apply (reported_all_calls 42 kern0 hits0 kern0_loaded). split.
  - vm_compute. lia.
  - intros i Hi. do 3 (destruct i as [|i]; [vm_compute; by eexists|]). simpl in Hi. lia.
Defined.

Lemma records_wellformed_witness :
  Forall (fun m => length m = 384%nat /\ wf_event (decode_event m))
    (rb_records (k_events (bpf_run 42 kern0 hits0))).
Proof. exact (records_wellformed 42 kern0 hits0 kern0_loaded). Defined.

Lemma target_only_witness :
  Forall (fun e => ev_tgid e = 42) (reported (bpf_run 42 kern0 hits0)) /\
  forall id, is_Some (hlookup (k_inflight (bpf_run 42 kern0 hits0)) id) -> tgid_of id = 42.
Proof. apply (target_only 42 kern0 hits0 kern0_loaded). lia. Defined.

Lemma inflight_is_open_witness :
  open_in 42 [HEnter task42 openat_enter] (tk_pid_tgid task42) (enter_record task42 openat_enter).
Proof.
  apply (inflight_is_open 42 kern0 [HEnter task42 openat_enter]); [exact kern0_loaded|].
  vm_compute. reflexivity.
Defined.

Lemma thread_isolation_witness :
  hlookup (k_inflight (bpf_run 42 kern0 [HEnter task7 openat_enter])) (tk_pid_tgid task42)
  = hlookup (k_inflight kern0) (tk_pid_tgid task42).
Proof.
  apply (thread_isolation 42 kern0 [HEnter task7 openat_enter] (tk_pid_tgid task42)).
  constructor; [vm_compute; discriminate|constructor].
Defined.

Lemma call_reported_witness :
  let k1 := bpf_run 42 kern0 [HEnter task42 openat_enter; HEnter task7 openat_enter] in
  let k2 := bpf_step 42 k1 (HExit task42 openat_exit) in
  reported k2 = reported k1 ++ [event_of (get_current_pid_tgid task42) (enter_record task42 openat_enter)
                             (sint 64 (rc_arg1 openat_exit))] /\
  hlookup (k_inflight k2) (get_current_pid_tgid task42) = None.
Proof.
  apply (call_reported 42 kern0 task42 openat_enter [HEnter task7 openat_enter] task42 openat_exit).
  - vm_compute. reflexivity.
  - reflexivity.
  - constructor; [vm_compute; discriminate|constructor].
  - vm_compute. lia.
  - vm_compute. by eexists.
Defined.

Lemma enter_record_string_witness :
  let s := enter_record task42 openat_enter in
  es_str_len s = 0 \/
  exists p str, p <> 0 /\
    (p = pt_reg openat_enter 1 /\ (es_syscall_id s = NR_OPENAT \/ es_syscall_id s = NR_OPENAT2) \/
     p = pt_reg openat_enter 0 /\ es_syscall_id s = NR_EXECVE) /\
    cstr (es_str s) = Some str /\ es_str_len s = Z.of_nat (S (length str)) /\
    user_string task42 p SYSCALL_STR_LEN str.
Proof. exact (enter_record_string task42 openat_enter). Defined.

(** connect with an AF_INET address at 8192. *)
Definition task_sock : task :=
  Task (42 * 2 ^ 32 + 43) 0 (B "app")
    (list_to_map (zip (Z.of_nat <$> seq 8192 16) [2; 0; 0; 80; 127; 0; 0; 1; 0; 0; 0; 0; 0; 0; 0; 0])).
Definition connect_enter : raw_ctx := RawCtx [5; 8192; 16; 0; 0; 0] 203.

Lemma enter_record_sockaddr_witness :
  let s := enter_record task_sock connect_enter in
  let a := 8192 in
  let len := 16 in
  es_sa_valid s = 0 \/
  es_sa_valid s = 1 /\ is_sock_call s /\ a <> 0 /\
  (es_sa_family s = AF_INET_VAL /\ 16 <= len /\
     user_bytes task_sock (a + 2) (le_bytes 2 (es_sa_port s)) /\
     user_bytes task_sock (a + 4) (le_bytes 4 (es_sa_addr4 s)) \/
   es_sa_family s = AF_INET6_VAL /\ 28 <= len /\
     user_bytes task_sock (a + 2) (le_bytes 2 (es_sa_port s)) /\
     user_bytes task_sock (a + 8) (es_sa_addr6 s) /\
     user_bytes task_sock (a + 24) (le_bytes 4 (es_sa_scope_id s))).
Proof. exact (enter_record_sockaddr task_sock connect_enter). Defined.

(** Two sendto calls that differ only in the destination address. *)
Lemma sendto_ignores_dest_addr_witness :
  let s := enter_record task_sock (RawCtx [5; 8192; 16; 0; 0; 16] 206) in
  let s' := enter_record task_sock (RawCtx [5; 8192; 16; 0; 4096; 16] 206) in
  es_sa_valid s' = es_sa_valid s /\ es_sa_family s' = es_sa_family s /\
  es_sa_port s' = es_sa_port s /\ es_sa_addr4 s' = es_sa_addr4 s /\
  es_sa_addr6 s' = es_sa_addr6 s /\ es_sa_scope_id s' = es_sa_scope_id s.
Proof.
  apply (sendto_ignores_dest_addr task_sock).
  - vm_compute. reflexivity.
  - reflexivity.
  - intros i Hi. unfold pt_reg, rc_regs. f_equal. do 6 (destruct i as [|i]; [done|]). by destruct i.
Defined.

(** ** The printing half *)

Lemma syscall_name_printed_witness :
  syscall_name 56 = B "sys_openat" /\ B "sys_openat" = B "sys_" ++ strip_sys (syscall_name 56).
Proof.
  apply (syscall_name_printed 56 "sys_openat").
  apply (bool_decide_unpack _). vm_compute. exact I.
Defined.

Lemma openat_flags_exact_witness :
  exists buf', format_openat_flags 524288 (junk7 256) 256 = Some buf' /\ length buf' = 256%nat /\
    cstr buf' = Some (flags_text 524288) /\ (length (flags_text 524288) <= 108)%nat.
Proof. exact (openat_flags_exact 524288 (junk7 256) eq_refl). Defined.

Lemma dsync_prints_sync_witness :
  exists buf' pre post, format_openat_flags 4096 (junk7 256) 256 = Some buf' /\
    cstr buf' = Some (pre ++ B "|O_DSYNC|O_SYNC" ++ post).
Proof. exact (dsync_prints_sync 4096 (junk7 256) eq_refl eq_refl). Defined.

Lemma handle_event_line_witness :
  exists line, handle_event junk7 strerror_msg ntop_any record0 = Some line /\
    event_line strerror_msg ntop_any (decode_event record0) = Some line /\
    ((length (strerror_msg (sint 32 (- ev_ret (decode_event record0)))) <= 107)%nat ->
     full_line strerror_msg ntop_any (decode_event record0) = Some line).
Proof.
  apply (handle_event_line junk7 junk7_length strerror_msg ntop_any strerror_msg_text
    strerror_msg_fits ntop_any_text4 ntop_any_text6); apply record0_good.
Defined.

Lemma every_report_prints_witness :
  Forall (fun m => exists e line, completed_in 42 hits0 e /\
            event_line strerror_msg ntop_any e = Some line /\
            handle_event junk7 strerror_msg ntop_any m = Some line)
    (rb_records (k_events (bpf_run 42 kern0 hits0))).
Proof.
  apply (every_report_prints junk7 junk7_length strerror_msg ntop_any strerror_msg_text
    strerror_msg_fits ntop_any_text4 ntop_any_text6); [exact kern0_loaded|].
  intros t c Hin. unfold hits0 in Hin. rewrite !elem_of_cons in Hin.
  destruct Hin as [?|[?|[[= -> ->]|Hin]]]; [done..|vm_compute; discriminate|inversion Hin].
Defined.

(** ** Finding the process *)

Lemma parse_pid_exact_witness : parse_pid (B "  +0042") = Some 42 <-> is_pid_text (B "  +0042") 42.
Proof. apply (parse_pid_exact (B "  +0042") 42). apply (bool_decide_unpack _). vm_compute. exact I. Defined.

Lemma parse_pid_roundtrip_witness : format (B "%d") [AInt 0 42] ≫= parse_pid = Some 42.
Proof. apply (parse_pid_roundtrip 42). unfold INT_MAX. lia. Defined.

Lemma process_name_match_exact_witness :
  exists b, process_name_match (B "app") (B "app:sub") = Some b /\
    (b = true <-> name_matches (B "app") (B "app:sub")).
Proof.
  apply (process_name_match_exact (B "app") (B "app:sub")); apply (bool_decide_unpack _); vm_compute; exact I.
Defined.

Lemma find_pid_by_name_first_witness :
  exists r, find_pid_by_name proc42 (junk7 64) (B "app") (junk7 256) (junk7 512) = Some r /\
    first_match proc42 (B "app") [B "."; B "self"; B "7"; B "42"] r.
Proof.
  apply (find_pid_by_name_first proc42 (junk7 64) (B "app") (junk7 256) (junk7 512));
    [reflexivity..|]. apply (bool_decide_unpack _). vm_compute. exact I.
Defined.

(** ** A run of the command on process 42, ended by a signal after 40 calls that
    interrupts the poll *)

#[local] Instance env42 : Env := env_ok [record0] (- EINTR) 40.
#[local] Instance env42_laws : EnvLaws :=
  env_ok_laws [record0] (- EINTR) 40 ltac:(simpl; lia) ltac:(by vm_compute).
#[local] Instance env42_records : RecordLaws good_record :=
  env_ok_records good_record [record0] (- EINTR) 40
    (proj2 (Forall_cons _ record0 []) (conj record0_good (proj2 (Forall_nil _) I))).

Definition argv42 : list bytes := [B "libbpfstrace"; B "42"].

Lemma argv42_text : Forall nonul argv42.
Proof. apply (bool_decide_unpack _). vm_compute. exact I. Defined.

Definition final42 : hstate :=
  match main junk7 strerror_msg ntop_any 41 argv42 hs_init with Done _ st => st | _ => hs_init end.

Lemma main_returns_witness :
  exists status st', main junk7 strerror_msg ntop_any 41 argv42 hs_init = Done status st' /\
    (status = 0 \/ status = 1).
Proof.
  apply (main_returns junk7 junk7_length strerror_msg ntop_any strerror_msg_text strerror_msg_fits
    ntop_any_text4 ntop_any_text6 40 41 argv42); [done|exact argv42_text| |lia].
  intros h Hh. apply Nat.leb_le. exact Hh.
Defined.

Lemma main_releases_all_witness : exists t, usage_of (hs_log final42) = Some (Usage ∅ t Closed).
Proof.
  apply (main_releases_all junk7 junk7_length strerror_msg ntop_any strerror_msg_text strerror_msg_fits
    ntop_any_text4 ntop_any_text6 41 argv42 1); [done|exact argv42_text|].
  vm_compute. reflexivity.
Defined.

Definition skel42 : bpf_object_skeleton :=
  Skeleton 2 "libbpfstrace_bpf" 3 3 skel_maps 2 4 skel_progs elf_size.

Lemma main_traces_target_witness :
  exists u arg, usage_of (take 10 (hs_log final42)) = Some u /\ argv42 !! 1%nat = Some arg /\
    length argv42 = 2%nat /\ 0 < u_target u /\ chosen (hs_log final42) arg (u_target u).
Proof.
  apply (main_traces_target junk7 junk7_length strerror_msg ntop_any strerror_msg_text
    strerror_msg_fits ntop_any_text4 ntop_any_text6 41 argv42 1 final42
    (take 10 (hs_log final42)) skel42 0 (drop 11 (hs_log final42)));
    [done|exact argv42_text|vm_compute; reflexivity|vm_compute; reflexivity].
Defined.

Lemma main_prints_records_witness :
  exists pre lines t, stdout_of (hs_log final42) = pre ++ mjoin lines /\ preamble (B "42") t pre /\
    Forall2 (fun data l => event_line strerror_msg ntop_any (decode_event data) = Some l)
      (delivered (hs_log final42)) lines.
Proof.
  apply (main_prints_records junk7 junk7_length strerror_msg ntop_any strerror_msg_text
    strerror_msg_fits ntop_any_text4 ntop_any_text6 41 (B "libbpfstrace") (B "42") 1);
    [apply (bool_decide_unpack _); vm_compute; exact I..|]. vm_compute. reflexivity.
Defined.

Lemma exit_status_of_last_poll_witness :
  last (fst <$> polls (hs_log final42)) = Some (- EINTR) /\ (1 = 0 <-> - EINTR = 0).
Proof.
  split; [vm_compute; reflexivity|].
  apply (exit_status_of_last_poll junk7 junk7_length strerror_msg ntop_any strerror_msg_text
    strerror_msg_fits ntop_any_text4 ntop_any_text6 41 argv42 1 final42 (- EINTR));
    [done|exact argv42_text|vm_compute; reflexivity|vm_compute; reflexivity].
Defined.

Lemma bpf_open_owns_witness :
  exists r st', bpf_open hs_init = Done r st' /\
    match r with
    | Some o => exists s live, owned o s live /\ usage_of (hs_log st') = Some (Usage live 0 Opened)
    | None => usage_of (hs_log st') = Some unused
    end.
Proof. exact bpf_open_owns. Defined.

Lemma object_programs_terminate_witness :
  exists sec code, object_program elf_bytes (B "handle_sys_exit") = Some (sec, code) /\
    forall pcs, path code 0 pcs -> (length pcs < length code)%nat /\
      (succs code (List.last pcs 0%nat) = [] ->
       exists i, code !! List.last pcs 0%nat = Some i /\ is_exit i = true).
Proof.
  apply (object_programs_terminate
    (ProgSkeleton "handle_sys_exit" "progs.handle_sys_exit" "links.handle_sys_exit")).
  unfold skel_progs. rewrite !elem_of_cons. right. left. reflexivity.
Defined.
