(* ===== verification/ObjWitness.v ===== *)
(** * The theorems about the compiled object and the wait, at concrete inputs *)

From stdpp Require Import base list gmap strings.
From Stdlib Require Import ZArith Lia.
From S2P Require Import Prelude CLib Printf Layout BpfIface StraceTypes StraceBpf StraceTrace.
From S2P Require Import StraceFmt StraceFmtProps StraceOutput StraceProc.
From S2P Require Import ElfBlob ElfObject BpfInsn BpfMachine ObjMem ObjExec ObjTrace.
From S2P Require Import Host PollLoop Timeline StraceMain StraceRun StraceLive StraceSystem Examples.

Local Open Scope string_scope.
Local Open Scope list_scope.
Local Open Scope Z_scope.

Import SmallKernel SmallMachine.

(** ** The compiled programs: an openat of process 42 *)

Lemma object_enter_correct_witness :
  exec_program elf_bytes (B "handle_sys_enter") 42 ktask42 65536 56 junk_stack okern0 =
    let '(k', r) := handle_sys_enter (H0 := typed_view) 42 ktask42 (tp_ctx ktask42 65536 56) okern0 in
    BpfMachine.Exited r k'.
Proof.
  apply (object_enter_correct 42 ktask42 65536 56 junk_stack okern0);
    [unfold is_sint; lia|unfold is_uint; lia|unfold is_uint; lia|reflexivity].
Defined.

(** The kernel with the entry of the call. *)
Definition entry43 : bytes :=
  Eval vm_compute in encode_enter (enter_record ktask42 (tp_ctx ktask42 65536 56)).

Definition okern1 : kern (hmap bytes) ring :=
  Kern (HMap 4 {[ tk_pid_tgid task42 := entry43 ]}) (k_events okern0).

(** It is the state after the entry program; the exit program then reports. *)
Example okern1_entered :
  object_run 42 okern0 [ObjectHit true ktask42 65536 56 junk_stack] = Some okern1.
Proof. vm_compute. reflexivity. Qed.

Example okern1_reports :
  length (rb_records (k_events (handle_sys_exit (H0 := typed_view) 42 ktask42 (tp_ctx ktask42 65536 3) okern1).1)) = 1%nat.
Proof. vm_compute. reflexivity. Qed.

Lemma object_exit_correct_witness :
  exec_program elf_bytes (B "handle_sys_exit") 42 ktask42 65536 3 junk_stack okern1 =
    let '(k', r) := handle_sys_exit (H0 := typed_view) 42 ktask42 (tp_ctx ktask42 65536 3) okern1 in
    BpfMachine.Exited r k'.
Proof.
  apply (object_exit_correct 42 ktask42 65536 3 junk_stack okern1);
    [unfold is_sint; lia|unfold is_uint; lia|reflexivity|]. intros k v Hv.
  change (({[ tk_pid_tgid task42 := entry43 ]} : gmap Z bytes) !! k = Some v) in Hv.
  apply lookup_singleton_Some in Hv as [_ <-]. split; [reflexivity|].
  unfold entry43. repeat (apply Forall_cons; split; [unfold is_byte; lia|]). constructor.
Defined.

Lemma object_run_refines_witness :
  exists k' tr, object_run 42 okern0 ohits0 = Some k' /\
    tracks 42 4 fresh_tracker (object_hits 42 okern0 ohits0) tr /\
    (forall id, hlookup (k_inflight k') id = encode_enter <$> open_calls tr !! id) /\
    reported k' = reports tr.
Proof. exact (object_run_refines 42 ltac:(unfold is_sint; lia) okern0 ohits0 okern0_loaded ohits0_ok). Defined.

Lemma object_reports_print_witness :
  exists k', object_run 42 okern0 ohits0 = Some k' /\
    Forall (prints_call junk7 strerror_msg ntop_any 42 (source_hit <$> ohits0))
      (rb_records (k_events k')).
Proof.
  apply (object_reports_print 42 ltac:(unfold is_sint; lia) junk7 junk7_length strerror_msg ntop_any
    strerror_msg_text strerror_msg_fits ntop_any_text4 ntop_any_text6 okern0 ohits0
    okern0_loaded ohits0_ok).
  repeat constructor; vm_compute; discriminate.
Defined.

(** ** The encoding of instructions *)

Definition sample_prog : list instr :=
  [IAlu true BPF_MOV 6 (Reg 1); ILdx BPF_DW 1 6 8; ILdImm64 2 1 5; IJmp false BPF_JSGT 1 (Imm (-2)) 1;
   IEnd BPF_TO_BE 1 16; IAtomic BPF_DW (AtAdd true) 10 1 (-8); ILdAbs BPF_H 12; ICallRel 3; ICall 14; IExit].

Lemma disassemble_assemble_witness :
  disassemble (assemble sample_prog) = Some (concat (slots_of <$> sample_prog)).
Proof.
  apply (disassemble_assemble sample_prog).
  repeat constructor; simpl; unfold is_reg, is_uint, is_sint; lia.
Defined.

(** ** A process that appears after 8 calls, a signal after 40 *)

Definition no_proc : proc_snapshot := {| ps_dir := Some [B "self"]; ps_file _ := None |}.

#[local] Instance env_late : Env := {|
  env_reply h c :=
    match c return reply c with
    | CProc => if (length h <? 8)%nat then no_proc else proc42
    | c => env_reply (Env := env_ok [] 0 40) h c
    end;
  env_signal h := (40 <=? length h)%nat;
|}.

#[local] Instance env_late_laws : EnvLaws.
Proof.
  destruct (env_ok_laws [] 0 40 ltac:(simpl; lia) ltac:(unfold is_sint; lia)) as [Hf Hi He].
  split; intros h; [intros u c Hu; pose proof (Hf h u c Hu)|intros c; pose proof (Hi h c)|intros c; pose proof (He h c)];
    by destruct c.
Qed.

#[local] Instance env_late_records : RecordLaws good_record.
Proof.
  destruct (env_ok_records good_record [] 0 40 ltac:(constructor)) as [Hr]. split. intros h rb t. apply Hr.
Qed.

Lemma proc42_shows : shows proc42 (B "app").
Proof.
  destruct (find_pid_spec proc42 (junk7 64) (B "app") (junk7 256) (junk7 512)) as (r & Hr & Hm);
    [apply junk7_length..|apply (bool_decide_unpack _); vm_compute; done|].
  vm_compute in Hr. injection Hr as <-. destruct Hm as (b & d & a & He & Hd & _).
  eexists _, d, 42. split_and!; [reflexivity| |exact Hd]. rewrite He. apply elem_of_app. right. constructor.
Qed.

Lemma waiting_ends_witness :
  exists status st' v,
    main junk7 strerror_msg ntop_any 41 [B "libbpfstrace"; B "app"] hs_init = Done status st' /\
    found_in (hs_log st') (B "app") v /\ announced (B "app") v (stdout_of (hs_log st')).
Proof.
  apply (waiting_ends junk7 junk7_length strerror_msg ntop_any strerror_msg_text strerror_msg_fits
    ntop_any_text4 ntop_any_text6 (B "app") ltac:(apply (bool_decide_unpack _); vm_compute; exact I) 8) with (N := 40%nat).
  - intros h Hh. cbn [env_reply env_late]. destruct (Nat.ltb_spec (length h) 8); [lia|exact proc42_shows].
  - intros h Hh. apply Nat.leb_gt. lia.
  - vm_compute. reflexivity.
  - intros h Hh. apply Nat.leb_le. exact Hh.
  - lia.
Defined.

(** ** The whole tool: the call of process 42 while the command polls *)

(** The two hits come after the first 15 calls of the command. *)
Definition hits42 (h : list event) : list (object_hit ktask) :=
  if (length h =? 15)%nat then ohits0 else [].

(** Polls deliver what is in the ring buffer. *)
Definition ring42 (h : list event) : list bytes :=
  match kern_at okern0 hits42 h with Some k => rb_records (k_events k) | None => [] end.

Definition env_sys : Env := env_polls ring42 17.

Lemma sys_kernel : KernelLaws (H3 := env_sys) okern0 hits42.
Proof.
  split.
  - exact okern0_loaded.
  - intros h. unfold hits42. destruct (_ =? _)%nat; [|constructor].
    eapply Forall_and. split; [exact ohits0_ok|]. repeat constructor; vm_compute; discriminate.
  - intros h k rb ms Hk. exists (length (ring42 h)). cbn [env_reply env_sys env_polls snd]. unfold ring42. rewrite Hk.
    by rewrite firstn_all.
Qed.

Definition sys_outcome : Host.outcome Z :=
  main (H := env_sys) junk7 strerror_msg ntop_any 18 [B "libbpfstrace"; B "42"] hs_init.

(** The start message and the line of the call. *)
Example sys_output :
  stdout_of (hs_log (final_state sys_outcome)) =
  B "libbpfstrace started, tracing pid=42" ++ [10] ++
  B "pid=42 tid=43 comm=app openat(dfd=-100, pathname=`/etc/hosts`, flags=O_RDONLY|O_CLOEXEC, mode=0) = 3 [id=56]" ++ [10].
Proof. vm_compute. reflexivity. Qed.

Lemma strace_system_witness :
  exists status st',
    main (H := env_sys) junk7 strerror_msg ntop_any 18 [B "libbpfstrace"; B "42"] hs_init = Done status st' /\
    let h := hs_log st' in
    exists t k tr printed pre lines p, kern_at okern0 hits42 h = Some k /\
      (all_seen okern0 hits42 h).*1 = source_hit <$> all_hits hits42 h /\
      tracks t 4 fresh_tracker (all_seen okern0 hits42 h) tr /\
      (all_hits hits42 h = [] \/ chosen h (B "42") t) /\
      reports tr = printed ++ reported k /\
      stdout_of h = pre ++ mjoin lines /\ preamble (B "42") p pre /\
      Forall2 (fun e l => event_line strerror_msg ntop_any e = Some l) printed lines.
Proof.
  apply (strace_system (H3 := env_sys) okern0 hits42 (H4 := sys_kernel) (H5 := env_polls_laws ring42 17)
    junk7 junk7_length strerror_msg ntop_any strerror_msg_text strerror_msg_fits
    ntop_any_text4 ntop_any_text6 17 18 (B "libbpfstrace") (B "42")).
  - apply (bool_decide_unpack _). vm_compute. exact I.
  - apply (bool_decide_unpack _). vm_compute. exact I.
  - intros h Hh. apply Nat.leb_le. exact Hh.
  - lia.
Defined.
