(* ===== verification/LoaderWitness.v ===== *)
(** * The theorems about libbpfso and libbpfapp at concrete inputs *)

From stdpp Require Import base list gmap strings.
From Stdlib Require Import ZArith Lia.
From S2P Require Import Prelude CLib Printf Layout BpfIface Uapi StraceTypes StraceBpf SoTrace.
From S2P Require Import StraceProc Host PollLoop Timeline SoMain SoSystem AppTrace AppMain Examples.

Local Open Scope string_scope.
Local Open Scope list_scope.
Local Open Scope Z_scope.

Import SmallKernel.

(** A failed read of these tasks leaves its destination alone. *)
Lemma task_name_clear (t : task) a : name_clear t a.
Proof.
  unfold name_clear. change FILENAME_LEN with (S 255). cbn [probe_read_user_str task_ops].
  destruct (read_str (tk_mem t) a 255); [|done]. intros Hr. lia.
Qed.

Definition so_record : bytes := so_fill_event task42 4096 (replicate so_event_size 170).

Lemma so_record_good : so_good_record so_record.
Proof.
  destruct (so_fill_event_holds task42 4096 (replicate so_event_size 170)) as (c & Hi & Hh);
    [apply length_replicate|apply task_name_clear|].
  exists c. split; [|done]. destruct Hi as [-> _]. apply sint_range. lia.
Qed.

#[local] Instance so_env : Env := env_ok [so_record] 0 30.
#[local] Instance so_env_laws : EnvLaws :=
  env_ok_laws [so_record] 0 30 ltac:(simpl; lia) ltac:(by vm_compute).
#[local] Instance so_env_records : RecordLaws so_good_record :=
  env_ok_records so_good_record [so_record] 0 30
    (proj2 (Forall_cons _ so_record []) (conj so_record_good (proj2 (Forall_nil _) I))).

Lemma new_ptr_pos h : new_ptr h <> 0.
Proof.
  unfold new_ptr. destruct (usage_of h); [|done].
  assert (forall l, 0 <= foldr Z.max 0 l) as Hp by (induction l; simpl; lia).
  specialize (Hp (elements (u_live u))). lia.
Qed.

Lemma so_main_ok_witness :
  exists status st' t banner lines, so_main strerror_msg 31 hs_init = Done status st' /\
    (status = 0 \/ status = 1) /\ usage_of (hs_log st') = Some (Usage ∅ t Closed) /\
    Forall2 (fun data l => so_handle_event data = Some l) (delivered (hs_log st')) lines /\
    (stdout_of (hs_log st') = mjoin lines \/
     stdout_of (hs_log st') = banner ++ mjoin lines /\
     format (B "Started uprobe on %s:android_dlopen_ext, Ctrl+C to exit" ++ [10])
       [AStr (B libdl_path)] = Some banner).
Proof.
  apply (so_main_ok strerror_msg 30 31).
  - intros h. apply new_ptr_pos.
  - intros h Hh. apply Nat.leb_gt. lia.
  - intros h Hh. apply Nat.leb_le. exact Hh.
  - lia.
Defined.

(** ** libbpfso as a whole: a call before the first poll, two after it *)

Definition so_hits (h : list event) : list (task * Z) :=
  if (length h =? 10)%nat then [(task42, 4096)]
  else if (length h =? 15)%nat then [(task42, 0); (task7, 1)] else [].

(** Polls deliver what is in the ring buffer. *)
Definition so_ring (h : list event) : list bytes :=
  match kern_at (Ring 1000 []) so_hits h with Some r => rb_records r | None => [] end.

Definition so_env_sys : Env := {|
  env_reply h c :=
    match c return reply c with
    | CPoll _ _ => let r := so_ring h in (sint 32 (Z.of_nat (length r)), r)
    | c => env_reply (Env := env_ok [] 0 40) h c
    end;
  env_signal h := (14 <=? length h)%nat;
|}.

Lemma so_sys_laws : EnvLaws (H := so_env_sys).
Proof.
  destruct (env_ok_laws [] 0 40 ltac:(simpl; lia) ltac:(unfold is_sint; lia)) as [Hf Hi He].
  split; intros h; [intros u c Hu; pose proof (Hf h u c Hu)|intros c; pose proof (Hi h c)|intros c; pose proof (He h c)];
    destruct c; try done. apply sint_range. lia.
Qed.

Lemma so_sys_ring : RingLaws (H2 := so_env_sys) (Ring 1000 []) so_hits.
Proof.
  split; [done|intros h; apply Forall_true; intros x; apply task_name_clear|]. intros h r rb ms Hr. exists (length (so_ring h)). cbn [env_reply so_env_sys snd].
  unfold so_ring. rewrite Hr. by rewrite firstn_all.
Qed.

Definition so_outcome : outcome Z := so_main (H := so_env_sys) strerror_msg 16 hs_init.

(** The banner and the line of the call; the third call is still in the ring
    buffer. *)
Example so_output :
  match so_outcome with
  | Done status st =>
      status = 0 /\ stdout_of (hs_log st) =
        B "Started uprobe on /system/lib64/libdl.so:android_dlopen_ext, Ctrl+C to exit" ++ [10] ++
        B "dlopen_ext called by pid 42 (app), filename: /etc/hosts" ++ [10] /\
      length (so_ring (hs_log st)) = 1%nat
  | _ => False
  end.
Proof. vm_compute. split_and!; reflexivity. Qed.

Lemma so_system_witness :
  exists status st', so_main (H := so_env_sys) strerror_msg 16 hs_init = Done status st' /\
    let h := hs_log st' in
    exists r printed waiting banner lines, kern_at (Ring 1000 []) so_hits h = Some r /\
      (all_seen (Ring 1000 []) so_hits h).*1 = all_hits so_hits h /\
      Forall2 (fun x c => info_of x.1.1 x.1.2 c)
        (filter (fun x => x.1.2 <> 0 /\ x.2 = true) (all_seen (Ring 1000 []) so_hits h)) (printed ++ waiting) /\
      Forall2 shows_call (rb_records r) waiting /\
      so_banner = Some banner /\ (stdout_of h = mjoin lines \/ stdout_of h = banner ++ mjoin lines) /\
      Forall2 (fun c l => info_line c = Some l) printed lines.
Proof.
  apply (so_system (H2 := so_env_sys) (H3 := so_sys_laws) strerror_msg (Ring 1000 []) so_hits
    (H4 := so_sys_ring) 14 16).
  - intros h. apply new_ptr_pos.
  - intros h Hh. apply Nat.leb_gt. lia.
  - intros h Hh. apply Nat.leb_le. exact Hh.
  - lia.
Defined.

(** A signal between the installation of the handlers and the first poll. *)
Lemma so_main_reads_uninitialised_witness :
  @so_main (env_ok [so_record] 0 8) strerror_msg 5 hs_init = Undefined.
Proof.
  apply (@so_main_reads_uninitialised (env_ok [so_record] 0 8) strerror_msg 5).
  - split; [|split]; intros; [reflexivity|apply new_ptr_pos..].
  - lia.
  - right. intros h Hh. apply Nat.leb_le. lia.
Defined.

Definition app_kern : app_state (hmap bytes) := AppState 99 (HMap 4 ∅).
Definition app_helpers : helpers := Helpers 1 2 42 4 0 6.

Lemma execve_map_restored_witness :
  hlookup (execs (app_run app_kern [(task42, app_helpers, 4096); (task7, app_helpers, 1)]).1) 43
  = hlookup (execs app_kern) 43.
Proof. exact (execve_map_restored [(task42, app_helpers, 4096); (task7, app_helpers, 1)] app_kern 43). Defined.

Lemma execve_reported_witness :
  exists e, filled task42 4096 e /\ terminated (get_field app_event_fields "comm" e) /\
    (sys_enter_execve task42 app_helpers 4096 app_kern).2
    = ("my pid is %d\n", [KInt (my_pid app_kern)])
      :: report task42 app_helpers (sint 32 (get_current_pid_tgid task42)) e.
Proof.
  apply (execve_reported task42 app_helpers 4096 app_kern); [reflexivity|vm_compute; lia].
Defined.

Lemma app_main_ok_witness :
  exists status st' t, app_main strerror_msg hs_init = Done status st' /\
    usage_of (hs_log st') = Some (Usage ∅ t Closed) /\
    (step_results (hs_log st') = [] /\ status = 1 \/
     exists r, last (step_results (hs_log st')) = Some r /\ status = - r).
Proof. exact (app_main_ok strerror_msg). Defined.
