(* ===== verification/ConcWitness.v ===== *)
(** * The theorems about several CPUs at concrete schedules

    Two threads of process 42 call openat at once on two CPUs.  A schedule is a
    list of moves; running it gives an execution of the step relation: of the
    operations of the source, and of the instructions of the compiled programs. *)

From stdpp Require Import base list gmap strings.
From Stdlib Require Import ZArith Lia.
From S2P Require Import Prelude CLib Layout BpfIface StraceTypes StraceBpf StraceTrace StraceConc.
From S2P Require Import StraceFmt StraceFmtProps StraceOutput StraceProc BpfMachine ObjMem ObjTrace ObjConc ConcOutput.
From S2P Require Import Host PollLoop Timeline StraceMain StraceRun StraceSystem ConcSystem Examples.

Local Open Scope string_scope.
Local Open Scope list_scope.
Local Open Scope Z_scope.

Import SmallKernel.

(** ** A ring buffer with slots *)

Record slot_ring := SlotRing { sr_cap : nat; sr_slots : list (option bytes); sr_taken : nat }.

#[local] Instance slot_ring_ops : BpfRingSlots slot_ring := {|
  cr_reserve c n :=
    if (length (sr_slots c) <? sr_cap c + sr_taken c)%nat
    then Some (length (sr_slots c), replicate n 170, SlotRing (sr_cap c) (sr_slots c ++ [None]) (sr_taken c)) else None;
  cr_submit c i rec := SlotRing (sr_cap c) (<[i := Some rec]> (sr_slots c)) (sr_taken c);
  cr_slots := sr_slots;
  cr_take c n := SlotRing (sr_cap c) (sr_slots c) (sr_taken c + n);
  cr_taken := sr_taken;
|}.

#[local] Instance slot_ring_laws : BpfRingSlotsLaws slot_ring.
Proof.
  split; [|done..]. intros c n i e c'. simpl. case_match; [|done]. intros [= <- <- <-].
  by rewrite length_replicate.
Qed.

(** ** Schedules *)

(** A hit starts its program; the program of a thread does its next operation,
    or leaves its CPU.  A move that is not possible does nothing. *)
Inductive move := MBegin (h : hit task) | MNext (id : Z).

Definition config : Type := cfg (hmap enter_state) slot_ring.

Definition do_move (g : config) (mv : move) : config * list (obs (hit task)) :=
  match mv with
  | MBegin h =>
      if (size (g_run g) <? 2)%nat then
        match g_run g !! hit_id h with
        | None => (Cfg (g_map g) (g_ring g) (<[hit_id h := ops_of 42 h]> (g_run g)), [Began h])
        | Some _ => (g, [])
        end
      else (g, [])
  | MNext id =>
      match g_run g !! id with
      | None => (g, [])
      | Some ORet => (Cfg (g_map g) (g_ring g) (delete id (g_run g)), [])
      | Some p =>
          match exec_op p (g_map g) (g_ring g) with
          | Some (p', m', c') => (Cfg m' c' (<[id := p']> (g_run g)), op_obs id p (g_ring g))
          | None => (g, [])
          end
      end
  end.

Definition do_moves (g : config) (mvs : list move) : config * list (obs (hit task)) :=
  foldl (fun '(g, hs) mv => let '(g, l) := do_move g mv in (g, hs ++ l)) (g, []) mvs.

Lemma do_move_step (g : config) mv :
  do_move g mv = (g, []) \/ cstep 42 2 g (do_move g mv).2 (do_move g mv).1.
Proof.
  destruct g as [m c run], mv as [h|id]; cbn [do_move g_map g_ring g_run].
  - destruct (Nat.ltb_spec (size run) 2); [|by left]. destruct (run !! hit_id h) eqn:E; [by left|right].
    by apply CBegin.
  - destruct (run !! id) as [p|] eqn:E; [|by left]. destruct p; try (right; by apply CEnd);
      (destruct (exec_op _ m c) as [[[p' m'] c']|] eqn:Ex; [right; by eapply COp|by left]).
Qed.

Lemma do_moves_reach (g : config) mvs : creach 42 2 g (do_moves g mvs).2 (do_moves g mvs).1.
Proof.
  induction mvs as [|mv mvs IH] using rev_ind; [constructor|]. unfold do_moves in *.
  rewrite foldl_app. destruct (foldl _ _ mvs) as [g1 hs]. simpl in *.
  pose proof (do_move_step g1 mv) as Hs. destruct (do_move g1 mv) as [g2 l]. simpl in *.
  destruct Hs as [[= -> ->]|Hs]; [by rewrite app_nil_r|by eapply CReachSnoc].
Qed.

(** ** Two calls at once *)

(** Thread 44 of process 42. *)
Definition task44 : task := Task (42 * 2 ^ 32 + 44) (1000 * 2 ^ 32 + 2000) (B "app") (tk_mem task42).

Definition cfg0 : config := Cfg (HMap 4 ∅) (SlotRing 8 [] 0) ∅.

Lemma cfg0_loaded : cfg_loaded 4 cfg0.
Proof. by split_and!. Qed.

Definition next43 : move := (MNext (tk_pid_tgid task42)).
Definition next44 : move := (MNext (tk_pid_tgid task44)).

(** Both enter, both exit, and the record reserved second is submitted first. *)
Definition schedule : list move :=
  [MBegin (HEnter task42 openat_enter); MBegin (HEnter task44 openat_enter);
   next44; next43; next43; next44; MBegin (HExit task42 openat_exit); MBegin (HExit task44 openat_exit);
   next43; next43; next44; next44; next44; next44].

Definition cfg1 : config := (do_moves cfg0 schedule).1.
Definition obs1 : list (obs (hit task)) := (do_moves cfg0 schedule).2.

(** Both programs are still in progress. *)
Example both_in_progress : size (g_run cfg1) = 2%nat.
Proof. vm_compute. reflexivity. Qed.

(** Then the consumer can take nothing, and both records after the first is
    submitted too. *)
Example first_blocks :
  ready (g_ring cfg1) = [] /\
  (fun e => (ev_pid e, ev_ret e)) <$>
    (decode_event <$> ready (g_ring (do_moves cfg1 [next43; next43]).1)) = [(43, 3); (44, 3)].
Proof. split; vm_compute; reflexivity. Qed.

Lemma conc_linearizable_witness :
  exists lin tr, tracks 42 (4 - 2) fresh_tracker lin tr /\
    (forall id, thread_hits id lin.*1 `prefix_of` thread_hits id (begun obs1)) /\ no_room lin = refused obs1 /\
    (decode_event <$> ready (g_ring cfg1)) `prefix_of` reports tr /\
    (forall id, g_run cfg1 !! id = None ->
       thread_hits id lin.*1 = thread_hits id (begun obs1) /\ hlookup (g_map cfg1) id = open_calls tr !! id) /\
    (g_run cfg1 = ∅ -> decode_event <$> ready (g_ring cfg1) = reports tr).
Proof. exact (conc_linearizable 42 4 2 cfg0 obs1 cfg1 cfg0_loaded (do_moves_reach cfg0 schedule)). Defined.

(** The same schedule until both records are submitted. *)
Definition schedule2 : list move := schedule ++ [next43; next43].
Definition cfg2 : config := (do_moves cfg0 schedule2).1.
Definition obs2 : list (obs (hit task)) := (do_moves cfg0 schedule2).2.

Lemma hits2_eq :
  begun obs2 = [HEnter task42 openat_enter; HEnter task44 openat_enter; HExit task42 openat_exit; HExit task44 openat_exit].
Proof. vm_compute. reflexivity. Qed.

Example both_records : length (ready (g_ring cfg2)) = 2%nat.
Proof. vm_compute. reflexivity. Qed.

(** ** The compiled programs *)

Import SmallMachine.

Definition ktask44 : ktask := KTask task44 (kt_mem ktask42).
Definition id43 : Z := tk_pid_tgid task42.
Definition id44 : Z := tk_pid_tgid task44.

(** Both enter and both exit, some instructions at a time; the program of the
    second thread exits first. *)
Definition xschedule : list (cpu_move ktask) :=
  Start (ObjectHit true ktask42 65536 56 junk_stack) :: replicate 50 (Exec id43) ++
  Start (ObjectHit true ktask44 65536 56 junk_stack) :: replicate 100 (Exec id44) ++
  replicate 228 (Exec id43) ++ replicate 228 (Exec id44) ++
  Start (ObjectHit false ktask42 65536 3 junk_stack) :: Start (ObjectHit false ktask44 65536 4 junk_stack) ::
  replicate 60 (Exec id43) ++ replicate 141 (Exec id44).

Definition xend : list (cpu_move ktask) := replicate 141 (Exec id43).

Definition xconfig : Type := xcfg ktask (hmap bytes) slot_ring.
Definition x0 : xconfig := XCfg (HMap 4 ∅) (SlotRing 8 [] 0) ∅.

Definition outcome_of (mvs : list (cpu_move ktask)) : xconfig * list (obs (object_hit ktask)) :=
  default (x0, []) (exec_moves 42 2 x0 mvs).

Definition x1 : xconfig := (outcome_of xschedule).1.
Definition xobs : list (obs (object_hit ktask)) := (outcome_of xschedule).2.

Lemma outcome_reach mvs : xreach 42 2 x0 (outcome_of mvs).2 (outcome_of mvs).1.
Proof.
  unfold outcome_of. destruct (exec_moves 42 2 x0 mvs) as [[x l]|] eqn:E; [|constructor].
  exact (exec_moves_reach 42 2 x0 [] x0 mvs x l (XReachNil _ _ _) E).
Qed.

Lemma xhits_eq :
  begun xobs = [ObjectHit true ktask42 65536 56 junk_stack; ObjectHit true ktask44 65536 56 junk_stack;
           ObjectHit false ktask42 65536 3 junk_stack; ObjectHit false ktask44 65536 4 junk_stack].
Proof. vm_compute. reflexivity. Qed.

Lemma x0_loaded : x_loaded 4 x0.
Proof. by split. Qed.

Lemma xhits_ok : Forall hit_ok (begun xobs).
Proof. rewrite xhits_eq. repeat constructor; done. Qed.

(** The first thread has its record reserved and not submitted; the second is
    done. *)
Example one_in_progress :
  size (x_run x1) = 1%nat /\ ready (x_ring x1) = [] /\
  (fun e => (ev_pid e, ev_ret e)) <$>
    (decode_event <$> ready (x_ring (outcome_of (xschedule ++ xend)).1)) = [(43, 3); (44, 4)].
Proof. split_and!; vm_compute; reflexivity. Qed.

(** With a ring buffer of one record the second reservation is refused: that call
    is the one not reported. *)
Definition xsmall : option (xconfig * list (obs (object_hit ktask))) :=
  exec_moves 42 2 (XCfg (HMap 4 ∅) (SlotRing 1 [] 0) ∅) (xschedule ++ xend).

Example second_refused :
  (fun '(x, os) => (refused os, (fun e => (ev_pid e, ev_ret e)) <$> (decode_event <$> ready (x_ring x)))) <$> xsmall
  = Some ([id44], [(43, 3)]).
Proof. vm_compute. reflexivity. Qed.

Lemma object_conc_refines_witness :
  exists lin tr, tracks 42 (4 - 2) fresh_tracker lin tr /\
    (forall id, thread_hits id lin.*1 `prefix_of` thread_hits id (source_hit <$> begun xobs)) /\
    no_room lin = refused xobs /\
    (decode_event <$> ready (x_ring x1)) `prefix_of` reports tr /\
    (forall id, x_run x1 !! id = None ->
       thread_hits id lin.*1 = thread_hits id (source_hit <$> begun xobs) /\
       hlookup (x_map x1) id = encode_enter <$> open_calls tr !! id) /\
    (x_run x1 = ∅ -> decode_event <$> ready (x_ring x1) = reports tr).
Proof.
  exact (object_conc_refines 42 2 ltac:(unfold is_sint; lia) 4 x0 xobs x1 x0_loaded xhits_ok
    (outcome_reach xschedule)).
Defined.

Lemma object_conc_finishes_witness :
  (forall id th, x_run x1 !! id = Some th ->
     hit_step 42 (th_hit th) (load_shared (x_map x1) (x_ring x1) (th_mach th)) <> Stuck) /\
  (forall (n : nat) x'', nsteps (xquiet 42 2) n x1 x'' -> (n <= 228 * size (x_run x1))%nat) /\
  exists x'', rtc (xquiet 42 2) x1 x'' /\ x_run x'' = ∅.
Proof.
  exact (object_conc_finishes 42 2 ltac:(unfold is_sint; lia) 4 x0 xobs x1 x0_loaded xhits_ok
    (outcome_reach xschedule)).
Defined.

(** The same schedule until the first program exits too. *)
Definition x2 : xconfig := (outcome_of (xschedule ++ xend)).1.
Definition xobs2 : list (obs (object_hit ktask)) := (outcome_of (xschedule ++ xend)).2.

Lemma xobs2_eq : xobs2 = xobs.
Proof. vm_compute. reflexivity. Qed.

Lemma object_conc_prints_witness :
  Forall (fun m => length m = event_size /\ prints_call junk7 strerror_msg ntop_any 42 (source_hit <$> begun xobs2) m)
    (ready (x_ring x2)) /\
  length (ready (x_ring x2)) = 2%nat.
Proof.
  split; [|vm_compute; reflexivity].
  apply (object_conc_prints junk7 junk7_length strerror_msg ntop_any strerror_msg_text strerror_msg_fits
    ntop_any_text4 ntop_any_text6 42 2 4 x0 xobs2 x2 ltac:(unfold is_sint; lia) x0_loaded
    ltac:(rewrite xobs2_eq; exact xhits_ok) (outcome_reach (xschedule ++ xend))).
  rewrite xobs2_eq, xhits_eq. repeat constructor; vm_compute; discriminate.
Defined.

(** ** The whole tool: both calls while the command polls *)

(** The first poll comes while the first record is being written. *)
Definition moves42 (h : list event) : list (cpu_move ktask) :=
  if (length h =? 15)%nat then xschedule else if (length h =? 16)%nat then xend else [].

#[local] Instance producer2 : Producer (sys ktask (hmap bytes) slot_ring) (cpu_move ktask) (cpu_move ktask) := conc_producer 2.

Definition slots42 (h : list event) : list bytes :=
  match kern_at (sys0 x0) moves42 h with Some k => unread (x_ring (s_cfg k)) | None => [] end.

Definition env_conc : Env := env_polls slots42 18.

Lemma conc_kernel : ConcKernelLaws (H3 := env_conc) 4 2 x0 moves42.
Proof.
  split.
  - exact x0_loaded.
  - intros h. unfold moves42, xschedule, xend. repeat case_match; [|by apply Forall_replicate|constructor].
    repeat first [apply Forall_cons; split; [split; [by split|vm_compute; discriminate]|]
                 |apply Forall_app; split; [by apply Forall_replicate|]|by apply Forall_replicate].
  - intros h k rb ms Hk. exists (length (slots42 h)). cbn [env_reply env_conc env_polls snd]. unfold slots42.
    change (sys_producer 2) with producer2 in Hk. rewrite Hk. by rewrite firstn_all.
Qed.

Definition conc_outcome : Host.outcome Z :=
  main (H := env_conc) junk7 strerror_msg ntop_any 19 [B "libbpfstrace"; B "42"] hs_init.

(** The start message and the lines of the two calls. *)
Example conc_output :
  stdout_of (hs_log (final_state conc_outcome)) =
  B "libbpfstrace started, tracing pid=42" ++ [10] ++
  B "pid=42 tid=43 comm=app openat(dfd=-100, pathname=`/etc/hosts`, flags=O_RDONLY|O_CLOEXEC, mode=0) = 3 [id=56]" ++ [10] ++
  B "pid=42 tid=44 comm=app openat(dfd=-100, pathname=`/etc/hosts`, flags=O_RDONLY|O_CLOEXEC, mode=0) = 4 [id=56]" ++ [10].
Proof. vm_compute. reflexivity. Qed.

